(* ===== verification/_CoqProject ===== *)
-Q . S2P
Prelude.v
NfcWords.v
Data.v
Machine.v
Guards.v
Ctrl.v
HwController.v
ChipOp.v
RetryTables.v
ChipEnv.v
NewNand.v
PageStore.v
Recovery.v
UbootEnv.v
Keys.v
PhyDev.v
Boot.v
ChipInit.v
PhyStore.v
PhyLayout.v
Uboot.v
FactoryScan.v
Driver.v
LogicData.v
Ntd.v
BlkDevs.v
Nftl.v
Probe.v
