(* ===== verification/Prelude.v ===== *)
(** * amlnf: a model of the Amlogic NAND driver and what holds of it.

    The driver runs a NAND flash behind the controller of a Meson 8b: from the
    registers of the controller up to the block devices of a Linux kernel.  The
    flash translation layer in the middle is an object file
    ([nftl/aml_nftl_core_20141222.o]); everything else is C, and is translated
    here function by function, under the names of the source.  This file is the
    library the others share: 32-bit integers, the monad, loops, weakest
    preconditions, and the relations an action can stay inside.

    ** The program, from below, and the files that model it

    - The controller.  [NfcWords]: the 32-bit words that are written to its
      command register ([include/hw_ctrl.h]).  [HwController]:
      [phy/hw_controller.c], chip selection, waiting, DMA and ECC.  The
      controller itself and the chips behind it are a parameter, the class
      [NandHw]: what a command, a read of a register or a delay does to them
      and, by DMA, to memory.  Every command is kept in a log ([w_log]).
    - The chip.  [ChipInit]: [phy/chip.c] and [phy/id_table.c], how chips are
      found.  [ChipOp]: [phy/chip_operation.c], pages are read, written and
      erased and blocks are called good or bad.  [RetryTables] and [NewNand]:
      [phy/new_nand.c], the vendors' read retry and SLC modes; they reach the
      chip operations through the pointers gathered in [ChipOp.hooks].
    - The metadata.  [ChipEnv]: [phy/chipenv.c], the items (bad block table,
      configuration, environment) in the reserved blocks.  It uses the chip
      operations through the interface [ChipOp.ChipOperation], as the source
      does through [struct chip_operation].  [PageStore]: the promise of those
      operations it relies on, and what follows from it.  [Recovery]: saves and
      boots one after the other, and saves that the power cuts short.
    - What is kept there.  [UbootEnv]: [dev/amlnf_env.c], a device file over one
      item of the metadata.  [Keys]: [dev/nandkey.c] and [dev/secure_storage.c],
      two more items, and the stubs the Makefile links in their place.
    - The boot loader.  [Boot]: [phy/boot_operation.c], four copies at the start
      of the flash and the page that tells the boot ROM how to read them.
    - The devices.  [PhyDev]: [dev/phydev.c], ranges of the flash that are read,
      written and erased.  [PhyLayout]: how the flash is cut into them.
      [PhyStore]: what they store.
    - The boot loader's build of the same files ([AML_NAND_UBOOT]).  [Uboot]: it
      writes the configuration that the kernel's build reads.  [FactoryScan]: it
      looks for the blocks the factory marked as bad.
    - [Driver]: [phy/amlnand_init.c], all of this brought up in order, with the
      chip operations tied to the bad block table, and sessions of calls.
    - [Guards]: [nfc_map.c], the module parameters, the list of partitions, the
      mapping of the controller.  [Ctrl]: [dev/amlnf_ctrl.c], the lock around
      the controller; one thread's view of it, and any number of threads as a
      step relation.
    - The logical layers.  [LogicData]: their structures.  [Ntd]: [ntd/aml_ntd*],
      physical devices and their partitions as numbered pages and blocks.
      [BlkDevs]: [ntd/aml_ntd_blkdevs.c], block devices with queues.  [Nftl]:
      [block/], between block devices and the translation layer, which is the
      class [Ftl].
    - [Probe]: [dev/amlnf_dev.c], where the two halves meet: the probe function,
      and sessions of everything the kernel asks of the driver.

    [Data] holds the structures of the driver and [Machine] its memory.

    ** How the code is modelled

    The state of the lower layers is [Data.world]: the structure
    [struct amlnand_chip], the module parameters, the lock, the log, the device
    behind the controller, a memory of allocated blocks, and the answers of the
    kernel still to come ([w_oracle]: whether an allocation or a registration
    succeeds).  The logical layers have [LogicData.kernel], which contains it.
    A C function is an action [M S A] on the state, which returns or faults: a
    NULL pointer, an access outside an allocation, a division by zero, a [BUG],
    or [OutOfFuel].  Structures that are passed about as bytes (pages, the
    tables, the configuration) are bytes in memory, others are records; integers
    are [Z] with the wrap-around of their type written out ([u8], [u32], [s32],
    ...).  A [goto] back is a round of a loop, a [goto] to a common exit is the
    call of a definition that is named after the label.

    Loops that count are [for_].  Others are [while_] with a number of rounds:
    where the code bounds them, the bound is computed from its variables and
    theorems say that it is never used up ([ChipEnv.check_info_terminates],
    [ChipEnv.save_info_terminates], [Boot.roomboot_terminates]; the predicate
    [bounded]).  Where the code polls hardware without a bound, or looks for good
    blocks that may never come, the number is the parameter [spin] and the
    theorems hold for every value of it; [HwController.wait_info_unbounded] says
    that no value is enough.  Saving the bad block table marks a block bad when
    it fails, which saves the table: the depth of that recursion is a parameter
    of [Driver.operation].

    ** What the theorems show

    - Safety of the data.  A driver loaded with [readonly] sends no command that
      programs or erases, whatever the kernel, the device files and the
      translation layer ask of it ([Probe.readonly_whole_driver]; the lower half
      alone, [Driver.readonly_never_programs]).  Devices do not overlap
      ([PhyLayout.add_device_laid_out]), nor do the views of the block devices
      ([Nftl.views_disjoint]), and a request stays inside its view
      ([Nftl.request_stays_in_view]).  A copy of an item goes to a free block
      ([ChipEnv.get_free_block_spec]); reserved pages of different blocks are
      different ([ChipOp.reserved_pages_apart]).
    - What is written is read back: a device ([PhyStore.nand_write_then_read]),
      an item ([PageStore.save_then_read]), a key ([Keys.key_write_then_read]),
      the environment's file against a
      file that is a list of bytes ([UbootEnv.uboot_env_read_refines],
      [UbootEnv.uboot_env_write_refines]); command words decode to what was
      encoded ([NfcWords.decode_word]), and the boot ROM is told how the boot
      loader was written ([Boot.boot_page_describes_copy]).  The boot loader's
      configuration passes its own test and is read by the kernel's build as it
      was meant ([Uboot.config_confirmed], [Uboot.config_read_by_kernel]).
    - Durability.  What was saved is found and loaded by the next boot, however
      often it was saved before ([Recovery.reboot_finds_saved]).  When the power
      goes during a save, complete copies stay on the flash
      ([Recovery.power_loss_keeps_copies]), but the boot after it takes the torn
      one when its first page was written ([Recovery.boot_after_power_loss]).
    - Concurrency: the device lock excludes and makes progress ([Ctrl.DeviceLock]);
      requests are answered once each and in order, against an abstract queue
      ([BlkDevs.requests_answered_in_order]).
    - Invariants of the tables of devices ([Ntd.ntd_table_invariant],
      [BlkDevs.add_dev_all_or_nothing]), of the structures that describe a chip
      ([ChipInit.get_flash_type_geometry], [ChipInit.chip_scan_selects]) and of
      the settings of the controller ([Boot.write_uboot_restores_settings]).
    - Functional specifications: ECC modes, waiting for chips, plane addresses,
      the bad block table, the scan for factory bad blocks against the list of
      marked blocks ([FactoryScan.factory_scan_spec]), the partition filter, the
      vendors' tables, which are never indexed out of range
      ([NewNand.retry_stays_in_tables]).
    - Errors: what failures leave behind ([Driver.configs_failure_frees],
      [Probe.refused_device_breaks_shutdown]), and where the code does not do
      what it means to; such a theorem states what it does.

    The theorems about a layer are proved against the class that describes the
    layer below ([NandHw], [ChipOperation] with [OpsRespect] and [OpsBounded],
    [PowerStore] and [PageStore], [ScanStore], [DevStore], [Ftl]); each file ends with an instance on which
    they are run.  Frames are proved once per operation: [respects R m] for a
    preorder [R] on states, collected in the hint database [respects].

    ** What is not modelled

    - The translation layer (an object file) and the kernel below the calls the
      driver makes.
    - Of the code under [AML_NAND_UBOOT], the branch of [amlnand_get_dev_configs]
      that makes a new bad block table, whose [amlnand_init_block_status] is not
      in the repository, and the registers and printing of the boot loader.  DMA
      polling and the interrupt of the ready line, which are not built.
    - [set_nand_core_clk], which hands clock settings to an empty macro; the
      sysfs files that print a message, [shims.c], and the open and close
      functions that return 0.
    - Messages, and the time delays take.

    [OpsBounded] is a promise about the chip operations that those of [ChipOp] do
    not keep for every controller: they wait for the info words of a DMA as long
    as it takes ([HwController.wait_info_unbounded]). *)
From Stdlib Require Export ZArith Lia List Bool.
From stdpp Require Export base list gmap strings.

Declare Scope nand_scope.
Delimit Scope nand_scope with nand.
Global Open Scope Z_scope.
Global Open Scope nand_scope.

(** ** Machine integers.
    The driver is built for 32-bit ARM: [unsigned char], [unsigned short] and
    [unsigned int] (and the vendor's [uint32 = unsigned long]) wrap modulo
    2^8, 2^16 and 2^32; a conversion to [int] keeps the low 32 bits and reads
    them as two's complement. *)
Definition wrap (w x : Z) : Z := x mod 2 ^ w.
Abbreviation u8 := (wrap 8).
Abbreviation u16 := (wrap 16).
Abbreviation u32 := (wrap 32).
Abbreviation u64 := (wrap 64).
Definition s32 (x : Z) : Z :=
  let y := u32 x in if y <? 2 ^ 31 then y else y - 2 ^ 32.

(** C's [a << b] and [a >> b] on [unsigned int], and [~a]. *)
Definition shl32 (a b : Z) : Z := u32 (Z.shiftl a b).
Definition not32 (a : Z) : Z := u32 (Z.lnot a).

(** C truth value. *)
Definition truthy (x : Z) : bool := negb (x =? 0).

Lemma truthy_cases x : (x = 0 /\ truthy x = false) \/ (x <> 0 /\ truthy x = true).
Proof. unfold truthy. destruct (Z.eqb_spec x 0); auto. Qed.

(** [ffs]: one plus the index of the least significant set bit, 0 for 0. *)
Fixpoint pos_ffs (p : positive) : Z :=
  match p with
  | xO q => 1 + pos_ffs q
  | _ => 1
  end.

Definition ffs (x : Z) : Z :=
  match x with
  | Z0 => 0
  | Zpos p | Zneg p => pos_ffs p
  end.

(** ** Faults and outcomes.
    What stops a run: [BUG()], a NULL or unallocated pointer, an access past
    the end of an allocation, a division by zero, freeing a pointer into the
    middle of an allocation, taking a mutex the same thread already holds, the
    power going while a chip works ([PowerOff]), and (for loops the source leaves
    unbounded) running out of fuel. *)
Inductive fault :=
  | BugHit
  | NullDeref
  | OutOfBounds
  | DivByZero
  | BadFree
  | Deadlock
  | PowerOff
  | OutOfFuel.

#[export] Instance fault_eq_dec : EqDecision fault.
Proof. solve_decision. Defined.

Inductive outcome (S A : Type) :=
  | Done (a : A) (s : S)
  | Fault (f : fault) (s : S).
Arguments Done {S A} _ _.
Arguments Fault {S A} _ _.

(** ** The monad: a state threaded through, and faults that stop the run. *)
Definition M (S A : Type) : Type := S -> outcome S A.

#[export] Instance M_ret {S} : MRet (M S) := fun A a s => Done a s.
#[export] Instance M_bind {S} : MBind (M S) := fun A B k m s =>
  match m s with
  | Done a s' => k a s'
  | Fault f s' => Fault f s'
  end.

Definition throw {S A} (f : fault) : M S A := fun s => Fault f s.
Definition gets {S A} (g : S -> A) : M S A := fun s => Done (g s) s.
Definition modify {S} (g : S -> S) : M S unit := fun s => Done tt (g s).
Definition when_ {S} (b : bool) (m : M S unit) : M S unit :=
  if b then m else mret tt.

(** ** Loops.
    The body of a C loop ends by going round again, by [break], or by leaving
    the function with a value ([return], or [goto] to its exit label). *)
Inductive ctl (L R : Type) :=
  | Next (l : L)
  | Break (l : L)
  | Return (r : R).
Arguments Next {L R} _.
Arguments Break {L R} _.
Arguments Return {L R} _.

(** [while (cond) body]; the loop variables are [l].  [inl l]: the loop ended
    by its condition or by [break]; [inr r]: the function left with [r]. *)
Fixpoint while_ {S L R} (fuel : nat) (cond : L -> bool)
    (body : L -> M S (ctl L R)) (l : L) : M S (L + R) :=
  if cond l then
    match fuel with
    | O => throw OutOfFuel
    | S fuel' =>
        c ← body l;
        match c with
        | Next l' => while_ fuel' cond body l'
        | Break l' => mret (inl l')
        | Return r => mret (inr r)
        end
    end
  else mret (inl l).

(** [do body while (cond)]. *)
Definition do_while {S L R} (fuel : nat) (body : L -> M S (ctl L R))
    (cond : L -> bool) (l : L) : M S (L + R) :=
  c ← body l;
  match c with
  | Next l' => while_ fuel cond body l'
  | Break l' => mret (inl l')
  | Return r => mret (inr r)
  end.

(** [for (i = a; i < a + n; i++) body], leaving early on [Return]. *)
Fixpoint for_ {S L R} (n : nat) (i : Z) (body : Z -> L -> M S (ctl L R))
    (l : L) : M S (L + R) :=
  match n with
  | O => mret (inl l)
  | S n' =>
      c ← body i l;
      match c with
      | Next l' => for_ n' (i + 1) body l'
      | Break l' => mret (inl l')
      | Return r => mret (inr r)
      end
  end.

(** ** Weakest preconditions.
    [wp m Q E s]: run from [s], the action ends in a value and state that
    satisfy [Q] or in a fault and state that satisfy [E].  Loops that run out
    of fuel are faults, so a [wp] with [E] false is total correctness. *)
Definition wp {S A} (m : M S A) (Q : A -> S -> Prop) (E : fault -> S -> Prop)
    (s : S) : Prop :=
  match m s with
  | Done a s' => Q a s'
  | Fault f s' => E f s'
  end.

(** No fault at all. *)
Definition noflt {S} : fault -> S -> Prop := fun _ _ => False.

Section Wp.
Context {S : Type}.

Lemma wp_ret {A} (a : A) Q E (s : S) : Q a s -> wp (mret a) Q E s.
Proof. done. Qed.

Lemma wp_bind {A B} (m : M S A) (k : A -> M S B) Q E s :
  wp m (fun a => wp (k a) Q E) E s -> wp (mbind k m) Q E s.
Proof. unfold wp, mbind, M_bind. by destruct (m s). Qed.

Lemma wp_bind_inv {A B} (m : M S A) (k : A -> M S B) Q E s :
  wp (mbind k m) Q E s -> wp m (fun a => wp (k a) Q E) E s.
Proof. unfold wp, mbind, M_bind. by destruct (m s). Qed.

Lemma wp_mono {A} (m : M S A) (Q Q' : A -> S -> Prop) (E E' : fault -> S -> Prop) s :
  wp m Q E s -> (forall a s', Q a s' -> Q' a s') ->
  (forall f s', E f s' -> E' f s') -> wp m Q' E' s.
Proof. unfold wp. destruct (m s); auto. Qed.

Lemma wp_gets {A} (g : S -> A) Q E s : Q (g s) s -> wp (gets g) Q E s.
Proof. done. Qed.

Lemma wp_modify (g : S -> S) Q E s : Q tt (g s) -> wp (modify g) Q E s.
Proof. done. Qed.

Lemma wp_throw {A} f (Q : A -> S -> Prop) E s : E f s -> wp (throw f) Q E s.
Proof. done. Qed.

Lemma wp_any {A} (m : M S A) s : wp m (fun _ _ => True) (fun _ _ => True) s.
Proof. unfold wp. by destruct (m s). Qed.

Lemma wp_done {A} (m : M S A) Q s :
  wp m Q noflt s -> exists a s', m s = Done a s' /\ Q a s'.
Proof. unfold wp. destruct (m s) as [a s'|]; [eauto | done]. Qed.

(** Loop rule: the invariant carries how many rounds may still be needed,
    so it yields termination within the fuel as well. *)
Lemma wp_while {L R} (I : nat -> L -> S -> Prop) fuel cond
    (body : L -> M S (ctl L R)) (Q : L + R -> S -> Prop) E l s :
  (forall n l s, I n l s -> cond l = false -> Q (inl l) s) ->
  (forall n l s, I n l s -> cond l = true ->
    exists n', n = Datatypes.S n' /\
      wp (body l) (fun c s' =>
        match c with
        | Next l' => I n' l' s'
        | Break l' => Q (inl l') s'
        | Return r => Q (inr r) s'
        end) E s) ->
  I fuel l s -> wp (while_ fuel cond body l) Q E s.
Proof.
  intros Hexit Hbody. revert l s.
  induction fuel as [|n IH]; intros l s HI; cbn; destruct (cond l) eqn:Hc;
    try (by apply wp_ret; eauto).
  - destruct (Hbody _ _ _ HI Hc) as (? & ? & _). discriminate.
  - destruct (Hbody _ _ _ HI Hc) as (n' & [= <-] & Hwp).
    apply wp_bind. eapply wp_mono; [exact Hwp | | done].
    intros [l'|l'|r] s' HQ; cbn; [by apply IH | by apply wp_ret | by apply wp_ret].
Qed.

(** The same without a bound on the rounds, where running out of fuel is
    among the faults allowed. *)
Lemma wp_while_keep {L R} (P : L -> S -> Prop) fuel cond
    (body : L -> M S (ctl L R)) (Q : L + R -> S -> Prop) (E : fault -> S -> Prop) l s :
  (forall l s, P l s -> cond l = false -> Q (inl l) s) ->
  (forall l s, P l s -> cond l = true ->
      wp (body l) (fun c s' =>
        match c with
        | Next l' => P l' s'
        | Break l' => Q (inl l') s'
        | Return r => Q (inr r) s'
        end) E s) ->
  (forall s, E OutOfFuel s) -> P l s -> wp (while_ fuel cond body l) Q E s.
Proof.
  intros Hexit Hbody HE. revert l s.
  induction fuel as [|n IH]; intros l s HP; cbn; destruct (cond l) eqn:Hc;
    try (by apply wp_ret; eauto); [by apply wp_throw|].
  apply wp_bind. eapply wp_mono; [by apply Hbody | | done].
  intros [l'|l'|r] s' HQ; cbn; [by apply IH | by apply wp_ret | by apply wp_ret].
Qed.

Lemma wp_for {L R} (I : nat -> Z -> L -> S -> Prop) n
    (body : Z -> L -> M S (ctl L R)) (Q : L + R -> S -> Prop) E i l s :
  (forall i l s, I 0%nat i l s -> Q (inl l) s) ->
  (forall m i l s, I (Datatypes.S m) i l s ->
      wp (body i l) (fun c s' =>
        match c with
        | Next l' => I m (i + 1) l' s'
        | Break l' => Q (inl l') s'
        | Return r => Q (inr r) s'
        end) E s) ->
  I n i l s -> wp (for_ n i body l) Q E s.
Proof.
  intros Hexit Hbody. revert i l s.
  induction n as [|m IH]; intros i l s HI; cbn.
  - by apply wp_ret, (Hexit i).
  - apply wp_bind. eapply wp_mono; [by apply Hbody | | done].
    intros [l'|l'|r] s' HQ; cbn; [by apply IH | by apply wp_ret | by apply wp_ret].
Qed.
End Wp.

(** ** Actions that respect a relation between initial and final states.
    [respects R m]: wherever [m] is run, and however it ends (also in a
    fault), the state it leaves is related to the one it started from.  For a
    preorder [R] this is closed under sequencing and loops, so it is proved
    once per operation and lifted through every caller by the hint database
    [respects]. *)
Definition respects {S A} (R : S -> S -> Prop) (m : M S A) : Prop :=
  forall s, wp m (fun _ => R s) (fun _ => R s) s.

Create HintDb respects.
#[export] Hint Variables Opaque : respects.
#[export] Hint Constants Opaque : respects.

Section Respects.
Context {S : Type} (R : S -> S -> Prop) `{!PreOrder R}.

Lemma respects_ret {A} (a : A) : respects R (mret (M := M S) a).
Proof. intros s. by apply wp_ret. Qed.

Lemma respects_throw {A} f : respects R (throw (S := S) (A := A) f).
Proof. intros s. by apply wp_throw. Qed.

Lemma respects_gets {A} (g : S -> A) : respects R (gets g).
Proof. intros s. by apply wp_gets. Qed.

Lemma respects_modify (g : S -> S) :
  (forall s, R s (g s)) -> respects R (modify g).
Proof. intros H s. by apply wp_modify. Qed.

Lemma respects_bind {A B} (m : M S A) (k : A -> M S B) :
  respects R m -> (forall a, respects R (k a)) -> respects R (mbind k m).
Proof.
  intros Hm Hk s. apply wp_bind.
  eapply wp_mono; [apply Hm | | done]. cbn. intros a s' HR.
  eapply wp_mono; [apply Hk | |]; cbn; intros; by etransitivity.
Qed.

Lemma respects_when b (m : M S unit) : respects R m -> respects R (when_ b m).
Proof. destruct b; [done | intros _; apply respects_ret]. Qed.

Lemma respects_while {L V} fuel cond (body : L -> M S (ctl L V)) l :
  (forall l, respects R (body l)) -> respects R (while_ fuel cond body l).
Proof.
  intros Hb. revert l. induction fuel as [|n IH]; intros l; cbn;
    destruct (cond l); try apply respects_ret; try apply respects_throw.
  apply respects_bind; [done|]. intros [l'|l'|r]; [done | apply respects_ret ..].
Qed.

Lemma respects_do_while {L V} fuel cond (body : L -> M S (ctl L V)) l :
  (forall l, respects R (body l)) -> respects R (do_while fuel body cond l).
Proof.
  intros Hb. unfold do_while. apply respects_bind; [done|].
  intros [l'|l'|r]; [by apply respects_while | apply respects_ret ..].
Qed.

Lemma respects_for {L V} n (body : Z -> L -> M S (ctl L V)) i l :
  (forall i l, respects R (body i l)) -> respects R (for_ n i body l).
Proof.
  intros Hb. revert i l. induction n as [|m IH]; intros i l; cbn;
    [apply respects_ret|].
  apply respects_bind; [done|]. intros [l'|l'|r]; [done | apply respects_ret ..].
Qed.
End Respects.

(** Walks through the body of an operation; what remains are its primitive
    steps, closed by the database. *)
Ltac respects_step :=
  match goal with
  | |- forall _, _ => intros ?
  | |- respects _ (mret _) => apply respects_ret
  | |- respects _ (throw _) => apply respects_throw
  | |- respects _ (gets _) => apply respects_gets
  | |- respects _ (when_ _ _) => apply respects_when
  | |- respects _ (while_ _ _ _ _) => apply respects_while
  | |- respects _ (do_while _ _ _ _) => apply respects_do_while
  | |- respects _ (for_ _ _ _ _) => apply respects_for
  | |- respects _ (mbind _ _) => apply respects_bind
  | |- respects _ (match ?x with _ => _ end) => destruct x
  | |- respects _ (let '(_, _) := ?x in _) => destruct x
  | |- respects _ _ => solve [eauto 3 with respects nocore]
  | |- PreOrder _ => apply _
  end.
Ltac solve_respects := repeat (progress cbn beta zeta || respects_step).

(** ** Actions that always end
    [runs R m]: from every state [m] ends without a fault, in a state related
    to the one it started from. *)
Definition runs {S A} (R : S -> S -> Prop) (m : M S A) : Prop :=
  forall s, wp m (fun _ => R s) noflt s.

Create HintDb runs.
#[export] Hint Variables Opaque : runs.
#[export] Hint Constants Opaque : runs.

Section Runs.
Context {S : Type} (R : S -> S -> Prop) `{!PreOrder R}.

Lemma runs_ret {A} (a : A) : runs R (mret (M := M S) a).
Proof. intros s. by apply wp_ret. Qed.
Lemma runs_gets {A} (g : S -> A) : runs R (gets g).
Proof. intros s. by apply wp_gets. Qed.
Lemma runs_modify (g : S -> S) : (forall s, R s (g s)) -> runs R (modify g).
Proof. intros H s. by apply wp_modify. Qed.
Lemma wp_runs {A} (m : M S A) (Q : A -> S -> Prop) E s :
  runs R m -> (forall a s', R s s' -> Q a s') -> wp m Q E s.
Proof. intros H HQ. eapply wp_mono; [apply H | exact HQ | by intros ? ? []]. Qed.
Lemma runs_bind {A B} (m : M S A) (k : A -> M S B) :
  runs R m -> (forall a, runs R (k a)) -> runs R (mbind k m).
Proof.
  intros Hm Hk s. apply wp_bind, (wp_runs m); [done|]. intros a s' HR.
  eapply wp_mono; [apply Hk | | done]. cbn. intros ? s''. by etransitivity.
Qed.
Lemma runs_when b (m : M S unit) : runs R m -> runs R (when_ b m).
Proof. destruct b; [done | intros _; apply runs_ret]. Qed.
Lemma runs_for {L V} n (body : Z -> L -> M S (ctl L V)) i l :
  (forall j l, i <= j < i + Z.of_nat n -> runs R (body j l)) -> runs R (for_ n i body l).
Proof.
  revert i l. induction n as [|m IH]; intros i l Hb; cbn; [apply runs_ret|].
  apply runs_bind; [apply Hb; lia|].
  intros [l'|l'|r]; [apply IH; intros; apply Hb; lia | apply runs_ret ..].
Qed.

(** A loop whose counter goes up to a limit. *)
Lemma runs_count {V} (limit : Z) fuel (body : Z -> M S (ctl Z V)) i :
  (forall i s, wp (body i) (fun c s' =>
     match c with Next i' => i' = i + 1 | _ => True end /\ R s s') noflt s) ->
  limit - i + 2 <= Z.of_nat fuel ->
  runs R (do_while fuel body (fun i => i - 1 <=? limit) i).
Proof.
  intros Hb Hf s. unfold do_while. apply wp_bind.
  eapply wp_mono; [apply Hb | | done]. intros [i'|i'|r] s' [Hi HR]; [|by apply wp_ret ..].
  subst i'. apply (wp_while (fun n i s' => limit - i + 2 <= Z.of_nat n /\ R s s')).
  - by intros n i' s'' [_ H] _.
  - intros n i' s'' [Hn Hs] Hc. destruct n as [|n]; [lia|]. exists n. split; [done|].
    eapply wp_mono; [apply Hb | | done]. intros [i''|i''|r] s3 [Hi Hs3];
      [split; [lia|]|..]; by etransitivity.
  - split; [lia | done].
Qed.
End Runs.

Ltac runs_step :=
  match goal with
  | |- forall _, _ => intros ?
  | |- runs _ (mret _) => apply runs_ret
  | |- runs _ (gets _) => apply runs_gets
  | |- runs _ (when_ _ _) => apply runs_when
  | |- runs _ (for_ _ _ _ _) => apply runs_for
  | |- runs _ (mbind _ _) => apply runs_bind
  | |- runs _ (match ?x with _ => _ end) => destruct x
  | |- runs _ _ => solve [eauto 3 with runs nocore]
  | |- PreOrder _ => apply _
  end.
Ltac solve_runs := repeat (progress cbn beta zeta || runs_step).

(** ** Actions that do not run out of fuel
    [bounded m]: whatever state [m] is run from, it does not stop for lack of
    fuel; for the loops this is what "the rounds allowed are enough" means. *)
Definition in_fuel {S} : fault -> S -> Prop := fun f _ => f <> OutOfFuel.
Definition bounded {S A} (m : M S A) : Prop := forall s, wp m (fun _ _ => True) in_fuel s.

Create HintDb bounded.
#[export] Hint Variables Opaque : bounded.
#[export] Hint Constants Opaque : bounded.

Section Bounded.
Context {S : Type}.

Lemma bounded_wp {A} (m : M S A) (Q : A -> S -> Prop) s :
  bounded m -> (forall a s', Q a s') -> wp m Q in_fuel s.
Proof. intros H HQ. eapply wp_mono; [apply H | intros; apply HQ | done]. Qed.
Lemma bounded_ret {A} (a : A) : bounded (mret (M := M S) a).
Proof. done. Qed.
Lemma bounded_throw {A} f : f <> OutOfFuel -> bounded (throw (S := S) (A := A) f).
Proof. intros H s. by apply wp_throw. Qed.
Lemma bounded_gets {A} (g : S -> A) : bounded (gets g).
Proof. done. Qed.
Lemma bounded_modify (g : S -> S) : bounded (modify g).
Proof. done. Qed.
Lemma bounded_bind {A B} (m : M S A) (k : A -> M S B) :
  bounded m -> (forall a, bounded (k a)) -> bounded (mbind k m).
Proof. intros Hm Hk s. apply wp_bind, bounded_wp; [done|]. intros a s'. apply Hk. Qed.
Lemma bounded_when b (m : M S unit) : bounded m -> bounded (when_ b m).
Proof. by destruct b. Qed.
Lemma bounded_for {L R} n (body : Z -> L -> M S (ctl L R)) i l :
  (forall i l, bounded (body i l)) -> bounded (for_ n i body l).
Proof.
  intros Hb. revert i l. induction n as [|n IH]; intros i l; cbn; [done|].
  apply bounded_bind; [done|]. by intros [l'|l'|r].
Qed.

(** A loop whose rounds make [meas] smaller. *)
Lemma bounded_while {L R} (meas : L -> nat) fuel cond (body : L -> M S (ctl L R)) l :
  (forall l, cond l = true -> (0 < meas l)%nat) ->
  (forall l s, cond l = true ->
     wp (body l) (fun c _ => match c with Next l' => (meas l' < meas l)%nat | _ => True end)
       in_fuel s) ->
  (meas l <= fuel)%nat -> bounded (while_ fuel cond body l).
Proof.
  intros Hpos Hb Hf s.
  apply (wp_while (fun n l _ => meas l <= n)%nat); [done | | done].
  intros n l' s' Hn Hc. destruct n as [|n]; [specialize (Hpos l' Hc); lia|].
  exists n. split; [done|]. eapply wp_mono; [by apply Hb | | done].
  intros [l''|l''|r] ? H; cbn; try done. lia.
Qed.
End Bounded.

(** A bounded action of which only the state is of no interest. *)
Lemma wp_bounded_bind {S A B} (m : M S A) (k : A -> M S B) Q s :
  bounded m -> (forall a s, wp (k a) Q in_fuel s) -> wp (mbind k m) Q in_fuel s.
Proof. intros H Hk. apply wp_bind, bounded_wp; [done|]. intros a s'. apply Hk. Qed.

Ltac bounded_step :=
  match goal with
  | |- forall _, _ => intros ?
  | |- bounded (mret _) => apply bounded_ret
  | |- bounded (throw _) => apply bounded_throw; discriminate
  | |- bounded (gets _) => apply bounded_gets
  | |- bounded (modify _) => apply bounded_modify
  | |- bounded (when_ _ _) => apply bounded_when
  | |- bounded (for_ _ _ _ _) => apply bounded_for
  | |- bounded (mbind _ _) => apply bounded_bind
  | |- bounded (match ?x with _ => _ end) => destruct x
  | |- bounded (let '(_, _) := ?x in _) => destruct x
  | |- bounded _ => solve [eauto 3 with bounded nocore]
  | |- wp (mret _) _ _ _ => apply wp_ret
  | |- wp (mbind _ _) _ in_fuel _ =>
      apply wp_bounded_bind; [solve [repeat (progress cbn beta zeta || bounded_step)] |]
  | |- wp (match ?x with _ => _ end) _ _ _ => destruct x eqn:?
  end.
Ltac solve_bounded := repeat (progress cbn beta zeta || bounded_step).

(** ** What an action can return
    [yields P m]: whatever [m] returns satisfies [P]; faults are left aside. *)
Definition yields {S A} (P : A -> Prop) (m : M S A) : Prop :=
  forall s, wp m (fun a _ => P a) (fun _ _ => True) s.

(** What a round of a loop whose function returns a [P] may end in. *)
Definition round_yields {L R} (P : R -> Prop) (c : ctl L R) : Prop :=
  match c with Return r => P r | _ => True end.
Definition loop_yields {L R} (P : R -> Prop) (r : L + R) : Prop :=
  match r with inr r => P r | inl _ => True end.

Section Yields.
Context {S : Type}.
Lemma yields_ret {A} (P : A -> Prop) a : P a -> yields (S := S) P (mret a).
Proof. by intros H s. Qed.
Lemma yields_throw {A} (P : A -> Prop) f : yields (S := S) P (throw f).
Proof. done. Qed.
Lemma yields_any {A} (m : M S A) : yields (fun _ => True) m.
Proof. intros s. unfold wp. by destruct (m s). Qed.
Lemma yields_bind {A B} (Q : A -> Prop) (P : B -> Prop) (m : M S A) (k : A -> M S B) :
  yields Q m -> (forall a, Q a -> yields P (k a)) -> yields P (mbind k m).
Proof.
  intros Hm Hk s. apply wp_bind. eapply wp_mono; [apply Hm | | done].
  cbn. intros a s' Ha. by apply Hk.
Qed.
(** The result of the first action does not matter. *)
Lemma yields_then {A B} (P : B -> Prop) (m : M S A) (k : A -> M S B) :
  (forall a, yields P (k a)) -> yields P (mbind k m).
Proof. intros H. apply (yields_bind (fun _ => True)); [apply yields_any | auto]. Qed.
Lemma yields_for {L R} (P : R -> Prop) n (body : Z -> L -> M S (ctl L R)) i l :
  (forall i l, yields (round_yields P) (body i l)) ->
  yields (loop_yields P) (for_ n i body l).
Proof.
  intros Hb. revert i l. induction n as [|n IH]; intros i l; [by intros s|]. cbn [for_].
  eapply yields_bind; [apply Hb|]. intros [l'|l'|r] Hr; [apply IH | by apply yields_ret ..].
Qed.
Lemma yields_while {L R} (P : R -> Prop) fuel cond (body : L -> M S (ctl L R)) l :
  (forall l, yields (round_yields P) (body l)) ->
  yields (loop_yields P) (while_ fuel cond body l).
Proof.
  intros Hb. revert l. induction fuel as [|n IH]; intros l; cbn; destruct (cond l);
    try (by apply yields_ret); [by apply yields_throw|].
  eapply yields_bind; [apply Hb|]. intros [l'|l'|r] Hr; [apply IH | by apply yields_ret ..].
Qed.
Lemma yields_do_while {L R} (P : R -> Prop) fuel cond (body : L -> M S (ctl L R)) l :
  (forall l, yields (round_yields P) (body l)) ->
  yields (loop_yields P) (do_while fuel body cond l).
Proof.
  intros Hb. unfold do_while. eapply yields_bind; [apply Hb|].
  intros [l'|l'|r] Hr; [by apply yields_while | by apply yields_ret ..].
Qed.
End Yields.
