(* ===== verification/NfcWords.v ===== *)
(** * NfcWords: the command words of the controller, [include/hw_ctrl.h].

    [nfc_cmd] has one constructor per [NFC_SEND_CMD_...] macro, with the
    macro's arguments; [word] is the 32-bit word the macro writes to
    [P_NAND_CMD].  [decode] reads a word back the way the fields are laid out,
    and [decode_word] shows that no field runs into another one. *)
From S2P Require Import Prelude.

(** ** Constants *)
Definition CE_NOT_SEL : Z := Z.shiftl 0xf 10.
Definition CLE : Z := Z.shiftl 0x5 14.
Definition ALE : Z := Z.shiftl 0x6 14.
Definition DWR : Z := Z.shiftl 0x4 14.
Definition DRD : Z := Z.shiftl 0x8 14.
Definition IDLE : Z := Z.shiftl 0xc 14.
Definition M2N : Z := Z.lor (Z.shiftl 2 20) (Z.shiftl 1 19).
Definition N2M : Z := Z.lor (Z.lor (Z.shiftl 1 17) (Z.shiftl 2 20)) (Z.shiftl 1 19).
Definition M2N_NORAN : Z := 0x00200000.
Definition N2M_NORAN : Z := 0x00220000.
Definition ADL : Z := Z.shiftl 3 20.
Definition ADH : Z := Z.lor (Z.shiftl 1 16) (Z.shiftl 3 20).
Definition AIL : Z := Z.lor (Z.shiftl 2 16) (Z.shiftl 3 20).
Definition AIH : Z := Z.lor (Z.shiftl 3 16) (Z.shiftl 3 20).
Definition SEED : Z := Z.lor (Z.shiftl 8 16) (Z.shiftl 3 20).
Definition SEED_OFFSET : Z := 0xc2.

(** The ECC modes of the Meson8 controller. *)
Definition NAND_ECC_NONE : Z := 0.
Definition NAND_ECC_BCH8 : Z := 1.
Definition NAND_ECC_BCH8_1K : Z := 2.
Definition NAND_ECC_BCH16_1K : Z := 3.
Definition NAND_ECC_BCH24_1K : Z := 3.
Definition NAND_ECC_BCH30_1K : Z := 4.
Definition NAND_ECC_BCH40_1K : Z := 5.
Definition NAND_ECC_BCH50_1K : Z := 6.
Definition NAND_ECC_BCH60_1K : Z := 7.
Definition NAND_ECC_BCH_SHORT : Z := 8.

(** ** Commands and their words *)
Inductive nfc_cmd :=
  | Idle (ce time : Z)
  | Cle (ce cmd : Z)
  | Ale (ce addr : Z)
  | Dwr (ce data : Z)
  | Drd (ce size : Z)
  | Adl (addr : Z)
  | Adh (addr : Z)
  | Ail (addr : Z)
  | Aih (addr : Z)
  | Seed (seed : Z)
  | M2n (ran ecc sho pgsz pag : Z)
  | N2m (ran ecc sho pgsz pag : Z)
  | M2nRaw (ran len : Z)
  | N2mRaw (ran len : Z)
  | CfgReset.                            (* the bare word [1 << 31] *)

#[export] Instance nfc_cmd_eq_dec : EqDecision nfc_cmd.
Proof. solve_decision. Defined.

Definition ored (l : list Z) : Z := fold_right Z.lor 0 l.

(** [NFC_CMD_M2N] and [NFC_CMD_N2M] after the choice of the base word. *)
Definition dma_word (base ecc sho pgsz pag : Z) : Z :=
  ored [base; Z.shiftl ecc 14; Z.shiftl sho 13;
        Z.shiftl (Z.land pgsz 0x7f) 6; Z.land pag 0x3f].

Definition word (c : nfc_cmd) : Z :=
  match c with
  | Idle ce time => ored [ce; IDLE; Z.land time 0x3ff]
  | Cle ce cmd => ored [ce; CLE; Z.land cmd 0xff]
  | Ale ce addr => ored [ce; ALE; Z.land addr 0xff]
  | Dwr ce data => ored [ce; DWR; Z.land data 0xff]
  | Drd ce size => ored [ce; DRD; size]
  | Adl addr => ored [ADL; Z.land addr 0xffff]
  | Adh addr => ored [ADH; Z.land (Z.shiftr addr 16) 0xffff]
  | Ail addr => ored [AIL; Z.land addr 0xffff]
  | Aih addr => ored [AIH; Z.land (Z.shiftr addr 16) 0xffff]
  | Seed seed => ored [SEED; SEED_OFFSET + Z.land seed 0x7fff]
  | M2n ran ecc sho pgsz pag =>
      dma_word (if truthy ran then M2N else M2N_NORAN) ecc sho pgsz pag
  | N2m ran ecc sho pgsz pag =>
      dma_word (if truthy ran then N2M else N2M_NORAN) ecc sho pgsz pag
  | M2nRaw ran len => ored [if truthy ran then M2N else M2N_NORAN; Z.land len 0x3fff]
  | N2mRaw ran len => ored [if truthy ran then N2M else N2M_NORAN; Z.land len 0x3fff]
  | CfgReset => Z.shiftl 1 31
  end.

(** ** Reading a word back *)
Definition field (w lo n : Z) : Z := Z.land (Z.shiftr w lo) (Z.ones n).

Inductive decoded :=
  | DChip (op ce payload : Z)           (* IDLE, CLE, ALE, DWR, DRD *)
  | DAddr (sub payload : Z)             (* ADL, ADH, AIL, AIH, SEED *)
  | DDma (n2m ran ecc sho pgsz pag : Z)
  | DOther.

Definition decode (w : Z) : decoded :=
  match field w 20 2 with
  | 0 => DChip (field w 14 4) (field w 10 4) (field w 0 10)
  | 3 => DAddr (field w 16 4) (field w 0 16)
  | 2 => DDma (field w 17 1) (field w 19 1) (field w 14 3) (field w 13 1)
           (field w 6 7) (field w 0 6)
  | _ => DOther
  end.

(** A chip enable as [ce_enable] holds it: four bits from bit 10. *)
Definition ce_ok (ce : Z) : Prop := exists n, 0 <= n < 16 /\ ce = Z.shiftl n 10.

(** The fields in range; what the driver's calls keep to.  A codeword of 1024
    bytes is a size of 128, which the field for it reads as 0. *)
Definition cmd_ok (c : nfc_cmd) : Prop :=
  match c with
  | Idle ce t => ce_ok ce /\ 0 <= t < 2 ^ 10
  | Cle ce x | Ale ce x | Dwr ce x => ce_ok ce /\ 0 <= x < 2 ^ 8
  | Drd ce n => ce_ok ce /\ 0 <= n < 2 ^ 10
  | Adl a | Adh a | Ail a | Aih a => 0 <= a < 2 ^ 32
  | Seed s => 0 <= s < 2 ^ 15
  | M2n ran ecc sho pgsz pag | N2m ran ecc sho pgsz pag =>
      0 <= ran <= 1 /\ 1 <= ecc < 8 /\ 0 <= sho <= 1 /\ 0 <= pgsz <= 2 ^ 7 /\ 0 <= pag < 2 ^ 6
  | _ => False
  end.

(** What the controller should see of each command. *)
Definition meaning (c : nfc_cmd) : decoded :=
  match c with
  | Idle ce t => DChip 12 (Z.shiftr ce 10) t
  | Cle ce x => DChip 5 (Z.shiftr ce 10) x
  | Ale ce x => DChip 6 (Z.shiftr ce 10) x
  | Dwr ce x => DChip 4 (Z.shiftr ce 10) x
  | Drd ce n => DChip 8 (Z.shiftr ce 10) n
  | Adl a => DAddr 0 (a mod 2 ^ 16)
  | Adh a => DAddr 1 (a / 2 ^ 16)
  | Ail a => DAddr 2 (a mod 2 ^ 16)
  | Aih a => DAddr 3 (a / 2 ^ 16)
  | Seed s => DAddr 8 (SEED_OFFSET + s)
  | M2n ran ecc sho pgsz pag => DDma 0 ran ecc sho (pgsz mod 2 ^ 7) pag
  | N2m ran ecc sho pgsz pag => DDma 1 ran ecc sho (pgsz mod 2 ^ 7) pag
  | _ => DOther
  end.

(** ** Fields do not overlap *)
Lemma field_lor a b lo n : field (Z.lor a b) lo n = Z.lor (field a lo n) (field b lo n).
Proof. unfold field. by rewrite Z.shiftr_lor, Z.land_lor_distr_l. Qed.

Lemma field_mod w lo n : 0 <= n -> field w lo n = Z.shiftr w lo mod 2 ^ n.
Proof. intros. unfold field. by rewrite Z.land_ones. Qed.

(** A field of [m] bits placed at bit [k], seen from the one at [lo]. *)
Lemma field_at x k n :
  0 <= k -> 0 <= n -> 0 <= x < 2 ^ n -> field (Z.shiftl x k) k n = x.
Proof.
  intros Hk Hn Hx. rewrite field_mod, Z.shiftr_shiftl_l, Z.sub_diag by lia.
  by rewrite Z.shiftl_0_r, Z.mod_small.
Qed.

Lemma field_below x k lo n :
  0 <= lo -> 0 <= n -> lo + n <= k -> field (Z.shiftl x k) lo n = 0.
Proof.
  intros. rewrite field_mod, Z.shiftr_shiftl_l by lia.
  replace (k - lo) with (n + (k - lo - n)) by lia.
  rewrite Z.shiftl_mul_pow2, Z.pow_add_r by lia.
  rewrite (Z.mul_comm (2 ^ n)), Z.mul_assoc. apply Z.mod_mul.
  apply Z.pow_nonzero; lia.
Qed.

Lemma field_above x k m lo n :
  0 <= m -> 0 <= k -> 0 <= n -> 0 <= x < 2 ^ m -> k + m <= lo ->
  field (Z.shiftl x k) lo n = 0.
Proof.
  intros. rewrite field_mod by lia. rewrite Z.shiftl_mul_pow2, Z.shiftr_div_pow2 by lia.
  rewrite Z.div_small, Z.mod_0_l; [done | apply Z.pow_nonzero; lia|].
  split; [apply Z.mul_nonneg_nonneg; [lia | apply Z.pow_nonneg; lia]|].
  apply Z.lt_le_trans with (2 ^ m * 2 ^ k).
  - apply Z.mul_lt_mono_pos_r; [apply Z.pow_pos_nonneg; lia | lia].
  - rewrite <- Z.pow_add_r by lia. apply Z.pow_le_mono_r; lia.
Qed.

Lemma land_small x n : 0 <= n -> 0 <= x < 2 ^ n -> Z.land x (Z.ones n) = x.
Proof. intros. by rewrite Z.land_ones, Z.mod_small. Qed.

(** Evaluates a field of an or of placed fields; [b] bounds the widths. *)
Ltac numeral x := lazymatch x with Z0 => idtac | Zpos _ => idtac end.
Ltac field_step :=
  match goal with
  | |- context [field (Z.lor _ _) _ _] => rewrite field_lor
  | |- context [field (Z.shiftl ?x ?k) ?lo ?n] =>
      numeral x; let v := eval vm_compute in (field (Z.shiftl x k) lo n) in
      change (field (Z.shiftl x k) lo n) with v
  | |- context [field 0 ?lo ?n] => change (field 0 lo n) with 0
  | |- context [field (Z.shiftl ?x ?k) ?k ?n] =>
      rewrite (field_at x k n) by lia
  | |- context [field (Z.shiftl ?x ?k) ?lo ?n] =>
      first [ rewrite (field_below x k lo n) by lia
            | rewrite (field_above x k 1 lo n) by lia
            | rewrite (field_above x k 3 lo n) by lia
            | rewrite (field_above x k 4 lo n) by lia
            | rewrite (field_above x k 6 lo n) by lia
            | rewrite (field_above x k 7 lo n) by lia
            | rewrite (field_above x k 10 lo n) by lia
            | rewrite (field_above x k 16 lo n) by lia ]
  end.
Ltac fields :=
  unfold decode, ored, dma_word; cbn [fold_right];
  repeat field_step; rewrite ?Z.lor_0_r, ?Z.lor_0_l.

Lemma ce_shift n : 0 <= n < 16 -> Z.shiftr (Z.shiftl n 10) 10 = n.
Proof. intros. by rewrite Z.shiftr_shiftl_l, Z.sub_diag, Z.shiftl_0_r by lia. Qed.
Lemma payload_0 x : x = Z.shiftl x 0.
Proof. by rewrite Z.shiftl_0_r. Qed.

(** A command for a chip: kind at bit 14, chip enable at 10, payload below. *)
Lemma decode_chip op n x :
  0 <= op < 16 -> 0 <= n < 16 -> 0 <= x < 2 ^ 10 ->
  decode (ored [Z.shiftl n 10; Z.shiftl op 14; x]) = DChip op n x.
Proof. intros. rewrite (payload_0 x) at 1. by fields. Qed.

Lemma decode_addr sub x :
  0 <= sub < 16 -> 0 <= x < 2 ^ 16 ->
  decode (ored [Z.lor (Z.shiftl sub 16) (Z.shiftl 3 20); x]) = DAddr sub x.
Proof. intros. rewrite (payload_0 x) at 1. by fields. Qed.

Lemma decode_dma n2m ran ecc sho pgsz pag :
  0 <= n2m <= 1 -> 0 <= ran <= 1 -> 0 <= ecc < 8 -> 0 <= sho <= 1 ->
  0 <= pag < 2 ^ 6 ->
  decode (dma_word (Z.lor (Z.shiftl n2m 17) (Z.lor (Z.shiftl 2 20) (Z.shiftl ran 19)))
            ecc sho pgsz pag) = DDma n2m ran ecc sho (pgsz mod 2 ^ 7) pag.
Proof.
  intros. unfold dma_word. change 127 with (Z.ones 7). change 63 with (Z.ones 6).
  rewrite (land_small pag), (Z.land_ones pgsz) by lia.
  pose proof (Z.mod_pos_bound pgsz (2 ^ 7) ltac:(lia)).
  set (size := pgsz mod 2 ^ 7) in *. clearbody size. rewrite (payload_0 pag) at 1. by fields.
Qed.

(** The controller reads every command word the way the driver means it: no
    field runs into another one. *)
Theorem decode_word c : cmd_ok c -> decode (word c) = meaning c.
Proof.
  destruct c as [ce x|ce x|ce x|ce x|ce x|x|x|x|x|x|ran ecc sho pgsz pag
                |ran ecc sho pgsz pag|ran len|ran len|];
    cbn [cmd_ok word meaning]; try done.
  1-5: intros [(n & Hn & ->) Hx]; rewrite (ce_shift n Hn);
    try (change 0x3ff with (Z.ones 10)); try (change 0xff with (Z.ones 8));
    rewrite ?land_small by lia; apply decode_chip; lia.
  1-5: intros Hx; try (change 0xffff with (Z.ones 16)); try (change 0x7fff with (Z.ones 15));
    rewrite ?Z.shiftr_div_pow2, ?Z.land_ones by lia.
  1: apply (decode_addr 0); try lia; apply Z.mod_pos_bound; lia.
  1: rewrite (Z.mod_small (x / _)) by (split; [apply Z.div_pos | apply Z.div_lt_upper_bound]; lia);
     apply (decode_addr 1); try lia; split; [apply Z.div_pos | apply Z.div_lt_upper_bound]; lia.
  1: apply (decode_addr 2); try lia; apply Z.mod_pos_bound; lia.
  1: rewrite (Z.mod_small (x / _)) by (split; [apply Z.div_pos | apply Z.div_lt_upper_bound]; lia);
     apply (decode_addr 3); try lia; split; [apply Z.div_pos | apply Z.div_lt_upper_bound]; lia.
  1: rewrite Z.mod_small by lia; apply (decode_addr 8); unfold SEED_OFFSET; lia.
  1-2: intros (Hr & He & Hs & Hp & Hg).
  - rewrite <- (decode_dma 0) by lia.
    assert (ran = 0 \/ ran = 1) as [-> | ->] by lia; reflexivity.
  - rewrite <- (decode_dma 1) by lia.
    assert (ran = 0 \/ ran = 1) as [-> | ->] by lia; reflexivity.
Qed.

Example decode_word_witness :
  decode (word (N2m 1 NAND_ECC_BCH60_1K 1 48 1)) = DDma 1 1 7 1 48 1.
Proof. apply (decode_word (N2m 1 NAND_ECC_BCH60_1K 1 48 1)). vm_compute. intuition discriminate. Defined.
