(* ===== verification/Data.v ===== *)
(** * Data: the structures of the driver.

    The structures of [include/phynand.h] that the modelled code reads or
    writes, with the source's field names; the pointers and the memory they
    point into; and the state of the whole driver ([world]): the chip, the
    module parameters of [nfc_map.c], the lock of [dev/amlnf_ctrl.c], and the
    device behind the controller.  A field name that two structures share gets
    the structure as a prefix ([ctl_page_addr] is [controller->page_addr]). *)
From S2P Require Import Prelude NfcWords.

(** ** Constants of [include/amlnf_ctrl.h], [phynand.h] and [amlnf_dev.h]. *)
Definition MAX_CHIP_NUM : Z := 4.
Definition MAX_BLK_NUM : Z := 8192.
Definition MAX_BAD_BLK_NUM : Z := 2048.
Definition RESERVED_BLOCK_CNT : Z := 48.
Definition PER_INFO_BYTE : Z := 8.
Definition BYTES_OF_USER_PER_PAGE : Z := 16.
Definition MAX_CYCLE_NUM : Z := 20.
Definition NAND_BLOCK_GOOD : Z := 0.
Definition NAND_BLOCK_USED_BAD : Z := 1.
Definition NAND_BLOCK_FACTORY_BAD : Z := 2.
Definition DEV_SLC_MODE : Z := 1.
Definition DEV_SERIAL_CHIP_MODE : Z := 0.
Definition DEV_MULTI_CHIP_MODE : Z := 2.
Definition DEV_MULTI_PLANE_MODE : Z := 4.
Definition DEV_ECC_SOFT_MODE : Z := 8.
Definition NAND_SHUT_DOWN : Z := 65536.
Definition NAND_CTRL_NONE_RB : Z := 2.
Definition NAND_CTRL_INTERLEAVING_MODE : Z := 4.
Definition NAND_MULTI_PLANE_MODE : Z := 8.

(** Errors: [amlnf_error_t] of [amlnf_dev.h] and the kernel's errno. *)
Definition NAND_BUSY_FAILURE : Z := 2.
Definition NAND_DMA_FAILURE : Z := 4.
Definition NAND_ECC_FAILURE : Z := 5.
Definition NAND_MALLOC_FAILURE : Z := 7.
Definition NAND_ARGUMENT_FAILURE : Z := 8.
Definition NAND_STATUS_FAILURE : Z := 9.
Definition NAND_SELECT_CHIP_FAILURE : Z := 12.
Definition NAND_FAILED : Z := 15.
Definition NAND_READ_FAILED : Z := 16.
Definition NAND_BAD_BLCOK_FAILURE : Z := 17.
Definition NAND_SHIPPED_BAD_FAILURE : Z := 18.
Definition EIO : Z := 5.
Definition ENOMEM : Z := 12.
Definition EBUSY : Z := 16.
Definition EINVAL : Z := 22.
Definition EROFS : Z := 30.
Definition EBADMSG : Z := 74.
Definition EUCLEAN : Z := 117.

(** [chip_state_t] of [amlnf_ctrl.h]. *)
Definition CHIP_READY : Z := 0.
Definition CHIP_ERASING : Z := 2.
Definition CHIP_WRITING : Z := 5.
Definition CHIP_PM_SUSPENDED : Z := 8.
Definition CHIP_SHUTDOWN : Z := 14.
Definition CHIP_READING : Z := 15.
Definition CHIP_RESETING : Z := 16.

(** ** Pointers and memory.  A pointer is NULL or an offset into an allocation. *)
Inductive ptr :=
  | Null
  | Ptr (b off : Z).

#[export] Instance ptr_eq_dec : EqDecision ptr.
Proof. solve_decision. Defined.

Definition is_null (p : ptr) : bool :=
  match p with Null => true | Ptr _ _ => false end.

Definition ptr_add (p : ptr) (n : Z) : ptr :=
  match p with Null => Null | Ptr b off => Ptr b (off + n) end.

Abbreviation memory := (gmap Z (list Z)).

(** Builds a field update: the eta expansion of a record, with one of its
    projections replaced. *)
Ltac set_field e p v :=
  let e' := eval red in e in
  lazymatch eval pattern p in e' with
  | ?g _ => let t := eval cbv beta in (g v) in exact t
  end.

(** [struct nand_flash] *)
Record nand_flash := mk_flash {
  pagesize : Z;
  chipsize : Z;
  blocksize : Z;
  oobsize : Z;
  internal_chipnr : Z;
  T_REA : Z;
  T_RHOH : Z;
  flash_onfi_mode : Z;
  new_type : Z;
  flash_option : Z;
  flash_id : list Z
}.
Definition eta_nand_flash (r : nand_flash) : nand_flash := mk_flash r.(pagesize)
    r.(chipsize) r.(blocksize) r.(oobsize) r.(internal_chipnr) r.(T_REA) r.(T_RHOH)
    r.(flash_onfi_mode) r.(new_type) r.(flash_option) r.(flash_id).
Definition set_pagesize (v : Z) (r : nand_flash) : nand_flash :=
  ltac:(set_field (eta_nand_flash r) (r.(pagesize)) v).
Definition set_chipsize (v : Z) (r : nand_flash) : nand_flash :=
  ltac:(set_field (eta_nand_flash r) (r.(chipsize)) v).
Definition set_blocksize (v : Z) (r : nand_flash) : nand_flash :=
  ltac:(set_field (eta_nand_flash r) (r.(blocksize)) v).
Definition set_oobsize (v : Z) (r : nand_flash) : nand_flash :=
  ltac:(set_field (eta_nand_flash r) (r.(oobsize)) v).
Definition set_internal_chipnr (v : Z) (r : nand_flash) : nand_flash :=
  ltac:(set_field (eta_nand_flash r) (r.(internal_chipnr)) v).
Definition set_T_REA (v : Z) (r : nand_flash) : nand_flash :=
  ltac:(set_field (eta_nand_flash r) (r.(T_REA)) v).
Definition set_T_RHOH (v : Z) (r : nand_flash) : nand_flash :=
  ltac:(set_field (eta_nand_flash r) (r.(T_RHOH)) v).
Definition set_flash_onfi_mode (v : Z) (r : nand_flash) : nand_flash :=
  ltac:(set_field (eta_nand_flash r) (r.(flash_onfi_mode)) v).
Definition set_new_type (v : Z) (r : nand_flash) : nand_flash :=
  ltac:(set_field (eta_nand_flash r) (r.(new_type)) v).
Definition set_flash_option (v : Z) (r : nand_flash) : nand_flash :=
  ltac:(set_field (eta_nand_flash r) (r.(flash_option)) v).
Definition set_flash_id (v : list Z) (r : nand_flash) : nand_flash :=
  ltac:(set_field (eta_nand_flash r) (r.(flash_id)) v).

(** The functions [phy/new_nand.c] puts into [retry_info->init], [handle] and
    [exit], and into [slc_info->init], [enter] and [exit]. *)
Inductive retry_vendor :=
  | NoRetry
  | RetryHynix
  | RetryToshiba
  | RetrySamsung
  | RetryMicron
  | RetryIntel
  | RetrySandisk
  | RetrySandiskA19.
Inductive slc_vendor :=
  | NoSlc
  | SlcHynix
  | SlcSandisk.

(** The dimensions of the tables below. *)
Definition READ_RETRY_REG_NUM : Z := 8.
Definition READ_RETRY_CNT : Z := 30.
Definition EN_SLC_REG_NUM : Z := 8.

(** [struct en_slc_info]; [pagelist] is the table of the pages used in SLC mode. *)
Record en_slc_info := mk_slc {
  slc_flag : Z;
  pagelist : list Z;
  slc_reg_cnt : Z;
  slc_reg_addr : list Z;
  slc_reg_def_val : list (list Z);
  slc_reg_offs_val : list Z;
  slc_ops : slc_vendor
}.
Definition eta_en_slc_info (r : en_slc_info) : en_slc_info := mk_slc r.(slc_flag)
    r.(pagelist) r.(slc_reg_cnt) r.(slc_reg_addr) r.(slc_reg_def_val)
    r.(slc_reg_offs_val) r.(slc_ops).
Definition set_slc_flag (v : Z) (r : en_slc_info) : en_slc_info :=
  ltac:(set_field (eta_en_slc_info r) (r.(slc_flag)) v).
Definition set_pagelist (v : list Z) (r : en_slc_info) : en_slc_info :=
  ltac:(set_field (eta_en_slc_info r) (r.(pagelist)) v).
Definition set_slc_reg_cnt (v : Z) (r : en_slc_info) : en_slc_info :=
  ltac:(set_field (eta_en_slc_info r) (r.(slc_reg_cnt)) v).
Definition set_slc_reg_addr (v : list Z) (r : en_slc_info) : en_slc_info :=
  ltac:(set_field (eta_en_slc_info r) (r.(slc_reg_addr)) v).
Definition set_slc_reg_def_val (v : list (list Z)) (r : en_slc_info) : en_slc_info :=
  ltac:(set_field (eta_en_slc_info r) (r.(slc_reg_def_val)) v).
Definition set_slc_reg_offs_val (v : list Z) (r : en_slc_info) : en_slc_info :=
  ltac:(set_field (eta_en_slc_info r) (r.(slc_reg_offs_val)) v).
Definition set_slc_ops (v : slc_vendor) (r : en_slc_info) : en_slc_info :=
  ltac:(set_field (eta_en_slc_info r) (r.(slc_ops)) v).

(** [struct read_retry_info]; [retry_ops] says whose functions the pointers
    [init], [handle] and [exit] hold. *)
Record read_retry_info := mk_retry {
  retry_flag : Z;
  default_flag : Z;
  info_save_blk : Z;
  reg_cnt_lp : Z;
  reg_cnt_up : Z;
  retry_cnt_lp : Z;
  retry_cnt_up : Z;
  cur_cnt_lp : list Z;
  cur_cnt_up : list Z;
  reg_addr_lp : list Z;
  reg_addr_up : list Z;
  reg_def_val : list (list Z);
  reg_offs_val_lp : list (list (list Z));
  reg_offs_val_up : list (list (list Z));
  retry_ops : retry_vendor
}.
Definition eta_read_retry_info (r : read_retry_info) : read_retry_info := mk_retry
    r.(retry_flag) r.(default_flag) r.(info_save_blk) r.(reg_cnt_lp) r.(reg_cnt_up)
    r.(retry_cnt_lp) r.(retry_cnt_up) r.(cur_cnt_lp) r.(cur_cnt_up) r.(reg_addr_lp)
    r.(reg_addr_up) r.(reg_def_val) r.(reg_offs_val_lp) r.(reg_offs_val_up)
    r.(retry_ops).
Definition set_retry_flag (v : Z) (r : read_retry_info) : read_retry_info :=
  ltac:(set_field (eta_read_retry_info r) (r.(retry_flag)) v).
Definition set_default_flag (v : Z) (r : read_retry_info) : read_retry_info :=
  ltac:(set_field (eta_read_retry_info r) (r.(default_flag)) v).
Definition set_info_save_blk (v : Z) (r : read_retry_info) : read_retry_info :=
  ltac:(set_field (eta_read_retry_info r) (r.(info_save_blk)) v).
Definition set_reg_cnt_lp (v : Z) (r : read_retry_info) : read_retry_info :=
  ltac:(set_field (eta_read_retry_info r) (r.(reg_cnt_lp)) v).
Definition set_reg_cnt_up (v : Z) (r : read_retry_info) : read_retry_info :=
  ltac:(set_field (eta_read_retry_info r) (r.(reg_cnt_up)) v).
Definition set_retry_cnt_lp (v : Z) (r : read_retry_info) : read_retry_info :=
  ltac:(set_field (eta_read_retry_info r) (r.(retry_cnt_lp)) v).
Definition set_retry_cnt_up (v : Z) (r : read_retry_info) : read_retry_info :=
  ltac:(set_field (eta_read_retry_info r) (r.(retry_cnt_up)) v).
Definition set_cur_cnt_lp (v : list Z) (r : read_retry_info) : read_retry_info :=
  ltac:(set_field (eta_read_retry_info r) (r.(cur_cnt_lp)) v).
Definition set_cur_cnt_up (v : list Z) (r : read_retry_info) : read_retry_info :=
  ltac:(set_field (eta_read_retry_info r) (r.(cur_cnt_up)) v).
Definition set_reg_addr_lp (v : list Z) (r : read_retry_info) : read_retry_info :=
  ltac:(set_field (eta_read_retry_info r) (r.(reg_addr_lp)) v).
Definition set_reg_addr_up (v : list Z) (r : read_retry_info) : read_retry_info :=
  ltac:(set_field (eta_read_retry_info r) (r.(reg_addr_up)) v).
Definition set_reg_def_val (v : list (list Z)) (r : read_retry_info) : read_retry_info :=
  ltac:(set_field (eta_read_retry_info r) (r.(reg_def_val)) v).
Definition set_reg_offs_val_lp (v : list (list (list Z))) (r : read_retry_info) : read_retry_info :=
  ltac:(set_field (eta_read_retry_info r) (r.(reg_offs_val_lp)) v).
Definition set_reg_offs_val_up (v : list (list (list Z))) (r : read_retry_info) : read_retry_info :=
  ltac:(set_field (eta_read_retry_info r) (r.(reg_offs_val_up)) v).
Definition set_retry_ops (v : retry_vendor) (r : read_retry_info) : read_retry_info :=
  ltac:(set_field (eta_read_retry_info r) (r.(retry_ops)) v).

(** [retry_info->exit != NULL] *)
Definition has_exit (r : read_retry_info) : bool :=
  match r.(retry_ops) with NoRetry => false | _ => true end.

(** [struct hw_controller] *)
Record hw_controller := mk_ctl {
  chip_selected : Z;
  rb_received : Z;
  ce_enable : list Z;
  rb_enable : list Z;
  chip_num : Z;
  flash_type : Z;
  mfr_type : Z;
  onfi_mode : Z;
  max_bch : Z;
  ecc_unit : Z;
  ecc_bytes : Z;
  ecc_steps : Z;
  bch_mode : Z;
  user_mode : Z;
  ran_mode : Z;
  oobtail : Z;
  oobavail : Z;
  oob_mod : Z;
  oob_fill_data : Z;
  oob_fill_boot : Z;
  ecc_cnt_limit : Z;
  ecc_cnt_cur : Z;
  ecc_max : Z;
  page_shift : Z;
  block_shift : Z;
  internal_page_nums : Z;
  zero_cnt : Z;
  ctl_page_addr : Z;
  ctl_option : Z;
  ctl_data_buf : ptr;
  ctl_user_buf : ptr;
  ctl_page_buf : ptr;
  ctl_oob_buf : ptr;
  data_dma_addr : Z;
  info_dma_addr : Z;
  slc_info : en_slc_info;
  retry_info : read_retry_info
}.
Definition eta_hw_controller (r : hw_controller) : hw_controller := mk_ctl
    r.(chip_selected) r.(rb_received) r.(ce_enable) r.(rb_enable) r.(chip_num)
    r.(flash_type) r.(mfr_type) r.(onfi_mode) r.(max_bch) r.(ecc_unit) r.(ecc_bytes)
    r.(ecc_steps) r.(bch_mode) r.(user_mode) r.(ran_mode) r.(oobtail) r.(oobavail)
    r.(oob_mod) r.(oob_fill_data) r.(oob_fill_boot) r.(ecc_cnt_limit) r.(ecc_cnt_cur)
    r.(ecc_max) r.(page_shift) r.(block_shift) r.(internal_page_nums) r.(zero_cnt)
    r.(ctl_page_addr) r.(ctl_option) r.(ctl_data_buf) r.(ctl_user_buf) r.(ctl_page_buf)
    r.(ctl_oob_buf) r.(data_dma_addr) r.(info_dma_addr) r.(slc_info) r.(retry_info).
Definition set_chip_selected (v : Z) (r : hw_controller) : hw_controller :=
  ltac:(set_field (eta_hw_controller r) (r.(chip_selected)) v).
Definition set_rb_received (v : Z) (r : hw_controller) : hw_controller :=
  ltac:(set_field (eta_hw_controller r) (r.(rb_received)) v).
Definition set_ce_enable (v : list Z) (r : hw_controller) : hw_controller :=
  ltac:(set_field (eta_hw_controller r) (r.(ce_enable)) v).
Definition set_rb_enable (v : list Z) (r : hw_controller) : hw_controller :=
  ltac:(set_field (eta_hw_controller r) (r.(rb_enable)) v).
Definition set_chip_num (v : Z) (r : hw_controller) : hw_controller :=
  ltac:(set_field (eta_hw_controller r) (r.(chip_num)) v).
Definition set_flash_type (v : Z) (r : hw_controller) : hw_controller :=
  ltac:(set_field (eta_hw_controller r) (r.(flash_type)) v).
Definition set_mfr_type (v : Z) (r : hw_controller) : hw_controller :=
  ltac:(set_field (eta_hw_controller r) (r.(mfr_type)) v).
Definition set_onfi_mode (v : Z) (r : hw_controller) : hw_controller :=
  ltac:(set_field (eta_hw_controller r) (r.(onfi_mode)) v).
Definition set_max_bch (v : Z) (r : hw_controller) : hw_controller :=
  ltac:(set_field (eta_hw_controller r) (r.(max_bch)) v).
Definition set_ecc_unit (v : Z) (r : hw_controller) : hw_controller :=
  ltac:(set_field (eta_hw_controller r) (r.(ecc_unit)) v).
Definition set_ecc_bytes (v : Z) (r : hw_controller) : hw_controller :=
  ltac:(set_field (eta_hw_controller r) (r.(ecc_bytes)) v).
Definition set_ecc_steps (v : Z) (r : hw_controller) : hw_controller :=
  ltac:(set_field (eta_hw_controller r) (r.(ecc_steps)) v).
Definition set_bch_mode (v : Z) (r : hw_controller) : hw_controller :=
  ltac:(set_field (eta_hw_controller r) (r.(bch_mode)) v).
Definition set_user_mode (v : Z) (r : hw_controller) : hw_controller :=
  ltac:(set_field (eta_hw_controller r) (r.(user_mode)) v).
Definition set_ran_mode (v : Z) (r : hw_controller) : hw_controller :=
  ltac:(set_field (eta_hw_controller r) (r.(ran_mode)) v).
Definition set_oobtail (v : Z) (r : hw_controller) : hw_controller :=
  ltac:(set_field (eta_hw_controller r) (r.(oobtail)) v).
Definition set_oobavail (v : Z) (r : hw_controller) : hw_controller :=
  ltac:(set_field (eta_hw_controller r) (r.(oobavail)) v).
Definition set_oob_mod (v : Z) (r : hw_controller) : hw_controller :=
  ltac:(set_field (eta_hw_controller r) (r.(oob_mod)) v).
Definition set_oob_fill_data (v : Z) (r : hw_controller) : hw_controller :=
  ltac:(set_field (eta_hw_controller r) (r.(oob_fill_data)) v).
Definition set_oob_fill_boot (v : Z) (r : hw_controller) : hw_controller :=
  ltac:(set_field (eta_hw_controller r) (r.(oob_fill_boot)) v).
Definition set_ecc_cnt_limit (v : Z) (r : hw_controller) : hw_controller :=
  ltac:(set_field (eta_hw_controller r) (r.(ecc_cnt_limit)) v).
Definition set_ecc_cnt_cur (v : Z) (r : hw_controller) : hw_controller :=
  ltac:(set_field (eta_hw_controller r) (r.(ecc_cnt_cur)) v).
Definition set_ecc_max (v : Z) (r : hw_controller) : hw_controller :=
  ltac:(set_field (eta_hw_controller r) (r.(ecc_max)) v).
Definition set_page_shift (v : Z) (r : hw_controller) : hw_controller :=
  ltac:(set_field (eta_hw_controller r) (r.(page_shift)) v).
Definition set_block_shift (v : Z) (r : hw_controller) : hw_controller :=
  ltac:(set_field (eta_hw_controller r) (r.(block_shift)) v).
Definition set_internal_page_nums (v : Z) (r : hw_controller) : hw_controller :=
  ltac:(set_field (eta_hw_controller r) (r.(internal_page_nums)) v).
Definition set_zero_cnt (v : Z) (r : hw_controller) : hw_controller :=
  ltac:(set_field (eta_hw_controller r) (r.(zero_cnt)) v).
Definition set_ctl_page_addr (v : Z) (r : hw_controller) : hw_controller :=
  ltac:(set_field (eta_hw_controller r) (r.(ctl_page_addr)) v).
Definition set_ctl_option (v : Z) (r : hw_controller) : hw_controller :=
  ltac:(set_field (eta_hw_controller r) (r.(ctl_option)) v).
Definition set_ctl_data_buf (v : ptr) (r : hw_controller) : hw_controller :=
  ltac:(set_field (eta_hw_controller r) (r.(ctl_data_buf)) v).
Definition set_ctl_user_buf (v : ptr) (r : hw_controller) : hw_controller :=
  ltac:(set_field (eta_hw_controller r) (r.(ctl_user_buf)) v).
Definition set_ctl_page_buf (v : ptr) (r : hw_controller) : hw_controller :=
  ltac:(set_field (eta_hw_controller r) (r.(ctl_page_buf)) v).
Definition set_ctl_oob_buf (v : ptr) (r : hw_controller) : hw_controller :=
  ltac:(set_field (eta_hw_controller r) (r.(ctl_oob_buf)) v).
Definition set_data_dma_addr (v : Z) (r : hw_controller) : hw_controller :=
  ltac:(set_field (eta_hw_controller r) (r.(data_dma_addr)) v).
Definition set_info_dma_addr (v : Z) (r : hw_controller) : hw_controller :=
  ltac:(set_field (eta_hw_controller r) (r.(info_dma_addr)) v).
Definition set_slc_info (v : en_slc_info) (r : hw_controller) : hw_controller :=
  ltac:(set_field (eta_hw_controller r) (r.(slc_info)) v).
Definition set_retry_info (v : read_retry_info) (r : hw_controller) : hw_controller :=
  ltac:(set_field (eta_hw_controller r) (r.(retry_info)) v).

(** [struct chip_ops_para]: the parameters of the current operation. *)
Record chip_ops_para := mk_ops {
  page_addr : Z;
  chipnr : Z;
  data_buf : ptr;
  oob_buf : ptr;
  bit_flip : Z;
  ecc_err : Z;
  ooblen : Z;
  ops_option : Z
}.
Definition eta_chip_ops_para (r : chip_ops_para) : chip_ops_para := mk_ops r.(page_addr)
    r.(chipnr) r.(data_buf) r.(oob_buf) r.(bit_flip) r.(ecc_err) r.(ooblen)
    r.(ops_option).
Definition set_page_addr (v : Z) (r : chip_ops_para) : chip_ops_para :=
  ltac:(set_field (eta_chip_ops_para r) (r.(page_addr)) v).
Definition set_chipnr (v : Z) (r : chip_ops_para) : chip_ops_para :=
  ltac:(set_field (eta_chip_ops_para r) (r.(chipnr)) v).
Definition set_data_buf (v : ptr) (r : chip_ops_para) : chip_ops_para :=
  ltac:(set_field (eta_chip_ops_para r) (r.(data_buf)) v).
Definition set_oob_buf (v : ptr) (r : chip_ops_para) : chip_ops_para :=
  ltac:(set_field (eta_chip_ops_para r) (r.(oob_buf)) v).
Definition set_bit_flip (v : Z) (r : chip_ops_para) : chip_ops_para :=
  ltac:(set_field (eta_chip_ops_para r) (r.(bit_flip)) v).
Definition set_ecc_err (v : Z) (r : chip_ops_para) : chip_ops_para :=
  ltac:(set_field (eta_chip_ops_para r) (r.(ecc_err)) v).
Definition set_ooblen (v : Z) (r : chip_ops_para) : chip_ops_para :=
  ltac:(set_field (eta_chip_ops_para r) (r.(ooblen)) v).
Definition set_ops_option (v : Z) (r : chip_ops_para) : chip_ops_para :=
  ltac:(set_field (eta_chip_ops_para r) (r.(ops_option)) v).

(** [struct _nand_arg_info]: where a metadata item lives. *)
Record nand_arg_info := mk_arg {
  arg_type : Z;
  valid_blk_addr : Z;
  valid_page_addr : Z;
  free_blk_addr : Z;
  arg_valid : Z;
  timestamp : Z;
  update_flag : Z
}.
Definition eta_nand_arg_info (r : nand_arg_info) : nand_arg_info := mk_arg r.(arg_type)
    r.(valid_blk_addr) r.(valid_page_addr) r.(free_blk_addr) r.(arg_valid) r.(timestamp)
    r.(update_flag).
Definition set_arg_type (v : Z) (r : nand_arg_info) : nand_arg_info :=
  ltac:(set_field (eta_nand_arg_info r) (r.(arg_type)) v).
Definition set_valid_blk_addr (v : Z) (r : nand_arg_info) : nand_arg_info :=
  ltac:(set_field (eta_nand_arg_info r) (r.(valid_blk_addr)) v).
Definition set_valid_page_addr (v : Z) (r : nand_arg_info) : nand_arg_info :=
  ltac:(set_field (eta_nand_arg_info r) (r.(valid_page_addr)) v).
Definition set_free_blk_addr (v : Z) (r : nand_arg_info) : nand_arg_info :=
  ltac:(set_field (eta_nand_arg_info r) (r.(free_blk_addr)) v).
Definition set_arg_valid (v : Z) (r : nand_arg_info) : nand_arg_info :=
  ltac:(set_field (eta_nand_arg_info r) (r.(arg_valid)) v).
Definition set_timestamp (v : Z) (r : nand_arg_info) : nand_arg_info :=
  ltac:(set_field (eta_nand_arg_info r) (r.(timestamp)) v).
Definition set_update_flag (v : Z) (r : nand_arg_info) : nand_arg_info :=
  ltac:(set_field (eta_nand_arg_info r) (r.(update_flag)) v).

(** [struct amlnand_chip] *)
Record amlnand_chip := mk_chip {
  state : Z;
  nand_status : Z;
  init_flag : Z;
  ce_bit_mask : Z;
  controller : hw_controller;
  ops_para : chip_ops_para;
  flash : nand_flash;
  block_status : ptr;
  config_ptr : ptr;
  shipped_bbt_ptr : ptr;
  config_msg : nand_arg_info;
  nand_bbtinfo : nand_arg_info;
  shipped_bbtinfo : nand_arg_info;
  nand_key : nand_arg_info;
  nand_secure : nand_arg_info;
  uboot_env : nand_arg_info;
  reserved_blk : list Z;
  max_ecc_per_page : Z;
  user_page_buf : ptr;
  user_oob_buf : ptr;
  debug_flag : Z
}.
Definition eta_amlnand_chip (r : amlnand_chip) : amlnand_chip := mk_chip r.(state)
    r.(nand_status) r.(init_flag) r.(ce_bit_mask) r.(controller) r.(ops_para) r.(flash)
    r.(block_status) r.(config_ptr) r.(shipped_bbt_ptr) r.(config_msg) r.(nand_bbtinfo)
    r.(shipped_bbtinfo) r.(nand_key) r.(nand_secure) r.(uboot_env) r.(reserved_blk)
    r.(max_ecc_per_page) r.(user_page_buf) r.(user_oob_buf) r.(debug_flag).
Definition set_state (v : Z) (r : amlnand_chip) : amlnand_chip :=
  ltac:(set_field (eta_amlnand_chip r) (r.(state)) v).
Definition set_nand_status (v : Z) (r : amlnand_chip) : amlnand_chip :=
  ltac:(set_field (eta_amlnand_chip r) (r.(nand_status)) v).
Definition set_init_flag (v : Z) (r : amlnand_chip) : amlnand_chip :=
  ltac:(set_field (eta_amlnand_chip r) (r.(init_flag)) v).
Definition set_ce_bit_mask (v : Z) (r : amlnand_chip) : amlnand_chip :=
  ltac:(set_field (eta_amlnand_chip r) (r.(ce_bit_mask)) v).
Definition set_controller (v : hw_controller) (r : amlnand_chip) : amlnand_chip :=
  ltac:(set_field (eta_amlnand_chip r) (r.(controller)) v).
Definition set_ops_para (v : chip_ops_para) (r : amlnand_chip) : amlnand_chip :=
  ltac:(set_field (eta_amlnand_chip r) (r.(ops_para)) v).
Definition set_flash (v : nand_flash) (r : amlnand_chip) : amlnand_chip :=
  ltac:(set_field (eta_amlnand_chip r) (r.(flash)) v).
Definition set_block_status (v : ptr) (r : amlnand_chip) : amlnand_chip :=
  ltac:(set_field (eta_amlnand_chip r) (r.(block_status)) v).
Definition set_config_ptr (v : ptr) (r : amlnand_chip) : amlnand_chip :=
  ltac:(set_field (eta_amlnand_chip r) (r.(config_ptr)) v).
Definition set_shipped_bbt_ptr (v : ptr) (r : amlnand_chip) : amlnand_chip :=
  ltac:(set_field (eta_amlnand_chip r) (r.(shipped_bbt_ptr)) v).
Definition set_config_msg (v : nand_arg_info) (r : amlnand_chip) : amlnand_chip :=
  ltac:(set_field (eta_amlnand_chip r) (r.(config_msg)) v).
Definition set_nand_bbtinfo (v : nand_arg_info) (r : amlnand_chip) : amlnand_chip :=
  ltac:(set_field (eta_amlnand_chip r) (r.(nand_bbtinfo)) v).
Definition set_shipped_bbtinfo (v : nand_arg_info) (r : amlnand_chip) : amlnand_chip :=
  ltac:(set_field (eta_amlnand_chip r) (r.(shipped_bbtinfo)) v).
Definition set_nand_key (v : nand_arg_info) (r : amlnand_chip) : amlnand_chip :=
  ltac:(set_field (eta_amlnand_chip r) (r.(nand_key)) v).
Definition set_nand_secure (v : nand_arg_info) (r : amlnand_chip) : amlnand_chip :=
  ltac:(set_field (eta_amlnand_chip r) (r.(nand_secure)) v).
Definition set_uboot_env (v : nand_arg_info) (r : amlnand_chip) : amlnand_chip :=
  ltac:(set_field (eta_amlnand_chip r) (r.(uboot_env)) v).
Definition set_reserved_blk (v : list Z) (r : amlnand_chip) : amlnand_chip :=
  ltac:(set_field (eta_amlnand_chip r) (r.(reserved_blk)) v).
Definition set_max_ecc_per_page (v : Z) (r : amlnand_chip) : amlnand_chip :=
  ltac:(set_field (eta_amlnand_chip r) (r.(max_ecc_per_page)) v).
Definition set_user_page_buf (v : ptr) (r : amlnand_chip) : amlnand_chip :=
  ltac:(set_field (eta_amlnand_chip r) (r.(user_page_buf)) v).
Definition set_user_oob_buf (v : ptr) (r : amlnand_chip) : amlnand_chip :=
  ltac:(set_field (eta_amlnand_chip r) (r.(user_oob_buf)) v).
Definition set_debug_flag (v : Z) (r : amlnand_chip) : amlnand_chip :=
  ltac:(set_field (eta_amlnand_chip r) (r.(debug_flag)) v).

(** The state of the driver, its memory and the device.  [w_readonly],
    [w_allow_markbad] and [w_allow_meta] are the module parameters, [w_refused]
    the counter of refused writes, [w_mutex] and [w_idleflag] the lock
    [spi_nand_mutex] and [nand_idleflag].  [w_mem] maps an allocation to its
    bytes, [w_brk] is the next allocation.  [w_oracle] answers the kernel calls
    that may fail, one after the other, and [w_junk] is what fresh [kmalloc]
    memory holds.  [w_log] is the history of the words written to the
    controller's command register (as commands), latest first; [w_dev] is the device.  *)
Record world (D : Type) := mk_world {
  w_chip : amlnand_chip;
  w_readonly : Z;
  w_allow_markbad : Z;
  w_allow_meta : Z;
  w_refused : Z;
  w_mutex : bool;
  w_idleflag : Z;
  w_mem : memory;
  w_brk : Z;
  w_oracle : nat -> Z;
  w_junk : nat -> Z -> Z;
  w_calls : nat;
  w_log : list nfc_cmd;
  w_dev : D
}.
Arguments w_chip {D} _.
Arguments w_readonly {D} _.
Arguments w_allow_markbad {D} _.
Arguments w_allow_meta {D} _.
Arguments w_refused {D} _.
Arguments w_mutex {D} _.
Arguments w_idleflag {D} _.
Arguments w_mem {D} _.
Arguments w_brk {D} _.
Arguments w_oracle {D} _.
Arguments w_junk {D} _.
Arguments w_calls {D} _.
Arguments w_log {D} _.
Arguments w_dev {D} _.
Arguments mk_world {D}.

Definition eta_world {D} (r : world D) : world D := mk_world r.(w_chip) r.(w_readonly)
    r.(w_allow_markbad) r.(w_allow_meta) r.(w_refused) r.(w_mutex) r.(w_idleflag)
    r.(w_mem) r.(w_brk) r.(w_oracle) r.(w_junk) r.(w_calls) r.(w_log) r.(w_dev).
Definition set_w_chip {D} (v : amlnand_chip) (r : world D) : world D :=
  ltac:(set_field (eta_world r) (r.(w_chip)) v).
Definition set_w_readonly {D} (v : Z) (r : world D) : world D :=
  ltac:(set_field (eta_world r) (r.(w_readonly)) v).
Definition set_w_allow_markbad {D} (v : Z) (r : world D) : world D :=
  ltac:(set_field (eta_world r) (r.(w_allow_markbad)) v).
Definition set_w_allow_meta {D} (v : Z) (r : world D) : world D :=
  ltac:(set_field (eta_world r) (r.(w_allow_meta)) v).
Definition set_w_refused {D} (v : Z) (r : world D) : world D :=
  ltac:(set_field (eta_world r) (r.(w_refused)) v).
Definition set_w_mutex {D} (v : bool) (r : world D) : world D :=
  ltac:(set_field (eta_world r) (r.(w_mutex)) v).
Definition set_w_idleflag {D} (v : Z) (r : world D) : world D :=
  ltac:(set_field (eta_world r) (r.(w_idleflag)) v).
Definition set_w_mem {D} (v : memory) (r : world D) : world D :=
  ltac:(set_field (eta_world r) (r.(w_mem)) v).
Definition set_w_brk {D} (v : Z) (r : world D) : world D :=
  ltac:(set_field (eta_world r) (r.(w_brk)) v).
Definition set_w_oracle {D} (v : nat -> Z) (r : world D) : world D :=
  ltac:(set_field (eta_world r) (r.(w_oracle)) v).
Definition set_w_calls {D} (v : nat) (r : world D) : world D :=
  ltac:(set_field (eta_world r) (r.(w_calls)) v).
Definition set_w_log {D} (v : list nfc_cmd) (r : world D) : world D :=
  ltac:(set_field (eta_world r) (r.(w_log)) v).
Definition set_w_dev {D} (v : D) (r : world D) : world D :=
  ltac:(set_field (eta_world r) (r.(w_dev)) v).

(** ** The structures as [kzalloc] leaves them, and a world around a device. *)
Definition zeros (n : nat) : list Z := replicate n 0.
Definition flash0 : nand_flash := mk_flash 0 0 0 0 0 0 0 0 0 0 [].
Definition slc0 : en_slc_info := mk_slc 0 [] 0 (zeros 8) (replicate 4 (zeros 8)) (zeros
    8) NoSlc.
Definition retry0 : read_retry_info := mk_retry 0 0 0 0 0 0 0 (zeros 4) (zeros 4) (zeros
    8) (zeros 8) (replicate 4 (zeros 8)) (replicate 4 (replicate 30 (zeros 8)))
    (replicate 4 (replicate 30 (zeros 8))) NoRetry.
Definition ctl0 : hw_controller := mk_ctl 0 0 [] [] 0 0 0 0 0 0 0 0 0 0 0 0 0 0 0 0 0 0
    0 0 0 0 0 0 0 Null Null Null Null 0 0 slc0 retry0.
Definition ops0 : chip_ops_para := mk_ops 0 0 Null Null 0 0 0 0.
Definition arg0 : nand_arg_info := mk_arg 0 0 0 0 0 0 0.
Definition chip0 : amlnand_chip := mk_chip 0 0 0 0 ctl0 ops0 flash0 Null Null Null arg0
    arg0 arg0 arg0 arg0 arg0 [] 0 Null Null 0.
Definition world0 {D} (d : D) : world D :=
  mk_world chip0 1 0 0 0 false 0 empty 1 (fun _ => 0) (fun _ _ => 0) 0%nat [] d.
