(* ===== verification/Machine.v ===== *)
(** * Machine: the primitive actions of the driver.

    Reading and updating the driver's structures, the C memory (loads and
    stores that fault on NULL and past the end of an allocation), the kernel's
    allocator, and the frame lemmas that say which part of the state each of
    them touches. *)
From S2P Require Import Prelude Data.

Abbreviation act D := (M (world D)).

(** ** The structures *)
Section Structures.
Context {D : Type}.

Definition chip {A} (f : amlnand_chip -> A) : act D A :=
  gets (fun w => f w.(w_chip)).
Definition ctl_ {A} (f : hw_controller -> A) : act D A :=
  chip (fun c => f c.(controller)).
Definition ops_ {A} (f : chip_ops_para -> A) : act D A :=
  chip (fun c => f c.(ops_para)).
Definition flash_ {A} (f : nand_flash -> A) : act D A :=
  chip (fun c => f c.(flash)).

Definition upd_chip (f : amlnand_chip -> amlnand_chip) : act D unit :=
  modify (fun w => set_w_chip (f w.(w_chip)) w).
Definition upd_ctl (f : hw_controller -> hw_controller) : act D unit :=
  upd_chip (fun c => set_controller (f c.(controller)) c).
Definition upd_ops (f : chip_ops_para -> chip_ops_para) : act D unit :=
  upd_chip (fun c => set_ops_para (f c.(ops_para)) c).
Definition upd_flash (f : nand_flash -> nand_flash) : act D unit :=
  upd_chip (fun c => set_flash (f c.(flash)) c).

(** A kernel call that may fail: its result is the next answer. *)
Definition kernel_call : act D Z :=
  n ← gets w_calls;
  modify (fun w => set_w_calls (S n) w) ;;
  gets (fun w => w.(w_oracle) n).
End Structures.

(** ** Memory *)

(** [n] bytes of an allocation from an offset, when they are all inside. *)
Definition peek (m : memory) (p : ptr) (n : Z) : Datatypes.option (list Z) :=
  match p with
  | Null => None
  | Ptr b off =>
      match m !! b with
      | Some l =>
          if (0 <=? off) && (0 <=? n) && (off + n <=? Z.of_nat (length l))
          then Some (take (Z.to_nat n) (drop (Z.to_nat off) l)) else None
      | None => None
      end
  end.

(** Overwrites bytes of an allocation from an offset. *)
Definition splice (l : list Z) (off : Z) (bs : list Z) : list Z :=
  take (Z.to_nat off) l ++ bs ++ drop (Z.to_nat off + length bs) l.

Definition poke (m : memory) (p : ptr) (bs : list Z) : Datatypes.option memory :=
  match p with
  | Null => None
  | Ptr b off =>
      match m !! b with
      | Some l =>
          if (0 <=? off) && (off + Z.of_nat (length bs) <=? Z.of_nat (length l))
          then Some (<[b := splice l off bs]> m) else None
      | None => None
      end
  end.

(** What kind of fault a bad access is. *)
Definition bad_access (m : memory) (p : ptr) : fault :=
  match p with
  | Null => NullDeref
  | Ptr b _ => match m !! b with Some _ => OutOfBounds | None => NullDeref end
  end.

(** Little-endian integers, as the ARM core stores them. *)
Definition le_bytes (n : nat) (v : Z) : list Z :=
  map (fun i => Z.land (Z.shiftr v (8 * Z.of_nat i)) 255) (seq 0 n).
Fixpoint le_value (bs : list Z) : Z :=
  match bs with
  | [] => 0
  | b :: bs' => b + 256 * le_value bs'
  end.

Section Memory.
Context {D : Type}.

Definition load_bytes (p : ptr) (n : Z) : act D (list Z) := fun w =>
  match peek w.(w_mem) p n with
  | Some bs => Done bs w
  | None => Fault (bad_access w.(w_mem) p) w
  end.
Definition store_bytes (p : ptr) (bs : list Z) : act D unit := fun w =>
  match poke w.(w_mem) p bs with
  | Some m => Done tt (set_w_mem m w)
  | None => Fault (bad_access w.(w_mem) p) w
  end.

Definition load8 (p : ptr) : act D Z := l ← load_bytes p 1; mret (le_value l).
Definition load16 (p : ptr) : act D Z := l ← load_bytes p 2; mret (le_value l).
Definition load32 (p : ptr) : act D Z := l ← load_bytes p 4; mret (le_value l).
Definition store8 (p : ptr) (v : Z) : act D unit := store_bytes p (le_bytes 1 v).
Definition store16 (p : ptr) (v : Z) : act D unit := store_bytes p (le_bytes 2 v).
Definition store32 (p : ptr) (v : Z) : act D unit := store_bytes p (le_bytes 4 v).

(** The string functions of the kernel. *)
Definition memset (p : ptr) (c n : Z) : act D unit :=
  store_bytes p (replicate (Z.to_nat n) (u8 c)).
Definition memcpy (dst src : ptr) (n : Z) : act D unit :=
  l ← load_bytes src n; store_bytes dst l.
(** [memcmp(p, name, n) == 0] against a constant *)
Definition mem_eq (p : ptr) (name : list Z) : act D bool :=
  l ← load_bytes p (Z.of_nat (length name));
  mret (bool_decide (l = name)).

(** A fresh allocation; a negative answer is a failed [kmalloc]. *)
Definition alloc_ (bytes : nat -> list Z) : act D ptr :=
  n ← gets w_calls;
  r ← kernel_call;
  if r <? 0 then mret Null
  else
    b ← gets w_brk;
    modify (fun w => set_w_mem (<[b := bytes n]> w.(w_mem)) (set_w_brk (b + 1) w)) ;;
    mret (Ptr b 0).
Definition kzalloc (n : Z) : act D ptr :=
  alloc_ (fun _ => replicate (Z.to_nat n) 0).
Definition kmalloc (n : Z) : act D ptr :=
  junk ← gets w_junk;
  alloc_ (fun k => map (fun i => u8 (junk k (Z.of_nat i))) (seq 0 (Z.to_nat n))).

(** [kfree]; freeing NULL does nothing, and only the start of an allocation
    can be freed. *)
Definition kfree (p : ptr) : act D unit :=
  match p with
  | Null => mret tt
  | Ptr b off => if off =? 0 then modify (fun w => set_w_mem (delete b w.(w_mem)) w)
                 else throw BadFree
  end.
End Memory.

(** C's array access, and division as the code relies on it. *)
Definition arr (l : list Z) (i : Z) : Z := nth (Z.to_nat i) l 0.
Definition div_ {S : Type} (a b : Z) : M S Z :=
  if b =? 0 then throw DivByZero else mret (a / b).
Definition mod_ {S : Type} (a b : Z) : M S Z :=
  if b =? 0 then throw DivByZero else mret (a mod b).

(** Four-character names, as the metadata heads are. *)
Definition ascii4 (s : string) : list Z :=
  map (fun c => Z.of_N (Ascii.N_of_ascii c)) (String.list_ascii_of_string s).

(** ** Facts about the memory *)

Lemma length_splice l off bs :
  0 <= off -> off + Z.of_nat (length bs) <= Z.of_nat (length l) ->
  length (splice l off bs) = length l.
Proof.
  intros. unfold splice. rewrite !length_app, length_take, length_drop. lia.
Qed.

Lemma splice_inside l off bs :
  0 <= off -> off + Z.of_nat (length bs) <= Z.of_nat (length l) ->
  take (length bs) (drop (Z.to_nat off) (splice l off bs)) = bs.
Proof.
  intros. unfold splice. rewrite drop_app_ge by (rewrite length_take; lia).
  rewrite length_take. replace (_ - _)%nat with 0%nat by lia.
  by rewrite drop_0, take_app_length.
Qed.

(** A store is read back where it was put... *)
Lemma peek_poke m p bs m' :
  poke m p bs = Some m' -> peek m' p (Z.of_nat (length bs)) = Some bs.
Proof.
  unfold peek, poke. destruct p as [|b off]; [done|].
  destruct (m !! b) as [l|] eqn:Hl; [|done].
  destruct (_ && _) eqn:Hb; [|done]. intros [= <-].
  apply andb_true_iff in Hb as [H1 H2]. apply Z.leb_le in H1, H2.
  rewrite lookup_insert_eq.
  rewrite length_splice by done.
  rewrite (proj2 (Z.leb_le 0 off) H1), (proj2 (Z.leb_le _ _) (Nat2Z.is_nonneg _)).
  rewrite (proj2 (Z.leb_le _ _) H2). cbn.
  by rewrite Nat2Z.id, splice_inside.
Qed.

(** ... and leaves other allocations alone. *)
Lemma peek_poke_other m b off b' off' bs m' n :
  poke m (Ptr b off) bs = Some m' -> b <> b' ->
  peek m' (Ptr b' off') n = peek m (Ptr b' off') n.
Proof.
  unfold peek, poke. destruct (m !! b) as [l|]; [|done].
  destruct (_ && _); [|done]. intros [= <-] ?. by rewrite lookup_insert_ne.
Qed.

(** *** Reading what was stored *)
Section Peek.
Implicit Types (m : memory) (p : ptr) (l bs : list Z).

Lemma peek_Some m p n l :
  peek m p n = Some l <->
  exists b off a, p = Ptr b off /\ m !! b = Some a /\ 0 <= off /\ 0 <= n /\
    off + n <= Z.of_nat (length a) /\ l = take (Z.to_nat n) (drop (Z.to_nat off) a).
Proof.
  split.
  - destruct p as [|b off]; [done|]. cbn. destruct (m !! b) as [a|] eqn:Ha; [|done].
    destruct (_ && _) eqn:Hb; [|done]. intros [= <-].
    exists b, off, a. repeat split; try done; lia.
  - intros (b & off & a & -> & Ha & ? & ? & ? & ->). cbn. rewrite Ha.
    by replace (_ && _) with true by (symmetry; lia).
Qed.

Lemma peek_length m p n l : peek m p n = Some l -> length l = Z.to_nat n.
Proof.
  intros (b & off & a & -> & _ & ? & ? & ? & ->)%peek_Some.
  rewrite length_take, length_drop. lia.
Qed.

Lemma peek_sub m p n l off k :
  peek m p n = Some l -> 0 <= off -> 0 <= k -> off + k <= n ->
  peek m (ptr_add p off) k = Some (take (Z.to_nat k) (drop (Z.to_nat off) l)).
Proof.
  intros (b & o & a & -> & Ha & ? & ? & ? & ->)%peek_Some ???. apply peek_Some.
  exists b, (o + off), a. cbn. repeat split; try done; try lia.
  rewrite skipn_firstn_comm, take_take, drop_drop. f_equal; [lia|]. f_equal. lia.
Qed.

(** What can be read can be overwritten. *)
Lemma peek_poke_Some m p n l bs :
  peek m p n = Some l -> Z.of_nat (length bs) <= n -> exists m', poke m p bs = Some m'.
Proof.
  intros (b & o & a & -> & Ha & ? & ? & ? & _)%peek_Some ?. cbn. rewrite Ha.
  replace (_ && _) with true by (symmetry; lia). eauto.
Qed.

Lemma poke_Some m p bs m' :
  poke m p bs = Some m' <->
  exists b off a, p = Ptr b off /\ m !! b = Some a /\ 0 <= off /\
    off + Z.of_nat (length bs) <= Z.of_nat (length a) /\ m' = <[b := splice a off bs]> m.
Proof.
  split.
  - destruct p as [|b off]; [done|]. cbn. destruct (m !! b) as [a|] eqn:Ha; [|done].
    destruct (_ && _) eqn:Hb; [|done]. intros [= <-].
    exists b, off, a. repeat split; try done; lia.
  - intros (b & off & a & -> & Ha & ? & ? & ->). cbn. rewrite Ha.
    by replace (_ && _) with true by (symmetry; lia).
Qed.

(** Everything from [p] on, after its first bytes were overwritten. *)
Lemma peek_poke_prefix m p n l bs m' :
  peek m p n = Some l -> Z.of_nat (length bs) <= n -> poke m p bs = Some m' ->
  peek m' p n = Some (bs ++ drop (length bs) l).
Proof.
  intros (b & o & a & -> & Ha & ? & ? & ? & ->)%peek_Some ? Hp.
  apply poke_Some in Hp as (b2 & o2 & a2 & [= <- <-] & Ha' & ? & ? & ->).
  assert (a2 = a) as -> by congruence.
  apply peek_Some. exists b, o, (splice a o bs).
  rewrite lookup_insert_eq, length_splice by lia. repeat split; try done; try lia.
  unfold splice. rewrite drop_app_ge by (rewrite length_take; lia).
  rewrite length_take. replace (_ - _)%nat with 0%nat by lia. rewrite drop_0.
  rewrite take_app_ge by lia. f_equal. rewrite skipn_firstn_comm, drop_drop. f_equal; lia.
Qed.

(** Bytes overwritten inside what is read. *)
Lemma peek_poke_inside m p n l off bs m' :
  peek m p n = Some l -> 0 <= off -> off + Z.of_nat (length bs) <= n ->
  poke m (ptr_add p off) bs = Some m' -> peek m' p n = Some (splice l off bs).
Proof.
  intros (b & o & a & -> & Ha & ? & ? & ? & ->)%peek_Some ?? Hp.
  apply poke_Some in Hp as (b2 & o2 & a2 & [= <- <-] & Ha' & ? & ? & ->).
  assert (a2 = a) as -> by congruence.
  apply peek_Some. exists b, o, (splice a (o + off) bs).
  rewrite lookup_insert_eq, length_splice by lia. repeat split; try done; try lia.
  set (y := take (Z.to_nat n) (drop (Z.to_nat o) a)).
  assert (length y = Z.to_nat n) as Hy by (unfold y; rewrite length_take, length_drop; lia).
  assert (a = take (Z.to_nat o) a ++ y ++ drop (Z.to_nat n) (drop (Z.to_nat o) a)) as Hsplit
    by (unfold y; by rewrite take_drop, take_drop).
  set (x := take _ a) in Hsplit. set (z := drop _ (drop _ a)) in Hsplit.
  assert (length x = Z.to_nat o) as Hx by (unfold x; rewrite length_take; lia).
  clearbody x y z. subst a. unfold splice.
  rewrite (take_app_ge x) by lia. rewrite (take_app_le y) by lia.
  rewrite <- !app_assoc, drop_app_length' by lia.
  rewrite (drop_app_ge x) by lia. rewrite (drop_app_le y) by lia.
  rewrite !app_assoc, take_app_length'; [f_equal; [f_equal; f_equal; lia | f_equal; lia]|].
  rewrite !length_app, length_take, length_drop. lia.
Qed.

(** What was read before, and behind it what was just written. *)
Lemma peek_poke_append m p n l bs m' :
  peek m p n = Some l -> poke m (ptr_add p n) bs = Some m' ->
  peek m' p (n + Z.of_nat (length bs)) = Some (l ++ bs).
Proof.
  intros (b & o & a & -> & Ha & ? & ? & ? & ->)%peek_Some Hp.
  apply poke_Some in Hp as (b2 & o2 & a2 & [= <- <-] & Ha' & ? & ? & ->).
  assert (a2 = a) as -> by congruence.
  apply peek_Some. exists b, o, (splice a (o + n) bs).
  rewrite lookup_insert_eq, length_splice by lia. repeat split; try done; try lia.
  unfold splice. rewrite drop_app_le by (rewrite length_take; lia).
  rewrite skipn_firstn_comm.
  rewrite take_app_ge by (rewrite length_take, length_drop; lia).
  rewrite length_take, length_drop.
  replace (Z.to_nat (n + _) - _)%nat with (length bs) by lia.
  rewrite take_app_length. f_equal. f_equal. lia.
Qed.

(** What lies before the bytes that are overwritten. *)
Lemma peek_poke_before m p o n l off bs m' :
  poke m (ptr_add p off) bs = Some m' -> peek m (ptr_add p o) n = Some l -> o + n <= off ->
  peek m' (ptr_add p o) n = Some l.
Proof.
  intros (b & po & a & Ep & Ha & ? & ? & ->)%poke_Some
    (b' & po' & a' & Ep' & Ha' & ? & ? & ? & ->)%peek_Some ?.
  destruct p as [|b0 o0]; [done|]. cbn in Ep, Ep'.
  injection Ep as <- <-. injection Ep' as <- <-. assert (a' = a) as -> by congruence.
  apply peek_Some. exists b0, (o0 + o), (splice a (o0 + off) bs).
  rewrite lookup_insert_eq, length_splice by lia. repeat split; try done.
  unfold splice. rewrite drop_app_le by (rewrite length_take; lia).
  rewrite take_app_le by (rewrite length_drop, length_take; lia).
  rewrite skipn_firstn_comm, take_take. f_equal. lia.
Qed.

Lemma peek_poke_ne m p bs m' p' n :
  poke m p bs = Some m' -> (forall b o b' o', p = Ptr b o -> p' = Ptr b' o' -> b <> b') ->
  peek m' p' n = peek m p' n.
Proof.
  intros H Hne. destruct p as [|b o]; [done|]. destruct p' as [|b' o']; [done|].
  eapply peek_poke_other; [done | by eapply Hne].
Qed.

(** What a longer overwriting leaves readable. *)
Lemma poke_keeps m p bs m' p' n l :
  poke m p bs = Some m' -> peek m p' n = Some l -> exists l', peek m' p' n = Some l'.
Proof.
  intros (b & o & a & -> & Ha & ? & ? & ->)%poke_Some
    (b' & o' & a' & -> & Ha' & ? & ? & ? & _)%peek_Some.
  destruct (decide (b = b')) as [<-|Hne]; eexists; apply peek_Some.
  - assert (a' = a) as -> by congruence. exists b, o', (splice a o bs).
    rewrite lookup_insert_eq, length_splice by lia. repeat split; try done; lia.
  - exists b', o', a'. rewrite lookup_insert_ne by done. repeat split; try done; lia.
Qed.
End Peek.

Lemma length_le_bytes n v : length (le_bytes n v) = n.
Proof. unfold le_bytes. by rewrite length_map, length_seq. Qed.

Lemma le_bytes_S n v :
  le_bytes (S n) v = Z.land v 255 :: le_bytes n (Z.shiftr v 8).
Proof.
  unfold le_bytes. cbn [seq map]. f_equal.
  rewrite <- seq_shift, map_map. apply map_ext. intros i.
  rewrite Z.shiftr_shiftr by lia. do 2 f_equal. lia.
Qed.

(** Storing an integer and loading it back gives its low bytes. *)
Lemma le_value_bytes n v :
  le_value (le_bytes n v) = v mod 2 ^ (8 * Z.of_nat n).
Proof.
  revert v. induction n as [|n IH]; intros v.
  - cbn. by rewrite Z.mod_1_r.
  - rewrite le_bytes_S. cbn [le_value]. rewrite IH.
    change 255 with (Z.ones 8). rewrite Z.land_ones by lia.
    rewrite Z.shiftr_div_pow2 by lia.
    replace (8 * Z.of_nat (S n)) with (8 + 8 * Z.of_nat n) by lia.
    rewrite Z.pow_add_r by lia.
    rewrite Z.rem_mul_r by (try apply Z.pow_nonzero; try apply Z.pow_pos_nonneg; lia).
    change (2 ^ 8) with 256. lia.
Qed.

Lemma le_value_bound bs :
  Forall (fun b => 0 <= b < 256) bs ->
  0 <= le_value bs < 2 ^ (8 * Z.of_nat (length bs)).
Proof.
  induction 1 as [|b bs Hb _ IH]; [done|]. cbn [le_value length].
  replace (8 * Z.of_nat (S (length bs))) with (8 + 8 * Z.of_nat (length bs)) by lia.
  rewrite Z.pow_add_r by lia. change (2 ^ 8) with 256. nia.
Qed.

(** ** Frames
    A relation between states that does not look at what reading, writing and
    erasing pages may change: the controller, [ops_para], the counters, the
    lock, memory and the device.  A [ChipFrame] looks at nothing of the chip. *)
Class Frame {D : Type} (R : world D -> world D -> Prop) : Prop := {
  frame_preorder :: PreOrder R;
  frame_ctl : forall c w, R w (set_w_chip (set_controller c w.(w_chip)) w);
  frame_ops : forall o w, R w (set_w_chip (set_ops_para o w.(w_chip)) w);
  frame_ecc : forall n w, R w (set_w_chip (set_max_ecc_per_page n w.(w_chip)) w);
  frame_state : forall n w, R w (set_w_chip (set_state n w.(w_chip)) w);
  frame_mem : forall m w, R w (set_w_mem m w);
  frame_brk : forall b w, R w (set_w_brk b w);
  frame_calls : forall n w, R w (set_w_calls n w);
  frame_mutex : forall b w, R w (set_w_mutex b w);
  frame_idleflag : forall n w, R w (set_w_idleflag n w);
  frame_refused : forall n w, R w (set_w_refused n w);
  frame_dev : forall d w, R w (set_w_dev d w)
}.

Class ChipFrame {D : Type} (R : world D -> world D -> Prop) : Prop :=
  frame_chip : forall c w, R w (set_w_chip c w).

Section FrameLemmas.
Context {D : Type} (R : world D -> world D -> Prop) `{!Frame R}.

Lemma respects_chip {A} (f : amlnand_chip -> A) : respects R (chip f).
Proof. apply respects_gets; apply _. Qed.
Lemma respects_upd_chip `{!ChipFrame R} f : respects R (upd_chip f).
Proof. apply respects_modify. intros. apply frame_chip. Qed.
Lemma respects_upd_ctl f : respects R (upd_ctl f).
Proof. apply respects_modify. intros. apply frame_ctl. Qed.
Lemma respects_upd_ops f : respects R (upd_ops f).
Proof. apply respects_modify. intros. apply frame_ops. Qed.
Lemma respects_upd_ecc n : respects R (upd_chip (set_max_ecc_per_page n)).
Proof. apply respects_modify. intros. apply frame_ecc. Qed.
Lemma respects_upd_state n : respects R (upd_chip (set_state n)).
Proof. apply respects_modify. intros. apply frame_state. Qed.

Lemma respects_kernel_call : respects R kernel_call.
Proof.
  repeat (apply respects_bind || apply respects_gets || intros ? || apply _).
  apply respects_modify. intros. apply frame_calls.
Qed.

Lemma respects_load_bytes p n : respects R (load_bytes p n).
Proof. intros w. unfold wp, load_bytes. destruct (peek _ _ _); reflexivity. Qed.
Lemma respects_store_bytes p bs : respects R (store_bytes p bs).
Proof.
  intros w. unfold wp, store_bytes. destruct (poke _ _ _); [|reflexivity].
  apply frame_mem.
Qed.

Lemma respects_alloc bytes : respects R (alloc_ bytes).
Proof.
  unfold alloc_. apply respects_bind; [apply _ | apply respects_gets, _ | intros n].
  apply respects_bind; [apply _ | apply respects_kernel_call | intros r].
  destruct (r <? 0); [apply respects_ret, _|].
  apply respects_bind; [apply _ | apply respects_gets, _ | intros b].
  apply respects_bind; [apply _ | | intros; apply respects_ret, _].
  apply respects_modify. intros w. etransitivity; [apply frame_brk | apply frame_mem].
Qed.
Lemma respects_kfree p : respects R (kfree p).
Proof.
  destruct p as [|b off]; [apply respects_ret, _|]. cbn.
  destruct (off =? 0); [apply respects_modify; intros; apply frame_mem | apply respects_throw, _].
Qed.
End FrameLemmas.

Lemma respects_div {S : Type} (R : S -> S -> Prop) `{!PreOrder R} a b :
  respects R (div_ a b).
Proof. unfold div_. destruct (_ =? _); [apply respects_throw | apply respects_ret]; apply _. Qed.
Lemma respects_mod {S : Type} (R : S -> S -> Prop) `{!PreOrder R} a b :
  respects R (mod_ a b).
Proof. unfold mod_. destruct (_ =? _); [apply respects_throw | apply respects_ret]; apply _. Qed.
#[export] Hint Resolve respects_div respects_mod : respects.

#[export] Hint Resolve respects_upd_ecc | 0 : respects.
#[export] Hint Resolve respects_chip respects_upd_chip respects_upd_ctl respects_upd_ops
  respects_kernel_call
  respects_load_bytes respects_store_bytes respects_alloc respects_kfree : respects.
#[export] Hint Extern 5 (Frame _) => typeclasses eauto : respects.
#[export] Hint Extern 5 (ChipFrame _) => typeclasses eauto : respects.
#[export] Hint Extern 5 (PreOrder _) => typeclasses eauto : respects.
#[export] Hint Extern 5 (respects _ (gets _)) =>
  apply respects_gets; typeclasses eauto : respects.

(** ** Weakest preconditions of the primitives *)
Section MachineWp.
Context {D : Type}.
Implicit Types w : world D.

Lemma wp_chip {A} (f : amlnand_chip -> A) Q E w : Q (f w.(w_chip)) w -> wp (chip f) Q E w.
Proof. done. Qed.
Lemma wp_upd_chip f Q E w :
  Q tt (set_w_chip (f w.(w_chip)) w) -> wp (upd_chip f) Q E w.
Proof. done. Qed.
Lemma wp_load_bytes p n bs Q E w :
  peek w.(w_mem) p n = Some bs -> Q bs w -> wp (load_bytes p n) Q E w.
Proof. intros H HQ. unfold wp, load_bytes. by rewrite H. Qed.
Lemma wp_store_bytes p bs m Q E w :
  poke w.(w_mem) p bs = Some m -> Q tt (set_w_mem m w) -> wp (store_bytes p bs) Q E w.
Proof. intros H HQ. unfold wp, store_bytes. by rewrite H. Qed.
Lemma wp_load32 p bs Q E w :
  peek w.(w_mem) p 4 = Some bs -> Q (le_value bs) w -> wp (load32 p) Q E w.
Proof. intros H HQ. apply wp_bind, (wp_load_bytes _ _ bs); [done|]. by apply wp_ret. Qed.
Lemma load32_eq p bs w :
  peek w.(w_mem) p 4 = Some bs -> load32 p w = Done (le_value bs) w.
Proof. intros H. unfold load32, mbind, M_bind, load_bytes. by rewrite H. Qed.
Lemma wp_load16 p bs Q E w :
  peek w.(w_mem) p 2 = Some bs -> Q (le_value bs) w -> wp (load16 p) Q E w.
Proof. intros H HQ. apply wp_bind, (wp_load_bytes _ _ bs); [done|]. by apply wp_ret. Qed.
Lemma wp_load8 p bs Q E w :
  peek w.(w_mem) p 1 = Some bs -> Q (le_value bs) w -> wp (load8 p) Q E w.
Proof. intros H HQ. apply wp_bind, (wp_load_bytes _ _ bs); [done|]. by apply wp_ret. Qed.
Lemma wp_div {S : Type} a b (Q : Z -> S -> Prop) E s :
  b <> 0 -> Q (a / b) s -> wp (div_ a b) Q E s.
Proof. intros H HQ. unfold div_. rewrite (proj2 (Z.eqb_neq _ _) H). by apply wp_ret. Qed.
Lemma wp_mod {S : Type} a b (Q : Z -> S -> Prop) E s :
  b <> 0 -> Q (a mod b) s -> wp (mod_ a b) Q E s.
Proof. intros H HQ. unfold mod_. rewrite (proj2 (Z.eqb_neq _ _) H). by apply wp_ret. Qed.
End MachineWp.

(** Runs the reads and writes of the structures at the head of an action. *)
Ltac wp_step :=
  match goal with
  | |- wp (mbind _ _) _ _ _ => apply wp_bind
  | |- wp (mret _) _ _ _ => apply wp_ret
  | |- wp (gets _) _ _ _ => apply wp_gets
  | |- wp (modify _) _ _ _ => apply wp_modify
  | |- wp (chip _) _ _ _ => apply wp_chip
  | |- wp (ctl_ _) _ _ _ => apply wp_chip
  | |- wp (ops_ _) _ _ _ => apply wp_chip
  | |- wp (flash_ _) _ _ _ => apply wp_chip
  | |- wp (upd_chip _) _ _ _ => apply wp_upd_chip
  | |- wp (upd_ctl _) _ _ _ => apply wp_upd_chip
  | |- wp (upd_ops _) _ _ _ => apply wp_upd_chip
  | |- wp (upd_flash _) _ _ _ => apply wp_upd_chip
  end.
Ltac wp_steps := repeat (wp_step; cbv beta zeta).

(** ** The primitives do not run out of fuel *)
Section MachineBounded.
Context {D : Type}.

Lemma bad_access_fuel m p : bad_access m p <> OutOfFuel.
Proof. destruct p; cbn; [done|]. by destruct (m !! b). Qed.

Lemma bounded_load_bytes p n : bounded (S := world D) (load_bytes p n).
Proof.
  intros w. unfold wp, load_bytes. destruct (peek _ _ _); [done|]. apply bad_access_fuel.
Qed.
Lemma bounded_store_bytes p bs : bounded (S := world D) (store_bytes p bs).
Proof.
  intros w. unfold wp, store_bytes. destruct (poke _ _ _); [done|]. apply bad_access_fuel.
Qed.
Lemma bounded_kernel_call : bounded (S := world D) kernel_call.
Proof. done. Qed.
Lemma bounded_alloc bytes : bounded (S := world D) (alloc_ bytes).
Proof. unfold alloc_. solve_bounded; apply bounded_kernel_call. Qed.
Lemma bounded_kfree p : bounded (S := world D) (kfree p).
Proof. destruct p as [|b off]; [done|]. cbn. by destruct (off =? 0). Qed.
Lemma bounded_div {S : Type} a b : bounded (S := S) (div_ a b).
Proof. unfold div_. solve_bounded. Qed.
Lemma bounded_mod {S : Type} a b : bounded (S := S) (mod_ a b).
Proof. unfold mod_. solve_bounded. Qed.
Lemma bounded_chip {A} (f : amlnand_chip -> A) : bounded (S := world D) (chip f).
Proof. done. Qed.
Lemma bounded_upd_chip f : bounded (S := world D) (upd_chip f).
Proof. done. Qed.
Lemma bounded_upd_ctl f : bounded (S := world D) (upd_ctl f).
Proof. done. Qed.
Lemma bounded_upd_ops f : bounded (S := world D) (upd_ops f).
Proof. done. Qed.
End MachineBounded.
#[export] Hint Resolve bounded_load_bytes bounded_store_bytes bounded_kernel_call
  bounded_alloc bounded_kfree bounded_div bounded_mod bounded_chip bounded_upd_chip
  bounded_upd_ctl bounded_upd_ops : bounded.
