(* ===== verification/Guards.v ===== *)
(** * Guards: [nfc_map.c].

    The list of partitions that get an FTL, the write guard's counter, and the
    mapping of the controller with its two clocks.  A C string is the list of
    the characters before its NUL. *)
From S2P Require Import Prelude Data Machine.

(** ** The partition filter *)
Module PartFilter.

Abbreviation cstring := (list Ascii.ascii).
Definition c_str (s : string) : cstring := String.list_ascii_of_string s.
Definition comma : Ascii.ascii := Ascii.Ascii false false true true false true false false.

(** [strchr(p, c)]: how far the first [c] is. *)
Fixpoint strchr (c : Ascii.ascii) (p : cstring) : Datatypes.option nat :=
  match p with
  | [] => None
  | a :: p' => if Ascii.eqb a c then Some O else S <$> strchr c p'
  end.

(** The loop on [p]; [p] moves past a comma at every round. *)
Fixpoint scan (fuel : nat) (p name : cstring) : bool :=
  match fuel, p with
  | O, _ => false
  | _, [] => false
  | S fuel', _ =>
      let c := strchr comma p in
      let n := match c with Some k => k | None => length p end in
      if (n =? length name)%nat && bool_decide (take n p = take n name) then true
      else match c with
           | None => false
           | Some k => scan fuel' (drop (k + 1) p) name
           end
  end.

(** [name] is [None] when the pointer is NULL. *)
Definition amlnf_part_enabled (amlnf_parts : cstring) (name : Datatypes.option cstring)
    : bool :=
  match name with
  | None => false
  | Some name =>
      if bool_decide (amlnf_parts = c_str "all") then true
      else scan (S (length amlnf_parts)) amlnf_parts name
  end.

(** The specification: the entries between commas. *)
Fixpoint entries (p : cstring) : list cstring :=
  match p with
  | [] => [[]]
  | a :: p' =>
      if Ascii.eqb a comma then [] :: entries p'
      else match entries p' with
           | [] => [[a]]
           | e :: es => (a :: e) :: es
           end
  end.

(** The first entry and the rest, as [strchr] finds them. *)
Lemma entries_strchr p :
  entries p = match strchr comma p with
              | None => [p]
              | Some k => take k p :: entries (drop (k + 1) p)
              end.
Proof.
  induction p as [|a p IH]; [done|]. cbn [strchr entries].
  destruct (Ascii.eqb a comma); [done|].
  rewrite IH. by destruct (strchr comma p).
Qed.

Lemma strchr_lt c p k : strchr c p = Some k -> (k < length p)%nat.
Proof.
  revert k. induction p as [|a p IH]; intros k; cbn; [done|].
  destruct (Ascii.eqb a c); [intros [= <-]; lia|].
  destruct (strchr c p) as [j|]; cbn; [|done]. intros [= <-].
  specialize (IH _ eq_refl). lia.
Qed.

Lemma take_eq_iff n (p name : cstring) :
  (n <= length p)%nat ->
  (n =? length name)%nat && bool_decide (take n p = take n name) = true <-> name = take n p.
Proof.
  intros Hn. rewrite andb_true_iff, Nat.eqb_eq, bool_decide_eq_true. split.
  - intros [-> H]. by rewrite H, firstn_all.
  - intros ->. rewrite length_take, take_take. split; [lia|]. f_equal. lia.
Qed.

Lemma scan_entries fuel p name :
  name <> [] -> (length p < fuel)%nat ->
  scan fuel p name = true <-> name ∈ entries p.
Proof.
  intros Hne. revert p. induction fuel as [|fuel IH]; intros p Hf; [lia|].
  rewrite entries_strchr. destruct p as [|a p'].
  { cbn. rewrite list_elem_of_singleton. split; [done | congruence]. }
  remember (a :: p') as p eqn:Hp. replace (scan (S fuel) p name) with
    (let c := strchr comma p in
     let n := match c with Some k => k | None => length p end in
     if (n =? length name)%nat && bool_decide (take n p = take n name) then true
     else match c with None => false | Some k => scan fuel (drop (k + 1) p) name end)
    by (by subst p).
  destruct (strchr comma p) as [k|] eqn:Hk; cbn zeta.
  - apply strchr_lt in Hk.
    pose proof (take_eq_iff k p name ltac:(lia)) as Hiff.
    rewrite elem_of_cons. destruct (_ && _).
    + split; [intros _; left; by apply Hiff | done].
    + rewrite IH by (rewrite length_drop; lia).
      split; [by right | intros [H|H]; [by apply Hiff in H | done]].
  - pose proof (take_eq_iff (length p) p name ltac:(lia)) as Hiff.
    rewrite list_elem_of_singleton.
    destruct (_ && _); by rewrite firstn_all in Hiff.
Qed.

(** C26: An FTL is attached to a partition with a non-empty name exactly when the
    parameter is ["all"] or the name is one of its comma separated entries. *)
Theorem amlnf_part_enabled_spec parts name :
  name <> [] ->
  amlnf_part_enabled parts (Some name) = true <->
  parts = c_str "all" \/ name ∈ entries parts.
Proof.
  intros Hne. unfold amlnf_part_enabled.
  destruct (decide (parts = c_str "all")) as [E|E].
  - rewrite bool_decide_eq_true_2 by done. tauto.
  - rewrite bool_decide_eq_false_2 by done.
    rewrite scan_entries by (done || lia).
    split; [by right | by intros [H|H]].
Qed.

Example amlnf_part_enabled_spec_witness :
  amlnf_part_enabled (c_str "nfcache,nfdata") (Some (c_str "nfdata")) = true.
Proof.
  apply (amlnf_part_enabled_spec (c_str "nfcache,nfdata") (c_str "nfdata"));
    [discriminate | right; vm_compute; right; left].
Defined.
End PartFilter.

(** ** The counter of refused writes *)
Section Refuse.
Context {D : Type}.

(** [atomic_inc_return(&amlnf_refused)]; the message depends on the count,
    the state only on the increment. *)
Definition amlnf_refuse_write : act D unit :=
  modify (fun w => set_w_refused (s32 (w.(w_refused) + 1)) w).

Definition amlnf_refused_count : act D Z := gets w_refused.
End Refuse.

(** ** Mapping the controller *)
Module NfcMap.

(** [IS_ERR] pointers: a clock is not asked for yet, an error or a clock. *)
Inductive clk := ClkNull | ClkErr (e : Z) | ClkPtr.

(** What the platform answers.  [None] for the memory resource is a device
    without one; clocks are fetched and enabled with a result code. *)
Record platform := mk_platform {
  resource : Datatypes.option bool;   (* [Some ok]: there is one, [ioremap] gives a mapping *)
  of_node : Datatypes.option bool;    (* [Some ok]: a device tree node, [of_iomap] works *)
  get_core : clk;
  get_device : clk;
  enable_core : Z;
  set_rate : Z;
  enable_device : Z
}.

(** The statics of the file, and how often each clock is enabled. *)
Record nfc := mk_nfc {
  IO_NAND_BASE : bool;
  amlnf_core_clk : clk;
  amlnf_device_clk : clk;
  core_enables : Z;
  device_enables : Z
}.

Definition nfc_reset : nfc := mk_nfc false ClkNull ClkNull 0 0.

Definition map_regs (p : platform) (s : nfc) : bool :=
  if s.(IO_NAND_BASE) then true
  else match p.(resource), p.(of_node) with
       | Some ok, _ => ok
       | None, Some ok => ok
       | None, None => false
       end.

Definition amlnf_map_nfc (p : platform) (s : nfc) : Z * nfc :=
  if negb (map_regs p s) then (- ENOMEM, s)
  else
    let base s := mk_nfc true s.(amlnf_core_clk) s.(amlnf_device_clk)
                    s.(core_enables) s.(device_enables) in
    let s := base s in
    match s.(amlnf_core_clk) with
    | ClkNull =>
        let s := mk_nfc true p.(get_core) s.(amlnf_device_clk)
                   s.(core_enables) s.(device_enables) in
        match p.(get_core) with
        | ClkErr e => (e, s)
        | c =>
            let s := mk_nfc true c p.(get_device) s.(core_enables) s.(device_enables) in
            match p.(get_device) with
            | ClkErr e => (e, s)
            | d =>
                if truthy p.(enable_core) then (p.(enable_core), s)
                else
                  let on := mk_nfc true c d (s.(core_enables) + 1) s.(device_enables) in
                  if truthy p.(enable_device)
                  then (p.(enable_device), s)       (* core is switched off again *)
                  else (0, mk_nfc true c d on.(core_enables) (s.(device_enables) + 1))
            end
        end
    | _ => (0, s)
    end.

(** A first call that succeeds has mapped the registers and enabled both
    clocks once; one that fails leaves no clock enabled. *)
Theorem map_nfc_first_call p r s :
  p.(get_core) <> ClkNull -> p.(get_device) <> ClkNull ->
  (forall e, p.(get_core) = ClkErr e \/ p.(get_device) = ClkErr e -> e < 0) ->
  amlnf_map_nfc p nfc_reset = (r, s) ->
  (r = 0 -> IO_NAND_BASE s = true /\ core_enables s = 1 /\ device_enables s = 1) /\
  (r <> 0 -> core_enables s = 0 /\ device_enables s = 0).
Proof.
  unfold amlnf_map_nfc. intros Hc Hd He.
  destruct (map_regs p nfc_reset); cbn; [|intros [= <- <-]; done].
  destruct (get_core p) as [|e|]; [done | |].
  { specialize (He e (or_introl eq_refl)). intros [= <- <-]; cbn. split; [lia | done]. }
  destruct (get_device p) as [|e|]; [done | |].
  { specialize (He e (or_intror eq_refl)). intros [= <- <-]; cbn. split; [lia | done]. }
  unfold truthy. destruct (enable_core p =? 0) eqn:E1; cbn;
    [destruct (enable_device p =? 0) eqn:E2; cbn|];
    intros [= <- <-]; cbn; rewrite ?Z.eqb_neq in *; split; done.
Qed.

(** The probe that had to be deferred: the error pointer stays in the static,
    so the second call takes the clocks for fetched and reports success with
    both of them off. *)
Theorem map_nfc_retry_after_error p p' e s :
  p.(get_core) = ClkErr e ->
  amlnf_map_nfc p nfc_reset = (e, s) -> e <> - ENOMEM ->
  amlnf_map_nfc p' s = (0, s) /\ core_enables s = 0 /\ device_enables s = 0.
Proof.
  unfold amlnf_map_nfc. intros Hc.
  destruct (map_regs p nfc_reset) eqn:Hm; cbn; [|intros [= <- <-]; done].
  rewrite Hc. intros [= <-] _. by cbn.
Qed.

Definition board (core : clk) : platform :=
  mk_platform (Some true) None core ClkPtr 0 0 0.

Example map_nfc_first_call_witness :
  fst (amlnf_map_nfc (board ClkPtr) nfc_reset) = 0 /\
  core_enables (snd (amlnf_map_nfc (board ClkPtr) nfc_reset)) = 1.
Proof.
  split; [reflexivity|].
  apply (map_nfc_first_call (board ClkPtr) 0 (mk_nfc true ClkPtr ClkPtr 1 1));
    [discriminate | discriminate | | reflexivity | reflexivity].
  intros e [H|H]; discriminate.
Defined.

Example map_nfc_retry_after_error_witness :
  fst (amlnf_map_nfc (board ClkPtr) (snd (amlnf_map_nfc (board (ClkErr (-517))) nfc_reset)))
  = 0.
Proof.
  destruct (map_nfc_retry_after_error (board (ClkErr (-517))) (board ClkPtr) (-517)
              (mk_nfc true (ClkErr (-517)) ClkNull 0 0)) as [H _];
    [reflexivity | reflexivity | discriminate |].
  exact (f_equal fst H).
Defined.
End NfcMap.
