(* ===== verification/Ctrl.v ===== *)
(** * Ctrl: [dev/amlnf_ctrl.c].

    The chip's state, the lock around the controller ([spi_nand_mutex],
    [nand_idleflag] and [aml_chip->state]), the configuration words of the boot
    page, and the two hooks that load and refresh the metadata.  [Device] is
    one thread; [DeviceLock] has any number of threads, as a step relation. *)
From S2P Require Import Prelude Data Machine Guards.

(** ** The lock, seen by one thread *)
Section Device.
Context {D : Type}.

(** [get_chip_state] and [set_chip_state] of [dev/phydev.c]. *)
Definition get_chip_state : act D Z := chip state.
Definition set_chip_state (s : Z) : act D unit := upd_chip (set_state s).

(** A kernel mutex is not recursive: locking it twice is a deadlock. *)
Definition mutex_lock : act D unit :=
  held ← gets w_mutex;
  if (held : bool) then throw Deadlock else modify (set_w_mutex true).
Definition mutex_unlock : act D unit := modify (set_w_mutex false).

Definition pinctrl_select_state : act D Z := kernel_call.

(** [while (1)]: the mutex is taken at the head of every round, so a second
    round never returns; two rounds of fuel cover both. *)
Definition nand_get_chip : act D unit :=
  r ← while_ (R := unit) 2 (fun _ => true)
        (fun _ =>
           mutex_lock ;;
           modify (set_w_idleflag 1) ;;
           option ← ctl_ ctl_option;
           ret ← (if Z.land option NAND_CTRL_NONE_RB =? 0
                  then pinctrl_select_state else pinctrl_select_state);
           mret (if ret <? 0 then Next tt else Break tt))
        tt;
  mret tt.

Definition nand_release_chip : act D unit :=
  idle ← gets w_idleflag;
  when_ (truthy idle)
    (ret ← pinctrl_select_state;
     modify (set_w_idleflag 0) ;;
     mutex_unlock).

(** With one thread nobody else will make the chip ready. *)
Definition amlnand_get_device (new_state : Z) : act D Z :=
  st ← get_chip_state;
  if st =? CHIP_READY then
    set_chip_state new_state ;; nand_get_chip ;; mret 0
  else throw Deadlock.

Definition amlnand_release_device : act D unit :=
  set_chip_state CHIP_READY ;; nand_release_chip.

(** [if (aml_chip->state == CHIP_READY) nand_get_chip(); ...], and the same on
    the way back: whoever holds the device already goes through. *)
Definition when_ready (m : act D Z) : act D Z :=
  st ← get_chip_state;
  when_ (st =? CHIP_READY) nand_get_chip ;;
  ret ← m;
  st ← get_chip_state;
  when_ (st =? CHIP_READY) nand_release_chip ;;
  mret ret.

(** What the lock looks like when nobody has it. *)
Definition unlocked (w : world D) : Prop :=
  w.(w_mutex) = false /\ w.(w_chip).(state) = CHIP_READY.

Lemma nand_get_chip_eq (w : world D) :
  nand_get_chip w =
    if w.(w_mutex) then Fault Deadlock w
    else
      let w' := set_w_calls (S w.(w_calls))
                  (set_w_idleflag 1 (set_w_mutex true w)) in
      if w.(w_oracle) w.(w_calls) <? 0 then Fault Deadlock w' else Done tt w'.
Proof.
  unfold nand_get_chip, while_, mutex_lock, pinctrl_select_state, kernel_call, mbind, M_bind, mret, M_ret, gets, modify, throw.
  destruct (w_mutex w) eqn:Hm; [done|]. cbn.
  destruct (Z.land _ _ =? 0); cbn; by destruct (_ <? 0).
Qed.

(** Taking the device from an unlocked chip whose pins can be switched. *)
Theorem get_release_device (new_state : Z) (w : world D) :
  unlocked w ->
  0 <= w.(w_oracle) w.(w_calls) ->
  wp (amlnand_get_device new_state ;; amlnand_release_device)
     (fun _ w' => unlocked w' /\ w_idleflag w' = 0 /\ w_mem w' = w_mem w /\
                  w_log w' = w_log w) noflt w.
Proof.
  intros [Hm Hs] Ho. apply wp_bind. unfold amlnand_get_device.
  apply wp_bind. apply wp_gets. rewrite Hs. change (CHIP_READY =? CHIP_READY) with true.
  apply wp_bind, wp_modify. apply wp_bind. unfold wp at 1. rewrite nand_get_chip_eq.
  cbn. rewrite Hm. rewrite (proj2 (Z.ltb_ge _ _) Ho).
  unfold amlnand_release_device, nand_release_chip, wp. cbn. done.
Qed.

(** When the pins cannot be switched the retry takes the mutex again: the
    thread deadlocks on itself and never reports the error. *)
Theorem nand_get_chip_pinctrl_failure (w : world D) :
  w.(w_mutex) = false -> w.(w_oracle) w.(w_calls) < 0 ->
  exists w', nand_get_chip w = Fault Deadlock w'.
Proof.
  intros Hm Ho. rewrite nand_get_chip_eq, Hm, (proj2 (Z.ltb_lt _ _) Ho). eauto.
Qed.
End Device.

(** ** Taking and giving back the device
    The kernel lets the pins be switched. *)
Section Holding.
Context {D : Type}.
Implicit Types w : world D.

Definition willing w : Prop := forall n, 0 <= w_oracle w n.

Definition driven (s : Z) w : world D := set_w_chip (set_state s (w_chip w)) w.
(** But for the lock. *)
Definition rest w := (w_dev w, w_mem w, w_brk w, w_oracle w, w_allow_meta w).

Lemma wp_get_chip (Q : unit -> world D -> Prop) E w :
  w_mutex w = false -> 0 <= w_oracle w (w_calls w) ->
  Q tt (set_w_calls (S (w_calls w)) (set_w_idleflag 1 (set_w_mutex true w))) ->
  wp nand_get_chip Q E w.
Proof.
  intros Hm Ho HQ. unfold wp. by rewrite nand_get_chip_eq, Hm, (proj2 (Z.ltb_ge _ _) Ho).
Qed.

Lemma wp_take s w (Q : Z -> world D -> Prop) :
  unlocked w -> willing w ->
  (forall w', w_chip w' = set_state s (w_chip w) -> rest w' = rest w -> w_idleflag w' = 1 ->
     Q 0 w') ->
  wp (amlnand_get_device s) Q noflt w.
Proof.
  intros [Hm Hst] Ho HQ. unfold amlnand_get_device, get_chip_state, set_chip_state. wp_steps.
  rewrite Hst. change (CHIP_READY =? CHIP_READY) with true. cbv iota. wp_steps.
  eapply wp_get_chip; [exact Hm | apply Ho |]. wp_steps. by apply HQ.
Qed.

Lemma wp_give w (Q : unit -> world D -> Prop) E :
  w_idleflag w = 1 ->
  (forall w', w_chip w' = set_state CHIP_READY (w_chip w) -> rest w' = rest w -> unlocked w' ->
     Q tt w') ->
  wp amlnand_release_device Q E w.
Proof.
  intros Hi HQ. unfold amlnand_release_device, nand_release_chip, set_chip_state,
    pinctrl_select_state, kernel_call, mutex_unlock. wp_steps.
  cbn [w_idleflag set_w_chip]. rewrite Hi. cbn [truthy Z.eqb negb when_]. wp_steps. by apply HQ.
Qed.

Lemma rest_inv w w' : rest w' = rest w ->
  w_dev w' = w_dev w /\ w_mem w' = w_mem w /\ w_brk w' = w_brk w /\ w_oracle w' = w_oracle w /\
  w_allow_meta w' = w_allow_meta w.
Proof. unfold rest. intros E. by simplify_eq. Qed.
End Holding.

Lemma bounded_nand_get_chip {D} : bounded (S := world D) nand_get_chip.
Proof.
  intros w. unfold wp. rewrite nand_get_chip_eq. cbv zeta.
  destruct (w_mutex w); [done|]. by destruct (w_oracle w (w_calls w) <? 0).
Qed.
Lemma bounded_nand_release_chip {D} : bounded (S := world D) nand_release_chip.
Proof.
  unfold nand_release_chip, pinctrl_select_state, mutex_unlock. solve_bounded.
Qed.
#[export] Hint Resolve bounded_nand_get_chip bounded_nand_release_chip : bounded.
Lemma bounded_when_ready {D} (m : act D Z) : bounded m -> bounded (when_ready m).
Proof. intros. unfold when_ready, get_chip_state. solve_bounded. Qed.
#[export] Hint Resolve bounded_when_ready : bounded.

Section DeviceFrame.
Context {D : Type} (R : world D -> world D -> Prop) `{!Frame R}.

Lemma respects_get_chip_state : respects R get_chip_state.
Proof. apply respects_chip, _. Qed.
Lemma respects_set_chip_state s : respects R (set_chip_state s).
Proof. apply respects_upd_state, _. Qed.
Lemma respects_mutex_unlock : respects R mutex_unlock.
Proof. apply respects_modify. intros; apply frame_mutex. Qed.
Lemma respects_set_idleflag v : respects R (modify (set_w_idleflag v)).
Proof. apply respects_modify. intros; apply frame_idleflag. Qed.
Lemma respects_refuse_write : respects R amlnf_refuse_write.
Proof. apply respects_modify. intros; apply frame_refused. Qed.
#[local] Hint Resolve respects_mutex_unlock respects_set_idleflag : respects.

Lemma respects_mutex_lock : respects R mutex_lock.
Proof.
  unfold mutex_lock. solve_respects. apply respects_modify. intros; apply frame_mutex.
Qed.
#[local] Hint Resolve respects_mutex_lock respects_get_chip_state
  respects_set_chip_state : respects.

Lemma respects_nand_get_chip : respects R nand_get_chip.
Proof. unfold nand_get_chip, ctl_, pinctrl_select_state. solve_respects. Qed.
Lemma respects_nand_release_chip : respects R nand_release_chip.
Proof. unfold nand_release_chip, pinctrl_select_state. solve_respects. Qed.
#[local] Hint Resolve respects_nand_get_chip respects_nand_release_chip : respects.
Lemma respects_get_device s : respects R (amlnand_get_device s).
Proof. unfold amlnand_get_device. solve_respects. Qed.
Lemma respects_release_device : respects R amlnand_release_device.
Proof. unfold amlnand_release_device. solve_respects. Qed.
Lemma respects_when_ready m : respects R m -> respects R (when_ready m).
Proof. intros. unfold when_ready. solve_respects. Qed.
End DeviceFrame.

#[export] Hint Resolve respects_get_chip_state respects_set_chip_state
  respects_refuse_write respects_mutex_lock respects_mutex_unlock
  respects_nand_get_chip respects_nand_release_chip respects_get_device
  respects_release_device respects_when_ready : respects.

(** ** The lock, with any number of threads
    A thread goes through [amlnand_get_device] and [amlnand_release_device]
    ([D...]: first the chip's state, then the mutex), or through
    [nand_get_chip] and [nand_release_chip] alone ([C...]).  Each constructor
    is where the thread's program counter stands; the pins can be switched. *)
Module DeviceLock.

Inductive pc :=
  | Idle
  | DWant            (* [retry:], the state not taken yet *)
  | DState           (* state taken, before [mutex_lock] *)
  | DLocked          (* mutex taken, before [nand_idleflag = 1] *)
  | DInside          (* between get and release *)
  | DReady           (* state given back, before [if (nand_idleflag)] *)
  | DUnlock          (* flag cleared, before [mutex_unlock] *)
  | CWant | CLocked | CInside | CUnlock.

#[export] Instance pc_eq_dec : EqDecision pc.
Proof. solve_decision. Defined.

Record lstate := mk_lstate {
  ready : bool;                        (* [aml_chip->state == CHIP_READY] *)
  mutex : Datatypes.option nat;        (* which thread holds [spi_nand_mutex] *)
  idleflag : bool;
  threads : nat -> pc
}.

Definition goto (i : nat) (p : pc) (s : lstate) : nat -> pc :=
  fun j => if decide (i = j) then p else s.(threads) j.

Definition initial : lstate := mk_lstate true None false (fun _ => Idle).

Inductive step : lstate -> lstate -> Prop :=
  | s_enter s i : threads s i = Idle ->
      step s (mk_lstate (ready s) (mutex s) (idleflag s) (goto i DWant s))
  | s_state s i : threads s i = DWant -> ready s = true ->
      step s (mk_lstate false (mutex s) (idleflag s) (goto i DState s))
  | s_sleep s i : threads s i = DWant -> ready s = false -> step s s
  | s_lock s i : threads s i = DState -> mutex s = None ->
      step s (mk_lstate (ready s) (Some i) (idleflag s) (goto i DLocked s))
  | s_idle s i : threads s i = DLocked ->
      step s (mk_lstate (ready s) (mutex s) true (goto i DInside s))
  | s_ready s i : threads s i = DInside ->
      step s (mk_lstate true (mutex s) (idleflag s) (goto i DReady s))
  | s_clear s i : threads s i = DReady -> idleflag s = true ->
      step s (mk_lstate (ready s) (mutex s) false (goto i DUnlock s))
  | s_skip s i : threads s i = DReady -> idleflag s = false ->
      step s (mk_lstate (ready s) (mutex s) false (goto i Idle s))
  | s_unlock s i : threads s i = DUnlock ->
      step s (mk_lstate (ready s) None (idleflag s) (goto i Idle s))
  | c_enter s i : threads s i = Idle ->
      step s (mk_lstate (ready s) (mutex s) (idleflag s) (goto i CWant s))
  | c_lock s i : threads s i = CWant -> mutex s = None ->
      step s (mk_lstate (ready s) (Some i) (idleflag s) (goto i CLocked s))
  | c_idle s i : threads s i = CLocked ->
      step s (mk_lstate (ready s) (mutex s) true (goto i CInside s))
  | c_clear s i : threads s i = CInside -> idleflag s = true ->
      step s (mk_lstate (ready s) (mutex s) false (goto i CUnlock s))
  | c_skip s i : threads s i = CInside -> idleflag s = false ->
      step s (mk_lstate (ready s) (mutex s) false (goto i Idle s))
  | c_unlock s i : threads s i = CUnlock ->
      step s (mk_lstate (ready s) None (idleflag s) (goto i Idle s)).

Inductive reachable : lstate -> Prop :=
  | r_init : reachable initial
  | r_step s s' : reachable s -> step s s' -> reachable s'.

(** Which program points hold the mutex, hold the chip's state, and rely on
    the flag being set. *)
Definition has_mutex (p : pc) : bool :=
  match p with
  | DLocked | DInside | DReady | DUnlock | CLocked | CInside | CUnlock => true
  | _ => false
  end.
Definition has_state (p : pc) : bool :=
  match p with DState | DLocked | DInside => true | _ => false end.
Definition needs_flag (p : pc) : bool :=
  match p with DInside | DReady | CInside => true | _ => false end.
Definition inside (p : pc) : bool :=
  match p with DInside | CInside => true | _ => false end.

Record inv (s : lstate) : Prop := {
  inv_mutex : forall i, has_mutex (threads s i) = true <-> mutex s = Some i;
  inv_state : forall i j, has_state (threads s i) = true ->
                has_state (threads s j) = true -> i = j;
  inv_ready : forall i, has_state (threads s i) = true -> ready s = false;
  inv_owner : ready s = false -> exists i, has_state (threads s i) = true;
  inv_flag : forall i, needs_flag (threads s i) = true -> idleflag s = true
}.

(** One thread moves from [p] to [q]; the rest of the proof is about which of
    the three resources that changes. *)
Lemma goto_same s i p : goto i p s i = p.
Proof. unfold goto. by rewrite decide_True. Qed.
Lemma goto_other s i j p : i <> j -> goto i p s j = threads s j.
Proof. intros. unfold goto. by rewrite decide_False. Qed.

Lemma inv_initial : inv initial.
Proof. by split. Qed.

Ltac lock_cases i :=
  repeat match goal with
  | |- context [goto i ?p ?s ?j] =>
      destruct (decide (i = j)) as [<-|?];
      [rewrite !goto_same in * | rewrite !goto_other in * by done]
  | H : context [goto i ?p ?s ?j] |- _ =>
      destruct (decide (i = j)) as [<-|?];
      [rewrite !goto_same in * | rewrite !goto_other in * by done]
  end.

(** A thread that neither takes nor gives back anything. *)
Lemma inv_move s i p flag :
  inv s ->
  has_mutex p = has_mutex (threads s i) ->
  has_state p = has_state (threads s i) ->
  (flag = idleflag s \/ has_mutex p = true) ->
  (needs_flag p = true -> flag = true) ->
  inv (mk_lstate (ready s) (mutex s) flag (goto i p s)).
Proof.
  intros [Hm Hs Hr Ho Hf] Em Es Hfl Hn. split; cbn.
  - intros j. lock_cases i; [rewrite Em|]; apply Hm.
  - intros j k Hj Hk. lock_cases i; rewrite ?Es in *; auto.
  - intros j Hj. lock_cases i; rewrite ?Es in *; eauto.
  - intros H. destruct (Ho H) as [k Hk]. exists k. lock_cases i; congruence.
  - intros j Hj. lock_cases i; [auto|]. destruct Hfl as [->|Hp]; [eauto|].
    rewrite Em in Hp. apply Hm in Hp.
    assert (has_mutex (threads s j) = true) as Hq by (destruct (threads s j); done).
    apply Hm in Hq. congruence.
Qed.

(** A thread takes the mutex, or gives it back. *)
Lemma inv_take s i p :
  inv s -> mutex s = None -> has_mutex p = true -> needs_flag p = false ->
  has_state p = has_state (threads s i) ->
  inv (mk_lstate (ready s) (Some i) (idleflag s) (goto i p s)).
Proof.
  intros [Hm Hs Hr Ho Hf] Hn Hp Hq Es. split; cbn.
  - intros j. lock_cases i; [done|]. rewrite Hm, Hn. split; congruence.
  - intros j k Hj Hk. lock_cases i; rewrite ?Es in *; auto.
  - intros j Hj. lock_cases i; rewrite ?Es in *; eauto.
  - intros H. destruct (Ho H) as [k Hk]. exists k. lock_cases i; congruence.
  - intros j Hj. lock_cases i; [congruence | eauto].
Qed.

Lemma inv_give s i p :
  inv s -> has_mutex (threads s i) = true -> has_mutex p = false ->
  has_state p = has_state (threads s i) -> needs_flag p = false ->
  inv (mk_lstate (ready s) None (idleflag s) (goto i p s)).
Proof.
  intros [Hm Hs Hr Ho Hf] Hi Hp Es Hq. split; cbn.
  - intros j. apply Hm in Hi. lock_cases i; [rewrite Hp | rewrite Hm]; split; congruence.
  - intros j k Hj Hk. lock_cases i; rewrite ?Es in *; auto.
  - intros j Hj. lock_cases i; rewrite ?Es in *; eauto.
  - intros H. destruct (Ho H) as [k Hk]. exists k. lock_cases i; congruence.
  - intros j Hj. lock_cases i; [congruence | eauto].
Qed.

Lemma inv_step s s' : inv s -> step s s' -> inv s'.
Proof.
  intros Hinv Hst. pose proof Hinv as [Hm Hs Hr Ho Hf].
  destruct Hst as [s i H|s i H Hrd|s i H Hrd|s i H Hn|s i H|s i H|s i H Hx|s i H Hx|s i H
                  |s i H|s i H Hn|s i H|s i H Hx|s i H Hx|s i H];
    try (apply inv_move; rewrite ?H; solve [done | by left | by right | congruence]);
    try (apply inv_take; rewrite ?H; done);
    try (apply inv_give; rewrite ?H; done);
    try done.
  - (* the state is taken *)
    split; cbn.
    + intros j. lock_cases i; [rewrite <- Hm, H; done | apply Hm].
    + assert (forall j, has_state (threads s j) = true -> False) as Hnone
        by (intros j Hj; apply Hr in Hj; congruence).
      intros j k Hj Hk. lock_cases i; try done; exfalso; eauto.
    + done.
    + exists i. by rewrite goto_same.
    + intros j Hj. lock_cases i; [done | eauto].
  - (* the state is given back *)
    split; cbn.
    + intros j. lock_cases i; [rewrite <- Hm, H; done | apply Hm].
    + intros j k Hj Hk. lock_cases i; try done. by apply Hs.
    + intros j Hj. lock_cases i; [done|].
      assert (i = j) by (apply Hs; [by rewrite H | done]). done.
    + done.
    + intros j Hj. lock_cases i; eapply Hf; [by rewrite H | done].
  - (* flag seen clear inside: cannot happen *)
    exfalso. assert (idleflag s = true) by (apply (Hf i); by rewrite H). congruence.
  - exfalso. assert (idleflag s = true) by (apply (Hf i); by rewrite H). congruence.
Qed.

Lemma reachable_inv s : reachable s -> inv s.
Proof. induction 1; eauto using inv_initial, inv_step. Qed.

(** C15: The two ways into the controller exclude each other and themselves. *)
Theorem device_lock_exclusive s i j :
  reachable s -> inside (threads s i) = true -> inside (threads s j) = true -> i = j.
Proof.
  intros Hr Hi Hj. apply reachable_inv in Hr as [Hm _ _ _ _].
  assert (forall k, inside (threads s k) = true -> mutex s = Some k) as Hk.
  { intros k ?. apply Hm. by destruct (threads s k). }
  apply Hk in Hi, Hj. congruence.
Qed.

Lemma step_goto s s' i p :
  step s s' -> threads s' = goto i p s -> threads s i <> p -> exists s', step s s' /\ s' <> s.
Proof.
  intros Hst Ht Hne. exists s'. split; [done|]. intros ->.
  apply Hne. rewrite Ht. by rewrite goto_same.
Qed.

Lemma mutex_holder_steps s i :
  inv s -> mutex s = Some i -> exists s', step s s' /\ s' <> s.
Proof.
  intros [Hm _ _ _ Hf] H. apply Hm in H.
  assert (needs_flag (threads s i) = true -> idleflag s = true) as Hfl by apply Hf.
  destruct (threads s i) eqn:E; try done; cbn in Hfl.
  - eapply step_goto; [by apply s_idle | done | by rewrite E].
  - eapply step_goto; [by apply s_ready | done | by rewrite E].
  - eapply step_goto; [apply (s_clear s i E); auto | done | by rewrite E].
  - eapply step_goto; [by apply s_unlock | done | by rewrite E].
  - eapply step_goto; [by apply c_idle | done | by rewrite E].
  - eapply step_goto; [apply (c_clear s i E); auto | done | by rewrite E].
  - eapply step_goto; [by apply c_unlock | done | by rewrite E].
Qed.


(** When every thread is out, the lock is free and the chip is ready. *)
Theorem device_lock_released s :
  reachable s -> (forall i, threads s i = Idle) -> mutex s = None /\ ready s = true.
Proof.
  intros Hr Hall. apply reachable_inv in Hr as [Hm _ _ Ho _]. split.
  - destruct (mutex s) as [k|]; [|done].
    pose proof (proj2 (Hm k) eq_refl) as E. by rewrite Hall in E.
  - destruct (ready s); [done|]. destruct (Ho eq_refl) as [k Hk]. by rewrite Hall in Hk.
Qed.

(** Thread 0 inside, threads 1 and 2 at the two doors. *)
Definition run0 : lstate := mk_lstate true None false (goto 0 DWant initial).
Definition run1 : lstate := mk_lstate false None false (goto 0 DState run0).
Definition run2 : lstate := mk_lstate false (Some 0%nat) false (goto 0 DLocked run1).
Definition run3 : lstate := mk_lstate false (Some 0%nat) true (goto 0 DInside run2).
Definition run4 : lstate := mk_lstate false (Some 0%nat) true (goto 1 DWant run3).
Definition contended : lstate := mk_lstate false (Some 0%nat) true (goto 2 CWant run4).

Lemma contended_reachable : reachable contended.
Proof.
  exact (r_step _ _ (r_step _ _ (r_step _ _ (r_step _ _ (r_step _ _ (r_step _ _
    r_init (s_enter initial 0 eq_refl)) (s_state run0 0 eq_refl eq_refl))
    (s_lock run1 0 eq_refl eq_refl)) (s_idle run2 0 eq_refl))
    (s_enter run3 1 eq_refl)) (c_enter run4 2 eq_refl)).
Qed.

Example device_lock_exclusive_witness : 0%nat = 0%nat.
Proof.
  apply (device_lock_exclusive contended 0 0);
    [exact contended_reachable | reflexivity | reflexivity].
Defined.


Definition passed1 : lstate := mk_lstate true (Some 0%nat) true (goto 0 DReady run3).
Definition passed2 : lstate := mk_lstate true (Some 0%nat) false (goto 0 DUnlock passed1).
Definition passed3 : lstate := mk_lstate true None false (goto 0 Idle passed2).

Example device_lock_released_witness : mutex passed3 = None /\ ready passed3 = true.
Proof.
  apply (device_lock_released passed3).
  - exact (r_step _ _ (r_step _ _ (r_step _ _ (r_step _ _ (r_step _ _ (r_step _ _ (r_step _ _
      r_init (s_enter initial 0 eq_refl)) (s_state run0 0 eq_refl eq_refl))
      (s_lock run1 0 eq_refl eq_refl)) (s_idle run2 0 eq_refl))
      (s_ready run3 0 eq_refl)) (s_clear passed1 0 eq_refl eq_refl))
      (s_unlock passed2 0 eq_refl)).
  - intros [|i]; reflexivity.
Defined.
End DeviceLock.

(** The same for one thread: a first and an unlucky call. *)
Module CtrlWitness.
Definition ready_world : world unit :=
  set_w_chip (set_state CHIP_READY (world0 tt).(w_chip)) (world0 tt).

Example get_release_device_witness :
  wp (amlnand_get_device CHIP_READING ;; amlnand_release_device)
     (fun _ w' => unlocked w' /\ w_idleflag w' = 0 /\ w_mem w' = w_mem ready_world /\
                  w_log w' = w_log ready_world) noflt ready_world.
Proof.
  apply (get_release_device CHIP_READING ready_world); [split; reflexivity | discriminate].
Defined.

Definition no_pins : world unit := set_w_oracle (fun _ => -19) ready_world.

Example nand_get_chip_pinctrl_failure_witness :
  exists w', nand_get_chip no_pins = Fault Deadlock w'.
Proof. apply (nand_get_chip_pinctrl_failure no_pins); reflexivity. Defined.
End CtrlWitness.
