(* ===== verification/HwController.v ===== *)
(** * HwController: [phy/hw_controller.c].

    The controller and the chips behind it are a parameter ([NandHw]): what a
    write of the command register, a read of the status register or of the data
    buffer does to the device and, through DMA, to memory.  On top of it the
    operations the rest of the driver calls through [struct hw_controller]. *)
From S2P Require Import Prelude NfcWords Data Machine Ctrl.

(** ** The hardware *)
Class NandHw (D : Type) := {
  hw_cmd : Z -> D -> memory -> D * memory;      (* write of [P_NAND_CMD] *)
  hw_info : D -> memory -> Z * (D * memory);    (* read of [P_NAND_CMD] *)
  hw_buf : D -> memory -> Z * (D * memory);     (* [readb] of [P_NAND_BUF] *)
  hw_cfg : Z -> Z -> D -> memory -> D * memory; (* [P_NAND_CFG]: bits cleared, bits set *)
  hw_wait : D -> memory -> D * memory;          (* [udelay], barriers *)
  hw_virt : ptr -> Z                            (* the address of a buffer as an int *)
}.

Section HwController.
Context {D : Type} `{!NandHw D}.

(** Loops the source leaves unbounded get this many rounds. *)
Context (spin : nat).

(** ** Registers *)
Definition device (f : D -> memory -> D * memory) : act D unit := fun w =>
  let '(d, m) := f w.(w_dev) w.(w_mem) in Done tt (set_w_mem m (set_w_dev d w)).
Definition device_read (f : D -> memory -> Z * (D * memory)) : act D Z := fun w =>
  let '(v, (d, m)) := f w.(w_dev) w.(w_mem) in Done v (set_w_mem m (set_w_dev d w)).

Definition NFC_SEND_CMD (c : nfc_cmd) : act D unit :=
  modify (fun w => set_w_log (c :: w.(w_log)) w) ;;
  device (hw_cmd (word c)).
Definition NFC_INFO_GET : act D Z := device_read hw_info.
Definition NFC_CMDFIFO_SIZE : act D Z :=
  v ← NFC_INFO_GET; mret (Z.land (Z.shiftr v 22) 0x1f).
Definition NFC_GET_RB_STATUS (ce : Z) : act D Z :=
  v ← NFC_INFO_GET;
  mret (Z.land (Z.land (Z.shiftr v 28) (not32 (Z.shiftr ce 10))) 0xf).
Definition NFC_SET_CFG (v : Z) : act D unit := device (hw_cfg (Z.ones 32) v).
Definition NFC_SET_TIMING_ASYC (bus_tim bus_cyc : Z) : act D unit :=
  device (hw_cfg (Z.ones 12) (Z.lor (Z.land bus_cyc 31) (Z.shiftl (Z.land bus_tim 31) 5))).
Definition NFC_SET_OOB_MODE (m : Z) : act D unit := device (hw_cfg 0 m).
Definition udelay : act D unit := device hw_wait.
Definition smp_rmb : act D unit := device hw_wait.
Definition nandphy_readb : act D Z := v ← device_read hw_buf; mret (u8 v).

(** [NFC_WAIT_FIFO_EMPTY]: at most [NFC_FIFO_SPIN_MAX] reads. *)
Definition NFC_FIFO_SPIN_MAX : nat := Z.to_nat 100000.
Fixpoint wait_fifo (n : nat) : act D unit :=
  match n with
  | O => mret tt
  | S n' => v ← NFC_CMDFIFO_SIZE; if 0 <? v then wait_fifo n' else mret tt
  end.
Definition NFC_WAIT_FIFO_EMPTY : act D unit := wait_fifo NFC_FIFO_SPIN_MAX.

Definition NFC_SEND_CMD_IDLE (ce time : Z) : act D unit :=
  NFC_WAIT_FIFO_EMPTY ;; NFC_SEND_CMD (Idle ce time).

(** The address latch of a DMA: data buffer, then info buffer. *)
Definition send_dma_addr : act D unit :=
  a ← ctl_ data_dma_addr;
  i ← ctl_ info_dma_addr;
  NFC_SEND_CMD (Adl a) ;; NFC_SEND_CMD (Adh a) ;;
  NFC_SEND_CMD (Ail i) ;; NFC_SEND_CMD (Aih i).

Definition idle_selected (time : Z) : act D unit :=
  ce ← ctl_ chip_selected; NFC_SEND_CMD_IDLE ce time.

(** [do { if (ready) break; delay } while (cnt++ <= limit)]; the count. *)
Definition poll_from (start : Z) (ready : act D bool) (delay : act D unit) (limit : Z)
    : act D Z :=
  r ← do_while (R := unit) (Z.to_nat (limit + 3))
        (fun cnt => b ← ready; if (b : bool) then mret (Break cnt)
                               else delay ;; mret (Next (cnt + 1)))
        (fun cnt => cnt - 1 <=? limit) start;
  mret (match r with inl cnt => cnt | inr _ => 0 end).
Definition poll : act D bool -> act D unit -> Z -> act D Z := poll_from 0.

(** ** Chip select, status, bytes *)
Definition NAND_TWB_TIME_CYCLE : Z := 10.
Definition NAND_TWHR_TIME_CYCLE : Z := 20.
Definition AML_NAND_READ_BUSY_TIMEOUT : Z := 0x2000.
Definition AML_NAND_WRITE_BUSY_TIMEOUT : Z := 0x5000.
Definition AML_NAND_ERASE_BUSY_TIMEOUT : Z := 0xa000.
Definition AML_DMA_BUSY_TIMEOUT : Z := 0x100000.
Definition NAND_CMD_STATUS : Z := 0x70.
Definition NAND_CMD_NONE : Z := u32 (-1).
Definition NAND_STATUS_READY : Z := 0x40.
Definition NAND_CTRL_CLE : Z := 3.
Definition NAND_CTRL_ALE : Z := 5.

Definition controller_select_chip (chipnr : Z) : act D Z :=
  if (0 <=? chipnr) && (chipnr <=? 3) then
    ce ← ctl_ ce_enable;
    rb ← ctl_ rb_enable;
    upd_ctl (set_chip_selected (arr ce chipnr)) ;;
    upd_ctl (set_rb_received (arr rb chipnr)) ;;
    idle_selected 0 ;;
    mret 0
  else throw BugHit.

Definition controller_cmd_ctrl (cmd ctrl : Z) : act D unit :=
  if cmd =? NAND_CMD_NONE then mret tt
  else
    ce ← ctl_ chip_selected;
    if truthy (Z.land ctrl 2) then NFC_SEND_CMD (Cle ce cmd)
    else NFC_SEND_CMD (Ale ce cmd).

Definition controller_write_byte (data : Z) : act D unit :=
  idle_selected NAND_TWB_TIME_CYCLE ;;
  ce ← ctl_ chip_selected;
  NFC_SEND_CMD (Dwr ce data) ;;
  idle_selected NAND_TWB_TIME_CYCLE ;;
  idle_selected 0 ;; idle_selected 0 ;;
  NFC_WAIT_FIFO_EMPTY.

Definition controller_read_byte : act D Z :=
  ce ← ctl_ chip_selected;
  NFC_SEND_CMD (Drd ce 0) ;;
  idle_selected NAND_TWB_TIME_CYCLE ;;
  idle_selected 0 ;; idle_selected 0 ;;
  NFC_WAIT_FIFO_EMPTY ;;
  nandphy_readb.

Definition rb_time_limit (st : Z) : Z :=
  if st =? CHIP_RESETING then AML_NAND_ERASE_BUSY_TIMEOUT
  else if st =? CHIP_WRITING then AML_NAND_WRITE_BUSY_TIMEOUT
  else AML_NAND_READ_BUSY_TIMEOUT.

(** The two ready tests: the status byte, or the ready/busy pins. *)
Definition status_ready : act D bool :=
  v ← controller_read_byte; mret (truthy (Z.land v NAND_STATUS_READY)).
Definition rb_ready : act D bool :=
  ce ← ctl_ rb_received; v ← NFC_GET_RB_STATUS ce; mret (truthy v).

(** Selecting the chip and asking for its status; whether the status byte is
    polled, because there is no ready/busy pin. *)
Definition rb_prepare (chipnr : Z) : act D bool :=
  controller_select_chip chipnr ;;
  idle_selected 0 ;; idle_selected 0 ;;
  NFC_WAIT_FIFO_EMPTY ;;
  option ← ctl_ ctl_option;
  if truthy (Z.land option NAND_CTRL_NONE_RB) then
    controller_cmd_ctrl NAND_CMD_STATUS NAND_CTRL_CLE ;;
    idle_selected NAND_TWHR_TIME_CYCLE ;;
    mret true
  else mret false.

Definition rb_test (none_rb : bool) : act D bool :=
  if none_rb then status_ready else rb_ready.

Definition controller_quene_rb (chipnr : Z) : act D Z :=
  st ← chip state;
  let time_out_limit := rb_time_limit st in
  none_rb ← rb_prepare chipnr;
  time_out_cnt ← poll (rb_test none_rb) udelay time_out_limit;
  mret (if time_out_limit <=? time_out_cnt then - NAND_BUSY_FAILURE else 0).

(** ** ECC result of a read *)
Definition NAND_ECC_CNT (a : Z) : Z := Z.land (Z.shiftr a 24) 0x3f.
Definition NAND_ZERO_CNT (a : Z) : Z := Z.land (Z.shiftr a 16) 0x3f.
Definition NAND_INFO_DONE (a : Z) : Z := Z.land (Z.shiftr a 31) 1.

(** An [unsigned int] of the info buffer. *)
Definition user_word (i : Z) : act D Z :=
  p ← ctl_ ctl_user_buf; load32 (ptr_add p (4 * i)).

Definition controller_hwecc_correct (size : Z) : act D Z :=
  oob_mod ← ctl_ oob_mod;
  let user_offset := if oob_mod =? 1 then 4 else 0 in
  unit_ ← ctl_ ecc_unit;
  rest ← mod_ size unit_;
  if truthy rest then mret (- NAND_ARGUMENT_FAILURE)
  else
    upd_ctl (set_ecc_cnt_cur 0) ;;
    r ← for_ (R := Z) (Z.to_nat (size / unit_)) 0
          (fun ecc_step_num max_ecc =>
             usr_info ← user_word (ecc_step_num * 2 + user_offset);
             let cur_ecc := NAND_ECC_CNT usr_info in
             if cur_ecc =? 0x3f then
               upd_ctl (set_zero_cnt (NAND_ZERO_CNT usr_info)) ;;
               mret (Return NAND_ECC_FAILURE)
             else
               cnt ← ctl_ ecc_cnt_cur;
               let cnt' := if cur_ecc <? cnt then cnt else cur_ecc in
               upd_ctl (set_ecc_cnt_cur cnt') ;;
               mret (Next (if max_ecc <? cnt' then cnt' else max_ecc)))
          0;
    match r with
    | inl max_ecc => upd_chip (set_max_ecc_per_page max_ecc) ;; mret 0
    | inr e => mret e
    end.

(** ** DMA *)

(** How many codewords a transfer of [len] bytes moves, and the unit of the
    short mode; [len] is cut for raw transfers. *)
Definition dma_shape (len bch_mode : Z) : act D (Z * Z * Z) :=
  if bch_mode =? NAND_ECC_NONE then
    mret (if 0x3fff <? len then 0x3ffe else len, 0, 1)
  else if bch_mode =? NAND_ECC_BCH_SHORT then
    unit_ ← ctl_ ecc_unit;
    n ← div_ len unit_;
    mret (len, Z.shiftr unit_ 3, n)
  else
    n ← ctl_ ecc_steps; mret (len, 0, n).

Definition dma_ecc (bch_mode : Z) : Z :=
  if bch_mode =? NAND_ECC_BCH_SHORT then NAND_ECC_BCH60_1K else bch_mode.
Definition dma_short (bch_mode : Z) : Z :=
  if bch_mode =? NAND_ECC_BCH_SHORT then 1 else 0.

(** Waits for the command queue to drain. *)
Definition dma_wait : act D Z :=
  idle_selected 0 ;; idle_selected 0 ;;
  time_out_cnt ← poll (n ← NFC_CMDFIFO_SIZE; mret (n <=? 0)) (mret tt)
                   AML_DMA_BUSY_TIMEOUT;
  mret (if AML_DMA_BUSY_TIMEOUT <=? time_out_cnt then - NAND_DMA_FAILURE else 0).

(** [do { smp_rmb(); } while (NAND_INFO_DONE(...) == 0)]: no bound in the source. *)
Definition wait_info (info_buf : ptr) : act D unit :=
  r ← do_while (R := unit) spin
        (fun _ => smp_rmb ;; v ← load32 info_buf; mret (Next (NAND_INFO_DONE v)))
        (fun done_ => done_ =? 0) 0;
  mret tt.

Definition controller_dma_read (len bch_mode : Z) : act D Z :=
  shape ← dma_shape len bch_mode;
  let '(len, dma_unit_size, dma_cnt) := shape in
  oob_mod ← ctl_ oob_mod;
  let count := if (oob_mod =? 1) && negb (bch_mode =? NAND_ECC_NONE)
               then dma_cnt + 16 / PER_INFO_BYTE else dma_cnt in
  user_buf ← ctl_ ctl_user_buf;
  let info_buf := ptr_add user_buf (4 * ((count - 1) * 2)) in
  memset user_buf 0 (count * PER_INFO_BYTE) ;;
  send_dma_addr ;;
  page ← ctl_ ctl_page_addr;
  NFC_SEND_CMD (Seed page) ;;
  ran ← ctl_ ran_mode;
  (if bch_mode =? NAND_ECC_NONE then NFC_SEND_CMD (N2mRaw ran len)
   else NFC_SEND_CMD (N2m ran (dma_ecc bch_mode) (dma_short bch_mode)
                        dma_unit_size dma_cnt)) ;;
  e ← dma_wait;
  if truthy e then mret e
  else wait_info info_buf ;; mret 0.

Definition controller_dma_write (buf : ptr) (len bch_mode : Z) : act D Z :=
  shape ← dma_shape len bch_mode;
  let '(len, dma_unit_size, count) := shape in
  data_buf ← ctl_ ctl_data_buf;
  memcpy data_buf buf len ;;
  send_dma_addr ;;
  page ← ctl_ ctl_page_addr;
  NFC_SEND_CMD (Seed page) ;;
  ran ← ctl_ ran_mode;
  (if bch_mode =? 0 then NFC_SEND_CMD (M2nRaw 0 len)
   else NFC_SEND_CMD (M2n ran (dma_ecc bch_mode) (dma_short bch_mode)
                        dma_unit_size count)) ;;
  fill_boot ← ctl_ oob_fill_boot;
  fill_data ← ctl_ oob_fill_data;
  let oob_fill_cnt :=
    if bch_mode =? NAND_ECC_BCH_SHORT then fill_boot
    else if bch_mode =? NAND_ECC_NONE then 0 else fill_data in
  (if negb (bch_mode =? NAND_ECC_NONE) && (0 <? oob_fill_cnt) then
     NFC_SEND_CMD (M2nRaw ran oob_fill_cnt)
   else when_ (bch_mode =? NAND_ECC_NONE)
     (avail ← ctl_ oobavail;
      NFC_SEND_CMD (Adl (hw_virt data_buf)) ;;
      NFC_SEND_CMD (Adh (hw_virt data_buf)) ;;
      NFC_SEND_CMD (M2nRaw 0 avail))) ;;
  dma_wait.

(** ** Timing *)
Definition set_bus_timing (bus_cycle : Z) : act D unit :=
  NFC_SET_CFG 0 ;;
  NFC_SET_TIMING_ASYC (bus_cycle + 2) (bus_cycle - 1).

Definition controller_hw_init : act D Z :=
  set_bus_timing 5 ;;
  NFC_SEND_CMD CfgReset ;;
  mret 0.

Definition controller_adjust_timing : act D Z :=
  rea ← flash_ T_REA;
  upd_flash (set_T_REA (if rea <? 16 then 16 else rea)) ;;
  rhoh ← flash_ T_RHOH;
  upd_flash (set_T_RHOH (if rhoh <? 15 then 15 else rhoh)) ;;
  set_bus_timing 6 ;;
  pagesize ← flash_ pagesize;
  (if 4096 <? pagesize then
     NFC_SET_OOB_MODE (Z.shiftl 3 26) ;; upd_ctl (set_oob_mod 1)
   else upd_ctl (set_oob_mod 0)) ;;
  NFC_SEND_CMD CfgReset ;;
  mret 0.

(** ** Choice of the ECC mode *)
Definition NAND_ECC_SOFT_MODE : Z := 0x00.
Definition NAND_ECC_SHORT_MODE : Z := 0x10.
Definition NAND_ECC_BCH8_MODE : Z := 0x30.
Definition NAND_ECC_BCH8_1K_MODE : Z := 0x60.
Definition NAND_ECC_BCH16_1K_MODE : Z := 0x70.
Definition NAND_ECC_BCH24_1K_MODE : Z := 0x80.
Definition NAND_ECC_BCH30_1K_MODE : Z := 0x90.
Definition NAND_ECC_BCH40_1K_MODE : Z := 0xa0.
Definition NAND_ECC_BCH50_1K_MODE : Z := 0xb0.
Definition NAND_ECC_BCH60_1K_MODE : Z := 0xc0.

Record bch_desc := mk_bch { bch_id : Z; unit_size : Z; bch_bytes : Z; usr_mode : Z }.

(** [bch_list] of [dev/amlnf_ctrl.c], its named entries. *)
Definition bch_list : list bch_desc := [
  mk_bch NAND_ECC_SOFT_MODE 0 0 0;
  mk_bch NAND_ECC_BCH8_MODE 512 14 2;
  mk_bch NAND_ECC_BCH8_1K_MODE 1024 14 2;
  mk_bch NAND_ECC_BCH24_1K_MODE 1024 42 2;
  mk_bch NAND_ECC_BCH30_1K_MODE 1024 54 2;
  mk_bch NAND_ECC_BCH40_1K_MODE 1024 70 2;
  mk_bch NAND_ECC_BCH50_1K_MODE 1024 88 2;
  mk_bch NAND_ECC_BCH60_1K_MODE 1024 106 2;
  mk_bch NAND_ECC_SHORT_MODE 384 106 2].

(** [for (i = max_bch_mode - 1; i > 0; i--)]: the mode found, 0 for none. *)
Fixpoint find_ecc (i : nat) (page oob : Z) : act D Z :=
  match i with
  | O => mret 0
  | S i' =>
      let d := nth i bch_list (mk_bch 0 0 0 0) in
      n ← div_ page d.(unit_size);
      ecc_bytes ← div_ oob n;
      if d.(bch_bytes) + d.(usr_mode) <=? ecc_bytes then mret d.(bch_id)
      else find_ecc i' page oob
  end.

(** The cases of the [switch]: unit, bytes, mode, limit and maximum. *)
Definition ecc_case (options_support : Z) : Datatypes.option (Z * Z * Z * Z * Z) :=
  if options_support =? NAND_ECC_BCH8_MODE then Some (512, 14, NAND_ECC_BCH8, 6, 8)
  else if options_support =? NAND_ECC_BCH8_1K_MODE then
    Some (1024, 14, NAND_ECC_BCH8_1K, 6, 8)
  else if options_support =? NAND_ECC_BCH16_1K_MODE then
    Some (1024, 28, NAND_ECC_BCH16_1K, 14, 16)
  else if options_support =? NAND_ECC_BCH24_1K_MODE then
    Some (1024, 42, NAND_ECC_BCH24_1K, 22, 24)
  else if options_support =? NAND_ECC_BCH30_1K_MODE then
    Some (1024, 54, NAND_ECC_BCH30_1K, 26, 30)
  else if options_support =? NAND_ECC_BCH40_1K_MODE then
    Some (1024, 70, NAND_ECC_BCH40_1K, 34, 40)
  else if options_support =? NAND_ECC_BCH50_1K_MODE then
    Some (1024, 88, NAND_ECC_BCH50_1K, 45, 50)
  else if options_support =? NAND_ECC_BCH60_1K_MODE then
    Some (1024, 106, NAND_ECC_BCH60_1K, 55, 60)
  else if options_support =? NAND_ECC_SHORT_MODE then
    Some (384, 106, NAND_ECC_BCH_SHORT, 55, 60)
  else None.

Definition set_ecc_case (c : Z * Z * Z * Z * Z) (h : hw_controller) : hw_controller :=
  let '(unit_, bytes, mode, limit, max) := c in
  set_ecc_max max (set_ecc_cnt_limit limit (set_user_mode 2
    (set_bch_mode mode (set_ecc_bytes bytes (set_ecc_unit unit_ h))))).

(** The layout of a page that follows from the mode. *)
Definition set_ecc_layout (page oob : Z) (h : hw_controller) : hw_controller :=
  let code := h.(ecc_unit) + h.(ecc_bytes) + h.(user_mode) in
  let steps := u16 ((page + oob) / code) in
  set_ran_mode 1
    (set_oob_fill_boot (s32 (page + oob - 512))
      (set_oob_fill_data (s32 (oob - steps * (h.(ecc_bytes) + h.(user_mode))))
        (set_oobtail (u16 (page - steps * code))
          (set_oobavail (u8 (steps * h.(user_mode)))
            (set_ecc_steps steps h))))).

Definition controller_ecc_confirm : act D Z :=
  page ← flash_ pagesize;
  oob ← flash_ oobsize;
  option ← ctl_ ctl_option;
  if truthy (Z.land option NAND_ECC_SOFT_MODE) then
    upd_ctl (set_ecc_unit (u16 (page + oob))) ;;
    upd_ctl (set_bch_mode NAND_ECC_NONE) ;;
    mret 0
  else
    n ← ctl_ max_bch;
    options_support ← find_ecc (Z.to_nat (n - 1)) page oob;
    match ecc_case options_support with
    | None => mret (- NAND_ARGUMENT_FAILURE)
    | Some c =>
        upd_ctl (set_ecc_case c) ;;
        upd_ctl (set_ecc_layout page oob) ;;
        mret 0
    end.

(** ** The user bytes of a page
    Two user bytes go into the low half of every second word of the info
    buffer, or, in the new layout ([oob_mod]), all of them to its start.
    [byte_num] is an [unsigned char]: 256 rounds bring every count the loop
    can reach down to 0. *)
Definition controller_get_user_byte (oob : ptr) (byte_num : Z) : act D unit :=
  oob_mod ← ctl_ oob_mod;
  if oob_mod =? 1 then
    user_buf ← ctl_ ctl_user_buf; memcpy oob user_buf byte_num
  else
    user_mode ← ctl_ user_mode;
    r ← while_ (R := unit) 256 (fun '(_, n, _) => 0 <? n)
          (fun '(oob, n, read_times) =>
             v ← user_word (read_times * 2);
             store8 oob (Z.land v 0xff) ;;
             if user_mode =? 2 then
               v ← user_word (read_times * 2);
               store8 (ptr_add oob 1) (Z.land (Z.shiftr v 8) 0xff) ;;
               mret (Next (ptr_add oob 2, u8 (n - 2), read_times + 1))
             else mret (Next (ptr_add oob 1, u8 (n - 1), read_times + 1)))
          (oob, byte_num, 0);
    mret tt.

Definition controller_set_user_byte (oob : ptr) (byte_num : Z) : act D unit :=
  oob_mod ← ctl_ oob_mod;
  user_buf ← ctl_ ctl_user_buf;
  if oob_mod =? 1 then memcpy user_buf oob byte_num
  else
    user_mode ← ctl_ user_mode;
    r ← while_ (R := unit) 256 (fun '(_, n, _) => 0 <? n)
          (fun '(oob, n, write_times) =>
             let p := ptr_add user_buf (4 * (write_times * 2)) in
             b ← load8 oob;
             store32 p b ;;
             if user_mode =? 2 then
               b' ← load8 (ptr_add oob 1);
               v ← load32 p;
               store32 p (Z.lor v (Z.shiftl b' 8)) ;;
               mret (Next (ptr_add oob 2, u8 (n - 2), write_times + 1))
             else mret (Next (ptr_add oob 1, u8 (n - 1), write_times + 1)))
          (oob, byte_num, 0);
    mret tt.

(** ** Initialisation *)
Definition CE_PAD_DEFAULT : Z :=
  Z.lor (Z.lor (Z.lor 0xe (Z.shiftl 0xd 4)) (Z.shiftl 0xb 8)) (Z.shiftl 0x7 12).
Definition RB_PAD_DEFAULT : Z := 0xe.
Definition pad_enable (pads i : Z) : Z := Z.shiftl (Z.land (Z.shiftr pads (i * 4)) 0xf) 10.

Definition amlnand_hwcontroller_init : act D Z :=
  upd_ctl (set_ce_enable (map (pad_enable CE_PAD_DEFAULT) [0; 1; 2; 3])) ;;
  upd_ctl (set_rb_enable (map (pad_enable RB_PAD_DEFAULT) [0; 1; 2; 3])) ;;
  option ← ctl_ ctl_option;
  upd_ctl (set_ctl_option (Z.lor (Z.lor option NAND_CTRL_NONE_RB) NAND_ECC_BCH60_1K_MODE)) ;;
  ret ← controller_hw_init;
  upd_ctl (set_max_bch (Z.of_nat (length bch_list))) ;;
  mret ret.
End HwController.

(** ** Polling
    [ready_after k w w']: the test fails [k] times, with the delay in between,
    and then succeeds.  [not_ready n w w']: it fails [n] times. *)
Section Poll.
Context {D : Type} (ready : act D bool) (delay : act D unit).

Inductive ready_after : nat -> world D -> world D -> Prop :=
  | ra_now w w' : ready w = Done true w' -> ready_after 0 w w'
  | ra_later k w w1 w2 w' :
      ready w = Done false w1 -> delay w1 = Done tt w2 ->
      ready_after k w2 w' -> ready_after (S k) w w'.

Inductive not_ready : nat -> world D -> world D -> Prop :=
  | nr_none w : not_ready 0 w w
  | nr_again n w w1 w2 w' :
      ready w = Done false w1 -> delay w1 = Done tt w2 ->
      not_ready n w2 w' -> not_ready (S n) w w'.

Let body (cnt : Z) : act D (ctl Z unit) :=
  b ← ready; if (b : bool) then mret (Break cnt) else delay ;; mret (Next (cnt + 1)).

Lemma do_while_unfold {S L R} fuel (b : L -> M S (ctl L R)) cond l s :
  do_while (S := S) (Datatypes.S fuel) b cond l s =
    match b l s with
    | Done (Next l') s' =>
        if cond l' then do_while fuel b cond l' s' else Done (inl l') s'
    | Done (Break l') s' => Done (inl l') s'
    | Done (Return r) s' => Done (inr r) s'
    | Fault f s' => Fault f s'
    end.
Proof.
  unfold do_while, mbind, M_bind. destruct (b l s) as [[l'|l'|r] s'|]; cbn; try done.
  by destruct (cond l').
Qed.

Lemma poll_ready limit fuel cnt k w w' :
  ready_after k w w' -> cnt + Z.of_nat k <= limit + 1 -> (k < fuel)%nat ->
  do_while fuel body (fun cnt => cnt - 1 <=? limit) cnt w = Done (inl (cnt + Z.of_nat k)) w'.
Proof.
  intros H. revert fuel cnt. induction H as [w w' Hr|k w w1 w2 w' Hr Hd H IH];
    intros [|fuel] cnt Hc Hf; try lia; rewrite do_while_unfold.
  - unfold body at 1, mbind, M_bind. rewrite Hr. cbn. do 2 f_equal. lia.
  - unfold body at 1, mbind, M_bind. rewrite Hr, Hd. cbn.
    rewrite (proj2 (Z.leb_le _ _)) by lia. rewrite IH by lia. do 2 f_equal. lia.
Qed.

Lemma poll_not_ready limit fuel cnt n w w' :
  not_ready n w w' -> (0 < n)%nat -> cnt + Z.of_nat n = limit + 2 -> (n < fuel)%nat ->
  do_while fuel body (fun cnt => cnt - 1 <=? limit) cnt w = Done (inl (limit + 2)) w'.
Proof.
  intros H. revert fuel cnt. induction H as [w|n w w1 w2 w' Hr Hd H IH];
    intros [|fuel] cnt Hn Hc Hf; try lia; rewrite do_while_unfold.
  unfold body at 1, mbind, M_bind. rewrite Hr, Hd. cbn.
  destruct n as [|n].
  - inversion H; subst. rewrite (proj2 (Z.leb_gt _ _)) by lia. do 2 f_equal. lia.
  - rewrite (proj2 (Z.leb_le _ _)) by lia. apply IH; lia.
Qed.

Lemma poll_counts limit k w w' :
  0 <= limit -> ready_after k w w' -> Z.of_nat k <= limit + 1 ->
  poll ready delay limit w = Done (Z.of_nat k) w'.
Proof.
  intros Hl H Hk. unfold poll, poll_from, mbind, M_bind. fold body.
  by rewrite (poll_ready limit _ 0 k w w' H) by lia.
Qed.

Lemma poll_gives_up limit w w' :
  0 <= limit -> not_ready (Z.to_nat (limit + 2)) w w' ->
  poll ready delay limit w = Done (limit + 2) w'.
Proof.
  intros Hl H. unfold poll, poll_from, mbind, M_bind. fold body.
  by rewrite (poll_not_ready limit _ 0 _ w w' H) by lia.
Qed.
End Poll.

Section QueneRb.
Context {D : Type} `{!NandHw D}.

Lemma rb_time_limit_pos st : 0 < rb_time_limit st.
Proof. unfold rb_time_limit. repeat case_match; done. Qed.


(** C25: After the chip was selected and asked, [quene_rb] reports success exactly
    when the ready test succeeds before the time limit of the current state
    has been counted; otherwise [-NAND_BUSY_FAILURE], always after finitely
    many tests. *)
Theorem controller_quene_rb_spec chipnr none_rb (w w1 : world D) :
  rb_prepare chipnr w = Done none_rb w1 ->
  let limit := rb_time_limit w.(w_chip).(state) in
  (forall k w', ready_after (rb_test none_rb) udelay k w1 w' -> Z.of_nat k <= limit + 1 ->
     controller_quene_rb chipnr w =
       Done (if Z.of_nat k <? limit then 0 else - NAND_BUSY_FAILURE) w') /\
  (forall w', not_ready (rb_test none_rb) udelay (Z.to_nat (limit + 2)) w1 w' ->
     controller_quene_rb chipnr w = Done (- NAND_BUSY_FAILURE) w').
Proof.
  intros Hp limit. pose proof (rb_time_limit_pos w.(w_chip).(state)).
  unfold controller_quene_rb. split; intros; unfold mbind, M_bind, chip, gets;
    rewrite Hp; fold limit.
  - erewrite poll_counts by (eauto; lia). unfold mret, M_ret. f_equal.
    rewrite Z.ltb_antisym. by destruct (limit <=? _).
  - erewrite poll_gives_up by (eauto; lia). unfold mret, M_ret.
    by rewrite (proj2 (Z.leb_le _ _)) by lia.
Qed.
End QueneRb.

(** A device whose status byte shows ready at the fourth read; its registers
    do nothing else. *)
Module SlowDevice.
#[local] Instance hw : NandHw Z := {
  hw_cmd _ d m := (d, m);
  hw_info d m := (0, (d, m));
  hw_buf d m := (if d <? 3 then 0 else NAND_STATUS_READY, (d + 1, m));
  hw_cfg _ _ d m := (d, m);
  hw_wait d m := (d, m);
  hw_virt _ := 0
}.

Definition final {S A} (o : outcome S A) : S :=
  match o with Done _ s => s | Fault _ s => s end.

Definition start : world Z := final (amlnand_hwcontroller_init (world0 0)).
Definition asked : world Z := final (rb_prepare 0 start).
Definition round (w : world Z) : world Z := final (udelay (final (rb_test true w))).
Definition seen : world Z := final (rb_test true (round (round (round asked)))).

Example controller_quene_rb_spec_witness :
  rb_prepare 0 start = Done true asked /\ controller_quene_rb 0 start = Done 0 seen.
Proof.
  assert (rb_prepare 0 start = Done true asked) as Hp by (vm_compute; reflexivity).
  split; [exact Hp|].
  refine (proj1 (controller_quene_rb_spec 0 true start asked Hp) 3%nat seen _ _);
    [|vm_compute; discriminate].
  repeat (eapply ra_later; [vm_compute; reflexivity | vm_compute; reflexivity |]).
  apply ra_now. vm_compute. reflexivity.
Defined.
End SlowDevice.

(** ** The ECC result of a page *)
Section Hwecc.
Context {D : Type} `{!NandHw D}.

(** The count of codeword [i], as the info buffer of [w] holds it. *)
Definition info_word (w : world D) (i : Z) : Datatypes.option Z :=
  let h := w.(w_chip).(controller) in
  let off := if h.(oob_mod) =? 1 then 4 else 0 in
  le_value <$> peek w.(w_mem) (ptr_add h.(ctl_user_buf) (4 * (i * 2 + off))) 4.
Definition ecc_count (w : world D) (i : Z) : Z :=
  NAND_ECC_CNT (default 0 (info_word w i)).

(** The largest count among the first [n] codewords. *)
Fixpoint max_count (f : Z -> Z) (n : nat) : Z :=
  match n with
  | O => 0
  | S n' => Z.max (max_count f n') (f (Z.of_nat n'))
  end.

Lemma ecc_count_nonneg w i : 0 <= ecc_count w i.
Proof. apply Z.land_nonneg. by right. Qed.
Lemma max_count_nonneg w n : 0 <= max_count (ecc_count w) n.
Proof. induction n; cbn; [done|]. pose proof (ecc_count_nonneg w (Z.of_nat n)). lia. Qed.

(** While the loop runs, only the two counters of the controller change. *)
Definition counting (w0 : world D) (z x : Z) : world D :=
  set_w_chip (set_controller
    (set_zero_cnt z (set_ecc_cnt_cur x w0.(w_chip).(controller))) w0.(w_chip)) w0.

Definition hwecc_inv (w0 : world D) (total m : nat) (i max_ecc : Z) (w : world D) : Prop :=
  exists z, let n := (total - m)%nat in
    (m <= total)%nat /\ i = Z.of_nat n /\ max_ecc = max_count (ecc_count w0) n /\
    (forall j, 0 <= j < i -> ecc_count w0 j <> 0x3f) /\
    w = counting w0 z max_ecc.

Lemma wp_user_word (w0 : world D) z x i v Q E :
  info_word w0 i = Some v -> Q v (counting w0 z x) ->
  wp (user_word (i * 2 + (if oob_mod (controller (w_chip w0)) =? 1 then 4 else 0)))
    Q E (counting w0 z x).
Proof.
  unfold info_word. destruct (peek _ _ _) as [bs|] eqn:Hb; cbn; [|done].
  intros [= <-] HQ. apply wp_bind, wp_chip. by apply (wp_load32 _ bs).
Qed.

Lemma max_count_step a b : (if b <? a then a else b) = Z.max a b.
Proof. destruct (Z.ltb_spec b a); lia. Qed.

(** C27: [hwecc_correct] returns [NAND_ECC_FAILURE] exactly when some codeword is
    marked uncorrectable (count 0x3f).  Otherwise it returns 0, and leaves the
    largest count both in [ecc_cnt_cur] and in [max_ecc_per_page]. *)
Theorem controller_hwecc_correct_spec size (w : world D) :
  let h := w.(w_chip).(controller) in
  let n := Z.to_nat (size / h.(ecc_unit)) in
  0 < h.(ecc_unit) -> size mod h.(ecc_unit) = 0 ->
  (forall i, 0 <= i < Z.of_nat n -> is_Some (info_word w i)) ->
  wp (controller_hwecc_correct size)
    (fun r w' =>
       (r = NAND_ECC_FAILURE /\ exists i, 0 <= i < Z.of_nat n /\ ecc_count w i = 0x3f) \/
       (r = 0 /\ (forall i, 0 <= i < Z.of_nat n -> ecc_count w i <> 0x3f) /\
        ecc_cnt_cur w'.(w_chip).(controller) = max_count (ecc_count w) n /\
        max_ecc_per_page w'.(w_chip) = max_count (ecc_count w) n))
    noflt w.
Proof.
  intros h n Hu Hm Hi. unfold controller_hwecc_correct.
  do 2 wp_step; cbv beta zeta. do 3 wp_step. apply wp_mod; [unfold h in *; lia|].
  fold h. rewrite Hm. change (truthy 0) with false. cbv iota. do 3 wp_step.
  change (set_w_chip _ w) with (counting w (zero_cnt h) 0).
  eapply (wp_for (hwecc_inv w n)).
  - intros i x s (z & _ & -> & -> & Hgood & ->). rewrite Nat.sub_0_r in *.
    apply wp_bind, wp_upd_chip, wp_ret. right. done.
  - intros m i x s (z & Hle & -> & -> & Hgood & ->). set (j := (n - S m)%nat) in *.
    destruct (Hi (Z.of_nat j)) as [v Hv]; [lia|].
    assert (ecc_count w (Z.of_nat j) = NAND_ECC_CNT v) as Hc
      by (unfold ecc_count; by rewrite Hv).
    apply wp_bind, (wp_user_word _ _ _ _ v); [done|]. cbv zeta. rewrite <- Hc.
    destruct (Z.eqb_spec (ecc_count w (Z.of_nat j)) 0x3f) as [He|He].
    + do 3 wp_step. left. split; [done|]. exists (Z.of_nat j). split; [lia | done].
    + do 5 wp_step. exists z. cbn [counting set_w_chip w_chip controller ecc_cnt_cur].
      change (ecc_cnt_cur _) with (max_count (ecc_count w) j).
      rewrite !max_count_step, Z.max_l by lia.
      replace (n - m)%nat with (S j) by lia. cbn [max_count].
      split_and!; [lia | lia | done | | done].
      intros k Hk. destruct (decide (k = Z.of_nat j)) as [->|]; [done | apply Hgood; lia].
  - exists (zero_cnt h). rewrite Nat.sub_diag. split_and!; try done. lia.
Qed.
End Hwecc.

(** ** The choice of the ECC mode *)
Section EccConfirm.
Context {D : Type} `{!NandHw D}.

Definition bch (i : nat) : bch_desc := nth i bch_list (mk_bch 0 0 0 0).
Arguments bch _ : simpl never.

(** The spare area has room for the parity and user bytes of every codeword. *)
Definition fits (page oob : Z) (d : bch_desc) : Prop :=
  d.(bch_bytes) + d.(usr_mode) <= oob / (page / d.(unit_size)).

Lemma bch_case i : (1 <= i <= 8)%nat ->
  exists mode limit max,
    ecc_case (bch_id (bch i)) =
      Some (unit_size (bch i), bch_bytes (bch i), mode, limit, max) /\
    usr_mode (bch i) = 2 /\ 384 <= unit_size (bch i) <= 1024 /\ 0 < bch_bytes (bch i).
Proof.
  intros. unfold bch. do 9 (destruct i as [|i]; [try lia; cbn; eauto 10 with lia|]). lia.
Qed.

Lemma find_ecc_spec n page oob (w : world D) :
  (n <= 8)%nat -> 1024 <= page ->
  (find_ecc n page oob w = Done 0 w /\
   forall j, (1 <= j <= n)%nat -> ~ fits page oob (bch j)) \/
  (exists i, (1 <= i <= n)%nat /\ find_ecc n page oob w = Done (bch_id (bch i)) w /\
     fits page oob (bch i) /\
     forall j, (i < j <= n)%nat -> ~ fits page oob (bch j)).
Proof.
  intros Hn Hp. induction n as [|n IH]; [left; split; [done | lia]|].
  destruct (bch_case (S n)) as (mode & limit & mx & _ & _ & Hu & _); [lia|].
  assert (0 < page / unit_size (bch (S n))) as Hq by (apply Z.div_str_pos; lia).
  assert (find_ecc (S n) page oob w =
    if bch_bytes (bch (S n)) + usr_mode (bch (S n)) <=? oob / (page / unit_size (bch (S n)))
    then Done (bch_id (bch (S n))) w else find_ecc n page oob w) as ->.
  { cbn [find_ecc]. change (nth (S n) bch_list _) with (bch (S n)).
    unfold mbind, M_bind, div_. rewrite !(proj2 (Z.eqb_neq _ _)) by lia.
    unfold mret, M_ret. rewrite (proj2 (Z.eqb_neq _ _)) by lia. by case_match. }
  destruct (Z.leb_spec (bch_bytes (bch (S n)) + usr_mode (bch (S n)))
              (oob / (page / unit_size (bch (S n))))) as [Hf|Hf].
  - right. exists (S n). split_and!; [lia | lia | done | exact Hf | intros j Hj; exfalso; lia].
  - assert (~ fits page oob (bch (S n))) as Hnf by (unfold fits; lia).
    destruct IH as [[IH H]|(i & Hi & IH & Hfi & H)]; [lia | left | right].
    + split; [done|]. intros j Hj. destruct (decide (j = S n)) as [->|]; [done|].
      apply H; lia.
    + exists i. split_and!; [lia | lia | done | done |].
      intros j Hj. destruct (decide (j = S n)) as [->|]; [done | apply H; lia].
Qed.

(** Enough codewords for the page: what [fits] is for. *)
Lemma steps_cover page oob d :
  0 < d.(unit_size) -> 0 < d.(bch_bytes) -> d.(usr_mode) = 2 ->
  d.(unit_size) <= page -> page mod d.(unit_size) = 0 -> fits page oob d ->
  page <= (page + oob) / (d.(unit_size) + d.(bch_bytes) + 2) * d.(unit_size).
Proof.
  unfold fits. intros Hu Hb Hm Hp Hd Hf. rewrite Hm in Hf.
  assert (page = d.(unit_size) * (page / d.(unit_size))) as Hpage
    by (rewrite <- Z_div_exact_full_2; lia).
  assert (0 < page / d.(unit_size)) as Hq by (apply Z.div_str_pos; lia).
  set (n := page / unit_size d) in *.
  assert (n * (d.(bch_bytes) + 2) <= oob) as Ho.
  { pose proof (Z.mul_div_le oob n Hq). nia. }
  assert (n <= (page + oob) / (d.(unit_size) + d.(bch_bytes) + 2)) as Hs.
  { apply Z.div_le_lower_bound; [lia|]. nia. }
  nia.
Qed.

End EccConfirm.

(** ** Waiting for the info word *)
Section WaitInfo.
Context {D : Type} `{!NandHw D}.

Let info_round (p : ptr) (done_ : Z) : act D (ctl Z unit) :=
  smp_rmb ;; v ← load32 p; mret (Next (NAND_INFO_DONE v)).

Lemma info_round_again p (w : world D) bs x :
  (forall d m, snd (hw_wait d m) = m) ->
  peek w.(w_mem) p 4 = Some bs -> NAND_INFO_DONE (le_value bs) = 0 ->
  exists w', w_mem w' = w_mem w /\ info_round p x w = Done (Next 0) w'.
Proof.
  intros Hq Hp Hd. specialize (Hq (w_dev w) (w_mem w)).
  destruct (hw_wait (w_dev w) (w_mem w)) as [d m] eqn:E. cbn in Hq. subst m.
  exists (set_w_mem (w_mem w) (set_w_dev d w)). split; [done|].
  unfold info_round, smp_rmb, device, mbind, M_bind. rewrite E.
  by rewrite (load32_eq _ bs), Hd.
Qed.

(** The loop that waits for the last info word has no bound: a controller that
    drains its queue without writing the word keeps the caller there forever,
    whatever number of rounds is allowed. *)
Theorem wait_info_unbounded spin p (w : world D) bs :
  (forall d m, snd (hw_wait d m) = m) ->
  peek w.(w_mem) p 4 = Some bs -> NAND_INFO_DONE (le_value bs) = 0 ->
  exists w', wait_info spin p w = Fault OutOfFuel w'.
Proof.
  intros Hq. unfold wait_info.
  match goal with |- context [do_while _ ?b _ _] => change b with (info_round p) end.
  unfold mbind, M_bind.
  revert w. induction spin as [|spin IH]; intros w Hp Hd;
    destruct (info_round_again p w bs 0 Hq Hp Hd) as (w' & Hm & Hr).
  - unfold do_while, mbind, M_bind. rewrite Hr. cbn. eauto.
  - rewrite do_while_unfold, Hr. change (0 =? 0) with true. cbv iota.
    apply IH; [by rewrite Hm | done].
Qed.
End WaitInfo.

(** Witnesses on the slow device. *)
Module HwWitness.
Import SlowDevice.
#[local] Existing Instance SlowDevice.hw.

(** An info buffer of four codewords with 3, 7, 0 and 5 corrected bits. *)
Definition info_page : list Z :=
  [0; 0; 0; 3] ++ replicate 4 0 ++ [0; 0; 0; 7] ++ replicate 4 0 ++
  replicate 8 0 ++ [0; 0; 0; 5] ++ replicate 4 0.
Definition reader : world Z :=
  final ((upd_ctl (set_ecc_unit 1024) ;; upd_ctl (set_ctl_user_buf (Ptr 1 0)))
           (set_w_mem {[ 1 := info_page ]} (world0 0))).

Example controller_hwecc_correct_spec_witness :
  wp (controller_hwecc_correct 4096)
    (fun r w' => (r = NAND_ECC_FAILURE /\
                  exists i, 0 <= i < 4 /\ ecc_count reader i = 0x3f) \/
       (r = 0 /\ (forall i, 0 <= i < 4 -> ecc_count reader i <> 0x3f) /\
        ecc_cnt_cur w'.(w_chip).(controller) = max_count (ecc_count reader) 4 /\
        max_ecc_per_page w'.(w_chip) = max_count (ecc_count reader) 4)) noflt reader.
Proof.
  apply (controller_hwecc_correct_spec 4096 reader); [reflexivity | reflexivity |].
  intros i Hi. change (0 <= i < 4) in Hi.
  assert (i = 0 \/ i = 1 \/ i = 2 \/ i = 3) as [-> | [-> | [-> | ->]]] by lia;
    vm_compute; eauto.
Defined.

Definition big_page : world Z :=
  final ((amlnand_hwcontroller_init ;;
          upd_flash (fun _ => mk_flash 8192 0 0 640 0 0 0 0 0 0 [])) (world0 0)).


Example wait_info_unbounded_witness :
  exists w', wait_info 1000 (Ptr 1 0) reader = Fault OutOfFuel w'.
Proof.
  apply (wait_info_unbounded 1000 (Ptr 1 0) reader [0; 0; 0; 3]);
    [reflexivity | reflexivity | reflexivity].
Defined.
End HwWitness.

(** ** What the controller is told
    [programs c]: the command confirms a page program or a block erase (or
    programs a cached page).  The 0x60 that starts an erase also starts a
    two-plane read, and alone it changes nothing. *)
Definition NAND_CMD_PAGEPROG : Z := 0x10.
Definition NAND_CMD_CACHEDPROG : Z := 0x15.
Definition NAND_CMD_ERASE2 : Z := 0xd0.
Definition program_op (cmd : Z) : bool :=
  let op := Z.land cmd 0xff in
  (op =? NAND_CMD_PAGEPROG) || (op =? NAND_CMD_CACHEDPROG) || (op =? NAND_CMD_ERASE2).
Definition programs (c : nfc_cmd) : bool :=
  match c with Cle _ cmd => program_op cmd | _ => false end.

(** A relation that also lets commands through that program nothing. *)
Class CmdFrame {D : Type} (R : world D -> world D -> Prop) : Prop := {
  cmd_frame :: Frame R;
  cmd_log : forall c w, programs c = false -> R w (set_w_log (c :: w.(w_log)) w)
}.

(** A relation that lets every command through. *)
Class AnyCmdFrame {D : Type} (R : world D -> world D -> Prop) : Prop := {
  any_cmd_frame :: CmdFrame R;
  any_cmd_log : forall c w, R w (set_w_log (c :: w.(w_log)) w)
}.

Section HwFrame.
Context {D : Type} `{!NandHw D} (R : world D -> world D -> Prop).

Lemma respects_device `{!Frame R} f : respects R (device f).
Proof.
  intros w. unfold wp, device. destruct (f _ _) as [d m].
  etransitivity; [apply frame_dev | apply frame_mem].
Qed.
Lemma respects_device_read `{!Frame R} f : respects R (device_read f).
Proof.
  intros w. unfold wp, device_read. destruct (f _ _) as [v [d m]].
  etransitivity; [apply frame_dev | apply frame_mem].
Qed.
#[local] Hint Resolve respects_device respects_device_read : respects.

Lemma respects_wait_fifo `{!Frame R} n : respects R (wait_fifo n).
Proof.
  induction n as [|n IH]; cbn; [apply respects_ret, _|].
  apply respects_bind; [apply _ | |intros v; destruct (0 <? v); [done | apply respects_ret, _]].
  unfold NFC_CMDFIFO_SIZE, NFC_INFO_GET. solve_respects.
Qed.

Context `{!CmdFrame R}.
#[local] Hint Resolve respects_wait_fifo : respects.

Lemma respects_send c : programs c = false -> respects R (NFC_SEND_CMD c).
Proof.
  intros H. unfold NFC_SEND_CMD. apply respects_bind; [apply _ | | intros; solve_respects].
  apply respects_modify. intros w. by apply cmd_log.
Qed.
Lemma respects_send_idle ce t : respects R (NFC_SEND_CMD_IDLE ce t).
Proof.
  unfold NFC_SEND_CMD_IDLE, NFC_WAIT_FIFO_EMPTY. apply respects_bind; [apply _ | |].
  - apply respects_wait_fifo.
  - intros _. by apply respects_send.
Qed.
Lemma respects_idle_selected t : respects R (idle_selected t).
Proof.
  unfold idle_selected, ctl_. apply respects_bind; [apply _ | apply respects_chip, _ |].
  intros. apply respects_send_idle.
Qed.
#[local] Hint Resolve respects_send_idle respects_idle_selected : respects.
#[local] Hint Extern 2 (respects _ (NFC_SEND_CMD _)) =>
  apply respects_send; reflexivity : respects.

Ltac hw_respects := unfold ctl_, ops_, flash_, NFC_WAIT_FIFO_EMPTY,
  NFC_CMDFIFO_SIZE, NFC_INFO_GET, nandphy_readb, udelay, smp_rmb; solve_respects.

Lemma respects_send_dma_addr : respects R send_dma_addr.
Proof. unfold send_dma_addr. hw_respects. Qed.
Lemma respects_poll_from n ready delay limit :
  respects R ready -> respects R delay -> respects R (poll_from n ready delay limit).
Proof. intros. unfold poll_from. hw_respects; done. Qed.
Lemma respects_poll ready delay limit :
  respects R ready -> respects R delay -> respects R (poll ready delay limit).
Proof. apply respects_poll_from. Qed.
Lemma respects_select_chip n : respects R (controller_select_chip n).
Proof. unfold controller_select_chip. hw_respects. Qed.
Lemma respects_cmd_ctrl cmd ctrl :
  truthy (Z.land ctrl 2) && program_op cmd = false ->
  respects R (controller_cmd_ctrl cmd ctrl).
Proof.
  intros H. unfold controller_cmd_ctrl.
  destruct (cmd =? NAND_CMD_NONE); [apply respects_ret, _|].
  apply respects_bind; [apply _ | apply respects_chip, _ | intros ce].
  destruct (truthy (Z.land ctrl 2)); apply respects_send; done.
Qed.
Lemma respects_send_any `{!AnyCmdFrame R} c : respects R (NFC_SEND_CMD c).
Proof.
  unfold NFC_SEND_CMD. apply respects_bind; [apply _ | | intros; apply respects_device; apply _].
  apply respects_modify. intros w. apply any_cmd_log.
Qed.
Lemma respects_cmd_ctrl_any `{!AnyCmdFrame R} cmd ctrl :
  respects R (controller_cmd_ctrl cmd ctrl).
Proof.
  unfold controller_cmd_ctrl. destruct (cmd =? NAND_CMD_NONE); [apply respects_ret, _|].
  apply respects_bind; [apply _ | apply respects_chip, _ | intros ce].
  destruct (truthy _); by apply respects_send_any.
Qed.
Lemma respects_write_byte b : respects R (controller_write_byte b).
Proof. unfold controller_write_byte. hw_respects. Qed.
Lemma respects_read_byte : respects R controller_read_byte.
Proof. unfold controller_read_byte. hw_respects. Qed.
#[local] Hint Resolve respects_send_dma_addr respects_select_chip respects_write_byte
  respects_read_byte : respects.
#[local] Hint Extern 2 (respects _ (controller_cmd_ctrl _ _)) =>
  apply respects_cmd_ctrl; reflexivity : respects.

Lemma respects_quene_rb n : respects R (controller_quene_rb n).
Proof.
  unfold controller_quene_rb, rb_prepare. hw_respects.
  apply respects_poll; [|hw_respects].
  unfold rb_test, status_ready, rb_ready, NFC_GET_RB_STATUS. hw_respects.
Qed.
Lemma respects_user_word i : respects R (user_word i).
Proof. unfold user_word, load32. hw_respects. Qed.
#[local] Hint Resolve respects_user_word : respects.
Lemma respects_hwecc_correct n : respects R (controller_hwecc_correct n).
Proof. unfold controller_hwecc_correct. hw_respects. Qed.
Lemma respects_dma_shape n m : respects R (dma_shape n m).
Proof. unfold dma_shape. hw_respects. Qed.
Lemma respects_dma_wait : respects R dma_wait.
Proof.
  unfold dma_wait. hw_respects. apply respects_poll; hw_respects.
Qed.
Lemma respects_wait_info spin p : respects R (wait_info spin p).
Proof. unfold wait_info, load32. hw_respects. Qed.
Lemma respects_memset p c n : respects R (memset p c n).
Proof. apply respects_store_bytes, _. Qed.
Lemma respects_memcpy p q n : respects R (memcpy p q n).
Proof. unfold memcpy. hw_respects. Qed.
#[local] Hint Resolve respects_dma_shape respects_dma_wait respects_wait_info
  respects_memset respects_memcpy : respects.

Lemma respects_dma_read spin n m : respects R (controller_dma_read spin n m).
Proof. unfold controller_dma_read. hw_respects. Qed.
Lemma respects_dma_write p n m : respects R (controller_dma_write p n m).
Proof. unfold controller_dma_write. hw_respects. Qed.
Lemma respects_get_user_byte p n : respects R (controller_get_user_byte p n).
Proof. unfold controller_get_user_byte, store8. hw_respects. Qed.
Lemma respects_set_user_byte p n : respects R (controller_set_user_byte p n).
Proof. unfold controller_set_user_byte, store32, load8, load32. hw_respects. Qed.
End HwFrame.

#[export] Hint Resolve respects_send_idle respects_idle_selected respects_poll
  respects_poll_from respects_select_chip respects_write_byte respects_read_byte
  respects_quene_rb respects_hwecc_correct respects_memset respects_memcpy respects_dma_read
  respects_dma_write respects_get_user_byte respects_set_user_byte : respects.
#[export] Hint Extern 5 (CmdFrame _) => typeclasses eauto : respects.
#[export] Hint Extern 5 (AnyCmdFrame _) => typeclasses eauto : respects.
#[export] Hint Extern 3 (respects _ (controller_cmd_ctrl _ _)) =>
  apply respects_cmd_ctrl_any; typeclasses eauto : respects.
#[export] Hint Resolve respects_device respects_device_read respects_wait_fifo : respects.
#[export] Hint Extern 2 (respects _ (controller_cmd_ctrl _ _)) =>
  apply respects_cmd_ctrl; first [reflexivity | typeclasses eauto] : respects.
#[export] Hint Extern 2 (respects _ (NFC_SEND_CMD _)) =>
  apply respects_send; first [reflexivity | typeclasses eauto] : respects.

(** ** Controller operations without unbounded loops *)
Section HwBounded.
Context {D : Type} `{!NandHw D}.

Lemma bounded_device (f : D -> memory -> D * memory) : bounded (device f).
Proof. intros w. unfold wp, device. by destruct (f _ _). Qed.
Lemma bounded_device_read (f : D -> memory -> Z * (D * memory)) : bounded (device_read f).
Proof. intros w. unfold wp, device_read. by destruct (f _ _) as [v [d m]]. Qed.
#[local] Hint Resolve bounded_device bounded_device_read : bounded.
Lemma bounded_wait_fifo n : bounded (wait_fifo n).
Proof.
  induction n as [|n IH]; cbn; [done|]. unfold NFC_CMDFIFO_SIZE, NFC_INFO_GET.
  solve_bounded.
Qed.
#[local] Hint Resolve bounded_wait_fifo : bounded.
Lemma bounded_send c : bounded (NFC_SEND_CMD c).
Proof. unfold NFC_SEND_CMD. solve_bounded. Qed.
#[local] Hint Resolve bounded_send : bounded.
Lemma bounded_idle_selected n : bounded (idle_selected n).
Proof.
  unfold idle_selected, NFC_SEND_CMD_IDLE, NFC_WAIT_FIFO_EMPTY, ctl_. solve_bounded.
Qed.
#[local] Hint Resolve bounded_idle_selected : bounded.
Lemma bounded_select_chip n : bounded (controller_select_chip n).
Proof. unfold controller_select_chip, ctl_. solve_bounded. Qed.
End HwBounded.
#[export] Hint Resolve bounded_device bounded_device_read bounded_wait_fifo bounded_send
  bounded_idle_selected bounded_select_chip : bounded.

(** ** The bus always answers
    Sending commands, moving bytes and waiting for a chip end without a fault
    whatever the hardware does, and touch nothing but the bus: the selection of
    the chip, the history of the commands, the device and memory. *)
Class BusFrame {D : Type} (R : world D -> world D -> Prop) : Prop := {
  bus_preorder :: PreOrder R;
  bus_log : forall c w, R w (set_w_log (c :: w.(w_log)) w);
  bus_dev : forall d m w, R w (set_w_mem m (set_w_dev d w));
  bus_select : forall n w, R w (set_w_chip (set_controller
    (set_chip_selected n w.(w_chip).(controller)) w.(w_chip)) w);
  bus_rb : forall n w, R w (set_w_chip (set_controller
    (set_rb_received n w.(w_chip).(controller)) w.(w_chip)) w)
}.
#[export] Hint Extern 5 (BusFrame _) => typeclasses eauto : runs.

Section BusRuns.
Context {D : Type} `{!NandHw D} (R : world D -> world D -> Prop) `{!BusFrame R}.
Ltac bus_runs := unfold ctl_, ops_, flash_, chip, NFC_WAIT_FIFO_EMPTY, NFC_CMDFIFO_SIZE,
  NFC_INFO_GET, nandphy_readb, udelay, smp_rmb; solve_runs.

Lemma runs_device f : runs R (device f).
Proof. intros w. unfold wp, device. destruct (f _ _) as [d m]. apply bus_dev. Qed.
Lemma runs_device_read f : runs R (device_read f).
Proof. intros w. unfold wp, device_read. destruct (f _ _) as [v [d m]]. apply bus_dev. Qed.
#[local] Hint Resolve runs_device runs_device_read : runs.
Lemma runs_wait_fifo n : runs R (wait_fifo n).
Proof.
  induction n as [|n IH]; cbn; [apply runs_ret, _|].
  apply runs_bind; [apply _ | | intros v; destruct (0 <? v); [done | apply runs_ret, _]].
  bus_runs.
Qed.
Lemma runs_send c : runs R (NFC_SEND_CMD c).
Proof.
  unfold NFC_SEND_CMD. apply runs_bind; [apply _ | | intros; apply runs_device].
  apply runs_modify. intros w. apply bus_log.
Qed.
#[local] Hint Resolve runs_wait_fifo runs_send : runs.
Lemma runs_idle_selected t : runs R (idle_selected t).
Proof. unfold idle_selected, NFC_SEND_CMD_IDLE. bus_runs. Qed.
Lemma runs_cmd_ctrl cmd ctrl : runs R (controller_cmd_ctrl cmd ctrl).
Proof. unfold controller_cmd_ctrl. bus_runs. Qed.
#[local] Hint Resolve runs_idle_selected runs_cmd_ctrl : runs.
Lemma runs_write_byte b : runs R (controller_write_byte b).
Proof. unfold controller_write_byte. bus_runs. Qed.
Lemma runs_read_byte : runs R controller_read_byte.
Proof. unfold controller_read_byte. bus_runs. Qed.
Lemma runs_udelay : runs R udelay.
Proof. bus_runs. Qed.
Lemma runs_select_chip n : 0 <= n <= 3 -> runs R (controller_select_chip n).
Proof.
  intros Hn. unfold controller_select_chip.
  replace ((0 <=? n) && (n <=? 3)) with true by lia. bus_runs; apply runs_modify;
    intros w; [apply bus_select | apply bus_rb].
Qed.
#[local] Hint Resolve runs_read_byte runs_udelay : runs.

Lemma runs_poll ready delay limit :
  0 <= limit -> runs R ready -> runs R delay -> runs R (poll ready delay limit).
Proof.
  intros Hl Hr Hd. unfold poll, poll_from. apply runs_bind; [apply _ | | bus_runs].
  apply runs_count; [apply _ | | lia]. intros i w. apply wp_bind, (wp_runs R); [done|].
  intros [|] w1 H1; [by apply wp_ret|]. apply wp_bind, (wp_runs R); [done|].
  intros _ w2 H2. apply wp_ret. split; [done | by etransitivity].
Qed.

Lemma runs_quene_rb n : 0 <= n <= 3 -> runs R (controller_quene_rb n).
Proof.
  intros Hn. unfold controller_quene_rb, rb_prepare. apply runs_bind; [apply _ | bus_runs |].
  intros st. apply runs_bind; [apply _ | |].
  - apply runs_bind; [apply _ | by apply runs_select_chip | bus_runs].
  - intros b. apply runs_bind; [apply _ | | bus_runs].
    apply runs_poll; [by apply Z.lt_le_incl, rb_time_limit_pos | | bus_runs].
    unfold rb_test, status_ready, rb_ready, NFC_GET_RB_STATUS. bus_runs.
Qed.
End BusRuns.
#[export] Hint Resolve runs_idle_selected runs_cmd_ctrl runs_write_byte runs_read_byte
  runs_udelay runs_wait_fifo : runs.
