(* ===== verification/ChipOp.v ===== *)
(** * ChipOp: [phy/chip_operation.c].

    Reading, writing and erasing pages through the controller, and the bad
    block table.  The [goto]s of the source that go back to send a read command
    again (read retry) are rounds of a loop here.  The function pointers that
    [phy/new_nand.c] installs are gathered in [hooks]. *)
From S2P Require Import Prelude NfcWords Data Machine Guards Ctrl HwController.

(** The function pointers of [retry_info] and [slc_info]. *)
Record hooks (D : Type) := mk_hooks {
  retry_handle : Z -> act D Z;
  retry_exit : Z -> act D Z;
  slc_enter : act D Z;
  slc_exit : act D Z
}.
Arguments retry_handle {D} _ _.
Arguments retry_exit {D} _ _.
Arguments slc_enter {D} _.
Arguments slc_exit {D} _.

(** ** Constants *)
Definition NAND_CMD_READ0 : Z := 0x00.
Definition NAND_CMD_RNDOUT : Z := 0x05.
Definition NAND_CMD_PLANE2_READ_START : Z := 0x06.
Definition NAND_CMD_DUMMY_PROGRAM : Z := 0x11.
Definition NAND_CMD_READSTART : Z := 0x30.
Definition NAND_CMD_TWOPLANE_PREVIOS_READ : Z := 0x60.
Definition NAND_CMD_ERASE1 : Z := 0x60.
Definition NAND_CMD_SEQIN : Z := 0x80.
Definition NAND_CMD_READID : Z := 0x90.
Definition NAND_CMD_GET_FEATURES : Z := 0xee.
Definition NAND_CMD_SET_FEATURES : Z := 0xef.
Definition NAND_CMD_RESET : Z := 0xff.
Definition NAND_CMD_TWOPLANE_WRITE2_MICRO : Z := 0x80.
Definition NAND_CMD_TWOPLANE_WRITE2 : Z := 0x81.
Definition NAND_CMD_ERASE1_END : Z := 0xd1.
Definition NAND_CMD_RNDOUTSTART : Z := 0xe0.
Definition NAND_TADL_TIME_CYCLE : Z := 20.
Definition NAND_MFR_SAMSUNG : Z := 0xec.
Definition NAND_MFR_HYNIX : Z := 0xad.
Definition NAND_MFR_MICRON : Z := 0x2c.
Definition NAND_MFR_INTEL : Z := 0x89.
Definition HYNIX_20NM_4GB : Z := 3.
Definition HYNIX_20NM_8GB : Z := 4.
Definition HYNIX_1YNM_8GB : Z := 6.
Definition SANDISK_19NM : Z := 40.
Definition NAND_CTRL_FORCE_WP : Z := 1.
Definition NAND_CMD_FAILURE : Z := 1.
Definition NAND_WP_FAILURE : Z := 10.
Definition NAND_WRITE_FAILED : Z := 14.
Definition NAND_STATUS_WP : Z := 0x80.
Definition NAND_STATUS_FAILED : Z := 0xe1.
Definition NAND_STATUS_RIGHT : Z := 0xe0.
Definition NAND_STATUS_MAX_TRY : Z := 6.

(** ** Page addresses *)

(** A page past the first die of a chip. *)
Definition internal_addr (page nums chips : Z) : Z :=
  if nums <=? page then Z.lor (u32 (page - nums)) (u32 (nums * chips)) else page.

(** The two planes' pages behind one multi-plane address. *)
Definition plane_addrs (shift page : Z) : Z * Z :=
  let plane_page_addr := Z.land page (shl32 1 shift - 1) in
  let plane_blk_addr := shl32 (Z.shiftr page shift) 1 in
  (Z.lor (shl32 plane_blk_addr shift) plane_page_addr,
   Z.lor (shl32 (u32 (plane_blk_addr + 1)) shift) plane_page_addr).

Definition has (opts flag : Z) : bool := truthy (Z.land opts flag).

Section ChipOp.
Context {D : Type} `{!NandHw D} (spin : nat) (hk : hooks D).

(** ** The command queue *)

(** [time_out_cnt] keeps its value when the wait is tried again. *)
Definition check_cmdfifo_size : act D Z :=
  r ← while_ (R := Z) 6 (fun _ => true)
        (fun '(time_out_cnt, retry_cnt) =>
           cnt ← poll_from time_out_cnt (n ← NFC_CMDFIFO_SIZE; mret (n <=? 0)) (mret tt)
                   AML_DMA_BUSY_TIMEOUT;
           if AML_DMA_BUSY_TIMEOUT <=? cnt then
             if 3 <? retry_cnt then mret (Return (- NAND_FAILED))
             else udelay ;; mret (Next (cnt, retry_cnt + 1))
           else mret (Return 0))
        (0, 0);
  mret (match r with inr e => e | inl _ => 0 end).

(** [if (check_cmdfifo_size()) BUG();] *)
Definition drain_or_bug : act D unit :=
  r ← check_cmdfifo_size; if truthy r then throw BugHit else mret tt.

Definition check_wp : act D Z :=
  opts ← ctl_ ctl_option;
  if has opts NAND_CTRL_FORCE_WP then mret (- NAND_WP_FAILURE)
  else
    chips ← ctl_ chip_num;
    r ← for_ (R := Z) (Z.to_nat chips) 0
          (fun i time_out_cnt =>
             controller_select_chip i ;;
             controller_cmd_ctrl NAND_CMD_STATUS NAND_CTRL_CLE ;;
             idle_selected NAND_TWHR_TIME_CYCLE ;;
             idle_selected 0 ;; idle_selected 0 ;;
             cnt ← poll_from time_out_cnt (n ← NFC_CMDFIFO_SIZE; mret (n <=? 0)) udelay
                     AML_NAND_READ_BUSY_TIMEOUT;
             if AML_NAND_READ_BUSY_TIMEOUT <=? cnt then mret (Return (- NAND_CMD_FAILURE))
             else
               status ← controller_read_byte;
               if has status NAND_STATUS_WP then mret (Return (- NAND_WP_FAILURE))
               else mret (Next cnt))
          0;
    mret (match r with inr e => e | inl _ => 0 end).

(** ** Command sequences *)
Definition cle (cmd : Z) : act D unit := controller_cmd_ctrl cmd NAND_CTRL_CLE.
Definition ale (a : Z) : act D unit := controller_cmd_ctrl a NAND_CTRL_ALE.
Definition send_row (a : Z) : act D unit :=
  ale a ;; ale (Z.shiftr a 8) ;; ale (Z.shiftr a 16).
Definition send_col : act D unit := ale 0 ;; ale 0.     (* [column] is always 0 *)
Definition send_addr (a : Z) : act D unit := send_col ;; send_row a.

(** ** Reset, identification, ONFI features *)
Definition nand_reset (chip_nr : Z) : act D Z :=
  idle_selected 0 ;;
  cle NAND_CMD_RESET ;;
  idle_selected NAND_TWB_TIME_CYCLE ;; idle_selected 0 ;;
  ret ← controller_quene_rb chip_nr;
  if ret <? 0 then mret (- NAND_BUSY_FAILURE)
  else
    cle NAND_CMD_STATUS ;;
    idle_selected NAND_TWHR_TIME_CYCLE ;; idle_selected 0 ;; idle_selected 0 ;;
    NFC_WAIT_FIFO_EMPTY ;;
    status ← controller_read_byte;
    mret (if has status NAND_STATUS_READY then 0 else - NAND_BUSY_FAILURE).

(** [buf[i] = readbyte()] for [n] bytes. *)
Definition read_bytes_to (buf : ptr) (n : nat) : act D unit :=
  r ← for_ (R := unit) n 0
        (fun i _ => b ← controller_read_byte; store8 (ptr_add buf i) b ;; mret (Next tt)) tt;
  mret tt.

Definition read_id (chip_nr id_addr : Z) (buf : ptr) : act D Z :=
  if is_null buf then mret (- NAND_ARGUMENT_FAILURE)
  else
    ret ← controller_select_chip chip_nr;
    if ret <? 0 then mret ret
    else
      ret ← nand_reset chip_nr;
      if ret <? 0 then mret ret
      else
        cle NAND_CMD_READID ;; ale id_addr ;;
        idle_selected NAND_TWHR_TIME_CYCLE ;; idle_selected 0 ;;
        read_bytes_to buf 8 ;;
        mret ret.

Definition get_onfi_features (buf : ptr) (addr : Z) : act D Z :=
  chips ← ctl_ chip_num;
  r ← for_ (R := unit) (Z.to_nat chips) 0
        (fun i _ =>
           controller_select_chip i ;;
           cle NAND_CMD_GET_FEATURES ;; ale addr ;;
           idle_selected NAND_TWB_TIME_CYCLE ;; idle_selected 0 ;;
           read_bytes_to buf 4 ;; mret (Next tt)) tt;
  mret 0.

Definition set_onfi_features (buf : ptr) (addr : Z) : act D Z :=
  chips ← ctl_ chip_num;
  r ← for_ (R := Z) (Z.to_nat chips) 0
        (fun i time_out_cnt =>
           controller_select_chip i ;;
           cle NAND_CMD_SET_FEATURES ;; ale addr ;;
           idle_selected NAND_TADL_TIME_CYCLE ;; idle_selected 0 ;;
           (r ← for_ (R := unit) 4 0
                 (fun j _ => b ← load8 (ptr_add buf j); controller_write_byte b ;;
                             mret (Next tt)) tt;
            mret tt) ;;
           cnt ← poll_from time_out_cnt (n ← NFC_CMDFIFO_SIZE; mret (n <=? 0)) udelay
                   AML_NAND_READ_BUSY_TIMEOUT;
           mret (if AML_NAND_READ_BUSY_TIMEOUT <=? cnt then Return (- NAND_BUSY_FAILURE)
                 else Next cnt))
        0;
  mret (match r with inr e => e | inl _ => 0 end).

(** ** Shape of an operation *)
Record shape := mk_shape {
  sh_bch : Z;            (* [bch_mode] *)
  sh_page_size : Z;
  sh_user : Z;           (* [user_byte_num] *)
  sh_chips : Z;          (* [chip_num] *)
  sh_planes : Z;         (* [plane_num] *)
  sh_slc : Z;            (* [slc_mode] *)
  sh_up : bool;          (* [up_page] *)
  sh_p0 : Z;             (* [plane0_page_addr] *)
  sh_p1 : Z;
  sh_retry : Z           (* [retry_op_cnt] *)
}.

(** [slc_mode] and [up_page] as [read_page] works them out. *)
Definition slc_mode_of (opts type : Z) : Z :=
  if has opts DEV_SLC_MODE then
    if type =? SANDISK_19NM then 1 else if (0 <? type) && (type <? 10) then 2 else 0
  else 0.
Definition up_page_of (opts type page shift : Z) : bool :=
  negb (has opts DEV_SLC_MODE) && (type =? SANDISK_19NM) &&
  let tmp_page := page mod shl32 1 shift in
  ((tmp_page mod 2 =? 0) && negb (tmp_page =? 0)) || (tmp_page =? shl32 1 shift - 1).

(** Sets [controller->page_addr] and works out the shape of the operation. *)
Definition page_shape : act D shape :=
  ops ← chip ops_para;
  fl ← chip flash;
  c ← chip controller;
  let opts := ops.(ops_option) in
  let addr := internal_addr ops.(page_addr) c.(internal_page_nums) fl.(internal_chipnr) in
  upd_ctl (set_ctl_page_addr addr) ;;
  let shift := c.(block_shift) - c.(page_shift) in
  let raw := has opts DEV_ECC_SOFT_MODE || (c.(bch_mode) =? NAND_ECC_NONE) in
  let planes := has opts DEV_MULTI_PLANE_MODE in
  let lp := c.(retry_info).(retry_cnt_lp) in
  let hynix := (fl.(new_type) =? HYNIX_20NM_8GB) || (fl.(new_type) =? HYNIX_20NM_4GB)
               || (fl.(new_type) =? HYNIX_1YNM_8GB) in
  mret (mk_shape
    (if raw then NAND_ECC_NONE else c.(bch_mode))
    (if raw then u32 (fl.(pagesize) + fl.(oobsize)) else c.(ecc_steps) * c.(ecc_unit))
    (u8 (if raw then fl.(oobsize) else c.(ecc_steps) * c.(user_mode)))
    (if has opts DEV_MULTI_CHIP_MODE then c.(chip_num) else 1)
    (if planes then 2 else 1)
    (slc_mode_of opts fl.(new_type))
    (up_page_of opts fl.(new_type) ops.(page_addr) shift)
    (if planes then fst (plane_addrs shift addr) else 0)
    (if planes then snd (plane_addrs shift addr) else 0)
    (if hynix then lp * lp else lp)).

Definition chip_of (sh : shape) (i : Z) : act D Z :=
  if 1 <? sh.(sh_chips) then mret i else ops_ chipnr.

Definition micron_like (mfr : Z) : bool := (mfr =? NAND_MFR_MICRON) || (mfr =? NAND_MFR_INTEL).

(** ** Reading *)

(** The read command for one chip (labels [RETRY_PLANE_CMD] and [RETRY_CMD]);
    SLC mode is entered only the first time. *)
Definition read_command (sh : shape) (chip_nr : Z) (first : bool) : act D unit :=
  mfr ← ctl_ mfr_type;
  (if sh.(sh_planes) =? 2 then
     if micron_like mfr then
       cle NAND_CMD_READ0 ;; send_addr sh.(sh_p0) ;;
       cle 0x32 ;;
       idle_selected NAND_TWB_TIME_CYCLE ;;
       ret ← controller_quene_rb chip_nr;
       cle NAND_CMD_READ0 ;; send_addr sh.(sh_p1) ;;
       cle NAND_CMD_READSTART
     else
       cle NAND_CMD_TWOPLANE_PREVIOS_READ ;; send_row sh.(sh_p0) ;;
       cle NAND_CMD_TWOPLANE_PREVIOS_READ ;; send_row sh.(sh_p1) ;;
       cle NAND_CMD_READSTART
   else
     when_ ((sh.(sh_slc) =? 1) && first) (ret ← hk.(slc_enter); mret tt) ;;
     page ← ctl_ ctl_page_addr;
     cle NAND_CMD_READ0 ;; send_addr page ;; cle NAND_CMD_READSTART) ;;
  idle_selected NAND_TWB_TIME_CYCLE ;;
  drain_or_bug.

(** What became of a plane's page: erased (every bit one), to be read again
    with other thresholds, or done, with the number of retries so far. *)
Inductive verdict :=
  | AllFF
  | Retry (retry_cnt : Z)
  | Final (retry_cnt : Z).

(** [retry_cnt++ < limit] in an [unsigned char]. *)
Definition retry_limit (sh : shape) (type : Z) (r : read_retry_info) : Z :=
  if negb (type =? SANDISK_19NM) then sh.(sh_retry)
  else if sh.(sh_up) then r.(retry_cnt_up) else r.(retry_cnt_lp).

(** Too many corrected bits, or too many retries: the block should be moved. *)
Definition note_bit_flip (sh : shape) (retry_cnt : Z) : act D unit :=
  type ← flash_ new_type;
  c ← chip controller;
  let limit := retry_limit sh type c.(retry_info) in
  if truthy retry_cnt then
    when_ (limit - 2 <? retry_cnt) (upd_ops (fun o => set_bit_flip (u8 (o.(bit_flip) + 1)) o))
  else
    when_ ((c.(ecc_cnt_limit) <? c.(ecc_cnt_cur)) && (type =? 0))
      (upd_ops (fun o => set_bit_flip (u8 (o.(bit_flip) + 1)) o)).

(** User bytes, ECC result, retry and give-up of one plane's page; [reset] on
    the planes where the source resets the chip after a failure. *)
Definition read_correct (sh : shape) (chip_nr page_size retry_cnt : Z) (tmp_buf : ptr)
    (reset : bool) : act D verdict :=
  controller_get_user_byte tmp_buf sh.(sh_user) ;;
  ret ← controller_hwecc_correct page_size;
  type ← flash_ new_type;
  c ← chip controller;
  let r := c.(retry_info) in
  v ← (if ret =? NAND_ECC_FAILURE then
         if c.(zero_cnt) <? c.(ecc_max) then mret AllFF
         else
           let may := truthy r.(retry_flag) && (sh.(sh_slc) =? 0) in
           let retry_cnt' := if may then u8 (retry_cnt + 1) else retry_cnt in
           if may && (retry_cnt <? retry_limit sh type r) then
             ret ← hk.(retry_handle) chip_nr;
             mret (Retry retry_cnt')
           else
             upd_ops (fun o => set_ecc_err (u8 (o.(ecc_err) + 1)) o) ;;
             when_ (reset && truthy r.(retry_flag) && truthy type && (type <? 10))
               (ret ← nand_reset chip_nr; mret tt) ;;
             mret (Final retry_cnt')
       else if ret <? 0 then throw BugHit
       else note_bit_flip sh retry_cnt ;; mret (Final retry_cnt));
  match v with
  | Final cnt =>
      has ← ctl_ (fun c => has_exit c.(retry_info));
      when_ (truthy cnt && has) (ret ← hk.(retry_exit) chip_nr; mret tt) ;;
      mret v
  | _ => mret v
  end.

(** Data and user bytes of one plane go out; the cursors move on. *)
Definition copy_out (with_data with_oob ff : bool) (page_size user : Z)
    (buf tmp_buf : ptr) : act D (ptr * ptr) :=
  data ← ctl_ ctl_data_buf;
  when_ with_data (if ff then memset buf 0xff page_size else memcpy buf data page_size) ;;
  when_ (with_oob && ff) (memset tmp_buf 0xff user) ;;
  mret (if with_data then ptr_add buf page_size else buf,
        if with_oob then ptr_add tmp_buf user else tmp_buf).

(** Pointing the chip's output at a plane. *)
Definition plane_out (addr : Z) : act D unit :=
  cle NAND_CMD_READ0 ;; send_addr addr ;;
  cle NAND_CMD_RNDOUT ;; send_col ;; cle NAND_CMD_RNDOUTSTART ;;
  idle_selected NAND_TWHR_TIME_CYCLE.

Definition dma_or_bug (page_size bch : Z) : act D unit :=
  ret ← controller_dma_read spin page_size bch;
  if truthy ret then throw BugHit else mret tt.

(** What one pass over a chip works with: the cursors, whether plane 0 is
    done, and the retry count. *)
Record cursor := mk_cursor {
  cu_buf : ptr;
  cu_tmp : ptr;
  cu_plane0 : bool;        (* [plane0_retry_flag] *)
  cu_retry : Z
}.

(** A page read raw has no ECC result: it counts as done. *)
Definition read_plane (sh : shape) (chip_nr page_size retry_cnt : Z) (tmp_buf : ptr)
    (reset : bool) : act D verdict :=
  dma_or_bug page_size sh.(sh_bch) ;;
  if sh.(sh_bch) =? NAND_ECC_NONE then mret (Final retry_cnt)
  else read_correct sh chip_nr page_size retry_cnt tmp_buf reset.

Section Pass.
Context (sh : shape) (chip_nr page_size : Z) (with_data with_oob new_oob : bool).

Let out (ff : bool) (buf tmp : ptr) : act D (ptr * ptr) :=
  copy_out with_data with_oob ff page_size sh.(sh_user) buf tmp.

(** Plane 0, unless an earlier pass has it; [inr]: the command was sent again. *)
Definition pass_plane0 (mfr : Z) (l : cursor) : act D (cursor + Z) :=
  if l.(cu_plane0) then mret (inl l)
  else
    when_ (negb (micron_like mfr)) (plane_out sh.(sh_p0)) ;;
    upd_ctl (set_ctl_page_addr sh.(sh_p0)) ;;
    v ← read_plane sh chip_nr page_size l.(cu_retry) l.(cu_tmp) false;
    match v with
    | Retry cnt => read_command sh chip_nr false ;; mret (inr cnt)
    | AllFF =>
        '(buf, tmp) ← out true l.(cu_buf) l.(cu_tmp);
        mret (inl (mk_cursor buf tmp false l.(cu_retry)))
    | Final cnt =>
        '(buf, tmp) ← out false l.(cu_buf) l.(cu_tmp);
        mret (inl (if sh.(sh_bch) =? NAND_ECC_NONE then mk_cursor buf tmp false cnt
                   else mk_cursor buf tmp true 0))
    end.

(** The end of a pass over the last plane: [Next] when the command was sent
    again, [Break] when the chip is done. *)
Definition pass_end (v : verdict) (l : cursor) (done_ : Z -> cursor -> cursor)
    : act D (ctl cursor (Datatypes.option Z)) :=
  match v with
  | Retry cnt =>
      read_command sh chip_nr false ;;
      mret (Next (mk_cursor l.(cu_buf) l.(cu_tmp) l.(cu_plane0) cnt))
  | AllFF =>
      '(buf, tmp) ← out true l.(cu_buf) l.(cu_tmp);
      drain_or_bug ;;
      mret (Break (mk_cursor buf tmp l.(cu_plane0) l.(cu_retry)))
  | Final cnt =>
      '(buf, tmp) ← out false l.(cu_buf) l.(cu_tmp);
      drain_or_bug ;;
      mret (Break (done_ cnt (mk_cursor buf tmp l.(cu_plane0) cnt)))
  end.

Definition pass_plane1 (mfr : Z) (l : cursor)
    : act D (ctl cursor (Datatypes.option Z)) :=
  (if micron_like mfr then
     cle NAND_CMD_PLANE2_READ_START ;; send_addr sh.(sh_p1) ;;
     cle NAND_CMD_RNDOUTSTART ;; idle_selected NAND_TWHR_TIME_CYCLE
   else plane_out sh.(sh_p1)) ;;
  upd_ctl (set_ctl_page_addr sh.(sh_p1)) ;;
  v ← read_plane sh chip_nr page_size l.(cu_retry) l.(cu_tmp) true;
  pass_end v l (fun _ l => mk_cursor l.(cu_buf) l.(cu_tmp) false 0).

Definition pass_single (l : cursor) : act D (ctl cursor (Datatypes.option Z)) :=
  v ← read_plane sh chip_nr page_size l.(cu_retry) l.(cu_tmp) true;
  pass_end v l (fun _ l => l).

(** One pass from the label [RETRY_DMA]: [Return (Some e)] for [error_exit0]
    and [Return None] for [new_oob_mod]. *)
Definition read_pass (l : cursor) : act D (ctl cursor (Datatypes.option Z)) :=
  ret ← controller_quene_rb chip_nr;
  if truthy ret then mret (Return (Some ret))
  else
    opts ← ctl_ ctl_option;
    mfr ← ctl_ mfr_type;
    when_ (has opts NAND_CTRL_NONE_RB)
      (cle NAND_CMD_READ0 ;; idle_selected NAND_TWB_TIME_CYCLE) ;;
    if sh.(sh_planes) =? 2 then
      p ← pass_plane0 mfr l;
      match p with
      | inr cnt => mret (Next (mk_cursor l.(cu_buf) l.(cu_tmp) false cnt))
      | inl l =>
          if micron_like mfr && new_oob then mret (Return None) else pass_plane1 mfr l
      end
    else pass_single l.
End Pass.

Definition read_page : act D Z :=
  ops ← chip ops_para;
  if is_null ops.(data_buf) && is_null ops.(oob_buf) then mret (- NAND_ARGUMENT_FAILURE)
  else
    sh ← page_shape;
    c ← chip controller;
    let with_oob := negb (is_null ops.(oob_buf)) in
    let with_data := negb (is_null ops.(data_buf)) in
    let new_oob := truthy c.(oob_mod) && with_oob && negb with_data in
    let page_size := if new_oob then c.(ecc_unit) else sh.(sh_page_size) in
    r ← for_ (R := Z) (Z.to_nat sh.(sh_chips)) 0
          (fun i _ =>
             chip_nr ← chip_of sh i;
             ret ← controller_quene_rb chip_nr;
             if truthy ret then mret (Return ret)
             else read_command sh chip_nr true ;; mret (Next tt))
          tt;
    match r with
    | inr e => mret e
    | inl _ =>
        r ← for_ (R := Datatypes.option Z) (Z.to_nat sh.(sh_chips)) 0
              (fun i l =>
                 chip_nr ← chip_of sh i;
                 p ← while_ spin (fun _ => true)
                       (read_pass sh chip_nr page_size with_data with_oob new_oob)
                       (mk_cursor l.(cu_buf) l.(cu_tmp) l.(cu_plane0) 0);
                 mret (match p with inl l => Next l | inr e => Return e end))
              (mk_cursor ops.(data_buf) c.(ctl_oob_buf) false 0);
        match r with
        | inr (Some e) => mret e
        | _ =>
            ecc ← ops_ ecc_err;
            out ← ops_ oob_buf;
            tmp ← ctl_ ctl_oob_buf;
            when_ with_oob
              (memcpy out tmp BYTES_OF_USER_PER_PAGE ;;
               when_ (truthy ecc) (memset out 0x22 BYTES_OF_USER_PER_PAGE)) ;;
            mret 0
        end
    end.

(** ** Writing *)

(** Fills the spare bytes: the caller's, or a block that is not marked bad. *)
Definition fill_user_bytes (sh : shape) : act D unit :=
  oob ← ops_ oob_buf;
  own ← ctl_ ctl_oob_buf;
  let n := sh.(sh_user) * (sh.(sh_planes) * sh.(sh_chips)) in
  if is_null oob then memset own 0xa5 n ;; store8 own 0xff
  else memcpy own oob n.

Definition write_dma (sh : shape) (buf oob : ptr) : act D Z :=
  when_ (negb (sh.(sh_bch) =? NAND_ECC_NONE)) (controller_set_user_byte oob sh.(sh_user)) ;;
  controller_dma_write buf sh.(sh_page_size) sh.(sh_bch).

(** Both planes of one chip, up to the confirming command; [Some e] is the
    error exit, otherwise the cursors stand on the last plane written. *)
Definition write_planes (sh : shape) (chip_nr : Z) (buf oob : ptr)
    : act D (Z + (ptr * ptr)) :=
  mfr ← ctl_ mfr_type;
  cle NAND_CMD_SEQIN ;; send_addr sh.(sh_p0) ;;
  upd_ctl (set_ctl_page_addr sh.(sh_p0)) ;;
  ret ← write_dma sh buf oob;
  if truthy ret then mret (inl ret)
  else
    cle NAND_CMD_DUMMY_PROGRAM ;;
    idle_selected NAND_TADL_TIME_CYCLE ;;
    ret ← controller_quene_rb chip_nr;
    if truthy ret then mret (inl ret)
    else
      let oob := ptr_add oob sh.(sh_user) in
      let buf := ptr_add buf sh.(sh_page_size) in
      (if (mfr =? NAND_MFR_HYNIX) || (mfr =? NAND_MFR_SAMSUNG)
       then cle NAND_CMD_TWOPLANE_WRITE2 else cle NAND_CMD_TWOPLANE_WRITE2_MICRO) ;;
      send_addr sh.(sh_p1) ;;
      idle_selected NAND_TADL_TIME_CYCLE ;;
      upd_ctl (set_ctl_page_addr sh.(sh_p1)) ;;
      ret ← write_dma sh buf oob;
      mret (if truthy ret then inl ret else inr (buf, oob)).

Definition write_single (sh : shape) (chip_nr : Z) (buf oob : ptr)
    : act D (Z + (ptr * ptr)) :=
  when_ (truthy sh.(sh_slc)) (ret ← hk.(slc_enter); mret tt) ;;
  ret ← controller_quene_rb chip_nr;                 (* only reported *)
  page ← ctl_ ctl_page_addr;
  cle NAND_CMD_SEQIN ;; send_addr page ;;
  idle_selected NAND_TADL_TIME_CYCLE ;;
  ret ← write_dma sh buf oob;
  mret (if truthy ret then inl ret else inr (buf, oob)).

(** The status byte, read again up to [NAND_STATUS_MAX_TRY] times while it is
    neither [NAND_STATUS_FAILED] nor [NAND_STATUS_RIGHT]; then it is let go. *)
Definition status_try : act D Z :=
  r ← do_while (R := Z) 8
        (fun st_cnt =>
           status ← controller_read_byte;
           if status =? NAND_STATUS_FAILED then mret (Return (- NAND_WRITE_FAILED))
           else if negb (status =? NAND_STATUS_RIGHT) then
             if st_cnt <? NAND_STATUS_MAX_TRY then
               idle_selected NAND_TWB_TIME_CYCLE ;; mret (Next (st_cnt + 1))
             else mret (Break (st_cnt + 1))
           else mret (Break st_cnt))
        (fun _ => true) 0;
  mret (match r with inr e => e | inl _ => 0 end).

(** Waiting for the program or erase of every chip, and its status. *)
Definition wait_status (sh_chips : Z) (pick : Z -> act D Z) (done_ : act D unit) : act D Z :=
  r ← for_ (R := Z) (Z.to_nat sh_chips) 0
        (fun i _ =>
           chip_nr ← pick i;
           ret ← controller_quene_rb chip_nr;
           if truthy ret then mret (Return ret)
           else
             cle NAND_CMD_STATUS ;;
             idle_selected NAND_TWHR_TIME_CYCLE ;;
             ret ← status_try;
             if truthy ret then mret (Return ret)
             else done_ ;; mret (Next tt))
        tt;
  mret (match r with inr e => e | inl _ => 0 end).

Definition write_page : act D Z :=
  readonly ← gets w_readonly;
  ops ← chip ops_para;
  status ← chip nand_status;
  if truthy readonly then amlnf_refuse_write ;; mret (- EROFS)
  else if is_null ops.(data_buf) then mret (- NAND_ARGUMENT_FAILURE)
  else if negb (status =? 0) then mret 0
  else
    sh ← page_shape;
    own ← ctl_ ctl_oob_buf;
    let raw := sh.(sh_bch) =? NAND_ECC_NONE in
    let sh := if raw then mk_shape sh.(sh_bch) sh.(sh_page_size) 0 sh.(sh_chips)
                            sh.(sh_planes) sh.(sh_slc) sh.(sh_up) sh.(sh_p0) sh.(sh_p1)
                            sh.(sh_retry) else sh in
    when_ (negb raw) (fill_user_bytes sh) ;;
    r ← for_ (R := Z) (Z.to_nat sh.(sh_chips)) 0
          (fun i '(buf, oob) =>
             chip_nr ← chip_of sh i;
             ret ← controller_quene_rb chip_nr;
             if truthy ret then mret (Return ret)
             else
               p ← (if sh.(sh_planes) =? 2 then write_planes sh chip_nr buf oob
                    else write_single sh chip_nr buf oob);
               match p with
               | inl e => mret (Return e)
               | inr (buf, oob) =>
                   cle NAND_CMD_PAGEPROG ;;
                   idle_selected NAND_TWB_TIME_CYCLE ;;
                   drain_or_bug ;;
                   mret (Next (ptr_add buf sh.(sh_page_size), ptr_add oob sh.(sh_user)))
               end)
          (ops.(data_buf), if raw then ops.(oob_buf) else own);
    match r with
    | inr e => mret e
    | inl _ =>
        wait_status sh.(sh_chips) (chip_of sh)
          (when_ (sh.(sh_slc) =? 2) (ret ← hk.(slc_exit); mret tt))
    end.

(** ** Erasing *)
Definition erase_chip (sh : shape) (chip_nr : Z) : act D (Datatypes.option Z) :=
  mfr ← ctl_ mfr_type;
  page ← ctl_ ctl_page_addr;
  type ← flash_ new_type;
  opts ← ops_ ops_option;
  if sh.(sh_planes) =? 2 then
    cle NAND_CMD_ERASE1 ;; send_row sh.(sh_p0) ;;
    ret ← (if mfr =? NAND_MFR_MICRON then
             cle NAND_CMD_ERASE1_END ;; idle_selected NAND_TWB_TIME_CYCLE ;;
             controller_quene_rb chip_nr
           else mret 0);
    if truthy ret then mret (Some ret)
    else
      cle NAND_CMD_ERASE1 ;; send_row sh.(sh_p1) ;;
      cle NAND_CMD_ERASE2 ;; idle_selected NAND_TWB_TIME_CYCLE ;;
      mret None
  else
    when_ (has opts DEV_SLC_MODE && (type =? SANDISK_19NM))
      (ret ← hk.(slc_enter); mret tt) ;;
    cle NAND_CMD_ERASE1 ;; send_row page ;;
    cle NAND_CMD_ERASE2 ;; idle_selected NAND_TWB_TIME_CYCLE ;;
    mret None.

(** [erase_block] takes its shift from the flash, not from the controller. *)
Definition erase_shape : act D shape :=
  ops ← chip ops_para;
  fl ← chip flash;
  c ← chip controller;
  let opts := ops.(ops_option) in
  let addr := internal_addr ops.(page_addr) c.(internal_page_nums) fl.(internal_chipnr) in
  upd_ctl (set_ctl_page_addr addr) ;;
  let shift := ffs fl.(blocksize) - ffs fl.(pagesize) in
  let planes := has opts DEV_MULTI_PLANE_MODE in
  mret (mk_shape 0 0 0
    (if has opts DEV_MULTI_CHIP_MODE then c.(chip_num) else 1)
    (if planes then 2 else 1) 0 false
    (if planes then fst (plane_addrs shift addr) else 0)
    (if planes then snd (plane_addrs shift addr) else 0) 0).

Definition erase_block : act D Z :=
  readonly ← gets w_readonly;
  status ← chip nand_status;
  if truthy readonly then amlnf_refuse_write ;; mret (- EROFS)
  else if negb (status =? 0) then mret 0
  else
    sh ← erase_shape;
    r ← for_ (R := Z) (Z.to_nat sh.(sh_chips)) 0
          (fun i _ =>
             chip_nr ← chip_of sh i;
             ret ← controller_quene_rb chip_nr;
             if truthy ret then mret (Return ret)
             else
               e ← erase_chip sh chip_nr;
               match e with
               | Some e => mret (Return e)
               | None => drain_or_bug ;; mret (Next tt)
               end)
          tt;
    match r with
    | inr e => mret e
    | inl _ => wait_status sh.(sh_chips) (chip_of sh) (mret tt)
    end.

(** ** The bad block table
    [block_status] is a 32-bit checksum and then one [unsigned short] per chip
    and block. *)
Definition status_entry (table : ptr) (chip_nr blk : Z) : ptr :=
  ptr_add table (4 + 2 * (chip_nr * MAX_BLK_NUM + blk)).

Definition set_blcok_status (chip_nr addr value : Z) : act D Z :=
  t ← chip block_status;
  store16 (status_entry t chip_nr addr) value ;; mret 0.

Definition get_blcok_status (chip_nr addr : Z) : act D Z :=
  t ← chip block_status;
  v ← load16 (status_entry t chip_nr addr);
  mret (if v =? NAND_BLOCK_USED_BAD then NAND_BLOCK_USED_BAD
        else if v =? NAND_BLOCK_FACTORY_BAD then NAND_BLOCK_FACTORY_BAD
        else if v =? NAND_BLOCK_GOOD then NAND_BLOCK_GOOD else -1).

(** The other plane of a block. *)
Definition sibling (blk : Z) : Z := if blk mod 2 =? 0 then blk + 1 else u32 (blk - 1).

(** The block an operation is about; [controller->page_addr] is adjusted on
    the way, as in every function below. *)
Definition op_block : act D Z :=
  c ← chip controller;
  fl ← chip flash;
  ops ← chip ops_para;
  upd_ctl (set_ctl_page_addr
             (internal_addr c.(ctl_page_addr) c.(internal_page_nums) fl.(internal_chipnr))) ;;
  mret (Z.shiftr ops.(page_addr) (ffs fl.(blocksize) - ffs fl.(pagesize))).

(** Runs over the chips while [f] answers [NAND_BLOCK_GOOD] (0). *)
Definition over_chips (f : Z -> act D Z) (start : Z) : act D Z :=
  chips ← ctl_ chip_num;
  r ← for_ (R := Z) (Z.to_nat chips) 0
        (fun chip_nr _ => ret ← f chip_nr;
                          mret (if truthy ret then Return ret else Next ret)) start;
  mret (match r with inr e => e | inl e => e end).

(** First the block, then its other plane, as long as the answer is 0. *)
Definition both_planes (f : Z -> act D Z) (blk : Z) : act D Z :=
  ret ← f blk;
  if truthy ret then mret ret else f (sibling blk).

Definition block_isbad_table (chip_nr blk : Z) : act D Z :=
  opts ← ops_ ops_option;
  let planes := has opts DEV_MULTI_PLANE_MODE in
  let chips := has opts DEV_MULTI_CHIP_MODE in
  if planes && negb chips then both_planes (get_blcok_status chip_nr) (shl32 blk 1)
  else if negb planes && chips then over_chips (fun c => get_blcok_status c blk) 0
  else if planes && chips then
    ret ← get_blcok_status chip_nr (shl32 blk 1);
    if truthy ret then mret ret
    else over_chips (fun c => both_planes (get_blcok_status c) (shl32 blk 1)) ret
  else get_blcok_status chip_nr blk.

(** Without a table the first spare byte of the page tells. *)
Definition block_isbad_page : act D Z :=
  c ← chip controller;
  page ← flash_ pagesize;
  upd_ops (fun o => set_data_buf c.(ctl_page_buf)
                      (set_oob_buf c.(ctl_oob_buf) (set_ooblen 8 o))) ;;
  memset c.(ctl_page_buf) 0 page ;;
  memset c.(ctl_oob_buf) 0 8 ;;
  nand_get_chip ;;
  ret ← read_page;
  nand_release_chip ;;
  ecc ← ops_ ecc_err;
  if (ret <? 0) || truthy ecc then mret (- NAND_READ_FAILED)
  else
    oob ← ops_ oob_buf;
    b ← load8 oob;
    mret (if b =? 0 then - NAND_BAD_BLCOK_FAILURE else ret).

Definition block_isbad : act D Z :=
  blk ← op_block;
  table ← chip block_status;
  chip_nr ← ops_ chipnr;
  if negb (is_null table) then block_isbad_table chip_nr blk else block_isbad_page.

(** [amlnand_update_bbt] of [phy/chipenv.c], which calls back into this file. *)
Context (amlnand_update_bbt : act D Z).

(** Marks the entries of a block that is good so far. *)
Definition markbad_table (chip_nr blk : Z) : act D unit :=
  opts ← ops_ ops_option;
  let planes := has opts DEV_MULTI_PLANE_MODE in
  let chips := has opts DEV_MULTI_CHIP_MODE in
  let bad c b := set_blcok_status c b NAND_BLOCK_USED_BAD in
  r ← (if planes && negb chips then
         bad chip_nr (shl32 blk 1) ;; bad chip_nr (sibling (shl32 blk 1))
       else if negb planes && chips then over_chips (fun c => bad c blk) 0
       else if planes && chips then
         over_chips (fun c => bad c (sibling (shl32 blk 1)) ;; bad c (shl32 blk 1)) 0
       else bad chip_nr blk);
  mret tt.

Definition block_markbad_page : act D Z :=
  chip_nr ← ops_ chipnr;
  controller_select_chip chip_nr ;;
  c ← chip controller;
  fl ← chip flash;
  upd_ops (fun o => set_data_buf c.(ctl_page_buf) (set_oob_buf c.(ctl_oob_buf) o)) ;;
  memset c.(ctl_page_buf) 0 fl.(pagesize) ;;
  memset c.(ctl_oob_buf) 0 fl.(oobsize) ;;
  ret ← when_ready write_page;
  mret (if ret <? 0 then - NAND_WRITE_FAILED else ret).

Definition block_markbad : act D Z :=
  allow ← gets w_allow_markbad;
  if negb (truthy allow) then amlnf_refuse_write ;; mret (- EROFS)
  else
    blk ← op_block;
    table ← chip block_status;
    bbt ← chip nand_bbtinfo;
    chip_nr ← ops_ chipnr;
    if truthy bbt.(arg_valid) && negb (is_null table) then
      v ← load16 (status_entry table chip_nr blk);
      if (v =? NAND_BLOCK_USED_BAD) || (v =? NAND_BLOCK_FACTORY_BAD) then mret 0
      else
        when_ (v =? NAND_BLOCK_GOOD)
          (markbad_table chip_nr blk ;; ret ← amlnand_update_bbt; mret tt) ;;
        block_markbad_page
    else block_markbad_page.

(** In the second case the source tests [option & value], not
    [DEV_MULTI_CHIP_MODE]. *)
Definition blk_modify_bbt_chip_op (value : Z) : act D Z :=
  allow ← gets w_allow_markbad;
  if negb (truthy allow) then amlnf_refuse_write ;; mret (- EROFS)
  else
    blk ← op_block;
    opts ← ops_ ops_option;
    chip_nr ← ops_ chipnr;
    let planes := has opts DEV_MULTI_PLANE_MODE in
    let chips := has opts DEV_MULTI_CHIP_MODE in
    let set c b := set_blcok_status c b value in
    if planes && negb chips then both_planes (set chip_nr) (shl32 blk 1)
    else if negb planes && has opts value then over_chips (fun c => set c blk) 0
    else if planes && chips then
      ret ← set chip_nr (shl32 blk 1);
      if truthy ret then mret ret
      else over_chips (fun c => both_planes (set c) (shl32 blk 1)) ret
    else set chip_nr blk.

Definition update_bbt_chip_op : act D Z :=
  blk ← op_block; amlnand_update_bbt.

(** ** Testing a block *)

(** [memset(ops_para, 0, sizeof)] *)
Definition clear_ops : act D unit := upd_ops (fun _ => ops0).

Definition pages_of_block (fl : nand_flash) : Z :=
  shl32 1 (ffs fl.(blocksize) - 1 - (ffs fl.(pagesize) - 1)).

(** The user buffers become the operation's buffers. *)
Definition use_user_buffers (ooblen : Z) : act D unit :=
  c ← gets w_chip;
  upd_ops (fun o => set_data_buf c.(user_page_buf)
                      (set_oob_buf c.(user_oob_buf) (set_ooblen ooblen o))).

(** One sweep of [test_block_chip_op]: [page_addr += t] in round [t], so the
    addresses are the running sums of 0, 1, 2, ... *)
Definition test_sweep (pages fill : Z) (op : act D Z) : act D (unit + Z) :=
  for_ (Z.to_nat pages) 0
    (fun t _ =>
       c ← gets w_chip;
       memset c.(user_page_buf) fill c.(flash).(pagesize) ;;
       upd_ops (fun o => set_page_addr (u32 (o.(page_addr) + t)) o) ;;
       use_user_buffers 8 ;;
       ret ← op;
       mret (if ret <? 0 then Return (-1) else Next tt)) tt.

Definition start_sweep (blk_addr : Z) : act D unit :=
  clear_ops ;; upd_ops (set_page_addr blk_addr).

Definition test_block_run (blk_addr pages : Z) : act D Z :=
  ret ← erase_block;
  if ret <? 0 then mret (-1)
  else
    start_sweep blk_addr ;;
    r ← test_sweep pages 0 read_page;
    match r with
    | inr e => mret e
    | inl _ =>
        start_sweep blk_addr ;;
        r ← test_sweep pages 0xa5 write_page;
        match r with
        | inr e => mret e
        | inl _ =>
            start_sweep blk_addr ;;
            r ← test_sweep pages 0 read_page;
            match r with
            | inr e => mret e
            | inl _ =>
                upd_ops (set_page_addr blk_addr) ;;
                ret ← erase_block;
                mret (if ret <? 0 then -1 else ret)
            end
        end
    end.

Definition test_block_chip_op : act D Z :=
  blk_addr ← ops_ page_addr;
  fl ← chip flash;
  dat_buf ← kmalloc fl.(pagesize);
  if is_null dat_buf then mret (-1)
  else
    memset dat_buf 0xa5 fl.(pagesize) ;;
    ret ← test_block_run blk_addr (pages_of_block fl);
    kfree dat_buf ;;
    mret ret.

(** The block after the boot area of 1024 pages. *)
Definition reserved_start (fl : nand_flash) : Z :=
  Z.shiftr (u32 (1024 * fl.(pagesize))) (ffs fl.(blocksize) - 1).

(** The first page of reserved block [blk]: the blocks are dealt out to the
    [n] chips in turn, after the [tmp_blk] blocks of the boot area. *)
Definition reserved_page (n tmp_blk pages blk : Z) : Z :=
  u32 (((blk - blk mod n) / n + tmp_blk - tmp_blk / n) * pages).

(** Is the metadata area used in SLC mode? *)
Definition slc_type (type : Z) : bool :=
  truthy type && ((type <? 10) || (type =? SANDISK_19NM)).

(** The physical page behind the [n]-th page of an SLC mode block. *)
Definition slc_page (type page pages : Z) (list : list Z) : Z :=
  let base := Z.land page (not32 (pages - 1)) in
  if (0 <? type) && (type <? 10) then Z.lor base (arr list (page mod 256))
  else if type =? SANDISK_19NM then Z.lor base (shl32 (page mod pages) 1)
  else page.

(** Points [ops_para] at page [t] of reserved block [tst_blk]. *)
Definition point_page (tst_blk tmp_blk pages t : Z) : act D unit :=
  clear_ops ;;
  type ← flash_ new_type;
  chips ← ctl_ chip_num;
  list ← ctl_ (fun c => pagelist c.(slc_info));
  chip_nr ← mod_ tst_blk chips;
  let slc := slc_type type in
  let page := u32 (t + reserved_page chips tmp_blk pages tst_blk) in
  upd_ops (fun o => set_page_addr (if slc then slc_page type page pages list else page)
                      (set_chipnr chip_nr
                         (set_ops_option (if slc then DEV_SLC_MODE else 0) o))) ;;
  controller_select_chip chip_nr ;;
  mret tt.

(** Points [ops_para] at a reserved block, and leaves the rest of it. *)
Definition point_block (blk tmp_blk pages : Z) : act D unit :=
  chips ← ctl_ chip_num;
  chip_nr ← mod_ blk chips;
  upd_ops (fun o => set_page_addr (reserved_page chips tmp_blk pages blk)
                      (set_chipnr chip_nr o)) ;;
  controller_select_chip chip_nr ;;
  mret tt.

Definition test_block_erase (tst_blk tmp_blk pages : Z) : act D Z :=
  point_block tst_blk tmp_blk pages ;; erase_block.

(** Erase, write a pattern, read it back, erase. *)
Definition test_reserved_run (tst_blk tmp_blk pages pages_read : Z) (dat_buf : ptr)
    : act D Z :=
  page ← flash_ pagesize;
  user ← chip user_page_buf;
  ret ← test_block_erase tst_blk tmp_blk pages;
  if ret <? 0 then mret (-1)
  else
    r ← for_ (R := Z) (Z.to_nat pages_read) 0
          (fun t _ =>
             point_page tst_blk tmp_blk pages t ;;
             memset user 0xa5 page ;;
             use_user_buffers 8 ;;
             ret ← write_page;
             mret (if ret <? 0 then Return (-1) else Next tt)) tt;
    match r with
    | inr e => mret e
    | inl _ =>
        r ← for_ (R := Z) (Z.to_nat pages_read) 0
              (fun t _ =>
                 point_page tst_blk tmp_blk pages t ;;
                 memset user 0 page ;;
                 use_user_buffers 8 ;;
                 ret ← read_page;
                 if ret <? 0 then mret (Return (-1))
                 else
                   want ← load_bytes dat_buf page;
                   same ← mem_eq user want;
                   mret (if (same : bool) then Next tt else Return (-1))) tt;
        match r with
        | inr e => mret e
        | inl _ =>
            ret ← test_block_erase tst_blk tmp_blk pages;
            mret (if ret <? 0 then -1 else ret)
        end
    end.

(** The device is taken here whoever calls, and given back also when the
    buffer could not be allocated. *)
Definition test_block_reserved (tst_blk : Z) : act D Z :=
  fl ← chip flash;
  dat_buf ← kmalloc fl.(pagesize);
  if is_null dat_buf then nand_release_chip ;; mret (-1)
  else
    memset dat_buf 0xa5 fl.(pagesize) ;;
    let pages := pages_of_block fl in
    let tmp_blk := u16 (reserved_start fl) in
    when_ (slc_type fl.(new_type))
      (upd_ops (fun o => set_ops_option (Z.lor o.(ops_option) DEV_SLC_MODE) o)) ;;
    opts ← ops_ ops_option;
    let pages_read := if has opts DEV_SLC_MODE then Z.shiftr pages 1 else pages in
    nand_get_chip ;;
    ret ← test_reserved_run tst_blk tmp_blk pages pages_read dat_buf;
    nand_release_chip ;;
    kfree dat_buf ;;
    mret ret.
End ChipOp.

(** ** [struct chip_operation]
    What the rest of the driver knows of the operations above. *)
Class ChipOperation (D : Type) := {
  op_erase_block : act D Z;
  op_read_page : act D Z;
  op_write_page : act D Z;
  op_block_isbad : act D Z;
  op_block_markbad : act D Z;
  op_test_block_chip_op : act D Z;
  op_test_block_reserved : Z -> act D Z;
  op_blk_modify_bbt_chip_op : Z -> act D Z;
  op_update_bbt_chip_op : act D Z
}.

Definition amlnand_init_operation {D} `{!NandHw D} (spin : nat) (hk : hooks D)
    (amlnand_update_bbt : act D Z) : ChipOperation D := {|
  op_erase_block := erase_block hk;
  op_read_page := read_page spin hk;
  op_write_page := write_page hk;
  op_block_isbad := block_isbad spin hk;
  op_block_markbad := block_markbad hk amlnand_update_bbt;
  op_test_block_chip_op := test_block_chip_op spin hk;
  op_test_block_reserved := test_block_reserved spin hk;
  op_blk_modify_bbt_chip_op := blk_modify_bbt_chip_op;
  op_update_bbt_chip_op := update_bbt_chip_op amlnand_update_bbt
|}.

(** Every operation stays inside [R]: what a caller needs to stay inside too. *)
Class OpsRespect {D : Type} (R : world D -> world D -> Prop) (ops : ChipOperation D)
    : Prop := {
  or_erase_block : respects R op_erase_block;
  or_read_page : respects R op_read_page;
  or_write_page : respects R op_write_page;
  or_block_isbad : respects R op_block_isbad;
  or_block_markbad : respects R op_block_markbad;
  or_test_block_chip_op : respects R op_test_block_chip_op;
  or_test_block_reserved : forall b, respects R (op_test_block_reserved b);
  or_blk_modify_bbt_chip_op : forall v, respects R (op_blk_modify_bbt_chip_op v);
  or_update_bbt_chip_op : respects R op_update_bbt_chip_op
}.
#[export] Hint Resolve or_erase_block or_read_page or_write_page or_block_isbad
  or_block_markbad or_test_block_chip_op or_test_block_reserved
  or_blk_modify_bbt_chip_op or_update_bbt_chip_op : respects.
#[export] Hint Extern 5 (OpsRespect _ _) => typeclasses eauto : respects.

(** ** Frames: what reading and writing may do to the command history *)
Record hooks_respect {D : Type} (R : world D -> world D -> Prop) (hk : hooks D) : Prop := {
  hr_handle : forall n, respects R (hk.(retry_handle) n);
  hr_exit : forall n, respects R (hk.(retry_exit) n);
  hr_enter : respects R hk.(slc_enter);
  hr_leave : respects R hk.(slc_exit)
}.

Ltac op_respects :=
  unfold chip_of, ctl_, ops_, flash_, NFC_WAIT_FIFO_EMPTY,
    NFC_CMDFIFO_SIZE, NFC_INFO_GET, nandphy_readb, udelay, smp_rmb,
    load8, load16, load32, store8, store16, store32, mem_eq, kmalloc, kzalloc;
  solve_respects; try typeclasses eauto.

Section ReadFrame.
Context {D : Type} `{!NandHw D} (spin : nat) (hk : hooks D).
Context (R : world D -> world D -> Prop) `{!CmdFrame R} (Hhk : hooks_respect R hk).

Lemma respects_check_cmdfifo_size : respects R check_cmdfifo_size.
Proof.
  unfold check_cmdfifo_size. op_respects. apply respects_poll_from; op_respects.
Qed.
Lemma respects_drain_or_bug : respects R drain_or_bug.
Proof. unfold drain_or_bug. op_respects. apply respects_check_cmdfifo_size. Qed.
#[local] Hint Resolve respects_drain_or_bug : respects.

Lemma respects_check_wp : respects R check_wp.
Proof. unfold check_wp. op_respects; apply respects_poll_from; op_respects. Qed.

Lemma respects_ale a : respects R (ale a).
Proof. unfold ale. op_respects. Qed.
Lemma respects_cle c : program_op c = false -> respects R (cle c).
Proof. intros H. apply respects_cmd_ctrl; [apply _ | by rewrite H, andb_false_r]. Qed.
#[local] Hint Resolve respects_ale : respects.
#[local] Hint Extern 2 (respects _ (cle _)) => apply respects_cle; reflexivity : respects.

Lemma respects_send_addr a : respects R (send_addr a).
Proof. unfold send_addr, send_col, send_row. op_respects. Qed.
Lemma respects_send_row a : respects R (send_row a).
Proof. unfold send_row. op_respects. Qed.
#[local] Hint Resolve respects_send_addr respects_send_row : respects.

Lemma respects_nand_reset n : respects R (nand_reset n).
Proof. unfold nand_reset. op_respects. Qed.
Lemma respects_page_shape : respects R page_shape.
Proof. unfold page_shape. op_respects. Qed.
Lemma respects_chip_of sh i : respects R (chip_of (D := D) sh i).
Proof. op_respects. Qed.
#[local] Hint Resolve respects_nand_reset respects_page_shape : respects.
#[local] Hint Extern 2 (respects _ (retry_handle _ _)) => apply (hr_handle R hk Hhk) : respects.
#[local] Hint Extern 2 (respects _ (retry_exit _ _)) => apply (hr_exit R hk Hhk) : respects.
#[local] Hint Extern 2 (respects _ (slc_enter _)) => apply (hr_enter R hk Hhk) : respects.
#[local] Hint Extern 2 (respects _ (slc_exit _)) => apply (hr_leave R hk Hhk) : respects.

Lemma respects_read_command sh n first : respects R (read_command hk sh n first).
Proof. unfold read_command. op_respects. Qed.
Lemma respects_note_bit_flip sh n : respects R (note_bit_flip (D := D) sh n).
Proof. unfold note_bit_flip. op_respects. Qed.
#[local] Hint Resolve respects_read_command respects_note_bit_flip : respects.
Lemma respects_read_correct sh n ps rc p b : respects R (read_correct hk sh n ps rc p b).
Proof. unfold read_correct. op_respects. Qed.
Lemma respects_dma_or_bug ps bch : respects R (dma_or_bug spin ps bch).
Proof. unfold dma_or_bug. op_respects. Qed.
#[local] Hint Resolve respects_read_correct respects_dma_or_bug : respects.
Lemma respects_read_plane sh n ps rc p b : respects R (read_plane spin hk sh n ps rc p b).
Proof. unfold read_plane. op_respects. Qed.
Lemma respects_copy_out a b c d e f g : respects R (copy_out (D := D) a b c d e f g).
Proof. unfold copy_out. op_respects. Qed.
Lemma respects_plane_out a : respects R (plane_out a).
Proof. unfold plane_out, send_col. op_respects. Qed.
#[local] Hint Resolve respects_read_plane respects_copy_out respects_plane_out : respects.
Lemma respects_pass_plane0 sh n ps a b m l : respects R (pass_plane0 spin hk sh n ps a b m l).
Proof. unfold pass_plane0. op_respects. Qed.
Lemma respects_pass_end sh n ps a b v l f : respects R (pass_end hk sh n ps a b v l f).
Proof. unfold pass_end. op_respects. Qed.
#[local] Hint Resolve respects_pass_plane0 respects_pass_end : respects.
Lemma respects_read_pass sh n ps a b c l : respects R (read_pass spin hk sh n ps a b c l).
Proof. unfold read_pass, pass_plane1, pass_single. op_respects. Qed.
#[local] Hint Resolve respects_read_pass : respects.
Lemma respects_read_page : respects R (read_page spin hk).
Proof. unfold read_page. op_respects. Qed.
End ReadFrame.

#[export] Hint Resolve respects_read_page respects_nand_reset respects_drain_or_bug
  respects_send_row respects_send_addr respects_page_shape : respects.
#[export] Hint Resolve respects_ale : respects.
#[export] Hint Extern 2 (respects _ (cle _)) =>
  apply respects_cle; first [reflexivity | typeclasses eauto] : respects.

(** Writing and erasing stay inside a relation that lets every command through. *)
Section WriteFrame.
Context {D : Type} `{!NandHw D} (spin : nat) (hk : hooks D).
Context (R : world D -> world D -> Prop) `{!AnyCmdFrame R} (Hhk : hooks_respect R hk).

#[local] Hint Extern 2 (respects _ (retry_handle _ _)) => apply (hr_handle R hk Hhk) : respects.
#[local] Hint Extern 2 (respects _ (retry_exit _ _)) => apply (hr_exit R hk Hhk) : respects.
#[local] Hint Extern 2 (respects _ (slc_enter _)) => apply (hr_enter R hk Hhk) : respects.
#[local] Hint Extern 2 (respects _ (slc_exit _)) => apply (hr_leave R hk Hhk) : respects.
#[local] Hint Extern 3 (respects _ (cle _)) => apply respects_cmd_ctrl_any, _ : respects.

Lemma respects_fill_user_bytes sh : respects R (fill_user_bytes (D := D) sh).
Proof. unfold fill_user_bytes. op_respects. Qed.
Lemma respects_write_dma sh p q : respects R (write_dma sh p q).
Proof. unfold write_dma. op_respects. Qed.
#[local] Hint Resolve respects_fill_user_bytes respects_write_dma : respects.
Lemma respects_write_planes sh n p q : respects R (write_planes sh n p q).
Proof. unfold write_planes. op_respects. Qed.
Lemma respects_write_single sh n p q : respects R (write_single hk sh n p q).
Proof. unfold write_single. op_respects. Qed.
Lemma respects_status_try : respects R status_try.
Proof. unfold status_try. op_respects. Qed.
#[local] Hint Resolve respects_write_planes respects_write_single respects_status_try : respects.
Lemma respects_wait_status n pick fin :
  (forall i, respects R (pick i)) -> respects R fin -> respects R (wait_status n pick fin).
Proof. intros. unfold wait_status. op_respects; auto. Qed.

Lemma respects_write_page_any : respects R (write_page hk).
Proof. unfold write_page. op_respects; apply respects_wait_status; op_respects. Qed.
Lemma respects_erase_chip sh n : respects R (erase_chip hk sh n).
Proof. unfold erase_chip. op_respects. Qed.
Lemma respects_erase_shape : respects R (erase_shape (D := D)).
Proof. unfold erase_shape. op_respects. Qed.
#[local] Hint Resolve respects_erase_chip respects_erase_shape : respects.
Lemma respects_erase_block_any : respects R (erase_block hk).
Proof. unfold erase_block. op_respects; apply respects_wait_status; op_respects. Qed.
End WriteFrame.

(** ** The write guard
    [guarded w w']: the module parameters are the same, and if the driver is
    read-only no command that programs or erases was sent. *)
Definition guarded {D : Type} (w w' : world D) : Prop :=
  w_readonly w' = w_readonly w /\ w_allow_markbad w' = w_allow_markbad w /\
  w_allow_meta w' = w_allow_meta w /\
  (w_readonly w <> 0 ->
   exists l, w_log w' = l ++ w_log w /\ Forall (fun c => programs c = false) l).

(** The same without the promise about the commands. *)
Definition same_params {D : Type} (w w' : world D) : Prop :=
  w_readonly w' = w_readonly w /\ w_allow_markbad w' = w_allow_markbad w /\
  w_allow_meta w' = w_allow_meta w.

#[export] Instance guarded_preorder {D} : PreOrder (guarded (D := D)).
Proof.
  split.
  - intros w. repeat split. exists []. by split.
  - intros w1 w2 w3 (E1 & E2 & E3 & H) (F1 & F2 & F3 & H').
    split_and!; try congruence. intros Hr.
    destruct (H Hr) as (l & El & Hl). rewrite <- E1 in Hr.
    destruct (H' Hr) as (l' & El' & Hl'). exists (l' ++ l).
    split; [by rewrite El', El, app_assoc | by apply Forall_app].
Qed.
#[export] Instance same_params_preorder {D} : PreOrder (same_params (D := D)).
Proof.
  split; [by repeat split|]. intros w1 w2 w3 (E1 & E2 & E3) (F1 & F2 & F3).
  unfold same_params. split_and!; congruence.
Qed.

Lemma guarded_same_log {D} (w w' : world D) :
  same_params w w' -> w_log w' = w_log w -> guarded w w'.
Proof. intros (E1 & E2 & E3) E. split_and!; try done. intros _. by exists []. Qed.

#[export] Instance guarded_frame {D} : CmdFrame (guarded (D := D)).
Proof.
  split; [split; [apply _ | by intros; apply guarded_same_log ..]|].
  intros c w H. split_and!; try done. intros _. exists [c]. split; [done|].
  by constructor.
Qed.
#[export] Instance guarded_chip {D} : ChipFrame (guarded (D := D)).
Proof. intros c w. by apply guarded_same_log. Qed.
#[export] Instance same_params_frame {D} : AnyCmdFrame (same_params (D := D)).
Proof. split; [split; [split; [apply _ | done ..] | done] | done]. Qed.

(** With [readonly] clear, [guarded] asks no more than [same_params]. *)
Lemma guarded_when_writable {D A} (m : act D A) w :
  respects same_params m -> w_readonly w = 0 ->
  wp m (fun _ => guarded w) (fun _ => guarded w) w.
Proof.
  intros H Hr. eapply wp_mono; [apply H | |]; cbn;
    intros ? s' (E1 & E2 & E3); split_and!; try done; intros; congruence.
Qed.

Section WriteGuard.
Context {D : Type} `{!NandHw D} (spin : nat) (hk : hooks D).
Context (Hhk : hooks_respect guarded hk) (Hhk' : hooks_respect same_params hk).

Lemma respects_guard (m : act D Z) :
  respects same_params m ->
  (forall w, w_readonly w <> 0 -> wp m (fun _ => guarded w) (fun _ => guarded w) w) ->
  respects guarded m.
Proof.
  intros Hm Hr w. destruct (decide (w_readonly w = 0)); [|by apply Hr].
  by apply guarded_when_writable.
Qed.

Lemma truthy_nonzero x : x <> 0 -> truthy x = true.
Proof. intros. unfold truthy. by rewrite (proj2 (Z.eqb_neq _ _)). Qed.

(** The two functions that send the confirming opcodes refuse before touching
    the controller. *)
Lemma write_page_refused (w : world D) :
  w_readonly w <> 0 ->
  write_page hk w = Done (- EROFS) (set_w_refused (s32 (w_refused w + 1)) w).
Proof.
  intros H. unfold write_page, mbind, M_bind, gets, chip. by rewrite truthy_nonzero.
Qed.
Lemma erase_block_refused (w : world D) :
  w_readonly w <> 0 ->
  erase_block hk w = Done (- EROFS) (set_w_refused (s32 (w_refused w + 1)) w).
Proof.
  intros H. unfold erase_block, mbind, M_bind, gets, chip. by rewrite truthy_nonzero.
Qed.

Lemma respects_write_page : respects guarded (write_page hk).
Proof.
  apply respects_guard; [apply respects_write_page_any; [apply _ | done]|].
  intros w Hr. unfold wp. rewrite write_page_refused by done. apply frame_refused.
Qed.
Lemma respects_erase_block : respects guarded (erase_block hk).
Proof.
  apply respects_guard; [apply respects_erase_block_any; [apply _ | done]|].
  intros w Hr. unfold wp. rewrite erase_block_refused by done. apply frame_refused.
Qed.
End WriteGuard.

(** The other operations keep to whatever writing and erasing keep to. *)
Section OpsFrame.
Context {D : Type} `{!NandHw D} (spin : nat) (hk : hooks D).
Context (R : world D -> world D -> Prop) `{!CmdFrame R} (Hhk : hooks_respect R hk).
Context (Hwrite : respects R (write_page hk)) (Herase : respects R (erase_block hk)).

Ltac all_respects :=
  repeat match goal with
  | |- respects _ (read_page _ _) => apply respects_read_page; [apply _ | done]
  | |- respects _ (write_page _) => apply Hwrite
  | |- respects _ (erase_block _) => apply Herase
  | |- respects _ (for_ _ _ _ _) => apply respects_for; [apply _ | intros]
  | |- respects _ (mbind _ _) => apply respects_bind; [apply _ | | intros]
  | _ => progress op_respects
  end.

Lemma respects_op_block : respects R (op_block (D := D)).
Proof. unfold op_block. op_respects. Qed.
Lemma respects_set_status c b v : respects R (set_blcok_status (D := D) c b v).
Proof. unfold set_blcok_status. op_respects. Qed.
Lemma respects_get_status c b : respects R (get_blcok_status (D := D) c b).
Proof. unfold get_blcok_status. op_respects. Qed.
#[local] Hint Resolve respects_op_block respects_set_status respects_get_status : respects.
Lemma respects_over_chips (f : Z -> act D Z) n :
  (forall c, respects R (f c)) -> respects R (over_chips f n).
Proof. intros. unfold over_chips. op_respects; auto. Qed.
Lemma respects_both_planes (f : Z -> act D Z) b :
  (forall c, respects R (f c)) -> respects R (both_planes f b).
Proof. intros. unfold both_planes. op_respects; auto. Qed.
#[local] Hint Resolve respects_over_chips respects_both_planes : respects.

Lemma respects_block_isbad : respects R (block_isbad spin hk).
Proof.
  unfold block_isbad, block_isbad_table, block_isbad_page. all_respects;
    try apply respects_over_chips; intros; try apply respects_both_planes; all_respects.
Qed.

Context (amlnand_update_bbt : act D Z) (Hbbt : respects R amlnand_update_bbt).

Lemma respects_block_markbad_page : respects R (block_markbad_page hk).
Proof. unfold block_markbad_page. all_respects. Qed.
Lemma respects_markbad_table c b : respects R (markbad_table (D := D) c b).
Proof.
  unfold markbad_table. all_respects; try apply respects_over_chips; intros; all_respects.
Qed.
#[local] Hint Resolve respects_block_markbad_page respects_markbad_table : respects.
Lemma respects_block_markbad : respects R (block_markbad hk amlnand_update_bbt).
Proof. unfold block_markbad. all_respects. Qed.
Lemma respects_modify_bbt v : respects R (blk_modify_bbt_chip_op (D := D) v).
Proof.
  unfold blk_modify_bbt_chip_op. all_respects;
    try apply respects_over_chips; intros; try apply respects_both_planes; all_respects.
Qed.
Lemma respects_update_bbt_op : respects R (update_bbt_chip_op amlnand_update_bbt).
Proof. unfold update_bbt_chip_op. all_respects. Qed.

Lemma respects_test_block_chip_op : respects R (test_block_chip_op spin hk).
Proof.
  unfold test_block_chip_op, test_block_run, start_sweep, clear_ops, test_sweep,
    use_user_buffers. all_respects.
Qed.
Lemma respects_test_block_reserved b : respects R (test_block_reserved spin hk b).
Proof.
  unfold test_block_reserved, test_reserved_run, test_block_erase, point_block, point_page, clear_ops,
    use_user_buffers. all_respects.
Qed.

(** The implementation keeps the promise, if the bad block table's update does. *)
Lemma init_operation_respects :
  OpsRespect R (amlnand_init_operation spin hk amlnand_update_bbt).
Proof.
  split; intros; cbn;
    first [ apply Hwrite | apply Herase
          | apply respects_read_page; [apply _ | done]
          | apply respects_block_isbad | apply respects_block_markbad
          | apply respects_modify_bbt | apply respects_update_bbt_op
          | apply respects_test_block_chip_op | apply respects_test_block_reserved ].
Qed.
End OpsFrame.

(** ** Results are 0 or a negated error *)
Section Results.
Context {D : Type} `{!NandHw D} (hk : hooks D).
Definition no_value (r : Z) : Prop := r <= 0.

Lemma yields_quene_rb n : yields no_value (controller_quene_rb n).
Proof.
  unfold controller_quene_rb, no_value. do 3 (apply yields_then; intros).
  apply yields_ret. unfold NAND_BUSY_FAILURE. case_match; lia.
Qed.
Lemma yields_status_try : yields no_value status_try.
Proof.
  unfold status_try, no_value. eapply yields_bind.
  - apply (yields_do_while (fun e => e <= 0)). intros l. apply yields_then. intros v.
    repeat case_match; try (apply yields_then; intros); by apply yields_ret; cbn;
      unfold NAND_WRITE_FAILED; try lia.
  - intros [l|e] He; apply yields_ret; [lia | done].
Qed.
Lemma yields_wait_status n pick fin : yields no_value (wait_status n pick fin).
Proof.
  unfold wait_status. eapply yields_bind.
  - apply (yields_for no_value). intros i l. apply yields_then. intros c.
    eapply yields_bind; [apply yields_quene_rb|]. intros r Hr.
    destruct (truthy r); [by apply yields_ret|]. do 2 (apply yields_then; intros).
    eapply yields_bind; [apply yields_status_try|]. intros r' Hr'.
    destruct (truthy r'); [by apply yields_ret|]. apply yields_then; intros. by apply yields_ret.
  - intros [l|e] He; apply yields_ret; [unfold no_value; lia | done].
Qed.
Lemma yields_erase_chip sh n :
  yields (fun e => match e with Some e => no_value e | None => True end) (erase_chip hk sh n).
Proof.
  unfold erase_chip. do 4 (apply yields_then; intros).
  destruct (_ =? 2); [|repeat (apply yields_then; intros); by apply yields_ret].
  do 2 (apply yields_then; intros).
  apply (yields_bind no_value).
  - destruct (_ =? _); [do 2 (apply yields_then; intros); apply yields_quene_rb|].
    apply yields_ret. unfold no_value. lia.
  - intros r Hr. destruct (truthy r); [by apply yields_ret|].
    repeat (apply yields_then; intros). by apply yields_ret.
Qed.
Lemma yields_erase_block : yields no_value (erase_block hk).
Proof.
  unfold erase_block. do 2 (apply yields_then; intros).
  destruct (truthy _); [apply yields_then; intros; apply yields_ret; unfold no_value, EROFS; lia|].
  destruct (negb _); [apply yields_ret; unfold no_value; lia|].
  apply yields_then. intros sh. eapply yields_bind.
  - apply (yields_for no_value). intros i l. apply yields_then. intros c.
    eapply yields_bind; [apply yields_quene_rb|]. intros r Hr.
    destruct (truthy r); [by apply yields_ret|].
    eapply yields_bind; [apply yields_erase_chip|].
    intros [e|] He; [by apply yields_ret|]. apply yields_then; intros. by apply yields_ret.
  - intros [l|e] He; [apply yields_wait_status | by apply yields_ret].
Qed.
End Results.

(** ** The status of a program or an erase *)
Section StatusTry.
Context {D : Type} `{!NandHw D}.

(** The status bytes read one after the other, with the pause in between. *)
Inductive statuses : list Z -> world D -> world D -> Prop :=
  | st_last v w w' : controller_read_byte w = Done v w' -> statuses [v] w w'
  | st_more v vs w w1 w2 w' :
      controller_read_byte w = Done v w1 ->
      idle_selected NAND_TWB_TIME_CYCLE w1 = Done tt w2 ->
      statuses vs w2 w' -> statuses (v :: vs) w w'.

(** Neither "failed" nor "right". *)
Definition unclear (v : Z) : Prop := v <> NAND_STATUS_FAILED /\ v <> NAND_STATUS_RIGHT.

Let body (st_cnt : Z) : act D (ctl Z Z) :=
  status ← controller_read_byte;
  if status =? NAND_STATUS_FAILED then mret (Return (- NAND_WRITE_FAILED))
  else if negb (status =? NAND_STATUS_RIGHT) then
    if st_cnt <? NAND_STATUS_MAX_TRY then
      idle_selected NAND_TWB_TIME_CYCLE ;; mret (Next (st_cnt + 1))
    else mret (Break (st_cnt + 1))
  else mret (Break st_cnt).

Lemma status_rounds pre v st_cnt fuel w w' :
  statuses (pre ++ [v]) w w' -> Forall unclear pre ->
  0 <= st_cnt -> st_cnt + Z.of_nat (length pre) <= NAND_STATUS_MAX_TRY ->
  (unclear v -> st_cnt + Z.of_nat (length pre) = NAND_STATUS_MAX_TRY) ->
  (length pre < fuel)%nat ->
  exists l, do_while fuel body (fun _ => true) st_cnt w =
    Done (if v =? NAND_STATUS_FAILED then inr (- NAND_WRITE_FAILED) else inl l) w'.
Proof.
  revert st_cnt fuel w. induction pre as [|u pre IH]; intros st_cnt fuel w Hs Hp H0 Hc Hv Hf.
  - destruct fuel as [|fuel]; [cbn in Hf; lia|]. rewrite do_while_unfold.
    unfold body at 1, mbind, M_bind. cbn in Hs.
    assert (controller_read_byte w = Done v w') as ->.
    { inversion Hs as [? ? ? H|? ? ? ? ? ? ? ? H]; [done | inversion H]. }
    destruct (Z.eqb_spec v NAND_STATUS_FAILED) as [->|Hv1]; [by exists 0|].
    destruct (Z.eqb_spec v NAND_STATUS_RIGHT) as [->|Hv2]; cbn; [by eexists|].
    cbn in Hv. rewrite (proj2 (Z.ltb_ge _ _)) by (unfold unclear in Hv; lia). by eexists.
  - destruct fuel as [|fuel]; [cbn in Hf; lia|]. rewrite do_while_unfold.
    unfold body at 1, mbind, M_bind. apply Forall_cons in Hp as [[Hu1 Hu2] Hp].
    cbn [app length] in *.
    inversion Hs as [? ? ? H E|? ? ? w1 w2 ? Hr Hi Hs']; subst;
      [by destruct pre|].
    rewrite Hr, (proj2 (Z.eqb_neq u _) Hu1), (proj2 (Z.eqb_neq u _) Hu2). cbn.
    rewrite (proj2 (Z.ltb_lt _ _)) by lia. rewrite Hi. cbn.
    apply IH; try done; try lia. intros Hq. specialize (Hv Hq). lia.
Qed.

(** After up to six status bytes that are neither 0xe1 nor 0xe0 the next byte
    decides: 0xe1 is [-NAND_WRITE_FAILED], everything else is success; also a
    seventh unclear byte. *)
Theorem status_try_spec pre v (w w' : world D) :
  statuses (pre ++ [v]) w w' -> Forall unclear pre -> (length pre <= 6)%nat ->
  (unclear v -> length pre = 6%nat) ->
  status_try w = Done (if v =? NAND_STATUS_FAILED then - NAND_WRITE_FAILED else 0) w'.
Proof.
  intros Hs Hp Hl Hv. unfold status_try, mbind, M_bind. fold body.
  destruct (status_rounds pre v 0 8 w w' Hs Hp) as [l E]; unfold NAND_STATUS_MAX_TRY;
    try lia; [intros Hq; specialize (Hv Hq); lia|].
  change (do_while _ _ _ 0 w) with (do_while 8 body (fun _ => true) 0 w).
  rewrite E. by destruct (v =? NAND_STATUS_FAILED).
Qed.
End StatusTry.

(** ** The retry of the queue wait *)
Section FifoRetry.
Context {D : Type} `{!NandHw D}.

Definition fifo_empty : act D bool := n ← NFC_CMDFIFO_SIZE; mret (n <=? 0).

Lemma fifo_empty_total (w : world D) : exists b w', fifo_empty w = Done b w'.
Proof.
  unfold fifo_empty, NFC_CMDFIFO_SIZE, NFC_INFO_GET, device_read, mbind, M_bind.
  destruct (hw_info _ _) as [v [d m]]. eauto.
Qed.

(** The wait always ends, and the count never goes down. *)
Lemma poll_total fuel limit cnt (w : world D) :
  limit + 2 - cnt < Z.of_nat fuel -> (0 < fuel)%nat ->
  exists cnt' w', cnt <= cnt' /\
    do_while (R := unit) fuel
      (fun cnt => b ← fifo_empty; if (b : bool) then mret (Break cnt)
                                  else (mret tt : act D unit) ;; mret (Next (cnt + 1)))
      (fun cnt => cnt - 1 <=? limit) cnt w = Done (inl cnt') w'.
Proof.
  revert cnt w. induction fuel as [|fuel IH]; intros cnt w Hf Hp; [lia|].
  rewrite do_while_unfold. unfold mbind at 1, M_bind at 1.
  destruct (fifo_empty_total w) as (b & w1 & ->).
  destruct b; [exists cnt, w1; by split|].
  unfold mbind at 1, M_bind at 1, mret at 1 2, M_ret at 1 2. cbv iota beta.
  destruct (Z.leb_spec (cnt + 1 - 1) limit); [|exists (cnt + 1), w1; split; [lia | done]].
  destruct (IH (cnt + 1) w1) as (cnt' & w' & Hle & ->); [lia | lia|].
  exists cnt', w'. split; [lia | done].
Qed.

Lemma poll_from_total start (w : world D) :
  0 <= start ->
  exists cnt w', poll_from start fifo_empty (mret tt) AML_DMA_BUSY_TIMEOUT w = Done cnt w' /\
    start <= cnt.
Proof.
  intros H. unfold poll_from, mbind at 1, M_bind at 1.
  destruct (poll_total (Z.to_nat (AML_DMA_BUSY_TIMEOUT + 3)) AML_DMA_BUSY_TIMEOUT start w)
    as (cnt & w' & Hle & ->); [|change 0%nat with (Z.to_nat 0); apply Z2Nat.inj_lt; done|].
  - rewrite Z2Nat.id by done. lia.
  - exists cnt, w'. by split.
Qed.

Let round : Z * Z -> act D (ctl (Z * Z) Z) := fun '(time_out_cnt, retry_cnt) =>
  cnt ← poll_from time_out_cnt fifo_empty (mret tt) AML_DMA_BUSY_TIMEOUT;
  if AML_DMA_BUSY_TIMEOUT <=? cnt then
    if 3 <? retry_cnt then mret (Return (- NAND_FAILED))
    else udelay ;; mret (Next (cnt, retry_cnt + 1))
  else mret (Return 0).

Lemma rounds_fail fuel cnt cnt' retry_cnt (w w1 : world D) :
  poll_from cnt fifo_empty (mret tt) AML_DMA_BUSY_TIMEOUT w = Done cnt' w1 ->
  AML_DMA_BUSY_TIMEOUT <= cnt' -> 0 <= retry_cnt <= 4 -> 4 - retry_cnt < Z.of_nat fuel ->
  exists w', while_ fuel (fun _ => true) round (cnt, retry_cnt) w
             = Done (inr (- NAND_FAILED)) w'.
Proof.
  revert cnt cnt' retry_cnt w w1.
  induction fuel as [|fuel IH]; intros cnt cnt' r w w1 Hp Hc Hr Hf; [lia|].
  cbn [while_]. unfold mbind, M_bind. unfold round at 1, mbind, M_bind.
  rewrite Hp, (proj2 (Z.leb_le _ _)) by lia.
  destruct (Z.ltb_spec 3 r); [by eexists|].
  unfold udelay, device. destruct (hw_wait _ _) as [d m]. cbn.
  destruct (poll_from_total cnt' (set_w_mem m (set_w_dev d w1))) as (c2 & w2 & Hp2 & Hle);
    [unfold AML_DMA_BUSY_TIMEOUT in *; lia|].
  apply (IH _ c2 _ _ w2); try done; lia.
Qed.

(** [time_out_cnt] is not reset for a retry: once the first wait has used up
    its limit, [check_cmdfifo_size] fails, even if the queue has drained by
    then (and its callers answer with [BUG()]). *)
Theorem check_cmdfifo_size_retry_hopeless cnt (w w1 : world D) :
  poll fifo_empty (mret tt) AML_DMA_BUSY_TIMEOUT w = Done cnt w1 ->
  AML_DMA_BUSY_TIMEOUT <= cnt ->
  exists w', check_cmdfifo_size w = Done (- NAND_FAILED) w'.
Proof.
  intros Hp Hc. unfold check_cmdfifo_size. unfold mbind at 1, M_bind at 1.
  change (while_ 6 _ _ (0, 0)) with (while_ 6 (fun _ => true) round (0, 0)).
  destruct (rounds_fail 6 0 cnt 0 w w1 Hp Hc) as [w' ->]; [done..|]. by eexists.
Qed.
End FifoRetry.

(** ** Pages, planes and reserved blocks *)

Lemma shl32_small a b n :
  0 <= b -> 0 <= a < 2 ^ n -> 0 <= n -> n + b <= 32 -> shl32 a b = a * 2 ^ b.
Proof.
  intros. unfold shl32, wrap. rewrite Z.shiftl_mul_pow2 by lia.
  apply Z.mod_small. split; [apply Z.mul_nonneg_nonneg; [lia | apply Z.pow_nonneg; lia]|].
  apply Z.lt_le_trans with (2 ^ n * 2 ^ b).
  - apply Z.mul_lt_mono_pos_r; [apply Z.pow_pos_nonneg; lia | lia].
  - rewrite <- Z.pow_add_r by lia. apply Z.pow_le_mono_r; lia.
Qed.

Lemma lor_block b p n : 0 <= n -> 0 <= p < 2 ^ n -> Z.lor (b * 2 ^ n) p = b * 2 ^ n + p.
Proof.
  intros Hn Hp. rewrite <- Z.shiftl_mul_pow2 by done.
  assert (Z.land (Z.shiftl b n) p = 0) as H0.
  { apply Z.bits_inj'. intros k Hk. rewrite Z.land_spec, Z.bits_0.
    destruct (Z.ltb_spec k n).
    - rewrite Z.shiftl_spec_low by lia. done.
    - rewrite andb_comm. rewrite <- (Z.mod_small p (2 ^ n)) by lia.
      by rewrite Z.mod_pow2_bits_high by lia. }
  rewrite <- Z.lxor_lor by done. symmetry. by apply Z.add_nocarry_lxor.
Qed.

(** A multi-plane page address stands for the same page of two neighbouring
    blocks: page [p] of block [b] becomes page [p] of blocks [2b] and [2b+1]. *)
Theorem plane_addrs_spec shift page :
  0 <= shift -> shift < 31 -> 0 <= page < 2 ^ 31 ->
  let '(p0, p1) := plane_addrs shift page in
  p0 / 2 ^ shift = 2 * (page / 2 ^ shift) /\ p1 / 2 ^ shift = 2 * (page / 2 ^ shift) + 1 /\
  p0 mod 2 ^ shift = page mod 2 ^ shift /\ p1 mod 2 ^ shift = page mod 2 ^ shift.
Proof.
  intros Hs Hs' Hp. unfold plane_addrs.
  assert (0 < 2 ^ shift) as Hpow by (apply Z.pow_pos_nonneg; lia).
  assert (2 ^ shift * 2 ^ (31 - shift) = 2 ^ 31) as Hsplit
    by (rewrite <- Z.pow_add_r by lia; f_equal; lia).
  rewrite (shl32_small 1 shift 1) by lia. rewrite Z.mul_1_l.
  replace (2 ^ shift - 1) with (Z.ones shift) by (rewrite Z.ones_equiv; lia).
  rewrite Z.land_ones, Z.shiftr_div_pow2 by lia.
  set (b := page / 2 ^ shift). set (q := page mod 2 ^ shift).
  assert (0 <= q < 2 ^ shift) as Hq by (apply Z.mod_pos_bound; lia).
  assert (0 <= b < 2 ^ (31 - shift)) as Hb.
  { split; [apply Z.div_pos; lia | apply Z.div_lt_upper_bound; lia]. }
  rewrite (shl32_small b 1 (31 - shift)) by lia.
  assert (2 ^ (32 - shift) = 2 * 2 ^ (31 - shift)) as H2
    by (rewrite <- Z.pow_succ_r by lia; f_equal; lia).
  assert (2 ^ (32 - shift) <= 2 ^ 32) by (apply Z.pow_le_mono_r; lia).
  replace (u32 (b * 2 ^ 1 + 1)) with (b * 2 ^ 1 + 1)
    by (unfold wrap; rewrite Z.mod_small by lia; done).
  rewrite !(fun a => shl32_small a shift (32 - shift)) by lia.
  rewrite !lor_block by lia.
  rewrite !Z.div_add_l, !(Z.div_small q) by lia.
  rewrite !(Z.add_comm (_ * 2 ^ shift)), !Z.mod_add, !(Z.mod_small q) by lia.
  lia.
Qed.

Lemma reserved_page_eq n tmp_blk pages b :
  0 < n -> 0 < pages -> 0 <= tmp_blk -> 0 <= b -> (b / n + tmp_blk) * pages < 2 ^ 32 ->
  exists q, 0 <= q <= tmp_blk /\ reserved_page n tmp_blk pages b = (b / n + q) * pages /\
    q = tmp_blk - tmp_blk / n.
Proof.
  intros Hn Hp Ht Hb Hs. exists (tmp_blk - tmp_blk / n).
  assert (0 <= tmp_blk / n <= tmp_blk) as Hq
    by (split; [apply Z.div_pos | apply Z.div_le_upper_bound]; nia).
  assert (0 <= b / n) by (apply Z.div_pos; lia).
  split; [lia|]. split; [|done]. unfold reserved_page, wrap.
  assert ((b - b mod n) / n = b / n) as ->.
  { rewrite (Z.div_mod b n) at 1 by lia.
    replace (n * (b / n) + b mod n - b mod n) with (b / n * n) by lia. apply Z.div_mul; lia. }
  rewrite Z.mod_small; nia.
Qed.

(** Pages below [pages] of different reserved blocks are different pages. *)
Lemma reserved_pages_apart n tmp_blk pages b b' t t' :
  0 < n -> 0 < pages -> 0 <= tmp_blk -> 0 <= b -> 0 <= b' ->
  (b / n + tmp_blk) * pages < 2 ^ 32 -> (b' / n + tmp_blk) * pages < 2 ^ 32 ->
  0 <= t < pages -> 0 <= t' < pages -> b <> b' ->
  (b mod n, t + reserved_page n tmp_blk pages b) <>
  (b' mod n, t' + reserved_page n tmp_blk pages b').
Proof.
  intros Hn Hp Ht Hb Hb' Hs Hs' Hlt Hlt' Hne [= Hm E]. apply Hne.
  destruct (reserved_page_eq n tmp_blk pages b) as (q & Hq & Er & Eq); try done.
  destruct (reserved_page_eq n tmp_blk pages b') as (q' & _ & Er' & Eq'); try done.
  rewrite Er, Er' in E. assert (q' = q) as -> by congruence.
  assert (b / n = b' / n) as Ed by nia.
  rewrite (Z.div_mod b n), (Z.div_mod b' n) by lia. by rewrite Hm, Ed.
Qed.

(** No two reserved blocks share a chip and a page address. *)
Theorem reserved_page_injective n tmp_blk pages b b' :
  0 < n -> 0 < pages -> 0 <= tmp_blk -> 0 <= b -> 0 <= b' ->
  (b / n + tmp_blk) * pages < 2 ^ 32 -> (b' / n + tmp_blk) * pages < 2 ^ 32 ->
  b <> b' ->
  (b mod n, reserved_page n tmp_blk pages b) <> (b' mod n, reserved_page n tmp_blk pages b').
Proof. intros. by apply (reserved_pages_apart n tmp_blk pages b b' 0 0). Qed.

(** ** The bad block table *)
Section BadBlockTable.
Context {D : Type}.
Implicit Types w : world D.

Definition entry w (c b : Z) : Datatypes.option Z :=
  le_value <$> peek w.(w_mem) (status_entry w.(w_chip).(block_status) c b) 2.

(** The table entries an operation is about, in the modes of [ops_para]. *)
Definition covered w (chip_nr blk : Z) : list (Z * Z) :=
  let opts := w.(w_chip).(ops_para).(ops_option) in
  let chips := if has opts DEV_MULTI_CHIP_MODE
               then seqZ 0 w.(w_chip).(controller).(chip_num) else [chip_nr] in
  let blks := if has opts DEV_MULTI_PLANE_MODE
              then [shl32 blk 1; sibling (shl32 blk 1)] else [blk] in
  list_prod chips blks.

(** [m] changes nothing and answers 0 exactly when [P] holds. *)
Definition answers w (m : act D Z) (P : Prop) : Prop :=
  exists r, m w = Done r w /\ (r = 0 <-> P).

Lemma answers_iff w m P P' : answers w m P -> (P <-> P') -> answers w m P'.
Proof. intros (r & E & H) HP. exists r. rewrite <- HP. by split. Qed.

Lemma answers_get w c b :
  is_Some (entry w c b) -> answers w (get_blcok_status c b) (entry w c b = Some 0).
Proof.
  unfold entry. destruct (peek _ _ _) as [bs|] eqn:E; [|by intros []].
  intros _. cbn. eexists. split.
  - unfold get_blcok_status, mbind, M_bind, chip, gets, load16, load_bytes.
    unfold mbind, M_bind. by rewrite E.
  - cbn. repeat case_match; rewrite ?Z.eqb_eq, ?Z.eqb_neq in *; split; intros Hq;
      try injection Hq; try congruence; try lia; unfold NAND_BLOCK_USED_BAD,
      NAND_BLOCK_FACTORY_BAD, NAND_BLOCK_GOOD in *; try lia; f_equal; lia.
Qed.

Lemma answers_both w (f : Z -> act D Z) (P : Z -> Prop) b :
  answers w (f b) (P b) -> answers w (f (sibling b)) (P (sibling b)) ->
  answers w (both_planes f b) (P b /\ P (sibling b)).
Proof.
  intros (r & E & H) (r' & E' & H'). unfold both_planes, answers, mbind, M_bind. rewrite E.
  unfold truthy. destruct (Z.eqb_spec r 0) as [Hr|Hr]; cbn.
  - exists r'. split; [done|]. rewrite H'. tauto.
  - exists r. split; [done|]. tauto.
Qed.

Lemma answers_chips w (f : Z -> act D Z) (P : Z -> Prop) :
  (forall c, 0 <= c < w.(w_chip).(controller).(chip_num) -> answers w (f c) (P c)) ->
  answers w (over_chips f 0)
    (forall c, 0 <= c < w.(w_chip).(controller).(chip_num) -> P c).
Proof.
  intros Hf. unfold over_chips, ctl_, chip, gets, answers.
  set (n := chip_num (controller (w_chip w))) in *. unfold mbind at 1, M_bind at 1. fold n.
  cut (forall k i, 0 <= i -> i + Z.of_nat k = Z.max 0 n ->
    exists r, for_ (R := Z) k i
      (fun chip_nr _ => ret ← f chip_nr;
                        mret (if truthy ret then Return ret else Next ret)) 0 w = Done r w /\
      match r with inl e => e = 0 | inr e => e <> 0 end /\
      (match r with inl e => e | inr e => e end = 0 <-> forall c, i <= c < n -> P c)).
  { intros H. destruct (H (Z.to_nat n) 0) as (r & E & Hr & HP); [lia | lia|].
    unfold mbind at 1, M_bind at 1. rewrite E. unfold mret, M_ret.
    exists (match r with inl e => e | inr e => e end). split; [by destruct r | done]. }
  induction k as [|k IH]; intros i Hi Hk; cbn [for_].
  - exists (inl 0). split_and!; try done. split; [intros _ c Hc; lia | done].
  - destruct (Hf i) as (r & E & HP); [lia|].
    unfold mbind at 1, M_bind at 1. unfold mbind at 1, M_bind at 1. rewrite E.
    unfold mret at 1, M_ret at 1.
    destruct (truthy_cases r) as [[Hr ->]|[Hr ->]].
    + subst r. destruct (IH (i + 1)) as (r & -> & Hr & HP'); [lia | lia|].
      exists r. split_and!; try done. rewrite HP'. split; intros H c Hc; [|apply H; lia].
      destruct (decide (c = i)) as [->|]; [by apply HP | apply H; lia].
    + exists (inr r). split_and!; try done. split; [done|]. intros H. apply HP, H. lia.
Qed.

Lemma Forall_pairs {A B} (P : A -> B -> Prop) (cs : list A) (bs : list B) :
  Forall (fun '(c, b) => P c b) (list_prod cs bs) <->
  Forall (fun c => Forall (P c) bs) cs.
Proof.
  induction cs as [|c cs IH]; cbn; [done|].
  rewrite Forall_app, Forall_cons, IH, Forall_map. done.
Qed.

(** C17: With a table, [block_isbad] answers "good" exactly when every block behind
    the address (both planes, all chips, as the modes say) is recorded good. *)
Theorem block_isbad_table_spec w chip_nr blk :
  (has w.(w_chip).(ops_para).(ops_option) DEV_MULTI_CHIP_MODE = true ->
   0 <= chip_nr < w.(w_chip).(controller).(chip_num)) ->
  Forall (fun '(c, b) => is_Some (entry w c b)) (covered w chip_nr blk) ->
  answers w (block_isbad_table chip_nr blk)
    (Forall (fun '(c, b) => entry w c b = Some NAND_BLOCK_GOOD) (covered w chip_nr blk)).
Proof.
  unfold covered, block_isbad_table. rewrite !Forall_pairs. intros Hc Hall.
  unfold ops_, chip. unfold answers, mbind at 1, M_bind at 1, gets at 1.
  set (opts := ops_option (ops_para (w_chip w))) in *.
  assert (forall c b, is_Some (entry w c b) ->
    answers w (get_blcok_status c b) (entry w c b = Some NAND_BLOCK_GOOD)) as Hget
    by (intros; by apply answers_get).
  destruct (has opts DEV_MULTI_PLANE_MODE), (has opts DEV_MULTI_CHIP_MODE);
    cbn [andb negb] in *.
  - rewrite Forall_seqZ in Hall.
    pose (P c b := entry w c b = Some NAND_BLOCK_GOOD).
    assert (answers w (over_chips (fun c => both_planes (get_blcok_status c) (shl32 blk 1)) 0)
      (forall c, 0 <= c < chip_num (controller (w_chip w)) ->
         P c (shl32 blk 1) /\ P c (sibling (shl32 blk 1)))) as Hover.
    { apply (answers_chips w _ (fun c => P c (shl32 blk 1) /\ P c (sibling (shl32 blk 1)))).
      intros c Hcr. specialize (Hall c ltac:(lia)). rewrite !Forall_cons in Hall.
      apply (answers_both w _ (P c)); apply Hget, Hall. }
    specialize (Hc eq_refl). pose proof (Hall chip_nr ltac:(lia)) as Hown.
    rewrite !Forall_cons in Hown.
    destruct (Hget chip_nr (shl32 blk 1)) as (r & E & HP); [apply Hown|].
    unfold mbind, M_bind. rewrite E. destruct (truthy_cases r) as [[Hr ->]|[Hr ->]].
    + subst r. eapply answers_iff; [exact Hover|]. rewrite Forall_pairs, Forall_seqZ.
      split; intros H c Hcr; specialize (H c ltac:(lia)); rewrite !Forall_cons in *;
        rewrite Forall_nil in *; tauto.
    + exists r. split; [done|]. split; [done|]. intros H. apply HP.
      rewrite Forall_pairs, Forall_seqZ in H. specialize (H chip_nr ltac:(lia)).
      rewrite Forall_cons in H. apply H.
  - rewrite Forall_singleton, !Forall_cons in Hall.
    eapply answers_iff.
    { apply (answers_both w _ (fun b => entry w chip_nr b = Some NAND_BLOCK_GOOD));
        apply Hget; apply Hall. }
    rewrite Forall_pairs, Forall_singleton, !Forall_cons, Forall_nil. tauto.
  - rewrite Forall_seqZ in Hall. eapply answers_iff.
    { apply (answers_chips w _ (fun c => entry w c blk = Some NAND_BLOCK_GOOD)).
      intros c Hcr. specialize (Hall c ltac:(lia)). rewrite Forall_singleton in Hall.
      by apply Hget. }
    rewrite Forall_pairs, Forall_seqZ. split; intros H c Hcr; specialize (H c ltac:(lia));
      rewrite Forall_singleton in *; done.
  - rewrite !Forall_singleton in Hall. eapply answers_iff; [by apply Hget|].
    by rewrite Forall_pairs, !Forall_singleton.
Qed.
End BadBlockTable.

(** ** Concrete runs *)
Module ChipWitness.
Import SlowDevice.
#[local] Existing Instance SlowDevice.hw.

(** The slow device answers 0, 0, 0, 0x40, ...: never a clear status. *)
Definition after (w : world Z) : world Z :=
  final (idle_selected NAND_TWB_TIME_CYCLE (final (controller_read_byte w))).
Definition seventh : world Z :=
  final (controller_read_byte (after (after (after (after (after (after asked))))))).

Example status_try_spec_witness : status_try asked = Done 0 seventh.
Proof.
  apply (status_try_spec [0; 0; 0; 64; 64; 64] 64 asked seventh).
  - do 6 (eapply st_more; [vm_compute; reflexivity | vm_compute; reflexivity |]).
    apply st_last. vm_compute. reflexivity.
  - repeat constructor; discriminate.
  - cbn. lia.
  - reflexivity.
Defined.

Example plane_addrs_spec_witness :
  let '(p0, p1) := plane_addrs 8 0x1234 in
  p0 / 2 ^ 8 = 2 * (0x1234 / 2 ^ 8) /\ p1 / 2 ^ 8 = 2 * (0x1234 / 2 ^ 8) + 1 /\
  p0 mod 2 ^ 8 = 0x1234 mod 2 ^ 8 /\ p1 mod 2 ^ 8 = 0x1234 mod 2 ^ 8.
Proof. apply (plane_addrs_spec 8 0x1234); lia. Defined.

Example reserved_page_injective_witness :
  (5 mod 2, reserved_page 2 4 256 5) <> (7 mod 2, reserved_page 2 4 256 7).
Proof.
  apply (reserved_page_injective 2 4 256 5 7); try lia; vm_compute; reflexivity.
Defined.

(** Eight blocks; number 3 was marked bad. *)
Definition small_table : world Z :=
  final ((upd_chip (set_block_status (Ptr 1 0)) ;;
          upd_ops (set_ops_option DEV_MULTI_PLANE_MODE))
           (set_w_mem {[ 1 := replicate 10 0 ++ [1; 0] ++ replicate 8 0 ]} (world0 0))).

Example block_isbad_table_spec_witness :
  answers small_table (block_isbad_table 0 1)
    (Forall (fun '(c, b) => entry small_table c b = Some NAND_BLOCK_GOOD)
       (covered small_table 0 1)).
Proof.
  apply (block_isbad_table_spec small_table 0 1).
  - vm_compute. discriminate.
  - repeat constructor; vm_compute; eauto.
Defined.
Example block_3_is_bad : exists w, block_isbad_table 0 1 small_table = Done NAND_BLOCK_USED_BAD w.
Proof. eexists. vm_compute. reflexivity. Qed.
End ChipWitness.

(** A controller whose queue never drains. *)
Module StuckDevice.
#[local] Instance hw : NandHw unit := {
  hw_cmd _ d m := (d, m);
  hw_info d m := (Z.shiftl 31 22, (d, m));
  hw_buf d m := (0, (d, m));
  hw_cfg _ _ d m := (d, m);
  hw_wait d m := (d, m);
  hw_virt _ := 0
}.

Lemma never_empty n (w : world unit) : not_ready fifo_empty (mret tt) n w w.
Proof.
  induction n as [|n IH]; [constructor|].
  apply (nr_again _ _ n w w w w); [by destruct w | done | exact IH].
Qed.

Example check_cmdfifo_size_retry_hopeless_witness :
  exists w', check_cmdfifo_size (world0 tt) = Done (- NAND_FAILED) w'.
Proof.
  apply (check_cmdfifo_size_retry_hopeless (AML_DMA_BUSY_TIMEOUT + 2) (world0 tt) (world0 tt)).
  - apply poll_gives_up; [discriminate | apply never_empty].
  - discriminate.
Defined.
End StuckDevice.
