(* ===== verification/RetryTables.v ===== *)
(** * RetryTables: the parameters [amlnand_set_readretry_slc_para] of
    [phy/new_nand.c] gives to the chips that need them.

    For each kind of chip ([flash->new_type]): the registers that move the read
    thresholds, the values tried one after the other, and for Hynix the
    registers that switch a block to SLC mode.  Every definition is a sequence
    of the source's assignments, as an update of the structure; a value is
    stored in an [unsigned char]. *)
From S2P Require Import Prelude NfcWords Data Machine Guards Ctrl HwController ChipOp.

(** ** Assignments *)

(** [l[i] = v;] for each pair, in order. *)
Definition assign (ws : list (nat * Z)) (l : list Z) : list Z :=
  fold_left (fun l '(i, v) => <[i := u8 v]> l) ws l.

(** [t[k][0] = ...; t[k][1] = ...;] for the rows [k] from 0 on. *)
Definition fill (xs l : list Z) : list Z := map u8 xs ++ drop (length xs) l.
Definition fill_rows (rows t : list (list Z)) : list (list Z) :=
  zip_with fill rows t ++ drop (length rows) t.
(** The same in [t[z]]. *)
Definition fill_table (z : nat) (rows : list (list Z)) (t : list (list (list Z)))
    : list (list (list Z)) := alter (fill_rows rows) z t.

(** [READ_RETRY_ZERO]: the register is set to 0, not to a sum. *)
Definition READ_RETRY_ZERO : Z := 0xff.

Definition HYNIX_26NM_4GB : Z := 1.
Definition HYNIX_26NM_8GB : Z := 2.
Definition TOSHIBA_2XNM : Z := 20.
Definition TOSHIBA_A19NM : Z := 21.
Definition SUMSUNG_2XNM : Z := 30.
Definition SANDISK_24NM : Z := 41.
Definition SANDISK_A19NM : Z := 42.
Definition SANDISK_A19NM_4G : Z := 53.
Definition MICRON_20NM : Z := 50.
Definition INTEL_20NM : Z := 60.


(** ** The pages of a block that Hynix chips use in SLC mode *)
Definition pagelist_hynix256 : list Z := [
  0x00; 0x01; 0x02; 0x03; 0x06; 0x07; 0x0A; 0x0B; 0x0E; 0x0F; 0x12; 0x13; 0x16; 0x17; 0x1A;
  0x1B; 0x1E; 0x1F; 0x22; 0x23; 0x26; 0x27; 0x2A; 0x2B; 0x2E; 0x2F; 0x32; 0x33; 0x36; 0x37;
  0x3A; 0x3B; 0x3E; 0x3F; 0x42; 0x43; 0x46; 0x47; 0x4A; 0x4B; 0x4E; 0x4F; 0x52; 0x53; 0x56;
  0x57; 0x5A; 0x5B; 0x5E; 0x5F; 0x62; 0x63; 0x66; 0x67; 0x6A; 0x6B; 0x6E; 0x6F; 0x72; 0x73;
  0x76; 0x77; 0x7A; 0x7B; 0x7E; 0x7F; 0x82; 0x83; 0x86; 0x87; 0x8A; 0x8B; 0x8E; 0x8F; 0x92;
  0x93; 0x96; 0x97; 0x9A; 0x9B; 0x9E; 0x9F; 0xA2; 0xA3; 0xA6; 0xA7; 0xAA; 0xAB; 0xAE; 0xAF;
  0xB2; 0xB3; 0xB6; 0xB7; 0xBA; 0xBB; 0xBE; 0xBF; 0xC2; 0xC3; 0xC6; 0xC7; 0xCA; 0xCB; 0xCE;
  0xCF; 0xD2; 0xD3; 0xD6; 0xD7; 0xDA; 0xDB; 0xDE; 0xDF; 0xE2; 0xE3; 0xE6; 0xE7; 0xEA; 0xEB;
  0xEE; 0xEF; 0xF2; 0xF3; 0xF6; 0xF7; 0xFA; 0xFB].

Definition pagelist_1ynm_hynix256 : list Z := [
  0x00; 0x01; 0x03; 0x05; 0x07; 0x09; 0x0b; 0x0d; 0x0f; 0x11; 0x13; 0x15; 0x17; 0x19; 0x1b;
  0x1d; 0x1f; 0x21; 0x23; 0x25; 0x27; 0x29; 0x2b; 0x2d; 0x2f; 0x31; 0x33; 0x35; 0x37; 0x39;
  0x3b; 0x3d; 0x3f; 0x41; 0x43; 0x45; 0x47; 0x49; 0x4b; 0x4d; 0x4f; 0x51; 0x53; 0x55; 0x57;
  0x59; 0x5b; 0x5d; 0x5f; 0x61; 0x63; 0x65; 0x67; 0x69; 0x6b; 0x6d; 0x6f; 0x71; 0x73; 0x75;
  0x77; 0x79; 0x7b; 0x7d; 0x7f; 0x81; 0x83; 0x85; 0x87; 0x89; 0x8b; 0x8d; 0x8f; 0x91; 0x93;
  0x95; 0x97; 0x99; 0x9b; 0x9d; 0x9f; 0xa1; 0xA3; 0xA5; 0xA7; 0xA9; 0xAb; 0xAd; 0xAf; 0xb1;
  0xB3; 0xB5; 0xB7; 0xB9; 0xBb; 0xBd; 0xBf; 0xc1; 0xC3; 0xC5; 0xC7; 0xC9; 0xCb; 0xCd; 0xCf;
  0xd1; 0xD3; 0xD5; 0xD7; 0xD9; 0xDb; 0xDd; 0xDf; 0xe1; 0xE3; 0xE5; 0xE7; 0xE9; 0xEb; 0xEd;
  0xEf; 0xf1; 0xF3; 0xF5; 0xF7; 0xF9; 0xFb; 0xFd].

(** ** [HYNIX_26NM_4GB] *)
Definition hynix_26nm_4gb_rows_lp : list (list Z) := [
  [0; 0x06; 0x0A; 0x06]; [READ_RETRY_ZERO; (-0x03); (-0x07); (-0x08)];
  [READ_RETRY_ZERO; (-0x06); (-0x0D); (-0x0F)];
  [READ_RETRY_ZERO; (-0x09); (-0x14); (-0x17)];
  [READ_RETRY_ZERO; READ_RETRY_ZERO; (-0x1A); (-0x1E)];
  [READ_RETRY_ZERO; READ_RETRY_ZERO; (-0x20); (-0x25)]].

Definition hynix_26nm_4gb_retry (r : read_retry_info) : read_retry_info :=
  set_retry_flag 1 (
  set_reg_cnt_lp 4 (
  set_retry_cnt_lp 6 (
  set_reg_addr_lp (fill [0xA7; 0xAD; 0xAE; 0xAF] r.(reg_addr_lp)) (
  set_reg_offs_val_lp (fill_table 0 hynix_26nm_4gb_rows_lp r.(reg_offs_val_lp)) (
  set_retry_ops RetryHynix r))))).

Definition hynix_26nm_4gb_slc (s : en_slc_info) : en_slc_info :=
  set_slc_flag 1 (
  set_slc_reg_cnt 5 (
  set_slc_reg_addr (fill [0xA0; 0xA1; 0xB0; 0xB1; 0xC9] s.(slc_reg_addr)) (
  set_slc_reg_offs_val (fill [0x26; 0x26; 0x26; 0x26; 0x01] s.(slc_reg_offs_val)) (
  set_pagelist pagelist_hynix256 (
  set_slc_ops SlcHynix s))))).

(** ** [HYNIX_26NM_8GB] *)
Definition hynix_26nm_8gb_rows_lp : list (list Z) := [
  [0; 0x06; 0x0A; 0x06]; [READ_RETRY_ZERO; (-0x03); (-0x07); (-0x08)];
  [READ_RETRY_ZERO; (-0x06); (-0x0D); (-0x0F)];
  [READ_RETRY_ZERO; (-0x0B); (-0x14); (-0x17)];
  [READ_RETRY_ZERO; READ_RETRY_ZERO; (-0x1A); (-0x1E)];
  [READ_RETRY_ZERO; READ_RETRY_ZERO; (-0x20); (-0x25)]].

Definition hynix_26nm_8gb_retry (r : read_retry_info) : read_retry_info :=
  set_retry_flag 1 (
  set_reg_cnt_lp 4 (
  set_retry_cnt_lp 6 (
  set_reg_addr_lp (fill [0xAC; 0xAD; 0xAE; 0xAF] r.(reg_addr_lp)) (
  set_reg_offs_val_lp (fill_table 0 hynix_26nm_8gb_rows_lp r.(reg_offs_val_lp)) (
  set_retry_ops RetryHynix r))))).

Definition hynix_26nm_8gb_slc (s : en_slc_info) : en_slc_info :=
  set_slc_flag 1 (
  set_slc_reg_cnt 5 (
  set_slc_reg_addr (fill [0xA4; 0xA5; 0xB0; 0xB1; 0xC9] s.(slc_reg_addr)) (
  set_slc_reg_offs_val (fill [0x25; 0x25; 0x25; 0x25; 0x01] s.(slc_reg_offs_val)) (
  set_pagelist pagelist_hynix256 (
  set_slc_ops SlcHynix s))))).

(** ** [HYNIX_20NM_4GB] *)
Definition hynix_20nm_4gb_retry (r : read_retry_info) : read_retry_info :=
  set_retry_flag 1 (
  set_reg_cnt_lp 8 (
  set_retry_cnt_lp 7 (
  set_reg_addr_lp (fill [0xB0; 0xB1; 0xB2; 0xB3; 0xB4; 0xB5; 0xB6; 0xB7] r.(reg_addr_lp)) (
  set_retry_ops RetryHynix r)))).

Definition hynix_20nm_4gb_slc (s : en_slc_info) : en_slc_info :=
  set_slc_flag 1 (
  set_slc_reg_cnt 4 (
  set_slc_reg_addr (fill [0xA0; 0xA1; 0xA7; 0xA8] s.(slc_reg_addr)) (
  set_slc_reg_offs_val (fill [0x0A; 0x0A; 0x0A; 0x0A] s.(slc_reg_offs_val)) (
  set_pagelist pagelist_hynix256 (
  set_slc_ops SlcHynix s))))).

(** ** [HYNIX_20NM_8GB] *)
Definition hynix_20nm_8gb_retry (r : read_retry_info) : read_retry_info :=
  set_retry_flag 1 (
  set_reg_cnt_lp 8 (
  set_retry_cnt_lp 7 (
  set_reg_addr_lp (fill [0xCC; 0xBF; 0xAA; 0xAB; 0xCD; 0xAD; 0xAE; 0xAF] r.(reg_addr_lp)) (
  set_retry_ops RetryHynix r)))).

Definition hynix_20nm_8gb_slc (s : en_slc_info) : en_slc_info :=
  set_slc_flag 1 (
  set_slc_reg_cnt 4 (
  set_slc_reg_addr (fill [0xB0; 0xB1; 0xA0; 0xA1] s.(slc_reg_addr)) (
  set_slc_reg_offs_val (fill [0x0A; 0x0A; 0x0A; 0x0A] s.(slc_reg_offs_val)) (
  set_pagelist pagelist_hynix256 (
  set_slc_ops SlcHynix s))))).

(** ** [HYNIX_1YNM_8GB] *)
Definition hynix_1ynm_8gb_retry (r : read_retry_info) : read_retry_info :=
  set_retry_flag 1 (
  set_reg_cnt_lp 4 (
  set_retry_cnt_lp 7 (
  set_reg_addr_lp (fill [0x38; 0x39; 0x3A; 0x3B] r.(reg_addr_lp)) (
  set_retry_ops RetryHynix r)))).

Definition hynix_1ynm_8gb_slc (s : en_slc_info) : en_slc_info :=
  set_pagelist pagelist_1ynm_hynix256 (
  set_slc_ops SlcHynix s).

(** ** [TOSHIBA_2XNM] *)
Definition toshiba_2xnm_rows_lp : list (list Z) := [
  [0; 0; 0; 0]; [0x04; 0x04; 0x04; 0x04]; [0x7c; 0x7c; 0x7c; 0x7c];
  [0x78; 0x78; 0x78; 0x78]; [0x74; 0x74; 0x74; 0x74]; [0x08; 0x08; 0x08; 0x08]].

Definition toshiba_2xnm_retry (r : read_retry_info) : read_retry_info :=
  set_retry_flag 1 (
  set_reg_cnt_lp 4 (
  set_retry_cnt_lp 6 (
  set_reg_addr_lp (fill [0x04; 0x05; 0x06; 0x07] r.(reg_addr_lp)) (
  set_reg_offs_val_lp (fill_table 0 toshiba_2xnm_rows_lp r.(reg_offs_val_lp)) (
  set_retry_ops RetryToshiba r))))).

(** ** [TOSHIBA_A19NM] *)
Definition toshiba_a19nm_rows_lp : list (list Z) := [
  [0; 0; 0; 0; 0]; [0x04; 0x04; 0x04; 0x04; 0x00]; [0x7c; 0x7c; 0x7c; 0x7c; 0x00];
  [0x78; 0x78; 0x78; 0x78; 0x00]; [0x74; 0x74; 0x74; 0x74; 0x00];
  [0x08; 0x08; 0x08; 0x08; 0x00]; [0x78; 0x78; 0x78; 0x78; 0x00]].

Definition toshiba_a19nm_retry (r : read_retry_info) : read_retry_info :=
  set_retry_flag 1 (
  set_reg_cnt_lp 5 (
  set_retry_cnt_lp 7 (
  set_reg_addr_lp (assign [(0%nat, 0x04); (1%nat, 0x05); (2%nat, 0x06); (3%nat, 0x07); (3%nat, 0x0D)]
     r.(reg_addr_lp)) (
  set_reg_offs_val_lp (fill_table 0 toshiba_a19nm_rows_lp r.(reg_offs_val_lp)) (
  set_retry_ops RetryToshiba r))))).

(** ** [SUMSUNG_2XNM] *)
Definition sumsung_2xnm_rows_lp : list (list Z) := [
  [0; 0; 0; 0]; [0x05; 0x0A; 0x00; 0x00]; [0x28; 0x00; 0xEc; 0xD8];
  [0xED; 0xF5; 0xED; 0xE6]; [0x0A; 0x0F; 0x05; 0x00]; [0x0F; 0x0A; 0xFB; 0xEC];
  [0xE8; 0xEF; 0xE8; 0xDC]; [0xF1; 0xFB; 0xFE; 0xF0]; [0x0A; 0x00; 0xFB; 0xEC];
  [0xD0; 0xE2; 0xD0; 0xC2]; [0x14; 0x0F; 0xFB; 0xEC]; [0xE8; 0xFB; 0xE8; 0xDC];
  [0x1E; 0x14; 0xFB; 0xEC]; [0xFB; 0xFF; 0xFB; 0xF8]; [0x07; 0x0C; 0x02; 0x00]].

Definition sumsung_2xnm_retry (r : read_retry_info) : read_retry_info :=
  set_retry_flag 1 (
  set_reg_cnt_lp 4 (
  set_retry_cnt_lp 15 (
  set_reg_addr_lp (fill [0xA7; 0xA4; 0xA5; 0xA6] r.(reg_addr_lp)) (
  set_reg_offs_val_lp (fill_table 0 sumsung_2xnm_rows_lp r.(reg_offs_val_lp)) (
  set_retry_ops RetrySamsung r))))).

(** ** [SANDISK_19NM] *)
Definition sandisk_19nm_rows_lower : list (list Z) := [
  [0xF0; 0xF0]; [0xE0; 0xE0]; [0xD0; 0xD0]; [0x10; 0x10]; [0x20; 0x20]; [0x30; 0x30];
  [0xC0; 0xD0]; [0x0; 0x10]; [0x0; 0x20]; [0x10; 0x20]; [0xB0; 0xD0]; [0xA0; 0xD0];
  [0x90; 0xD0]; [0xB0; 0xC0]; [0xA0; 0xC0]; [0x90; 0xC0]].

Definition sandisk_19nm_rows_up : list (list Z) := [
  [0x0; 0xF0]; [0xF; 0xE0]; [0xF; 0xD0]; [0xE; 0xE0]; [0xE; 0xD0]; [0xD; 0xF0];
  [0xD; 0xE0]; [0xD; 0xD0]; [0x1; 0x10]; [0x2; 0x20]; [0x2; 0x10]; [0x3; 0x20];
  [0xF; 0x00]; [0xE; 0xF0]; [0xD; 0xC0]; [0xF; 0xF0]; [0x1; 0x00]; [0x20; 0x00];
  [0xD; 0xB0]; [0xC; 0xA0]].

Definition sandisk_19nm_retry (r : read_retry_info) : read_retry_info :=
  set_retry_flag 1 (
  set_reg_cnt_lp 2 (
  set_retry_cnt_lp 16 (
  set_reg_addr_lp (fill [0x04; 0x07] r.(reg_addr_lp)) (
  set_reg_cnt_up 2 (
  set_retry_cnt_up 20 (
  set_reg_addr_up (fill [0x04; 0x05] r.(reg_addr_up)) (
  set_reg_offs_val_lp (fill_table 0 sandisk_19nm_rows_lower r.(reg_offs_val_lp)) (
  set_reg_offs_val_up (fill_table 0 sandisk_19nm_rows_up r.(reg_offs_val_up)) (
  set_retry_ops RetrySandisk r))))))))).

Definition sandisk_19nm_slc (s : en_slc_info) : en_slc_info :=
  set_slc_ops SlcSandisk s.

(** ** [SANDISK_A19NM] *)
Definition sandisk_a19nm_rows_lower : list (list Z) := [
  [0x7c; 0x00; 0x7c; 0x00]; [0x04; 0x00; 0x04; 0x00]; [0x78; 0x00; 0x78; 0x00];
  [0x08; 0x00; 0x08; 0x00]; [0x00; 0x00; 0x00; 0x00]; [0x7c; 0x00; 0x7c; 0x00];
  [0x04; 0x00; 0x04; 0x00]; [0x00; 0x00; 0x78; 0x00]; [0x00; 0x00; 0x74; 0x00];
  [0x00; 0x00; 0x00; 0x00]; [0x00; 0x00; 0x7c; 0x00]; [0x00; 0x00; 0x78; 0x00];
  [0x00; 0x00; 0x74; 0x00]; [0x00; 0x00; 0x70; 0x00]; [0x00; 0x00; 0x00; 0x00];
  [0x00; 0x00; 0x7c; 0x00]; [0x10; 0x00; 0x04; 0x00]; [0x7c; 0x00; 0x7c; 0x00];
  [0x78; 0x00; 0x78; 0x00]; [0x78; 0x00; 0x74; 0x00]; [0x78; 0x00; 0x70; 0x00];
  [0x78; 0x00; 0x6c; 0x00]; [0x78; 0x00; 0x78; 0x00]; [0x78; 0x00; 0x74; 0x00];
  [0x78; 0x00; 0x70; 0x00]; [0x78; 0x00; 0x6c; 0x00]; [0x78; 0x00; 0x74; 0x00];
  [0x78; 0x00; 0x70; 0x00]; [0x78; 0x00; 0x6c; 0x00]].

Definition sandisk_a19nm_rows_upper : list (list Z) := [
  [0x00; 0x00; 0x00; 0x7c]; [0x00; 0x00; 0x00; 0x04]; [0x00; 0x00; 0x00; 0x78];
  [0x00; 0x00; 0x00; 0x08]; [0x00; 0x7c; 0x00; 0x00]; [0x00; 0x7c; 0x00; 0x7c];
  [0x00; 0x7c; 0x00; 0x04]; [0x00; 0x7c; 0x00; 0x78]; [0x00; 0x7c; 0x00; 0x74];
  [0x00; 0x78; 0x00; 0x00]; [0x00; 0x78; 0x00; 0x7c]; [0x00; 0x78; 0x00; 0x78];
  [0x00; 0x78; 0x00; 0x74]; [0x00; 0x78; 0x00; 0x70]; [0x00; 0x04; 0x00; 0x00];
  [0x00; 0x04; 0x00; 0x7c]; [0x00; 0x04; 0x00; 0x04]; [0x00; 0x74; 0x00; 0x7c];
  [0x00; 0x74; 0x00; 0x78]; [0x00; 0x74; 0x00; 0x74]; [0x00; 0x74; 0x00; 0x70];
  [0x00; 0x74; 0x00; 0x6c]; [0x00; 0x70; 0x00; 0x78]; [0x00; 0x70; 0x00; 0x74];
  [0x00; 0x70; 0x00; 0x70]; [0x00; 0x70; 0x00; 0x6c]; [0x00; 0x6c; 0x00; 0x74];
  [0x00; 0x6c; 0x00; 0x70]; [0x00; 0x6c; 0x00; 0x6c]].

Definition sandisk_a19nm_retry (r : read_retry_info) : read_retry_info :=
  set_retry_flag 1 (
  set_reg_cnt_lp 4 (
  set_retry_cnt_lp 29 (
  set_reg_addr_lp (fill [0x11] r.(reg_addr_lp)) (
  set_reg_offs_val_lp (fill_table 1 sandisk_a19nm_rows_upper (fill_table 0 sandisk_a19nm_rows_lower r.(reg_offs_val_lp))) (
  set_retry_ops RetrySandiskA19 r))))).

(** ** [SANDISK_A19NM_4G] *)
Definition sandisk_a19nm_4g_rows_lower : list (list Z) := [
  [0x7c; 0x00; 0x00; 0x00]; [0x04; 0x00; 0x7C; 0x00]; [0x78; 0x00; 0x78; 0x00];
  [0x08; 0x00; 0x00; 0x00]; [0x00; 0x00; 0x7C; 0x00]; [0x7c; 0x00; 0x78; 0x00];
  [0x00; 0x00; 0x74; 0x00]; [0x00; 0x00; 0x00; 0x00]; [0x00; 0x00; 0x7C; 0x00];
  [0x00; 0x00; 0x78; 0x00]; [0x00; 0x00; 0x74; 0x00]; [0x00; 0x00; 0x70; 0x00];
  [0x00; 0x00; 0x04; 0x00]; [0x00; 0x00; 0x00; 0x00]; [0x0C; 0x00; 0x7C; 0x00];
  [0x0C; 0x00; 0x78; 0x00]; [0x10; 0x00; 0x00; 0x00]; [0x10; 0x00; 0x04; 0x00];
  [0x78; 0x00; 0x78; 0x00]; [0x78; 0x00; 0x74; 0x00]; [0x78; 0x00; 0x70; 0x00];
  [0x78; 0x00; 0x6c; 0x00]; [0x78; 0x00; 0x78; 0x00]; [0x78; 0x00; 0x74; 0x00];
  [0x78; 0x00; 0x6C; 0x00]; [0x78; 0x00; 0x70; 0x00]; [0x78; 0x00; 0x70; 0x00];
  [0x78; 0x00; 0x6c; 0x00]; [0x78; 0x00; 0x68; 0x00]; [0x74; 0x00; 0x6c; 0x00]].

Definition sandisk_a19nm_4g_rows_upper : list (list Z) := [
  [0x00; 0x00; 0x00; 0x7c]; [0x00; 0x00; 0x00; 0x78]; [0x00; 0x00; 0x00; 0x74];
  [0x00; 0x7C; 0x00; 0x7c]; [0x00; 0x7c; 0x00; 0x78]; [0x00; 0x7c; 0x00; 0x74];
  [0x00; 0x7c; 0x00; 0x70]; [0x00; 0x78; 0x00; 0x7c]; [0x00; 0x78; 0x00; 0x78];
  [0x00; 0x78; 0x00; 0x74]; [0x00; 0x78; 0x00; 0x70]; [0x00; 0x78; 0x00; 0x6c];
  [0x00; 0x04; 0x00; 0x00]; [0x00; 0x04; 0x00; 0x7c]; [0x00; 0x04; 0x00; 0x78];
  [0x00; 0x04; 0x00; 0x74]; [0x00; 0x08; 0x00; 0x7c]; [0x00; 0x08; 0x00; 0x00];
  [0x00; 0x74; 0x00; 0x74]; [0x00; 0x74; 0x00; 0x70]; [0x00; 0x74; 0x00; 0x6c];
  [0x00; 0x74; 0x00; 0x68]; [0x00; 0x70; 0x00; 0x74]; [0x00; 0x70; 0x00; 0x70];
  [0x00; 0x70; 0x00; 0x68]; [0x00; 0x70; 0x00; 0x6c]; [0x00; 0x6c; 0x00; 0x6c];
  [0x00; 0x6c; 0x00; 0x68]; [0x00; 0x6c; 0x00; 0x64]; [0x00; 0x68; 0x00; 0x68]].

Definition sandisk_a19nm_4g_retry (r : read_retry_info) : read_retry_info :=
  set_retry_flag 1 (
  set_reg_cnt_lp 4 (
  set_retry_cnt_lp 30 (
  set_reg_addr_lp (fill [0x11] r.(reg_addr_lp)) (
  set_reg_offs_val_lp (fill_table 1 sandisk_a19nm_4g_rows_upper (fill_table 0 sandisk_a19nm_4g_rows_lower r.(reg_offs_val_lp))) (
  set_retry_ops RetrySandiskA19 r))))).

(** ** [MICRON_20NM] *)
Definition micron_20nm_rows_lp : list (list Z) := [
  [0x1]; [0x2]; [0x3]; [0x4]; [0x5]; [0x6]; [0x7]].

Definition micron_20nm_retry (r : read_retry_info) : read_retry_info :=
  set_retry_flag 1 (
  set_reg_cnt_lp 1 (
  set_retry_cnt_lp 7 (
  set_reg_addr_lp (fill [0x89] r.(reg_addr_lp)) (
  set_reg_def_val (alter (fill [0; 0; 0; 0; 0; 0; 0]) 0%nat r.(reg_def_val)) (
  set_reg_offs_val_lp (fill_table 0 micron_20nm_rows_lp r.(reg_offs_val_lp)) (
  set_retry_ops RetryMicron r)))))).

(** ** [INTEL_20NM] *)
Definition intel_20nm_rows_lp : list (list Z) := [
  [0x1]; [0x2]; [0x3]; [0x0]; [0x1]; [0x2]; [0x3]].

Definition intel_20nm_retry (r : read_retry_info) : read_retry_info :=
  set_retry_flag 1 (
  set_reg_cnt_lp 2 (
  set_retry_cnt_lp 7 (
  set_reg_addr_lp (assign [(0%nat, 0x89); (0%nat, 0x93)]
     r.(reg_addr_lp)) (
  set_reg_def_val (alter (fill [0; 0; 0; 0; 0; 0; 0]) 0%nat r.(reg_def_val)) (
  set_reg_offs_val_lp (fill_table 0 intel_20nm_rows_lp r.(reg_offs_val_lp)) (
  set_retry_ops RetryIntel r)))))).

(** ** The [switch]: what is set up for a type, [None] for one that is not
    supported. *)
Definition retry_para (type : Z)
    : Datatypes.option ((read_retry_info -> read_retry_info) * (en_slc_info -> en_slc_info)) :=
  if type =? HYNIX_26NM_4GB then Some (hynix_26nm_4gb_retry, hynix_26nm_4gb_slc)
  else if type =? HYNIX_26NM_8GB then Some (hynix_26nm_8gb_retry, hynix_26nm_8gb_slc)
  else if type =? HYNIX_20NM_4GB then Some (hynix_20nm_4gb_retry, hynix_20nm_4gb_slc)
  else if type =? HYNIX_20NM_8GB then Some (hynix_20nm_8gb_retry, hynix_20nm_8gb_slc)
  else if type =? HYNIX_1YNM_8GB then Some (hynix_1ynm_8gb_retry, hynix_1ynm_8gb_slc)
  else if type =? TOSHIBA_2XNM then Some (toshiba_2xnm_retry, fun s => s)
  else if type =? TOSHIBA_A19NM then Some (toshiba_a19nm_retry, fun s => s)
  else if type =? SUMSUNG_2XNM then Some (sumsung_2xnm_retry, fun s => s)
  else if type =? SANDISK_19NM then Some (sandisk_19nm_retry, sandisk_19nm_slc)
  else if type =? SANDISK_A19NM then Some (sandisk_a19nm_retry, fun s => s)
  else if type =? SANDISK_A19NM_4G then Some (sandisk_a19nm_4g_retry, fun s => s)
  else if type =? MICRON_20NM then Some (micron_20nm_retry, fun s => s)
  else if type =? INTEL_20NM then Some (intel_20nm_retry, fun s => s)
  else None.
