(* ===== verification/ChipEnv.v ===== *)
(** * ChipEnv: [phy/chipenv.c], the driver's own metadata.

    The reserved blocks after the boot area hold the bad block table ("nbbt"),
    the configuration ("ncnf"), the U-Boot environment ("nenv") and the like.
    An item is a run of pages; every page carries its name and a time stamp in
    the spare bytes.  Here: the checksums, the search for a free block, reading,
    writing and finding an item by its name, the repair of worn reserved blocks.
    The chip operations are the interface [ChipOperation]. *)
From S2P Require Import Prelude NfcWords Data Machine Guards Ctrl HwController ChipOp.

(** ** Constants *)
Definition BBT_HEAD_MAGIC : list Z := ascii4 "nbbt".
Definition SHIPPED_BBT_HEAD_MAGIC : list Z := ascii4 "fbbt".
Definition CONFIG_HEAD_MAGIC : list Z := ascii4 "ncnf".
Definition ENV_INFO_HEAD_MAGIC : list Z := ascii4 "nenv".
Definition FULL_BLK : Z := 0.
Definition FULL_PAGE : Z := 1.
Definition MAX_DEVICE_NUM : Z := 4.
Definition SIZEOF_dev_para : Z := 680.
Definition SIZEOF_block_status : Z := 4 + 2 * (MAX_CHIP_NUM * MAX_BLK_NUM).
Definition SIZEOF_shipped_bbt : Z := 4 + 2 * (MAX_CHIP_NUM * MAX_BAD_BLK_NUM).
Definition SIZEOF_nand_config : Z := 2736.
Definition OFF_dev_para : Z := 8.
Definition OFF_driver_version : Z := 2728.
Definition OFF_dev_num : Z := 2732.
Definition OFF_fbbt_blk_addr : Z := 2734.

(** The spare bytes of a metadata page: [struct _nand_arg_oobinfo]. *)
Definition SIZEOF_oobinfo : Z := 6.
Definition oobinfo (name : list Z) (timestamp : Z) : list Z := name ++ le_bytes 2 timestamp.
Definition oob_name (oob : list Z) : list Z := take 4 oob.
Definition oob_timestamp (oob : list Z) : Z := le_value (take 2 (drop 4 oob)).

(** Which of the six [nand_arg_info] of [struct amlnand_chip] is meant. *)
Inductive info := Bbt | Fbbt | Config | Key | Secure | Env.

Definition arg_of (i : info) (c : amlnand_chip) : nand_arg_info :=
  match i with
  | Bbt => c.(nand_bbtinfo)
  | Fbbt => c.(shipped_bbtinfo)
  | Config => c.(config_msg)
  | Key => c.(nand_key)
  | Secure => c.(nand_secure)
  | Env => c.(uboot_env)
  end.
Definition set_arg (i : info) (a : nand_arg_info) (c : amlnand_chip) : amlnand_chip :=
  match i with
  | Bbt => set_nand_bbtinfo a c
  | Fbbt => set_shipped_bbtinfo a c
  | Config => set_config_msg a c
  | Key => set_nand_key a c
  | Secure => set_nand_secure a c
  | Env => set_uboot_env a c
  end.

(** ** The list of reserved blocks
    A byte per block in use; 0xff is a free entry. *)
Fixpoint replace_first (old new : Z) (l : list Z) : list Z :=
  match l with
  | [] => []
  | x :: l' => if x =? old then new :: l' else x :: replace_first old new l'
  end.
Definition reserve (blk : Z) (l : list Z) : list Z := replace_first 0xff (u8 blk) l.
Definition unreserve (blk : Z) (l : list Z) : list Z := replace_first blk 0xff l.

(** ** Checksums *)
Definition aml_info_checksum (data : list Z) : Z := u32 (fold_left Z.add data 0).

(** The pages of an item: the last page of one whose size is a multiple of the
    page size is extra. *)
Definition arg_pages_of (size page : Z) : Z := u32 (Z.shiftr size (ffs page - 1) + 1).

Section ChipEnv.
Context {D : Type} `{!NandHw D} `{!ChipOperation D} (spin : nat).

Definition arg_ {A} (i : info) (f : nand_arg_info -> A) : act D A :=
  chip (fun c => f (arg_of i c)).
Definition upd_arg (i : info) (f : nand_arg_info -> nand_arg_info) : act D unit :=
  upd_chip (fun c => set_arg i (f (arg_of i c)) c).

(** The sum over the first [n] bytes behind the checksum. *)
Definition checksum_at (data : ptr) (off n : Z) : act D Z :=
  l ← load_bytes (ptr_add data off) n; mret (aml_info_checksum l).

(** The lengths are counted in entries for the two tables, whose entries are
    two bytes wide. *)
Definition aml_info_check_datasum (data : ptr) (name : list Z) : act D Z :=
  let check off n ret :=
    crc ← load32 data;
    sum ← checksum_at data off n;
    mret (if sum =? crc then ret else - NAND_READ_FAILED) in
  ret ← (if bool_decide (name = BBT_HEAD_MAGIC)
         then check 4 (MAX_CHIP_NUM * MAX_BLK_NUM) 0 else mret 0);
  ret ← (if bool_decide (name = SHIPPED_BBT_HEAD_MAGIC)
         then check 4 (MAX_CHIP_NUM * MAX_BAD_BLK_NUM) ret else mret ret);
  if bool_decide (name = CONFIG_HEAD_MAGIC)
  then check OFF_dev_para (MAX_DEVICE_NUM * SIZEOF_dev_para) ret else mret ret.

(** ** The reserved area *)

(** The block after the first [RESERVED_BLOCK_CNT] that are not factory bad. *)
Definition get_last_reserve_block : act D Z :=
  fl ← chip flash;
  clear_ops ;;
  let pages := pages_of_block fl in
  let tmp_blk := reserved_start fl in
  r ← while_ (R := unit) spin (fun '(blk_addr, _) => blk_addr <? RESERVED_BLOCK_CNT)
        (fun '(blk_addr, total_blk) =>
           clear_ops ;;
           point_block total_blk tmp_blk pages ;;
           ret ← op_block_isbad;
           mret (if ret =? NAND_BLOCK_FACTORY_BAD then Next (blk_addr, total_blk + 1)
                 else Next (blk_addr + 1, total_blk + 1)))
        (0, tmp_blk);
  mret (match r with inl (_, total_blk) => total_blk | inr _ => 0 end).

(** One candidate: [Some] erase result when it was tried. *)
Definition try_block (start_blk block tmp_blk pages : Z) : act D (Datatypes.option Z) :=
  reserved ← chip reserved_blk;
  if existsb (fun b => b =? start_blk) reserved || (block =? start_blk) then mret None
  else
    clear_ops ;;
    point_block start_blk tmp_blk pages ;;
    ret ← op_block_isbad;
    if ret =? NAND_BLOCK_FACTORY_BAD then mret None
    else
      ret ← when_ready op_erase_block;
      if ret <? 0 then r ← op_block_markbad; mret None
      else mret (Some ret).

(** The first block of the reserved area that is neither in use, nor [block],
    nor factory bad, and that can be erased. *)
Definition amlnand_get_free_block (block : Z) : act D Z :=
  fl ← chip flash;
  clear_ops ;;
  let pages := pages_of_block fl in
  let tmp_blk := reserved_start fl in
  total_blk ← get_last_reserve_block;
  r ← while_ (R := Z) (Z.to_nat (total_blk - tmp_blk)) (fun start_blk => start_blk <? total_blk)
        (fun start_blk =>
           t ← try_block start_blk block tmp_blk pages;
           mret (match t with
                 | None => Next (start_blk + 1)
                 | Some ret => Return (if ret =? 0 then start_blk else ret)
                 end))
        tmp_blk;
  mret (match r with inl _ => - NAND_BAD_BLCOK_FAILURE | inr blk => blk end).

(** ** Reading a page of an item *)

(** The user buffers become the operation's buffers, blank. *)
Definition blank_user_buffers (with_data : bool) : act D unit :=
  c ← gets w_chip;
  use_user_buffers SIZEOF_oobinfo ;;
  (if with_data then memset c.(user_page_buf) 0 c.(flash).(pagesize)
   else upd_ops (set_data_buf Null)) ;;
  memset c.(user_oob_buf) 0 SIZEOF_oobinfo.

(** Page [t] of a reserved block into the user buffers: the result of
    [read_page], and whether the page counts as unreadable. *)
Definition fetch_page (with_data : bool) (lock : act D Z -> act D Z)
    (blk tmp_blk pages t : Z) : act D (Z * bool) :=
  point_page blk tmp_blk pages t ;;
  blank_user_buffers with_data ;;
  ret ← lock op_read_page;
  ecc ← ops_ ecc_err;
  mret (ret, truthy ecc || (ret <? 0)).

Definition fetched_oob : act D (list Z) :=
  p ← chip user_oob_buf; load_bytes p SIZEOF_oobinfo.

(** A page that cannot be read ends the read with [read_page]'s result, which
    is 0 for an uncorrectable page. *)
Definition amlnand_read_info_by_name (i : info) (buf : ptr) (name : list Z) (size : Z)
    : act D Z :=
  fl ← chip flash;
  clear_ops ;;
  let pages := pages_of_block fl in
  let tmp_blk := u16 (reserved_start fl) in
  valid ← arg_ i arg_valid;
  if valid =? 1 then
    r ← while_ (R := Z) (Z.to_nat (size / fl.(pagesize) + 1))
          (fun '(_, amount_loaded, _) => amount_loaded <? size)
          (fun '(offset_tmp, amount_loaded, _) =>
             a ← arg_ i id;
             '(ret, failed) ← fetch_page true when_ready a.(valid_blk_addr) tmp_blk pages
                                (a.(valid_page_addr) + offset_tmp);
             if failed : bool then mret (Return ret)
             else
               oob ← fetched_oob;
               user ← chip user_page_buf;
               when_ (bool_decide (oob_name oob = name))
                 (memcpy (ptr_add buf amount_loaded) user
                    (Z.min fl.(pagesize) (size - amount_loaded))) ;;
               mret (Next (offset_tmp + 1, amount_loaded + fl.(pagesize), ret)))
          (0, 0, 0);
    mret (match r with inl (_, _, ret) => ret | inr ret => ret end)
  else mret 0.

(** ** Writing an item *)

(** What stays the same while one item is saved. *)
Record save_job := mk_job {
  j_info : info;
  j_buf : ptr;
  j_page : Z;              (* [flash->pagesize] *)
  j_tmp_blk : Z;
  j_pages : Z;             (* [pages_per_blk] *)
  j_pages_read : Z;        (* pages of the block that are used *)
  j_arg_pages : Z;
  j_total : Z;             (* [size], with the extra page *)
  j_oob : list Z           (* the spare bytes of this round *)
}.

(** One page of the item: [len] bytes from the caller's buffer, then zeros. *)
Definition write_info_page (j : save_job) (blk t amount_saved : Z) : act D Z :=
  point_page blk j.(j_tmp_blk) j.(j_pages) t ;;
  use_user_buffers SIZEOF_oobinfo ;;
  c ← gets w_chip;
  memset c.(user_page_buf) 0 j.(j_page) ;;
  memset c.(user_oob_buf) 0 SIZEOF_oobinfo ;;
  memcpy c.(user_page_buf) (ptr_add j.(j_buf) amount_saved)
    (Z.min j.(j_page) (j.(j_total) - amount_saved)) ;;
  store_bytes c.(user_oob_buf) j.(j_oob) ;;
  when_ready op_write_page.

(** The paired page of one just written, all ones and not randomized.  The mask
    the source takes for "single chip" is 0 and also clears the soft ECC bit. *)
Definition write_paired_page : act D Z :=
  c ← gets w_chip;
  let tmp_addr := c.(ops_para).(page_addr) in
  let temp_option := c.(ops_para).(ops_option) in
  upd_ctl (set_ran_mode 0) ;;
  upd_ops (fun o => set_page_addr (u32 (tmp_addr + 1))
             (set_ops_option (Z.land (Z.lor temp_option DEV_ECC_SOFT_MODE)
                                DEV_SERIAL_CHIP_MODE) o)) ;;
  memset c.(user_page_buf) 0xff c.(flash).(pagesize) ;;
  memset c.(user_oob_buf) 0xff SIZEOF_oobinfo ;;
  ret ← when_ready op_write_page;
  upd_ctl (set_ran_mode c.(controller).(ran_mode)) ;;
  upd_ops (fun o => set_page_addr tmp_addr (set_ops_option temp_option o)) ;;
  mret ret.

(** Hynix 1Y nm: a page of the block's rest, and its pair, are written to lock
    the data. *)
Definition lock_block (blk tmp_blk pages t : Z) : act D Z :=
  clear_ops ;;
  upd_ops (set_ops_option DEV_SLC_MODE) ;;
  chips ← ctl_ chip_num;
  list ← ctl_ (fun c => pagelist c.(slc_info));
  chip_nr ← mod_ blk chips;
  let page := u32 (t + reserved_page chips tmp_blk pages blk) in
  upd_ops (fun o => set_page_addr (Z.lor (Z.land page (not32 (pages - 1)))
                                     (arr list (page mod 256)))
                      (set_chipnr chip_nr o)) ;;
  controller_select_chip chip_nr ;;
  use_user_buffers SIZEOF_oobinfo ;;
  c ← gets w_chip;
  memset c.(user_oob_buf) 0x5a SIZEOF_oobinfo ;;
  memset c.(user_page_buf) 0x5a c.(flash).(pagesize) ;;
  ret ← when_ready op_write_page;
  write_paired_page.

Definition is_1ynm : act D bool := t ← flash_ new_type; mret (t =? HYNIX_1YNM_8GB).

(** The pair of page [t] of the item, from the second page on. *)
Definition pair_after (blk t ret : Z) : act D Z :=
  ynm ← is_1ynm;
  if (ynm : bool) && (1 <=? t) then
    chips ← ctl_ chip_num;
    chip_nr ← mod_ blk chips;
    upd_ops (set_chipnr chip_nr) ;;
    controller_select_chip chip_nr ;;
    write_paired_page
  else mret ret.

(** A page could not be written: the block is tested, and marked bad if the
    test fails; then another block is looked for. *)
Definition suspect_block (blk : Z) : act D unit :=
  ret ← op_test_block_reserved blk;
  when_ (truthy ret) (ret ← op_block_markbad; mret tt).

(** One copy of the item from page [t0] of block [blk] on.  [inl ret]: done, or
    given up after three tests; [inr test_cnt]: to be tried in another block. *)
Definition copy_info (j : save_job) (page_mode : bool) (blk t0 test_cnt ret : Z)
    : act D (Z + Z) :=
  r ← while_ (R := Z) (Z.to_nat (j.(j_total) / j.(j_page) + 1))
        (fun '(_, amount_saved, _) => amount_saved <? j.(j_total))
        (fun '(offset_tmp, amount_saved, _) =>
           ret ← write_info_page j blk (t0 + offset_tmp) amount_saved;
           if ret <? 0 then
             if 3 <=? test_cnt then mret (Break (offset_tmp, amount_saved, ret))
             else suspect_block blk ;; mret (Return (test_cnt + 1))
           else
             chips ← ctl_ chip_num;
             let t := if page_mode
                      then u32 (t0 + offset_tmp
                                + reserved_page chips j.(j_tmp_blk) j.(j_pages) blk) mod 256
                      else t0 + offset_tmp in
             ret ← pair_after blk t ret;
             let amount_saved := amount_saved + j.(j_page) in
             ynm ← is_1ynm;
             ret ← (if page_mode && (ynm : bool) && (j.(j_total) <=? amount_saved)
                    then lock_block blk j.(j_tmp_blk) j.(j_pages) (t + 1) else mret ret);
             mret (Next (offset_tmp + 1, amount_saved, ret)))
        (0, 0, ret);
  mret (match r with inl (_, _, ret) => inl ret | inr cnt => inr cnt end).

(** Copies of the item fill the whole block. *)
Definition fill_block (j : save_job) (blk test_cnt ret : Z) : act D (Z + Z) :=
  r ← while_ (R := Z) (Z.to_nat j.(j_pages_read)) (fun '(i, _) => i <? j.(j_pages_read))
        (fun '(i, ret) =>
           if j.(j_pages_read) - i <? j.(j_arg_pages) then
             ynm ← is_1ynm;
             ret ← (if ynm : bool then lock_block blk j.(j_tmp_blk) j.(j_pages) i
                    else mret ret);
             mret (Break (i, ret))
           else
             c ← copy_info j false blk i test_cnt ret;
             mret (match c with
                   | inr cnt => Return cnt
                   | inl ret => let i' := i + j.(j_arg_pages) in
                                if ret <? 0 then Break (i', ret) else Next (i', ret)
                   end))
        (0, ret);
  mret (match r with inl (_, ret) => inl ret | inr cnt => inr cnt end).

(** The block to write to: [None] when there is none. *)
Definition choose_block (j : save_job) (blk : Z) (full_page_flag : bool)
    : act D (Datatypes.option (Z * bool * Z)) :=
  a ← arg_ j.(j_info) id;
  let in_use := truthy a.(arg_valid) && negb (truthy a.(update_flag))
                && (a.(arg_type) =? FULL_PAGE) in
  if in_use && negb (j.(j_pages_read) <? a.(valid_page_addr) + 2 * j.(j_arg_pages)) then
    mret (Some (a.(valid_blk_addr), full_page_flag, 0))
  else
    ret ← amlnand_get_free_block blk;
    mret (if ret <? 0 then None else Some (ret, full_page_flag || in_use, ret)).

(** From the label [get_free_blk] to the end of the writing: the block that
    was written, the flag, the count of tests and [ret]. *)
Definition place_info (j : save_job) (blk : Z) (full_page_flag : bool) (test_cnt : Z)
    : act D ((Z * bool * Z * Z) + Z) :=
  while_ (R := Z) (S (Z.to_nat (3 - test_cnt))) (fun _ => true)
    (fun '(blk, full_page_flag, test_cnt, _) =>
       b ← choose_block j blk full_page_flag;
       match b with
       | None => mret (Return (- NAND_BAD_BLCOK_FAILURE))
       | Some (blk, full_page_flag, ret) =>
           a ← arg_ j.(j_info) id;
           ynm ← is_1ynm;
           c ← (if a.(arg_type) =? FULL_BLK then fill_block j blk test_cnt ret
                else if a.(arg_type) =? FULL_PAGE then
                  let append := truthy a.(arg_valid) && negb full_page_flag
                                && negb (truthy a.(update_flag)) in
                  copy_info j true blk
                    (if append then a.(valid_page_addr) + j.(j_arg_pages)
                                    + (if ynm : bool then 1 else 0) else 0)
                    test_cnt ret
                else mret (inl ret));
           mret (match c with
                 | inl ret => Break (blk, full_page_flag, test_cnt, ret)
                 | inr cnt => Next (blk, full_page_flag, cnt, 0)
                 end)
       end)
    (blk, full_page_flag, test_cnt, 0).

(** Gives the block that held the item before back: [inr e] leaves the
    function with [e], [inl ret] goes on. *)
Definition retire_block (j : save_job) (old_blk : Z) : act D (Z + Z) :=
  point_block old_blk j.(j_tmp_blk) j.(j_pages) ;;
  ret ← when_ready op_erase_block;
  e ← (if ret <? 0 then
         ret ← op_test_block_reserved old_blk;
         if truthy ret then
           ret ← op_block_markbad;
           mret (if ret <? 0 then inr ret else inl ret : Z + Z)
         else mret (inl ret : Z + Z)
       else mret (inl ret : Z + Z));
  when_ (match e with inl _ => true | inr _ => false end)
    (upd_chip (fun c => set_reserved_blk (unreserve old_blk c.(reserved_blk)) c)) ;;
  mret e.

(** After a successful write: the lists and the place of the item are brought
    up to date, and the old block is retired. *)
Definition record_place (j : save_job) (blk : Z) (full_page_flag : bool) (ret : Z)
    : act D (Z + Z) :=
  a ← arg_ j.(j_info) id;
  ynm ← is_1ynm;
  let valid := truthy a.(arg_valid) in
  let full_blk := a.(arg_type) =? FULL_BLK in
  let full_page := a.(arg_type) =? FULL_PAGE in
  let moved := full_page && (full_page_flag || truthy a.(update_flag)) in
  when_ (negb valid || full_blk || moved)
    (upd_chip (fun c => set_reserved_blk (reserve blk c.(reserved_blk)) c)) ;;
  upd_arg j.(j_info) (fun a => set_valid_blk_addr (u16 blk)
    (if full_page && valid then
       set_valid_page_addr
         (if moved then 0
          else u16 (a.(valid_page_addr) + j.(j_arg_pages) + (if ynm : bool then 1 else 0))) a
     else if full_blk && valid then set_valid_page_addr 0 a else a)) ;;
  if (full_blk || moved) && valid && negb (a.(valid_blk_addr) =? 0)
  then retire_block j a.(valid_blk_addr) else mret (inl ret).

(** One writing of the item, with a time stamp of its own; [job] is what the
    writings share.  The loop variables are [write_page_cnt], [blk_addr],
    [full_page_flag] and [test_cnt]. *)
Definition save_round (i : info) (name : list Z) (job : list Z -> save_job)
    (l : Z * Z * bool * Z) : act D (ctl (Z * Z * bool * Z) Z) :=
  let '(write_page_cnt, blk, full_page_flag, test_cnt) := l in
  upd_arg i (fun a => set_timestamp (u16 (a.(timestamp) + 1)) a) ;;
  stamp ← arg_ i timestamp;
  clear_ops ;;
  let j := job (oobinfo name stamp) in
  p ← place_info j blk full_page_flag test_cnt;
  match p with
  | inr e => mret (Return e)
  | inl (blk, full_page_flag, test_cnt, ret) =>
      if ret <? 0 then mret (Return (- NAND_WRITE_FAILED))
      else
        e ← record_place j blk full_page_flag ret;
        match e with
        | inr e => mret (Return e)
        | inl ret =>
            a ← arg_ i id;
            upd_arg i (set_arg_valid 1) ;;
            if (a.(arg_type) =? FULL_PAGE) && (write_page_cnt =? 0) then
              upd_arg i (set_update_flag 0) ;;
              mret (Next (1, blk, false, test_cnt))
            else mret (Return ret)
        end
  end.

(** A page-wise item is written twice: once to the place found, and once more
    right behind it. *)
Definition amlnand_save_info_by_name (i : info) (buf : ptr) (name : list Z) (size : Z)
    : act D Z :=
  allow ← gets w_allow_meta;
  if negb (truthy allow) then mret (- EROFS)
  else
    fl ← chip flash;
    let pages := pages_of_block fl in
    let arg_pages := arg_pages_of size fl.(pagesize) in
    extra ← mod_ size fl.(pagesize);
    when_ (slc_type fl.(new_type))
      (upd_ops (fun o => set_ops_option (Z.lor o.(ops_option) DEV_SLC_MODE) o)) ;;
    opts ← ops_ ops_option;
    let pages_read := if has opts DEV_SLC_MODE then Z.shiftr pages 1 else pages in
    let total := if extra =? 0 then size + fl.(pagesize) else size in
    r ← while_ (R := Z) 2 (fun _ => true)
          (save_round i name (mk_job i buf fl.(pagesize) (u16 (reserved_start fl)) pages pages_read
                                arg_pages total))
          (0, 0, false, 0);
    mret (match r with inr e => e | inl _ => 0 end).

(** ** Finding an item *)

(** [nand_get_chip] and [nand_release_chip] whoever calls. *)
Definition with_chip (m : act D Z) : act D Z :=
  nand_get_chip ;; ret ← m; nand_release_chip ;; mret ret.

(** The first readable page of a block: does it belong to the item?  After
    eight unreadable places the search jumps to the middle of the block, and
    after one more to its end.  The loop variables are [i], the number of
    failures, the jump's flag and [ret]. *)
Definition probe_block (i_ : info) (name : list Z) (blk tmp_blk pages pages_read step : Z)
    : act D Z :=
  r ← while_ (R := unit) (Z.to_nat pages_read + 20) (fun '(i, _, _, _) => i <? pages_read)
        (fun '(i, read_failed_page, read_middle, _) =>
           '(ret, failed) ← fetch_page true with_chip blk tmp_blk pages i;
           if failed : bool then
             let read_failed_page := read_failed_page + 1 in
             if (8 <? read_failed_page) && (read_middle =? 0) then
               mret (Next (step * Z.shiftr (pages / step) 1, read_failed_page, -1, ret))
             else if read_middle =? -1 then
               mret (Next (step * (pages / step), read_failed_page, -2, ret))
             else mret (Next (i + step, read_failed_page, read_middle, ret))
           else
             oob ← fetched_oob;
             when_ (bool_decide (oob_name oob = name))
               (a ← arg_ i_ id;
                let t := oob_timestamp oob in
                if a.(arg_valid) =? 1 then
                  if a.(timestamp) <? t then
                    upd_arg i_ (fun a => set_free_blk_addr a.(valid_blk_addr)
                                  (set_valid_blk_addr (u16 blk) (set_timestamp t a)))
                  else upd_arg i_ (set_free_blk_addr (u16 blk))
                else upd_arg i_ (fun a => set_arg_valid 1
                                  (set_valid_blk_addr (u16 blk) (set_timestamp t a)))) ;;
             mret (Break (i, read_failed_page, read_middle, ret)))
        (0, 0, 0, 0);
  mret (match r with inl (_, _, _, ret) => ret | inr _ => 0 end).

(** Where in its block the item is: the first page of a block-wise item, the
    last copy of a page-wise one. *)
Definition locate_pages (i_ : info) (name : list Z) (tmp_blk pages pages_read step ret0 : Z)
    : act D Z :=
  a ← arg_ i_ id;
  let full_blk := a.(arg_type) =? FULL_BLK in
  if full_blk || (a.(arg_type) =? FULL_PAGE) then
    r ← while_ (R := unit) (Z.to_nat pages_read) (fun '(i, _) => i <? pages_read)
          (fun '(i, _) =>
             '(ret, failed) ← fetch_page (negb full_blk) when_ready a.(valid_blk_addr)
                                tmp_blk pages i;
             ynm ← is_1ynm;
             if failed : bool then
               upd_arg i_ (set_update_flag 1) ;; mret (Next (i + step, ret))
             else
               oob ← fetched_oob;
               if bool_decide (oob_name oob = name) then
                 upd_arg i_ (fun a => set_valid_page_addr (u16 i)
                               (set_timestamp (oob_timestamp oob) a)) ;;
                 mret (if full_blk then Break (i, ret)
                       else Next (i + step + (if ynm : bool then 1 else 0), ret))
               else mret (if full_blk then Next (i + step, ret) else Break (i, ret)))
          (0, ret0);
    mret (match r with inl (_, ret) => ret | inr _ => 0 end)
  else mret ret0.

Definition amlnand_check_info_by_name (i_ : info) (name : list Z) (size : Z) : act D Z :=
  fl ← chip flash;
  clear_ops ;;
  let pages := pages_of_block fl in
  let pages_read := if slc_type fl.(new_type) then Z.shiftr pages 1 else pages in
  let step := arg_pages_of size fl.(pagesize) in
  let tmp_blk := u16 (reserved_start fl) in
  let total_blk := u16 (reserved_start fl + RESERVED_BLOCK_CNT) in
  r ← for_ (R := unit) (Z.to_nat (total_blk - tmp_blk)) tmp_blk
        (fun start_blk ret =>
           clear_ops ;;
           point_block start_blk tmp_blk pages ;;
           ret ← op_block_isbad;
           if truthy ret then mret (Next ret)
           else
             ret ← probe_block i_ name start_blk tmp_blk pages pages_read step;
             a ← arg_ i_ id;
             mret (if (a.(arg_type) =? FULL_BLK) && (a.(arg_valid) =? 1)
                      && negb (a.(valid_blk_addr) =? 0) then Break ret else Next ret))
        0;
  let ret := match r with inl ret => ret | inr _ => 0 end in
  a ← arg_ i_ id;
  if a.(arg_valid) =? 1 then
    ret ← locate_pages i_ name tmp_blk pages pages_read step ret;
    upd_chip (fun c => set_reserved_blk
                (reserve (arg_of i_ c).(valid_blk_addr) c.(reserved_blk)) c) ;;
    mret ret
  else mret ret.

Definition amlnand_info_init (i : info) (buf : ptr) (name : list Z) (size : Z) : act D Z :=
  ret ← amlnand_check_info_by_name i name size;
  if ret <? 0 then mret ret
  else
    valid ← arg_ i arg_valid;
    if valid =? 1 then
      ret ← amlnand_read_info_by_name i buf name size;
      if ret <? 0 then mret ret else aml_info_check_datasum buf name
    else mret ret.

(** ** The bad block table and the configuration *)

(** [block_status->crc = ...], which also covers only as many bytes as the
    table has entries, and the save. *)
Definition put_checksum (data : ptr) (off n : Z) : act D unit :=
  crc ← checksum_at data off n; store32 data crc.

Definition amlnand_update_bbt : act D Z :=
  table ← chip block_status;
  put_checksum table 4 (MAX_CHIP_NUM * MAX_BLK_NUM) ;;
  amlnand_save_info_by_name Bbt table BBT_HEAD_MAGIC SIZEOF_block_status.

(** Items whose block had an unreadable page are written anew. *)
Definition amlnand_info_error_handle : act D unit :=
  bbt ← arg_ Bbt id;
  go ← (if truthy bbt.(arg_valid) && truthy bbt.(update_flag) then
          ret ← amlnand_update_bbt;
          upd_arg Bbt (set_update_flag 0) ;;
          mret (negb (truthy ret))
        else mret true);
  config ← arg_ Config id;
  when_ ((go : bool) && truthy config.(arg_valid) && truthy config.(update_flag))
    (p ← chip config_ptr;
     put_checksum p OFF_dev_para (MAX_DEVICE_NUM * SIZEOF_dev_para) ;;
     ret ← amlnand_save_info_by_name Config p CONFIG_HEAD_MAGIC SIZEOF_nand_config;
     upd_arg Config (set_update_flag 0)).

(** ** Repair of worn reserved blocks *)

(** Counts the blocks of the reserved area and collects those marked bad in
    use, at most 128. *)
Definition scan_reserved (tmp_blk pages : Z) : act D (list Z * Z) :=
  r ← while_ (R := unit) spin (fun '(blk_addr, _, _) => blk_addr <? RESERVED_BLOCK_CNT)
        (fun '(blk_addr, total_blk, bad) =>
           clear_ops ;;
           point_block total_blk tmp_blk pages ;;
           ret ← op_block_isbad;
           mret (if ret =? NAND_BLOCK_FACTORY_BAD then Next (blk_addr, total_blk + 1, bad)
                 else
                   let bad := if (ret =? NAND_BLOCK_USED_BAD)
                                 && (Z.of_nat (length bad) <? 128)
                              then bad ++ [total_blk] else bad in
                   Next (blk_addr + 1, total_blk + 1, bad)))
        (0, tmp_blk, []);
  mret (match r with inl (_, total_blk, bad) => (bad, total_blk) | inr _ => ([], 0) end).

(** [page_addr += 1] and then [op], once per page of the block: pages 1 to
    [pages]; [true] when some page failed. *)
Definition sweep_pages (pages : Z) (dat_buf oob_buf : ptr) (op : act D Z)
    (failed : Z -> Z -> bool) : act D bool :=
  fl ← chip flash;
  r ← for_ (R := bool) (Z.to_nat pages) 0
        (fun _ _ =>
           upd_ops (fun o => set_page_addr (u32 (o.(page_addr) + 1)) o) ;;
           memset dat_buf 0 fl.(pagesize) ;;
           memset oob_buf 0 fl.(oobsize) ;;
           ret ← op;
           ecc ← ops_ ecc_err;
           mret (if failed ret ecc then Return true else Next tt)) tt;
  mret (match r with inr b => b | inl _ => false end).

(** Takes a block off the table, erases, writes, reads and erases it, and puts
    it back on the table when anything fails. *)
Definition repair_block (blk tmp_blk pages : Z) (dat_buf oob_buf : ptr) : act D unit :=
  chips ← ctl_ chip_num;
  let base := reserved_page chips tmp_blk pages blk in
  let back_to_table := ret ← op_blk_modify_bbt_chip_op 1; mret tt in
  let to_first := upd_ops (set_page_addr base) in
  let buffers := upd_ops (fun o => set_data_buf dat_buf (set_oob_buf oob_buf o)) in
  clear_ops ;;
  point_block blk tmp_blk pages ;;
  r ← op_blk_modify_bbt_chip_op 0;
  ret ← op_erase_block;
  if truthy ret then back_to_table
  else
    to_first ;; buffers ;;
    bad ← sweep_pages pages dat_buf oob_buf op_write_page (fun ret _ => truthy ret);
    if bad : bool then to_first ;; back_to_table
    else
      to_first ;; buffers ;;
      bad ← sweep_pages pages dat_buf oob_buf op_read_page
              (fun ret ecc => truthy ecc || (ret <? 0));
      if bad : bool then to_first ;; back_to_table
      else
        to_first ;;
        ret ← op_erase_block;
        when_ (truthy ret) back_to_table.

Definition repair_reserved_bad_block : act D Z :=
  fl ← chip flash;
  clear_ops ;;
  let pages := pages_of_block fl in
  let tmp_blk := reserved_start fl in
  dat_buf ← kmalloc fl.(pagesize);
  if is_null dat_buf then mret (-1)
  else
    memset dat_buf 0 fl.(pagesize) ;;
    oob_buf ← kmalloc fl.(oobsize);
    if is_null oob_buf then kfree dat_buf ;; mret (-1)
    else
      memset oob_buf 0 fl.(oobsize) ;;
      '(bad, total_blk) ← scan_reserved tmp_blk pages;
      when_ (6 <? Z.of_nat (length bad))
        (nand_get_chip ;;
         (r ← for_ (R := unit) (length bad) 0
                (fun i _ => repair_block (arr bad i) tmp_blk pages dat_buf oob_buf ;;
                            mret (Next tt)) tt;
          mret tt) ;;
         nand_release_chip ;;
         ret ← amlnand_update_bbt;
         mret tt) ;;
      kfree dat_buf ;;
      kfree oob_buf ;;
      mret total_blk.

(** ** Buffers and attributes *)

(** [kfree] and NULL, for one of the five buffers. *)
Definition drop_buf (get : amlnand_chip -> ptr) (set : ptr -> amlnand_chip -> amlnand_chip)
    : act D unit :=
  p ← chip get;
  when_ (negb (is_null p)) (kfree p ;; upd_chip (set Null)).

(** The end of [amlnand_config_buf_malloc] and of [amlnand_get_dev_configs]
    after an error. *)
Definition config_buf_free : act D unit :=
  drop_buf block_status set_block_status ;;
  drop_buf shipped_bbt_ptr set_shipped_bbt_ptr ;;
  drop_buf config_ptr set_config_ptr ;;
  drop_buf user_oob_buf set_user_oob_buf ;;
  drop_buf user_page_buf set_user_page_buf.

(** Allocates and clears one buffer; [false] when there is no memory. *)
Definition new_buf (set : ptr -> amlnand_chip -> amlnand_chip) (size : Z) : act D bool :=
  p ← kmalloc size;
  upd_chip (set p) ;;
  if is_null p then mret false else memset p 0 size ;; mret true.

Definition amlnand_config_buf_malloc : act D Z :=
  fl ← chip flash;
  chips ← ctl_ chip_num;
  let planes := if has fl.(flash_option) NAND_MULTI_PLANE_MODE then 2 else 1 in
  ok ← new_buf set_user_oob_buf (u32 (fl.(oobsize) * chips * planes));
  ok ← (if ok : bool
        then new_buf set_user_page_buf (u32 ((fl.(pagesize) + fl.(oobsize)) * chips * planes))
        else mret false);
  ok ← (if ok : bool then new_buf set_block_status SIZEOF_block_status else mret false);
  ok ← (if ok : bool then new_buf set_shipped_bbt_ptr SIZEOF_shipped_bbt else mret false);
  ok ← (if ok : bool then new_buf set_config_ptr SIZEOF_nand_config else mret false);
  if ok : bool then mret 0 else config_buf_free ;; mret (- NAND_MALLOC_FAILURE).

Definition amlnand_set_config_attribute : act D unit :=
  upd_arg Bbt (set_arg_type FULL_BLK) ;;
  upd_arg Fbbt (set_arg_type FULL_BLK) ;;
  upd_arg Config (set_arg_type FULL_BLK) ;;
  upd_arg Secure (set_arg_type FULL_PAGE) ;;
  upd_arg Key (set_arg_type FULL_PAGE) ;;
  upd_arg Env (set_arg_type FULL_PAGE).
End ChipEnv.

(** ** Frames *)
Section Frames.
Context {D : Type} `{!NandHw D} `{ops : !ChipOperation D} (spin : nat).
Context (R : world D -> world D -> Prop) `{!CmdFrame R} `{!ChipFrame R} `{!OpsRespect R ops}.

Ltac env_respects := unfold arg_, upd_arg, put_checksum, checksum_at, is_1ynm, with_chip; op_respects.

Lemma respects_clear_ops : respects R clear_ops.
Proof. unfold clear_ops. env_respects. Qed.
Lemma respects_point_block a b c : respects R (point_block a b c).
Proof. unfold point_block. env_respects. Qed.
#[local] Hint Resolve respects_clear_ops respects_point_block : respects.
Lemma respects_point_page a b c d : respects R (point_page a b c d).
Proof. unfold point_page. env_respects. Qed.
Lemma respects_use_user_buffers n : respects R (use_user_buffers n).
Proof. unfold use_user_buffers. env_respects. Qed.
#[local] Hint Resolve respects_point_page respects_use_user_buffers : respects.
Lemma respects_get_last_reserve_block : respects R (get_last_reserve_block spin).
Proof. unfold get_last_reserve_block. env_respects. Qed.
Lemma respects_try_block a b c d : respects R (try_block a b c d).
Proof. unfold try_block. env_respects. Qed.
#[local] Hint Resolve respects_get_last_reserve_block respects_try_block : respects.
Lemma respects_get_free_block b : respects R (amlnand_get_free_block spin b).
Proof. unfold amlnand_get_free_block. env_respects. Qed.

Lemma respects_fetch_page b l w x y z :
  (forall m, respects R m -> respects R (l m)) -> respects R (fetch_page b l w x y z).
Proof. intros H. unfold fetch_page, blank_user_buffers. env_respects. Qed.
Lemma respects_fetched_oob : respects R fetched_oob.
Proof. unfold fetched_oob. env_respects. Qed.
#[local] Hint Resolve respects_get_free_block respects_fetched_oob : respects.
#[local] Hint Extern 2 (respects _ (fetch_page _ _ _ _ _ _)) =>
  apply respects_fetch_page; intros; env_respects : respects.
Lemma respects_read_info i p n s : respects R (amlnand_read_info_by_name i p n s).
Proof. unfold amlnand_read_info_by_name. env_respects. Qed.

Lemma respects_write_info_page j a b c : respects R (write_info_page j a b c).
Proof. unfold write_info_page. env_respects. Qed.
Lemma respects_write_paired_page : respects R write_paired_page.
Proof. unfold write_paired_page. env_respects. Qed.
#[local] Hint Resolve respects_write_info_page respects_write_paired_page : respects.
Lemma respects_lock_block a b c d : respects R (lock_block a b c d).
Proof. unfold lock_block. env_respects. Qed.
Lemma respects_pair_after a b c : respects R (pair_after a b c).
Proof. unfold pair_after. env_respects. Qed.
Lemma respects_suspect_block a : respects R (suspect_block a).
Proof. unfold suspect_block. env_respects. Qed.
#[local] Hint Resolve respects_lock_block respects_pair_after respects_suspect_block : respects.
Lemma respects_copy_info j a b c d e : respects R (copy_info j a b c d e).
Proof. unfold copy_info. env_respects. Qed.
#[local] Hint Resolve respects_copy_info : respects.
Lemma respects_fill_block j a b c : respects R (fill_block j a b c).
Proof. unfold fill_block. env_respects. Qed.
Lemma respects_choose_block j a b : respects R (choose_block spin j a b).
Proof. unfold choose_block. env_respects. Qed.
#[local] Hint Resolve respects_fill_block respects_choose_block : respects.
Lemma respects_place_info j a b c : respects R (place_info spin j a b c).
Proof. unfold place_info. env_respects. Qed.
Lemma respects_retire_block j a : respects R (retire_block j a).
Proof. unfold retire_block. env_respects. Qed.
#[local] Hint Resolve respects_place_info respects_retire_block : respects.
Lemma respects_record_place j a b c : respects R (record_place j a b c).
Proof. unfold record_place. env_respects. Qed.
#[local] Hint Resolve respects_record_place : respects.
Lemma respects_save_round i n j l : respects R (save_round spin i n j l).
Proof. unfold save_round. env_respects. Qed.
#[local] Hint Resolve respects_save_round : respects.
Lemma respects_save_info i p n s : respects R (amlnand_save_info_by_name spin i p n s).
Proof. unfold amlnand_save_info_by_name. env_respects. Qed.

Lemma respects_probe_block i a b c d e f : respects R (probe_block i a b c d e f).
Proof. unfold probe_block. env_respects. Qed.
Lemma respects_locate_pages i a b c d e f : respects R (locate_pages i a b c d e f).
Proof. unfold locate_pages. env_respects. Qed.
#[local] Hint Resolve respects_read_info respects_save_info respects_probe_block
  respects_locate_pages : respects.
Lemma respects_check_info i n s : respects R (amlnand_check_info_by_name i n s).
Proof. unfold amlnand_check_info_by_name. env_respects. Qed.
Lemma respects_check_datasum p n : respects R (aml_info_check_datasum p n).
Proof. unfold aml_info_check_datasum. env_respects. Qed.
#[local] Hint Resolve respects_check_info respects_check_datasum : respects.
Lemma respects_info_init i p n s : respects R (amlnand_info_init i p n s).
Proof. unfold amlnand_info_init. env_respects. Qed.
Lemma respects_amlnand_update_bbt : respects R (amlnand_update_bbt spin).
Proof. unfold amlnand_update_bbt. env_respects. Qed.
#[local] Hint Resolve respects_amlnand_update_bbt : respects.
Lemma respects_info_error_handle : respects R (amlnand_info_error_handle spin).
Proof. unfold amlnand_info_error_handle. env_respects. Qed.

Lemma respects_scan_reserved a b : respects R (scan_reserved spin a b).
Proof. unfold scan_reserved. env_respects. Qed.
Lemma respects_sweep_pages a b c op f : respects R op -> respects R (sweep_pages a b c op f).
Proof. intros. unfold sweep_pages. env_respects. Qed.
#[local] Hint Resolve respects_scan_reserved : respects.
Lemma respects_repair_block a b c d e : respects R (repair_block a b c d e).
Proof.
  unfold repair_block. env_respects; apply respects_sweep_pages; env_respects.
Qed.
#[local] Hint Resolve respects_repair_block : respects.
Lemma respects_repair_reserved : respects R (repair_reserved_bad_block spin).
Proof. unfold repair_reserved_bad_block. env_respects. Qed.

Lemma respects_drop_buf g s : respects R (drop_buf g s).
Proof. unfold drop_buf. env_respects. Qed.
#[local] Hint Resolve respects_drop_buf : respects.
Lemma respects_config_buf_free : respects R config_buf_free.
Proof. unfold config_buf_free. env_respects. Qed.
Lemma respects_new_buf s n : respects R (new_buf s n).
Proof. unfold new_buf. env_respects. Qed.
#[local] Hint Resolve respects_config_buf_free respects_new_buf : respects.
Lemma respects_config_buf_malloc : respects R amlnand_config_buf_malloc.
Proof. unfold amlnand_config_buf_malloc. env_respects. Qed.
Lemma respects_set_config_attribute : respects R amlnand_set_config_attribute.
Proof. unfold amlnand_set_config_attribute. env_respects. Qed.
End Frames.

#[export] Hint Resolve respects_read_info respects_save_info respects_check_info
  respects_info_init respects_amlnand_update_bbt respects_info_error_handle
  respects_repair_reserved respects_config_buf_malloc respects_config_buf_free
  respects_set_config_attribute respects_get_free_block respects_check_datasum
  respects_clear_ops respects_point_block respects_point_page respects_use_user_buffers : respects.

(** ** Termination
    No loop of this file runs out of rounds, [get_last_reserve_block] apart
    (it goes on until it has seen enough blocks that are not factory bad). *)
Class OpsBounded {D : Type} (ops : ChipOperation D) : Prop := {
  ob_erase_block : bounded op_erase_block;
  ob_read_page : bounded op_read_page;
  ob_write_page : bounded op_write_page;
  ob_block_isbad : bounded op_block_isbad;
  ob_block_markbad : bounded op_block_markbad;
  ob_test_block_reserved : forall b, bounded (op_test_block_reserved b)
}.
#[export] Hint Resolve ob_erase_block ob_read_page ob_write_page ob_block_isbad
  ob_block_markbad ob_test_block_reserved : bounded.
#[export] Hint Extern 5 (OpsBounded _) => typeclasses eauto : bounded.

(** Rounds of [amount += page] up to [total]. *)
Definition rounds_left (page total done_ : Z) : nat := Z.to_nat ((total - done_ + page - 1) / page).

Lemma rounds_left_pos page total done_ :
  0 < page -> done_ < total -> (0 < rounds_left page total done_)%nat.
Proof.
  intros. unfold rounds_left.
  assert (0 < (total - done_ + page - 1) / page) by (apply Z.div_str_pos; lia). lia.
Qed.
Lemma rounds_left_step page total done_ :
  0 < page -> done_ < total ->
  (rounds_left page total (done_ + page) < rounds_left page total done_)%nat.
Proof.
  intros. unfold rounds_left.
  replace (total - done_ + page - 1) with (total - (done_ + page) + page - 1 + 1 * page) by lia.
  rewrite Z.div_add by lia.
  assert (0 <= (total - (done_ + page) + page - 1) / page) by (apply Z.div_pos; lia). lia.
Qed.
Lemma rounds_left_fuel page total :
  0 < page -> (rounds_left page total 0 <= Z.to_nat (total / page + 1))%nat.
Proof.
  intros. unfold rounds_left. rewrite Z.sub_0_r.
  assert ((total + page - 1) / page <= total / page + 1).
  { replace (total / page + 1) with ((total + 1 * page) / page) by (rewrite Z.div_add; lia).
    apply Z.div_le_mono; lia. }
  lia.
Qed.

Section Termination.
Context {D : Type} `{!NandHw D} `{ops : !ChipOperation D} `{!OpsBounded ops} (spin : nat).

Ltac env_bounded :=
  unfold arg_, upd_arg, checksum_at, is_1ynm, with_chip, ctl_, flash_, ops_, mem_eq,
    memset, memcpy, load8, load16, load32, store8, store16, store32, kmalloc, use_user_buffers,
    clear_ops;
  solve_bounded.

Lemma bounded_point_block a b c : bounded (point_block a b c).
Proof. unfold point_block. env_bounded. Qed.
Lemma bounded_point_page a b c d : bounded (point_page a b c d).
Proof. unfold point_page. env_bounded. Qed.
#[local] Hint Resolve bounded_point_block bounded_point_page : bounded.
Lemma bounded_fetch_page b l w x y z :
  (forall m, bounded m -> bounded (l m)) -> bounded (fetch_page b l w x y z).
Proof. intros H. unfold fetch_page, blank_user_buffers. env_bounded. Qed.
Lemma bounded_fetched_oob : bounded (S := world D) fetched_oob.
Proof. unfold fetched_oob. env_bounded. Qed.
#[local] Hint Resolve bounded_fetched_oob : bounded.
#[local] Hint Extern 2 (bounded (fetch_page _ _ _ _ _ _)) =>
  apply bounded_fetch_page; intros; env_bounded : bounded.
Lemma bounded_try_block a b c d : bounded (try_block a b c d).
Proof. unfold try_block. env_bounded. Qed.
Lemma bounded_write_info_page j a b c : bounded (write_info_page j a b c).
Proof. unfold write_info_page. env_bounded. Qed.
Lemma bounded_write_paired_page : bounded write_paired_page.
Proof. unfold write_paired_page. env_bounded. Qed.
#[local] Hint Resolve bounded_try_block bounded_write_info_page bounded_write_paired_page
  : bounded.
Lemma bounded_lock_block a b c d : bounded (lock_block a b c d).
Proof. unfold lock_block. env_bounded. Qed.
Lemma bounded_pair_after a b c : bounded (pair_after a b c).
Proof. unfold pair_after. env_bounded. Qed.
Lemma bounded_suspect_block a : bounded (suspect_block a).
Proof. unfold suspect_block. env_bounded. Qed.
Lemma bounded_retire_block j a : bounded (retire_block j a).
Proof. unfold retire_block. env_bounded. Qed.
#[local] Hint Resolve bounded_lock_block bounded_pair_after bounded_suspect_block
  bounded_retire_block : bounded.
Lemma bounded_record_place j a b c : bounded (record_place j a b c).
Proof. unfold record_place. env_bounded. Qed.
#[local] Hint Resolve bounded_record_place : bounded.

Lemma wp_of_bounded {A} (m : act D A) w : bounded m -> wp m (fun _ _ => True) in_fuel w.
Proof. intros H. apply H. Qed.

(** Reading an item ends: every round loads another page. *)
Lemma read_info_terminates i p n size (w : world D) :
  0 < pagesize (flash (w_chip w)) ->
  wp (amlnand_read_info_by_name i p n size) (fun _ _ => True) in_fuel w.
Proof.
  intros Hp. unfold amlnand_read_info_by_name. do 2 wp_step. cbv beta.
  apply wp_of_bounded. env_bounded.
  apply (bounded_while (fun '(_, loaded, _) =>
           rounds_left (pagesize (flash (w_chip w))) size loaded)).
  - intros [[? loaded] ?] H%Z.ltb_lt. by apply rounds_left_pos.
  - intros [[? loaded] ?] s H%Z.ltb_lt. env_bounded; try done. by apply rounds_left_step.
  - by apply rounds_left_fuel.
Qed.

Lemma arg_pages_of_eq size page :
  0 <= size < 2 ^ 31 ->
  0 <= Z.shiftr size (ffs page - 1) /\ arg_pages_of size page = Z.shiftr size (ffs page - 1) + 1.
Proof.
  intros H. unfold arg_pages_of, wrap.
  assert (0 <= Z.shiftr size (ffs page - 1) < 2 ^ 32 - 1) as Hb; [|rewrite Z.mod_small; lia].
  assert (0 <= ffs page) as Hf.
  { destruct page as [|q|q]; cbn; [lia | induction q; cbn; lia ..]. }
  split; [apply Z.shiftr_nonneg; lia|].
  destruct (decide (1 <= ffs page)).
  - rewrite Z.shiftr_div_pow2 by lia.
    assert (size / 2 ^ (ffs page - 1) <= size); [|lia].
    apply Z.div_le_upper_bound; [apply Z.pow_pos_nonneg; lia|].
    assert (1 <= 2 ^ (ffs page - 1)) by (change 1 with (2 ^ 0); apply Z.pow_le_mono_r; lia). nia.
  - replace (ffs page) with 0 by lia. change (Z.shiftr size (0 - 1)) with (Z.shiftl size 1).
    rewrite Z.shiftl_mul_pow2 by lia. lia.
Qed.
Lemma arg_pages_pos size page : 0 <= size < 2 ^ 31 -> 0 < arg_pages_of size page.
Proof. intros H. destruct (arg_pages_of_eq size page H). lia. Qed.

Lemma pow2_ffs_le page : 0 < page -> 1 <= ffs page /\ 2 ^ (ffs page - 1) <= page.
Proof.
  intros H. destruct page as [|p|p]; [done | clear H | done]. cbn [ffs].
  induction p as [p _|p [IH1 IH2]|]; cbn [pos_ffs]; [lia | | lia].
  split; [lia|]. replace (1 + pos_ffs p - 1) with (Z.succ (pos_ffs p - 1)) by lia.
  rewrite Z.pow_succ_r by lia. lia.
Qed.

(** The pages of an item are enough for it. *)
Lemma arg_pages_enough size page :
  0 < page -> 0 <= size < 2 ^ 31 -> size < arg_pages_of size page * page.
Proof.
  intros Hp Hs. destruct (arg_pages_of_eq size page Hs) as [_ ->].
  destruct (pow2_ffs_le page Hp) as [Hf Hle]. rewrite Z.shiftr_div_pow2 by lia.
  pose proof (Z.mul_succ_div_gt size (2 ^ (ffs page - 1))). 
  assert (0 <= size / 2 ^ (ffs page - 1)) by (apply Z.div_pos; lia). nia.
Qed.

Lemma pages_of_block_nonneg fl : 0 <= pages_of_block fl.
Proof. unfold pages_of_block, shl32, wrap. apply Z.mod_pos_bound. lia. Qed.

(** How many more places [probe_block] may look at. *)
Definition probe_left (pages_read i failed middle : Z) : nat :=
  if middle =? 0 then (Z.to_nat (10 - failed) + Z.to_nat pages_read + 2)%nat
  else if middle =? -1 then (Z.to_nat pages_read + 1)%nat
  else Z.to_nat (pages_read - i).

Lemma bounded_probe_block i name blk tmp_blk pages pages_read step :
  0 < step -> 0 <= pages -> bounded (probe_block i name blk tmp_blk pages pages_read step).
Proof.
  intros Hs Hp. unfold probe_block. apply bounded_bind; [|intros; env_bounded].
  apply (bounded_while (fun '(i, failed, middle, _) => probe_left pages_read i failed middle)).
  - intros [[[k failed] middle] ?] Hc%Z.ltb_lt. unfold probe_left. repeat case_match; lia.
  - intros [[[k failed] middle] ?] s Hc%Z.ltb_lt.
    assert (0 <= pages / step) by (apply Z.div_pos; lia).
    apply wp_bounded_bind; [env_bounded|]. intros [ret bad] s'. destruct bad.
    + cbv zeta. unfold probe_left.
      destruct (Z.eqb_spec middle 0) as [->|Hm]; rewrite ?andb_true_r, ?andb_false_r; cbn.
      * destruct (Z.ltb_spec 8 (failed + 1)); apply wp_ret; cbn; lia.
      * destruct (Z.eqb_spec middle (-1)) as [->|Hm']; apply wp_ret; cbn; [nia|].
        rewrite (proj2 (Z.eqb_neq middle 0)), (proj2 (Z.eqb_neq middle (-1))) by done. lia.
    + env_bounded; done.
  - unfold probe_left. cbn. lia.
Qed.

Lemma bounded_locate_pages i name tmp_blk pages pages_read step ret :
  0 < step -> bounded (locate_pages i name tmp_blk pages pages_read step ret).
Proof.
  intros Hs. unfold locate_pages. env_bounded.
  apply (bounded_while (fun '(i, _) => Z.to_nat (pages_read - i))).
  - intros [k ?] Hc%Z.ltb_lt. lia.
  - intros [k ?] s Hc%Z.ltb_lt. env_bounded; repeat case_match; try done; simplify_eq; lia.
  - by rewrite Z.sub_0_r.
Qed.

(** C23: Finding an item ends, whatever can and cannot be read: the jumps inside a
    block are taken once each. *)
Theorem check_info_terminates i n size (w : world D) :
  0 <= size < 2 ^ 31 ->
  wp (amlnand_check_info_by_name i n size) (fun _ _ => True) in_fuel w.
Proof.
  intros Hs. unfold amlnand_check_info_by_name. do 2 wp_step. cbv beta zeta.
  pose proof (arg_pages_pos size (pagesize (flash (w_chip w))) Hs).
  pose proof (pages_of_block_nonneg (flash (w_chip w))).
  apply wp_of_bounded. env_bounded;
    first [by apply bounded_probe_block | by apply bounded_locate_pages].
Qed.

(** Another block is asked for only while fewer than three were tested. *)
Definition again_below (test_cnt : Z) (r : Z + Z) : Prop :=
  match r with inl _ => True | inr cnt => test_cnt < 3 /\ cnt = test_cnt + 1 end.

Lemma wp_copy_info j mode blk t0 test_cnt ret (w : world D) :
  0 < j.(j_page) ->
  wp (copy_info j mode blk t0 test_cnt ret) (fun r _ => again_below test_cnt r) in_fuel w.
Proof.
  intros Hp. unfold copy_info. apply wp_bind.
  apply (wp_while (fun n '(_, saved, _) _ => (rounds_left (j_page j) (j_total j) saved <= n)%nat)).
  - intros n [[? saved] ?] s _ _. by apply wp_ret.
  - intros n [[off saved] ret'] s Hn Hc%Z.ltb_lt.
    pose proof (rounds_left_pos (j_page j) (j_total j) saved Hp Hc).
    destruct n as [|n]; [lia|]. exists n. split; [done|].
    pose proof (rounds_left_step (j_page j) (j_total j) saved Hp Hc).
    env_bounded; cbn; try done; lia.
  - by apply rounds_left_fuel.
Qed.

Lemma wp_fill_block j blk test_cnt ret (w : world D) :
  0 < j.(j_page) -> 0 < j.(j_arg_pages) ->
  wp (fill_block j blk test_cnt ret) (fun r _ => again_below test_cnt r) in_fuel w.
Proof.
  intros Hp Ha. unfold fill_block. apply wp_bind.
  apply (wp_while (fun n '(i, _) _ => (Z.to_nat (j_pages_read j - i) <= n)%nat)).
  - intros n [i ?] s _ _. by apply wp_ret.
  - intros n [i ret'] s Hn Hc%Z.ltb_lt.
    destruct n as [|n]; [lia|]. exists n. split; [done|].
    destruct (_ <? _); [env_bounded; done|].
    apply wp_bind. eapply wp_mono; [by apply wp_copy_info | | done].
    intros [r|cnt] s' Hr; apply wp_ret; cbn; [|done].
    destruct (r <? 0); [done | lia].
  - rewrite Z.sub_0_r. lia.
Qed.

Hypothesis Hlast : bounded (get_last_reserve_block spin).
#[local] Hint Resolve Hlast : bounded.

Lemma bounded_get_free_block b : bounded (amlnand_get_free_block spin b).
Proof.
  unfold amlnand_get_free_block. env_bounded.
  match goal with |- bounded (while_ (Z.to_nat (?t - ?s)) _ _ _) =>
    apply (bounded_while (fun start => Z.to_nat (t - start))) end.
  - intros start Hc%Z.ltb_lt. lia.
  - intros start s Hc%Z.ltb_lt. env_bounded. repeat case_match; try done; simplify_eq; lia.
  - done.
Qed.
#[local] Hint Resolve bounded_get_free_block : bounded.
Lemma bounded_choose_block j a b : bounded (choose_block spin j a b).
Proof. unfold choose_block. env_bounded. Qed.
#[local] Hint Resolve bounded_choose_block : bounded.

Lemma bounded_place_info j blk full test_cnt :
  0 < j.(j_page) -> 0 < j.(j_arg_pages) -> bounded (place_info spin j blk full test_cnt).
Proof.
  intros Hp Ha. unfold place_info.
  apply (bounded_while (fun '(_, _, cnt, _) => S (Z.to_nat (3 - cnt)))).
  - intros [[[? ?] ?] ?]; lia.
  - intros [[[b f] cnt] ret] s _. apply wp_bounded_bind; [env_bounded|].
    intros [[[b' f'] r']|] s'; [|by apply wp_ret].
    do 2 (apply wp_bounded_bind; [env_bounded|]; intros ? ?).
    apply wp_bind.
    apply (wp_mono _ (fun r _ => again_below cnt r) _ in_fuel); [|intros r|done].
    + destruct (_ =? _); [by apply wp_fill_block|].
      destruct (_ =? _); [by apply wp_copy_info | by apply wp_ret].
    + intros s2 Hr. apply wp_ret. destruct r; cbn in *; [done | lia].
  - done.
Qed.

End Termination.

(** ** The block a new copy goes to *)
Definition same_reserved {D} (w w' : world D) : Prop :=
  reserved_blk (w_chip w') = reserved_blk (w_chip w).
#[export] Instance same_reserved_frame {D} : AnyCmdFrame (same_reserved (D := D)).
Proof.
  split; [split; [split; [|done ..] | done] | done].
  split; [done | intros x y z E F]. unfold same_reserved in *. congruence.
Qed.

Section FreeBlock.
Context {D : Type} `{!NandHw D} `{ops : !ChipOperation D} (spin : nat).
Context (Herase : respects same_reserved op_erase_block).
Context (Hisbad : respects same_reserved op_block_isbad).
Context (Hresult : yields (fun r => r <= 0) op_erase_block).

(** Block [blk] was looked at, found not factory bad, and erased, and nothing
    happened since. *)
Definition just_erased (tmp_blk pages blk : Z) (w' : world D) : Prop :=
  exists w1 s w2,
    (clear_ops ;; (point_block blk tmp_blk pages ;; op_block_isbad)) w1 = Done s w2 /\
    s <> NAND_BLOCK_FACTORY_BAD /\ when_ready op_erase_block w2 = Done 0 w'.

Definition fresh_block (tmp_blk pages block blk : Z) (w' : world D) : Prop :=
  tmp_blk <= blk /\ blk <> block /\ (blk ∉ reserved_blk (w_chip w')) /\
  just_erased tmp_blk pages blk w'.

Lemma wp_run {A} (m : act D A) (w : world D) Q E :
  (forall a w', m w = Done a w' -> Q a w') -> (forall f w', E f w') -> wp m Q E w.
Proof. unfold wp. intros HQ HE. destruct (m w); [by apply HQ | apply HE]. Qed.

Lemma wp_look {A B} (m1 m2 : act D unit) (m3 : act D A) (k : A -> act D B) Q E (w : world D) :
  wp (mbind k (m1 ;; m2 ;; m3)) Q E w -> wp (m1 ;; m2 ;; mbind k m3) Q E w.
Proof. unfold wp, mbind, M_bind. destruct (m1 w) as [? w1|]; [by destruct (m2 w1) | done]. Qed.

Lemma respects_done {A} (m : act D A) (w : world D) a w' :
  respects same_reserved m -> m w = Done a w' -> same_reserved w w'.
Proof. intros H Hm. specialize (H w). unfold wp in H. by rewrite Hm in H. Qed.

Lemma respects_look a b c :
  respects same_reserved (clear_ops ;; point_block a b c ;; op_block_isbad).
Proof. unfold clear_ops, point_block. op_respects. Qed.

Lemma yields_when_ready (P : Z -> Prop) (m : act D Z) : yields P m -> yields P (when_ready m).
Proof.
  intros H. unfold when_ready.
  do 2 (apply yields_then; intros ?). intros w. apply wp_bind.
  eapply wp_mono; [apply H | | done]. intros r w' Hr.
  do 2 (apply wp_bind, wp_run; [intros ? ? _ | done]). by apply wp_ret.
Qed.

Lemma try_block_fresh start block tmp_blk pages (w : world D) :
  tmp_blk <= start ->
  wp (try_block start block tmp_blk pages)
    (fun t w' => match t with
                 | Some ret => ret = 0 /\ fresh_block tmp_blk pages block start w'
                 | None => True end) (fun _ _ => True) w.
Proof.
  intros Hs. unfold try_block. do 2 wp_step. cbv beta.
  destruct (orb _ _) eqn:Hfree; [by apply wp_ret|].
  apply orb_false_iff in Hfree as [Hres Hblk]. apply Z.eqb_neq in Hblk.
  apply wp_look, wp_bind, wp_run; [|done]. intros s w2 Hlook.
  destruct (Z.eqb_spec s NAND_BLOCK_FACTORY_BAD); [by apply wp_ret|].
  apply wp_bind, wp_run; [|done]. intros ret w3 Herased.
  assert (ret <= 0) as Hr.
  { pose proof (yields_when_ready _ _ Hresult w2) as Hy. unfold wp in Hy.
    by rewrite Herased in Hy. }
  destruct (Z.ltb_spec ret 0).
  { apply wp_bind, wp_run; [|done]. intros. by apply wp_ret. }
  apply wp_ret. replace ret with 0 in * by lia. split; [done|].
  split_and!; [done | lia | | by exists w, s, w2].
  assert (reserved_blk (w_chip w3) = reserved_blk (w_chip w)) as ->.
  { apply (respects_done _ _ _ _ (respects_look _ _ _)) in Hlook.
    eapply respects_done in Herased; [|op_respects].
    unfold same_reserved in *. congruence. }
  intros Hin%list_elem_of_In.
  assert (existsb (fun b => b =? start) (reserved_blk (w_chip w)) = true); [|congruence].
  apply existsb_exists. exists start. split; [done | apply Z.eqb_refl].
Qed.

End FreeBlock.

(** ** Checksums: what they accept and what they cover *)

(** The bytes behind the checksum of an item that has one: where they start and
    how many they are. *)
Definition datasum_range (name : list Z) : Datatypes.option (Z * Z) :=
  if bool_decide (name = BBT_HEAD_MAGIC) then Some (4, MAX_CHIP_NUM * MAX_BLK_NUM)
  else if bool_decide (name = SHIPPED_BBT_HEAD_MAGIC) then Some (4, MAX_CHIP_NUM * MAX_BAD_BLK_NUM)
  else if bool_decide (name = CONFIG_HEAD_MAGIC)
  then Some (OFF_dev_para, MAX_DEVICE_NUM * SIZEOF_dev_para) else None.

Section Checksums.
Context {D : Type}.

(** The verdict over the bytes the check reads. *)
Definition datasum_verdict (crc sum : list Z) : Z :=
  if aml_info_checksum sum =? le_value crc then 0 else - NAND_READ_FAILED.

Lemma datasum_range_inv name off n :
  datasum_range name = Some (off, n) ->
  (name = BBT_HEAD_MAGIC /\ off = 4 /\ n = MAX_CHIP_NUM * MAX_BLK_NUM) \/
  (name = SHIPPED_BBT_HEAD_MAGIC /\ off = 4 /\ n = MAX_CHIP_NUM * MAX_BAD_BLK_NUM) \/
  (name = CONFIG_HEAD_MAGIC /\ off = OFF_dev_para /\ n = MAX_DEVICE_NUM * SIZEOF_dev_para).
Proof. unfold datasum_range. repeat case_bool_decide; intros [= <- <-]; auto. Qed.

(** Two magic names are the same or not. *)
Ltac decide_magic :=
  repeat match goal with |- context [bool_decide (?a = ?b)] =>
    let v := eval vm_compute in (bool_decide (a = b)) in
    change (bool_decide (a = b)) with v end; cbv beta iota.

Lemma check_datasum_eq data name off n crc sum (w : world D) :
  datasum_range name = Some (off, n) ->
  peek (w_mem w) data 4 = Some crc -> peek (w_mem w) (ptr_add data off) n = Some sum ->
  aml_info_check_datasum data name w = Done (datasum_verdict crc sum) w.
Proof.
  intros Hr Hc Hs. unfold aml_info_check_datasum, datasum_verdict.
  destruct (datasum_range_inv _ _ _ Hr) as [(-> & -> & ->)|[(-> & -> & ->)|(-> & -> & ->)]];
    cbv zeta; decide_magic; unfold checksum_at, load32, mbind, M_bind, mret, M_ret, load_bytes;
    cbv beta iota; rewrite Hc; cbv beta iota; rewrite Hs; cbv beta iota; by case_match.
Qed.

Lemma aml_info_checksum_u32 l : aml_info_checksum l mod 2 ^ 32 = aml_info_checksum l.
Proof. unfold aml_info_checksum, wrap. by rewrite Z.mod_mod. Qed.

(** An item whose checksum was just put in place is accepted. *)
Theorem put_checksum_accepted data name off n l (w : world D) :
  datasum_range name = Some (off, n) -> peek (w_mem w) data (off + n) = Some l ->
  wp (put_checksum data off n ;; aml_info_check_datasum data name) (fun r _ => r = 0) noflt w.
Proof.
  intros Hr Hl.
  assert (4 <= off /\ 0 <= n) as [Hoff Hn].
  { by destruct (datasum_range_inv _ _ _ Hr) as [(_ & -> & ->)|[(_ & -> & ->)|(_ & -> & ->)]]. }
  pose proof (peek_sub _ _ _ _ off n Hl ltac:(lia) ltac:(lia) ltac:(lia)) as Hs.
  unfold put_checksum, checksum_at. wp_steps. eapply wp_load_bytes; [exact Hs|]. wp_steps.
  set (sum := take _ _) in *. set (crc := le_bytes 4 (aml_info_checksum sum)).
  assert (length crc = 4%nat) as Hlen by apply length_le_bytes.
  destruct (peek_poke_Some _ _ _ _ crc Hl) as [m Hm]; [lia|].
  eapply wp_store_bytes; [exact Hm|].
  pose proof (peek_poke_prefix _ _ _ _ crc _ Hl ltac:(lia) Hm) as Hl'.
  pose proof (peek_poke _ _ _ _ Hm) as Hcrc. rewrite Hlen in Hcrc.
  unfold wp. rewrite (check_datasum_eq _ _ off n crc sum); [| done | done |].
  - unfold datasum_verdict, crc. rewrite le_value_bytes. change (8 * Z.of_nat 4) with 32.
    by rewrite aml_info_checksum_u32, Z.eqb_refl.
  - cbn [w_mem set_w_mem]. rewrite (peek_sub _ _ _ _ off n Hl') by lia.
    rewrite drop_app_ge by (rewrite Hlen; lia). rewrite drop_drop, Hlen. unfold sum.
    do 2 f_equal. f_equal. lia.
Qed.

#[local] Ltac table_lia := unfold SIZEOF_block_status, MAX_CHIP_NUM, MAX_BLK_NUM in *; lia.

(** The sum over the bad block table covers its first half only: whatever is
    overwritten behind byte 32772 of its 65540 goes unnoticed. *)
Theorem bbt_upper_half_unchecked data l off bs m (w : world D) :
  peek (w_mem w) data SIZEOF_block_status = Some l ->
  4 + MAX_CHIP_NUM * MAX_BLK_NUM <= off ->
  poke (w_mem w) (ptr_add data off) bs = Some m ->
  exists r, aml_info_check_datasum data BBT_HEAD_MAGIC w = Done r w /\
    aml_info_check_datasum data BBT_HEAD_MAGIC (set_w_mem m w) = Done r (set_w_mem m w).
Proof.
  intros Hl Hoff Hm.
  assert (forall o n, 0 <= o -> 0 <= n -> o + n <= off -> o + n <= SIZEOF_block_status ->
    exists s, peek (w_mem w) (ptr_add data o) n = Some s /\ peek m (ptr_add data o) n = Some s)
    as Hsame.
  { intros o n ????. eexists. split; [by eapply peek_sub|].
    eapply peek_poke_before; [done | by eapply peek_sub | lia]. }
  destruct (Hsame 0 4) as (crc & Hc & Hc'); [table_lia..|].
  destruct (Hsame 4 (MAX_CHIP_NUM * MAX_BLK_NUM)) as (sum & Hs & Hs');
    [table_lia..|].
  replace (ptr_add data 0) with data in * by (destruct data; cbn; [done | by rewrite Z.add_0_r]).
  exists (datasum_verdict crc sum). split;
    by apply (check_datasum_eq _ _ 4 (MAX_CHIP_NUM * MAX_BLK_NUM)).
Qed.
End Checksums.

Module EnvWitness.
(** One allocation of [n] bytes. *)
Definition table (n : Z) : world unit :=
  set_w_mem {[ 1 := replicate (Z.to_nat n) 5 ]} (world0 tt).

Example put_checksum_accepted_witness :
  wp (put_checksum (Ptr 1 0) 8 2720 ;; aml_info_check_datasum (Ptr 1 0) CONFIG_HEAD_MAGIC)
    (fun r _ => r = 0) noflt (table 2728).
Proof.
  apply (put_checksum_accepted _ _ 8 2720 (replicate (Z.to_nat 2728) 5));
    vm_compute; reflexivity.
Defined.

Lemma table_peek n :
  0 <= n -> peek (w_mem (table n)) (Ptr 1 0) n = Some (replicate (Z.to_nat n) 5).
Proof.
  intros. apply peek_Some. exists 1, 0, (replicate (Z.to_nat n) 5).
  rewrite drop_0, take_ge, length_replicate by (rewrite length_replicate; lia).
  split_and!; [done | apply lookup_singleton_eq | lia..| done].
Qed.

(** The last byte of the table changes and the verdict stays. *)
Definition changed : memory := {[ 1 := splice (replicate (Z.to_nat 65540) 5) 65539 [7] ]}.
Lemma poke_changed : poke (w_mem (table 65540)) (ptr_add (Ptr 1 0) 65539) [7] = Some changed.
Proof.
  apply poke_Some. exists 1, 65539, (replicate (Z.to_nat 65540) 5).
  rewrite length_replicate. cbn [length Z.of_nat].
  split_and!; [done | apply lookup_singleton_eq | lia | lia |].
  unfold changed, table. cbn [w_mem set_w_mem]. by rewrite insert_singleton_eq.
Qed.
Example bbt_upper_half_unchecked_witness :
  exists r, aml_info_check_datasum (Ptr 1 0) BBT_HEAD_MAGIC (table 65540) = Done r (table 65540) /\
    aml_info_check_datasum (Ptr 1 0) BBT_HEAD_MAGIC (set_w_mem changed (table 65540)) =
      Done r (set_w_mem changed (table 65540)).
Proof.
  apply (bbt_upper_half_unchecked (Ptr 1 0) (replicate (Z.to_nat 65540) 5) 65539 [7]).
  - apply (table_peek 65540). lia.
  - unfold MAX_CHIP_NUM, MAX_BLK_NUM. lia.
  - exact poke_changed.
Defined.
End EnvWitness.
