(* ===== verification/NewNand.v ===== *)
(** * NewNand: [phy/new_nand.c] and [aml_nand_scan_hynix_info] of
    [phy/chipenv.c].

    Chips of small structures are read again with other thresholds when the
    ECC fails, and some have an SLC mode: vendor commands write the registers
    for both.  [vendor_hooks] are the functions behind the pointers
    [retry_info->handle] and its siblings that the chip operations call. *)
From S2P Require Import Prelude NfcWords Data Machine Guards Ctrl HwController ChipOp RetryTables ChipEnv.

(** ** Constants *)
Definition NAND_CMD_HYNIX_GET_VALUE : Z := 0x37.
Definition NAND_CMD_HYNIX_SET_VALUE_START : Z := 0x36.
Definition NAND_CMD_HYNIX_SET_VALUE_END : Z := 0x16.
Definition NAND_CMD_TOSHIBA_PRE_CON1 : Z := 0x5c.
Definition NAND_CMD_TOSHIBA_PRE_CON2 : Z := 0xc5.
Definition NAND_CMD_TOSHIBA_SET_VALUE : Z := 0x55.
Definition NAND_CMD_TOSHIBA_BEF_COMMAND1 : Z := 0x26.
Definition NAND_CMD_TOSHIBA_BEF_COMMAND2 : Z := 0x5d.
Definition NAND_CMD_SAMSUNG_SET_VALUE : Z := 0xa1.
Definition NAND_CMD_MICRON_SET_VALUE : Z := 0xef.
Definition NAND_CMD_SANDISK_INIT_ONE : Z := 0x3b.
Definition NAND_CMD_SANDISK_INIT_TWO : Z := 0xb9.
Definition NAND_CMD_SANDISK_LOAD_VALUE_ONE : Z := 0x53.
Definition NAND_CMD_SANDISK_DYNAMIC_ENABLE : Z := 0xb6.
Definition NAND_CMD_SANDISK_DYNAMIC_DISABLE : Z := 0xd6.
Definition NAND_CMD_SANDISK_SLC : Z := 0xa2.
Definition NAND_CMD_SANDISK_SET_VALUE : Z := 0xef.
Definition NAND_CMD_SANDISK_DSP_OFF : Z := 0x25.
Definition NAND_CMD_SANDISK_DSP_ON : Z := 0x26.
Definition NAND_CMD_SANDISK_RETRY_STA : Z := 0x5d.
Definition HYNIX_DEV_HEAD_MAGIC : list Z := ascii4 "nhix".

Section NewNand.
Context {D : Type} `{!NandHw D}.

(** ** The tables of [retry_info] and [slc_info]
    They are arrays inside the structure; an index outside is a fault. *)
Definition check_index {A} (l : list A) (i : Z) : act D unit :=
  if (0 <=? i) && (i <? Z.of_nat (length l)) then mret tt else throw OutOfBounds.
Definition elem (l : list Z) (i : Z) : act D Z :=
  check_index l i ;; mret (arr l i).
Definition row (t : list (list Z)) (i : Z) : act D (list Z) :=
  check_index t i ;; mret (nth (Z.to_nat i) t []).
Definition row2 (t : list (list (list Z))) (z i : Z) : act D (list Z) :=
  check_index t z ;; row (nth (Z.to_nat z) t []) i.

Definition upd_retry (f : read_retry_info -> read_retry_info) : act D unit :=
  upd_ctl (fun c => set_retry_info (f c.(retry_info)) c).
Definition upd_slc (f : en_slc_info -> en_slc_info) : act D unit :=
  upd_ctl (fun c => set_slc_info (f c.(slc_info)) c).

(** [retry_info->cur_cnt_lp[chipnr] = v], and [..._up]. *)
Definition set_cur_lp (chipnr v : Z) : act D unit :=
  r ← ctl_ retry_info;
  check_index r.(cur_cnt_lp) chipnr ;;
  upd_retry (fun r => set_cur_cnt_lp (<[Z.to_nat chipnr := u8 v]> r.(cur_cnt_lp)) r).
Definition set_cur_up (chipnr v : Z) : act D unit :=
  r ← ctl_ retry_info;
  check_index r.(cur_cnt_up) chipnr ;;
  upd_retry (fun r => set_cur_cnt_up (<[Z.to_nat chipnr := u8 v]> r.(cur_cnt_up)) r).
(** [memset(&retry_info->cur_cnt_lp[0], 0, MAX_CHIP_NUM)] *)
Definition clear_cur_lp : act D unit := upd_retry (set_cur_cnt_lp (zeros 4)).
Definition clear_cur_up : act D unit := upd_retry (set_cur_cnt_up (zeros 4)).

(** The next entry of the table, or the first again. *)
Definition next_cnt (cur limit : Z) : Z := if limit - 1 <? cur + 1 then 0 else cur + 1.

(** [for (i = 0; i < n; i++) body] *)
Definition each (n : Z) (body : Z -> act D unit) : act D unit :=
  r ← for_ (R := unit) (Z.to_nat n) 0 (fun i _ => body i ;; mret (Next tt)) tt;
  mret tt.

(** [ret = controller->quene_rb(...); if (ret) return -NAND_FAILED;] *)
Definition when_rb (chipnr : Z) (m : act D Z) : act D Z :=
  ret ← controller_quene_rb chipnr;
  if truthy ret then mret (- NAND_FAILED) else m.
Definition rb_ok (chipnr : Z) : act D Z := when_rb chipnr (mret 0).
(** [if (ret) return -NAND_FAILED;] *)
Definition or_failed (m : act D Z) (k : act D Z) : act D Z :=
  ret ← m; if truthy ret then mret (- NAND_FAILED) else k.

(** ** Hynix *)
Definition not_hynix (type : Z) : bool := (type =? 0) || (10 <? type).

(** Reads [cnt] registers into [buf[0]], [buf[1]], ... *)
Definition get_reg_value_hynix (buf : Z -> Z -> act D unit) (addr : list Z)
    (chipnr cnt : Z) : act D Z :=
  type ← flash_ new_type;
  if not_hynix type then mret 0
  else when_rb chipnr (
    cle NAND_CMD_HYNIX_GET_VALUE ;;
    each cnt (fun i =>
      a ← elem addr i; ale a ;;
      idle_selected 10 ;;
      v ← controller_read_byte; buf i v ;;
      idle_selected 10) ;;
    rb_ok chipnr).

Definition set_reg_value_hynix (buf addr : list Z) (chipnr cnt : Z) : act D Z :=
  type ← flash_ new_type;
  if not_hynix type then mret 0
  else when_rb chipnr (
    cle NAND_CMD_HYNIX_SET_VALUE_START ;;
    each cnt (fun i =>
      a ← elem addr i; ale a ;;
      idle_selected 15 ;;
      v ← elem buf i; controller_write_byte v ;;
      idle_selected 0) ;;
    cle NAND_CMD_HYNIX_SET_VALUE_END ;;
    rb_ok chipnr).

(** Which entry is tried: past the first round through the table the order
    turns by one place per round. *)
Definition hynix_cnt (cur limit : Z) : act D Z :=
  if cur <? limit then mret cur
  else
    retry_zone ← div_ cur limit;
    retry_offset ← mod_ cur limit;
    mod_ (retry_zone + retry_offset) limit.

(** The value of a register: an offset to the chip's own value on 26 nm chips,
    the value itself on 20 nm ones. *)
Definition hynix_value (type : Z) (r : read_retry_info) (chipnr cur i : Z) : act D Z :=
  if (type =? HYNIX_26NM_8GB) || (type =? HYNIX_26NM_4GB) then
    offs ← row2 r.(reg_offs_val_lp) 0 cur; v ← elem offs i;
    if v =? READ_RETRY_ZERO then mret 0
    else def ← row r.(reg_def_val) chipnr; d ← elem def i; mret (u8 (d + v))
  else if (type =? HYNIX_20NM_8GB) || (type =? HYNIX_20NM_4GB) || (type =? HYNIX_1YNM_8GB) then
    offs ← row2 r.(reg_offs_val_lp) chipnr cur; elem offs i
  else mret 0.

(** [reg_value[i] = f(i)] for the first [n] of [size] zeros. *)
Definition reg_values (size : nat) (n : Z) (f : Z -> act D Z) : act D (list Z) :=
  r ← for_ (R := unit) (Z.to_nat n) 0
        (fun i l => v ← f i; check_index l i ;; mret (Next (<[Z.to_nat i := v]> l)))
        (zeros size);
  mret (match r with inl l => l | inr _ => [] end).

Definition readretry_handle_hynix (chipnr : Z) : act D Z :=
  type ← flash_ new_type;
  if not_hynix type then mret 0
  else
    r ← ctl_ retry_info;
    cur ← elem r.(cur_cnt_lp) chipnr;
    cur_cnt ← hynix_cnt cur r.(retry_cnt_lp);
    reg_value ← reg_values 8 r.(reg_cnt_lp) (hynix_value type r chipnr cur_cnt);
    ret ← set_reg_value_hynix reg_value r.(reg_addr_lp) chipnr r.(reg_cnt_lp);
    udelay ;;
    r ← ctl_ retry_info;
    cur ← elem r.(cur_cnt_lp) chipnr;
    set_cur_lp chipnr (cur + 1) ;;
    mret 0.

Definition readretry_set_def_val_hynix (chipnr : Z) : act D Z :=
  type ← flash_ new_type;
  if not_hynix type then mret 0
  else
    clear_cur_lp ;;
    r ← ctl_ retry_info;
    def ← row r.(reg_def_val) chipnr;
    ret ← set_reg_value_hynix def r.(reg_addr_lp) chipnr r.(reg_cnt_lp);
    udelay ;;
    if negb (type =? HYNIX_1YNM_8GB) then
      s ← ctl_ slc_info;
      def ← row s.(slc_reg_def_val) chipnr;
      set_reg_value_hynix def s.(slc_reg_addr) chipnr s.(slc_reg_cnt)
    else mret ret.

Definition no_enslc (type : Z) : bool :=
  (type =? 0) || (HYNIX_20NM_8GB <? type) || (type =? HYNIX_1YNM_8GB).

(** [slc_info->reg_def_val[chip][i] = v] *)
Definition put_slc_def (chip i v : Z) : act D unit :=
  s ← ctl_ slc_info;
  def ← row s.(slc_reg_def_val) chip;
  check_index def i ;;
  upd_slc (fun s => set_slc_reg_def_val
    (<[Z.to_nat chip := <[Z.to_nat i := v]> def]> s.(slc_reg_def_val)) s).

(** [for (i = 0; i < controller->chip_num; i++)], with the last result. *)
Definition each_chip (m : Z -> act D Z) : act D Z :=
  chips ← ctl_ chip_num;
  r ← for_ (R := unit) (Z.to_nat chips) 0 (fun i _ => ret ← m i; mret (Next ret)) 0;
  mret (match r with inl ret => ret | inr _ => 0 end).

Definition enslc_init_hynix : act D Z :=
  type ← flash_ new_type;
  if no_enslc type then mret 0
  else
    nand_get_chip ;;
    ret ← each_chip (fun i =>
      s ← ctl_ slc_info;
      get_reg_value_hynix (put_slc_def i) s.(slc_reg_addr) i s.(slc_reg_cnt));
    nand_release_chip ;;
    mret ret.

Definition enslc_enter_hynix : act D Z :=
  type ← flash_ new_type;
  if no_enslc type then mret 0
  else each_chip (fun i =>
    s ← ctl_ slc_info;
    reg_value_tmp ← reg_values 8 s.(slc_reg_cnt) (fun j =>
      def ← row s.(slc_reg_def_val) i; d ← elem def j;
      v ← elem s.(slc_reg_offs_val) j; mret (u8 (d + v)));
    ret ← set_reg_value_hynix reg_value_tmp s.(slc_reg_addr) i s.(slc_reg_cnt);
    udelay ;; mret ret).

Definition enslc_exit_hynix : act D Z :=
  type ← flash_ new_type;
  if no_enslc type then mret 0
  else each_chip (fun i =>
    s ← ctl_ slc_info;
    def ← row s.(slc_reg_def_val) i;
    ret ← set_reg_value_hynix def s.(slc_reg_addr) i s.(slc_reg_cnt);
    udelay ;; mret ret).

(** ** Toshiba *)
Definition cle2 (cmd : Z) : act D unit := cle cmd ;; idle_selected 2.

Definition toshiba_reg (a v : Z) : act D unit :=
  cle2 NAND_CMD_TOSHIBA_SET_VALUE ;;
  ale a ;; idle_selected 2 ;;
  controller_write_byte v ;; idle_selected 2.

Definition set_reg_value_toshiba (buf addr : list Z) (chipnr cnt : Z) : act D Z :=
  when_rb chipnr (
    r ← ctl_ retry_info;
    cur ← elem r.(cur_cnt_lp) chipnr;
    when_ (cur =? 0) (cle2 NAND_CMD_TOSHIBA_PRE_CON1 ;; cle2 NAND_CMD_TOSHIBA_PRE_CON2) ;;
    each cnt (fun i => a ← elem addr i; v ← elem buf i; toshiba_reg a v) ;;
    cle2 NAND_CMD_TOSHIBA_BEF_COMMAND1 ;; cle2 NAND_CMD_TOSHIBA_BEF_COMMAND2 ;;
    rb_ok chipnr).

(** The lower pages' registers get the current entry of the table, and the
    counter moves on. *)
Definition retry_lower (set_reg : list Z -> list Z -> Z -> Z -> act D Z) (chipnr : Z)
    : act D Z :=
  r ← ctl_ retry_info;
  cur_cnt ← elem r.(cur_cnt_lp) chipnr;
  offs ← row2 r.(reg_offs_val_lp) 0 cur_cnt;
  or_failed (set_reg offs r.(reg_addr_lp) chipnr r.(reg_cnt_lp)) (
    set_cur_lp chipnr (next_cnt cur_cnt r.(retry_cnt_lp)) ;; mret 0).

Definition readretry_handle_toshiba (chipnr : Z) : act D Z :=
  retry_lower set_reg_value_toshiba chipnr.

(** [ret = operation->reset(...); if (ret < 0) return -NAND_FAILED;] *)
Definition reset_chip (chipnr : Z) : act D Z :=
  ret ← nand_reset chipnr; mret (if ret <? 0 then - NAND_FAILED else 0).

Definition readretry_exit_toshiba (chipnr : Z) : act D Z :=
  when_rb chipnr (
    clear_cur_lp ;;
    type ← flash_ new_type;
    when_ (negb (type =? TOSHIBA_A19NM))
      (r ← ctl_ retry_info;
       each r.(reg_cnt_lp) (fun i =>
         a ← elem r.(reg_addr_lp) i; v ← elem (zeros 5) i; toshiba_reg a v)) ;;
    reset_chip chipnr).

(** ** Samsung *)
Definition set_reg_value_samsung (buf addr : list Z) (chipnr cnt : Z) : act D Z :=
  type ← flash_ new_type;
  if negb (type =? SUMSUNG_2XNM) then mret 0
  else when_rb chipnr (
    each cnt (fun i =>
      a ← elem addr i; v ← elem buf i;
      cle2 NAND_CMD_SAMSUNG_SET_VALUE ;;
      ale 0 ;; idle_selected 0 ;;
      ale a ;; idle_selected 0 ;;
      controller_write_byte v ;; idle_selected 20) ;;
    rb_ok chipnr).

Definition readretry_handle_samsung (chipnr : Z) : act D Z :=
  type ← flash_ new_type;
  if negb (type =? SUMSUNG_2XNM) then mret 0
  else retry_lower set_reg_value_samsung chipnr.

Definition readretry_exit_samsung (chipnr : Z) : act D Z :=
  type ← flash_ new_type;
  if negb (type =? SUMSUNG_2XNM) then mret 0
  else when_rb chipnr (
    clear_cur_lp ;;
    r ← ctl_ retry_info;
    offs ← row2 r.(reg_offs_val_lp) 0 0;
    or_failed (set_reg_value_samsung offs r.(reg_addr_lp) chipnr r.(reg_cnt_lp)) (mret 0)).

(** ** Micron, and Intel through the same registers *)
Definition set_reg_value_micron (buf addr : list Z) (chipnr cnt : Z) : act D Z :=
  type ← flash_ new_type;
  if negb (type =? MICRON_20NM) then mret 0
  else when_rb chipnr (
    each cnt (fun i =>
      a ← elem addr i; v ← elem buf i;
      cle2 NAND_CMD_MICRON_SET_VALUE ;;
      ale a ;; idle_selected 10 ;;
      controller_write_byte v ;; idle_selected 1 ;;
      controller_write_byte 0 ;; idle_selected 1 ;;
      controller_write_byte 0 ;; idle_selected 1 ;;
      controller_write_byte 0 ;; idle_selected 100) ;;
    rb_ok chipnr).

Definition readretry_handle_micron (chipnr : Z) : act D Z :=
  type ← flash_ new_type;
  if negb (type =? MICRON_20NM) then mret 0
  else retry_lower set_reg_value_micron chipnr.

Definition readretry_exit_micron (chipnr : Z) : act D Z :=
  type ← flash_ new_type;
  if negb (type =? MICRON_20NM) then mret 0
  else when_rb chipnr (
    clear_cur_lp ;;
    r ← ctl_ retry_info;
    def ← row r.(reg_def_val) 0;
    or_failed (set_reg_value_micron def r.(reg_addr_lp) chipnr r.(reg_cnt_lp)) (mret 0)).

(** [advance] is an [int] read as bytes. *)
Definition readretry_handle_intel (chipnr : Z) : act D Z :=
  type ← flash_ new_type;
  if negb (type =? INTEL_20NM) then mret 0
  else
    r ← ctl_ retry_info;
    cur_cnt ← elem r.(cur_cnt_lp) chipnr;
    ret ← (if cur_cnt =? 3
           then set_reg_value_micron (le_bytes 4 1) (drop 1 r.(reg_addr_lp)) chipnr r.(reg_cnt_lp)
           else mret 0);
    if truthy ret then mret (- NAND_FAILED)
    else
      offs ← row2 r.(reg_offs_val_lp) 0 cur_cnt;
      or_failed (set_reg_value_micron offs r.(reg_addr_lp) chipnr r.(reg_cnt_lp)) (
        idle_selected 10 ;;
        set_cur_lp chipnr (next_cnt cur_cnt r.(retry_cnt_lp)) ;; mret 0).

Definition readretry_exit_intel (chipnr : Z) : act D Z :=
  type ← flash_ new_type;
  if negb (type =? INTEL_20NM) then mret 0
  else when_rb chipnr (
    clear_cur_lp ;;
    r ← ctl_ retry_info;
    def ← row r.(reg_def_val) 0;
    or_failed (set_reg_value_micron def r.(reg_addr_lp) chipnr r.(reg_cnt_lp)) (
    or_failed (set_reg_value_micron def (drop 1 r.(reg_addr_lp)) chipnr r.(reg_cnt_lp)) (
    mret 0))).

(** ** Sandisk *)
Definition sandisk_reg (a v : Z) : act D unit :=
  cle NAND_CMD_SANDISK_LOAD_VALUE_ONE ;; idle_selected 10 ;;
  ale a ;; idle_selected 10 ;;
  controller_write_byte v ;; idle_selected 10.

Definition readretry_init_sandisk : act D Z :=
  chips ← ctl_ chip_num;
  each chips (fun _ =>
    cle2 NAND_CMD_SANDISK_INIT_ONE ;; cle2 NAND_CMD_SANDISK_INIT_TWO ;;
    each 9 (fun j => sandisk_reg (0x04 + j) 0)) ;;
  mret 0.

Definition set_reg_value_sandisk (buf addr : list Z) (chipnr cnt : Z) : act D Z :=
  when_rb chipnr (
    cle2 NAND_CMD_SANDISK_INIT_ONE ;; cle2 NAND_CMD_SANDISK_INIT_TWO ;;
    each cnt (fun i => a ← elem addr i; v ← elem buf i; sandisk_reg a v) ;;
    cle NAND_CMD_SANDISK_DYNAMIC_ENABLE ;; idle_selected 10 ;;
    rb_ok chipnr).

Definition set_a19_reg_value_sandisk (buf : list Z) (addr chipnr cnt : Z) : act D Z :=
  when_rb chipnr (
    cle2 NAND_CMD_SANDISK_SET_VALUE ;;
    ale addr ;; idle_selected 10 ;;
    each cnt (fun i => v ← elem buf i; controller_write_byte v ;; idle_selected 10) ;;
    rb_ok chipnr).

(** Upper pages: the even ones but the first, and the last of the block. *)
Definition upper_page : act D bool :=
  c ← gets w_chip;
  pages_per_blk ← div_ c.(flash).(blocksize) c.(flash).(pagesize);
  let shift := c.(controller).(block_shift) - c.(controller).(page_shift) in
  tmp_page ← mod_ c.(controller).(ctl_page_addr) (shl32 1 shift);
  mret ((negb (tmp_page =? 0) && (tmp_page mod 2 =? 0)) || (tmp_page =? u32 (pages_per_blk - 1))).

(** The counter of the upper pages chooses the entry and is the one that moves. *)
Definition readretry_handle_a19_sandisk (chipnr : Z) : act D Z :=
  up ← upper_page;
  r ← ctl_ retry_info;
  cur_cnt ← elem r.(cur_cnt_up) chipnr;
  offs ← row2 r.(reg_offs_val_lp) (if up : bool then 1 else 0) cur_cnt;
  a ← elem r.(reg_addr_lp) 0;
  ret ← set_a19_reg_value_sandisk offs a chipnr r.(reg_cnt_lp);
  cle NAND_CMD_SANDISK_DSP_OFF ;; idle_selected 5 ;;
  type ← flash_ new_type;
  when_ (negb (type =? SANDISK_A19NM)) (cle NAND_CMD_SANDISK_DSP_ON ;; idle_selected 5) ;;
  cle NAND_CMD_SANDISK_RETRY_STA ;; idle_selected 5 ;;
  set_cur_up chipnr (next_cnt cur_cnt r.(retry_cnt_up)) ;;
  mret 0.

Definition readretry_exit_a19_sandisk (chipnr : Z) : act D Z :=
  when_rb chipnr (
    clear_cur_lp ;;
    r ← ctl_ retry_info;
    a ← elem r.(reg_addr_lp) 0;
    ret ← set_a19_reg_value_sandisk (zeros 4) a chipnr r.(reg_cnt_lp);
    when_rb chipnr (reset_chip chipnr)).

Definition readretry_handle_sandisk (chipnr : Z) : act D Z :=
  up ← upper_page;
  if up : bool then
    r ← ctl_ retry_info;
    cur_cnt ← elem r.(cur_cnt_up) chipnr;
    offs ← row2 r.(reg_offs_val_up) 0 cur_cnt;
    or_failed (set_reg_value_sandisk offs r.(reg_addr_up) chipnr r.(reg_cnt_up)) (
      set_cur_up chipnr (next_cnt cur_cnt r.(retry_cnt_up)) ;; mret 0)
  else retry_lower set_reg_value_sandisk chipnr.

Definition readretry_exit_sandisk (chipnr : Z) : act D Z :=
  when_rb chipnr (
    clear_cur_lp ;; clear_cur_up ;;
    cle2 NAND_CMD_SANDISK_DYNAMIC_DISABLE ;;
    or_failed readretry_init_sandisk (
    when_rb chipnr (reset_chip chipnr))).

Definition enslc_enter_sandisk : act D Z := cle NAND_CMD_SANDISK_SLC ;; mret 0.

(** ** The function pointers *)
Definition no_function {A} : act D A := throw NullDeref.

Definition vendor_hooks : hooks D := {|
  retry_handle := fun chipnr =>
    v ← ctl_ (fun c => c.(retry_info).(retry_ops));
    match v with
    | NoRetry => no_function
    | RetryHynix => readretry_handle_hynix chipnr
    | RetryToshiba => readretry_handle_toshiba chipnr
    | RetrySamsung => readretry_handle_samsung chipnr
    | RetryMicron => readretry_handle_micron chipnr
    | RetryIntel => readretry_handle_intel chipnr
    | RetrySandisk => readretry_handle_sandisk chipnr
    | RetrySandiskA19 => readretry_handle_a19_sandisk chipnr
    end;
  retry_exit := fun chipnr =>
    v ← ctl_ (fun c => c.(retry_info).(retry_ops));
    match v with
    | NoRetry => no_function
    | RetryHynix => readretry_set_def_val_hynix chipnr
    | RetryToshiba => readretry_exit_toshiba chipnr
    | RetrySamsung => readretry_exit_samsung chipnr
    | RetryMicron => readretry_exit_micron chipnr
    | RetryIntel => readretry_exit_intel chipnr
    | RetrySandisk => readretry_exit_sandisk chipnr
    | RetrySandiskA19 => readretry_exit_a19_sandisk chipnr
    end;
  slc_enter :=
    v ← ctl_ (fun c => c.(slc_info).(slc_ops));
    match v with
    | NoSlc => no_function
    | SlcHynix => enslc_enter_hynix
    | SlcSandisk => enslc_enter_sandisk
    end;
  slc_exit :=
    v ← ctl_ (fun c => c.(slc_info).(slc_ops));
    match v with SlcHynix => enslc_exit_hynix | _ => no_function end
|}.
End NewNand.

(** ** Setting up a chip *)
Section Setup.
Context {D : Type} `{!NandHw D} `{!ChipOperation D}.

(** Bytes as the rows of a table. *)
Fixpoint rows_of (k n : nat) (l : list Z) : list (list Z) :=
  match k with
  | O => []
  | S k' => take n l :: rows_of k' n (drop n l)
  end.
Definition SIZEOF_def_val : Z := MAX_CHIP_NUM * READ_RETRY_REG_NUM.
Definition SIZEOF_offs_val : Z := MAX_CHIP_NUM * READ_RETRY_CNT * READ_RETRY_REG_NUM.

(** Around an operation: [flash->new_type] is 0 meanwhile. *)
Definition as_plain (m : act D Z) : act D Z :=
  nand_type ← flash_ new_type;
  upd_flash (set_new_type 0) ;;
  ret ← m;
  upd_flash (set_new_type nand_type) ;;
  mret ret.

(** The saved register values, from the page in the user buffer. *)
Definition load_hynix_info : act D unit :=
  user ← chip user_page_buf;
  def ← load_bytes user SIZEOF_def_val;
  upd_retry (set_reg_def_val (rows_of 4 8 def)) ;;
  type ← flash_ new_type;
  when_ ((type =? HYNIX_20NM_8GB) || (type =? HYNIX_20NM_4GB) || (type =? HYNIX_1YNM_8GB))
    (offs ← load_bytes (ptr_add user SIZEOF_def_val) SIZEOF_offs_val;
     upd_retry (set_reg_offs_val_lp
       (map (rows_of 30 8) (rows_of 4 240 offs)))) ;;
  upd_retry (fun r => set_default_flag 1 (set_retry_flag 1 r)).

(** The first readable page of a block says whether the values are there. *)
Definition probe_hynix_block (start_blk tmp_blk pages pages_read ret : Z) : act D Z :=
  r ← for_ (R := unit) (Z.to_nat pages_read) 0
        (fun i _ =>
           point_page start_blk tmp_blk pages i ;;
           use_user_buffers 8 ;;
           c ← gets w_chip;
           memset c.(user_page_buf) 0 c.(flash).(pagesize) ;;
           memset c.(user_oob_buf) 0 8 ;;
           ret ← as_plain (when_ready op_read_page);
           ecc ← ops_ ecc_err;
           if truthy ecc || (ret <? 0) then mret (Next ret)
           else
             oob ← load_bytes c.(user_oob_buf) 8;
             when_ (bool_decide (take 4 oob = HYNIX_DEV_HEAD_MAGIC)) load_hynix_info ;;
             mret (Break ret)) ret;
  mret (match r with inl ret => ret | inr _ => 0 end).

(** [retry_info->default_flag && flash->new_type] *)
Definition hynix_found : act D bool :=
  f ← ctl_ (fun c => c.(retry_info).(default_flag));
  type ← flash_ new_type;
  mret (truthy f && truthy type).

Definition aml_nand_scan_hynix_info : act D Z :=
  fl ← chip flash;
  if not_hynix fl.(new_type) then mret 0
  else
    clear_ops ;;
    when_ (truthy fl.(new_type) && (fl.(new_type) <? 10))
      (upd_ops (fun o => set_ops_option (Z.lor o.(ops_option) DEV_SLC_MODE) o)) ;;
    let pages := pages_of_block fl in
    opts ← ops_ ops_option;
    let pages_read := if has opts DEV_SLC_MODE then Z.shiftr pages 1 else pages in
    upd_retry (fun r => set_retry_flag 0 (set_default_flag 0 r)) ;;
    let tmp_blk := u16 (reserved_start fl) in
    let total_blk := u16 (reserved_start fl + RESERVED_BLOCK_CNT) in
    r ← do_while (R := unit) (Z.to_nat RESERVED_BLOCK_CNT)
          (fun '(start_blk, ret) =>
             clear_ops ;;
             point_block start_blk tmp_blk pages ;;
             ret ← as_plain op_block_isbad;
             if ret =? NAND_BLOCK_FACTORY_BAD then mret (Next (u16 (start_blk + 1), ret))
             else
               ret ← probe_hynix_block start_blk tmp_blk pages pages_read ret;
               found ← hynix_found;
               mret (if found : bool then Break (start_blk, ret)
                     else Next (u16 (start_blk + 1), ret)))
          (fun '(start_blk, _) => start_blk <? total_blk) (tmp_blk, 0);
    let '(start_blk, ret) := match r with inl l => l | inr _ => (0, 0) end in
    found ← hynix_found;
    when_ found
      (upd_retry (set_info_save_blk (u8 start_blk)) ;;
       upd_chip (fun c => set_reserved_blk (reserve start_blk c.(reserved_blk)) c)) ;;
    mret ret.

Definition readretry_init_hynix : act D Z :=
  ret ← aml_nand_scan_hynix_info;
  f ← ctl_ (fun c => c.(retry_info).(default_flag));
  mret (if f =? 0 then - NAND_FAILED else ret).

(** [retry_info->init(controller)] and [slc_info->init(controller)] *)
Definition retry_init : act D Z :=
  v ← ctl_ (fun c => c.(retry_info).(retry_ops));
  match v with
  | RetryHynix => readretry_init_hynix
  | RetrySandisk => readretry_init_sandisk
  | _ => no_function
  end.
Definition slc_init : act D Z :=
  v ← ctl_ (fun c => c.(slc_info).(slc_ops));
  match v with SlcHynix => enslc_init_hynix | _ => no_function end.

Definition amlnand_set_readretry_slc_para : act D Z :=
  type ← flash_ new_type;
  if type =? 0 then mret 0
  else
    match retry_para type with
    | None => mret (- NAND_FAILED)
    | Some (retry, slc) =>
        upd_retry retry ;;
        upd_slc slc ;;
        ret ← (if type =? SANDISK_19NM then retry_init else mret 0);
        if truthy ret then mret (- NAND_FAILED)
        else if truthy type && (type <? 10) then
          or_failed slc_init (or_failed retry_init (mret 0))
        else mret 0
    end.
End Setup.

(** ** Frames *)
Section VendorFrame.
Context {D : Type} `{!NandHw D} (R : world D -> world D -> Prop) `{!CmdFrame R}.

Ltac vendor_respects :=
  repeat match goal with
  | |- respects _ (each _ _) => unfold each
  | |- respects _ (each_chip _) => unfold each_chip
  | |- respects _ (when_rb _ _) => unfold when_rb
  | |- respects _ (or_failed _ _) => unfold or_failed
  | |- respects _ (reg_values _ _ _) => unfold reg_values
  | |- respects _ no_function => apply respects_throw, _
  | _ => progress op_respects
  end.

Lemma respects_check_index {A} (l : list A) i : respects R (check_index l i).
Proof. unfold check_index. op_respects. Qed.
#[local] Hint Resolve respects_check_index : respects.
Lemma respects_elem l i : respects R (elem l i).
Proof. unfold elem. op_respects. Qed.
Lemma respects_row t i : respects R (row t i).
Proof. unfold row. op_respects. Qed.
#[local] Hint Resolve respects_elem respects_row : respects.
Lemma respects_row2 t z i : respects R (row2 t z i).
Proof. unfold row2. op_respects. Qed.
Lemma respects_set_cur_lp n v : respects R (set_cur_lp n v).
Proof. unfold set_cur_lp, upd_retry. op_respects. Qed.
Lemma respects_set_cur_up n v : respects R (set_cur_up n v).
Proof. unfold set_cur_up, upd_retry. op_respects. Qed.
Lemma respects_clear_cur_lp : respects R clear_cur_lp.
Proof. unfold clear_cur_lp, upd_retry. op_respects. Qed.
Lemma respects_clear_cur_up : respects R clear_cur_up.
Proof. unfold clear_cur_up, upd_retry. op_respects. Qed.
Lemma respects_cle2 c : program_op c = false -> respects R (cle2 c).
Proof. intros H. unfold cle2. op_respects. by apply respects_cle. Qed.
#[local] Hint Extern 2 (respects _ (cle2 _)) => apply respects_cle2; reflexivity : respects.
#[local] Hint Resolve respects_row2 respects_set_cur_lp respects_set_cur_up
  respects_clear_cur_lp respects_clear_cur_up : respects.
Lemma respects_rb_ok n : respects R (rb_ok n).
Proof. unfold rb_ok. vendor_respects. Qed.
#[local] Hint Resolve respects_rb_ok : respects.

Lemma respects_set_reg_hynix b a n c : respects R (set_reg_value_hynix b a n c).
Proof. unfold set_reg_value_hynix. vendor_respects. Qed.
Lemma respects_set_reg_toshiba b a n c : respects R (set_reg_value_toshiba b a n c).
Proof. unfold set_reg_value_toshiba, toshiba_reg. vendor_respects. Qed.
Lemma respects_set_reg_samsung b a n c : respects R (set_reg_value_samsung b a n c).
Proof. unfold set_reg_value_samsung. vendor_respects. Qed.
Lemma respects_set_reg_micron b a n c : respects R (set_reg_value_micron b a n c).
Proof. unfold set_reg_value_micron. vendor_respects. Qed.
Lemma respects_set_reg_sandisk b a n c : respects R (set_reg_value_sandisk b a n c).
Proof. unfold set_reg_value_sandisk, sandisk_reg. vendor_respects. Qed.
Lemma respects_set_reg_a19 b a n c : respects R (set_a19_reg_value_sandisk b a n c).
Proof. unfold set_a19_reg_value_sandisk. vendor_respects. Qed.
#[local] Hint Resolve respects_set_reg_hynix respects_set_reg_toshiba respects_set_reg_samsung
  respects_set_reg_micron respects_set_reg_sandisk respects_set_reg_a19 : respects.

Lemma respects_retry_lower set_reg n :
  (forall b a m c, respects R (set_reg b a m c)) -> respects R (retry_lower set_reg n).
Proof. intros H. unfold retry_lower. vendor_respects. Qed.
Lemma respects_init_sandisk : respects R readretry_init_sandisk.
Proof. unfold readretry_init_sandisk, sandisk_reg. vendor_respects. Qed.
Lemma respects_upper_page : respects R upper_page.
Proof. unfold upper_page. vendor_respects. Qed.
#[local] Hint Resolve respects_retry_lower respects_init_sandisk respects_upper_page : respects.

(** Nothing the vendor functions send programs or erases. *)
Lemma vendor_hooks_respect : hooks_respect R vendor_hooks.
Proof.
  split; intros; unfold vendor_hooks; cbn [retry_handle retry_exit slc_enter slc_exit];
    (apply respects_bind; [apply _ | vendor_respects | intros v; destruct v]);
    unfold readretry_handle_hynix, hynix_cnt, hynix_value, readretry_handle_toshiba,
      readretry_handle_samsung, readretry_handle_micron, readretry_handle_intel,
      readretry_handle_sandisk, readretry_handle_a19_sandisk, readretry_set_def_val_hynix,
      readretry_exit_toshiba, readretry_exit_samsung, readretry_exit_micron,
      readretry_exit_intel, readretry_exit_sandisk, readretry_exit_a19_sandisk,
      enslc_enter_hynix, enslc_enter_sandisk, enslc_exit_hynix, reset_chip, toshiba_reg;
    vendor_respects.
Qed.

(** Setting the functions up. *)
Context `{ops : !ChipOperation D} `{!ChipFrame R} `{!OpsRespect R ops}.

Lemma respects_get_reg_hynix b a n c :
  (forall i v, respects R (b i v)) -> respects R (get_reg_value_hynix b a n c).
Proof. intros H. unfold get_reg_value_hynix. vendor_respects; apply H. Qed.
Lemma respects_put_slc_def n i v : respects R (put_slc_def n i v).
Proof. unfold put_slc_def, upd_slc. vendor_respects. Qed.
#[local] Hint Extern 2 (respects _ (get_reg_value_hynix _ _ _ _)) =>
  apply respects_get_reg_hynix; intros; apply respects_put_slc_def : respects.
Lemma respects_enslc_init : respects R enslc_init_hynix.
Proof. unfold enslc_init_hynix, upd_slc. vendor_respects. Qed.
Lemma respects_as_plain m : respects R m -> respects R (as_plain m).
Proof. intros. unfold as_plain, upd_flash. vendor_respects. Qed.
Lemma respects_load_hynix : respects R load_hynix_info.
Proof. unfold load_hynix_info, upd_retry. vendor_respects. Qed.
#[local] Hint Resolve respects_enslc_init respects_load_hynix : respects.
#[local] Hint Extern 2 (respects _ (as_plain _)) => apply respects_as_plain; vendor_respects : respects.
Lemma respects_probe_hynix a b c d e : respects R (probe_hynix_block a b c d e).
Proof. unfold probe_hynix_block. vendor_respects. Qed.
#[local] Hint Resolve respects_probe_hynix : respects.
Lemma respects_scan_hynix : respects R aml_nand_scan_hynix_info.
Proof. unfold aml_nand_scan_hynix_info, hynix_found, upd_retry. vendor_respects. Qed.
#[local] Hint Resolve respects_scan_hynix : respects.
Lemma respects_set_readretry : respects R amlnand_set_readretry_slc_para.
Proof.
  unfold amlnand_set_readretry_slc_para, slc_init, retry_init, readretry_init_hynix, upd_retry,
    upd_slc. vendor_respects.
Qed.
End VendorFrame.
#[export] Hint Resolve respects_set_readretry : respects.

(** ** The tables are large enough
    What the vendor functions read of the driver's structures. *)
Definition vendor_view {D} (w : world D) :=
  let c := w.(w_chip).(controller) in
  (w.(w_chip).(flash), c.(chip_num), c.(page_shift), c.(block_shift), c.(slc_info),
   c.(retry_info)).
Definition same_view {D} (w w' : world D) : Prop := vendor_view w' = vendor_view w.

#[export] Instance same_view_bus {D} : BusFrame (same_view (D := D)).
Proof.
  split; try done. split; [done|]. intros w1 w2 w3. unfold same_view. congruence.
Qed.

#[export] Instance same_view_preorder {D} : PreOrder (same_view (D := D)) := bus_preorder.

Abbreviation retry_of w := (retry_info (controller (w_chip w))).
Abbreviation ops_of w := (retry_ops (retry_of w)).

(** How many registers the buffers of the vendor's functions hold. *)
Definition reg_room (v : retry_vendor) : Z :=
  match v with
  | RetryToshiba => 5
  | RetryIntel | RetrySandiskA19 => 4
  | _ => 8
  end.

Definition dims2 (m n : nat) (t : list (list Z)) : Prop :=
  length t = m /\ Forall (fun l => length l = n) t.
Definition dims3 (k m n : nat) (t : list (list (list Z))) : Prop :=
  length t = k /\ Forall (dims2 m n) t.
(** Entries that choose a row of a table. *)
Definition rows_in (l : list Z) : Prop :=
  length l = 4%nat /\ Forall (fun c => 0 <= c < READ_RETRY_CNT) l.

Record retry_ok (r : read_retry_info) : Prop := {
  ro_lp : length r.(cur_cnt_lp) = 4%nat /\ Forall (fun c => 0 <= c) r.(cur_cnt_lp);
  ro_rows : r.(retry_ops) <> RetryHynix -> rows_in r.(cur_cnt_lp);
  ro_up : rows_in r.(cur_cnt_up);
  ro_addr_lp : length r.(reg_addr_lp) = 8%nat;
  ro_addr_up : length r.(reg_addr_up) = 8%nat;
  ro_def : dims2 4 8 r.(reg_def_val);
  ro_offs_lp : dims3 4 30 8 r.(reg_offs_val_lp);
  ro_offs_up : dims3 4 30 8 r.(reg_offs_val_up);
  ro_cnt : r.(reg_cnt_lp) <= reg_room r.(retry_ops) /\ r.(reg_cnt_up) <= 8;
  ro_limit : 0 < r.(retry_cnt_lp) <= READ_RETRY_CNT /\ 0 <= r.(retry_cnt_up) <= READ_RETRY_CNT
}.
Record slc_ok (s : en_slc_info) : Prop := {
  so_addr : length s.(slc_reg_addr) = 8%nat;
  so_def : dims2 4 8 s.(slc_reg_def_val);
  so_offs : length s.(slc_reg_offs_val) = 8%nat;
  so_cnt : s.(slc_reg_cnt) <= 8
}.
(** A chip whose vendor functions are set up. *)
Record vendor_ok {D} (w : world D) : Prop := {
  vo_retry : retry_ok w.(w_chip).(controller).(retry_info);
  vo_slc : slc_ok w.(w_chip).(controller).(slc_info);
  vo_set : w.(w_chip).(controller).(retry_info).(retry_ops) <> NoRetry;
  vo_page : w.(w_chip).(flash).(pagesize) <> 0;
  vo_shift : 0 <= w.(w_chip).(controller).(block_shift) - w.(w_chip).(controller).(page_shift) < 32
}.

(** What [amlnand_set_readretry_slc_para] writes into zeroed structures fits. *)
Lemma retry_para_ok type retry slc :
  retry_para type = Some (retry, slc) ->
  retry_ok (retry retry0) /\ slc_ok (slc slc0) /\ (retry retry0).(retry_ops) <> NoRetry.
Proof.
  unfold retry_para. repeat (case_match; [intros [= <- <-] |]); [..|done];
    (split; [|split; [|done]]); split; cbn; try done; repeat split; try done;
    repeat constructor; try done.
Qed.

(** A function that does nothing for other types of chips. *)
Ltac flash_type := apply wp_bind, wp_chip; cbv beta;
  let H := fresh "Htype" in case_match eqn:H; [by apply wp_ret|].

Section VendorRuns.
Context {D : Type} `{!NandHw D}.
Implicit Types w : world D.

Abbreviation keeps := (runs (same_view (D := D))).

Lemma inside_true n k : 0 <= n < k -> (0 <=? n) && (n <? k) = true.
Proof. lia. Qed.

Lemma keeps_check_index {A} (l : list A) i : 0 <= i < Z.of_nat (length l) ->
  keeps (check_index l i).
Proof.
  intros H. unfold check_index. replace (_ && _) with true by lia. solve_runs.
Qed.
Lemma keeps_elem l i : 0 <= i < Z.of_nat (length l) -> keeps (elem l i).
Proof. intros H. unfold elem. apply runs_bind; [apply _ | by apply keeps_check_index | solve_runs]. Qed.
Lemma wp_elem l i (Q : Z -> world D -> Prop) E w :
  0 <= i < Z.of_nat (length l) -> Q (arr l i) w -> wp (elem l i) Q E w.
Proof.
  intros H HQ. unfold elem, check_index. replace (_ && _) with true by lia.
  by apply wp_bind, wp_ret, wp_ret.
Qed.
Lemma wp_row t m n i (Q : list Z -> world D -> Prop) E w :
  dims2 m n t -> 0 <= i < Z.of_nat m -> (forall l, length l = n -> Q l w) ->
  wp (row t i) Q E w.
Proof.
  intros [Ht Hl] H HQ. unfold row, check_index. rewrite Ht.
  replace (_ && _) with true by lia. apply wp_bind, wp_ret, wp_ret, HQ.
  destruct (nth_lookup_or_length t (Z.to_nat i) []) as [E'|E']; [|lia].
  rewrite Forall_lookup in Hl. by eapply Hl.
Qed.
Lemma wp_row2 t k m n z i (Q : list Z -> world D -> Prop) E w :
  dims3 k m n t -> 0 <= z < Z.of_nat k -> 0 <= i < Z.of_nat m ->
  (forall l, length l = n -> Q l w) -> wp (row2 t z i) Q E w.
Proof.
  intros [Ht Hl] Hz Hi HQ. unfold row2, check_index. rewrite Ht.
  replace (_ && _) with true by lia. apply wp_bind, wp_ret, (wp_row _ m n); [|done..].
  destruct (nth_lookup_or_length t (Z.to_nat z) []) as [E'|E']; [|lia].
  rewrite Forall_lookup in Hl. by eapply Hl.
Qed.

Lemma keeps_each n body : (forall i, 0 <= i < n -> keeps (body i)) -> keeps (each n body).
Proof.
  intros H. unfold each. apply runs_bind; [apply _ | | solve_runs].
  apply runs_for; [apply _|]. intros j l Hj.
  apply runs_bind; [apply _ | apply H; lia | solve_runs].
Qed.
Lemma keeps_when_rb n m : 0 <= n <= 3 -> keeps m -> keeps (when_rb n m).
Proof.
  intros Hn Hm. unfold when_rb. apply runs_bind; [apply _ | apply runs_quene_rb; [apply _ | exact Hn] |].
  intros r. destruct (truthy r); [apply runs_ret, _ | done].
Qed.
Lemma keeps_rb_ok n : 0 <= n <= 3 -> keeps (rb_ok n).
Proof. intros. apply keeps_when_rb; [done | apply runs_ret, _]. Qed.
Lemma keeps_ale a : keeps (ale a).
Proof. apply runs_cmd_ctrl, _. Qed.
Lemma keeps_cle c : keeps (cle c).
Proof. apply runs_cmd_ctrl, _. Qed.
#[local] Hint Resolve keeps_ale keeps_cle keeps_rb_ok : runs.
Lemma keeps_cle2 c : keeps (cle2 c).
Proof. unfold cle2. solve_runs. Qed.
#[local] Hint Resolve keeps_cle2 : runs.

Ltac keep := repeat match goal with
  | |- _ -> _ => intros ?
  | |- runs _ (when_rb _ _) => apply keeps_when_rb; [done|]
  | |- runs _ (rb_ok _) => by apply keeps_rb_ok
  | |- runs _ (each _ _) => apply keeps_each
  | |- runs _ (elem _ _) => apply keeps_elem; rewrite ?length_drop; lia
  | _ => progress (unfold flash_, chip; solve_runs)
  end.

(** Setting the registers of a chip, from buffers that are long enough. *)
Definition sets_registers (set_reg : list Z -> list Z -> Z -> Z -> act D Z) : Prop :=
  forall buf addr chipnr cnt, 0 <= chipnr <= 3 -> cnt <= Z.of_nat (length buf) ->
    cnt <= Z.of_nat (length addr) ->
    forall w, vendor_ok w -> wp (set_reg buf addr chipnr cnt) (fun _ => same_view w) noflt w.

Lemma keeps_set_reg_hynix : sets_registers set_reg_value_hynix.
Proof. intros b a n c ??? w _. revert w. change (keeps (set_reg_value_hynix b a n c)). unfold set_reg_value_hynix. keep. Qed.
Lemma keeps_toshiba_reg a v : keeps (toshiba_reg a v).
Proof. unfold toshiba_reg. keep. Qed.
Lemma keeps_set_reg_samsung : sets_registers set_reg_value_samsung.
Proof. intros b a n c ??? w _. revert w. change (keeps (set_reg_value_samsung b a n c)). unfold set_reg_value_samsung. keep. Qed.
Lemma keeps_set_reg_micron : sets_registers set_reg_value_micron.
Proof. intros b a n c ??? w _. revert w. change (keeps (set_reg_value_micron b a n c)). unfold set_reg_value_micron. keep. Qed.
Lemma keeps_toshiba_body b a n c : 0 <= n <= 3 -> c <= Z.of_nat (length b) ->
  c <= Z.of_nat (length a) ->
  keeps (each c (fun i => a_ ← elem a i; v ← elem b i; toshiba_reg a_ v) ;;
         cle2 NAND_CMD_TOSHIBA_BEF_COMMAND1 ;; cle2 NAND_CMD_TOSHIBA_BEF_COMMAND2 ;; rb_ok n).
Proof. intros ???. keep. apply keeps_toshiba_reg. Qed.
Lemma keeps_set_reg_toshiba : sets_registers set_reg_value_toshiba.
Proof.
  intros b a n c Hn Hb Ha w Hw. unfold set_reg_value_toshiba, when_rb.
  apply wp_bind, (wp_runs same_view); [apply runs_quene_rb; [apply _ | done]|].
  intros r w1 H1. destruct (truthy r); [by apply wp_ret|].
  assert (length (cur_cnt_lp (retry_info (controller (w_chip w1)))) = 4%nat) as Hl.
  { unfold same_view, vendor_view in H1. replace (retry_info _) with
      (retry_info (controller (w_chip w))) by congruence. apply (vo_retry w Hw). }
  apply wp_bind, wp_chip, wp_bind, wp_elem; [lia|].
  apply wp_bind, (wp_runs same_view); [keep|]. intros _u w2 H2.
  apply (wp_runs same_view); [by apply keeps_toshiba_body|].
  intros _r w3 H3. by do 2 (etransitivity; [eassumption|]).
Qed.
Lemma keeps_sandisk_reg a v : keeps (sandisk_reg a v).
Proof. unfold sandisk_reg. keep. Qed.
#[local] Hint Resolve keeps_toshiba_reg keeps_sandisk_reg : runs.
Lemma keeps_set_reg_sandisk : sets_registers set_reg_value_sandisk.
Proof. intros b a n c ??? w _. revert w. change (keeps (set_reg_value_sandisk b a n c)). unfold set_reg_value_sandisk. keep. Qed.
Lemma keeps_set_reg_a19 b a n c : 0 <= n <= 3 -> c <= Z.of_nat (length b) ->
  keeps (set_a19_reg_value_sandisk b a n c).
Proof. intros ??. unfold set_a19_reg_value_sandisk. keep. Qed.
Lemma keeps_init_sandisk : keeps readretry_init_sandisk.
Proof. unfold readretry_init_sandisk, ctl_. keep. Qed.
Lemma keeps_reset_chip n : 0 <= n <= 3 -> keeps (reset_chip n).
Proof.
  intros. unfold reset_chip, nand_reset, NFC_WAIT_FIFO_EMPTY. keep.
  apply runs_quene_rb; [apply _ | done].
Qed.

(** *** The functions behind the pointers *)
Lemma vendor_ok_view w w' : same_view w w' -> vendor_ok w -> vendor_ok w'.
Proof.
  unfold same_view, vendor_view. cbn. intros E []. simplify_eq.
  split; repeat match goal with H : _ = _ |- _ => rewrite H; clear H end; done.
Qed.

Lemma rows_in_zeros : rows_in (zeros 4).
Proof. split; [done|]. repeat constructor; done. Qed.
Lemma rows_in_insert l i v : rows_in l -> 0 <= v < READ_RETRY_CNT -> rows_in (<[i := v]> l).
Proof.
  intros [Hl H] Hv. split; [by rewrite length_insert | by apply Forall_insert].
Qed.
Lemma rows_in_arr l n : rows_in l -> 0 <= n <= 3 -> 0 <= arr l n < READ_RETRY_CNT.
Proof.
  intros [Hl H] Hn. unfold arr. destruct (nth_lookup_or_length l (Z.to_nat n) 0); [|lia].
  rewrite Forall_lookup in H. by eapply H.
Qed.
Lemma next_cnt_range cur limit :
  0 <= cur -> limit <= READ_RETRY_CNT -> 0 <= u8 (next_cnt cur limit) < READ_RETRY_CNT.
Proof.
  intros. unfold next_cnt, wrap. unfold READ_RETRY_CNT in *.
  destruct (Z.ltb_spec (limit - 1) (cur + 1)); [done|]. rewrite Z.mod_small; lia.
Qed.
Lemma u8_nonneg v : 0 <= u8 v.
Proof. apply Z.mod_pos_bound. done. Qed.

Lemma wp_set_cur_lp n v w (Q : unit -> world D -> Prop) E :
  vendor_ok w -> 0 <= n <= 3 ->
  (w.(w_chip).(controller).(retry_info).(retry_ops) <> RetryHynix ->
     0 <= u8 v < READ_RETRY_CNT) ->
  (forall w', vendor_ok w' -> Q tt w') -> wp (set_cur_lp n v) Q E w.
Proof.
  intros [[] ] Hn Hv HQ. unfold set_cur_lp, upd_retry, check_index. wp_steps.
  destruct ro_lp0 as [Hl Hp]. rewrite Hl. rewrite inside_true by (clear - Hn; lia). wp_steps.
  apply HQ. split; [|done..]. split; try done; cbn.
  - rewrite length_insert. split; [done|]. apply Forall_insert; [done | apply u8_nonneg].
  - intros H. apply rows_in_insert; auto.
Qed.
Lemma wp_set_cur_up n v w (Q : unit -> world D -> Prop) E :
  vendor_ok w -> 0 <= n <= 3 -> 0 <= u8 v < READ_RETRY_CNT ->
  (forall w', vendor_ok w' -> retry_of w' =
     set_cur_cnt_up (<[Z.to_nat n := u8 v]> (retry_of w).(cur_cnt_up)) (retry_of w) -> Q tt w') ->
  wp (set_cur_up n v) Q E w.
Proof.
  intros [[] ] Hn Hv HQ. unfold set_cur_up, upd_retry, check_index. wp_steps.
  rewrite (proj1 ro_up0). rewrite inside_true by (clear - Hn; lia). wp_steps.
  apply HQ; [|done]. split; [|done..]. split; try done. cbn. by apply rows_in_insert.
Qed.
Lemma wp_clear_cur_lp w (Q : unit -> world D -> Prop) E :
  vendor_ok w -> (forall w', vendor_ok w' -> retry_of w' = set_cur_cnt_lp (zeros 4) (retry_of w) -> Q tt w') ->
  wp clear_cur_lp Q E w.
Proof.
  intros [[] ] HQ. apply wp_upd_chip, HQ; [|done]. split; [|done..].
  split; try done; cbn; [|intros _; apply rows_in_zeros].
  split; [done | repeat constructor; done].
Qed.
Lemma wp_clear_cur_up w (Q : unit -> world D -> Prop) E :
  vendor_ok w -> (forall w', vendor_ok w' -> Q tt w') -> wp clear_cur_up Q E w.
Proof.
  intros [[] ] HQ. apply wp_upd_chip, HQ. split; [|done..].
  split; try done. cbn. apply rows_in_zeros.
Qed.

(** A step that touches only the bus keeps the tables. *)
Lemma wp_keeps {A} (m : act D A) w (Q : A -> world D -> Prop) :
  wp m (fun _ => same_view w) noflt w -> vendor_ok w ->
  (forall a w', vendor_ok w' -> same_view w w' -> Q a w') -> wp m Q noflt w.
Proof.
  intros Hm Hw HQ. eapply wp_mono; [exact Hm | | done]. cbn. intros a w' H.
  apply HQ; [by eapply vendor_ok_view | done].
Qed.
Lemma wp_bus {A} (m : act D A) w (Q : A -> world D -> Prop) :
  keeps m -> vendor_ok w -> (forall a w', vendor_ok w' -> same_view w w' -> Q a w') ->
  wp m Q noflt w.
Proof. intros Hm. apply wp_keeps, Hm. Qed.
Lemma wp_when_rb n m w (Q : Z -> world D -> Prop) :
  vendor_ok w -> 0 <= n <= 3 ->
  (forall w', vendor_ok w' -> same_view w w' -> wp m Q noflt w') ->
  (forall w', vendor_ok w' -> same_view w w' -> Q (- NAND_FAILED) w') ->
  wp (when_rb n m) Q noflt w.
Proof.
  intros Hw Hn Hm HQ. apply wp_bind, wp_keeps; [apply runs_quene_rb; [apply _|done] | done|].
  intros r w' Hw' Hv. destruct (truthy r); [by apply wp_ret, HQ | by apply Hm].
Qed.
Lemma wp_or_failed m k w (Q : Z -> world D -> Prop) :
  wp m (fun _ => same_view w) noflt w -> vendor_ok w ->
  (forall w', vendor_ok w' -> same_view w w' -> wp k Q noflt w') ->
  (forall w', vendor_ok w' -> Q (- NAND_FAILED) w') -> wp (or_failed m k) Q noflt w.
Proof.
  intros Hm Hw Hk HQ. apply wp_bind, wp_keeps; [done..|].
  intros r w' Hw' Hv. destruct (truthy r); [by apply wp_ret, HQ | by apply Hk].
Qed.

(** The entry a Hynix chip tries next is one of the table. *)
Lemma wp_hynix_cnt cur limit w (Q : Z -> world D -> Prop) E :
  0 < limit -> 0 <= cur -> (forall x, 0 <= x < limit -> Q x w) -> wp (hynix_cnt cur limit) Q E w.
Proof.
  intros Hl Hc HQ. unfold hynix_cnt. destruct (Z.ltb_spec cur limit).
  - apply wp_ret, HQ. lia.
  - apply wp_bind, wp_div; [lia|]. apply wp_bind, wp_mod; [lia|]. apply wp_mod; [lia|].
    apply HQ, Z.mod_pos_bound. done.
Qed.

Lemma keeps_hynix_value type r chipnr cur i :
  retry_ok r -> r.(retry_ops) = RetryHynix -> 0 <= chipnr <= 3 -> 0 <= cur < READ_RETRY_CNT ->
  0 <= i < 8 -> keeps (hynix_value type r chipnr cur i).
Proof.
  intros [] Ho Hn Hc Hi w. unfold hynix_value. unfold READ_RETRY_CNT in *. case_match.
  - apply wp_bind, (wp_row2 _ 4 30 8); [done | lia..|]. intros l Hl.
    apply wp_bind, wp_elem; [lia|]. case_match; [by apply wp_ret|].
    apply wp_bind, (wp_row _ 4 8); [done | lia |]. intros d Hd.
    apply wp_bind, wp_elem; [lia|]. by apply wp_ret.
  - case_match; [|by apply wp_ret].
    apply wp_bind, (wp_row2 _ 4 30 8); [done | lia..|]. intros l Hl.
    apply wp_elem; [lia | done].
Qed.

Lemma wp_reg_values n f w (Q : list Z -> world D -> Prop) :
  n <= 8 -> (forall i, 0 <= i < n -> keeps (f i)) ->
  (forall l w', length l = 8%nat -> same_view w w' -> Q l w') ->
  wp (reg_values 8 n f) Q noflt w.
Proof.
  intros Hn Hf HQ. unfold reg_values. apply wp_bind.
  apply (wp_for (fun m i l w' => i + Z.of_nat m = Z.max 0 n /\ 0 <= i /\ length l = 8%nat /\
                                 same_view w w')).
  - intros i l w' (_ & _ & Hl & Hv). by apply wp_ret, HQ.
  - intros m i l w' (Hm & Hi & Hl & Hv). apply wp_bind, (wp_runs same_view); [apply Hf; lia|].
    intros v w2 H2. unfold check_index. rewrite Hl, inside_true by (clear - Hm Hi Hn; lia).
    apply wp_bind, wp_ret, wp_ret. rewrite length_insert.
    split; [lia|]. split; [lia|]. split; [done|]. by etransitivity.
  - split; [lia|]. done.
Qed.

(** A handler or exit function of a set-up chip. *)
Definition keeps_tables (m : act D Z) (v : retry_vendor) : Prop :=
  forall w, vendor_ok w -> w.(w_chip).(controller).(retry_info).(retry_ops) = v ->
    wp m (fun _ => vendor_ok) noflt w.

Lemma handle_hynix_tables n : 0 <= n <= 3 -> keeps_tables (readretry_handle_hynix n) RetryHynix.
Proof.
  intros Hn w Hw Ho. unfold readretry_handle_hynix. flash_type.
  pose proof (vo_retry w Hw) as Hr. pose proof Hr as [].
  apply wp_bind, wp_chip. destruct ro_lp0 as [Hl Hp]. apply wp_bind, wp_elem; [lia|].
  apply wp_bind, wp_hynix_cnt; [lia | |].
  { unfold arr. destruct (nth_lookup_or_length (cur_cnt_lp (retry_info (controller (w_chip w))))
      (Z.to_nat n) 0) as [E|E]; [|lia]. rewrite Forall_lookup in Hp. by eapply Hp. }
  intros x Hx. rewrite Ho in ro_cnt0. cbn in ro_cnt0.
  apply wp_bind, wp_reg_values; [lia | |].
  { intros i Hi. apply keeps_hynix_value; try done; lia. }
  intros l w1 Hll H1. pose proof (vendor_ok_view _ _ H1 Hw) as Hw1.
  apply wp_bind, wp_keeps; [apply keeps_set_reg_hynix; [lia..|done] | done|]. intros _r w2 Hw2 H2.
  apply wp_bind, wp_keeps; [apply runs_udelay, _ | done|]. intros _u w3 Hw3 H3.
  pose proof (ro_lp _ (vo_retry _ Hw3)) as [Hl3 _].
  apply wp_bind, wp_chip, wp_bind, wp_elem; [lia|].
  apply wp_bind, wp_set_cur_lp; [done..| |].
  - intros H. destruct H. unfold same_view, vendor_view in *. congruence.
  - intros w4 Hw4. by apply wp_ret.
Qed.

Lemma retry_lower_tables set_reg n v :
  0 <= n <= 3 -> v <> RetryHynix -> sets_registers set_reg -> keeps_tables (retry_lower set_reg n) v.
Proof.
  intros Hn Hv Hset w Hw Ho. unfold retry_lower. pose proof (vo_retry w Hw) as [].
  pose proof (ro_rows0 ltac:(congruence)) as Hrows. pose proof (rows_in_arr _ n Hrows Hn) as Hc.
  assert (READ_RETRY_CNT = 30) as E30 by done.
  destruct ro_lp0 as [Hl _]. apply wp_bind, wp_chip, wp_bind, wp_elem; [lia|].
  apply wp_bind, (wp_row2 _ 4 30 8); [done | lia..|]. intros l Hll.
  assert (reg_room (retry_ops (retry_info (controller (w_chip w)))) <= 8)
    by (clear; by destruct (retry_ops _)).
  apply wp_or_failed; [apply Hset; [lia..|done] | done | | done].
  intros w1 Hw1 H1. apply wp_bind, wp_set_cur_lp; [done..| |].
  - intros _. apply next_cnt_range; lia.
  - intros w2 Hw2. by apply wp_ret.
Qed.
Lemma keeps_tables_if (b : Z -> bool) m v :
  keeps_tables m v -> keeps_tables (type ← flash_ new_type; if b type then mret 0 else m) v.
Proof. intros Hm w Hw Ho. flash_type. by apply Hm. Qed.

Lemma wp_upper_page w (Q : bool -> world D -> Prop) E :
  vendor_ok w -> (forall b, Q b w) -> wp upper_page Q E w.
Proof.
  intros [] HQ. unfold upper_page. wp_steps. apply wp_div; [done|].
  wp_steps. apply wp_mod; [|by apply wp_ret].
  unfold shl32, wrap. set (k := _ - _) in *. rewrite Z.shiftl_1_l.
  assert (2 ^ k < 2 ^ 32) by (apply Z.pow_lt_mono_r; lia).
  assert (0 < 2 ^ k) by (apply Z.pow_pos_nonneg; lia).
  rewrite Z.mod_small; lia.
Qed.

Lemma handle_intel_tables n : 0 <= n <= 3 -> keeps_tables (readretry_handle_intel n) RetryIntel.
Proof.
  intros Hn w Hw Ho. unfold readretry_handle_intel. flash_type.
  pose proof (vo_retry w Hw) as []. assert (READ_RETRY_CNT = 30) as E30 by done.
  pose proof (ro_rows0 ltac:(congruence)) as Hrows. pose proof (rows_in_arr _ n Hrows Hn) as Hc.
  rewrite Ho in ro_cnt0. cbn in ro_cnt0. destruct ro_lp0 as [Hl _].
  assert (length (le_bytes 4 1) = 4%nat) as H4 by apply length_le_bytes.
  apply wp_bind, wp_chip, wp_bind, wp_elem; [lia|].
  apply wp_bind, wp_keeps; [| done |].
  - case_match; [|by apply wp_ret]. apply keeps_set_reg_micron; rewrite ?length_drop; [lia..|done].
  - intros r w1 Hw1 H1. case_match; [by apply wp_ret|].
    apply wp_bind, (wp_row2 _ 4 30 8); [done | lia..|]. intros l Hll.
    apply wp_or_failed; [apply keeps_set_reg_micron; [lia..|done] | done | | done].
    intros w2 Hw2 H2. apply wp_bind, wp_keeps; [apply runs_idle_selected, _ | done|].
    intros _u w3 Hw3 H3. apply wp_bind, wp_set_cur_lp; [done..| |].
    + intros _. apply next_cnt_range; lia.
    + intros w4 Hw4. by apply wp_ret.
Qed.

Lemma handle_sandisk_tables n :
  0 <= n <= 3 -> keeps_tables (readretry_handle_sandisk n) RetrySandisk.
Proof.
  intros Hn w Hw Ho. unfold readretry_handle_sandisk.
  apply wp_bind, wp_upper_page; [done|]. intros [|].
  - pose proof (vo_retry w Hw) as []. pose proof (rows_in_arr _ n ro_up0 Hn) as Hc.
    assert (READ_RETRY_CNT = 30) as E30 by done. pose proof (proj1 ro_up0).
    apply wp_bind, wp_chip, wp_bind, wp_elem; [lia|].
    apply wp_bind, (wp_row2 _ 4 30 8); [done | lia..|]. intros l Hll.
    apply wp_or_failed; [apply keeps_set_reg_sandisk; [lia..|done] | done | | done].
    intros w1 Hw1 H1. apply wp_bind, wp_set_cur_up; [done..| |].
    + apply next_cnt_range; lia.
    + intros w2 Hw2 _. by apply wp_ret.
  - by apply (retry_lower_tables _ _ RetrySandisk); [| |apply keeps_set_reg_sandisk|..].
Qed.

(** The handler moves only the counter of the upper pages. *)
Lemma handle_a19_moves n w :
  0 <= n <= 3 -> vendor_ok w -> ops_of w = RetrySandiskA19 ->
  wp (readretry_handle_a19_sandisk n) (fun _ w' => vendor_ok w' /\ retry_of w' =
    let r := retry_of w in
    set_cur_cnt_up (<[Z.to_nat n := u8 (next_cnt (arr r.(cur_cnt_up) n) r.(retry_cnt_up))]>
                      r.(cur_cnt_up)) r) noflt w.
Proof.
  intros Hn Hw Ho. unfold readretry_handle_a19_sandisk.
  apply wp_bind, wp_upper_page; [done|]. intros up. pose proof (vo_retry w Hw) as [].
  pose proof (rows_in_arr _ n ro_up0 Hn) as Hc. pose proof (proj1 ro_up0).
  assert (READ_RETRY_CNT = 30) as E30 by done. rewrite Ho in ro_cnt0. cbn in ro_cnt0.
  apply wp_bind, wp_chip, wp_bind, wp_elem; [lia|].
  apply wp_bind, (wp_row2 _ 4 30 8); [done | destruct up; lia | lia |]. intros l Hll.
  apply wp_bind, wp_elem; [lia|].
  apply wp_bind, wp_keeps; [apply keeps_set_reg_a19; lia | done |]. intros _r w1 Hw1 H1.
  do 2 (apply wp_bind, wp_bus; [keep | done |]; intros ? ? ? ?).
  apply wp_bind, wp_chip. do 3 (apply wp_bind, wp_bus; [keep | done |]; intros ? ? ? ?).
  apply wp_bind, wp_set_cur_up; [done..| |].
  - apply next_cnt_range; lia.
  - intros w4 Hw4 E4. apply wp_ret. split; [done|]. rewrite E4.
    unfold same_view, vendor_view in *. repeat match goal with
      H : (_, _) = (_, _) |- _ => injection H as ? ? ? ? ? ? end. congruence.
Qed.
Lemma handle_a19_tables n :
  0 <= n <= 3 -> keeps_tables (readretry_handle_a19_sandisk n) RetrySandiskA19.
Proof.
  intros Hn w Hw Ho. eapply wp_mono; [by apply handle_a19_moves | | done]. by intros ? ? [].
Qed.

(** *** Going back to the default registers *)
Lemma exit_hynix_tables n : 0 <= n <= 3 -> keeps_tables (readretry_set_def_val_hynix n) RetryHynix.
Proof.
  intros Hn w Hw Ho. unfold readretry_set_def_val_hynix. flash_type.
  apply wp_bind, wp_clear_cur_lp; [done|]. intros w1 Hw1 _. pose proof (vo_retry w1 Hw1) as [].
  assert (reg_room (retry_ops (retry_info (controller (w_chip w1)))) <= 8)
    by (clear; by destruct (retry_ops _)).
  apply wp_bind, wp_chip, wp_bind, (wp_row _ 4 8); [done | lia |]. intros l Hl.
  apply wp_bind, wp_keeps; [apply keeps_set_reg_hynix; [lia..|done] | done |].
  intros r w2 Hw2 H2. apply wp_bind, wp_keeps; [apply runs_udelay, _ | done |].
  intros _u w3 Hw3 H3. case_match; [|by apply wp_ret].
  pose proof (vo_slc w3 Hw3) as [].
  apply wp_bind, wp_chip, wp_bind, (wp_row _ 4 8); [done | lia |]. intros d Hd.
  eapply wp_mono; [apply keeps_set_reg_hynix; [lia..|done] | | done].
  cbn. intros _r w4 H4. by eapply vendor_ok_view.
Qed.

Lemma wp_reset_chip n w : 0 <= n <= 3 -> vendor_ok w ->
  wp (reset_chip n) (fun _ => vendor_ok) noflt w.
Proof. intros Hn Hw. by apply wp_keeps; [apply keeps_reset_chip|..]. Qed.

Lemma exit_toshiba_tables n : 0 <= n <= 3 -> keeps_tables (readretry_exit_toshiba n) RetryToshiba.
Proof.
  intros Hn w Hw Ho. apply wp_when_rb; [done..| |done]. intros w1 Hw1 H1.
  apply wp_bind, wp_clear_cur_lp; [done|]. intros w2 Hw2 Ho2.
  assert (ops_of w2 = RetryToshiba) as Ho2'
    by (rewrite Ho2; unfold same_view, vendor_view in H1; cbn; congruence).
  apply wp_bind, wp_chip, wp_bind, wp_keeps; [|done|].
  - destruct (negb _); [|by apply wp_ret]. pose proof (vo_retry w2 Hw2) as [].
    rewrite Ho2' in ro_cnt0. cbn in ro_cnt0. assert (length (zeros 5) = 5%nat) by done.
    apply wp_bind, wp_chip. apply keeps_each. intros i Hi. cbv beta. keep.
  - intros _u w3 Hw3 H3. by apply wp_reset_chip.
Qed.

Lemma exit_samsung_tables n : 0 <= n <= 3 -> keeps_tables (readretry_exit_samsung n) RetrySamsung.
Proof.
  intros Hn w Hw Ho. unfold readretry_exit_samsung. flash_type.
  apply wp_when_rb; [done..| |done]. intros w1 Hw1 H1.
  apply wp_bind, wp_clear_cur_lp; [done|]. intros w2 Hw2 _. pose proof (vo_retry w2 Hw2) as [].
  assert (reg_room (retry_ops (retry_info (controller (w_chip w2)))) <= 8)
    by (clear; by destruct (retry_ops _)).
  apply wp_bind, wp_chip, wp_bind, (wp_row2 _ 4 30 8); [done | lia..|]. intros l Hl.
  apply wp_or_failed; [apply keeps_set_reg_samsung; [lia..|done] | done | | done].
  intros w3 Hw3 H3. by apply wp_ret.
Qed.

Lemma exit_micron_tables n : 0 <= n <= 3 -> keeps_tables (readretry_exit_micron n) RetryMicron.
Proof.
  intros Hn w Hw Ho. unfold readretry_exit_micron. flash_type.
  apply wp_when_rb; [done..| |done]. intros w1 Hw1 H1.
  apply wp_bind, wp_clear_cur_lp; [done|]. intros w2 Hw2 _. pose proof (vo_retry w2 Hw2) as [].
  assert (reg_room (retry_ops (retry_info (controller (w_chip w2)))) <= 8)
    by (clear; by destruct (retry_ops _)).
  apply wp_bind, wp_chip, wp_bind, (wp_row _ 4 8); [done | lia |]. intros l Hl.
  apply wp_or_failed; [apply keeps_set_reg_micron; [lia..|done] | done | | done].
  intros w3 Hw3 H3. by apply wp_ret.
Qed.

Lemma exit_intel_tables n : 0 <= n <= 3 -> keeps_tables (readretry_exit_intel n) RetryIntel.
Proof.
  intros Hn w Hw Ho. unfold readretry_exit_intel. flash_type.
  apply wp_when_rb; [done..| |done]. intros w1 Hw1 H1.
  apply wp_bind, wp_clear_cur_lp; [done|]. intros w2 Hw2 E2.
  assert (ops_of w2 = RetryIntel) as Ho2
    by (rewrite E2; unfold same_view, vendor_view in H1; cbn; congruence).
  pose proof (vo_retry w2 Hw2) as []. rewrite Ho2 in ro_cnt0. cbn in ro_cnt0.
  apply wp_bind, wp_chip, wp_bind, (wp_row _ 4 8); [done | lia |]. intros l Hl.
  apply wp_or_failed; [apply keeps_set_reg_micron; [lia..|done] | done | | done].
  intros w3 Hw3 H3.
  apply wp_or_failed; [apply keeps_set_reg_micron; rewrite ?length_drop; [lia..|done] | done | | done].
  intros w4 Hw4 H4. by apply wp_ret.
Qed.

Lemma exit_sandisk_tables n :
  0 <= n <= 3 -> keeps_tables (readretry_exit_sandisk n) RetrySandisk.
Proof.
  intros Hn w Hw Ho. apply wp_when_rb; [done..| |done]. intros w1 Hw1 H1.
  apply wp_bind, wp_clear_cur_lp; [done|]. intros w2 Hw2 _.
  apply wp_bind, wp_clear_cur_up; [done|]. intros w3 Hw3.
  apply wp_bind, wp_bus; [keep | done |]. intros _u w4 Hw4 _.
  apply wp_or_failed; [apply keeps_init_sandisk | done | | done]. intros w5 Hw5 _.
  apply wp_when_rb; [done..| |done]. intros w6 Hw6 _. by apply wp_reset_chip.
Qed.

Lemma exit_a19_moves n w :
  0 <= n <= 3 -> vendor_ok w -> ops_of w = RetrySandiskA19 ->
  wp (readretry_exit_a19_sandisk n) (fun _ w' => vendor_ok w' /\
    (retry_of w' = retry_of w \/ retry_of w' = set_cur_cnt_lp (zeros 4) (retry_of w))) noflt w.
Proof.
  intros Hn Hw Ho.
  assert (forall w1 w2, same_view w1 w2 -> retry_of w2 = retry_of w1) as Hv
    by (unfold same_view, vendor_view; intros; congruence).
  apply wp_when_rb; [done..| |by eauto]. intros w1 Hw1 H1.
  apply wp_bind, wp_clear_cur_lp; [done|]. intros w2 Hw2 E2. rewrite (Hv _ _ H1) in E2.
  pose proof (vo_retry w2 Hw2) as []. rewrite E2 in ro_cnt0. cbn in ro_cnt0.
  rewrite Ho in ro_cnt0. cbn in ro_cnt0. assert (length (zeros 4) = 4%nat) by done.
  apply wp_bind, wp_chip, wp_bind, wp_elem; [lia|].
  apply wp_bind, wp_keeps; [apply keeps_set_reg_a19; [done|]; rewrite E2; cbn; lia | done |].
  intros _r w3 Hw3 H3. apply Hv in H3.
  apply wp_when_rb; [done..| |]; intros w4 Hw4 H4; apply Hv in H4;
    [apply wp_keeps; [apply keeps_reset_chip, Hn | done |]; intros _r' w5 Hw5 H5; apply Hv in H5 |];
    (split; [done|]; right; congruence).
Qed.
Lemma exit_a19_tables n :
  0 <= n <= 3 -> keeps_tables (readretry_exit_a19_sandisk n) RetrySandiskA19.
Proof.
  intros Hn w Hw Ho. eapply wp_mono; [by apply exit_a19_moves | | done]. by intros ? ? [].
Qed.
End VendorRuns.

(** ** Properties *)
Section VendorProperties.
Context {D : Type} `{!NandHw D}.
Implicit Types w : world D.


(** What the chip operations call while pages are read. *)
Inductive retry_call :=
  | CallHandle (chipnr : Z)
  | CallExit (chipnr : Z).
Definition call_chip (c : retry_call) : Z :=
  match c with CallHandle n | CallExit n => n end.
Definition run_call (c : retry_call) : act D Z :=
  match c with
  | CallHandle n => vendor_hooks.(retry_handle) n
  | CallExit n => vendor_hooks.(retry_exit) n
  end.
Fixpoint run_calls (l : list retry_call) : act D unit :=
  match l with
  | [] => mret tt
  | c :: l' => ret ← run_call c; run_calls l'
  end.

Lemma run_call_tables c w :
  vendor_ok w -> 0 <= call_chip c <= 3 -> wp (run_call c) (fun _ => vendor_ok) noflt w.
Proof.
  intros Hw Hc. pose proof (vo_set w Hw) as Hset.
  destruct c as [n|n]; apply wp_bind, wp_chip; cbv beta; destruct (retry_ops _) eqn:Ho.
  - done.
  - by apply handle_hynix_tables.
  - apply (retry_lower_tables _ _ RetryToshiba); try done. apply keeps_set_reg_toshiba.
  - unfold readretry_handle_samsung. flash_type.
    apply (retry_lower_tables _ _ RetrySamsung); try done. apply keeps_set_reg_samsung.
  - unfold readretry_handle_micron. flash_type.
    apply (retry_lower_tables _ _ RetryMicron); try done. apply keeps_set_reg_micron.
  - by apply handle_intel_tables.
  - by apply handle_sandisk_tables.
  - by apply handle_a19_tables.
  - done.
  - by apply exit_hynix_tables.
  - by apply exit_toshiba_tables.
  - by apply exit_samsung_tables.
  - by apply exit_micron_tables.
  - by apply exit_intel_tables.
  - by apply exit_sandisk_tables.
  - by apply exit_a19_tables.
Qed.

(** C33: Set up for any supported type, the vendor functions never leave their
    tables and never fault: whatever the chips answer and in whatever order
    pages are retried and given up, every index stays inside. *)
Theorem retry_stays_in_tables type retry slc calls w :
  retry_para type = Some (retry, slc) ->
  w.(w_chip).(controller).(retry_info) = retry0 -> w.(w_chip).(controller).(slc_info) = slc0 ->
  w.(w_chip).(flash).(pagesize) <> 0 ->
  0 <= w.(w_chip).(controller).(block_shift) - w.(w_chip).(controller).(page_shift) < 32 ->
  Forall (fun c => 0 <= call_chip c < MAX_CHIP_NUM) calls ->
  wp (upd_retry retry ;; upd_slc slc ;; run_calls calls) (fun _ => vendor_ok) noflt w.
Proof.
  intros Hp Hr Hs Hpage Hshift Hc. destruct (retry_para_ok _ _ _ Hp) as (H1 & H2 & H3).
  apply wp_bind, wp_upd_chip, wp_bind, wp_upd_chip. cbn. rewrite Hr, Hs.
  match goal with |- wp _ _ _ ?w' => assert (vendor_ok w') as Hw by (by split) end.
  revert Hw. generalize (set_w_chip (set_controller (set_slc_info (slc slc0)
    (set_retry_info (retry retry0) (controller (w_chip w)))) (set_controller
    (set_retry_info (retry retry0) (controller (w_chip w))) (w_chip w)))
    (set_w_chip (set_controller (set_retry_info (retry retry0) (controller (w_chip w)))
    (w_chip w)) w)). clear Hp Hr Hs Hpage Hshift.
  induction Hc as [|c l Hc _ IH]; intros w' Hw; cbn [run_calls]; [by apply wp_ret|].
  apply wp_bind. eapply wp_mono; [apply run_call_tables; [done|] | | done].
  - unfold MAX_CHIP_NUM in Hc. lia.
  - cbn. intros _r w2. apply IH.
Qed.

(** ** The order of the entries on Hynix chips *)
Lemma turned_perm (n z : nat) :
  (0 < n)%nat -> map (fun k => (z + k) mod n)%nat (seq 0 n) ≡ₚ seq 0 n.
Proof.
  intros Hn. apply NoDup_Permutation_bis.
  - apply NoDup_ListNoDup. apply NoDup_fmap_2_strong; [|apply NoDup_seq].
    intros x y Hx Hy E. apply elem_of_seq in Hx, Hy.
    pose proof (Nat.div_mod_eq (z + x) n) as Hx'. pose proof (Nat.div_mod_eq (z + y) n) as Hy'.
    rewrite E in Hx'. set (q := ((z + x) / n)%nat) in *. set (q' := ((z + y) / n)%nat) in *.
    clearbody q q'. assert (q = q' \/ q + 1 <= q' \/ q' + 1 <= q)%nat as [->|[|]] by lia; nia.
  - rewrite length_map, !length_seq. lia.
  - intros x Hx. apply in_map_iff in Hx as (k & <- & Hk). apply in_seq.
    pose proof (Nat.mod_upper_bound (z + k) n). lia.
Qed.


(** Every counter of the upper pages is 0, and stays so. *)
Definition a19_stuck w : Prop :=
  vendor_ok w /\ ops_of w = RetrySandiskA19 /\ (retry_of w).(retry_cnt_up) = 0 /\
  (retry_of w).(cur_cnt_up) = zeros 4.

Lemma a19_stuck_call c w :
  a19_stuck w -> 0 <= call_chip c <= 3 -> wp (run_call c) (fun _ => a19_stuck) noflt w.
Proof.
  intros (Hw & Ho & Hc & Hz) Hn.
  destruct c as [n|n]; apply wp_bind, wp_chip; cbv beta; rewrite Ho; cbn in Hn.
  - eapply wp_mono; [by apply handle_a19_moves | | done]. cbn. intros _r w' [Hw' E].
    split; [done|]. rewrite E. cbn. split_and!; [done..|]. rewrite Hc, Hz.
    assert (n = 0 \/ n = 1 \/ n = 2 \/ n = 3) as [-> | [-> | [-> | ->]]] by lia; reflexivity.
  - eapply wp_mono; [by apply exit_a19_moves | | done]. cbn.
    intros _r w' [Hw' [E|E]]; (split; [done|]); by rewrite E.
Qed.

(** On the Sandisk A19nm chips only [retry_cnt_lp] is set, but the handler
    moves the counter of the upper pages modulo [retry_cnt_up], which is 0: the
    counter stays 0, so every one of the 29 or 30 retries sets the first entry
    of the table. *)
Theorem a19_only_first_entry type retry slc calls w :
  type = SANDISK_A19NM \/ type = SANDISK_A19NM_4G ->
  retry_para type = Some (retry, slc) ->
  w.(w_chip).(controller).(retry_info) = retry retry0 -> slc_ok w.(w_chip).(controller).(slc_info) ->
  w.(w_chip).(flash).(pagesize) <> 0 ->
  0 <= w.(w_chip).(controller).(block_shift) - w.(w_chip).(controller).(page_shift) < 32 ->
  Forall (fun c => 0 <= call_chip c < MAX_CHIP_NUM) calls ->
  29 <= (retry retry0).(retry_cnt_lp) /\
  wp (run_calls calls)
     (fun _ w' => (w_chip w').(controller).(retry_info).(cur_cnt_up) = zeros 4) noflt w.
Proof.
  intros Ht Hp Hr Hs Hpage Hshift Hc. pose proof (retry_para_ok _ _ _ Hp) as (H1 & _ & H3).
  assert (29 <= retry_cnt_lp (retry retry0) /\ retry_ops (retry retry0) = RetrySandiskA19 /\
    retry_cnt_up (retry retry0) = 0 /\ cur_cnt_up (retry retry0) = zeros 4)
    as (H29 & Ho & Hup & Hz) by (destruct Ht as [-> | ->]; injection Hp as <- <-; by split; [vm_compute|]).
  split; [done|].
  assert (a19_stuck w) as Hw
    by (unfold a19_stuck; rewrite Hr; split_and!; try done; split; rewrite ?Hr; done).
  clear - Hc Hw. revert w Hw. induction Hc as [|c l Hc _ IH]; intros w Hw; cbn [run_calls].
  - by apply wp_ret, Hw.
  - apply wp_bind. eapply wp_mono; [apply a19_stuck_call; [done|] | | done].
    + unfold MAX_CHIP_NUM in Hc. lia.
    + cbn. intros _r w2. apply IH.
Qed.

Lemma wp_wait_fifo_log n w l :
  w_log w = l -> wp (wait_fifo n) (fun _ w' => w_log w' = l /\ same_view w w') noflt w.
Proof.
  revert w. induction n as [|n IH]; intros w Hl; cbn; [by apply wp_ret|].
  unfold NFC_CMDFIFO_SIZE, NFC_INFO_GET. wp_steps. unfold wp at 1, device_read.
  destruct (hw_info _ _) as [v [d m]]. wp_steps.
  destruct (0 <? _); [|by apply wp_ret]. eapply wp_mono; [by apply IH | | done].
  cbn. intros _u w' [H1 H2]. split; [done|]. etransitivity; [|exact H2]. done.
Qed.

(** On Intel chips the registers are written with a function that does
    nothing but for Micron's type: a retry reports success, and all the
    controller is told is to wait. *)
Theorem intel_retry_changes_nothing n w :
  vendor_ok w -> w.(w_chip).(flash).(new_type) = INTEL_20NM ->
  w.(w_chip).(controller).(retry_info).(retry_ops) = RetryIntel -> 0 <= n <= 3 ->
  wp (vendor_hooks.(retry_handle) n)
     (fun ret w' => ret = 0 /\ exists ce, w_log w' = Idle ce 10 :: w_log w) noflt w.
Proof.
  intros Hw Ht Ho Hn. apply wp_bind, wp_chip. cbv beta. rewrite Ho.
  pose proof (vo_retry w Hw) as []. assert (READ_RETRY_CNT = 30) as E30 by done.
  pose proof (ro_rows0 ltac:(congruence)) as Hrows. pose proof (rows_in_arr _ n Hrows Hn) as Hc.
  assert (forall b a c w, new_type (flash (w_chip w)) = INTEL_20NM ->
    set_reg_value_micron b a n c w = Done 0 w) as Hnop.
  { intros b a c w0 E. unfold set_reg_value_micron, mbind, M_bind, flash_, chip, gets.
    by rewrite E. }
  unfold readretry_handle_intel. apply wp_bind, wp_chip. cbv beta. rewrite Ht. cbn [negb Z.eqb].
  rewrite Z.eqb_refl. cbn [negb]. destruct ro_lp0 as [Hl _].
  apply wp_bind, wp_chip, wp_bind, wp_elem; [lia|].
  apply wp_bind. apply (wp_mono _ (fun r w' => r = 0 /\ w' = w) _ noflt _); [|cbn|done].
  { case_match; [unfold wp; by rewrite Hnop | by apply wp_ret]. }
  intros r ? [-> ->]. cbn [truthy Z.eqb negb].
  apply wp_bind, (wp_row2 _ 4 30 8); [done | lia..|]. intros l Hll.
  apply wp_bind. unfold wp at 1. rewrite Hnop by done. cbn [truthy Z.eqb negb].
  unfold idle_selected, NFC_SEND_CMD_IDLE, NFC_WAIT_FIFO_EMPTY. apply wp_bind, wp_bind, wp_chip.
  apply wp_bind. eapply wp_mono; [by apply wp_wait_fifo_log | cbn | done].
  intros _u w1 [Hl1 H1]. pose proof (vendor_ok_view _ _ H1 Hw) as Hw1.
  unfold NFC_SEND_CMD. apply wp_bind, wp_modify. unfold wp at 1, device.
  destruct (hw_cmd _ _ _) as [d m]. unfold set_cur_lp, check_index, upd_retry.
  wp_steps. pose proof (ro_lp _ (vo_retry _ Hw1)) as [Hl2 _]. cbn. rewrite Hl2.
  rewrite inside_true by (clear - Hn; lia). wp_steps. split; [done|]. cbn. rewrite Hl1. eauto.
Qed.
End VendorProperties.

(** ** A chip that is always ready *)
Module VendorWitness.
#[local] Instance hw : NandHw unit := {
  hw_cmd _ d m := (d, m);
  hw_info d m := (0, (d, m));
  hw_buf d m := (NAND_STATUS_READY, (d, m));
  hw_cfg _ _ d m := (d, m);
  hw_wait d m := (d, m);
  hw_virt _ := 0
}.

(** Pages of 16 KiB in blocks of 4 MiB. *)
Definition zeroed : world unit :=
  set_w_chip (set_flash (mk_flash 16384 8192 0x400000 1280 1 20 25 0 SANDISK_A19NM 0 [])
    (set_controller (set_page_shift 14 (set_block_shift 22 ctl0)) chip0)) (world0 tt).
Definition with_retry (r : read_retry_info) (type : Z) (w : world unit) : world unit :=
  set_w_chip (set_flash (set_new_type type w.(w_chip).(flash))
    (set_controller (set_retry_info r w.(w_chip).(controller)) w.(w_chip))) w.
Definition session : list retry_call := [CallHandle 0; CallHandle 1; CallExit 0; CallHandle 3].

Lemma slc0_ok : slc_ok slc0.
Proof. repeat split; repeat constructor; done. Qed.

Example retry_stays_in_tables_witness :
  wp (upd_retry sandisk_19nm_retry ;; upd_slc sandisk_19nm_slc ;; run_calls session)
     (fun _ => vendor_ok) noflt zeroed.
Proof.
  apply (retry_stays_in_tables SANDISK_19NM);
    [reflexivity | reflexivity | reflexivity | discriminate | vm_compute; split; congruence |].
  repeat constructor; cbn; discriminate.
Defined.

Example hynix_third_round : hynix_cnt 14 7 zeroed = Done 2 zeroed.
Proof. reflexivity. Qed.

Example a19_only_first_entry_witness :
  29 <= (sandisk_a19nm_retry retry0).(retry_cnt_lp) /\
  wp (run_calls session)
     (fun _ w' => (w_chip w').(controller).(retry_info).(cur_cnt_up) = zeros 4) noflt
     (with_retry (sandisk_a19nm_retry retry0) SANDISK_A19NM zeroed).
Proof.
  apply (a19_only_first_entry SANDISK_A19NM _ (fun s => s));
    [by left | reflexivity | reflexivity | apply slc0_ok | discriminate
    | vm_compute; split; congruence |].
  repeat constructor; cbn; discriminate.
Defined.

Lemma intel_ok : vendor_ok (with_retry (intel_20nm_retry retry0) INTEL_20NM zeroed).
Proof.
  destruct (retry_para_ok INTEL_20NM _ _ eq_refl) as (H1 & H2 & H3).
  split; [done | done | done | done |]. vm_compute. split; congruence.
Qed.
Example intel_retry_changes_nothing_witness :
  let w := with_retry (intel_20nm_retry retry0) INTEL_20NM zeroed in
  wp (vendor_hooks.(retry_handle) 2)
     (fun ret w' => ret = 0 /\ exists ce, w_log w' = Idle ce 10 :: w_log w) noflt w.
Proof.
  apply intel_retry_changes_nothing; [apply intel_ok | reflexivity | reflexivity | lia].
Defined.
End VendorWitness.
