(* ===== verification/PageStore.v ===== *)
(** * PageStore: metadata over a chip that keeps what it is given.

    The interface [PageStore] says what the metadata code of [ChipEnv] needs of
    the operations below it: a page that was written reads back as it was, and
    nothing else changes.  Against it: an item that was copied to a block is
    read back byte by byte.  At the end a perfect chip, which has the interface
    and on which the theorems of [ChipEnv] are run. *)
From S2P Require Import Prelude NfcWords Data Machine Guards Ctrl HwController ChipOp ChipEnv.

#[local] Arguments peek : simpl never.
#[local] Arguments poke : simpl never.

(** ** The interface *)

(** What the metadata code reads of the driver's state between its calls. *)
Definition setup {D} (w : world D) :=
  let c := w.(w_chip) in
  (c.(state), c.(flash), c.(controller).(chip_num), c.(controller).(slc_info),
   (c.(user_page_buf), c.(user_oob_buf)),
   (c.(nand_bbtinfo), c.(shipped_bbtinfo), c.(config_msg), c.(nand_key), c.(nand_secure),
    c.(uboot_env)), c.(reserved_blk),
   (w.(w_mutex), w.(w_idleflag), w.(w_brk), w.(w_oracle), w.(w_allow_meta))).

Lemma setup_inv {D} (w w' : world D) : setup w' = setup w ->
  state (w_chip w') = state (w_chip w) /\ flash (w_chip w') = flash (w_chip w) /\
  chip_num (controller (w_chip w')) = chip_num (controller (w_chip w)) /\
  slc_info (controller (w_chip w')) = slc_info (controller (w_chip w)) /\
  user_page_buf (w_chip w') = user_page_buf (w_chip w) /\
  user_oob_buf (w_chip w') = user_oob_buf (w_chip w).
Proof. unfold setup. intros E. by simplify_eq/=. Qed.
Lemma setup_arg {D} (w w' : world D) i :
  setup w' = setup w -> arg_of i (w_chip w') = arg_of i (w_chip w).
Proof. unfold setup. intros E. destruct i; cbn; congruence. Qed.
Lemma setup_kernel {D} (w w' : world D) : setup w' = setup w ->
  w_mutex w' = w_mutex w /\ w_idleflag w' = w_idleflag w /\ w_brk w' = w_brk w /\
  w_oracle w' = w_oracle w /\ w_allow_meta w' = w_allow_meta w.
Proof. unfold setup. intros E. by simplify_eq/=. Qed.

(** Pages that keep what is written to them.  The power may go while a page is
    written, if [ps_fails]: then nothing is known of that page, and every other
    page is as it was. *)
Class PowerStore {D : Type} `{!NandHw D} (ops : ChipOperation D) := {
  (* data and spare bytes of the page at a chip and page address *)
  page_at : D -> Z * Z -> Datatypes.option (list Z * list Z);
  ps_fails : Prop;
  ps_select : forall n (w : world D), 0 <= n <= 3 ->
    wp (controller_select_chip n)
      (fun _ w' => setup w' = setup w /\ w_mem w' = w_mem w /\
        ops_para (w_chip w') = ops_para (w_chip w) /\
        page_at (w_dev w') = page_at (w_dev w)) noflt w;
  ps_write : forall (w : world D) data oob,
    let c := w_chip w in let o := ops_para c in
    peek (w_mem w) (data_buf o) (pagesize (flash c)) = Some data ->
    peek (w_mem w) (oob_buf o) (ooblen o) = Some oob ->
    wp op_write_page
      (fun r w' => r = 0 /\ setup w' = setup w /\ w_mem w' = w_mem w /\
        forall a, page_at (w_dev w') a =
                  if decide (a = (chipnr o, page_addr o)) then Some (data, oob)
                  else page_at (w_dev w) a)
      (fun f w' => ps_fails /\ f = PowerOff /\
        forall a, a <> (chipnr o, page_addr o) ->
                  page_at (w_dev w') a = page_at (w_dev w) a) w;
  ps_read : forall (w : world D) data oob m m',
    let o := ops_para (w_chip w) in
    page_at (w_dev w) (chipnr o, page_addr o) = Some (data, oob) ->
    Z.of_nat (length oob) = ooblen o ->
    poke (w_mem w) (data_buf o) data = Some m -> poke m (oob_buf o) oob = Some m' ->
    wp op_read_page
      (fun r w' => r = 0 /\ setup w' = setup w /\ w_mem w' = m' /\
        page_at (w_dev w') = page_at (w_dev w) /\ ecc_err (ops_para (w_chip w')) = 0 /\
        ops_option (ops_para (w_chip w')) = ops_option o) noflt w
}.

(** ... with power that does not go. *)
Class PageStore {D : Type} `{!NandHw D} (ops : ChipOperation D) := {
  ps_power :: PowerStore ops;
  ps_steady : ~ ps_fails
}.

(** Page [k] of an item, zeros behind its end. *)
Definition info_page (page : Z) (content : list Z) (k : Z) : list Z :=
  let c := take (Z.to_nat page) (drop (Z.to_nat (k * page)) content) in
  c ++ replicate (Z.to_nat page - length c) 0.

(** The address [point_page] selects. *)
Definition page_of {D} (w : world D) (tmp_blk pages blk t : Z) : Z * Z :=
  let c := w.(w_chip) in
  let type := c.(flash).(new_type) in
  let n := c.(controller).(chip_num) in
  let page := u32 (t + reserved_page n tmp_blk pages blk) in
  (blk mod n, if slc_type type
              then slc_page type page pages c.(controller).(slc_info).(pagelist) else page).

Definition page_option {D} (w : world D) : Z :=
  if slc_type w.(w_chip).(flash).(new_type) then DEV_SLC_MODE else 0.

(** Both user buffers are there and apart, and somebody has the device. *)
Record usable {D} (w : world D) (bp bo : Z) : Prop := {
  us_state : state (w_chip w) <> CHIP_READY;
  us_chips : 1 <= chip_num (controller (w_chip w)) <= 4;
  us_page : 0 < pagesize (flash (w_chip w));
  us_apart : bp <> bo;
  us_data : exists o l, user_page_buf (w_chip w) = Ptr bp o /\
              peek (w_mem w) (Ptr bp o) (pagesize (flash (w_chip w))) = Some l;
  us_oob : exists o l, user_oob_buf (w_chip w) = Ptr bo o /\
              peek (w_mem w) (Ptr bo o) SIZEOF_oobinfo = Some l
}.

(** The memory but for two allocations. *)
Definition same_outside (bp bo : Z) (m m' : memory) : Prop :=
  forall b, b <> bp -> b <> bo -> m' !! b = m !! b.

#[export] Instance same_outside_preorder bp bo : PreOrder (same_outside bp bo).
Proof. split; [done | intros m1 m2 m3 H1 H2 b ??; rewrite H2, H1; done]. Qed.

Lemma same_outside_peek bp bo m m' b o n :
  same_outside bp bo m m' -> b <> bp -> b <> bo ->
  peek m' (Ptr b o) n = peek m (Ptr b o) n.
Proof. intros H ??. unfold peek. by rewrite H. Qed.

Lemma poke_outside bp bo m p bs m' :
  poke m p bs = Some m' -> (exists o, p = Ptr bp o \/ p = Ptr bo o) -> same_outside bp bo m m'.
Proof.
  intros (b & o & a & -> & Ha & ? & ? & ->)%poke_Some [o' [[= -> _]|[= -> _]]] b' ??;
    by rewrite lookup_insert_ne.
Qed.

Section RoundTrip.
Context {D : Type} `{!NandHw D} `{ops : !ChipOperation D} `{!PowerStore ops}.
Implicit Types w : world D.

Lemma wp_store p n l bs (Q : unit -> world D -> Prop) E w :
  peek (w_mem w) p n = Some l -> Z.of_nat (length bs) <= n ->
  (forall m', poke (w_mem w) p bs = Some m' -> Q tt (set_w_mem m' w)) ->
  wp (store_bytes p bs) Q E w.
Proof.
  intros Hp Hl HQ. destruct (peek_poke_Some _ _ _ _ bs Hp Hl) as [m' Hm].
  eapply wp_store_bytes; eauto.
Qed.

(** Between the calls that read and write pages. *)
Definition quiet w w' : Prop :=
  setup w' = setup w /\ w_mem w' = w_mem w /\ page_at (w_dev w') = page_at (w_dev w).

Lemma wp_point_page blk tmp_blk pages t w :
  1 <= chip_num (controller (w_chip w)) <= 4 ->
  wp (point_page blk tmp_blk pages t)
    (fun _ w' => quiet w w' /\
       ops_para (w_chip w') =
         mk_ops (page_of w tmp_blk pages blk t).2 (page_of w tmp_blk pages blk t).1
           Null Null 0 0 0 (page_option w)) noflt w.
Proof.
  intros Hn. unfold point_page, clear_ops. wp_steps.
  apply wp_mod; [cbn; lia|]. wp_steps.
  eapply wp_mono; [apply ps_select | | done].
  { cbn. pose proof (Z.mod_pos_bound blk (chip_num (controller (w_chip w)))). lia. }
  cbn. intros _ w' (Hs & Hm & Ho & Hd). wp_steps. split; [done|]. by rewrite Ho.
Qed.

Lemma when_ready_held (m : act D Z) w Q E :
  state (w_chip w) <> CHIP_READY ->
  wp m (fun r w' => setup w' = setup w /\ Q r w') E w -> wp (when_ready m) Q E w.
Proof.
  intros Hs H. unfold when_ready, get_chip_state. wp_steps.
  rewrite (proj2 (Z.eqb_neq _ _) Hs). cbn [when_]. wp_steps.
  eapply wp_mono; [exact H | | done]. intros r w' [E' HQ]. wp_steps.
  assert (state (w_chip w') = state (w_chip w)) as -> by (unfold setup in E'; congruence).
  rewrite (proj2 (Z.eqb_neq _ _) Hs). cbn [when_]. by wp_steps.
Qed.

Lemma setup_usable w w' bp bo :
  setup w' = setup w -> usable w bp bo ->
  (forall o n l, peek (w_mem w) (Ptr bp o) n = Some l -> exists l', peek (w_mem w') (Ptr bp o) n = Some l') ->
  (forall o n l, peek (w_mem w) (Ptr bo o) n = Some l -> exists l', peek (w_mem w') (Ptr bo o) n = Some l') ->
  usable w' bp bo.
Proof.
  unfold setup. intros E [? ? ? ? (o1 & l1 & ? & H1) (o2 & l2 & ? & H2)] Hp Ho.
  destruct (setup_inv _ _ E) as (Es & Ef & En & _ & Eup & Euo).
  split; rewrite ?Es, ?Ef, ?En, ?Eup, ?Euo; try done.
  - destruct (Hp _ _ _ H1) as [l ?]. by exists o1, l.
  - destruct (Ho _ _ _ H2) as [l ?]. by exists o2, l.
Qed.

Lemma setup_flash w w' : setup w' = setup w -> flash (w_chip w') = flash (w_chip w).
Proof. unfold setup. congruence. Qed.

Lemma setup_page_of w w' a b c d : setup w' = setup w -> page_of w' a b c d = page_of w a b c d.
Proof. unfold page_of. intros E. by destruct (setup_inv _ _ E) as (_ & -> & -> & -> & _). Qed.

(** The user buffers as [blank_user_buffers] and [write_info_page] prepare
    them. *)
Lemma wp_fill (p : ptr) c n l (Q : unit -> world D -> Prop) E w :
  peek (w_mem w) p n = Some l ->
  (forall m', poke (w_mem w) p (replicate (Z.to_nat n) (u8 c)) = Some m' ->
     peek m' p n = Some (replicate (Z.to_nat n) (u8 c)) -> Q tt (set_w_mem m' w)) ->
  wp (memset p c n) Q E w.
Proof.
  intros Hp HQ. assert (0 <= n) by (apply peek_Some in Hp as (?&?&?&?&?&?&?&?); lia).
  eapply wp_store; [done | rewrite length_replicate; lia |].
  intros m' Hm. apply HQ; [done|].
  rewrite (peek_poke_prefix _ _ _ _ _ _ Hp) with (2 := Hm) by (rewrite length_replicate; lia).
  apply peek_length in Hp.
  by rewrite drop_ge, app_nil_r by (rewrite length_replicate, Hp; lia).
Qed.

Lemma info_page_at page (content : list Z) k total :
  length content = Z.to_nat total -> 0 < page -> 0 <= k -> k * page < total ->
  let c := take (Z.to_nat (Z.min page (total - k * page))) (drop (Z.to_nat (k * page)) content) in
  c ++ drop (length c) (replicate (Z.to_nat page) 0) = info_page page content k.
Proof.
  intros Hl ??? c. unfold info_page. rewrite drop_replicate.
  assert (c = take (Z.to_nat page) (drop (Z.to_nat (k * page)) content)) as ->; [|done].
  unfold c. destruct (decide (page <= total - k * page)).
  - f_equal. lia.
  - rewrite !take_ge; [done | rewrite length_drop; lia ..].
Qed.

(** The pages [A t] of a chip, from [lo] on and below [hi], may have changed; no
    other has. *)
Definition untouched (A : Z -> Z * Z) (lo hi : Z) (d d' : D) : Prop :=
  forall a, (forall t, lo <= t < hi -> a <> A t) -> page_at d' a = page_at d a.

(** The power went meanwhile. *)
Definition power_off (A : Z -> Z * Z) (lo hi : Z) w : fault -> world D -> Prop :=
  fun f w' => ps_fails /\ f = PowerOff /\ untouched A lo hi (w_dev w) (w_dev w').

Lemma untouched_refl A lo hi d : untouched A lo hi d d.
Proof. done. Qed.
Lemma untouched_trans A lo hi d1 d2 d3 :
  untouched A lo hi d1 d2 -> untouched A lo hi d2 d3 -> untouched A lo hi d1 d3.
Proof. intros H1 H2 a Ha. by rewrite H2, H1. Qed.
Lemma untouched_mono A lo hi lo' hi' d d' :
  lo' <= lo -> hi <= hi' -> untouched A lo hi d d' -> untouched A lo' hi' d d'.
Proof. intros ?? H a Ha. apply H. intros t Ht. apply Ha. lia. Qed.
Lemma untouched_ext A B lo hi d d' :
  (forall t, A t = B t) -> untouched A lo hi d d' -> untouched B lo hi d d'.
Proof. intros HAB H a Ha. apply H. intros t Ht. rewrite HAB. by apply Ha. Qed.

Lemma wp_write_info_page j blk t k content w bp bo bb ob :
  usable w bp bo -> j_buf j = Ptr bb ob -> bb <> bp -> bb <> bo ->
  j_page j = pagesize (flash (w_chip w)) -> length (j_oob j) = 6%nat ->
  peek (w_mem w) (j_buf j) (j_total j) = Some content ->
  0 <= k -> k * j_page j < j_total j ->
  wp (write_info_page j blk t (k * j_page j))
    (fun r w' => r = 0 /\ setup w' = setup w /\ usable w' bp bo /\
       same_outside bp bo (w_mem w) (w_mem w') /\
       forall a, page_at (w_dev w') a =
         if decide (a = page_of w (j_tmp_blk j) (j_pages j) blk t)
         then Some (info_page (j_page j) content k, j_oob j) else page_at (w_dev w) a)
    (power_off (page_of w (j_tmp_blk j) (j_pages j) blk) t (t + 1) w) w.
Proof.
  intros Hu Hbuf Hbp Hbo Hpg Hoob Hc Hk Hkt.
  pose proof (peek_length _ _ _ _ Hc) as Hlen.
  assert (0 < j_page j) as Hpos by (rewrite Hpg; apply Hu).
  unfold write_info_page, use_user_buffers. apply wp_bind.
  eapply wp_mono; [apply wp_point_page, Hu | | by intros ?? []].
  intros _ w1 ((Hs1 & Hm1 & Hd1) & Ho1).
  destruct Hu as [Hst Hn Hp Hne (op & lp & Eup & Hlp) (oo & lo & Euo & Hlo)].
  destruct (setup_inv _ _ Hs1) as (Es & Ef & En & Esl & Eup1 & Euo1).
  wp_steps. cbn [w_chip set_w_chip user_page_buf user_oob_buf set_ops_para].
  rewrite Eup1, Euo1, Eup, Euo, Hpg in *. clear Hpg.
  eapply wp_fill; [cbn; rewrite Hm1; exact Hlp|]. cbn. rewrite Hm1. intros m1 Hp1 Hz1. wp_steps.
  eapply wp_fill; [cbn; rewrite (peek_poke_ne _ _ _ _ _ _ Hp1); [exact Hlo | congruence]|].
  cbn. intros m2 Hp2 Hz2. wp_steps.
  assert (same_outside bp bo (w_mem w) m2) as Hout2.
  { etransitivity; eapply poke_outside; eauto. }
  unfold memcpy. wp_step.
  assert (peek m2 (ptr_add (j_buf j) (k * pagesize (flash (w_chip w))))
            (Z.min (pagesize (flash (w_chip w))) (j_total j - k * pagesize (flash (w_chip w)))) =
          Some (take (Z.to_nat (Z.min (pagesize (flash (w_chip w)))
                        (j_total j - k * pagesize (flash (w_chip w)))))
                  (drop (Z.to_nat (k * pagesize (flash (w_chip w)))) content))) as Hload.
  { apply (peek_sub _ _ (j_total j)); try nia. rewrite Hbuf in *.
    by rewrite (same_outside_peek _ _ _ _ _ _ _ Hout2). }
  set (page := pagesize (flash (w_chip w))) in *.
  eapply wp_load_bytes; [exact Hload|]. apply peek_length in Hload.
  set (c := take _ _) in *.
  assert (peek m2 (Ptr bp op) page = Some (replicate (Z.to_nat page) 0)) as Hz1'.
  { rewrite (peek_poke_ne _ _ _ _ _ _ Hp2); [done | congruence]. }
  eapply wp_store; [exact Hz1' | lia |]. cbn. intros m3 Hp3. wp_steps.
  assert (peek m3 (Ptr bo oo) SIZEOF_oobinfo = Some (replicate 6 0)) as Hz2'.
  { rewrite (peek_poke_ne _ _ _ _ _ _ Hp3); [done | congruence]. }
  eapply wp_store; [exact Hz2' | rewrite Hoob; done |]. cbn. intros m4 Hp4.
  assert (peek m4 (Ptr bp op) page = Some (info_page page content k)) as Hdata.
  { rewrite (peek_poke_ne _ _ _ _ _ _ Hp4) by congruence.
    rewrite (peek_poke_prefix _ _ _ _ _ _ Hz1') with (2 := Hp3) by lia. f_equal.
    by apply (info_page_at _ _ _ (j_total j)). }
  assert (peek m4 (Ptr bo oo) SIZEOF_oobinfo = Some (j_oob j)) as Hoobs.
  { rewrite (peek_poke_prefix _ _ _ _ _ _ Hz2') with (2 := Hp4) by (rewrite Hoob; done).
    by rewrite drop_ge, app_nil_r by (rewrite Hoob; done). }
  assert (same_outside bp bo (w_mem w) m4) as Hout4.
  { etransitivity; [exact Hout2|]. etransitivity; eapply poke_outside; eauto. }
  apply when_ready_held; [cbn; rewrite Es; done|].
  match goal with |- wp op_write_page _ _ ?w' =>
    pose proof (ps_write w' (info_page page content k) (j_oob j)) as Hw end.
  cbn in Hw. rewrite Ef in Hw. specialize (Hw Hdata Hoobs).
  eapply wp_mono; [exact Hw | |].
  2: { intros f w2 (Hf & -> & Hd2). split; [done|]. split; [done|].
    intros a Ha. rewrite Hd2, Hd1; [done|]. rewrite Ho1. apply Ha. lia. }
  intros r w2 (-> & Hs2 & Hm2 & Hd2).
  assert (setup w2 = setup w) as Hs by (etransitivity; [exact Hs2 | exact Hs1]).
  split; [exact Hs2|]. split; [done|]. split; [done|].
  split; [|split].
  - destruct (setup_inv _ _ Hs) as (Fs & Ff & Fn & _ & Fup & Fuo).
    split; rewrite ?Fs, ?Ff, ?Fn, ?Fup, ?Fuo, ?Hm2; try done; [by exists op; eauto | by exists oo; eauto].
  - by rewrite Hm2.
  - intros a. rewrite Hd2, Ho1. cbn. by rewrite Hd1.
Qed.

(** What [fetch_page] leaves in the user buffers. *)
Definition fetched w (data oob : list Z) : Prop :=
  peek (w_mem w) (user_page_buf (w_chip w)) (pagesize (flash (w_chip w))) = Some data /\
  peek (w_mem w) (user_oob_buf (w_chip w)) SIZEOF_oobinfo = Some oob.

(** The page that is about to be read into the user buffers. *)
Record pointed w (blk tmp_blk pages t : Z) w1 : Prop := {
  pt_setup : setup w1 = setup w;
  pt_dev : page_at (w_dev w1) = page_at (w_dev w);
  pt_page : (chipnr (ops_para (w_chip w1)), page_addr (ops_para (w_chip w1))) =
            page_of w tmp_blk pages blk t;
  pt_data : data_buf (ops_para (w_chip w1)) = user_page_buf (w_chip w);
  pt_oob : oob_buf (ops_para (w_chip w1)) = user_oob_buf (w_chip w);
  pt_ooblen : ooblen (ops_para (w_chip w1)) = SIZEOF_oobinfo;
  pt_option : ops_option (ops_para (w_chip w1)) = page_option w
}.

(** A read that succeeds. *)
Definition read_page_to w1 (m' : memory) (r : Z) w' : Prop :=
  r = 0 /\ setup w' = setup w1 /\ w_mem w' = m' /\ page_at (w_dev w') = page_at (w_dev w1) /\
  ecc_err (ops_para (w_chip w')) = 0 /\
  ops_option (ops_para (w_chip w')) = ops_option (ops_para (w_chip w1)).

Lemma wp_fetch_page_by (lock : act D Z -> act D Z) blk tmp_blk pages t data oob w bp bo :
  (forall w1 m m', pointed w blk tmp_blk pages t w1 ->
     poke (w_mem w1) (data_buf (ops_para (w_chip w1))) data = Some m ->
     poke m (oob_buf (ops_para (w_chip w1))) oob = Some m' ->
     wp (lock op_read_page) (read_page_to w1 m') noflt w1) ->
  usable w bp bo ->
  Z.of_nat (length data) = pagesize (flash (w_chip w)) ->
  Z.of_nat (length oob) = SIZEOF_oobinfo ->
  wp (fetch_page true lock blk tmp_blk pages t)
    (fun r w' => r = (0, false) /\ setup w' = setup w /\ usable w' bp bo /\
       same_outside bp bo (w_mem w) (w_mem w') /\
       page_at (w_dev w') = page_at (w_dev w) /\ fetched w' data oob /\
       ops_option (ops_para (w_chip w')) = page_option w) noflt w.
Proof.
  intros Hread Hu Hdata Hoob. unfold fetch_page, blank_user_buffers, use_user_buffers.
  apply wp_bind. eapply wp_mono; [apply wp_point_page, Hu | | done].
  intros _ w1 ((Hs1 & Hm1 & Hd1) & Ho1).
  destruct Hu as [Hst Hn Hp Hne (op & lp & Eup & Hlp) (oo & lo & Euo & Hlo)].
  destruct (setup_inv _ _ Hs1) as (Es & Ef & En & Esl & Eup1 & Euo1).
  wp_steps. cbn [w_chip set_w_chip user_page_buf user_oob_buf set_ops_para flash].
  set (page := pagesize (flash (w_chip w))) in *.
  assert (pagesize (flash (w_chip w1)) = page) as Epg by (by rewrite Ef).
  rewrite Eup1, Euo1, Eup, Euo, Epg in *.
  eapply wp_fill; [cbn; rewrite Hm1; exact Hlp|]. cbn. rewrite Hm1. intros m1 Hp1 Hz1.
  eapply wp_fill; [cbn; rewrite (peek_poke_ne _ _ _ _ _ _ Hp1); [exact Hlo | congruence]|].
  cbn. intros m2 Hp2 Hz2. wp_steps.
  assert (peek m2 (Ptr bp op) page = Some (replicate (Z.to_nat page) 0)) as Hz1'.
  { rewrite (peek_poke_ne _ _ _ _ _ _ Hp2); [done | congruence]. }
  destruct (peek_poke_Some _ _ _ _ data Hz1') as [m3 Hp3]; [lia|].
  assert (peek m3 (Ptr bo oo) SIZEOF_oobinfo = Some (replicate 6 0)) as Hz2'.
  { rewrite (peek_poke_ne _ _ _ _ _ _ Hp3); [done | congruence]. }
  destruct (peek_poke_Some _ _ _ _ oob Hz2') as [m4 Hp4]; [lia|].
  eapply wp_mono; [apply (Hread _ m3 m4); [|exact Hp3 | exact Hp4] | | done].
  { split; cbn; rewrite ?Ho1; done. }
  cbn [w_chip w_dev set_w_mem set_w_chip ops_para set_ops_para].
  intros r w2 (-> & Hs2 & Hm2 & Hd2 & He & Hopt2).
  assert (setup w2 = setup w) as Hs by (etransitivity; [exact Hs2 | exact Hs1]).
  wp_steps. rewrite He. split; [done|].
  destruct (setup_inv _ _ Hs) as (Fs & Ff & Fn & _ & Fup & Fuo).
  assert (peek m4 (Ptr bp op) page = Some data) as Hd.
  { rewrite (peek_poke_ne _ _ _ _ _ _ Hp4) by congruence.
    rewrite (peek_poke_prefix _ _ _ _ _ _ Hz1') with (2 := Hp3) by lia.
    by rewrite drop_ge, app_nil_r by (rewrite length_replicate; lia). }
  assert (peek m4 (Ptr bo oo) SIZEOF_oobinfo = Some oob) as Hob.
  { rewrite (peek_poke_prefix _ _ _ _ _ _ Hz2') with (2 := Hp4) by lia.
    by rewrite drop_ge, app_nil_r by (rewrite length_replicate; unfold SIZEOF_oobinfo in *; lia). }
  split; [done|]. split; [|split; [|split; [|split]]].
  - split; rewrite ?Fs, ?Ff, ?Fn, ?Fup, ?Fuo, ?Hm2; try done; [by exists op; eauto | by exists oo; eauto].
  - rewrite Hm2. do 3 (etransitivity; [|eapply poke_outside; eauto]).
    eapply poke_outside; eauto.
  - by rewrite Hd2.
  - split; rewrite ?Ff, ?Fup, ?Fuo, Hm2, ?Eup, ?Euo; done.
  - rewrite Hopt2. cbn. by rewrite Ho1.
Qed.

Lemma wp_fetch_page blk tmp_blk pages t data oob w bp bo :
  usable w bp bo -> page_at (w_dev w) (page_of w tmp_blk pages blk t) = Some (data, oob) ->
  Z.of_nat (length data) = pagesize (flash (w_chip w)) ->
  Z.of_nat (length oob) = SIZEOF_oobinfo ->
  wp (fetch_page true when_ready blk tmp_blk pages t)
    (fun r w' => r = (0, false) /\ setup w' = setup w /\ usable w' bp bo /\
       same_outside bp bo (w_mem w) (w_mem w') /\
       page_at (w_dev w') = page_at (w_dev w) /\ fetched w' data oob /\
       ops_option (ops_para (w_chip w')) = page_option w) noflt w.
Proof.
  intros Hu Hat Hdata Hoob. apply wp_fetch_page_by; try done.
  intros w1 m m' [Hs Hd Hp _ _ Hl _] Hm Hm'. apply when_ready_held.
  { destruct (setup_inv _ _ Hs) as (-> & _). apply Hu. }
  eapply wp_mono; [apply (ps_read w1 data oob m m'); [by rewrite Hp, Hd | congruence | done..] | | done].
  intros r w' (-> & H). by split_and!; try apply H.
Qed.

(** ** Copying an item to a block *)

(** The first pages, before byte [upto], of an item are on the chip from page
    [t0] of block [blk] on. *)
Definition stored w (page tmp_blk pages blk t0 : Z) (content oob : list Z) (upto : Z) : Prop :=
  forall k, 0 <= k -> k * page < upto ->
    page_at (w_dev w) (page_of w tmp_blk pages blk (t0 + k)) = Some (info_page page content k, oob).

(** The pages of the item are different pages of the chip. *)
Definition distinct_pages w (page tmp_blk pages blk t0 total : Z) : Prop :=
  forall k k', 0 <= k -> k < k' -> k' * page < total ->
    page_of w tmp_blk pages blk (t0 + k) <> page_of w tmp_blk pages blk (t0 + k').

(** Where the page address is not translated they are. *)
Lemma plain_pages_distinct w page tmp_blk pages blk t0 total :
  slc_type (new_type (flash (w_chip w))) = false -> 0 < page -> total <= 2 ^ 32 * page ->
  distinct_pages w page tmp_blk pages blk t0 total.
Proof.
  intros Hs Hp Ht k k' ? ? ? [= E]. revert E. unfold page_of. rewrite Hs. cbn. unfold wrap.
  set (b := reserved_page _ _ _ _). intros E.
  assert (k' < 2 ^ 32) by nia.
  apply (f_equal (fun x => (x - (t0 + b)) mod 2 ^ 32)) in E.
  rewrite !Zminus_mod_idemp_l in E.
  replace (t0 + k + b - (t0 + b)) with k in E by lia.
  replace (t0 + k' + b - (t0 + b)) with k' in E by lia.
  rewrite !Z.mod_small in E by lia. lia.
Qed.

(** The copy in progress: what a round of the loop of [copy_info] starts
    from. *)
Record copying w0 (j : save_job) (blk t0 k bp bo bb ob : Z) (content : list Z) w : Prop := {
  cp_setup : setup w = setup w0;
  cp_usable : usable w bp bo;
  cp_outside : same_outside bp bo (w_mem w0) (w_mem w);
  cp_stored : stored w (j_page j) (j_tmp_blk j) (j_pages j) blk t0 content (j_oob j)
                (Z.min (k * j_page j) (j_total j));
  cp_rest : untouched (page_of w0 (j_tmp_blk j) (j_pages j) blk) t0 (t0 + k) (w_dev w0) (w_dev w)
}.

(** Where the power can go while a copy is made: some of its pages are there,
    and the page in progress is the only other one that may have changed. *)
Definition torn_copy w0 (j : save_job) (blk t0 : Z) (content : list Z)
    : fault -> world D -> Prop := fun f w' =>
  ps_fails /\ f = PowerOff /\ exists k, 0 <= k /\ k * j_page j < j_total j /\
  let A := page_of w0 (j_tmp_blk j) (j_pages j) blk in
  (forall i, 0 <= i < k ->
     page_at (w_dev w') (A (t0 + i)) = Some (info_page (j_page j) content i, j_oob j)) /\
  untouched A t0 (t0 + k + 1) (w_dev w0) (w_dev w').

Lemma copying_step w0 w w' j blk t0 k bp bo bb ob content :
  distinct_pages w0 (j_page j) (j_tmp_blk j) (j_pages j) blk t0 (j_total j) ->
  0 < j_page j -> 0 <= k -> k * j_page j < j_total j ->
  copying w0 j blk t0 k bp bo bb ob content w ->
  setup w' = setup w -> usable w' bp bo -> same_outside bp bo (w_mem w) (w_mem w') ->
  (forall a, page_at (w_dev w') a =
     if decide (a = (page_of w (j_tmp_blk j) (j_pages j) blk (t0 + k)))
     then Some (info_page (j_page j) content k, j_oob j) else page_at (w_dev w) a) ->
  copying w0 j blk t0 (k + 1) bp bo bb ob content w'.
Proof.
  intros Hdist Hp Hk Hkt [Hs Hu Ho Hst Hr] Hs' Hu' Ho' Hd.
  split; [congruence | done | by etransitivity | |].
  2: { intros a Ha. rewrite Hd, decide_False, Hr; [done | intros; apply Ha; lia |].
    rewrite (setup_page_of _ _ _ _ _ _ Hs). apply Ha. lia. }
  intros i Hi Hit. rewrite Hd, (setup_page_of _ _ _ _ _ _ Hs').
  destruct (decide (i = k)) as [->|Hne]; [by rewrite decide_True|].
  rewrite decide_False; [apply Hst; nia|].
  rewrite !(setup_page_of _ _ _ _ _ _ Hs). apply Hdist; nia.
Qed.

Lemma copying_torn w0 w j blk t0 k bp bo bb ob content f w' :
  distinct_pages w0 (j_page j) (j_tmp_blk j) (j_pages j) blk t0 (j_total j) ->
  0 < j_page j -> 0 <= k -> k * j_page j < j_total j ->
  copying w0 j blk t0 k bp bo bb ob content w ->
  power_off (page_of w (j_tmp_blk j) (j_pages j) blk) (t0 + k) (t0 + k + 1) w f w' ->
  torn_copy w0 j blk t0 content f w'.
Proof.
  intros Hdist Hp Hk Hkt [Hs Hu Ho Hst Hr] (Hf & -> & Hd). split; [done|]. split; [done|].
  assert (untouched (page_of w0 (j_tmp_blk j) (j_pages j) blk) (t0 + k) (t0 + k + 1)
    (w_dev w) (w_dev w')) as Hd'.
  { eapply untouched_ext; [|exact Hd]. intros t. by apply setup_page_of. }
  exists k. split; [done|]. split; [done|]. cbv zeta. split.
  - intros i Hi. rewrite Hd'.
    + rewrite <- (setup_page_of _ _ _ _ _ _ Hs). apply Hst; nia.
    + intros t Ht. replace t with (t0 + k) by lia. apply Hdist; nia.
  - eapply untouched_trans; (eapply untouched_mono; [| |eassumption]); lia.
Qed.

Lemma wp_copy_info_stores j mode blk t0 test_cnt ret content w bp bo bb ob :
  usable w bp bo -> j_buf j = Ptr bb ob -> bb <> bp -> bb <> bo ->
  j_page j = pagesize (flash (w_chip w)) -> length (j_oob j) = 6%nat ->
  peek (w_mem w) (j_buf j) (j_total j) = Some content -> 0 < j_total j ->
  new_type (flash (w_chip w)) <> HYNIX_1YNM_8GB ->
  distinct_pages w (j_page j) (j_tmp_blk j) (j_pages j) blk t0 (j_total j) ->
  wp (copy_info j mode blk t0 test_cnt ret)
    (fun r w' => r = inl 0 /\ setup w' = setup w /\ usable w' bp bo /\
       same_outside bp bo (w_mem w) (w_mem w') /\
       stored w' (j_page j) (j_tmp_blk j) (j_pages j) blk t0 content (j_oob j) (j_total j) /\
       forall n, j_total j <= n * j_page j ->
         untouched (page_of w (j_tmp_blk j) (j_pages j) blk) t0 (t0 + n) (w_dev w) (w_dev w'))
    (torn_copy w j blk t0 content) w.
Proof.
  intros Hu Hbuf Hbp Hbo Hpg Hoob Hc Ht Hty Hdist.
  assert (0 < j_page j) as Hpos by (rewrite Hpg; apply Hu).
  unfold copy_info. apply wp_bind.
  apply (wp_while (fun n '(k, saved, ret') w' =>
    saved = k * j_page j /\ 0 <= k /\ k * j_page j < j_total j + j_page j /\ (0 < k -> ret' = 0) /\
    (rounds_left (j_page j) (j_total j) saved <= n)%nat /\
    copying w j blk t0 k bp bo bb ob content w')).
  - intros n [[k saved] ret'] w' (-> & Hk & Hkn & Hr & _ & [Hs Hu' Ho Hst Hrest]) Hc'%Z.ltb_ge.
    apply wp_ret. rewrite Hr by nia. rewrite Z.min_r in Hst by lia. split_and!; try done.
    intros m Hm. eapply untouched_mono; [| |exact Hrest]; nia.
  - intros n [[k saved] ret'] w' (-> & Hk & _ & _ & Hn & Hcp) Hlt%Z.ltb_lt.
    pose proof (rounds_left_pos _ _ _ Hpos Hlt). destruct n as [|n]; [lia|].
    exists n. split; [done|]. destruct (id Hcp) as [Hs Hu' Ho Hst Hrest].
    pose proof (rounds_left_step _ _ _ Hpos Hlt).
    apply wp_bind. eapply wp_mono; [eapply (wp_write_info_page _ _ _ _ content); eauto | |
      intros f w2 H2; eapply copying_torn; eauto].
    { by destruct (setup_inv _ _ Hs) as (_ & -> & _). }
    { rewrite Hbuf in *. by rewrite (same_outside_peek _ _ _ _ _ _ _ Ho). }
    intros r w2 (-> & Hs2 & Hu2 & Ho2 & Hd2). cbn.
    unfold pair_after, is_1ynm. wp_steps.
    assert ((new_type (flash (w_chip w2)) =? HYNIX_1YNM_8GB) = false) as Hy.
    { apply Z.eqb_neq. unfold setup in *. congruence. }
    rewrite Hy. cbn. wp_steps. rewrite Hy, andb_false_r. cbn. wp_steps.
    split_and!; [lia | lia | lia | done | lia |]. by eapply copying_step.
  - split_and!; [lia | lia | lia | lia | by apply rounds_left_fuel |]. split; try done.
    intros k ??. nia.
Qed.

(** ** Reading it back *)

Lemma wp_fetched_oob data oob (Q : list Z -> world D -> Prop) w :
  fetched w data oob -> Q oob w -> wp fetched_oob Q noflt w.
Proof.
  intros [_ H] HQ. unfold fetched_oob. wp_steps. by eapply wp_load_bytes.
Qed.

Lemma oob_name_oobinfo name stamp : length name = 4%nat -> oob_name (oobinfo name stamp) = name.
Proof. intros H. unfold oob_name, oobinfo. by rewrite take_app_le, take_ge by lia. Qed.
Lemma length_oobinfo name stamp : length name = 4%nat -> length (oobinfo name stamp) = 6%nat.
Proof. intros H. unfold oobinfo. by rewrite length_app, length_le_bytes, H. Qed.

Lemma length_info_page page content k :
  0 <= page -> Z.of_nat (length (info_page page content k)) = page.
Proof.
  intros. unfold info_page. rewrite length_app, length_replicate, length_take. lia.
Qed.

(** The bytes of page [k] that are part of the item. *)
Lemma take_info_page page content k n :
  0 < page -> 0 <= k -> 0 <= n <= page -> k * page + n <= Z.of_nat (length content) ->
  take (Z.to_nat n) (info_page page content k) =
  take (Z.to_nat n) (drop (Z.to_nat (k * page)) content).
Proof.
  intros ????. unfold info_page.
  rewrite take_app_le by (rewrite length_take, length_drop; lia).
  rewrite take_take. f_equal. lia.
Qed.

(** One round: the bytes of page [k] that are asked for go behind those already
    there. *)
Lemma wp_append_page buf user page content k size m0 (Q : unit -> world D -> Prop) w :
  0 < page -> 0 <= k -> k * page < size -> size <= Z.of_nat (length content) ->
  peek (w_mem w) user page = Some (info_page page content k) ->
  peek (w_mem w) buf (k * page) = Some (take (Z.to_nat (k * page)) content) ->
  peek (w_mem w) buf size = Some m0 ->
  (forall m' l, poke (w_mem w) (ptr_add buf (k * page)) l = Some m' ->
     let n := Z.min size ((k + 1) * page) in
     peek m' buf n = Some (take (Z.to_nat n) content) -> Q tt (set_w_mem m' w)) ->
  wp (memcpy (ptr_add buf (k * page)) user (Z.min page (size - k * page))) Q noflt w.
Proof.
  intros Hp Hk Hlt Hsz Hu Hpre Hall HQ. unfold memcpy. wp_step.
  set (n := Z.min page (size - k * page)) in *.
  assert (0 <= n <= page /\ k * page + n <= size) as Hn by lia.
  assert (peek (w_mem w) user n = Some (take (Z.to_nat n) (drop (Z.to_nat (k * page)) content)))
    as Hload.
  { rewrite <- (take_info_page page) by lia. rewrite <- (drop_0 (info_page _ _ _)).
    replace user with (ptr_add user 0) by (destruct user; cbn; [done | by rewrite Z.add_0_r]).
    apply (peek_sub _ _ page); [done | lia ..]. }
  eapply wp_load_bytes; [exact Hload|]. apply peek_length in Hload.
  set (c := take _ _) in *.
  eapply wp_store; [eapply (peek_sub _ _ _ _ (k * page) n Hall); lia | lia |].
  intros m' Hm. eapply HQ; [done|]. cbv zeta.
  pose proof (peek_poke_append _ _ _ _ _ _ Hpre Hm) as Hr. rewrite Hload in Hr.
  replace (Z.min size _) with (k * page + Z.of_nat (Z.to_nat n)) by lia.
  rewrite Hr. f_equal. unfold c.
  rewrite Z2Nat.inj_add, Nat2Z.id by lia. by rewrite take_take_drop.
Qed.

(** The item's place, as [amlnand_read_info_by_name] takes it. *)
Definition placed (i : info) (blk t0 : Z) w : Prop :=
  let a := arg_of i (w_chip w) in
  arg_valid a = 1 /\ valid_blk_addr a = blk /\ valid_page_addr a = t0.

Lemma setup_placed i blk t0 w w' : setup w' = setup w -> placed i blk t0 w -> placed i blk t0 w'.
Proof.
  unfold placed. intros E. by rewrite (setup_arg _ _ i E).
Qed.

Lemma wp_read_info_loads i buf name stamp size content t0 blk w bp bo bb ob m0 :
  let fl := flash (w_chip w) in
  usable w bp bo -> buf = Ptr bb ob -> bb <> bp -> bb <> bo ->
  peek (w_mem w) buf size = Some m0 -> 0 <= size <= Z.of_nat (length content) ->
  length name = 4%nat -> placed i blk t0 w ->
  stored w (pagesize fl) (u16 (reserved_start fl)) (pages_of_block fl) blk t0 content
    (oobinfo name stamp) size ->
  wp (amlnand_read_info_by_name i buf name size)
    (fun r w' => r = 0 /\ setup w' = setup w /\
       peek (w_mem w') buf size = Some (take (Z.to_nat size) content) /\
       page_at (w_dev w') = page_at (w_dev w) /\ usable w' bp bo /\
       (forall b, b <> bp -> b <> bo -> b <> bb -> w_mem w' !! b = w_mem w !! b) /\
       (slc_type (new_type fl) = false -> ops_option (ops_para (w_chip w')) = 0) /\
       (forall a, w_mem w !! bb = Some a -> exists a', w_mem w' !! bb = Some a' /\
          length a' = length a)) noflt w.
Proof.
  intros fl Hu Hbuf Hbp Hbo Hm0 Hsz Hname Hpl Hst.
  set (page := pagesize fl) in *. assert (0 < page) as Hpos by apply Hu.
  unfold amlnand_read_info_by_name, clear_ops, arg_. wp_steps. cbn [w_chip set_w_chip].
  assert (forall c, arg_of i (set_ops_para ops0 c) = arg_of i c) as Harg by (by destruct i).
  rewrite Harg. destruct (id Hpl) as (-> & _ & _). cbn [Z.eqb Pos.eqb].
  apply wp_bind. fold fl page.
  apply (wp_while (fun n '(k, loaded, ret) w' =>
    loaded = k * page /\ 0 <= k /\ ret = 0 /\ (rounds_left page size loaded <= n)%nat /\
    setup w' = setup w /\ usable w' bp bo /\ page_at (w_dev w') = page_at (w_dev w) /\
    (exists m1, peek (w_mem w') buf size = Some m1) /\
    (forall b, b <> bp -> b <> bo -> b <> bb -> w_mem w' !! b = w_mem w !! b) /\
    (slc_type (new_type fl) = false -> ops_option (ops_para (w_chip w')) = 0) /\
    (forall a, w_mem w !! bb = Some a -> exists a', w_mem w' !! bb = Some a' /\
       length a' = length a) /\
    let n := Z.min size (k * page) in
    peek (w_mem w') buf n = Some (take (Z.to_nat n) content))).
  - intros n [[k ?] ?] w' (-> & Hk & -> & _ & Hs & Hu' & Hd & _ & Hm & Ho & Hla & Hr) Hc%Z.ltb_ge.
    apply wp_ret. cbn in Hr. by rewrite Z.min_l in Hr by lia.
  - intros n [[k ?] ?] w' (-> & Hk & -> & Hn & Hs & Hu' & Hd & [m1 Hm1] & Hmem & Ho & Hla & Hr) Hlt%Z.ltb_lt.
    pose proof (rounds_left_pos _ _ _ Hpos Hlt). destruct n as [|n]; [lia|].
    exists n. split; [done|]. pose proof (rounds_left_step _ _ _ Hpos Hlt).
    rewrite Z.min_r in Hr by lia. cbn in Hr.
    assert (flash (w_chip w') = fl) as Ef by by apply setup_flash.
    wp_steps. unfold id. destruct (setup_placed _ _ _ _ _ Hs Hpl) as (_ & -> & ->).
    eapply wp_mono; [eapply wp_fetch_page; [done | | |] | | done].
    { rewrite Hd, (setup_page_of _ _ _ _ _ _ Hs). by apply Hst. }
    { rewrite Ef. apply length_info_page. unfold page in *. lia. }
    { by rewrite length_oobinfo. }
    intros r w2 (-> & Hs2 & Hu2 & Ho2 & Hd2 & Hf & Hopt2). wp_step.
    eapply wp_fetched_oob; [done|]. wp_steps. rewrite bool_decide_true by by apply oob_name_oobinfo.
    cbn [when_]. assert (flash (w_chip w2) = fl) as Ef2
      by (apply setup_flash; congruence).
    destruct Hf as [Hf _]. rewrite Ef2 in Hf. fold page in Hf. subst buf.
    eapply (wp_append_page _ _ page content); try done; try lia.
    { by rewrite (same_outside_peek _ _ _ _ _ _ _ Ho2). }
    { by rewrite (same_outside_peek _ _ _ _ _ _ _ Ho2). }
    intros m' l Hm' n' Hn'. wp_steps. cbv beta iota zeta.
    split_and!; [lia | lia | done | lia | | | | | | | |].
    + transitivity (setup w2); [done | congruence].
    + destruct Hu2 as [Hst2 ? ? ? (o1 & l1 & E1 & P1) (o2 & l2 & E2 & P2)]. cbn in *.
      split; cbn; try done; [exists o1, l1 | exists o2, l2]; split; try done;
        (rewrite (peek_poke_ne _ _ _ _ _ _ Hm'); [done | intros ????; cbn; congruence]).
    + transitivity (page_at (w_dev w2)); [done | congruence].
    + eapply poke_keeps; [done|]. by rewrite (same_outside_peek _ _ _ _ _ _ _ Ho2).
    + intros b ???. apply poke_Some in Hm' as (b' & ? & ? & [= <- <-] & _ & _ & _ & ->).
      cbn [w_mem set_w_mem]. rewrite lookup_insert_ne by done. by rewrite Ho2, Hmem.
    + intros Hslc. cbn. rewrite Hopt2. unfold page_option. by rewrite Ef, Hslc.
    + intros a Ha. destruct (Hla a Ha) as (a1 & Ha1 & Hl1).
      apply poke_Some in Hm' as (b' & o' & a2 & [= <- <-] & Ha2 & ? & ? & ->).
      rewrite Ho2 in Ha2 by done. assert (a2 = a1) as -> by congruence.
      eexists. cbn. split; [apply lookup_insert_eq|]. rewrite length_splice by done. done.
    + exact Hn'.
  - split_and!; [lia | lia | done | by apply rounds_left_fuel | done | | done | by exists m0
      | done | done | eauto |].
    { destruct Hu. by split. }
    cbv zeta.
    rewrite Z.min_r by lia. cbn.
    replace buf with (ptr_add buf 0) by (destruct buf; cbn; [done | by rewrite Z.add_0_r]).
    apply (peek_sub _ _ size m0); [done | lia ..].
Qed.

(** ** Saving page by page *)

(** A page-wise item whose block is still good, with its last copy at page [t0]
    of block [blk]. *)
Definition appendable (i : info) (blk t0 : Z) w : Prop :=
  let a := arg_of i (w_chip w) in
  placed i blk t0 w /\ update_flag a = 0 /\ arg_type a = FULL_PAGE.

Lemma setup_appendable i blk t0 w w' :
  setup w' = setup w -> appendable i blk t0 w -> appendable i blk t0 w'.
Proof.
  unfold appendable, placed. intros E. by rewrite (setup_arg _ _ i E).
Qed.

Lemma arg_of_set_arg i a c : arg_of i (set_arg i a c) = a.
Proof. by destruct i. Qed.

(** With room behind the last copy, the next one goes there. *)
Lemma wp_place_append spin j blk0 blk t0 content w bp bo bb ob :
  usable w bp bo -> j_buf j = Ptr bb ob -> bb <> bp -> bb <> bo ->
  j_page j = pagesize (flash (w_chip w)) -> length (j_oob j) = 6%nat ->
  peek (w_mem w) (j_buf j) (j_total j) = Some content -> 0 < j_total j ->
  new_type (flash (w_chip w)) <> HYNIX_1YNM_8GB ->
  appendable (j_info j) blk t0 w -> t0 + 2 * j_arg_pages j <= j_pages_read j ->
  distinct_pages w (j_page j) (j_tmp_blk j) (j_pages j) blk (t0 + j_arg_pages j) (j_total j) ->
  wp (place_info spin j blk0 false 0)
    (fun r w' => r = inl (blk, false, 0, 0) /\ setup w' = setup w /\ usable w' bp bo /\
       same_outside bp bo (w_mem w) (w_mem w') /\
       stored w' (j_page j) (j_tmp_blk j) (j_pages j) blk (t0 + j_arg_pages j) content
         (j_oob j) (j_total j) /\
       forall n, j_total j <= n * j_page j ->
         untouched (page_of w (j_tmp_blk j) (j_pages j) blk) (t0 + j_arg_pages j)
           (t0 + j_arg_pages j + n) (w_dev w) (w_dev w'))
    (torn_copy w j blk (t0 + j_arg_pages j) content) w.
Proof.
  intros Hu Hbuf Hbp Hbo Hpg Hoob Hc Ht Hty ((Hv & Hb & Ht0) & Hup & Hft) Hroom Hdist.
  unfold place_info. change (S (Z.to_nat (3 - 0))) with 4%nat. cbn [while_].
  unfold choose_block, arg_, is_1ynm. wp_steps. unfold id.
  rewrite Hv, Hup, Hft, Ht0, Hb. cbn [truthy negb Z.eqb andb Pos.eqb FULL_PAGE FULL_BLK].
  rewrite (proj2 (Z.ltb_ge _ _)) by lia. cbn [truthy negb Z.eqb andb Pos.eqb].
  wp_steps. rewrite (proj2 (Z.eqb_neq _ _) Hty). cbn [truthy negb Z.eqb andb Pos.eqb].
  rewrite Hv, Hup, Hft, Ht0. cbn [truthy negb Z.eqb andb Pos.eqb FULL_PAGE FULL_BLK].
  rewrite Z.add_0_r.
  eapply wp_mono; [by eapply (wp_copy_info_stores _ _ _ _ _ _ content) | | done].
  intros r w' (-> & Hs & Hu' & Ho & Hst & Hrest). by wp_steps.
Qed.

(** What saving an item leaves alone. *)
Definition geometry w :=
  (flash (w_chip w), chip_num (controller (w_chip w)), slc_info (controller (w_chip w)),
   (state (w_chip w), user_page_buf (w_chip w), user_oob_buf (w_chip w)),
   (w_mutex w, w_idleflag w, w_brk w, w_oracle w, w_allow_meta w)).

Lemma setup_geometry w w' : setup w' = setup w -> geometry w' = geometry w.
Proof. unfold setup, geometry. congruence. Qed.
Lemma geometry_flash w w' : geometry w' = geometry w -> flash (w_chip w') = flash (w_chip w).
Proof. unfold geometry. congruence. Qed.
Lemma geometry_page_of w w' a b c d :
  geometry w' = geometry w -> page_of w' a b c d = page_of w a b c d.
Proof.
  unfold page_of. intros E.
  assert (flash (w_chip w') = flash (w_chip w) /\
    chip_num (controller (w_chip w')) = chip_num (controller (w_chip w)) /\
    slc_info (controller (w_chip w')) = slc_info (controller (w_chip w))) as (-> & -> & ->); [|done].
  unfold geometry in E. by simplify_eq.
Qed.
Lemma geometry_distinct w w' a b c d e f :
  geometry w' = geometry w -> distinct_pages w a b c d e f -> distinct_pages w' a b c d e f.
Proof. intros E H k k' ???. rewrite !(geometry_page_of _ _ _ _ _ _ E). by apply H. Qed.

(** Changing the record of an item. *)
Definition with_arg (i : info) (a : nand_arg_info) w : world D :=
  set_w_chip (set_arg i a (w_chip w)) w.

Lemma with_arg_usable i a w bp bo : usable w bp bo -> usable (with_arg i a w) bp bo.
Proof. intros [? ? ? ? ? ?]. by destruct i; split. Qed.
Lemma with_arg_geometry i a w : geometry (with_arg i a w) = geometry w.
Proof. by destruct i. Qed.
Lemma with_arg_arg i a w : arg_of i (w_chip (with_arg i a w)) = a.
Proof. apply arg_of_set_arg. Qed.

Lemma with_arg_with_arg i a a' w : with_arg i a' (with_arg i a w) = with_arg i a' w.
Proof. by destruct i. Qed.

Lemma wp_upd_arg i f (Q : unit -> world D -> Prop) E w :
  Q tt (with_arg i (f (arg_of i (w_chip w))) w) -> wp (upd_arg i f) Q E w.
Proof. done. Qed.

(** The record after a copy was put behind the last one. *)
Lemma wp_record_append j blk t0 w (Q : (Z + Z) -> world D -> Prop) E :
  appendable (j_info j) blk t0 w -> new_type (flash (w_chip w)) <> HYNIX_1YNM_8GB ->
  0 <= blk < 2 ^ 16 -> 0 <= t0 + j_arg_pages j < 2 ^ 16 ->
  (forall a, arg_valid a = 1 /\ valid_blk_addr a = blk /\ valid_page_addr a = t0 + j_arg_pages j ->
     update_flag a = 0 /\ arg_type a = FULL_PAGE -> Q (inl 0) (with_arg (j_info j) a w)) ->
  wp (record_place j blk false 0) Q E w.
Proof.
  intros ((Hv & Hb & Ht0) & Hup & Hft) Hty Hblk Hfit HQ.
  unfold record_place, arg_, is_1ynm. wp_steps. unfold id.
  rewrite Hv, Hup, Hft, (proj2 (Z.eqb_neq _ _) Hty). cbn [when_ negb truthy Z.eqb Pos.eqb andb orb FULL_PAGE FULL_BLK].
  wp_steps. apply wp_upd_arg. cbn [andb orb]. wp_steps. apply HQ; cbn.
  - rewrite Hv, Ht0, Z.add_0_r. unfold wrap. by rewrite !Z.mod_small by lia.
  - done.
Qed.

(** What a save starts from and leaves: the item's record, its buffer and the
    driver's buffers. *)
Record saving (i : info) (blk t0 bp bo bb ob : Z) (content : list Z) (total : Z) w : Prop := {
  sv_usable : usable w bp bo;
  sv_place : appendable i blk t0 w;
  sv_data : peek (w_mem w) (Ptr bb ob) total = Some content
}.

(** Where the power can go in a round. *)
Definition torn_round w (page tmp_blk pages total blk t : Z) (content name : list Z)
    : fault -> world D -> Prop := fun f w' =>
  ps_fails /\ f = PowerOff /\ exists k stamp, 0 <= k /\ k * page < total /\
  let A := page_of w tmp_blk pages blk in
  (forall i, 0 <= i < k ->
     page_at (w_dev w') (A (t + i)) = Some (info_page page content i, oobinfo name stamp)) /\
  untouched A t (t + k + 1) (w_dev w) (w_dev w').

Lemma torn_copy_round w w2 j blk t content name stamp f w' :
  geometry w2 = geometry w -> w_dev w2 = w_dev w -> j_oob j = oobinfo name stamp ->
  torn_copy w2 j blk t content f w' ->
  torn_round w (j_page j) (j_tmp_blk j) (j_pages j) (j_total j) blk t content name f w'.
Proof.
  intros Hg Hd Ho (Hf & -> & k & Hk & Hkt & Hpages & Hrest). split; [done|]. split; [done|].
  exists k, stamp. split; [done|]. split; [done|]. cbv zeta. rewrite Ho in Hpages.
  pose proof (fun t => geometry_page_of _ _ (j_tmp_blk j) (j_pages j) blk t Hg) as HA. split.
  - intros i Hi. rewrite <- HA. by apply Hpages.
  - rewrite <- Hd. eapply untouched_ext; [exact HA | exact Hrest].
Qed.

Lemma wp_save_round spin i name cnt blk0 page tmp_blk pages pages_read n total blk t0
    bp bo bb ob content w :
  saving i blk t0 bp bo bb ob content total w -> bb <> bp -> bb <> bo ->
  page = pagesize (flash (w_chip w)) -> length name = 4%nat -> 0 < total <= n * page -> 0 < n ->
  new_type (flash (w_chip w)) <> HYNIX_1YNM_8GB -> 0 <= t0 ->
  t0 + 2 * n <= pages_read -> t0 + n < 2 ^ 16 -> 0 <= blk < 2 ^ 16 ->
  distinct_pages w page tmp_blk pages blk (t0 + n) total ->
  wp (save_round spin i name (mk_job i (Ptr bb ob) page tmp_blk pages pages_read n total)
        (cnt, blk0, false, 0))
    (fun c w' => c = (if cnt =? 0 then Next (1, blk, false, 0) else Return 0) /\
       saving i blk (t0 + n) bp bo bb ob content total w' /\ geometry w' = geometry w /\
       same_outside bp bo (w_mem w) (w_mem w') /\
       exists stamp, stored w' page tmp_blk pages blk (t0 + n) content (oobinfo name stamp) total /\
         untouched (page_of w tmp_blk pages blk) (t0 + n) (t0 + 2 * n) (w_dev w) (w_dev w'))
    (torn_round w page tmp_blk pages total blk (t0 + n) content name) w.
Proof.
  intros [Hu ((Hv & Hb & Ht0) & Hup & Hft) Hc] Hbp Hbo Hpg Hname [Ht Htn] Hn Hty Hpos Hroom Hfit Hblk Hdist.
  unfold save_round. wp_steps. apply wp_upd_arg. unfold arg_. wp_steps.
  rewrite with_arg_arg. cbn [timestamp set_timestamp]. set (stamp := u16 _).
  unfold clear_ops. wp_steps. set (a1 := set_timestamp stamp _).
  set (w1 := with_arg i a1 w). set (w2 := set_w_chip _ _).
  assert (arg_of i (w_chip w2) = a1) as Ha by (destruct i; done).
  assert (usable w2 bp bo) as Hu2 by (destruct Hu; by destruct i; split).
  assert (geometry w2 = geometry w) as Hg2 by (by destruct i).
  assert (flash (w_chip w2) = flash (w_chip w)) as Hf2
    by by apply geometry_flash.
  eapply wp_mono; [eapply (wp_place_append _ _ blk0 blk t0 content w2 bp bo bb ob); cbn [j_buf
    j_page j_oob j_total j_info j_arg_pages j_tmp_blk j_pages j_pages_read]; eauto | |
    intros f w' Hf; eapply torn_copy_round in Hf; [exact Hf | done..]].
  { by rewrite Hf2. } { by apply length_oobinfo. } { by rewrite Hf2. }
  { unfold appendable, placed. rewrite Ha. by cbn. }
  { by eapply geometry_distinct. }
  cbn [j_buf j_page j_oob j_total j_info j_arg_pages j_tmp_blk j_pages j_pages_read].
  intros r w3 (-> & Hs3 & Hu3 & Ho3 & Hst3 & Hr3). specialize (Hr3 n Htn). cbn [Z.ltb Z.compare]. wp_steps.
  pose proof (setup_flash _ _ Hs3) as Hf3. pose proof (setup_geometry _ _ Hs3) as Hg3.
  eapply (wp_record_append _ blk t0); cbn [j_info j_arg_pages]; try lia; [|congruence|].
  { apply (setup_appendable _ _ _ w2 w3 Hs3). unfold appendable, placed. rewrite Ha. by cbn. }
  intros a Hpl Hap. wp_steps. unfold id. rewrite with_arg_arg. apply wp_upd_arg.
  rewrite with_arg_arg. destruct Hap as [Hup' Hft']. rewrite Hft'. cbn [FULL_PAGE Z.eqb Pos.eqb andb].
  rewrite !with_arg_with_arg. destruct Hpl as (Hv' & Hb' & Ht').
  assert (forall a', valid_blk_addr a' = blk -> valid_page_addr a' = t0 + n ->
    arg_valid a' = 1 -> update_flag a' = 0 -> arg_type a' = FULL_PAGE ->
    saving i blk (t0 + n) bp bo bb ob content total (with_arg i a' w3) /\
    geometry (with_arg i a' w3) = geometry w /\
    same_outside bp bo (w_mem w) (w_mem (with_arg i a' w3)) /\
    exists stamp, stored (with_arg i a' w3) page tmp_blk pages blk (t0 + n) content
                    (oobinfo name stamp) total /\
      untouched (page_of w tmp_blk pages blk) (t0 + n) (t0 + 2 * n)
        (w_dev w) (w_dev (with_arg i a' w3))) as Hend.
  { intros a' ?????. rewrite with_arg_geometry. split_and!; [|congruence | exact Ho3 |].
    - split; [by apply with_arg_usable | |
        rewrite <- Hc; by apply (same_outside_peek _ _ _ _ _ _ _ Ho3)].
      unfold appendable, placed. by rewrite with_arg_arg.
    - exists stamp. split.
      + intros k ??.
        rewrite (geometry_page_of _ _ _ _ _ _ (with_arg_geometry i a' w3)). by apply Hst3.
      + replace (t0 + 2 * n) with (t0 + n + n) by lia.
        change (w_dev (with_arg i a' w3)) with (w_dev w3). change (w_dev w) with (w_dev w2).
        eapply untouched_ext; [|exact Hr3]. intros. by apply geometry_page_of. }
  destruct (cnt =? 0); wp_steps.
  - apply wp_upd_arg. rewrite with_arg_arg, with_arg_with_arg. wp_steps. split; [done|]. by apply Hend.
  - split; [done|]. by apply Hend.
Qed.

Definition total_of (size page : Z) : Z := if size mod page =? 0 then size + page else size.

Lemma total_of_pos size page : 0 < page -> 0 <= size -> 0 < total_of size page /\ size <= total_of size page.
Proof.
  intros. unfold total_of. destruct (Z.eqb_spec (size mod page) 0) as [E|E]; [lia|].
  destruct (Z.eq_dec size 0) as [->|]; [by rewrite Z.mod_0_l in E by lia | lia].
Qed.


Lemma total_of_pages size page :
  0 < page -> 0 <= size < 2 ^ 31 -> total_of size page <= arg_pages_of size page * page.
Proof.
  intros Hp Hs. pose proof (arg_pages_enough size page Hp Hs) as H.
  unfold total_of. destruct (Z.eqb_spec (size mod page) 0) as [E|]; [|lia].
  apply Z.div_exact in E; [|lia]. set (q := size / page) in *. set (n := arg_pages_of size page) in *.
  assert (q < n) by nia. nia.
Qed.

(** An item of [size] bytes that can be saved twice behind its last copy. *)
Record savable (i : info) (size blk t0 bp bo bb ob : Z) (content : list Z) w : Prop := {
  sa_allow : w_allow_meta w <> 0;
  sa_saving : saving i blk t0 bp bo bb ob content
                (total_of size (pagesize (flash (w_chip w)))) w;
  sa_apart : bb <> bp /\ bb <> bo;
  sa_size : 0 <= size < 2 ^ 31;
  sa_mlc : slc_type (new_type (flash (w_chip w))) = false;
  sa_option : has (ops_option (ops_para (w_chip w))) DEV_SLC_MODE = false;
  sa_start : 0 <= t0;
  sa_room : t0 + 3 * arg_pages_of size (pagesize (flash (w_chip w)))
            <= pages_of_block (flash (w_chip w));
  sa_fit : t0 + 2 * arg_pages_of size (pagesize (flash (w_chip w))) < 2 ^ 16;
  sa_blk : 0 <= blk < 2 ^ 16
}.

Lemma savable_distinct i size blk t0 bp bo bb ob content t w w' :
  let fl := flash (w_chip w) in
  savable i size blk t0 bp bo bb ob content w -> geometry w' = geometry w ->
  distinct_pages w' (pagesize fl) (u16 (reserved_start fl)) (pages_of_block fl) blk t
    (total_of size (pagesize fl)).
Proof.
  intros fl [_ Hsv _ Hsize Hslc _ _ _ _ _] Hg.
  assert (0 < pagesize fl) as Hpage by apply (sv_usable _ _ _ _ _ _ _ _ _ _ Hsv).
  eapply geometry_distinct; [exact Hg|]. apply plain_pages_distinct; try done.
  assert (total_of size (pagesize fl) <= 2 ^ 31 + pagesize fl); [|nia].
  unfold total_of. case_match; lia.
Qed.

(** The pages of the reserved block [blk]. *)
Definition item_page w (blk t : Z) : Z * Z :=
  let fl := flash (w_chip w) in page_of w (u16 (reserved_start fl)) (pages_of_block fl) blk t.

Lemma item_page_inj w blk t t' :
  slc_type (new_type (flash (w_chip w))) = false ->
  0 <= t < 2 ^ 32 -> 0 <= t' < 2 ^ 32 -> t <> t' -> item_page w blk t <> item_page w blk t'.
Proof.
  intros Hs Ht Ht' Hne E.
  destruct (Z.lt_trichotomy t t') as [H|[H|H]]; [| done |].
  - apply (plain_pages_distinct w 1 (u16 (reserved_start (flash (w_chip w))))
      (pages_of_block (flash (w_chip w))) blk t (2 ^ 32) Hs) with (k := 0) (k' := t' - t);
      try lia. rewrite Z.add_0_r. by replace (t + (t' - t)) with t' by lia.
  - apply (plain_pages_distinct w 1 (u16 (reserved_start (flash (w_chip w))))
      (pages_of_block (flash (w_chip w))) blk t' (2 ^ 32) Hs) with (k := 0) (k' := t - t');
      try lia. rewrite Z.add_0_r. by replace (t' + (t - t')) with t by lia.
Qed.

(** A copy of an item from page [t] of its block on. *)
Definition copy_at (A : Z -> Z * Z) (d : D) (page t : Z) (content name : list Z) (total : Z)
    : Prop :=
  exists stamp, forall i, 0 <= i -> i * page < total ->
    page_at d (A (t + i)) = Some (info_page page content i, oobinfo name stamp).

Lemma copy_untouched A d d' page t content name total lo hi :
  (forall i t', 0 <= i -> i * page < total -> lo <= t' < hi -> A (t + i) <> A t') ->
  untouched A lo hi d d' -> copy_at A d page t content name total ->
  copy_at A d' page t content name total.
Proof.
  intros Hne Hd [stamp H]. exists stamp. intros i Hi Hit. rewrite Hd; [by apply H|].
  intros t' Ht'. by apply Hne.
Qed.

(** Where the power can go while an item is saved behind its copy at [t0]: in the
    first copy ([c] is 1) or, when that is there, in the second; [k] pages of it
    are there. *)
Definition torn_save w (name : list Z) (size blk t0 : Z) (content : list Z)
    : fault -> world D -> Prop := fun f w' =>
  let page := pagesize (flash (w_chip w)) in
  let n := arg_pages_of size page in
  let A := item_page w blk in
  ps_fails /\ f = PowerOff /\ exists c k stamp,
    (c = 1 \/ c = 2 /\ copy_at A (w_dev w') page (t0 + n) content name (total_of size page)) /\
    0 <= k < n /\ k * page < total_of size page /\
    (forall i, 0 <= i < k ->
       page_at (w_dev w') (A (t0 + c * n + i)) = Some (info_page page content i, oobinfo name stamp)) /\
    untouched A (t0 + n) (t0 + c * n + k + 1) (w_dev w) (w_dev w').

Lemma torn_round_save c w w1 name size blk t0 content f w' :
  let page := pagesize (flash (w_chip w)) in
  let n := arg_pages_of size page in
  let A := item_page w blk in
  geometry w1 = geometry w -> slc_type (new_type (flash (w_chip w))) = false ->
  0 < page -> 0 <= t0 -> t0 + 3 * n < 2 ^ 31 -> 0 <= size < 2 ^ 31 ->
  c = 1 \/ c = 2 /\ copy_at A (w_dev w1) page (t0 + n) content name (total_of size page) ->
  untouched A (t0 + n) (t0 + c * n) (w_dev w) (w_dev w1) ->
  torn_round w1 page (u16 (reserved_start (flash (w_chip w)))) (pages_of_block (flash (w_chip w)))
    (total_of size page) blk (t0 + c * n) content name f w' ->
  torn_save w name size blk t0 content f w'.
Proof.
  intros page n A Hg Hs Hp H0 Hfit Hsize Hc Hd (Hf & -> & k & stamp & Hk & Hkt & Hpages & Hrest).
  pose proof (total_of_pages size page Hp Hsize) as Htot.
  pose proof (arg_pages_pos size page Hsize) as Hn. fold n in Htot, Hn.
  assert (forall t, page_of w1 (u16 (reserved_start (flash (w_chip w))))
    (pages_of_block (flash (w_chip w))) blk t = A t) as HA.
  { intros t. unfold A, item_page. by apply geometry_page_of. }
  assert (k < n) as Hkn by nia. assert (1 <= c <= 2) as Hc12 by lia.
  assert (untouched A (t0 + c * n) (t0 + c * n + k + 1) (w_dev w1) (w_dev w')) as Hrest'.
  { by eapply untouched_ext; [exact HA|]. }
  split; [done|]. split; [done|]. exists c, k, stamp.
  split; [|split_and!; try lia; try done].
  - destruct Hc as [->|[-> Hc]]; [by left|]. right. split; [done|].
    eapply copy_untouched; [|exact Hrest' | exact Hc].
    intros i t' Hi Hit Ht'. fold page n in Hit |- *. assert (i < n) by nia. apply item_page_inj; [done | lia..].
  - intros i Hi. fold page n A. rewrite <- HA. by apply Hpages.
  - fold page n A. assert (n <= c * n) by nia.
    eapply untouched_trans; (eapply untouched_mono; [| |eassumption]); lia.
Qed.

(** A save puts two copies behind the last one, unless the power goes. *)
Lemma wp_save_or_torn spin i name size blk t0 bp bo bb ob content w :
  let fl := flash (w_chip w) in
  let page := pagesize fl in
  let n := arg_pages_of size page in
  let A := item_page w blk in
  savable i size blk t0 bp bo bb ob content w -> length name = 4%nat ->
  wp (amlnand_save_info_by_name spin i (Ptr bb ob) name size)
    (fun r w' => r = 0 /\
       saving i blk (t0 + 2 * n) bp bo bb ob content (total_of size page) w' /\
       geometry w' = geometry w /\ same_outside bp bo (w_mem w) (w_mem w') /\
       (forall c, 1 <= c <= 2 ->
          copy_at A (w_dev w') page (t0 + c * n) content name (total_of size page)) /\
       untouched A (t0 + n) (t0 + 3 * n) (w_dev w) (w_dev w'))
    (torn_save w name size blk t0 content) w.
Proof.
  intros fl page n A Hsa Hname.
  pose proof (fun t w' => savable_distinct _ _ _ _ _ _ _ _ _ t w w' Hsa) as Hdist.
  destruct Hsa as [Hallow Hsv [Hbp Hbo] Hsize Hslc Hopt Hpos Hroom Hfit Hblk].
  fold fl page n in Hdist, Hsv, Hslc, Hroom, Hfit.
  assert (0 < page) as Hpage by apply (sv_usable _ _ _ _ _ _ _ _ _ _ Hsv).
  assert (0 < n) as Hn by (by apply arg_pages_pos).
  pose proof (total_of_pages size page Hpage Hsize) as Htn. fold n in Htn.
  destruct (total_of_pos size page Hpage) as [Ht _]; [lia|].
  assert (new_type fl <> HYNIX_1YNM_8GB) as Hty by (intros E; by rewrite E in Hslc).
  unfold amlnand_save_info_by_name, truthy. wp_steps.
  rewrite (proj2 (Z.eqb_neq _ _) Hallow). cbn [negb]. wp_steps.
  apply wp_mod; [fold fl page; lia|]. fold fl page n. rewrite Hslc. cbn [when_]. wp_steps.
  rewrite Hopt. fold (total_of size page). cbn [while_]. wp_step.
  eapply wp_mono; [eapply (wp_save_round _ _ _ 0 0 page _ _ _ n _ blk t0); eauto; lia | |].
  2: { intros f w1 Hf. apply (torn_round_save 1 w w); fold fl page n; rewrite ?Z.mul_1_l; try done; lia. }
  intros c w1 (-> & Hsv1 & Hg1 & Ho1 & stamp1 & Hst1 & Hr1). cbn [Z.eqb]. wp_step.
  assert (flash (w_chip w1) = fl) as Hf1 by by apply geometry_flash.
  assert (copy_at A (w_dev w1) page (t0 + n) content name (total_of size page)) as Hc1.
  { exists stamp1. intros k Hk Hkt. unfold A, item_page.
    rewrite <- (geometry_page_of _ _ _ _ _ _ Hg1). by apply Hst1. }
  eapply wp_mono; [eapply (wp_save_round _ _ _ 1 blk page _ _ _ n _ blk (t0 + n)); eauto;
    rewrite ?Hf1; try done; lia | |].
  2: { intros f w2 Hf. apply (torn_round_save 2 w w1); fold fl page n; try done; try lia.
    - by right.
    - by replace (t0 + 2 * n) with (t0 + n + n) by lia. }
  intros c w2 (-> & Hsv2 & Hg2 & Ho2 & stamp2 & Hst2 & Hr2). cbn [Z.eqb Pos.eqb]. wp_steps.
  replace (t0 + 2 * n) with (t0 + n + n) by lia.
  assert (untouched A (t0 + n + n) (t0 + n + 2 * n) (w_dev w1) (w_dev w2)) as Hr2'.
  { eapply untouched_ext; [|exact Hr2]. intros. by apply geometry_page_of. }
  split_and!; [done | done | congruence | by etransitivity | |].
  - intros c Hc. destruct (decide (c = 1)) as [->|]; [|assert (c = 2) as -> by lia].
    + rewrite Z.mul_1_l. eapply copy_untouched; [|exact Hr2' | exact Hc1].
      intros j t' Hj Hjt Ht'. assert (j < n) by nia. apply item_page_inj; [done | lia..].
    + replace (t0 + 2 * n) with (t0 + n + n) by lia. exists stamp2. intros k Hk Hkt.
      unfold A, item_page.
      rewrite <- (geometry_page_of _ w2) by congruence. by apply Hst2.
  - eapply untouched_trans; (eapply untouched_mono; [| |eassumption]); lia.
Qed.
End RoundTrip.

(** ** With power that does not go *)
Section Steady.
Context {D : Type} `{!NandHw D} `{ops : !ChipOperation D} `{!PageStore ops}.
Implicit Types w : world D.

Lemma power_off_noflt A lo hi w f w' : power_off A lo hi w f w' -> noflt f w'.
Proof. intros [H _]. by apply ps_steady. Qed.

(** ** Copying more than there is *)

Definition overrun {A} : A -> world D -> Prop := fun _ _ => False.
Definition past_end : fault -> world D -> Prop := fun f _ => f = OutOfBounds.

(** A page whose bytes are not all in the caller's buffer. *)
Lemma wp_write_past_end j blk t saved a w bp bo bb ob :
  usable w bp bo -> j_buf j = Ptr bb ob -> bb <> bp -> bb <> bo ->
  j_page j = pagesize (flash (w_chip w)) -> w_mem w !! bb = Some a ->
  Z.of_nat (length a) < ob + saved + Z.min (j_page j) (j_total j - saved) ->
  wp (write_info_page j blk t saved) overrun past_end w.
Proof.
  intros Hu Hbuf Hbp Hbo Hpg Ha Hlen. unfold write_info_page, use_user_buffers. apply wp_bind.
  eapply wp_mono; [apply wp_point_page, Hu | | done].
  intros _ w1 ((Hs1 & Hm1 & Hd1) & Ho1).
  destruct Hu as [Hst Hn Hp Hne (op & lp & Eup & Hlp) (oo & lo & Euo & Hlo)].
  destruct (setup_inv _ _ Hs1) as (Es & Ef & En & Esl & Eup1 & Euo1).
  wp_steps. cbn [w_chip set_w_chip user_page_buf user_oob_buf set_ops_para].
  rewrite Eup1, Euo1, Eup, Euo. rewrite <- Hpg in Hlp.
  eapply wp_mono; [eapply (wp_fill _ _ _ lp (fun _ w' => same_outside bp bo (w_mem w) (w_mem w') /\
      peek (w_mem w') (Ptr bo oo) SIZEOF_oobinfo = Some lo)) | |].
  { cbn. by rewrite Hm1. }
  { cbn. rewrite Hm1. intros m1 Hp1 _. split; [eapply poke_outside; eauto|].
    rewrite (peek_poke_ne _ _ _ _ _ _ Hp1); [done | congruence]. }
  2: done. intros _ w2 [Ho2 Hlo2]. wp_step.
  eapply wp_mono; [eapply (wp_fill _ _ _ lo (fun _ w' => same_outside bp bo (w_mem w) (w_mem w')))
    | |].
  { done. }
  { intros m1 Hp1 _. etransitivity; [exact Ho2|]. eapply poke_outside; eauto. }
  2: done. intros ? w3 Ho3. cbv beta in Ho3. wp_step. unfold memcpy. wp_step.
  unfold wp, load_bytes. rewrite Hbuf. cbn [ptr_add].
  unfold peek, bad_access. rewrite (Ho3 bb Hbp Hbo), Ha.
  by replace (_ && _) with false by (symmetry; lia).
Qed.

Definition with_total (total : Z) (j : save_job) : save_job :=
  mk_job (j_info j) (j_buf j) (j_page j) (j_tmp_blk j) (j_pages j) (j_pages_read j)
    (j_arg_pages j) total (j_oob j).

Lemma write_info_page_total total j blk t saved :
  Z.min (j_page j) (j_total j - saved) = Z.min (j_page j) (total - saved) ->
  write_info_page j blk t saved = write_info_page (with_total total j) blk t saved.
Proof. intros E. unfold write_info_page. cbn. by rewrite E. Qed.

(** An item that fills its pages and its buffer: the extra page is read from
    behind the buffer. *)
Theorem copy_reads_past_end j mode blk t0 test_cnt ret a m w bp bo bb ob :
  usable w bp bo -> j_buf j = Ptr bb ob -> bb <> bp -> bb <> bo ->
  j_page j = pagesize (flash (w_chip w)) -> length (j_oob j) = 6%nat ->
  new_type (flash (w_chip w)) <> HYNIX_1YNM_8GB ->
  0 <= m -> j_total j = m * j_page j + j_page j ->
  w_mem w !! bb = Some a -> 0 <= ob -> Z.of_nat (length a) = ob + m * j_page j ->
  wp (copy_info j mode blk t0 test_cnt ret) overrun past_end w.
Proof.
  intros Hu Hbuf Hbp Hbo Hpg Hoob Hty Hm Htot Ha Hob Hlen.
  assert (0 < j_page j) as Hpos by (rewrite Hpg; apply Hu).
  set (size := m * j_page j) in *. unfold copy_info. apply wp_bind.
  apply (wp_while (fun n '(k, saved, _) w' =>
    saved = k * j_page j /\ 0 <= k <= m /\ (rounds_left (j_page j) (j_total j) saved <= n)%nat /\
    setup w' = setup w /\ usable w' bp bo /\ same_outside bp bo (w_mem w) (w_mem w'))).
  - intros n [[k saved] ret'] w' (-> & Hk & _) Hc%Z.ltb_ge. nia.
  - intros n [[k saved] ret'] w' (-> & Hk & Hn & Hs & Hu' & Ho) Hlt%Z.ltb_lt.
    pose proof (rounds_left_pos _ _ _ Hpos Hlt). destruct n as [|n]; [lia|].
    exists n. split; [done|]. pose proof (rounds_left_step _ _ _ Hpos Hlt).
    assert (w_mem w' !! bb = Some a) as Ha' by (by rewrite Ho).
    pose proof (setup_flash _ _ Hs) as Hf. apply wp_bind.
    destruct (decide (k = m)) as [->|Hkm].
    { eapply wp_mono; [eapply wp_write_past_end | by intros ?? [] | done]; eauto; [congruence|].
      fold size. lia. }
    rewrite (write_info_page_total size) by nia.
    assert (peek (w_mem w') (Ptr bb ob) size = Some (take (Z.to_nat size) (drop (Z.to_nat ob) a))).
    { apply peek_Some. exists bb, ob, a. split_and!; try done; lia. }
    eapply wp_mono; [eapply (wp_write_info_page (with_total size j)); cbn; eauto;
      [congruence | by rewrite Hbuf | lia | nia] | |
      intros ? ? []%power_off_noflt].
    intros r w2 (-> & Hs2 & Hu2 & Ho2 & _). cbn. unfold pair_after, is_1ynm. wp_steps.
    assert ((new_type (flash (w_chip w2)) =? HYNIX_1YNM_8GB) = false) as Hy.
    { apply Z.eqb_neq. rewrite (setup_flash _ _ Hs2). congruence. }
    rewrite Hy. cbn. wp_steps. rewrite Hy, andb_false_r. cbn. wp_steps.
    split_and!; [lia | lia | lia | lia | congruence | done | by etransitivity].
  - split_and!; [lia | lia | lia | by apply rounds_left_fuel | done..].
Qed.

Lemma wp_save_appends spin i name size blk t0 bp bo bb ob content w :
  let fl := flash (w_chip w) in
  let n := arg_pages_of size (pagesize fl) in
  savable i size blk t0 bp bo bb ob content w -> length name = 4%nat ->
  wp (amlnand_save_info_by_name spin i (Ptr bb ob) name size)
    (fun r w' => r = 0 /\
       saving i blk (t0 + 2 * n) bp bo bb ob content (total_of size (pagesize fl)) w' /\
       geometry w' = geometry w /\ same_outside bp bo (w_mem w) (w_mem w') /\
       exists stamp, stored w' (pagesize fl) (u16 (reserved_start fl)) (pages_of_block fl) blk
         (t0 + 2 * n) content (oobinfo name stamp) (total_of size (pagesize fl))) noflt w.
Proof.
  intros fl n Hsa Hname.
  eapply wp_mono; [by eapply wp_save_or_torn | | intros f w' [H _]; by apply ps_steady].
  intros r w' (-> & Hsv & Hg & Ho & Hc & _). split_and!; try done.
  destruct (Hc 2) as [stamp Hst]; [lia|]. exists stamp. intros k ??.
  rewrite (geometry_page_of _ _ _ _ _ _ Hg). by apply Hst.
Qed.

Lemma wp_place_past_end spin j blk0 blk t0 a m w bp bo bb ob :
  usable w bp bo -> j_buf j = Ptr bb ob -> bb <> bp -> bb <> bo ->
  j_page j = pagesize (flash (w_chip w)) -> length (j_oob j) = 6%nat ->
  new_type (flash (w_chip w)) <> HYNIX_1YNM_8GB ->
  appendable (j_info j) blk t0 w -> t0 + 2 * j_arg_pages j <= j_pages_read j ->
  0 <= m -> j_total j = m * j_page j + j_page j ->
  w_mem w !! bb = Some a -> 0 <= ob -> Z.of_nat (length a) = ob + m * j_page j ->
  wp (place_info spin j blk0 false 0) overrun past_end w.
Proof.
  intros Hu Hbuf Hbp Hbo Hpg Hoob Hty ((Hv & Hb & Ht0) & Hup & Hft) Hroom Hm Ht Ha Hob Hl.
  unfold place_info. change (S (Z.to_nat (3 - 0))) with 4%nat. cbn [while_].
  unfold choose_block, arg_, is_1ynm. wp_steps. unfold id.
  rewrite Hv, Hup, Hft, Ht0, Hb. cbn [truthy negb Z.eqb andb Pos.eqb FULL_PAGE FULL_BLK].
  rewrite (proj2 (Z.ltb_ge _ _)) by lia. cbn [truthy negb Z.eqb andb Pos.eqb].
  wp_steps. rewrite (proj2 (Z.eqb_neq _ _) Hty). cbn [truthy negb Z.eqb andb Pos.eqb].
  rewrite Hv, Hup, Hft, Ht0. cbn [truthy negb Z.eqb andb Pos.eqb FULL_PAGE FULL_BLK].
  eapply wp_mono; [by eapply (copy_reads_past_end _ _ _ _ _ _ a m) | by intros ?? [] | done].
Qed.

(** An item whose size is a multiple of the page size, in a buffer of exactly that
    size, cannot be saved: the extra page is read from behind the buffer. *)
Theorem save_reads_past_end spin i name size blk t0 bp bo bb ob a w :
  let page := pagesize (flash (w_chip w)) in
  let n := arg_pages_of size page in
  w_allow_meta w <> 0 -> usable w bp bo -> bb <> bp -> bb <> bo -> length name = 4%nat ->
  appendable i blk t0 w -> slc_type (new_type (flash (w_chip w))) = false ->
  has (ops_option (ops_para (w_chip w))) DEV_SLC_MODE = false ->
  t0 + 2 * n <= pages_of_block (flash (w_chip w)) ->
  0 <= size -> size mod page = 0 ->
  w_mem w !! bb = Some a -> 0 <= ob -> Z.of_nat (length a) = ob + size ->
  wp (amlnand_save_info_by_name spin i (Ptr bb ob) name size) overrun past_end w.
Proof.
  intros page n Hallow Hu Hbp Hbo Hname Hap Hslc Hopt Hroom Hsize Hmod Ha Hob Hl.
  assert (0 < page) as Hpage by apply Hu.
  unfold amlnand_save_info_by_name, truthy. wp_steps.
  rewrite (proj2 (Z.eqb_neq _ _) Hallow). cbn [negb]. wp_steps.
  apply wp_mod; [fold page; lia|]. fold page n. rewrite Hslc. cbn [when_]. wp_steps.
  rewrite Hopt, Hmod, Z.eqb_refl. cbn [while_]. wp_step.
  unfold save_round. wp_steps. apply wp_upd_arg. unfold arg_, clear_ops. wp_steps.
  eapply wp_mono; [apply (wp_place_past_end _ _ _ blk t0 a (size / page) _ bp bo bb ob)
    | by intros ?? [] | done]; cbn [j_buf j_page j_oob j_total j_info j_arg_pages j_tmp_blk j_pages
      j_pages_read]; try done.
  - destruct Hu. by destruct i; split.
  - by destruct i.
  - by apply length_oobinfo.
  - destruct i; cbn; intros E; cbn in E; by rewrite E in Hslc.
  - unfold appendable, placed in *. destruct i; exact Hap.
  - apply Z.div_pos; lia.
  - rewrite (Z.div_mod size page) at 1 by lia. lia.
  - rewrite (Z.div_mod size page) in Hl by lia. lia.
Qed.

(** C12: A page-wise item with room behind its last copy is saved by two more
    copies, and what was saved is read back. *)
Theorem save_then_read spin i name size blk t0 bp bo bb ob content b2 o2 m0 w :
  let n := arg_pages_of size (pagesize (flash (w_chip w))) in
  savable i size blk t0 bp bo bb ob content w -> length name = 4%nat ->
  b2 <> bp -> b2 <> bo -> peek (w_mem w) (Ptr b2 o2) size = Some m0 ->
  wp (s ← amlnand_save_info_by_name spin i (Ptr bb ob) name size;
      r ← amlnand_read_info_by_name i (Ptr b2 o2) name size; mret (s, r))
    (fun sr w' => sr = (0, 0) /\
       peek (w_mem w') (Ptr b2 o2) size = Some (take (Z.to_nat size) content) /\
       appendable i blk (t0 + 2 * n) w') noflt w.
Proof.
  intros n Hsa Hname H2p H2o Hm0. wp_step.
  eapply wp_mono; [by eapply wp_save_appends | | done]. fold n.
  set (fl := flash (w_chip w)) in *.
  intros s w1 (-> & Hsv1 & Hg1 & Ho1 & stamp & Hst1). wp_step.
  assert (flash (w_chip w1) = fl) as Hf1 by by apply geometry_flash.
  destruct Hsv1 as [Hu1 Hap1 Hd1]. destruct Hsa as [_ Hsv _ Hsize _ _ _ _ _ _].
  assert (0 < pagesize fl) as Hpage by apply (sv_usable _ _ _ _ _ _ _ _ _ _ Hsv).
  destruct (total_of_pos size (pagesize fl) Hpage) as [_ Hst]; [lia|].
  apply peek_length in Hd1.
  eapply wp_mono; [eapply (wp_read_info_loads i _ _ stamp size content); try done; try apply Hap1
    | | done].
  - rewrite (same_outside_peek _ _ _ _ _ _ _ Ho1); done.
  - lia.
  - rewrite Hf1. intros k ??. apply Hst1; lia.
  - intros r w2 (-> & Hs2 & Hr2 & _). wp_steps. split_and!; try done.
    by eapply setup_appendable.
Qed.
End Steady.

(** ** A perfect chip
    Pages by chip and page address; every operation succeeds, erased pages read
    as ones. *)
Module IdealChip.
Abbreviation D := (gmap (Z * Z) (list Z * list Z)).

#[local] Instance hw : NandHw D := {
  hw_cmd _ d m := (d, m);
  hw_info d m := (0, (d, m));
  hw_buf d m := (0, (d, m));
  hw_cfg _ _ d m := (d, m);
  hw_wait d m := (d, m);
  hw_virt _ := 0
}.

Definition read : act D Z :=
  c ← gets w_chip;
  let o := ops_para c in
  p ← gets (fun w => w_dev w !! (chipnr o, page_addr o));
  let '(data, oob) := default (replicate (Z.to_nat (pagesize (flash c))) 255,
                               replicate (Z.to_nat (ooblen o)) 255) p in
  (if is_null (data_buf o) then mret tt else store_bytes (data_buf o) data) ;;
  store_bytes (oob_buf o) oob ;;
  upd_ops (set_ecc_err 0) ;;
  mret 0.

Definition write : act D Z :=
  c ← gets w_chip;
  let o := ops_para c in
  data ← load_bytes (data_buf o) (pagesize (flash c));
  oob ← load_bytes (oob_buf o) (ooblen o);
  modify (fun w => set_w_dev (<[(chipnr o, page_addr o) := (data, oob)]> (w_dev w)) w) ;;
  mret 0.

Definition erase : act D Z :=
  c ← gets w_chip;
  let o := ops_para c in
  let pages := pages_of_block (flash c) in
  modify (fun w => set_w_dev (filter (fun '((ce, page), _) =>
            ~ (ce = chipnr o /\ page / pages = page_addr o / pages)) (w_dev w)) w) ;;
  mret 0.

#[local] Instance ops : ChipOperation D := {|
  op_erase_block := erase;
  op_read_page := read;
  op_write_page := write;
  op_block_isbad := mret NAND_BLOCK_GOOD;
  op_block_markbad := mret 0;
  op_test_block_chip_op := mret 0;
  op_test_block_reserved := fun _ => mret 0;
  op_blk_modify_bbt_chip_op := fun _ => mret 0;
  op_update_bbt_chip_op := mret 0
|}.

#[local] Instance ops_bounded : OpsBounded ops.
Proof.
  split; intros; cbn; unfold read, write, erase, ops_, chip; solve_bounded.
Qed.

Lemma wait_fifo_quiet (n : nat) (w : world D) : wait_fifo n w = Done tt w.
Proof. destruct n; [done|]. cbn. by destruct w. Qed.

#[local] Instance power : PowerStore ops.
Proof.
  refine {| page_at := fun d a => d !! a; ps_fails := False |}.
  - intros n w Hn. unfold controller_select_chip.
    replace (_ && _) with true by (symmetry; lia). wp_steps.
    unfold idle_selected, NFC_SEND_CMD_IDLE, NFC_WAIT_FIFO_EMPTY. wp_steps.
    unfold wp at 1. rewrite wait_fifo_quiet. by unfold NFC_SEND_CMD; wp_steps.
  - intros w data oob c o Hd Ho. cbn [op_write_page ops]. unfold write. wp_steps.
    eapply wp_load_bytes; [exact Hd|]. wp_step. eapply wp_load_bytes; [exact Ho|]. wp_steps.
    split_and!; [done.. |]. intros a. cbn. case_decide as E.
    + subst a. by rewrite lookup_insert_eq.
    + by rewrite lookup_insert_ne.
  - intros w data oob m m' o Hat Hlen Hm Hm'. cbn [op_read_page ops]. unfold read. wp_steps. fold o. rewrite Hat. cbn.
    destruct (is_null (data_buf o)) eqn:Hn; [by destruct (data_buf o)|]. wp_step.
    eapply wp_store_bytes; [exact Hm|]. wp_step. eapply wp_store_bytes; [exact Hm'|].
    by wp_steps.
Defined.
#[local] Instance store : PageStore ops := {| ps_steady := fun H => H |}.

(** Pages of 16 bytes, 256 to the block, one chip; the device is held. *)
Definition fl : nand_flash := mk_flash 16 1048576 4096 8 1 0 0 0 0 0 [].
Definition item : list Z := map (fun i => 3 * Z.of_nat i) (seq 0 48).
Definition board : world D :=
  set_w_allow_meta 1
    (set_w_mem {[ 1 := replicate 16 0; 2 := replicate 8 0; 3 := item; 4 := replicate 48 0 ]}
       (set_w_chip
          (set_state CHIP_WRITING (set_flash fl (set_controller (set_chip_num 1 ctl0)
            (set_user_page_buf (Ptr 1 0) (set_user_oob_buf (Ptr 2 0)
              (set_reserved_blk (replicate 48 255)
                (set_uboot_env (set_arg_type FULL_PAGE arg0) chip0)))))))
          (world0 ∅))).
Definition final {S A} (o : outcome S A) : S :=
  match o with Done _ s => s | Fault _ s => s end.
Definition saved : world D := Eval vm_compute in
  final (amlnand_save_info_by_name 60 Env (Ptr 3 0) ENV_INFO_HEAD_MAGIC 32 board).

(** The first save: blocks 4 on are free, the item goes to block 4 twice. *)
Example first_save :
  (valid_blk_addr (uboot_env (w_chip saved)), valid_page_addr (uboot_env (w_chip saved)),
   timestamp (uboot_env (w_chip saved)), arg_valid (uboot_env (w_chip saved)),
   take 2 (reserved_blk (w_chip saved))) = (4, 3, 2, 1, [4; 255]).
Proof. vm_compute. reflexivity. Qed.

(** After a reboot the driver finds the item again and loads it. *)
Definition rebooted : world D :=
  set_w_chip (set_uboot_env (set_arg_type FULL_PAGE arg0)
    (set_reserved_blk (replicate 48 255) (w_chip saved))) saved.
Definition booted : outcome (world D) Z := Eval vm_compute in
  amlnand_info_init Env (Ptr 4 0) ENV_INFO_HEAD_MAGIC 32 rebooted.
Example found_again :
  (booted = Done 0 (final booted)) /\
  w_mem (final booted) !! 4 = Some (take 32 item ++ replicate 16 0) /\
  uboot_env (w_chip (final booted)) = uboot_env (w_chip saved).
Proof. vm_compute. split_and!; reflexivity. Qed.

Example save_then_read_witness :
  wp (s ← amlnand_save_info_by_name 60 Env (Ptr 3 0) ENV_INFO_HEAD_MAGIC 32;
      r ← amlnand_read_info_by_name Env (Ptr 4 0) ENV_INFO_HEAD_MAGIC 32; mret (s, r))
    (fun sr w' => sr = (0, 0) /\
       peek (w_mem w') (Ptr 4 0) 32 = Some (take 32 item) /\ appendable Env 4 (3 + 2 * 3) w')
    noflt saved.
Proof.
  apply (save_then_read 60 Env ENV_INFO_HEAD_MAGIC 32 4 3 1 2 3 0 item 4 0 (replicate 32 0) saved).
  - assert (pagesize (flash (w_chip saved)) = 16) as Hp by reflexivity.
    assert (pages_of_block (flash (w_chip saved)) = 256) as Hb by (vm_compute; reflexivity).
    assert (arg_pages_of 32 16 = 3) as Ha by (vm_compute; reflexivity).
    split; rewrite ?Hp, ?Hb, ?Ha; [discriminate | | done | lia | reflexivity.. | lia | lia | lia | lia].
    split; [|repeat split; reflexivity | vm_compute; reflexivity].
    split; [discriminate | cbn; lia | reflexivity | lia | |];
      (do 2 eexists; split; [reflexivity | vm_compute; reflexivity]).
  - reflexivity.
  - lia.
  - lia.
  - vm_compute. reflexivity.
Defined.

Lemma last_bounded : bounded (get_last_reserve_block 60).
Proof.
  unfold get_last_reserve_block, clear_ops. cbn [op_block_isbad ops]. solve_bounded.
  apply (bounded_while (fun '(blk, _) => Z.to_nat (48 - blk))).
  - intros [blk ?] H%Z.ltb_lt. unfold RESERVED_BLOCK_CNT in *. lia.
  - intros [blk ?] s H%Z.ltb_lt. unfold RESERVED_BLOCK_CNT in *.
    solve_bounded. apply wp_bounded_bind; [apply bounded_point_block|]. intros _ s1.
    apply wp_bind, wp_ret, wp_ret.
    change (NAND_BLOCK_GOOD =? NAND_BLOCK_FACTORY_BAD) with false. cbv iota beta. lia.
  - cbn. lia.
Qed.


Example check_info_terminates_witness :
  wp (amlnand_check_info_by_name Env ENV_INFO_HEAD_MAGIC 32) (fun _ _ => True) in_fuel rebooted.
Proof. apply check_info_terminates. lia. Defined.

Lemma ideal_keeps_reserved :
  respects same_reserved (op_erase_block (ChipOperation := ops)) /\
  respects same_reserved (op_block_isbad (ChipOperation := ops)) /\
  yields (fun r => r <= 0) (op_erase_block (ChipOperation := ops)).
Proof.
  split_and!; cbn; [|apply respects_ret, _ | by intros w].
  unfold erase. solve_respects. apply respects_modify. by intros w.
Qed.

(** An item of two pages in a buffer of two pages. *)
Definition exact : world D :=
  set_w_mem {[ 1 := replicate 16 0; 2 := replicate 8 0; 3 := take 32 item ]} board.
Definition exact_job : save_job :=
  mk_job Env (Ptr 3 0) 16 4 256 256 3 48 (oobinfo ENV_INFO_HEAD_MAGIC 1).
Example copy_reads_past_end_witness :
  wp (copy_info exact_job true 4 0 0 0) overrun past_end exact.
Proof.
  apply (copy_reads_past_end _ _ _ _ _ _ (take 32 item) 2 exact 1 2 3 0);
    try (vm_compute; done); try lia.
  split; [discriminate | cbn; lia | reflexivity | lia | |];
    (do 2 eexists; split; [reflexivity | vm_compute; reflexivity]).
Defined.
End IdealChip.
