(* ===== verification/Recovery.v ===== *)
(** * Recovery: what is found after a reboot, and after the power went.

    [ChipEnv] finds an item by its name in the spare bytes: the first page of
    every reserved block, then the last copy in the block that was found.  Over
    a chip whose erased pages read as ones ([ScanStore]) this file says what that
    search finds: the item that was saved, and, when the power went while it was
    saved, the copy that was being made. *)
From S2P Require Import Prelude NfcWords Data Machine Guards Ctrl HwController ChipOp ChipEnv PageStore.

#[local] Arguments peek : simpl never.
#[local] Arguments poke : simpl never.

(** ** The interface *)

(** Pages that can all be read, the erased ones as ones, and blocks whose state
    does not change while one looks for an item. *)
Class ScanStore {D : Type} `{!NandHw D} (ops : ChipOperation D) := {
  sc_power :: PowerStore ops;
  sc_status : Z * Z -> Z;
  sc_isbad : forall (w : world D), let o := ops_para (w_chip w) in
    wp op_block_isbad
      (fun r w' => r = sc_status (chipnr o, page_addr o) /\ setup w' = setup w /\
        w_mem w' = w_mem w /\ page_at (w_dev w') = page_at (w_dev w)) noflt w;
  sc_erased : forall (w : world D) m m',
    let c := w_chip w in let o := ops_para c in
    page_at (w_dev w) (chipnr o, page_addr o) = None ->
    poke (w_mem w) (data_buf o) (replicate (Z.to_nat (pagesize (flash c))) 255) = Some m ->
    poke m (oob_buf o) (replicate (Z.to_nat (ooblen o)) 255) = Some m' ->
    wp op_read_page (read_page_to w m') noflt w
}.

(** The lock is free and the pins can be switched. *)
Definition lock_free {D} (w : world D) : Prop :=
  w_mutex w = false /\ w_idleflag w = 0 /\ willing w.

Section Search.
Context {D : Type} `{!NandHw D} `{ops : !ChipOperation D} `{!ScanStore ops}.
Implicit Types w : world D.

(** ** Reading a page *)

Definition seen w (a : Z * Z) : list Z * list Z :=
  default (replicate (Z.to_nat (pagesize (flash (w_chip w)))) 255, replicate 6 255)
    (page_at (w_dev w) a).

(** The page has the item's name in its spare bytes. *)
Definition named w (name : list Z) (a : Z * Z) : bool := bool_decide (oob_name (seen w a).2 = name).

Definition sized w (a : Z * Z) : Prop :=
  Z.of_nat (length (seen w a).1) = pagesize (flash (w_chip w)) /\ length (seen w a).2 = 6%nat.

Lemma wp_read_seen w w1 a m m' :
  flash (w_chip w1) = flash (w_chip w) -> page_at (w_dev w1) = page_at (w_dev w) ->
  (chipnr (ops_para (w_chip w1)), page_addr (ops_para (w_chip w1))) = a ->
  ooblen (ops_para (w_chip w1)) = SIZEOF_oobinfo -> sized w a ->
  poke (w_mem w1) (data_buf (ops_para (w_chip w1))) (seen w a).1 = Some m ->
  poke m (oob_buf (ops_para (w_chip w1))) (seen w a).2 = Some m' ->
  wp op_read_page (read_page_to w1 m') noflt w1.
Proof.
  intros Hf Hd Hp Hl [_ Hz] Hm Hm'. unfold seen in Hm, Hm', Hz.
  destruct (page_at (w_dev w) a) as [[data oob]|] eqn:Ha; cbn in Hm, Hm', Hz.
  - eapply wp_mono; [apply (ps_read w1 data oob m m'); [by rewrite Hp, Hd | | done..] | | done].
    { unfold SIZEOF_oobinfo in Hl. lia. }
    intros r w' (-> & H). by split_and!; try apply H.
  - eapply sc_erased; [by rewrite Hp, Hd | rewrite Hf; exact Hm | by rewrite Hl].
Qed.

Lemma wp_with_chip (m : act D Z) w1 m' :
  lock_free w1 ->
  (let w2 := set_w_calls (S (w_calls w1)) (set_w_idleflag 1 (set_w_mutex true w1)) in
   wp m (read_page_to w2 m') noflt w2) ->
  wp (with_chip m) (read_page_to w1 m') noflt w1.
Proof.
  intros (Hm & Hi & Ho) H. unfold with_chip. wp_step. apply wp_get_chip; [done | apply Ho |].
  wp_step. eapply wp_mono; [by apply H | | done].
  intros r w3 (-> & Hs & Hmem & Hd & He & Hopt).
  destruct (setup_kernel _ _ Hs) as (Em & Ei & Eb & Eo & Ea). cbn in Em, Ei, Eb, Eo, Ea.
  unfold nand_release_chip. wp_steps. rewrite Ei. cbn [truthy negb Z.eqb when_].
  unfold pinctrl_select_state, kernel_call, mutex_unlock. wp_steps.
  split; [done|]. cbn. split_and!; try done.
  unfold setup in *. cbn in *. rewrite Hm, Hi. injection Hs; intros. congruence.
Qed.

Lemma wp_fetch_seen lock blk tmp_blk pages t w bp bo :
  let a := page_of w tmp_blk pages blk t in
  lock = when_ready \/ lock = with_chip /\ lock_free w ->
  usable w bp bo -> sized w a ->
  wp (fetch_page true lock blk tmp_blk pages t)
    (fun r w' => r = (0, false) /\ setup w' = setup w /\ usable w' bp bo /\
       same_outside bp bo (w_mem w) (w_mem w') /\
       page_at (w_dev w') = page_at (w_dev w) /\ fetched w' (seen w a).1 (seen w a).2 /\
       ops_option (ops_para (w_chip w')) = page_option w) noflt w.
Proof.
  intros a Hlock Hu Hz. apply wp_fetch_page_by; [| done | apply Hz |].
  2: { destruct Hz as [_ ->]. done. }
  intros w1 m m' [Hs Hd Hp _ _ Hl _] Hm Hm'. destruct Hlock as [->|[-> (H1 & H2 & H3)]].
  - apply when_ready_held; [destruct (setup_inv _ _ Hs) as (-> & _); apply Hu|].
    eapply wp_mono; [apply (wp_read_seen w w1 a m m'); [by apply setup_flash | done..] | | done].
    intros r w' H. split; [apply H | done].
  - destruct (setup_kernel _ _ Hs) as (E1 & E2 & _ & E4 & _).
    apply wp_with_chip; [split_and!; [congruence.. | intros n; rewrite E4; apply H3]|].
    apply (wp_read_seen w _ a m m'); [by apply (setup_flash w w1) | done..].
Qed.

(** ** The search *)

(** A reboot: nothing is known yet of the item. *)
Definition unknown (a : nand_arg_info) : Prop :=
  arg_valid a = 0 /\ arg_type a = FULL_PAGE /\ update_flag a = 0.

(** What looking for the item leaves alone. *)
Record looked (bp bo : Z) w w' : Prop := {
  lk_geometry : geometry w' = geometry w;
  lk_usable : usable w' bp bo;
  lk_mem : same_outside bp bo (w_mem w) (w_mem w');
  lk_dev : page_at (w_dev w') = page_at (w_dev w)
}.

Lemma looked_refl bp bo w : usable w bp bo -> looked bp bo w w.
Proof. by split. Qed.
Lemma looked_trans bp bo w1 w2 w3 : looked bp bo w1 w2 -> looked bp bo w2 w3 -> looked bp bo w1 w3.
Proof. intros [A1 B1 C1 D1] [A2 B2 C2 D2]. split; [congruence | done | by etransitivity | congruence]. Qed.
Lemma looked_arg bp bo i a w w' : looked bp bo w w' -> looked bp bo w (with_arg i a w').
Proof.
  intros [A B C E]. split; [by rewrite with_arg_geometry | by apply with_arg_usable | done | done].
Qed.
Lemma looked_setup bp bo w w1 w' :
  looked bp bo w w1 -> setup w' = setup w1 -> usable w' bp bo ->
  same_outside bp bo (w_mem w1) (w_mem w') -> page_at (w_dev w') = page_at (w_dev w1) ->
  looked bp bo w w'.
Proof.
  intros H Hs Hu Hm Hd. eapply looked_trans; [exact H|].
  split; [by apply setup_geometry | done..].
Qed.

Lemma geometry_kernel w w' : geometry w' = geometry w ->
  w_mutex w' = w_mutex w /\ w_idleflag w' = w_idleflag w /\ w_oracle w' = w_oracle w.
Proof. unfold geometry. intros E. by simplify_eq. Qed.
Lemma looked_lock_free bp bo w w' : looked bp bo w w' -> lock_free w -> lock_free w'.
Proof.
  intros H (H1 & H2 & H3). destruct (geometry_kernel _ _ (lk_geometry _ _ _ _ H)) as (E1 & E2 & E3).
  split_and!; [congruence.. | intros n; rewrite E3; apply H3].
Qed.
Lemma looked_seen bp bo w w' a : looked bp bo w w' -> seen w' a = seen w a.
Proof.
  intros H. unfold seen. rewrite (lk_dev _ _ _ _ H).
  by rewrite (geometry_flash _ _ (lk_geometry _ _ _ _ H)).
Qed.
Lemma looked_sized bp bo w w' a : looked bp bo w w' -> sized w a -> sized w' a.
Proof.
  intros H. unfold sized. rewrite (looked_seen _ _ _ _ _ H).
  by rewrite (geometry_flash _ _ (lk_geometry _ _ _ _ H)).
Qed.
Lemma looked_page_of bp bo w w' a b c d : looked bp bo w w' -> page_of w' a b c d = page_of w a b c d.
Proof. intros H. apply geometry_page_of, H. Qed.

(** A page of a block, looked at in the search. *)
Lemma wp_look_page lock blk t w w1 bp bo :
  let fl := flash (w_chip w) in let a := item_page w blk t in
  lock = when_ready \/ lock = with_chip /\ lock_free w ->
  looked bp bo w w1 -> sized w a ->
  wp (fetch_page true lock blk (u16 (reserved_start fl)) (pages_of_block fl) t)
    (fun r w' => r = (0, false) /\ looked bp bo w w' /\ setup w' = setup w1 /\
       fetched w' (seen w a).1 (seen w a).2) noflt w1.
Proof.
  intros fl a Hlock Hl Hz.
  pose proof (looked_page_of _ _ _ _ (u16 (reserved_start fl)) (pages_of_block fl) blk t Hl) as Ha.
  fold (item_page w blk t) in Ha. fold a in Ha.
  eapply wp_mono; [apply wp_fetch_seen | | done].
  - destruct Hlock as [|[? Hf]]; [by left | right; split; [done|]]. by eapply looked_lock_free.
  - apply (lk_usable _ _ _ _ Hl).
  - rewrite Ha. by eapply looked_sized.
  - intros r w' (-> & Hs & Hu & Hm & Hd & Hf & _). split_and!; [done | | done |].
    + by eapply looked_setup.
    + by rewrite Ha, (looked_seen _ _ _ _ _ Hl) in Hf.
Qed.

(** What the first page of a block tells of the item. *)
Definition probed (name : list Z) (blk : Z) (oob : list Z) (a : nand_arg_info) : nand_arg_info :=
  if bool_decide (oob_name oob = name) then
    let t := oob_timestamp oob in
    if arg_valid a =? 1 then
      if timestamp a <? t
      then set_free_blk_addr (valid_blk_addr a) (set_valid_blk_addr (u16 blk) (set_timestamp t a))
      else set_free_blk_addr (u16 blk) a
    else set_arg_valid 1 (set_valid_blk_addr (u16 blk) (set_timestamp t a))
  else a.

Lemma wp_probe_first i name blk pages_read step w w1 bp bo :
  let fl := flash (w_chip w) in let a := item_page w blk 0 in
  lock_free w -> looked bp bo w w1 -> sized w a -> 0 < pages_read ->
  wp (probe_block i name blk (u16 (reserved_start fl)) (pages_of_block fl) pages_read step)
    (fun r w' => r = 0 /\ looked bp bo w w' /\
       arg_of i (w_chip w') = probed name blk (seen w a).2 (arg_of i (w_chip w1))) noflt w1.
Proof.
  intros fl a Hfree Hl Hz Hr. unfold probe_block. wp_step.
  replace (Z.to_nat pages_read + 20)%nat with (S (Z.to_nat pages_read + 19)) by lia.
  cbn [while_]. rewrite (proj2 (Z.ltb_lt 0 pages_read)) by done. wp_step.
  wp_step. eapply wp_mono; [apply (wp_look_page with_chip); [right; done | exact Hl | done] | | done].
  intros r w2 (-> & Hl2 & Hs2 & Hf). wp_step.
  eapply wp_fetched_oob; [exact Hf|]. unfold probed, arg_.
  assert (arg_of i (w_chip w1) = arg_of i (w_chip w2)) as -> by (by rewrite (setup_arg _ _ i Hs2)).
  destruct (bool_decide _) eqn:Hn; cbn [when_]; wp_steps; [|by split_and!].
  unfold id. destruct (arg_valid _ =? 1) eqn:Hv; [destruct (timestamp _ <? _) eqn:Ht|];
    apply wp_upd_arg; wp_steps; (split; [done|]); rewrite with_arg_arg;
    (split; [by apply looked_arg | done]).
Qed.

(** The copies of an item in the flash: [m] of them, [n] pages each, in the good
    block [blk]; the other good blocks of the reserved area start with another
    item. *)
Record layout (name : list Z) (n blk m : Z) w : Prop := {
  ly_mlc : slc_type (new_type (flash (w_chip w))) = false;
  ly_block : u16 (reserved_start (flash (w_chip w))) <= blk
             < u16 (reserved_start (flash (w_chip w)) + RESERVED_BLOCK_CNT);
  ly_good : sc_status (item_page w blk 0) = 0;
  ly_others : forall b, u16 (reserved_start (flash (w_chip w))) <= b
                < u16 (reserved_start (flash (w_chip w)) + RESERVED_BLOCK_CNT) ->
              b <> blk -> sc_status (item_page w b 0) = 0 ->
              sized w (item_page w b 0) /\ named w name (item_page w b 0) = false;
  ly_copies : forall c, 0 <= c < m ->
    sized w (item_page w blk (c * n)) /\ named w name (item_page w blk (c * n)) = true;
  ly_end : m * n < pages_of_block (flash (w_chip w)) ->
    sized w (item_page w blk (m * n)) /\ named w name (item_page w blk (m * n)) = false;
  ly_room : (m - 1) * n < pages_of_block (flash (w_chip w)) /\ (m - 1) * n < 2 ^ 16;
  ly_some : 0 < n /\ 0 < m;
  (* page addresses fit into 32 bits *)
  ly_fits : let fl := flash (w_chip w) in
    (u16 (reserved_start fl + RESERVED_BLOCK_CNT) / chip_num (controller (w_chip w))
     + u16 (reserved_start fl) + 1) * pages_of_block fl <= 2 ^ 32
}.

Lemma looked_flash bp bo w w' : looked bp bo w w' -> flash (w_chip w') = flash (w_chip w).
Proof. intros H. apply geometry_flash, H. Qed.

Lemma wp_point_block w w1 bp bo blk :
  let fl := flash (w_chip w) in
  looked bp bo w w1 ->
  wp (point_block blk (u16 (reserved_start fl)) (pages_of_block fl))
    (fun _ w' => looked bp bo w w' /\ setup w' = setup w1 /\
       (slc_type (new_type fl) = false ->
        (chipnr (ops_para (w_chip w')), page_addr (ops_para (w_chip w'))) = item_page w blk 0))
    noflt w1.
Proof.
  intros fl Hl. unfold point_block. wp_steps.
  destruct (lk_usable _ _ _ _ Hl) as [_ Hn _ _ _ _].
  apply wp_mod; [lia|]. wp_steps.
  eapply wp_mono; [apply ps_select | | done].
  { cbn. pose proof (Z.mod_pos_bound blk (chip_num (controller (w_chip w1)))). lia. }
  cbn. intros _ w' (Hs & Hm & Ho & Hd). wp_steps. rewrite Ho. cbn.
  assert (setup w' = setup w1) as Hs' by (etransitivity; [exact Hs | done]).
  split_and!; [| done |].
  - eapply looked_setup; [exact Hl | done | | by rewrite Hm | done].
    destruct (lk_usable _ _ _ _ Hl). eapply setup_usable; [exact Hs' | by split | |];
      rewrite Hm; eauto.
  - intros Hslc. unfold item_page, page_of. fold fl. rewrite Hslc.
    assert (chip_num (controller (w_chip w1)) = chip_num (controller (w_chip w))) as ->.
    { pose proof (lk_geometry _ _ _ _ Hl) as Hg. unfold geometry in Hg. by simplify_eq. }
    f_equal. rewrite Z.add_0_l. unfold reserved_page at 2, wrap. by rewrite Z.mod_mod by lia.
Qed.

Lemma wp_block_state w w1 bp bo blk :
  looked bp bo w w1 ->
  (chipnr (ops_para (w_chip w1)), page_addr (ops_para (w_chip w1))) = item_page w blk 0 ->
  wp op_block_isbad (fun r w' => r = sc_status (item_page w blk 0) /\ looked bp bo w w' /\
       setup w' = setup w1) noflt w1.
Proof.
  intros Hl Ha. eapply wp_mono; [apply sc_isbad | | done]. cbv zeta. rewrite Ha.
  intros r w' (-> & Hs & Hm & Hd). split_and!; [done | | done].
  eapply looked_setup; [exact Hl | done | | by rewrite Hm | done].
  eapply setup_usable; [exact Hs | apply Hl | |]; rewrite Hm; eauto.
Qed.

(** What the search knows of the item before block [b]. *)
Definition known (a0 : nand_arg_info) (blk b : Z) (a : nand_arg_info) : Prop :=
  if b <=? blk then a = a0
  else arg_valid a = 1 /\ valid_blk_addr a = blk /\ arg_type a = arg_type a0 /\
       update_flag a = update_flag a0.

Lemma known_after a0 blk b a : b <> blk -> known a0 blk b a -> known a0 blk (b + 1) a.
Proof. unfold known. intros. destruct (Z.leb_spec b blk), (Z.leb_spec (b + 1) blk); try done; lia. Qed.

Lemma wp_scan_block i name n blk m w w1 bp bo b :
  let fl := flash (w_chip w) in
  layout name n blk m w -> lock_free w -> unknown (arg_of i (w_chip w)) ->
  u16 (reserved_start fl) <= b < u16 (reserved_start fl + RESERVED_BLOCK_CNT) ->
  looked bp bo w w1 -> known (arg_of i (w_chip w)) blk b (arg_of i (w_chip w1)) ->
  sc_status (item_page w b 0) = 0 ->
  wp (probe_block i name b (u16 (reserved_start fl)) (pages_of_block fl) (pages_of_block fl) n)
    (fun r w' => r = 0 /\ looked bp bo w w' /\
       known (arg_of i (w_chip w)) blk (b + 1) (arg_of i (w_chip w'))) noflt w1.
Proof.
  intros fl [Hmlc Hblk _ Hoth Hcop _ [Hroom _] [Hn Hm] _] Hfree (Hv & Hty & Hup) Hb Hl Hk Hgood.
  assert (0 < pages_of_block fl) as Hp by (unfold fl; nia).
  destruct (decide (b = blk)) as [->|Hne].
  - destruct (Hcop 0) as [Hz Hnm]; [lia|]. rewrite Z.mul_0_l in Hz, Hnm.
    eapply wp_mono; [by eapply wp_probe_first | | done].
    intros r w' (-> & Hl' & Ha). split_and!; [done.. |].
    unfold known in *. rewrite Z.leb_refl in Hk. rewrite (proj2 (Z.leb_gt _ _)) by lia.
    rewrite Ha, Hk. unfold probed, named in *. rewrite Hnm, Hv. cbn.
    split_and!; try done. unfold wrap in *. rewrite Z.mod_small; [done|].
    pose proof (Z.mod_pos_bound (reserved_start fl) (2 ^ 16)).
    pose proof (Z.mod_pos_bound (reserved_start fl + RESERVED_BLOCK_CNT) (2 ^ 16)).
    unfold fl in *. lia.
  - destruct (Hoth b Hb Hne Hgood) as [Hz Hnm].
    eapply wp_mono; [by eapply wp_probe_first | | done].
    intros r w' (-> & Hl' & Ha). split_and!; [done.. |].
    apply known_after; [done|]. rewrite Ha. unfold probed, named in *. by rewrite Hnm.
Qed.

(** ** The last copy of the block *)
Lemma wp_locate_last i name n blk m w w1 bp bo ret :
  let fl := flash (w_chip w) in
  layout name n blk m w -> looked bp bo w w1 ->
  (let a := arg_of i (w_chip w1) in
   arg_valid a = 1 /\ valid_blk_addr a = blk /\ arg_type a = FULL_PAGE /\ update_flag a = 0) ->
  wp (locate_pages i name (u16 (reserved_start fl)) (pages_of_block fl) (pages_of_block fl) n ret)
    (fun r w' => r = 0 /\ looked bp bo w w' /\ appendable i blk ((m - 1) * n) w') noflt w1.
Proof.
  intros fl [Hmlc Hblk _ _ Hcop Hend [Hroom H16] [Hn Hm] _] Hl Ha. fold fl in Hroom, Hend.
  unfold locate_pages, arg_. wp_steps. unfold id. destruct (id Ha) as (_ & _ & -> & _).
  cbn [FULL_PAGE FULL_BLK Z.eqb Pos.eqb orb negb]. wp_step.
  apply (wp_while (fun fuel '(p, r) w' => exists c, p = c * n /\ 0 <= c <= m /\
    (0 < c -> r = 0) /\ (Z.to_nat (pages_of_block fl - p) <= fuel)%nat /\ looked bp bo w w' /\
    let a := arg_of i (w_chip w') in
    arg_valid a = 1 /\ valid_blk_addr a = blk /\ arg_type a = FULL_PAGE /\ update_flag a = 0 /\
    (0 < c -> valid_page_addr a = (c - 1) * n))).
  - intros k [p r] w' (c & -> & Hc & Hr & _ & Hl' & Hv & Hb & Hty & Hup & Hpg) Hlt%Z.ltb_ge.
    assert (c = m) as -> by nia. wp_steps. split; [by apply Hr; lia|]. split; [done|].
    unfold appendable, placed. cbv zeta in Hpg. split_and!; try done. apply Hpg. lia.
  - intros k [p r] w' (c & -> & Hc & Hr & Hfu & Hl' & Hv & Hb & Hty & Hup & Hpg) Hlt%Z.ltb_lt.
    destruct k as [|k]; [lia|]. exists k. split; [done|]. wp_steps. unfold id. destruct (id Ha) as (_ & -> & _).
    assert (sized w (item_page w blk (c * n))) as Hz.
    { destruct (decide (c = m)) as [->|]; [by apply Hend | apply Hcop; lia]. }
    eapply wp_mono; [apply (wp_look_page when_ready); [by left | exact Hl' | exact Hz] | | done].
    intros r2 w2 (-> & Hl2 & Hs2 & Hf). unfold is_1ynm. wp_steps.
    eapply wp_fetched_oob; [exact Hf|].
    pose proof (setup_arg _ _ i Hs2) as Ea.
    destruct (decide (c = m)) as [->|Hcm].
    + destruct Hend as [_ Hnm]; [done|]. unfold named in Hnm. rewrite Hnm. wp_steps. split; [done|]. split; [done|].
      unfold appendable, placed. rewrite Ea. split_and!; try done. apply Hpg. lia.
    + destruct (Hcop c) as [_ Hnm]; [lia|]. unfold named in Hnm. rewrite Hnm. wp_steps. apply wp_upd_arg. wp_steps.
      assert ((new_type (flash (w_chip w2)) =? HYNIX_1YNM_8GB) = false) as ->.
      { apply Z.eqb_neq. rewrite (looked_flash _ _ _ _ Hl2). fold fl. intros E.
        unfold fl in E. rewrite E in Hmlc. done. }
      exists (c + 1). rewrite with_arg_arg. cbn. rewrite Ea.
      split_and!; try done; try lia; [by apply looked_arg | intros _].
      unfold wrap. rewrite Z.mod_small; [nia|]. nia.
  - exists 0. destruct Ha as (? & ? & ? & ?). split_and!; try done; lia.
Qed.

Lemma looked_ops bp bo w w1 f :
  looked bp bo w w1 -> looked bp bo w (set_w_chip (set_ops_para f (w_chip w1)) w1).
Proof. intros [A [] C E]. split; [exact A | by split | done | done]. Qed.

Lemma looked_reserved bp bo w w1 l :
  looked bp bo w w1 -> looked bp bo w (set_w_chip (set_reserved_blk l (w_chip w1)) w1).
Proof. intros [A [] C E]. split; [exact A | by split | done | done]. Qed.

(** One block of the search. *)
Lemma wp_search_block i name n blk m w w1 bp bo b :
  let fl := flash (w_chip w) in
  layout name n blk m w -> lock_free w -> unknown (arg_of i (w_chip w)) ->
  u16 (reserved_start fl) <= b < u16 (reserved_start fl + RESERVED_BLOCK_CNT) ->
  looked bp bo w w1 -> known (arg_of i (w_chip w)) blk b (arg_of i (w_chip w1)) ->
  wp (clear_ops ;;
      point_block b (u16 (reserved_start fl)) (pages_of_block fl) ;;
      ret ← op_block_isbad;
      if truthy ret then mret (Next ret : ctl Z unit)
      else
        ret ← probe_block i name b (u16 (reserved_start fl)) (pages_of_block fl)
                (pages_of_block fl) n;
        a ← arg_ i id;
        mret (if (a.(arg_type) =? FULL_BLK) && (a.(arg_valid) =? 1)
                 && negb (a.(valid_blk_addr) =? 0) then Break ret else Next ret))
    (fun c w' => exists r, c = Next r /\ looked bp bo w w' /\
       known (arg_of i (w_chip w)) blk (b + 1) (arg_of i (w_chip w'))) noflt w1.
Proof.
  intros fl Hly Hfree Hun Hb Hl Hk. unfold clear_ops. wp_steps.
  eapply wp_mono; [apply wp_point_block, looked_ops, Hl | | done]. fold fl.
  intros _ w2 (Hl2 & Hs2 & Ha2). specialize (Ha2 (ly_mlc _ _ _ _ _ Hly)). wp_step.
  eapply wp_mono; [by eapply wp_block_state | | done]. intros r w3 (-> & Hl3 & Hs3).
  assert (arg_of i (w_chip w3) = arg_of i (w_chip w1)) as E.
  { rewrite (setup_arg _ _ i Hs3), (setup_arg _ _ i Hs2). by destruct i. }
  destruct (truthy _) eqn:Ht.
  - wp_steps. eexists. split; [done|]. split; [done|]. apply known_after; [|by rewrite E].
    intros ->. by rewrite (ly_good _ _ _ _ _ Hly) in Ht.
  - wp_steps. assert (sc_status (item_page w b 0) = 0) as Hgood.
    { unfold truthy in Ht. apply negb_false_iff, Z.eqb_eq in Ht. done. }
    eapply wp_mono; [eapply (wp_scan_block i name n blk m w w3); [done.. | | done] | | done].
    { by rewrite E. }
    intros r w4 (-> & Hl4 & Hk4). unfold arg_. wp_steps. unfold id.
    assert (arg_type (arg_of i (w_chip w4)) = FULL_PAGE) as ->.
    { destruct Hun as (_ & Hty & _). unfold known in Hk4. destruct (b + 1 <=? blk); [by rewrite Hk4|].
      destruct Hk4 as (_ & _ & -> & _). done. }
    cbn [FULL_PAGE FULL_BLK Z.eqb andb]. eexists. by split_and!.
Qed.

(** The search ends at the last copy. *)
Lemma wp_check_finds i name size blk m w bp bo :
  layout name (arg_pages_of size (pagesize (flash (w_chip w)))) blk m w ->
  lock_free w -> unknown (arg_of i (w_chip w)) -> usable w bp bo ->
  wp (amlnand_check_info_by_name i name size)
    (fun r w' => r = 0 /\ looked bp bo w w' /\
       appendable i blk ((m - 1) * arg_pages_of size (pagesize (flash (w_chip w)))) w') noflt w.
Proof.
  set (fl := flash (w_chip w)). set (n := arg_pages_of size (pagesize fl)).
  intros Hly Hfree Hun Hu. unfold amlnand_check_info_by_name, clear_ops. wp_steps. fold fl n.
  rewrite (ly_mlc _ _ _ _ _ Hly : slc_type (new_type fl) = false).
  pose proof (ly_block _ _ _ _ _ Hly) as Hblk. fold fl in Hblk.
  set (tmp := u16 (reserved_start fl)) in *.
  set (total := u16 (reserved_start fl + RESERVED_BLOCK_CNT)) in *.
  apply (wp_for (fun k b _ w' => (Z.of_nat k = total - b) /\ tmp <= b /\ looked bp bo w w' /\
    known (arg_of i (w_chip w)) blk b (arg_of i (w_chip w')))).
  - intros b ret w1 (Hb & _ & Hl & Hk). unfold arg_. wp_steps. unfold id.
    unfold known in Hk. rewrite (proj2 (Z.leb_gt b blk)) in Hk by lia.
    destruct Hk as (Hv & Hvb & Hty & Hup). destruct Hun as (_ & Hty0 & Hup0).
    rewrite Hv. cbn [Z.eqb Pos.eqb]. wp_step.
    eapply wp_mono; [eapply (wp_locate_last i name n blk m w w1); [done.. |] | | done].
    { cbv zeta. rewrite Hv, Hvb, Hty, Hup. by split_and!. }
    intros r w2 (-> & Hl2 & Hap). wp_steps. split; [done|].
    split; [by apply looked_reserved|]. destruct i; exact Hap.
  - intros k b ret w1 (Hb & Ht & Hl & Hk). 
    eapply wp_mono; [eapply (wp_search_block i name n blk m w w1); [done.. | | done | done] | | done].
    { unfold fl in *. lia. }
    intros c w2 (r & -> & Hl2 & Hk2). split_and!; [lia | lia | done | done].
  - split_and!; [lia | lia | |].
    + apply looked_ops. by apply looked_refl.
    + unfold known. rewrite (proj2 (Z.leb_le tmp blk)) by lia. by destruct i.
Qed.

(** ** Reading what was found *)

(** The first [n] bytes of the item, and behind them what was in the buffer. *)
Definition partly (content old : list Z) (n : Z) : list Z :=
  take (Z.to_nat n) content ++ drop (Z.to_nat n) old.

Lemma partly_step content old a b c :
  0 <= a -> 0 <= b -> a + b <= Z.of_nat (length content) -> a + b <= Z.of_nat (length old) ->
  c = take (Z.to_nat b) (drop (Z.to_nat a) content) ->
  splice (partly content old a) a c = partly content old (a + b).
Proof.
  intros ???? ->. unfold splice, partly. rewrite length_take, length_drop.
  rewrite take_app_le by (rewrite length_take; lia). rewrite take_take.
  rewrite drop_app_ge by (rewrite length_take; lia). rewrite length_take, drop_drop.
  rewrite Nat.min_id, (assoc_L (++)), take_take_drop. f_equal; f_equal; lia.
Qed.

(** A page of the item, [k] of which are there: what the page adds. *)
Definition part (size page k : Z) (c : Z) : Z := Z.min size (Z.min c k * page).

(** Where in the flash the item is read from: [k] pages of it are there, and
    behind them pages of nothing that has its name. *)
Definition readable w (name : list Z) (size blk t0 k : Z) (content : list Z) : Prop :=
  let page := pagesize (flash (w_chip w)) in
  (exists stamp, forall j, 0 <= j < k -> j * page < size ->
     page_at (w_dev w) (item_page w blk (t0 + j)) =
       Some (info_page page content j, oobinfo name stamp)) /\
  (forall j, k <= j -> j * page < size ->
     sized w (item_page w blk (t0 + j)) /\ named w name (item_page w blk (t0 + j)) = false).

Lemma sized_item w a page content j name stamp :
  page = pagesize (flash (w_chip w)) -> 0 < page -> length name = 4%nat ->
  page_at (w_dev w) a = Some (info_page page content j, oobinfo name stamp) ->
  seen w a = (info_page page content j, oobinfo name stamp) /\ sized w a /\ named w name a = true.
Proof.
  intros -> Hp Hn Ha. assert (seen w a = (info_page (pagesize (flash (w_chip w))) content j,
    oobinfo name stamp)) as E by (unfold seen; by rewrite Ha).
  unfold sized, named. rewrite E. cbn. split_and!; [done | | by apply length_oobinfo |].
  - apply length_info_page. lia.
  - apply bool_decide_true. by apply oob_name_oobinfo.
Qed.

(** While the item is read: [old] is what the buffer holds. *)
Record loading (i : info) (bp bo bb ob size blk t0 : Z) w (old : list Z) w1 : Prop := {
  ld_geometry : geometry w1 = geometry w;
  ld_dev : page_at (w_dev w1) = page_at (w_dev w);
  ld_usable : usable w1 bp bo;
  ld_place : appendable i blk t0 w1;
  ld_buf : peek (w_mem w1) (Ptr bb ob) size = Some old;
  ld_mem : forall b, b <> bp -> b <> bo -> b <> bb -> w_mem w1 !! b = w_mem w !! b
}.

Lemma loading_seen i bp bo bb ob size blk t0 w old w1 a :
  loading i bp bo bb ob size blk t0 w old w1 -> seen w1 a = seen w a.
Proof.
  intros [Hg Hd _ _ _ _]. unfold seen. by rewrite Hd, (geometry_flash _ _ Hg).
Qed.

(** A page that was looked at, and the bytes it adds. *)
Lemma loading_looked i bp bo bb ob size blk t0 w old w1 w2 :
  bb <> bp -> bb <> bo -> loading i bp bo bb ob size blk t0 w old w1 ->
  looked bp bo w1 w2 -> setup w2 = setup w1 -> loading i bp bo bb ob size blk t0 w old w2.
Proof.
  intros Hbp Hbo [Hg Hd Hu Hpl Hb Hm] [Hg2 Hu2 Hm2 Hd2] Hs. split; try done; try congruence.
  - by eapply setup_appendable.
  - by rewrite (same_outside_peek _ _ _ _ _ _ _ Hm2).
  - intros b ???. rewrite Hm2 by done. by apply Hm.
Qed.

Lemma wp_add_part i bp bo bb ob size blk t0 w old w1 user page off bs (Q : unit -> world D -> Prop) :
  bb <> bp -> bb <> bo -> loading i bp bo bb ob size blk t0 w old w1 ->
  peek (w_mem w1) user page = Some bs -> 0 <= off -> off < size -> 0 < page ->
  (forall w2, loading i bp bo bb ob size blk t0 w
       (splice old off (take (Z.to_nat (Z.min page (size - off))) bs)) w2 -> Q tt w2) ->
  wp (memcpy (ptr_add (Ptr bb ob) off) user (Z.min page (size - off))) Q noflt w1.
Proof.
  intros Hbp Hbo [Hg Hd Hu Hpl Hb Hm] Hus Hoff Hlt Hpage HQ. unfold memcpy. wp_step.
  set (n := Z.min page (size - off)) in *. assert (0 <= n <= page /\ off + n <= size) as Hn by lia.
  assert (peek (w_mem w1) user n = Some (take (Z.to_nat n) bs)) as Hload.
  { pose proof (peek_sub (w_mem w1) user page bs 0 n Hus) as H.
    replace (ptr_add user 0) with user in H by (destruct user; cbn; [done | by rewrite Z.add_0_r]).
    rewrite drop_0 in H. apply H; lia. }
  eapply wp_load_bytes; [exact Hload|]. pose proof (peek_length _ _ _ _ Hload) as Hl.
  eapply wp_store; [apply (peek_sub _ _ _ _ off n Hb); lia | lia |]. intros m' Hm'.
  apply HQ. destruct (id Hu) as [? ? ? ? (o1 & l1 & E1 & P1) (o2 & l2 & E2 & P2)].
  pose proof (poke_Some (w_mem w1) (ptr_add (Ptr bb ob) off) (take (Z.to_nat n) bs) m') as [Hp _].
  destruct (Hp Hm') as (b' & o' & a' & [= <- <-] & _ & _ & _ & Em).
  split; try done.
  - split; cbn; try done; [exists o1, l1 | exists o2, l2]; split; try done;
      (rewrite (peek_poke_ne _ _ _ _ _ _ Hm'); [done | intros ????; cbn; congruence]).
  - cbn. eapply peek_poke_inside; [exact Hb | lia | lia | exact Hm'].
  - intros b ???. cbn. rewrite Em, lookup_insert_ne by done. by apply Hm.
Qed.

Lemma wp_read_readable i name size blk t0 k content m0 bp bo bb ob w :
  let page := pagesize (flash (w_chip w)) in
  readable w name size blk t0 k content -> length name = 4%nat ->
  usable w bp bo -> bb <> bp -> bb <> bo -> appendable i blk t0 w ->
  0 <= size <= Z.of_nat (length content) -> 0 <= k ->
  peek (w_mem w) (Ptr bb ob) size = Some m0 ->
  wp (amlnand_read_info_by_name i (Ptr bb ob) name size)
    (fun r w' => r = 0 /\
       loading i bp bo bb ob size blk t0 w (partly content m0 (Z.min size (k * page))) w') noflt w.
Proof.
  intros page [[stamp Hhere] Hbeyond] Hname Hu Hbp Hbo Hap Hsize Hk Hm0.
  assert (0 < page) as Hpos by apply Hu.
  pose proof (peek_length _ _ _ _ Hm0) as Hl0.
  unfold amlnand_read_info_by_name, clear_ops, arg_. wp_steps. cbn [w_chip set_w_chip].
  assert (forall c, arg_of i (set_ops_para ops0 c) = arg_of i c) as Harg by (by destruct i).
  rewrite Harg. destruct (id Hap) as ((-> & _ & _) & _). cbn [Z.eqb Pos.eqb].
  apply wp_bind. fold page.
  apply (wp_while (fun n '(c, loaded, ret) w' =>
    loaded = c * page /\ 0 <= c /\ ret = 0 /\ (rounds_left page size loaded <= n)%nat /\
    loading i bp bo bb ob size blk t0 w (partly content m0 (part size page k c)) w')).
  - intros n [[c ?] ?] w' (-> & Hc & -> & _ & Hld) Hle%Z.ltb_ge. apply wp_ret. split; [done|].
    unfold part in Hld. replace (Z.min size (k * page)) with (Z.min size (Z.min c k * page)); [done|].
    destruct (Z.le_ge_cases c k); nia.
  - intros n [[c ?] ?] w' (-> & Hc & -> & Hn & Hld) Hlt%Z.ltb_lt.
    pose proof (rounds_left_pos _ _ _ Hpos Hlt). destruct n as [|n]; [lia|].
    exists n. split; [done|]. pose proof (rounds_left_step _ _ _ Hpos Hlt).
    wp_steps. unfold id. destruct (ld_place _ _ _ _ _ _ _ _ _ _ _ Hld) as ((_ & -> & ->) & _).
    pose proof (geometry_flash _ _ (ld_geometry _ _ _ _ _ _ _ _ _ _ _ Hld)) as Ef.
    assert (forall t, item_page w' blk t = item_page w blk t) as Ea.
    { intros t. unfold item_page. rewrite Ef. apply geometry_page_of, Hld. }
    assert (sized w (item_page w blk (t0 + c)) /\
      (named w name (item_page w blk (t0 + c)) = bool_decide (c < k)) /\
      (c < k -> (seen w (item_page w blk (t0 + c))).1 = info_page page content c)) as (Hz & Hnm & Hdat).
    { case_bool_decide as Hck.
      - destruct (sized_item w (item_page w blk (t0 + c)) page content c name stamp) as (E & ? & ?);
          try done; [by apply Hhere|]. split_and!; [done.. |]. by rewrite E.
      - destruct (Hbeyond c) as [? ->]; [lia | done |]. by split_and!. }
    rewrite <- Ef.
    eapply wp_mono; [apply (wp_look_page when_ready blk (t0 + c) w' w' bp bo) | | done];
      [by left | apply looked_refl, Hld | |].
    { unfold sized. rewrite (loading_seen _ _ _ _ _ _ _ _ _ _ _ _ Hld), Ea, Ef. exact Hz. }
    rewrite Ea. intros r w2 (-> & Hl2 & Hs2 & Hf). rewrite !(loading_seen _ _ _ _ _ _ _ _ _ _ _ _ Hld) in Hf.
    pose proof (loading_looked _ _ _ _ _ _ _ _ _ _ _ _ Hbp Hbo Hld Hl2 Hs2) as Hld2.
    wp_step. eapply wp_fetched_oob; [exact Hf|]. unfold named in Hnm. rewrite Hnm. clear Hnm. wp_steps.
    assert (pagesize (flash (w_chip w2)) = page) as Ef2 by (rewrite (looked_flash _ _ _ _ Hl2), Ef; done).
    case_bool_decide as Hck; cbn [when_].
    + destruct Hf as [Hf _]. rewrite Ef2, Hdat in Hf by done.
      apply (wp_add_part i bp bo bb ob size blk t0 w (partly content m0 (part size page k c)) w2
        _ page (c * page) (info_page page content c)); [done | done | exact Hld2 | exact Hf | nia | done | done |].
      intros w3 Hld3. wp_steps. split_and!; [lia | lia | done | lia |].
      assert (part size page k c = c * page) as Ec by (unfold part; rewrite (Z.min_l c k) by lia; lia).
      assert (part size page k (c + 1) = c * page + Z.min page (size - c * page)) as Ec1.
      { unfold part. rewrite (Z.min_l (c + 1) k) by lia. lia. }
      rewrite Ec in Hld3. rewrite Ec1. erewrite partly_step in Hld3; [exact Hld3 | nia | lia | lia.. |].
      apply take_info_page; lia.
    + wp_steps. split_and!; [lia | lia | done | lia |].
      unfold part in *. rewrite (Z.min_r (c + 1) k) by lia. by rewrite (Z.min_r c k) in Hld2 by lia.
  - split_and!; [lia | lia | done | by apply rounds_left_fuel |].
    unfold part. rewrite (Z.min_l 0 k), Z.mul_0_l, Z.min_r by lia.
    split; try done. by destruct Hu.
Qed.

(** ** Loading an item at boot *)

Definition summed (name : list Z) : bool :=
  bool_decide (name = BBT_HEAD_MAGIC) || bool_decide (name = SHIPPED_BBT_HEAD_MAGIC)
  || bool_decide (name = CONFIG_HEAD_MAGIC).

Lemma wp_no_datasum data name (Q : Z -> world D -> Prop) E w :
  summed name = false -> Q 0 w -> wp (aml_info_check_datasum data name) Q E w.
Proof.
  unfold summed, aml_info_check_datasum. intros [[-> ->]%orb_false_elim ->]%orb_false_elim HQ.
  by wp_steps.
Qed.

(** A boot that finds the last of the item's copies loads the pages of it that
    are there. *)
Lemma wp_info_init i name size blk m k content m0 bp bo bb ob w :
  let page := pagesize (flash (w_chip w)) in
  let t := (m - 1) * arg_pages_of size page in
  layout name (arg_pages_of size page) blk m w ->
  readable w name size blk t k content ->
  length name = 4%nat -> summed name = false ->
  lock_free w -> unknown (arg_of i (w_chip w)) -> usable w bp bo -> bb <> bp -> bb <> bo ->
  0 <= size <= Z.of_nat (length content) -> 0 <= k ->
  peek (w_mem w) (Ptr bb ob) size = Some m0 ->
  wp (amlnand_info_init i (Ptr bb ob) name size)
    (fun r w' => r = 0 /\ appendable i blk t w' /\
       peek (w_mem w') (Ptr bb ob) size = Some (partly content m0 (Z.min size (k * page)))) noflt w.
Proof.
  intros page t Hly Hrd Hname Hsum Hfree Hun Hu Hbp Hbo Hsize Hk Hm0. unfold amlnand_info_init. wp_step.
  eapply wp_mono; [by apply (wp_check_finds i name size blk m w bp bo) | | done].
  fold page t. intros r w1 (-> & Hl & Hap). unfold arg_. wp_steps.
  cbn [Z.ltb Z.compare]. wp_steps.
  destruct (id Hap) as ((-> & _) & _). cbn [Z.eqb Pos.eqb]. wp_steps. pose proof (looked_flash _ _ _ _ Hl) as Ef.
  assert (forall x, item_page w1 blk x = item_page w blk x) as Ea.
  { intros x. unfold item_page. rewrite Ef. by eapply looked_page_of. }
  eapply wp_mono; [apply (wp_read_readable i name size blk t k content m0 bp bo bb ob w1) | | done];
    try done; try apply Hl.
  - unfold readable in *. rewrite Ef. fold page in Hrd |- *. destruct Hrd as [[stamp H1] H2]. split.
    + exists stamp. intros j ??. rewrite (lk_dev _ _ _ _ Hl), Ea. by apply H1.
    + intros j ??. rewrite Ea. destruct (H2 j) as [Hz Hnm]; [done..|].
      split; [by eapply looked_sized|]. unfold named in *. by rewrite (looked_seen _ _ _ _ _ Hl).
  - by rewrite (same_outside_peek _ _ _ _ _ _ _ (lk_mem _ _ _ _ Hl)).
  - intros r w2 (-> & Hld). cbn [Z.ltb Z.compare]. wp_steps. apply wp_no_datasum; [done|].
    rewrite Ef in Hld. fold page in Hld. split_and!; [done | apply Hld..].
Qed.

(** ** Saving, and looking again *)

(** A world after a reboot: the same chip, with what was in its pages. *)
Record rebooted w (d : D) w2 : Prop := {
  rb_flash : flash (w_chip w2) = flash (w_chip w);
  rb_chips : chip_num (controller (w_chip w2)) = chip_num (controller (w_chip w));
  rb_slc : slc_info (controller (w_chip w2)) = slc_info (controller (w_chip w));
  rb_dev : page_at (w_dev w2) = page_at d
}.

Lemma rebooted_item_page w d w2 blk t : rebooted w d w2 -> item_page w2 blk t = item_page w blk t.
Proof. intros [Ef Ec Es _]. unfold item_page, page_of. by rewrite Ef, Ec, Es. Qed.

Lemma rebooted_seen w d w2 a :
  rebooted w d w2 -> page_at d a = page_at (w_dev w) a -> seen w2 a = seen w a.
Proof. intros [Ef _ _ Ed] H. unfold seen. by rewrite Ed, H, Ef. Qed.

(** Reserved blocks do not share pages. *)
Lemma item_page_apart name n blk m w b t t' :
  layout name n blk m w -> 1 <= chip_num (controller (w_chip w)) ->
  u16 (reserved_start (flash (w_chip w))) <= b
    < u16 (reserved_start (flash (w_chip w)) + RESERVED_BLOCK_CNT) ->
  b <> blk -> 0 <= t < pages_of_block (flash (w_chip w)) ->
  0 <= t' < pages_of_block (flash (w_chip w)) -> item_page w b t <> item_page w blk t'.
Proof.
  intros Hly Hc Hb Hne Ht Ht'. unfold item_page, page_of.
  rewrite (ly_mlc _ _ _ _ _ Hly). pose proof (ly_block _ _ _ _ _ Hly) as Hblk.
  pose proof (ly_fits _ _ _ _ _ Hly) as Hfit. cbv zeta in Hfit.
  set (fl := flash (w_chip w)) in *. set (c := chip_num _) in *. set (pages := pages_of_block fl) in *.
  assert (0 <= u16 (reserved_start fl)) as H0 by (unfold wrap; apply Z.mod_pos_bound; lia).
  set (tmp := u16 (reserved_start fl)) in *. set (total := u16 (_ + _)) in *.
  assert (forall x, tmp <= x < total -> (x / c + tmp + 1) * pages <= 2 ^ 32) as Hx.
  { intros x ?. assert (x / c <= total / c) by (apply Z.div_le_mono; lia). nia. }
  assert (forall x t, tmp <= x < total -> 0 <= t < pages ->
    u32 (t + reserved_page c tmp pages x) = t + reserved_page c tmp pages x) as Hu.
  { intros x u ??. specialize (Hx x). destruct (reserved_page_eq c tmp pages x) as (q & ? & -> & _); try lia.
    assert (0 <= x / c) by (apply Z.div_pos; lia). unfold wrap. rewrite Z.mod_small; nia. }
  rewrite !Hu by lia. pose proof (Hx b Hb). pose proof (Hx blk Hblk).
  apply reserved_pages_apart; lia.
Qed.

(** What the item's block holds before the item is saved. *)
Record history (name : list Z) (size blk m : Z) (old : list Z) w : Prop := {
  hi_layout : layout name (arg_pages_of size (pagesize (flash (w_chip w)))) blk m w;
  hi_old : copy_at (item_page w blk) (w_dev w) (pagesize (flash (w_chip w)))
             ((m - 1) * arg_pages_of size (pagesize (flash (w_chip w)))) old name
             (total_of size (pagesize (flash (w_chip w))));
  hi_free : forall t, m * arg_pages_of size (pagesize (flash (w_chip w))) <= t
                      < pages_of_block (flash (w_chip w)) ->
            page_at (w_dev w) (item_page w blk t) = None;
  hi_name : length name = 4%nat /\ name <> [255; 255; 255; 255];
  hi_size : size <= Z.of_nat (length old)
}.

Lemma erased_unnamed w name a :
  page_at (w_dev w) a = None -> name <> [255; 255; 255; 255] -> 0 < pagesize (flash (w_chip w)) ->
  sized w a /\ named w name a = false.
Proof.
  intros Ha Hn Hp. unfold sized, named, seen. rewrite Ha. cbn. split.
  - rewrite length_replicate. split; [lia | done].
  - apply bool_decide_false. by intros <-.
Qed.

Lemma layout_pages name n blk m w :
  layout name n blk m w -> 1 <= chip_num (controller (w_chip w)) ->
  0 < pages_of_block (flash (w_chip w)) <= 2 ^ 32.
Proof.
  intros Hly Hc. pose proof (ly_fits _ _ _ _ _ Hly) as Hfit. cbv zeta in Hfit.
  destruct (ly_some _ _ _ _ _ Hly), (ly_room _ _ _ _ _ Hly).
  assert (0 <= u16 (reserved_start (flash (w_chip w)))) by (unfold wrap; apply Z.mod_pos_bound; lia).
  assert (0 <= u16 (reserved_start (flash (w_chip w)) + RESERVED_BLOCK_CNT)
               / chip_num (controller (w_chip w))).
  { apply Z.div_pos; [unfold wrap; apply Z.mod_pos_bound; lia | lia]. }
  split; nia.
Qed.

(** The layout after more copies were begun. *)
Lemma layout_grown name size blk m old w d w2 m' :
  let page := pagesize (flash (w_chip w)) in
  let n := arg_pages_of size page in
  let A := item_page w blk in
  history name size blk m old w -> 0 < page -> 1 <= chip_num (controller (w_chip w)) ->
  rebooted w d w2 -> untouched A (m * n) (pages_of_block (flash (w_chip w))) (w_dev w) d ->
  m <= m' -> (m' - 1) * n < pages_of_block (flash (w_chip w)) /\ (m' - 1) * n < 2 ^ 16 ->
  (forall c, m <= c < m' -> exists content stamp,
     page_at d (A (c * n)) = Some (info_page page content 0, oobinfo name stamp)) ->
  (m' * n < pages_of_block (flash (w_chip w)) -> page_at d (A (m' * n)) = None) ->
  layout name n blk m' w2.
Proof.
  intros page n A [Hly _ _ [Hlen Hones] _] Hpage Hc Hrb Hd Hmm Hroom Hnew Hend.
  destruct (layout_pages _ _ _ _ _ Hly Hc) as [Hp0 Hp32].
  destruct (ly_some _ _ _ _ _ Hly) as [Hn Hm], (ly_room _ _ _ _ _ Hly) as [Hr1 Hr2].
  fold page in Hn, Hr1, Hr2. fold n in Hn, Hr1, Hr2.
  pose proof (fun b t => rebooted_item_page w d w2 b t Hrb) as Ea.
  pose proof (fun a => rebooted_seen w d w2 a Hrb) as Es.
  assert (forall c, 0 <= c < m -> page_at d (A (c * n)) = page_at (w_dev w) (A (c * n))) as Hkeep.
  { intros c Hcm. apply Hd. intros t Ht. apply item_page_inj; [apply Hly | nia..]. }
  assert (forall b, u16 (reserved_start (flash (w_chip w))) <= b
      < u16 (reserved_start (flash (w_chip w)) + RESERVED_BLOCK_CNT) -> b <> blk ->
    page_at d (item_page w b 0) = page_at (w_dev w) (item_page w b 0)) as Hother.
  { intros b Hb Hne. apply Hd. intros t Ht. eapply item_page_apart; try done; nia. }
  destruct (id Hrb) as [Ef Ec Esl Edev]. destruct Hly as [Hmlc Hblk Hgood Hoth Hcop _ _ _ Hfit].
  fold page in Hcop. fold n in Hcop.
  split; rewrite ?Ef, ?Ec, ?Ea; try done; try lia.
  - intros b Hb Hne Hg. unfold sized, named. rewrite Ea, Ef in *. rewrite Es by by apply Hother. by apply Hoth.
  - intros c Hcm. unfold sized, named. rewrite Ef, Ea. destruct (decide (c < m)).
    + fold A. rewrite Es by (apply Hkeep; lia). apply Hcop. lia.
    + destruct (Hnew c) as (content & stamp & Hat); [lia|].
      destruct (sized_item w2 (A (c * n)) page content 0 name stamp) as (E & Hz & Hnm);
        [by unfold page; rewrite Ef | done | done | by rewrite Edev |].
      unfold sized, named in Hz, Hnm. rewrite Ef in Hz. by fold A.
  - intros Hlt. rewrite ?Ea. specialize (Hend Hlt). destruct (erased_unnamed w2 name (A (m' * n))) as [Hz Hnm];
      [by rewrite Edev | done | by rewrite Ef |].
    unfold sized, named in *. rewrite Ef in *. by fold A.
Qed.

(** The driver comes up on a flash in state [d] and wants the item in a
    buffer. *)
Record booting (i : info) (size bp bo bb ob : Z) (m0 : list Z) w (d : D) w2 : Prop := {
  bt_flash : rebooted w d w2;
  bt_lock : lock_free w2;
  bt_unknown : unknown (arg_of i (w_chip w2));
  bt_usable : usable w2 bp bo;
  bt_apart : bb <> bp /\ bb <> bo;
  bt_buf : peek (w_mem w2) (Ptr bb ob) size = Some m0
}.

Lemma wp_boot_loads i name size blk m old w d w2 m' k content bp bo bb ob m0 :
  let page := pagesize (flash (w_chip w)) in
  let n := arg_pages_of size page in
  let A := item_page w blk in
  history name size blk m old w -> summed name = false ->
  booting i size bp bo bb ob m0 w d w2 ->
  untouched A (m * n) (pages_of_block (flash (w_chip w))) (w_dev w) d ->
  m <= m' -> (m' - 1) * n < pages_of_block (flash (w_chip w)) /\ (m' - 1) * n < 2 ^ 16 ->
  (forall c, m <= c < m' -> exists content stamp,
     page_at d (A (c * n)) = Some (info_page page content 0, oobinfo name stamp)) ->
  (m' * n < pages_of_block (flash (w_chip w)) -> page_at d (A (m' * n)) = None) ->
  0 <= k -> 0 <= size <= Z.of_nat (length content) ->
  (exists stamp, forall j, 0 <= j < k -> j * page < size ->
     page_at d (A ((m' - 1) * n + j)) = Some (info_page page content j, oobinfo name stamp)) ->
  (forall j, k <= j -> j * page < size -> page_at d (A ((m' - 1) * n + j)) = None) ->
  wp (amlnand_info_init i (Ptr bb ob) name size)
    (fun r w3 => r = 0 /\ appendable i blk ((m' - 1) * n) w3 /\
       peek (w_mem w3) (Ptr bb ob) size = Some (partly content m0 (Z.min size (k * page)))) noflt w2.
Proof.
  intros page n A Hhi Hsum [Hrb Hfree Hun Hu [Hbp Hbo] Hbuf] Hd Hmm Hroom Hnew Hend Hk Hsize
    [stamp Hhere] Hbeyond.
  destruct (id Hrb) as [Ef Ec Esl Edev]. destruct (hi_name _ _ _ _ _ _ Hhi) as [Hlen Hones].
  assert (0 < page) as Hpage by (unfold page; rewrite <- Ef; apply Hu).
  assert (1 <= chip_num (controller (w_chip w))) as Hc by (rewrite <- Ec; apply Hu).
  assert (layout name n blk m' w2) as Hly by (by apply (layout_grown name size blk m old w d w2)).
  pose proof (wp_info_init i name size blk m' k content m0 bp bo bb ob w2) as H.
  cbv zeta in H. rewrite Ef in H. fold page in H. fold n in H.
  apply H; try done. unfold readable. rewrite Ef. fold page. split.
  - exists stamp. intros j ??. rewrite (rebooted_item_page _ _ _ _ _ Hrb), Edev. by apply Hhere.
  - intros j ??. apply erased_unnamed; [| done | by rewrite Ef].
    rewrite (rebooted_item_page _ _ _ _ _ Hrb), Edev. by apply Hbeyond.
Qed.

Lemma partly_all content old n :
  length old = Z.to_nat n -> partly content old n = take (Z.to_nat n) content.
Proof. intros H. unfold partly. by rewrite drop_ge, app_nil_r by lia. Qed.

Section Saving.
Context (spin : nat) (i : info) (name : list Z) (size blk m : Z) (old content : list Z)
  (bp bo bb ob : Z) (w : world D).
Let page := pagesize (flash (w_chip w)).
Let n := arg_pages_of size page.
Let t0 := (m - 1) * n.
Hypothesis Hhi : history name size blk m old w.
Hypothesis Hsa : savable i size blk t0 bp bo bb ob content w.

Lemma saving_facts :
  0 < page /\ 0 < n /\ 0 < m /\ 0 <= size < 2 ^ 31 /\ 0 < total_of size page /\ size <= total_of size page <= n * page /\
  1 <= chip_num (controller (w_chip w)) /\
  total_of size page <= Z.of_nat (length content) /\
  (m + 2) * n <= pages_of_block (flash (w_chip w)) /\ (m + 1) * n < 2 ^ 16 /\
  pages_of_block (flash (w_chip w)) <= 2 ^ 32 /\ slc_type (new_type (flash (w_chip w))) = false.
Proof.
  pose proof (sv_usable _ _ _ _ _ _ _ _ _ _ (sa_saving _ _ _ _ _ _ _ _ _ _ Hsa)) as Hu.
  assert (0 < page) as Hp by apply Hu. pose proof (sa_size _ _ _ _ _ _ _ _ _ _ Hsa) as Hs.
  pose proof (arg_pages_pos size page Hs). pose proof (total_of_pages size page Hp Hs).
  destruct (total_of_pos size page Hp); [lia|].
  pose proof (peek_length _ _ _ _ (sv_data _ _ _ _ _ _ _ _ _ _ (sa_saving _ _ _ _ _ _ _ _ _ _ Hsa))) as Hl.
  fold page in Hl. pose proof (sa_room _ _ _ _ _ _ _ _ _ _ Hsa) as Hr.
  pose proof (sa_fit _ _ _ _ _ _ _ _ _ _ Hsa) as Hf. fold page in Hr, Hf. fold n in Hr, Hf.
  pose proof (hi_layout _ _ _ _ _ _ Hhi) as Hly. destruct (ly_some _ _ _ _ _ Hly).
  destruct (layout_pages _ _ _ _ _ Hly); [apply Hu|]. unfold t0 in *.
  split_and!; try done; try lia; try apply Hu. apply Hsa.
Qed.
End Saving.

(** C10: Once an item was saved, a boot finds its last copy and loads what was
    saved. *)
Theorem reboot_finds_saved spin i name size blk m old content bp bo bb ob w :
  let n := arg_pages_of size (pagesize (flash (w_chip w))) in
  history name size blk m old w -> savable i size blk ((m - 1) * n) bp bo bb ob content w ->
  summed name = false ->
  wp (amlnand_save_info_by_name spin i (Ptr bb ob) name size)
    (fun r w1 => r = 0 /\ forall w2 bp2 bo2 bb2 ob2 m0,
       booting i size bp2 bo2 bb2 ob2 m0 w (w_dev w1) w2 ->
       wp (amlnand_info_init i (Ptr bb2 ob2) name size)
         (fun r w3 => r = 0 /\ appendable i blk ((m + 1) * n) w3 /\
            peek (w_mem w3) (Ptr bb2 ob2) size = Some (take (Z.to_nat size) content)) noflt w2)
    (fun f _ => ps_fails /\ f = PowerOff) w.
Proof.
  intros n Hhi Hsa Hsum.
  pose proof (saving_facts _ _ _ _ _ _ _ _ _ _ _ _ Hhi Hsa) as
    (Hp & Hn & Hm & Hs & Ht0 & [Ht Htn] & Hc & Hlc & Hroom & H16 & Hp32 & Hslc). fold n in Hn, Htn, Hroom, H16.
  set (page := pagesize (flash (w_chip w))) in *.
  eapply wp_mono; [apply (wp_save_or_torn spin i name size blk ((m - 1) * n) bp bo bb ob content w Hsa);
    apply Hhi | | by intros f w' (? & ? & _)].
  fold page n. intros r w1 (-> & _ & _ & _ & Hcopies & Hun). split; [done|].
  intros w2 bp2 bo2 bb2 ob2 m0 Hboot.
  pose proof (peek_length _ _ _ _ (bt_buf _ _ _ _ _ _ _ _ _ _ Hboot)) as Hl0.
  eapply wp_mono; [eapply (wp_boot_loads i name size blk m old w (w_dev w1) w2 (m + 2) n content);
    eauto | | done]; fold page n; try lia.
  - eapply untouched_mono; [| |exact Hun]; lia.
  - intros c Hcm. destruct (Hcopies (c - m + 1)) as [stamp Hst]; [lia|]. exists content, stamp.
    specialize (Hst 0). rewrite Z.add_0_r in Hst. rewrite <- Hst by lia. f_equal. f_equal. nia.
  - intros Hlt. rewrite Hun; [apply (hi_free _ _ _ _ _ _ Hhi); fold page n; nia|].
    intros t Htt. apply item_page_inj; [done | nia..].
  - destruct (Hcopies 2) as [stamp Hst]; [lia|]. exists stamp. intros j ??.
    rewrite <- Hst by lia. f_equal. f_equal. nia.
  - intros j ??. nia.
  - intros r w3 (-> & Hap & Hr). split; [done|].
    replace (m + 2 - 1) with (m + 1) in Hap by lia. split; [exact Hap|].
    rewrite Hr, Z.min_l by nia. by rewrite (partly_all _ _ size).
Qed.

(** C11: When the power goes while an item is saved, its last copy is still on the
    flash, and so is the first of the new ones once the second was begun. *)
Theorem power_loss_keeps_copies spin i name size blk m old content bp bo bb ob w :
  let page := pagesize (flash (w_chip w)) in
  let n := arg_pages_of size page in
  let A := item_page w blk in
  history name size blk m old w -> savable i size blk ((m - 1) * n) bp bo bb ob content w ->
  wp (amlnand_save_info_by_name spin i (Ptr bb ob) name size)
    (fun r w1 => r = 0 /\ forall c, m <= c < m + 2 ->
       copy_at A (w_dev w1) page (c * n) content name (total_of size page))
    (fun f w1 => f = PowerOff /\
       copy_at A (w_dev w1) page ((m - 1) * n) old name (total_of size page) /\
       ((forall t, (m + 1) * n <= t < pages_of_block (flash (w_chip w)) ->
           page_at (w_dev w1) (A t) = page_at (w_dev w) (A t)) \/
        copy_at A (w_dev w1) page (m * n) content name (total_of size page))) w.
Proof.
  intros page n A Hhi Hsa.
  pose proof (saving_facts _ _ _ _ _ _ _ _ _ _ _ _ Hhi Hsa) as
    (Hp & Hn & Hm & Hs & Ht0 & [Ht Htn] & Hc & Hlc & Hroom & H16 & Hp32 & Hslc).
  fold page in Hp, Hn, Ht0, Ht, Htn, Hlc, Hroom, H16. fold n in Hn, Htn, Hroom, H16.
  eapply wp_mono; [apply (wp_save_or_torn spin i name size blk ((m - 1) * n) bp bo bb ob content w Hsa);
    apply Hhi | |].
  - fold page n A. intros r w1 (-> & _ & _ & _ & Hcopies & _). split; [done|]. intros c Hcm.
    replace (c * n) with ((m - 1) * n + (c - m + 1) * n) by lia. apply Hcopies. lia.
  - intros f w1. unfold torn_save. fold page n A. intros (_ & -> & c & k & stamp & Hcase & Hk & Hkt & Hpages & Hun).
    split; [done|]. split.
    + eapply copy_untouched; [|exact Hun | apply Hhi].
      fold page. intros j t' Hj Hjt Ht'. assert (j < n) by nia. apply item_page_inj; [done | nia..].
    + destruct Hcase as [->|[-> Hc1]].
      * left. intros t Htr. apply Hun. intros t' Ht'. apply item_page_inj; [done | nia..].
      * right. by replace (m * n) with ((m - 1) * n + n) by lia.
Qed.

(** Where the power went between two pages: what is on the flash. *)
Record torn_pages (name : list Z) (size blk m : Z) (content : list Z) w (d : D) (c k stamp : Z)
    : Prop := {
  tp_pages : forall j, 0 <= j < k ->
    page_at d (item_page w blk
      ((m - 1 + c) * arg_pages_of size (pagesize (flash (w_chip w))) + j)) =
      Some (info_page (pagesize (flash (w_chip w))) content j, oobinfo name stamp);
  tp_back : forall t,
    (m - 1 + c) * arg_pages_of size (pagesize (flash (w_chip w))) + k <= t
      < pages_of_block (flash (w_chip w)) -> page_at d (item_page w blk t) = None;
  tp_done : forall c', 1 <= c' < c ->
    copy_at (item_page w blk) d (pagesize (flash (w_chip w)))
      ((m - 1 + c') * arg_pages_of size (pagesize (flash (w_chip w)))) content name
      (total_of size (pagesize (flash (w_chip w))));
  tp_rest : untouched (item_page w blk) (m * arg_pages_of size (pagesize (flash (w_chip w))))
    (pages_of_block (flash (w_chip w))) (w_dev w) d
}.

Lemma torn_save_pages name size blk m old content bp bo bb ob i w f w1 :
  let n := arg_pages_of size (pagesize (flash (w_chip w))) in
  history name size blk m old w -> savable i size blk ((m - 1) * n) bp bo bb ob content w ->
  torn_save w name size blk ((m - 1) * n) content f w1 ->
  f = PowerOff /\ exists c k stamp, 1 <= c <= 2 /\ 0 <= k < n /\
    k * pagesize (flash (w_chip w)) < total_of size (pagesize (flash (w_chip w))) /\
    (page_at (w_dev w1) (item_page w blk ((m - 1 + c) * n + k)) = None ->
     torn_pages name size blk m content w (w_dev w1) c k stamp).
Proof.
  intros n Hhi Hsa. unfold torn_save. set (page := pagesize (flash (w_chip w))) in *. fold n.
  pose proof (saving_facts _ _ _ _ _ _ _ _ _ _ _ _ Hhi Hsa) as
    (Hp & Hn & Hm & Hs & Ht0 & [Ht Htn] & Hc & Hlc & Hroom & H16 & Hp32 & Hslc).
  fold page in Hp, Hn, Ht0, Ht, Htn, Hlc, Hroom, H16. fold n in Hn, Htn, Hroom, H16.
  pose proof (hi_free _ _ _ _ _ _ Hhi) as Hfree. fold page in Hfree. fold n in Hfree.
  intros (_ & -> & c & k & stamp & Hcase & Hk & Hkt & Hpages & Hun). split; [done|].
  exists c, k, stamp. split; [lia|]. split; [done|]. split; [done|]. intros Herased.
  split; fold page n.
  - intros j ?. rewrite <- Hpages by lia. f_equal. f_equal. lia.
  - intros t Htr. destruct (decide (t = (m - 1 + c) * n + k)) as [->|]; [done|].
    rewrite Hun; [apply Hfree; nia|]. intros t' Ht'. apply item_page_inj; [done | nia..].
  - intros c' Hc'. destruct Hcase as [->|[-> Hcopy]]; [lia|]. assert (c' = 1) as -> by lia.
    by replace ((m - 1 + 1) * n) with ((m - 1) * n + n) by lia.
  - eapply untouched_mono; [| |exact Hun]; nia.
Qed.

Lemma torn_heads name size blk m content w d c k stamp m' :
  torn_pages name size blk m content w d c k stamp -> m <= m' < m - 1 + c ->
  0 < total_of size (pagesize (flash (w_chip w))) ->
  exists content stamp,
    page_at d (item_page w blk (m' * arg_pages_of size (pagesize (flash (w_chip w))))) =
      Some (info_page (pagesize (flash (w_chip w))) content 0, oobinfo name stamp).
Proof.
  intros Htp Hm' Ht. destruct (tp_done _ _ _ _ _ _ _ _ _ _ Htp (m' - m + 1)) as [st Hst]; [lia|].
  exists content, st. rewrite <- (Hst 0) by lia. f_equal. f_equal. lia.
Qed.

End Search.

(** ** A chip with a battery
    The pages of [PageStore.IdealChip], and how many more can be written before
    the power goes. *)
Module BatteryChip.
Abbreviation D := (gmap (Z * Z) (list Z * list Z) * nat)%type.

#[local] Instance hw : NandHw D := {
  hw_cmd _ d m := (d, m);
  hw_info d m := (0, (d, m));
  hw_buf d m := (0, (d, m));
  hw_cfg _ _ d m := (d, m);
  hw_wait d m := (d, m);
  hw_virt _ := 0
}.

Definition read : act D Z :=
  c ← gets w_chip;
  let o := ops_para c in
  p ← gets (fun w => (w_dev w).1 !! (chipnr o, page_addr o));
  let '(data, oob) := default (replicate (Z.to_nat (pagesize (flash c))) 255,
                               replicate (Z.to_nat (ooblen o)) 255) p in
  (if is_null (data_buf o) then mret tt else store_bytes (data_buf o) data) ;;
  store_bytes (oob_buf o) oob ;;
  upd_ops (set_ecc_err 0) ;;
  mret 0.

Definition write : act D Z :=
  c ← gets w_chip;
  let o := ops_para c in
  data ← load_bytes (data_buf o) (pagesize (flash c));
  oob ← load_bytes (oob_buf o) (ooblen o);
  charge ← gets (fun w => (w_dev w).2);
  match charge with
  | O => throw PowerOff
  | S n =>
      modify (fun w =>
        set_w_dev (<[(chipnr o, page_addr o) := (data, oob)]> (w_dev w).1, n) w) ;;
      mret 0
  end.

#[local] Instance ops : ChipOperation D := {|
  op_erase_block := mret 0;
  op_read_page := read;
  op_write_page := write;
  op_block_isbad := mret NAND_BLOCK_GOOD;
  op_block_markbad := mret 0;
  op_test_block_chip_op := mret 0;
  op_test_block_reserved := fun _ => mret 0;
  op_blk_modify_bbt_chip_op := fun _ => mret 0;
  op_update_bbt_chip_op := mret 0
|}.

Lemma battery_fifo_quiet (n : nat) (w : world D) : wait_fifo n w = Done tt w.
Proof. destruct n; [done|]. cbn. by destruct w. Qed.

Lemma read_default (w : world D) p m m' :
  let c := w_chip w in let o := ops_para c in
  default (replicate (Z.to_nat (pagesize (flash c))) 255, replicate (Z.to_nat (ooblen o)) 255)
    ((w_dev w).1 !! (chipnr o, page_addr o)) = p ->
  poke (w_mem w) (data_buf o) p.1 = Some m -> poke m (oob_buf o) p.2 = Some m' ->
  wp read (fun r w' => r = 0 /\ setup w' = setup w /\ w_mem w' = m' /\ w_dev w' = w_dev w /\
    ecc_err (ops_para (w_chip w')) = 0 /\
    ops_option (ops_para (w_chip w')) = ops_option (ops_para (w_chip w))) noflt w.
Proof.
  intros c o Hp Hm Hm'. unfold read. wp_steps. fold c o. rewrite Hp. destruct p as [data oob].
  destruct (is_null (data_buf o)) eqn:Hn; [by destruct (data_buf o)|]. wp_step.
  eapply wp_store_bytes; [exact Hm|]. wp_step. eapply wp_store_bytes; [exact Hm'|].
  by wp_steps.
Qed.

#[local] Instance power : PowerStore ops.
Proof.
  refine {| page_at := fun d a => d.1 !! a; ps_fails := True |}.
  - intros n w Hn. unfold controller_select_chip.
    replace (_ && _) with true by (symmetry; lia). wp_steps.
    unfold idle_selected, NFC_SEND_CMD_IDLE, NFC_WAIT_FIFO_EMPTY. wp_steps.
    unfold wp at 1. rewrite battery_fifo_quiet. by unfold NFC_SEND_CMD; wp_steps.
  - intros w data oob c o Hd Ho. cbn [op_write_page ops]. unfold write. wp_steps.
    eapply wp_load_bytes; [exact Hd|]. wp_step. eapply wp_load_bytes; [exact Ho|]. wp_steps.
    destruct ((w_dev w).2) as [|n].
    { apply wp_throw. by split_and!. }
    wp_steps. split_and!; [done.. |]. intros a. cbn. case_decide as E.
    + subst a. by rewrite lookup_insert_eq.
    + by rewrite lookup_insert_ne.
  - intros w data oob m m' o Hat Hlen Hm Hm'. cbn [op_read_page ops]. cbv beta in Hat.
    eapply wp_mono; [apply (read_default w (data, oob) m m'); [cbv zeta; fold o; by rewrite Hat | done..] | | done].
    intros r w' (-> & ? & ? & -> & ? & ?). by split_and!.
Defined.

#[local] Instance scan : ScanStore ops.
Proof.
  refine {| sc_status := fun _ => 0 |}.
  - intros w o. by apply wp_ret.
  - intros w m m' c o Hat Hm Hm'. cbn [op_read_page ops].
    change ((w_dev w).1 !! (chipnr o, page_addr o) = None) in Hat.
    eapply wp_mono; [apply (read_default w (replicate (Z.to_nat (pagesize (flash c))) 255,
      replicate (Z.to_nat (ooblen o)) 255) m m'); [cbv zeta; fold c o; by rewrite Hat | done..] | | done].
    intros r w' (-> & ? & ? & Hd & ? & ?). split_and!; try done. cbn. by rewrite Hd.
Defined.

(** Pages of 16 bytes, 256 to the block, one chip; the device is held, and the
    item was saved once. *)
Definition board : world D :=
  set_w_allow_meta 1
    (set_w_mem {[ 1 := replicate 16 0; 2 := replicate 8 0; 3 := IdealChip.item;
                  4 := replicate 48 0 ]}
       (set_w_chip
          (set_state CHIP_WRITING (set_flash IdealChip.fl (set_controller (set_chip_num 1 ctl0)
            (set_user_page_buf (Ptr 1 0) (set_user_oob_buf (Ptr 2 0)
              (set_reserved_blk (replicate 48 255)
                (set_uboot_env (set_arg_type FULL_PAGE arg0) chip0)))))))
          (world0 (∅, 100%nat)))).
Definition saved : world D := Eval vm_compute in
  IdealChip.final (amlnand_save_info_by_name 60 Env (Ptr 3 0) ENV_INFO_HEAD_MAGIC 32 board).
(** Power for [n] pages more, and another environment to be saved. *)
Definition news : list Z := map (fun i => 100 + Z.of_nat i) (seq 0 48).
Definition failing (n : nat) : world D :=
  set_w_mem (<[3 := news]> (w_mem saved)) (set_w_dev ((w_dev saved).1, n) saved).
(** ... and the driver that comes up behind. *)
Definition next_boot (w : world D) : world D :=
  set_w_chip (set_uboot_env (set_arg_type FULL_PAGE arg0)
    (set_reserved_blk (replicate 48 255) (w_chip w)))
    (set_w_mem (<[4 := replicate 48 0]> (w_mem w)) w).

Definition after (n : nat) : outcome (world D) Z :=
  amlnand_save_info_by_name 60 Env (Ptr 3 0) ENV_INFO_HEAD_MAGIC 32 (failing n).
Definition booted (n : nat) : outcome (world D) Z :=
  amlnand_info_init Env (Ptr 4 0) ENV_INFO_HEAD_MAGIC 32 (next_boot (IdealChip.final (after n))).
(** What the boot loads, with the power gone after [n] pages. *)
Definition loaded (n : nat) : Z * Datatypes.option (list Z) :=
  (match booted n with Done r _ => r | Fault _ _ => 99 end,
   take 32 <$> (w_mem (IdealChip.final (booted n)) !! 4)).

(** A page of the new environment and a page of zeros. *)
Example torn_environment :
  loaded 0 = (0, Some (take 32 IdealChip.item)) /\
  loaded 1 = (0, Some (take 16 news ++ replicate 16 0)) /\
  loaded 2 = (0, Some (take 32 news)) /\ loaded 3 = (0, Some (take 32 news)) /\
  loaded 4 = (0, Some (take 16 news ++ replicate 16 0)) /\
  loaded 5 = (0, Some (take 32 news)) /\ loaded 6 = (0, Some (take 32 news)).
Proof. vm_compute. split_and!; reflexivity. Qed.

(** *** Witnesses *)
Lemma check_range (P : Z -> bool) lo n b :
  forallb (fun k => P (Z.of_nat k)) (seq lo n) = true ->
  Z.of_nat lo <= b < Z.of_nat (lo + n) -> P b = true.
Proof.
  intros H Hb. rewrite forallb_forall in H. specialize (H (Z.to_nat b)).
  rewrite Z2Nat.id in H by lia. apply H, in_seq. lia.
Qed.

Definition blank_at (w : world D) (a : Z * Z) : bool :=
  match (w_dev w).1 !! a with None => true | Some _ => false end.
Lemma blank_at_None w a : blank_at w a = true -> page_at (w_dev w) a = None.
Proof. unfold blank_at. cbn. by destruct (_ !! a). Qed.

Lemma failing_usable n : usable (failing n) 1 2.
Proof.
  split; [discriminate | cbn; lia | reflexivity | lia | |];
    (do 2 eexists; split; [reflexivity | vm_compute; reflexivity]).
Qed.

Lemma failing_history n :
  history ENV_INFO_HEAD_MAGIC 32 4 2 IdealChip.item (failing n).
Proof.
  assert (pages_of_block (flash (w_chip (failing n))) = 256) as Hb by (vm_compute; reflexivity).
  assert (arg_pages_of 32 (pagesize (flash (w_chip (failing n)))) = 3) as Hn
    by (vm_compute; reflexivity).
  assert (u16 (reserved_start (flash (w_chip (failing n)))) = 4) as H4 by (vm_compute; reflexivity).
  assert (u16 (reserved_start (flash (w_chip (failing n))) + RESERVED_BLOCK_CNT) = 52) as H52
    by (vm_compute; reflexivity).
  assert (ENV_INFO_HEAD_MAGIC <> [255; 255; 255; 255]) as Hones by discriminate.
  split; rewrite ?Hn, ?Hb.
  - split; rewrite ?H4, ?H52, ?Hb.
    + reflexivity.
    + lia.
    + reflexivity.
    + intros b Hr Hne _. apply erased_unnamed; [|done | reflexivity]. apply blank_at_None.
      apply (check_range (fun b => blank_at (failing n) (item_page (failing n) b 0)) 5 47);
        [vm_compute; reflexivity | lia].
    + intros c Hc. assert (c = 0 \/ c = 1) as [->| ->] by lia; vm_compute; split_and!; reflexivity.
    + intros _. apply erased_unnamed; [vm_compute; reflexivity | done | reflexivity].
    + lia.
    + lia.
    + vm_compute. discriminate.
  - exists 2. intros i Hi Ht. assert (total_of 32 (pagesize (flash (w_chip (failing n)))) = 48) as E
      by (vm_compute; reflexivity). rewrite E in Ht.
    change (pagesize (flash (w_chip (failing n)))) with 16 in Ht |- *.
    assert (i = 0 \/ i = 1 \/ i = 2) as [->|[->| ->]] by lia; vm_compute; reflexivity.
  - intros t Ht. apply blank_at_None.
    apply (check_range (fun t => blank_at (failing n) (item_page (failing n) 4 t)) 6 250);
      [vm_compute; reflexivity | lia].
  - split; [reflexivity | done].
  - vm_compute. discriminate.
Qed.

Lemma failing_savable n : savable Env 32 4 3 1 2 3 0 news (failing n).
Proof.
  assert (pagesize (flash (w_chip (failing n))) = 16) as Hp by reflexivity.
  assert (pages_of_block (flash (w_chip (failing n))) = 256) as Hb by (vm_compute; reflexivity).
  assert (arg_pages_of 32 16 = 3) as Ha by (vm_compute; reflexivity).
  split; rewrite ?Hp, ?Hb, ?Ha; [discriminate | | lia | lia | reflexivity.. | lia | lia | lia | lia].
  split; [apply failing_usable | repeat split; reflexivity | vm_compute; reflexivity].
Qed.

Lemma wp_is_done {S A} (m : M S A) Q E s a s' : m s = Done a s' -> wp m Q E s -> Q a s'.
Proof. unfold wp. by intros ->. Qed.
Lemma wp_is_fault {S A} (m : M S A) Q E s f s' : m s = Fault f s' -> wp m Q E s -> E f s'.
Proof. unfold wp. by intros ->. Qed.
Lemma wp_final {S A} (m : M S A) (P : S -> Prop) s :
  wp m (fun _ s' => P s') noflt s -> P (IdealChip.final (m s)).
Proof. unfold wp. by destruct (m s). Qed.

(** The next boot is one the theorems speak of. *)
Definition saved_again : world D := Eval vm_compute in IdealChip.final (after 6).
Definition broken_off : world D := Eval vm_compute in IdealChip.final (after 1).
Lemma after_6 :
  amlnand_save_info_by_name 60 Env (Ptr 3 0) ENV_INFO_HEAD_MAGIC 32 (failing 6) = Done 0 saved_again.
Proof. vm_compute. reflexivity. Qed.
Lemma after_1 :
  amlnand_save_info_by_name 60 Env (Ptr 3 0) ENV_INFO_HEAD_MAGIC 32 (failing 1) = Fault PowerOff broken_off.
Proof. vm_compute. reflexivity. Qed.

Lemma next_boot_booting n w1 :
  (n, w1) = (6%nat, saved_again) \/ (n, w1) = (1%nat, broken_off) ->
  booting Env 32 1 2 4 0 (replicate 32 0) (failing n) (w_dev w1) (next_boot w1).
Proof.
  intros [[= -> ->]|[= -> ->]]; (split;
    [ split; reflexivity | split_and!; [reflexivity.. | intros k; reflexivity || (cbn; lia)]
    | split_and!; reflexivity
    | split; [discriminate | cbn; lia | reflexivity | lia | |];
      (do 2 eexists; split; [reflexivity | vm_compute; reflexivity])
    | lia | vm_compute; reflexivity ]).
Qed.

Example reboot_finds_saved_witness :
  peek (w_mem (IdealChip.final (amlnand_info_init Env (Ptr 4 0) ENV_INFO_HEAD_MAGIC 32
                                  (next_boot saved_again)))) (Ptr 4 0) 32 = Some (take 32 news).
Proof.
  pose proof (reboot_finds_saved 60 Env ENV_INFO_HEAD_MAGIC 32 4 2 IdealChip.item news 1 2 3 0
    (failing 6) (failing_history 6) (failing_savable 6) eq_refl) as H.
  apply (wp_is_done _ _ _ _ _ _ after_6) in H. destruct H as [_ H].
  apply (wp_final _ (fun w => peek (w_mem w) (Ptr 4 0) 32 = _)).
  eapply wp_mono; [exact (H _ _ _ _ _ _ (next_boot_booting 6 _ (or_introl eq_refl))) | | done].
  intros r w3 (_ & _ & Hr). exact Hr.
Defined.

Example power_loss_keeps_copies_witness :
  copy_at (item_page (failing 1) 4) (w_dev broken_off) 16 3 IdealChip.item
    ENV_INFO_HEAD_MAGIC 48.
Proof.
  pose proof (power_loss_keeps_copies 60 Env ENV_INFO_HEAD_MAGIC 32 4 2 IdealChip.item news 1 2 3 0
    (failing 1) (failing_history 1) (failing_savable 1)) as H.
  apply (wp_is_fault _ _ _ _ _ _ after_1) in H. destruct H as (_ & H & _). exact H.
Defined.

End BatteryChip.
