(* ===== verification/UbootEnv.v ===== *)
(** * UbootEnv: [dev/amlnf_env.c], the U-Boot environment and its device file.

    The environment is an item of the metadata area.  A process reads and
    writes it through a character device; every write loads the whole item,
    changes the bytes and saves it again.  User memory is a list of bytes. *)
From S2P Require Import Prelude NfcWords Data Machine Guards Ctrl HwController ChipOp ChipEnv PageStore.

Definition CONFIG_ENV_SIZE : Z := 64 * 1024.
Definition EFAULT : Z := 14.

(** What [aml_ubootenv_init] registers with the kernel, in this order. *)
Inductive registration := ChrdevRegion | CharDevice | DeviceClass | DeviceNode.
#[export] Instance registration_eq_dec : EqDecision registration.
Proof. solve_decision. Defined.

Definition undo (r : registration) (l : list registration) : list registration :=
  filter (fun x => x <> r) l.

Section UbootEnv.
Context {D : Type} `{!NandHw D} `{!ChipOperation D} (spin : nat).

(** ** Loading and saving *)

(** [vmalloc(CONFIG_ENV_SIZE + flash->pagesize)]: room for the extra page. *)
Definition env_vmalloc : act D ptr :=
  page ← flash_ pagesize; kmalloc (CONFIG_ENV_SIZE + page).
Definition vfree (p : ptr) : act D unit := kfree p.

Definition amlnf_env_save (buf : ptr) (len : Z) : act D Z :=
  if CONFIG_ENV_SIZE <? len then mret (- EFAULT)
  else
    env_buf ← env_vmalloc;
    if is_null env_buf then mret (-1)
    else
      memset env_buf 0 CONFIG_ENV_SIZE ;;
      memcpy env_buf buf len ;;
      ret ← amlnand_save_info_by_name spin Env env_buf ENV_INFO_HEAD_MAGIC CONFIG_ENV_SIZE;
      vfree env_buf ;;
      mret (if truthy ret then - EFAULT else ret).

Definition amlnf_env_read (buf : ptr) (len : Z) : act D Z :=
  if CONFIG_ENV_SIZE <? len then mret (- EFAULT)
  else
    valid ← arg_ Env arg_valid;
    if valid =? 0 then memset buf 0 len ;; mret 0
    else
      env_buf ← env_vmalloc;
      if is_null env_buf then mret (-1)
      else
        memset env_buf 0 CONFIG_ENV_SIZE ;;
        ret ← amlnand_read_info_by_name Env env_buf ENV_INFO_HEAD_MAGIC CONFIG_ENV_SIZE;
        if truthy ret then vfree env_buf ;; mret (- EFAULT)
        else
          memcpy buf env_buf len ;;
          vfree env_buf ;;
          mret ret.

(** ** The device file *)

(** [copy_to_user] and [copy_from_user]: the kernel says how many bytes at the
    end were not copied; [copy_from_user] fills them with zeros. *)
Definition not_copied (n : Z) : act D Z := r ← kernel_call; mret (Z.max 0 (Z.min r n)).
Definition copy_to_user (from : ptr) (n : Z) : act D (list Z) :=
  left ← not_copied n; load_bytes from (n - left).
Definition copy_from_user (to : ptr) (user : list Z) (n : Z) : act D unit :=
  left ← not_copied n;
  let got := take (Z.to_nat (n - left)) user in
  store_bytes to (got ++ replicate (Z.to_nat n - length got) 0).

Definition io_size (ppos count : Z) : Z :=
  if CONFIG_ENV_SIZE <? ppos + count then CONFIG_ENV_SIZE - ppos else count.

(** The result, the new position and what the process was given. *)
Definition uboot_env_read (count ppos : Z) : act D (Z * Z * list Z) :=
  if ppos =? CONFIG_ENV_SIZE then mret (0, ppos, [])
  else if CONFIG_ENV_SIZE <=? ppos then mret (- EFAULT, ppos, [])
  else
    env_ptr ← env_vmalloc;
    if is_null env_ptr then mret (- ENOMEM, ppos, [])
    else
      e ← amlnand_get_device CHIP_READING;
      ret ← amlnf_env_read env_ptr CONFIG_ENV_SIZE;
      r ← (if truthy ret then mret (0, ppos, [])
           else
             let read_size := io_size ppos count in
             bytes ← copy_to_user (ptr_add env_ptr ppos) read_size;
             mret (read_size, ppos + read_size, bytes));
      amlnand_release_device ;;
      vfree env_ptr ;;
      mret r.

(** [user]: what the process passes, [count] bytes. *)
Definition uboot_env_write (user : list Z) (count ppos : Z) : act D (Z * Z) :=
  if ppos =? CONFIG_ENV_SIZE then mret (0, ppos)
  else if CONFIG_ENV_SIZE <=? ppos then mret (- EFAULT, ppos)
  else
    env_ptr ← env_vmalloc;
    if is_null env_ptr then mret (- ENOMEM, ppos)
    else
      e ← amlnand_get_device CHIP_WRITING;
      ret ← amlnf_env_read env_ptr CONFIG_ENV_SIZE;
      r ← (if truthy ret then mret (0, ppos)
           else
             let write_size := io_size ppos count in
             copy_from_user (ptr_add env_ptr ppos) user write_size ;;
             ret ← amlnf_env_save env_ptr CONFIG_ENV_SIZE;
             mret (write_size, if truthy ret then ppos else ppos + write_size));
      amlnand_release_device ;;
      vfree env_ptr ;;
      mret r.

(** ** Rewriting and registering *)

(** [env_buf] starts as NULL, so [env_ptr] is never looked at, and the result
    is 0 whatever happened, unless there is no memory. *)
Definition aml_nand_update_ubootenv (env_ptr : ptr) : act D Z :=
  env_buf ← kzalloc CONFIG_ENV_SIZE;
  if is_null env_buf then mret (- ENOMEM)
  else
    memset env_buf 0 CONFIG_ENV_SIZE ;;
    ret ← amlnand_read_info_by_name Env env_buf ENV_INFO_HEAD_MAGIC CONFIG_ENV_SIZE;
    when_ (negb (truthy ret))
      (ret ← amlnand_save_info_by_name spin Env env_buf ENV_INFO_HEAD_MAGIC CONFIG_ENV_SIZE;
       mret tt) ;;
    kfree env_buf ;;
    mret 0.

(** [alloc_chrdev_region], [cdev_add], [class_create], [device_create]: each
    failure undoes what was done before it. *)
Definition register_env : act D (Z * list registration) :=
  r ← kernel_call;
  if r <? 0 then mret (-1, [])
  else
    let regs := [ChrdevRegion] in
    r ← kernel_call;
    if truthy r then mret (-1, undo ChrdevRegion regs)
    else
      let regs := CharDevice :: regs in
      c ← kernel_call;
      if c <? 0 then mret (-1, undo ChrdevRegion (undo CharDevice regs))
      else
        let regs := DeviceClass :: regs in
        d ← kernel_call;
        if d <? 0
        then mret (-1, undo ChrdevRegion (undo CharDevice (undo DeviceClass regs)))
        else mret (r, DeviceNode :: regs).

Definition aml_ubootenv_init : act D (Z * list registration) :=
  env_buf ← kmalloc CONFIG_ENV_SIZE;
  if is_null env_buf then mret (-1, [])
  else
    memset env_buf 0 CONFIG_ENV_SIZE ;;
    ret ← amlnand_info_init Env env_buf ENV_INFO_HEAD_MAGIC CONFIG_ENV_SIZE;
    r ← (if ret <? 0 then mret (-1, []) else register_env);
    kfree env_buf ;;
    mret r.
End UbootEnv.

(** ** Frames and termination *)
Section EnvFrames.
Context {D : Type} `{!NandHw D} `{ops : !ChipOperation D} (spin : nat).
Context (R : world D -> world D -> Prop) `{!CmdFrame R} `{!ChipFrame R} `{!OpsRespect R ops}.

Ltac file_respects :=
  unfold env_vmalloc, vfree, copy_to_user, copy_from_user, not_copied, arg_; op_respects.

Lemma respects_amlnf_env_save p n : respects R (amlnf_env_save spin p n).
Proof. unfold amlnf_env_save. file_respects. Qed.
Lemma respects_amlnf_env_read p n : respects R (amlnf_env_read p n).
Proof. unfold amlnf_env_read. file_respects. Qed.
#[local] Hint Resolve respects_amlnf_env_save respects_amlnf_env_read : respects.
Lemma respects_uboot_env_read a b : respects R (uboot_env_read a b).
Proof. unfold uboot_env_read. file_respects. Qed.
Lemma respects_uboot_env_write a b c : respects R (uboot_env_write spin a b c).
Proof. unfold uboot_env_write. file_respects. Qed.
Lemma respects_update_ubootenv p : respects R (aml_nand_update_ubootenv spin p).
Proof. unfold aml_nand_update_ubootenv. file_respects. Qed.
Lemma respects_register_env : respects R register_env.
Proof. unfold register_env. file_respects. Qed.
#[local] Hint Resolve respects_register_env : respects.
Lemma respects_ubootenv_init : respects R aml_ubootenv_init.
Proof. unfold aml_ubootenv_init. file_respects. Qed.
End EnvFrames.
#[export] Hint Resolve respects_uboot_env_read respects_uboot_env_write
  respects_update_ubootenv respects_ubootenv_init : respects.

(** ** Registering *)

(** Either the whole chain is registered, or nothing is left. *)
Theorem register_env_all_or_nothing {D} (w : world D) :
  wp register_env (fun '(r, regs) _ =>
    (r = 0 /\ regs = [DeviceNode; DeviceClass; CharDevice; ChrdevRegion]) \/
    (r = -1 /\ regs = [])) noflt w.
Proof.
  unfold register_env, kernel_call, truthy. wp_steps.
  repeat (case_match; wp_steps; [by right|]).
  left. by match goal with H : negb (?r =? 0) = false |- _ =>
    apply negb_false_iff, Z.eqb_eq in H end.
Qed.

(** ** The device file against its specification
    The specification keeps the bytes of the environment and nothing else. *)
Module EnvSpec.
Definition env := list Z.
Definition read (e : env) (count ppos : Z) : list Z :=
  take (Z.to_nat (io_size ppos count)) (drop (Z.to_nat ppos) e).
Definition write (e : env) (user : list Z) (count ppos : Z) : env :=
  splice e ppos (take (Z.to_nat (io_size ppos count)) user).
End EnvSpec.

Lemma CONFIG_ENV_SIZE_eq : CONFIG_ENV_SIZE = 65536.
Proof. reflexivity. Qed.
(** Computing must not unroll a list of that many bytes. *)
#[local] Opaque CONFIG_ENV_SIZE.

(** ** Memory that comes and goes *)
Section Fresh.
Context {D : Type}.
Implicit Types w : world D.

(** The kernel refuses nothing and copies everything; nothing is allocated yet
    from [w_brk] on. *)
Record serving w : Prop := {
  se_oracle : forall n, w_oracle w n = 0;
  se_fresh : forall b, w_brk w <= b -> w_mem w !! b = None
}.

(** What an allocation leaves alone. *)
Definition base w := (w_chip w, w_dev w, (w_mutex w, w_idleflag w, w_oracle w, w_allow_meta w)).

Lemma wp_kmalloc n w (Q : ptr -> world D -> Prop) :
  serving w -> 0 <= n ->
  (forall l w', Z.of_nat (length l) = n -> base w' = base w -> serving w' ->
     w_brk w' = w_brk w + 1 -> w_mem w' = <[w_brk w := l]> (w_mem w) ->
     Q (Ptr (w_brk w) 0) w') ->
  wp (kmalloc n) Q noflt w.
Proof.
  intros [Ho Hf] Hn HQ. unfold kmalloc, alloc_, kernel_call. wp_steps.
  cbn [w_oracle w_calls set_w_calls]. rewrite Ho. cbn [Z.ltb Z.compare]. wp_steps.
  apply (HQ (map (fun i => u8 (w_junk w (w_calls w) (Z.of_nat i))) (seq 0 (Z.to_nat n))));
    try done.
  - rewrite length_map, length_seq. lia.
  - split; [done|]. intros b Hb. cbn in *. rewrite lookup_insert_ne by lia. apply Hf. lia.
Qed.

(** A fresh buffer of zeros. *)
Lemma wp_kzalloc n w (Q : ptr -> world D -> Prop) E :
  serving w ->
  (forall w', base w' = base w -> serving w' -> w_brk w' = w_brk w + 1 ->
     w_mem w' = <[w_brk w := replicate (Z.to_nat n) 0]> (w_mem w) -> Q (Ptr (w_brk w) 0) w') ->
  wp (kzalloc n) Q E w.
Proof.
  intros [Ho Hf] HQ. unfold kzalloc, alloc_, kernel_call. wp_steps.
  cbn [w_oracle w_calls set_w_calls]. rewrite Ho. cbn [Z.ltb Z.compare]. wp_steps.
  apply HQ; try done. split; [done|]. intros b Hb. cbn in *. rewrite lookup_insert_ne by lia.
  apply Hf. lia.
Qed.

Lemma fresh_lt w b l : serving w -> w_mem w !! b = Some l -> b < w_brk w.
Proof.
  intros [_ Hf] Hl. destruct (decide (b < w_brk w)); [done|]. rewrite Hf in Hl by lia. done.
Qed.

Lemma usable_lt w bp bo : serving w -> usable w bp bo -> bp < w_brk w /\ bo < w_brk w.
Proof.
  intros Hs Hu. destruct (us_data _ _ _ Hu) as (o1 & l1 & _ & H1).
  destruct (us_oob _ _ _ Hu) as (o2 & l2 & _ & H2).
  apply peek_Some in H1 as (? & ? & a1 & [= <- <-] & Ha1 & _).
  apply peek_Some in H2 as (? & ? & a2 & [= <- <-] & Ha2 & _).
  split; by eapply fresh_lt.
Qed.

(** Only the chip's structures and the two buffers matter. *)
Lemma usable_ext w w' bp bo :
  w_chip w' = w_chip w -> w_mem w' !! bp = w_mem w !! bp -> w_mem w' !! bo = w_mem w !! bo ->
  usable w bp bo -> usable w' bp bo.
Proof.
  intros Hc Hbp Hbo [? ? ? ? (o1 & l1 & ? & H1) (o2 & l2 & ? & H2)].
  split; rewrite ?Hc; try done.
  - exists o1, l1. split; [done|]. unfold peek in *. by rewrite Hbp.
  - exists o2, l2. split; [done|]. unfold peek in *. by rewrite Hbo.
Qed.
End Fresh.

Section DeviceFile.
Context {D : Type} `{!NandHw D} `{ops : !ChipOperation D} `{!PageStore ops} (spin : nat).
Implicit Types w : world D.

(** The environment is [content], its last copy at page [t0] of block [blk];
    the device is held and the user buffers are the allocations [bp] and [bo]. *)
Record env_at (bp bo blk t0 : Z) (content : list Z) w : Prop := {
  ea_serving : serving w;
  ea_usable : usable w bp bo;
  ea_place : appendable Env blk t0 w;
  ea_mlc : slc_type (new_type (flash (w_chip w))) = false;
  ea_size : CONFIG_ENV_SIZE <= Z.of_nat (length content);
  ea_stored : exists stamp, let fl := flash (w_chip w) in
    stored w (pagesize fl) (u16 (reserved_start fl)) (pages_of_block fl) blk t0 content
      (oobinfo ENV_INFO_HEAD_MAGIC stamp) CONFIG_ENV_SIZE
}.

Definition view w :=
  let c := w_chip w in
  (flash c, chip_num (controller c), slc_info (controller c), uboot_env c).
Definition lock_state w :=
  (state (w_chip w), w_mutex w, w_idleflag w, w_allow_meta w).

Lemma view_page_of w w' a b c d : view w' = view w -> page_of w' a b c d = page_of w a b c d.
Proof.
  unfold page_of. intros E.
  assert (flash (w_chip w') = flash (w_chip w) /\
    chip_num (controller (w_chip w')) = chip_num (controller (w_chip w)) /\
    slc_info (controller (w_chip w')) = slc_info (controller (w_chip w))) as (-> & -> & ->); [|done].
  unfold view in E. by simplify_eq.
Qed.

Lemma env_at_ext bp bo blk t0 content w w' :
  view w' = view w -> page_at (w_dev w') = page_at (w_dev w) -> serving w' -> usable w' bp bo ->
  env_at bp bo blk t0 content w -> env_at bp bo blk t0 content w'.
Proof.
  intros Ev Ed Hs Hu [_ _ Hp Hm Hz [stamp Hst]].
  assert (flash (w_chip w') = flash (w_chip w)) as Ef by (unfold view in Ev; congruence).
  assert (uboot_env (w_chip w') = uboot_env (w_chip w)) as Ee by (unfold view in Ev; congruence).
  split; [done | done | | by rewrite Ef | done |].
  - unfold appendable, placed in *. cbn in *. by rewrite Ee.
  - exists stamp. cbv zeta. rewrite Ef. intros k ??.
    rewrite (view_page_of _ _ _ _ _ _ Ev), Ed. by apply Hst.
Qed.

Lemma setup_view w w' : setup w' = setup w -> view w' = view w /\ lock_state w' = lock_state w.
Proof. unfold setup, view, lock_state. intros E. split; congruence. Qed.

Lemma setup_serving w w' :
  setup w' = setup w -> (forall b, w_brk w <= b -> w_mem w' !! b = None) ->
  serving w -> serving w'.
Proof.
  intros E Hm [Ho _]. destruct (setup_kernel _ _ E) as (_ & _ & Eb & Eo & _).
  split; [by rewrite Eo | by rewrite Eb].
Qed.

(** What [amlnf_env_read] and [amlnf_env_save] leave alone besides: memory other
    than the user buffers, and the lock. *)
Definition settled (bp bo : Z) w w' : Prop :=
  lock_state w' = lock_state w /\ flash (w_chip w') = flash (w_chip w) /\
  w_brk w <= w_brk w' /\
  forall b, b <> bp -> b <> bo -> b < w_brk w -> w_mem w' !! b = w_mem w !! b.

#[export] Instance settled_preorder bp bo : PreOrder (settled bp bo).
Proof.
  split.
  - intros w. by repeat split.
  - intros w1 w2 w3 (A1 & B1 & C1 & D1) (A2 & B2 & C2 & D2).
    split_and!; [congruence | congruence | lia |].
    intros b ???. rewrite D2, D1; [done.. | lia].
Qed.

(** Overwriting an allocation from its start. *)
Lemma wp_store_at b l bs w (Q : unit -> world D -> Prop) E :
  w_mem w !! b = Some l -> (length bs <= length l)%nat ->
  Q tt (set_w_mem (<[b := bs ++ drop (length bs) l]> (w_mem w)) w) ->
  wp (store_bytes (Ptr b 0) bs) Q E w.
Proof.
  intros Hl Hle HQ. eapply wp_store_bytes; [|exact HQ].
  apply poke_Some. exists b, 0, l. split_and!; [reflexivity | exact Hl | lia | lia |].
  unfold splice. change (Z.to_nat 0) with 0%nat. by rewrite take_0, Nat.add_0_l, app_nil_l.
Qed.

(** A new buffer. *)
Lemma wp_env_vmalloc bp bo blk t0 content w (Q : ptr -> world D -> Prop) :
  env_at bp bo blk t0 content w ->
  (forall l w', Z.of_nat (length l) = CONFIG_ENV_SIZE + pagesize (flash (w_chip w)) ->
     env_at bp bo blk t0 content w' -> settled bp bo w w' -> w_chip w' = w_chip w ->
     w_brk w' = w_brk w + 1 -> w_mem w' = <[w_brk w := l]> (w_mem w) ->
     Q (Ptr (w_brk w) 0) w') ->
  wp env_vmalloc Q noflt w.
Proof.
  intros Hea HQ. destruct (id Hea) as [Hs Hu _ _ _ _].
  assert (0 < pagesize (flash (w_chip w))) as Hp by apply Hu.
  destruct (usable_lt _ _ _ Hs Hu) as [Hbp Hbo].
  unfold env_vmalloc. wp_steps. apply wp_kmalloc; [done | pose proof CONFIG_ENV_SIZE_eq; lia |].
  intros l w1 Hl Hb1 Hs1 Hk1 Hm1.
  unfold base in Hb1. injection Hb1 as Ec Ed Em Ei Eo Eal.
  apply (HQ l); try done.
  - apply (env_at_ext _ _ _ _ _ w); [unfold view; by rewrite Ec | by rewrite Ed | done | | done].
    apply (usable_ext w); [done | | | done]; rewrite Hm1, lookup_insert_ne; lia || done.
  - split_and!; [unfold lock_state; congruence | congruence | lia |].
    intros b ???. rewrite Hm1, lookup_insert_ne; lia || done.
Qed.

(** ... and its first bytes cleared. *)
Lemma wp_env_clear bp bo blk t0 content l b w (Q : unit -> world D -> Prop) :
  env_at bp bo blk t0 content w -> w_mem w !! b = Some l -> b <> bp -> b <> bo ->
  CONFIG_ENV_SIZE <= Z.of_nat (length l) ->
  (forall w', env_at bp bo blk t0 content w' -> w_chip w' = w_chip w -> w_brk w' = w_brk w ->
     lock_state w' = lock_state w ->
     w_mem w' = <[b := replicate (Z.to_nat CONFIG_ENV_SIZE) 0 ++
                       drop (Z.to_nat CONFIG_ENV_SIZE) l]> (w_mem w) ->
     Q tt w') ->
  wp (memset (Ptr b 0) 0 CONFIG_ENV_SIZE) Q noflt w.
Proof.
  intros Hea Hl Hbp Hbo Hle HQ. unfold memset. change (u8 0) with 0.
  set (z := replicate (Z.to_nat CONFIG_ENV_SIZE) 0) in *.
  assert (length z = Z.to_nat CONFIG_ENV_SIZE) as Hz by apply length_replicate.
  apply (wp_store_at _ l); [exact Hl | lia |]. rewrite Hz.
  assert (forall b', b' <> b -> <[b := z ++ drop (Z.to_nat CONFIG_ENV_SIZE) l]> (w_mem w) !! b' = w_mem w !! b')
    as Hne by (intros; by rewrite lookup_insert_ne).
  apply HQ; [|reflexivity..].
  apply (env_at_ext _ _ _ _ _ w); [reflexivity | reflexivity | | | exact Hea].
  - destruct (ea_serving _ _ _ _ _ _ Hea) as [Ho Hf]. split; [exact Ho|].
    intros b' Hb'. cbn [w_mem w_brk set_w_mem] in *.
    rewrite Hne; [by apply Hf|]. intros ->. rewrite (Hf b Hb') in Hl. discriminate Hl.
  - apply (usable_ext w); [reflexivity | | | apply Hea]; apply Hne, not_eq_sym; assumption.
Qed.

(** An allocation nobody else looks at. *)
Lemma env_at_free bp bo blk t0 content k w :
  env_at bp bo blk t0 content w -> k <> bp -> k <> bo ->
  env_at bp bo blk t0 content (set_w_mem (delete k (w_mem w)) w).
Proof.
  intros Hea Hp Ho. apply (env_at_ext _ _ _ _ _ w); [reflexivity | reflexivity | | | exact Hea].
  - destruct (ea_serving _ _ _ _ _ _ Hea) as [H1 H2]. split; [exact H1|]. intros b Hb. cbn in *.
    rewrite lookup_delete_None. right. by apply H2.
  - apply (usable_ext w); [reflexivity | | | apply Hea]; cbn; by rewrite lookup_delete_ne.
Qed.

(** Bytes put into such a buffer. *)
Lemma wp_env_store bp bo blk t0 content b pos l bs w (Q : unit -> world D -> Prop) :
  env_at bp bo blk t0 content w -> w_mem w !! b = Some l -> b <> bp -> b <> bo ->
  0 <= pos -> pos + Z.of_nat (length bs) <= Z.of_nat (length l) ->
  (forall w', env_at bp bo blk t0 content w' -> w_mem w' !! b = Some (splice l pos bs) ->
     w_chip w' = w_chip w -> lock_state w' = lock_state w -> w_brk w' = w_brk w ->
     (forall b', b' <> b -> w_mem w' !! b' = w_mem w !! b') -> Q tt w') ->
  wp (store_bytes (Ptr b pos) bs) Q noflt w.
Proof.
  intros Hea Hl Hbp Hbo H0 Hle HQ.
  apply (wp_store_bytes _ _ (<[b := splice l pos bs]> (w_mem w))).
  - apply poke_Some. exists b, pos, l. by split_and!.
  - apply HQ; [| apply lookup_insert_eq | reflexivity.. |
      by intros; apply lookup_insert_ne].
    apply (env_at_ext _ _ _ _ _ w); [reflexivity | reflexivity | | | exact Hea].
    + destruct (ea_serving _ _ _ _ _ _ Hea) as [Ho Hf]. split; [exact Ho|].
      intros b' Hb'. cbn [w_mem w_brk set_w_mem] in *. rewrite lookup_insert_ne; [by apply Hf|].
      intros ->. rewrite (Hf b' Hb') in Hl. discriminate Hl.
    + apply (usable_ext w); [reflexivity | | | apply Hea]; apply lookup_insert_ne; done.
Qed.

(** A new buffer for the environment, cleared. *)
Lemma wp_env_buffer {A} bp bo blk t0 content w (X : act D A) k (Q : A -> world D -> Prop) :
  env_at bp bo blk t0 content w ->
  (forall l w', env_at bp bo blk t0 content w' -> w_mem w' !! w_brk w = Some l ->
     Z.of_nat (length l) = CONFIG_ENV_SIZE + pagesize (flash (w_chip w)) ->
     bp < w_brk w -> bo < w_brk w -> w_brk w' = w_brk w + 1 -> w_chip w' = w_chip w ->
     lock_state w' = lock_state w ->
     (forall b, b <> w_brk w -> w_mem w' !! b = w_mem w !! b) ->
     wp (k (Ptr (w_brk w) 0)) Q noflt w') ->
  wp (p ← env_vmalloc; if is_null p then X else memset p 0 CONFIG_ENV_SIZE ;; k p) Q noflt w.
Proof.
  intros Hea HQ. pose proof CONFIG_ENV_SIZE_eq as HN.
  destruct (usable_lt _ _ _ (ea_serving _ _ _ _ _ _ Hea) (ea_usable _ _ _ _ _ _ Hea)) as [Hkp Hko].
  assert (0 < pagesize (flash (w_chip w))) as Hp by apply Hea.
  wp_step. eapply (wp_env_vmalloc bp bo blk t0 content); [exact Hea|].
  intros l1 w1 Hl1 Hea1 (Hls1 & _) Hc1 Hk1 Hm1. cbn [is_null].
  assert (w_mem w1 !! w_brk w = Some l1) as Hkl by (rewrite Hm1; apply lookup_insert_eq).
  wp_step. eapply (wp_env_clear bp bo blk t0 content l1 (w_brk w));
    [exact Hea1 | exact Hkl | lia | lia | lia |].
  intros w2 Hea2 Hc2 Hk2 Hls2 Hm2.
  eapply HQ; [exact Hea2 | rewrite Hm2; apply lookup_insert_eq | | lia | lia | lia | congruence
    | congruence |].
  - rewrite length_app, length_replicate, length_drop. lia.
  - intros b Hb. rewrite Hm2, lookup_insert_ne, Hm1, lookup_insert_ne; congruence.
Qed.

(** Loading the environment into a buffer. *)
Lemma wp_env_read_held bp bo blk t0 content b l w (Q : Z -> world D -> Prop) :
  env_at bp bo blk t0 content w -> w_mem w !! b = Some l -> b <> bp -> b <> bo ->
  CONFIG_ENV_SIZE <= Z.of_nat (length l) ->
  (forall w', env_at bp bo blk t0 content w' -> lock_state w' = lock_state w ->
     flash (w_chip w') = flash (w_chip w) ->
     w_brk w <= w_brk w' -> ops_option (ops_para (w_chip w')) = 0 ->
     w_mem w' !! b = Some (take (Z.to_nat CONFIG_ENV_SIZE) content ++
                           drop (Z.to_nat CONFIG_ENV_SIZE) l) ->
     (forall b', b' <> bp -> b' <> bo -> b' <> b -> w_mem w' !! b' = w_mem w !! b') ->
     Q 0 w') ->
  wp (amlnf_env_read (Ptr b 0) CONFIG_ENV_SIZE) Q noflt w.
Proof.
  intros Hea Hl Hbp Hbo Hle HQ. pose proof CONFIG_ENV_SIZE_eq as HN.
  unfold amlnf_env_read. rewrite Z.ltb_irrefl. unfold arg_. wp_steps.
  destruct (ea_place _ _ _ _ _ _ Hea) as [(Hv & Hblk & Ht0) _]. rewrite Hv. cbn [Z.eqb].
  pose proof (fresh_lt _ _ _ (ea_serving _ _ _ _ _ _ Hea) Hl) as Hb.
  set (k := w_brk w) in *.
  eapply (wp_env_buffer bp bo blk t0 content); [exact Hea|]. fold k.
  intros l2 w2 Hea2 Hkl2 Hl2 Hkp Hko Hk2 Hc2 Hls2 Hm2.
  assert (0 < pagesize (flash (w_chip w))) as Hp by apply Hea.
  destruct (id Hea2) as [Hs2 Hu2 [Hpl2 _] Hslc2 Hz2 [stamp Hsto2]].
  assert (peek (w_mem w2) (Ptr k 0) CONFIG_ENV_SIZE = Some (take (Z.to_nat CONFIG_ENV_SIZE) l2))
    as Hpk2.
  { apply peek_Some. exists k, 0, l2. split_and!; [reflexivity | exact Hkl2 | lia.. | reflexivity]. }
  wp_step. eapply wp_mono; [eapply (wp_read_info_loads Env (Ptr k 0) _ stamp CONFIG_ENV_SIZE content
    t0 blk w2 bp bo k 0 _ Hu2 eq_refl); [lia | lia | exact Hpk2 | lia | reflexivity | exact Hpl2
    | exact Hsto2] | | done].
  intros r w3 (-> & Hs3 & Hr3 & Hd3 & Hu3 & Hm3 & Ho3 & _). cbn [truthy Z.eqb negb].
  assert (w_mem w3 !! b = Some l) as Hl3.
  { rewrite Hm3, Hm2; first [exact Hl | lia]. }
  unfold memcpy. wp_steps. eapply wp_load_bytes; [exact Hr3|].
  apply peek_length in Hr3 as Hc. set (c := take _ content) in *.
  eapply wp_store_at; [exact Hl3 | lia |]. unfold vfree, kfree. wp_steps.
  destruct (setup_view _ _ Hs3) as [Hv3 Hls3]. destruct (setup_kernel _ _ Hs3) as (_ & _ & Hb3 & _).
  assert (forall b', b' <> k -> b' <> b ->
    delete k (<[b := c ++ drop (length c) l]> (w_mem w3)) !! b' = w_mem w3 !! b') as Hm4.
  { intros. rewrite lookup_delete_ne, lookup_insert_ne; [reflexivity | congruence | congruence]. }
  assert (length c = Z.to_nat CONFIG_ENV_SIZE) as Hc'.
  { unfold c. rewrite length_take. lia. }
  apply HQ; cbn [w_mem w_brk w_chip set_w_mem].
  - apply (env_at_ext _ _ _ _ _ w2); [exact Hv3 | exact Hd3 | | | exact Hea2].
    + apply (setup_serving w3); [reflexivity | | apply (setup_serving w2); [exact Hs3 | | exact Hs2]].
      * intros b' Hb'. cbn [w_mem set_w_mem]. rewrite Hm4 by lia.
        rewrite Hm3 by lia. apply Hs2. lia.
      * intros b' Hb'. rewrite Hm3 by lia. apply Hs2. lia.
    + apply (usable_ext w3); [reflexivity | | | exact Hu3]; apply Hm4; congruence || lia.
  - transitivity (lock_state w3); [reflexivity|]. by rewrite Hls3, Hls2.
  - destruct (setup_inv _ _ Hs3) as (_ & -> & _). by rewrite Hc2.
  - lia.
  - apply Ho3, Hslc2.
  - rewrite lookup_delete_ne, lookup_insert_eq, Hc' by lia. reflexivity.
  - intros b' ???. destruct (decide (b' = k)) as [->|].
    + rewrite lookup_delete_eq. symmetry. apply (ea_serving _ _ _ _ _ _ Hea). unfold k. lia.
    + rewrite Hm4, Hm3, Hm2; congruence.
Qed.

(** The copy [amlnf_env_save] makes of its argument. *)
Lemma wp_env_stage {A} bp bo blk t0 content b l w (X : act D A) k (Q : A -> world D -> Prop) :
  env_at bp bo blk t0 content w -> w_mem w !! b = Some l ->
  CONFIG_ENV_SIZE <= Z.of_nat (length l) ->
  (forall l' w', env_at bp bo blk t0 content w' -> w_mem w' !! w_brk w = Some l' ->
     Z.of_nat (length l') = CONFIG_ENV_SIZE + pagesize (flash (w_chip w)) ->
     take (Z.to_nat CONFIG_ENV_SIZE) l' = take (Z.to_nat CONFIG_ENV_SIZE) l ->
     bp < w_brk w -> bo < w_brk w -> w_brk w' = w_brk w + 1 -> w_chip w' = w_chip w ->
     lock_state w' = lock_state w ->
     (forall b', b' <> w_brk w -> w_mem w' !! b' = w_mem w !! b') ->
     wp (k (Ptr (w_brk w) 0)) Q noflt w') ->
  wp (p ← env_vmalloc; if is_null p then X else
      memset p 0 CONFIG_ENV_SIZE ;; memcpy p (Ptr b 0) CONFIG_ENV_SIZE ;; k p) Q noflt w.
Proof.
  intros Hea Hl Hle HQ. pose proof CONFIG_ENV_SIZE_eq as HN.
  pose proof (fresh_lt _ _ _ (ea_serving _ _ _ _ _ _ Hea) Hl) as Hb.
  assert (0 < pagesize (flash (w_chip w))) as Hp by apply Hea.
  eapply (wp_env_buffer bp bo blk t0 content); [exact Hea|].
  intros l2 w2 Hea2 Hkl2 Hl2 Hkp Hko Hk2 Hc2 Hls2 Hm2.
  assert (w_mem w2 !! b = Some l) as Hbl2 by (rewrite Hm2; [exact Hl | lia]).
  wp_step. unfold memcpy. wp_steps.
  eapply (wp_load_bytes _ _ (take (Z.to_nat CONFIG_ENV_SIZE) l)).
  { apply peek_Some. exists b, 0, l. split_and!; [reflexivity | exact Hbl2 | lia.. | reflexivity]. }
  assert (length (take (Z.to_nat CONFIG_ENV_SIZE) l) = Z.to_nat CONFIG_ENV_SIZE) as Hc0
    by (rewrite length_take; lia).
  eapply (wp_env_store bp bo blk t0 content); [exact Hea2 | exact Hkl2 | lia | lia | lia | lia |].
  intros w3 Hea3 Hm3 Hc3 Hls3 Hb3 Hne3.
  eapply HQ; [exact Hea3 | exact Hm3 | rewrite length_splice; lia | | lia | lia | lia | congruence
    | congruence | intros b' Hb'; rewrite Hne3, Hm2; done].
  unfold splice. change (Z.to_nat 0) with 0%nat. rewrite take_0, app_nil_l, take_app_le, take_ge; [done | lia..].
Qed.

(** With the metadata area closed nothing is saved. *)
Lemma wp_env_save_refused bp bo blk t0 content b l w (Q : Z -> world D -> Prop) :
  env_at bp bo blk t0 content w -> w_allow_meta w = 0 -> w_mem w !! b = Some l ->
  CONFIG_ENV_SIZE <= Z.of_nat (length l) ->
  (forall w', env_at bp bo blk t0 content w' -> lock_state w' = lock_state w ->
     flash (w_chip w') = flash (w_chip w) -> Q (- EFAULT) w') ->
  wp (amlnf_env_save spin (Ptr b 0) CONFIG_ENV_SIZE) Q noflt w.
Proof.
  intros Hea Hallow Hl Hle HQ. unfold amlnf_env_save. rewrite Z.ltb_irrefl.
  eapply (wp_env_stage bp bo blk t0 content); [exact Hea | exact Hl | exact Hle |].
  intros l3 w3 Hea3 _ _ _ Hkp Hko _ Hc3 Hls3 _.
  assert (w_allow_meta w3 = 0) as Hal3 by (unfold lock_state in Hls3; congruence).
  unfold amlnand_save_info_by_name. wp_steps. rewrite Hal3. cbn [truthy Z.eqb negb]. wp_steps.
  unfold vfree, kfree. wp_steps.
  apply HQ; [apply env_at_free; [exact Hea3 | lia | lia] | exact Hls3 | by cbn; rewrite Hc3].
Qed.

(** Room for two more copies behind the last one. *)
Record roomy (blk t0 : Z) w : Prop := {
  rm_allow : w_allow_meta w <> 0;
  rm_start : 0 <= t0;
  rm_room : t0 + 3 * arg_pages_of CONFIG_ENV_SIZE (pagesize (flash (w_chip w)))
            <= pages_of_block (flash (w_chip w));
  rm_fit : t0 + 2 * arg_pages_of CONFIG_ENV_SIZE (pagesize (flash (w_chip w))) < 2 ^ 16;
  rm_blk : 0 <= blk < 2 ^ 16
}.
Definition next_copy t0 w : Z :=
  t0 + 2 * arg_pages_of CONFIG_ENV_SIZE (pagesize (flash (w_chip w))).

Lemma wp_env_save_held bp bo blk t0 content b l w (Q : Z -> world D -> Prop) :
  env_at bp bo blk t0 content w -> roomy blk t0 w -> ops_option (ops_para (w_chip w)) = 0 ->
  w_mem w !! b = Some l -> b <> bp -> b <> bo -> CONFIG_ENV_SIZE <= Z.of_nat (length l) ->
  (forall w' c, env_at bp bo blk (next_copy t0 w) c w' ->
     take (Z.to_nat CONFIG_ENV_SIZE) c = take (Z.to_nat CONFIG_ENV_SIZE) l ->
     lock_state w' = lock_state w -> flash (w_chip w') = flash (w_chip w) ->
     w_brk w <= w_brk w' ->
     (forall b', b' <> bp -> b' <> bo -> w_mem w' !! b' = w_mem w !! b') -> Q 0 w') ->
  wp (amlnf_env_save spin (Ptr b 0) CONFIG_ENV_SIZE) Q noflt w.
Proof.
  intros Hea [Hallow Hpos Hroom Hfit Hblk] Hopt Hl Hbp Hbo Hle HQ.
  pose proof CONFIG_ENV_SIZE_eq as HN.
  unfold amlnf_env_save. rewrite Z.ltb_irrefl.
  set (k := w_brk w) in *. set (page := pagesize (flash (w_chip w))) in *.
  eapply (wp_env_stage bp bo blk t0 content); [exact Hea | exact Hl | exact Hle |]. fold k page.
  intros l3 w3 Hea3 Hkl3 Hl3 Ht3 Hkp Hko Hk3 Hc3 Hls3 Hm3.
  assert (0 < page) as Hp by apply Hea.
  set (total := total_of CONFIG_ENV_SIZE page).
  assert (CONFIG_ENV_SIZE <= total <= CONFIG_ENV_SIZE + page) as Htot.
  { unfold total, total_of. case_match; lia. }
  assert (peek (w_mem w3) (Ptr k 0) total = Some (take (Z.to_nat total) l3)) as Hpk3.
  { apply peek_Some. exists k, 0, l3. split_and!; [reflexivity | exact Hkl3 | lia.. | reflexivity]. }
  wp_step. eapply wp_mono; [apply (wp_save_appends spin Env ENV_INFO_HEAD_MAGIC CONFIG_ENV_SIZE
    blk t0 bp bo k 0 (take (Z.to_nat total) l3)) | | done].
  { split; rewrite ?Hc3; fold page; try lia.
    - replace (w_allow_meta w3) with (w_allow_meta w); [exact Hallow|].
      unfold lock_state in Hls3. congruence.
    - split; [apply Hea3 | apply Hea3 | exact Hpk3].
    - apply Hea.
    - by rewrite Hopt. }
  { reflexivity. }
  rewrite Hc3. fold page total. fold (next_copy t0 w).
  intros r w4 (-> & [Hu4 Hap4 _] & Hg4 & Ho4 & stamp & Hst4). wp_steps.
  unfold vfree, kfree. wp_steps.
  assert (flash (w_chip w4) = flash (w_chip w)) as Hf4.
  { rewrite (geometry_flash _ _ Hg4). by rewrite Hc3. }
  assert (forall b', b' <> k -> delete k (w_mem w4) !! b' = w_mem w4 !! b') as Hm5.
  { intros. by rewrite lookup_delete_ne. }
  assert (w_brk w4 = k + 1 /\ w_oracle w4 = w_oracle w3 /\ lock_state w4 = lock_state w)
    as (Hk4 & Hor4 & Hls4).
  { unfold geometry in Hg4. unfold lock_state in *. simplify_eq. split_and!; congruence. }
  apply (HQ _ (take (Z.to_nat total) l3)).
  - split; cbn [w_chip set_w_mem].
    + split; [intros n; cbn; rewrite Hor4; apply Hea3|]. intros b' Hb'. cbn in Hb' |- *.
      rewrite Hm5, Ho4, Hm3 by lia. apply Hea. lia.
    + apply (usable_ext w4); [reflexivity | apply Hm5; lia | apply Hm5; lia | exact Hu4].
    + exact Hap4.
    + rewrite Hf4. apply Hea.
    + rewrite length_take. lia.
    + exists stamp. cbv zeta. rewrite Hf4. intros i Hi Hit. apply Hst4; [exact Hi|]. fold page in Hit. lia.
  - rewrite take_take. replace (_ `min` _)%nat with (Z.to_nat CONFIG_ENV_SIZE) by lia.
    exact Ht3.
  - exact Hls4.
  - exact Hf4.
  - cbn. lia.
  - intros b' ??. cbn [w_mem set_w_mem]. destruct (decide (b' = k)) as [->|].
    + rewrite lookup_delete_eq. symmetry. apply (ea_serving _ _ _ _ _ _ Hea). unfold k. lia.
    + rewrite Hm5, Ho4, Hm3; congruence.
Qed.


(** *** Taking and giving back the device *)
(** Nobody has the device and the environment is [content]. *)
Record env_file (bp bo blk t0 : Z) (content : list Z) w : Prop := {
  ef_unlocked : unlocked w;
  ef_at : env_at bp bo blk t0 content (driven CHIP_READING w)
}.

(** The environment seen through a change of the lock. *)
Lemma env_at_relock bp bo blk t0 content w w' s :
  env_at bp bo blk t0 content w -> w_chip w' = set_state s (w_chip w) -> rest w' = rest w ->
  s <> CHIP_READY -> env_at bp bo blk t0 content w'.
Proof.
  intros Hea Hc Hr Hs. destruct (rest_inv _ _ Hr) as (Hd & Hm & Hb & Ho & _).
  apply (env_at_ext _ _ _ _ _ w); [| by rewrite Hd | | | exact Hea].
  - unfold view. rewrite Hc. reflexivity.
  - destruct (ea_serving _ _ _ _ _ _ Hea) as [H1 H2]. split; [by rewrite Ho | by rewrite Hb, Hm].
  - destruct (ea_usable _ _ _ _ _ _ Hea) as [_ ? ? ? ? ?].
    split; rewrite ?Hc, ?Hm; by cbn.
Qed.

Lemma wp_file_buffer bp bo blk t0 content w (Q : ptr -> world D -> Prop) :
  env_file bp bo blk t0 content w ->
  (forall l w', Z.of_nat (length l) = CONFIG_ENV_SIZE + pagesize (flash (w_chip w)) ->
     env_file bp bo blk t0 content w' -> w_chip w' = w_chip w ->
     w_allow_meta w' = w_allow_meta w -> w_mem w' !! w_brk w = Some l ->
     bp < w_brk w -> bo < w_brk w -> Q (Ptr (w_brk w) 0) w') ->
  wp env_vmalloc Q noflt w.
Proof.
  intros [Hun Hea] HQ. destruct (id Hea) as [Hs Hu _ _ _ _].
  assert (0 < pagesize (flash (w_chip w))) as Hp by apply Hu.
  destruct (usable_lt _ _ _ Hs Hu) as [Hbp Hbo]. cbn in Hbp, Hbo.
  assert (serving w) as Hsw by (destruct Hs; by split).
  pose proof CONFIG_ENV_SIZE_eq as HN. unfold env_vmalloc. wp_steps.
  apply wp_kmalloc; [exact Hsw | lia |].
  intros l w1 Hl Hb1 Hs1 Hk1 Hm1. unfold base in Hb1. injection Hb1 as Ec Ed Em Ei Eo Eal.
  apply (HQ l); try done; [|by rewrite Hm1, lookup_insert_eq].
  split; [unfold unlocked; by rewrite Ec, Em|].
  apply (env_at_ext _ _ _ _ _ (driven CHIP_READING w)); [| by cbn; rewrite Ed | | | exact Hea].
  - unfold view. cbn. by rewrite Ec.
  - by destruct Hs1; split.
  - apply (usable_ext (driven CHIP_READING w)); [cbn; by rewrite Ec | | | exact Hu];
      cbn; rewrite Hm1, lookup_insert_ne; lia || done.
Qed.

Lemma io_size_bound ppos count :
  0 <= ppos < CONFIG_ENV_SIZE -> 0 <= count ->
  0 <= io_size ppos count /\ ppos + io_size ppos count <= CONFIG_ENV_SIZE /\
  io_size ppos count <= count.
Proof. intros. unfold io_size. destruct (Z.ltb_spec CONFIG_ENV_SIZE (ppos + count)); lia. Qed.

Lemma wp_not_copied n w (Q : Z -> world D -> Prop) E :
  serving w -> 0 <= n -> Q 0 (set_w_calls (S (w_calls w)) w) -> wp (not_copied n) Q E w.
Proof.
  intros [Ho _] Hn HQ. unfold not_copied, kernel_call. wp_steps. cbn [w_oracle set_w_calls].
  rewrite Ho. by replace (Z.max 0 (Z.min 0 n)) with 0 by lia.
Qed.

Lemma env_at_calls bp bo blk t0 content n w :
  env_at bp bo blk t0 content w -> env_at bp bo blk t0 content (set_w_calls n w).
Proof.
  intros Hea. apply (env_at_ext _ _ _ _ _ w); [reflexivity | reflexivity | | | exact Hea].
  - destruct (ea_serving _ _ _ _ _ _ Hea). by split.
  - apply (usable_ext w); [reflexivity.. | apply Hea].
Qed.

(** Leaving the device file: the device is given back and the buffer freed. *)
Lemma wp_file_exit {A} bp bo blk t0 content k (r : A) w (Q : A -> world D -> Prop) :
  env_at bp bo blk t0 content w -> w_idleflag w = 1 -> k <> bp -> k <> bo ->
  (forall w', env_file bp bo blk t0 content w' -> flash (w_chip w') = flash (w_chip w) ->
     w_allow_meta w' = w_allow_meta w -> Q r w') ->
  wp (amlnand_release_device ;; vfree (Ptr k 0) ;; mret r) Q noflt w.
Proof.
  intros Hea Hi Hp Ho HQ. wp_step. apply wp_give; [exact Hi|].
  intros w1 Hc Hr Hun. unfold vfree, kfree. wp_steps.
  destruct (rest_inv _ _ Hr) as (_ & _ & _ & _ & Hal).
  apply HQ; [|cbn; by rewrite Hc | exact Hal].
  split; [exact Hun|]. apply (env_at_free _ _ _ _ _ k (driven CHIP_READING w1)); [|done..].
  apply (env_at_relock _ _ _ _ _ w _ CHIP_READING); [exact Hea | cbn; by rewrite Hc | exact Hr | done].
Qed.

(** The abstraction: the bytes a process sees, and where they are stored. *)
Definition env_abs (e : EnvSpec.env) (bp bo blk t0 : Z) w : Prop :=
  exists content, env_file bp bo blk t0 content w /\ e = take (Z.to_nat CONFIG_ENV_SIZE) content.

(** Opening: the buffer and the device. *)
Lemma wp_file_open {A} bp bo blk t0 content s w X (k : ptr -> act D A) (Q : A -> world D -> Prop) :
  env_file bp bo blk t0 content w -> s <> CHIP_READY ->
  (forall b l w', env_at bp bo blk t0 content w' -> w_mem w' !! b = Some l -> b <> bp -> b <> bo ->
     CONFIG_ENV_SIZE <= Z.of_nat (length l) ->
     w_idleflag w' = 1 -> flash (w_chip w') = flash (w_chip w) ->
     w_allow_meta w' = w_allow_meta w -> wp (k (Ptr b 0)) Q noflt w') ->
  wp (p ← env_vmalloc; if is_null p then X else e ← amlnand_get_device s; k p) Q noflt w.
Proof.
  intros Hef Hs HQ. wp_step. eapply wp_file_buffer; [exact Hef|].
  intros l w1 Hl Hef1 Hc1 Hal1 Hm1 Hbp Hbo. cbn [is_null]. wp_step.
  assert (0 < pagesize (flash (w_chip w))) as Hp
    by (destruct Hef as [_ Hea]; apply (us_page _ _ _ (ea_usable _ _ _ _ _ _ Hea))).
  apply wp_take; [apply Hef1 | intros n; destruct (ea_serving _ _ _ _ _ _ (ef_at _ _ _ _ _ _ Hef1)) as [Ho _];
    cbn in Ho; by rewrite Ho|].
  intros w2 Hc2 Hr2 Hi2. destruct (rest_inv _ _ Hr2) as (_ & Hm2 & _ & _ & Hal2).
  apply (HQ (w_brk w) l); [| by rewrite Hm2 | lia | lia | lia | exact Hi2
    | by rewrite Hc2; cbn; rewrite Hc1 | congruence].
  eapply env_at_relock; [apply Hef1 | rewrite Hc2; reflexivity | exact Hr2 | exact Hs].
Qed.

(** C9: Reading the device file gives the bytes of the environment at the position,
    moves it on, and changes nothing. *)
Theorem uboot_env_read_refines e bp bo blk t0 count ppos w :
  env_abs e bp bo blk t0 w -> 0 <= ppos < CONFIG_ENV_SIZE -> 0 <= count ->
  wp (uboot_env_read count ppos)
    (fun r w' => r = (io_size ppos count, ppos + io_size ppos count, EnvSpec.read e count ppos) /\
       env_abs e bp bo blk t0 w') noflt w.
Proof.
  intros (content & Hef & ->) Hpos Hcount.
  destruct (io_size_bound ppos count Hpos Hcount) as (Hn & Hend & _).
  unfold uboot_env_read. rewrite (proj2 (Z.eqb_neq _ _)), (proj2 (Z.leb_gt _ _)) by lia.
  eapply wp_file_open; [exact Hef | done |].
  intros b l w1 Hea1 Hl1 Hbp Hbo Hlen Hi1 Hf1 _. wp_step.
  eapply wp_env_read_held; [exact Hea1 | exact Hl1 | exact Hbp | exact Hbo | exact Hlen |].
  intros w2 Hea2 Hls2 _ _ _ Hm2 _. cbn [truthy Z.eqb negb]. wp_step.
  pose proof (ea_size _ _ _ _ _ _ Hea2) as Hsize.
  unfold copy_to_user. wp_steps. apply wp_not_copied; [apply Hea2 | lia |]. rewrite Z.sub_0_r.
  set (env := take _ content) in *.
  assert (length env = Z.to_nat CONFIG_ENV_SIZE) as Henv by (unfold env; rewrite length_take; lia).
  eapply (wp_load_bytes _ _ (EnvSpec.read env count ppos)).
  { apply peek_Some. exists b, ppos, (env ++ drop (Z.to_nat CONFIG_ENV_SIZE) l).
    split_and!; [reflexivity | exact Hm2 | lia | lia | rewrite length_app; lia |].
    unfold EnvSpec.read. rewrite drop_app_le by lia. rewrite take_app_le; [done|].
    rewrite length_drop. lia. }
  wp_step. eapply (wp_file_exit bp bo blk t0 content); [by apply env_at_calls | | done | done |].
  - unfold lock_state in Hls2. cbn. congruence.
  - intros w3 Hef3 _ _. split; [reflexivity|]. by exists content.
Qed.

Lemma take_splice (e l u : list Z) pos :
  (Z.to_nat pos + length u <= length e)%nat ->
  take (length e) (splice (e ++ l) pos u) = splice e pos u.
Proof.
  intros H. unfold splice. rewrite (take_app_le e l) by lia.
  rewrite drop_app_le by lia. rewrite !app_assoc. apply take_app_length'.
  rewrite !length_app, length_take, length_drop. lia.
Qed.

(** A write up to the point where the bytes are in the buffer. *)
Lemma wp_file_write content user bp bo blk t0 count ppos w (Q : Z * Z -> world D -> Prop) :
  env_file bp bo blk t0 content w -> 0 <= ppos < CONFIG_ENV_SIZE ->
  Z.of_nat (length user) = count -> let n := io_size ppos count in
  (forall b l w', env_at bp bo blk t0 content w' -> w_mem w' !! b = Some l -> b <> bp -> b <> bo ->
     CONFIG_ENV_SIZE <= Z.of_nat (length l) ->
     take (Z.to_nat CONFIG_ENV_SIZE) l =
       EnvSpec.write (take (Z.to_nat CONFIG_ENV_SIZE) content) user count ppos ->
     w_idleflag w' = 1 -> flash (w_chip w') = flash (w_chip w) ->
     w_allow_meta w' = w_allow_meta w -> ops_option (ops_para (w_chip w')) = 0 ->
     wp (amlnf_env_save spin (Ptr b 0) CONFIG_ENV_SIZE)
       (fun ret => wp (amlnand_release_device ;; vfree (Ptr b 0) ;;
                       mret (n, if truthy ret then ppos else ppos + n)) Q noflt) noflt w') ->
  wp (uboot_env_write spin user count ppos) Q noflt w.
Proof.
  intros Hef Hpos Hcount n HQ.
  destruct (io_size_bound ppos count Hpos) as (Hn & Hend & Hle); [lia|]. fold n in Hn, Hend, Hle.
  pose proof CONFIG_ENV_SIZE_eq.
  unfold uboot_env_write. rewrite (proj2 (Z.eqb_neq _ _)), (proj2 (Z.leb_gt _ _)) by lia.
  eapply wp_file_open; [exact Hef | done |].
  intros b l w1 Hea1 Hl1 Hbp Hbo Hlen Hi1 Hf1 Hal1. wp_step.
  eapply wp_env_read_held; [exact Hea1 | exact Hl1 | exact Hbp | exact Hbo | exact Hlen |].
  intros w2 Hea2 Hls2 Hf2 _ Hopt2 Hm2 _. cbn [truthy Z.eqb negb]. wp_step.
  pose proof (ea_size _ _ _ _ _ _ Hea2) as Hsize. fold n.
  unfold copy_from_user. wp_steps. apply wp_not_copied; [apply Hea2 | lia |]. rewrite Z.sub_0_r.
  set (env := take _ content) in *.
  assert (length env = Z.to_nat CONFIG_ENV_SIZE) as Henv by (unfold env; rewrite length_take; lia).
  assert (length (take (Z.to_nat n) user) = Z.to_nat n) as Htake by (rewrite length_take; lia).
  rewrite Htake, Nat.sub_diag. cbn [replicate]. rewrite app_nil_r.
  set (u := take (Z.to_nat n) user) in *. set (l2 := env ++ _) in Hm2.
  assert (CONFIG_ENV_SIZE <= Z.of_nat (length l2)) as Hl2 by (unfold l2; rewrite length_app; lia).
  eapply (wp_env_store bp bo blk t0 content);
    [by apply env_at_calls | exact Hm2 | done | done | lia | lia |].
  intros w3 Hea3 Hm3 Hc3 Hls3 _ _. cbn [w_chip set_w_calls] in Hc3.
  unfold lock_state in *. cbn in Hls3.
  wp_step. eapply wp_mono; [eapply (HQ b); [exact Hea3 | exact Hm3 | done | done | | | | | |]
    | intros ret w4 Hw4; wp_step; exact Hw4 | done].
  - rewrite length_splice; lia.
  - rewrite <- Henv. apply take_splice. lia.
  - congruence.
  - rewrite Hc3. congruence.
  - congruence.
  - by rewrite Hc3.
Qed.

(** C4: Writing it replaces the bytes at the position. *)
Theorem uboot_env_write_refines e user bp bo blk t0 count ppos w :
  env_abs e bp bo blk t0 w -> roomy blk t0 w -> 0 <= ppos < CONFIG_ENV_SIZE ->
  Z.of_nat (length user) = count ->
  wp (uboot_env_write spin user count ppos)
    (fun r w' => r = (io_size ppos count, ppos + io_size ppos count) /\
       env_abs (EnvSpec.write e user count ppos) bp bo blk (next_copy t0 w) w') noflt w.
Proof.
  intros (content & Hef & ->) [R1 R2 R3 R4 R5] Hpos Hcount.
  eapply wp_file_write; [exact Hef | exact Hpos | exact Hcount |].
  intros b l w1 Hea1 Hm1 Hbp Hbo Hl Ht Hi1 Hf1 Hal1 Hopt1.
  eapply wp_env_save_held; [exact Hea1 | | exact Hopt1 | exact Hm1 | done | done | exact Hl |].
  { by split; rewrite ?Hf1, ?Hal1. }
  intros w4 c Hea4 Hc4 Hls4 Hf4 _ _. unfold lock_state in Hls4.
  eapply wp_file_exit; [exact Hea4 | congruence | done | done |].
  intros w5 Hef5 _ _. split; [reflexivity|]. exists c. split; [|by rewrite Hc4].
  replace (next_copy t0 w) with (next_copy t0 w1); [exact Hef5|]. unfold next_copy. by rewrite Hf1.
Qed.

(** With the metadata area closed a write changes nothing, leaves the position,
    and still answers as many bytes as it was asked for. *)
Theorem uboot_env_write_unsaved e user bp bo blk t0 count ppos w :
  env_abs e bp bo blk t0 w -> w_allow_meta w = 0 -> 0 <= ppos < CONFIG_ENV_SIZE ->
  Z.of_nat (length user) = count ->
  wp (uboot_env_write spin user count ppos)
    (fun r w' => r = (io_size ppos count, ppos) /\ env_abs e bp bo blk t0 w') noflt w.
Proof.
  intros (content & Hef & ->) Hallow Hpos Hcount.
  eapply wp_file_write; [exact Hef | exact Hpos | exact Hcount |].
  intros b l w1 Hea1 Hm1 Hbp Hbo Hl _ Hi1 _ Hal1 _.
  eapply wp_env_save_refused; [exact Hea1 | by rewrite Hal1 | exact Hm1 | exact Hl |].
  intros w4 Hea4 Hls4 _. unfold lock_state in Hls4.
  eapply wp_file_exit; [exact Hea4 | congruence | done | done |].
  intros w5 Hef5 _ _. split; [reflexivity|]. by exists content.
Qed.
End DeviceFile.

(** ** Witnesses: the chip of [IdealChip] with pages of 16 KiB, 256 to the
    block, and an environment of sevens in block 4. *)
Module EnvFile.
#[local] Existing Instance IdealChip.hw.
#[local] Existing Instance IdealChip.ops.
#[local] Existing Instance IdealChip.store.
Abbreviation D := (gmap (Z * Z) (list Z * list Z)).

Definition page : Z := 16384.
Definition sevens : list Z := replicate (Z.to_nat CONFIG_ENV_SIZE) 7.
Definition fl : nand_flash := mk_flash page 1048576 4194304 1280 1 0 0 0 0 0 [].
Definition copy (k : Z) : list Z * list Z :=
  (info_page page sevens k, oobinfo ENV_INFO_HEAD_MAGIC 1).
Definition pages : D :=
  <[(0, 1024) := copy 0]> (<[(0, 1025) := copy 1]>
    (<[(0, 1026) := copy 2]> (<[(0, 1027) := copy 3]> ∅))).
Definition the_chip : amlnand_chip :=
  set_state CHIP_READY (set_flash fl (set_controller (set_chip_num 1 ctl0)
    (set_user_page_buf (Ptr 1 0) (set_user_oob_buf (Ptr 2 0)
      (set_reserved_blk (replicate 48 255)
        (set_uboot_env (mk_arg FULL_PAGE 4 0 0 1 1 0) chip0)))))).
Definition start : world D :=
  set_w_brk 3 (set_w_allow_meta 1
    (set_w_mem (<[1 := replicate (Z.to_nat page) 0]> (<[2 := replicate 8 0]> ∅))
      (set_w_chip the_chip (world0 pages)))).

Lemma start_stored k :
  0 <= k -> k * page < CONFIG_ENV_SIZE -> pages !! (0, 1024 + k) = Some (copy k).
Proof.
  intros H0 H. change page with 16384 in H. rewrite CONFIG_ENV_SIZE_eq in H.
  assert (k = 0 \/ k = 1 \/ k = 2 \/ k = 3) as [-> | [-> | [-> | ->]]] by lia; unfold pages;
    repeat (rewrite lookup_insert_eq || rewrite lookup_insert_ne by (intros [=])); reflexivity.
Qed.

Lemma start_file : env_file 1 2 4 0 sevens start.
Proof.
  split; [done|]. split.
  - split; [done|]. intros b Hb. change (3 <= b) in Hb. cbn [w_mem driven start set_w_chip set_w_brk set_w_mem set_w_allow_meta].
    rewrite !lookup_insert_ne by lia. done.
  - split; [discriminate | cbn; lia | reflexivity | lia | |].
    + exists 0, (replicate (Z.to_nat page) 0). split; [reflexivity|].
      apply peek_Some. exists 1, 0, (replicate (Z.to_nat page) 0).
      split_and!; [reflexivity | apply lookup_insert_eq | lia | apply Z.lt_le_incl; reflexivity | |].
      * rewrite length_replicate. change (pagesize _) with page. unfold page. lia.
      * change (Z.to_nat 0) with 0%nat. rewrite drop_0, take_ge; [done|].
        rewrite length_replicate. done.
    + do 2 eexists. split; [reflexivity|]. vm_compute. reflexivity.
  - repeat split.
  - reflexivity.
  - unfold sevens. rewrite length_replicate. pose proof CONFIG_ENV_SIZE_eq. lia.
  - exists 1. intros f k H0 H. change (pagesize f) with page in H.
    change (page_of (driven CHIP_READING start) (u16 (reserved_start f)) (pages_of_block f) 4 (0 + k))
      with (0, u32 (0 + k + 1024)).
    replace (u32 (0 + k + 1024)) with (1024 + k); [by apply start_stored|].
    unfold page in H. rewrite CONFIG_ENV_SIZE_eq in H. unfold u32. rewrite Z.mod_small; lia.
Qed.

Lemma start_abs : env_abs sevens 1 2 4 0 start.
Proof.
  exists sevens. split; [apply start_file|].
  rewrite take_ge; [done|]. unfold sevens. by rewrite length_replicate.
Qed.

Lemma start_roomy : roomy 4 0 start.
Proof.
  assert (arg_pages_of CONFIG_ENV_SIZE (pagesize (flash (w_chip start))) = 5) as Ha
    by (rewrite CONFIG_ENV_SIZE_eq; vm_compute; reflexivity).
  split; rewrite ?Ha; [discriminate | lia | vm_compute; discriminate | lia | lia].
Qed.

Example uboot_env_read_refines_witness :
  wp (uboot_env_read 100 65500)
    (fun r w' => r = (36, 65536, EnvSpec.read sevens 100 65500) /\ env_abs sevens 1 2 4 0 w')
    noflt start.
Proof.
  assert (io_size 65500 100 = 36) as E by (unfold io_size; by rewrite CONFIG_ENV_SIZE_eq).
  pose proof (uboot_env_read_refines sevens 1 2 4 0 100 65500 start start_abs) as H.
  rewrite E in H. apply H; [rewrite CONFIG_ENV_SIZE_eq; lia | lia].
Defined.

Example uboot_env_write_refines_witness :
  wp (uboot_env_write 60 [1; 2; 3] 3 65534)
    (fun r w' => r = (2, 65536) /\ env_abs (EnvSpec.write sevens [1; 2; 3] 3 65534) 1 2 4 10 w') noflt start.
Proof.
  assert (io_size 65534 3 = 2) as E by (unfold io_size; by rewrite CONFIG_ENV_SIZE_eq).
  assert (next_copy 0 start = 10) as En.
  { unfold next_copy. rewrite CONFIG_ENV_SIZE_eq. vm_compute. reflexivity. }
  pose proof (uboot_env_write_refines 60 sevens [1; 2; 3] 1 2 4 0 3 65534 start start_abs
    start_roomy) as H.
  rewrite E, En in H. apply H; [rewrite CONFIG_ENV_SIZE_eq; lia | reflexivity].
Defined.


(** The metadata area as it is when the driver is loaded: closed. *)
Example uboot_env_write_unsaved_witness :
  wp (uboot_env_write 60 [1; 2; 3] 3 65534)
    (fun r w' => r = (2, 65534) /\ env_abs sevens 1 2 4 0 w') noflt (set_w_allow_meta 0 start).
Proof.
  assert (io_size 65534 3 = 2) as E by (unfold io_size; by rewrite CONFIG_ENV_SIZE_eq).
  pose proof (uboot_env_write_unsaved 60 sevens [1; 2; 3] 1 2 4 0 3 65534
    (set_w_allow_meta 0 start)) as H.
  rewrite E in H. apply H; [ | reflexivity | rewrite CONFIG_ENV_SIZE_eq; lia | reflexivity].
  destruct start_abs as (c & [Hun Hea] & Hc). exists c. split; [|exact Hc].
  split; [exact Hun|]. apply (env_at_ext _ _ _ _ _ (driven CHIP_READING start));
    [reflexivity.. | split; apply Hea | | exact Hea].
  apply (usable_ext (driven CHIP_READING start)); [reflexivity.. | apply Hea].
Defined.
End EnvFile.
