(* ===== verification/Keys.v ===== *)
(** * Keys: [dev/nandkey.c], [dev/secure_storage.c] and [dev/key_secure_stubs.c].

    Keys and the secure storage are items of the metadata area, read and written
    whole.  The Makefile links the stubs in their place; the two files are
    modelled as they stand, against the key provider of
    [include/amlnf_compat.h]. *)
From S2P Require Import Prelude NfcWords Data Machine Guards Ctrl HwController ChipOp ChipEnv PageStore UbootEnv.

#[local] Arguments peek : simpl never.
#[local] Arguments poke : simpl never.

Definition KEY_INFO_HEAD_MAGIC : list Z := ascii4 "nkey".
Definition SECURE_INFO_HEAD_MAGIC : list Z := ascii4 "nsec".
Definition CONFIG_KEYSIZE : Z := 0x1000.
(** [CONFIG_KEYSIZE - sizeof(uint32_t)], an unsigned number. *)
Definition KEYSIZE : Z := CONFIG_KEYSIZE - 4.
Definition CONFIG_SECURE_SIZE : Z := 0x10000 * 2.
(** [data] in [struct nand_menson_key]. *)
Definition OFF_key_data : Z := 4.

Section Keys.
Context {D : Type} `{!NandHw D} `{!ChipOperation D} (spin : nat).

(** ** Keys *)

(** [key_buf] starts as NULL, so [key_ptr] is never looked at; the result is 0
    unless there is no memory. *)
Definition aml_nand_update_key (key_ptr : ptr) : act D Z :=
  key_buf ← kzalloc CONFIG_KEYSIZE;
  if is_null key_buf then mret (- ENOMEM)
  else
    memset key_buf 0 CONFIG_KEYSIZE ;;
    ret ← amlnand_read_info_by_name Key key_buf KEY_INFO_HEAD_MAGIC CONFIG_KEYSIZE;
    when_ (negb (truthy ret))
      (ret ← amlnand_save_info_by_name spin Key key_buf KEY_INFO_HEAD_MAGIC CONFIG_KEYSIZE;
       mret tt) ;;
    kfree key_buf ;;
    mret 0.

(** [len > KEYSIZE] compares unsigned numbers.  An error of the read is
    forgotten. *)
Definition nand_key_read (buf : ptr) (len : Z) : act D Z :=
  if KEYSIZE <? u32 len then mret (- EFAULT)
  else
    key_ptr ← kzalloc CONFIG_KEYSIZE;
    if is_null key_ptr then mret (- ENOMEM)
    else
      e ← amlnand_get_device CHIP_READING;
      memset key_ptr 0 CONFIG_KEYSIZE ;;
      error ← amlnand_read_info_by_name Key key_ptr KEY_INFO_HEAD_MAGIC CONFIG_KEYSIZE;
      when_ (negb (truthy error)) (memcpy buf (ptr_add key_ptr OFF_key_data) (u32 len)) ;;
      amlnand_release_device ;;
      kfree key_ptr ;;
      mret 0.

Definition nand_key_write (buf : ptr) (len : Z) : act D Z :=
  if KEYSIZE <? u32 len then mret (- EFAULT)
  else
    key_ptr ← kzalloc CONFIG_KEYSIZE;
    if is_null key_ptr then mret (- ENOMEM)
    else
      memset key_ptr 0 CONFIG_KEYSIZE ;;
      memcpy (ptr_add key_ptr OFF_key_data) buf (u32 len) ;;
      e ← amlnand_get_device CHIP_WRITING;
      error ← amlnand_save_info_by_name spin Key key_ptr KEY_INFO_HEAD_MAGIC CONFIG_KEYSIZE;
      amlnand_release_device ;;
      kfree key_ptr ;;
      mret (if truthy error then - EFAULT else error).

(** The provider of [include/amlnf_compat.h]: there is none, and registering one
    does nothing. *)
Definition aml_keybox_provider_get : act D ptr := mret Null.
Definition aml_keybox_provider_register : act D Z := mret 0.

(** The result of the registration takes the place of [amlnand_info_init]'s; a
    provider that is there already ends the function with the buffer still
    allocated. *)
Definition aml_key_init : act D Z :=
  key_ptr ← kmalloc CONFIG_KEYSIZE;
  if is_null key_ptr then mret (-1)
  else
    memset key_ptr 0 CONFIG_KEYSIZE ;;
    ret ← amlnand_info_init Key key_ptr KEY_INFO_HEAD_MAGIC CONFIG_KEYSIZE;
    provider ← aml_keybox_provider_get;
    if negb (is_null provider) then mret ret
    else
      ret ← aml_keybox_provider_register;
      (if truthy ret then throw BugHit else mret tt) ;;
      kfree key_ptr ;;
      mret ret.

(** ** Secure storage *)

(** [malloc_flag] is never set: the buffer is not freed. *)
Definition aml_nand_update_secure (secure_ptr : ptr) : act D Z :=
  secure_buf ← kzalloc CONFIG_SECURE_SIZE;
  if is_null secure_buf then mret (- ENOMEM)
  else
    memset secure_buf 0 CONFIG_SECURE_SIZE ;;
    ret ← amlnand_read_info_by_name Secure secure_buf SECURE_INFO_HEAD_MAGIC CONFIG_SECURE_SIZE;
    when_ (negb (truthy ret))
      (ret ← amlnand_save_info_by_name spin Secure secure_buf SECURE_INFO_HEAD_MAGIC
               CONFIG_SECURE_SIZE;
       mret tt) ;;
    mret 0.

(** Here [len] is compared as a signed number, and copied as an unsigned one. *)
Definition nand_secure_read (buf : ptr) (len : Z) : act D Z :=
  if CONFIG_SECURE_SIZE <? len then mret (- EFAULT)
  else
    secure_ptr ← kzalloc CONFIG_SECURE_SIZE;
    if is_null secure_ptr then mret (- ENOMEM)
    else
      e ← amlnand_get_device CHIP_READING;
      memset secure_ptr 0 CONFIG_SECURE_SIZE ;;
      error ← amlnand_read_info_by_name Secure secure_ptr SECURE_INFO_HEAD_MAGIC CONFIG_SECURE_SIZE;
      when_ (negb (truthy error)) (memcpy buf secure_ptr (u32 len)) ;;
      amlnand_release_device ;;
      kfree secure_ptr ;;
      mret (if truthy error then - EFAULT else error).

Definition nand_secure_write (buf : ptr) (len : Z) : act D Z :=
  if CONFIG_SECURE_SIZE <? len then mret (- EFAULT)
  else
    secure_ptr ← kzalloc CONFIG_SECURE_SIZE;
    if is_null secure_ptr then mret (- ENOMEM)
    else
      memset secure_ptr 0 CONFIG_SECURE_SIZE ;;
      memcpy secure_ptr buf (u32 len) ;;
      e ← amlnand_get_device CHIP_WRITING;
      error ← amlnand_save_info_by_name spin Secure secure_ptr SECURE_INFO_HEAD_MAGIC
                CONFIG_SECURE_SIZE;
      amlnand_release_device ;;
      kfree secure_ptr ;;
      mret (if truthy error then - EFAULT else error).

Definition aml_secure_init : act D Z :=
  secure_ptr ← kmalloc CONFIG_SECURE_SIZE;
  if is_null secure_ptr then mret (-1)
  else
    memset secure_ptr 0 CONFIG_SECURE_SIZE ;;
    ret ← amlnand_info_init Secure secure_ptr SECURE_INFO_HEAD_MAGIC CONFIG_SECURE_SIZE;
    kfree secure_ptr ;;
    mret ret.

(** [len] is an [unsigned int], handed on as an [int]. *)
Definition secure_storage_nand_read (buf : ptr) (len : Z) : act D Z :=
  nand_secure_read buf (s32 len).
Definition secure_storage_nand_write (buf : ptr) (len : Z) : act D Z :=
  nand_secure_write buf (s32 len).

End Keys.

(** ** The stubs that are linked *)
Module Stubs.
Definition aml_key_init {D} : act D Z := mret 0.
Definition aml_secure_init {D} : act D Z := mret 0.
Definition aml_nand_update_key {D} (key_ptr : ptr) : act D Z := mret 0.
Definition aml_nand_update_secure {D} (secure_ptr : ptr) : act D Z := mret 0.
End Stubs.

(** ** Frames *)
Section KeyFrames.
Context {D : Type} `{!NandHw D} `{ops : !ChipOperation D} (spin : nat).
Context (R : world D -> world D -> Prop) `{!CmdFrame R} `{!ChipFrame R} `{!OpsRespect R ops}.

Lemma respects_update_key p : respects R (aml_nand_update_key spin p).
Proof. unfold aml_nand_update_key. op_respects. Qed.
Lemma respects_key_read p n : respects R (nand_key_read p n).
Proof. unfold nand_key_read. op_respects. Qed.
Lemma respects_key_write p n : respects R (nand_key_write spin p n).
Proof. unfold nand_key_write. op_respects. Qed.
Lemma respects_key_init : respects R aml_key_init.
Proof. unfold aml_key_init, aml_keybox_provider_get, aml_keybox_provider_register. op_respects. Qed.
Lemma respects_update_secure p : respects R (aml_nand_update_secure spin p).
Proof. unfold aml_nand_update_secure. op_respects. Qed.
Lemma respects_secure_read p n : respects R (nand_secure_read p n).
Proof. unfold nand_secure_read. op_respects. Qed.
Lemma respects_secure_write p n : respects R (nand_secure_write spin p n).
Proof. unfold nand_secure_write. op_respects. Qed.
Lemma respects_secure_init : respects R aml_secure_init.
Proof. unfold aml_secure_init. op_respects. Qed.
End KeyFrames.
#[export] Hint Resolve respects_update_key respects_key_read respects_key_write respects_key_init
  respects_update_secure respects_secure_read respects_secure_write respects_secure_init : respects.

(** ** A key is read back *)
#[local] Opaque CONFIG_KEYSIZE.
Lemma CONFIG_KEYSIZE_eq : CONFIG_KEYSIZE = 4096.
Proof. reflexivity. Qed.

Section KeyStore.
Context {D : Type} `{!NandHw D} `{ops : !ChipOperation D} `{!PageStore ops} (spin : nat).
Implicit Types w : world D.

(** The device is free, and the key's last copy is at page [t0] of block
    [blk]. *)
Record key_at (bp bo blk t0 : Z) w : Prop := {
  ka_unlocked : unlocked w;
  ka_serving : serving w;
  ka_usable : usable (driven CHIP_WRITING w) bp bo;
  ka_place : appendable Key blk t0 w;
  ka_mlc : slc_type (new_type (flash (w_chip w))) = false
}.

(** ... with room for two more of them. *)
Record key_room (blk t0 : Z) w : Prop := {
  kr_allow : w_allow_meta w <> 0;
  kr_option : has (ops_option (ops_para (w_chip w))) DEV_SLC_MODE = false;
  kr_start : 0 <= t0;
  kr_room : t0 + 3 * arg_pages_of CONFIG_KEYSIZE (pagesize (flash (w_chip w)))
            <= pages_of_block (flash (w_chip w));
  kr_fit : t0 + 2 * arg_pages_of CONFIG_KEYSIZE (pagesize (flash (w_chip w))) < 2 ^ 16;
  kr_blk : 0 <= blk < 2 ^ 16;
  (* the key does not fill its pages *)
  kr_page : CONFIG_KEYSIZE mod pagesize (flash (w_chip w)) <> 0
}.

Definition key_stored (blk t0 : Z) (content : list Z) w : Prop :=
  exists stamp, let fl := flash (w_chip w) in
    stored w (pagesize fl) (u16 (reserved_start fl)) (pages_of_block fl) blk t0 content
      (oobinfo KEY_INFO_HEAD_MAGIC stamp) CONFIG_KEYSIZE.

(** [struct nand_menson_key] around a key. *)
Definition key_record (key : list Z) : list Z :=
  splice (replicate (Z.to_nat CONFIG_KEYSIZE) 0) OFF_key_data key.

Lemma length_key_record key :
  Z.of_nat (length key) <= KEYSIZE -> Z.of_nat (length (key_record key)) = CONFIG_KEYSIZE.
Proof.
  unfold KEYSIZE. pose proof CONFIG_KEYSIZE_eq. intros. unfold key_record.
  rewrite length_splice, length_replicate; unfold OFF_key_data; rewrite ?length_replicate; lia.
Qed.

Lemma key_buffers bp bo blk t0 w :
  key_at bp bo blk t0 w -> bp < w_brk w /\ bo < w_brk w.
Proof.
  intros Hk. apply (usable_lt (driven CHIP_WRITING w) bp bo); [|apply Hk].
  destruct (ka_serving _ _ _ _ _ Hk). by split.
Qed.

(** Worlds that differ in memory nobody of the key's looks at. *)
Lemma key_at_ext bp bo blk t0 w w' :
  w_chip w' = w_chip w -> w_mutex w' = w_mutex w -> serving w' ->
  w_mem w' !! bp = w_mem w !! bp -> w_mem w' !! bo = w_mem w !! bo ->
  key_at bp bo blk t0 w -> key_at bp bo blk t0 w'.
Proof.
  intros Hc Hm Hs Hbp Hbo [[H1 H2] _ Hu Hp Hmlc]. split; [by split; congruence | done | | | congruence].
  - apply (usable_ext (driven CHIP_WRITING w)); [cbn; by rewrite Hc | done..].
  - unfold appendable, placed in *. by rewrite Hc.
Qed.

Lemma key_page_total w :
  CONFIG_KEYSIZE mod pagesize (flash (w_chip w)) <> 0 ->
  total_of CONFIG_KEYSIZE (pagesize (flash (w_chip w))) = CONFIG_KEYSIZE.
Proof. intros H. unfold total_of. by rewrite (proj2 (Z.eqb_neq _ _)). Qed.

(** The key, put into a record of its own. *)
Lemma wp_key_stage {A} bp bo blk t0 b o len key w (X : act D A) k (Q : A -> world D -> Prop) :
  key_at bp bo blk t0 w -> peek (w_mem w) (Ptr b o) len = Some key -> len <= KEYSIZE ->
  (forall w', key_at bp bo blk t0 w' -> w_chip w' = w_chip w -> w_dev w' = w_dev w ->
     w_allow_meta w' = w_allow_meta w -> w_brk w' = w_brk w + 1 ->
     w_mem w' = <[w_brk w := key_record key]> (w_mem w) ->
     wp (k (Ptr (w_brk w) 0)) Q noflt w') ->
  wp (p ← kzalloc CONFIG_KEYSIZE; if is_null p then X else
      memset p 0 CONFIG_KEYSIZE ;; memcpy (ptr_add p OFF_key_data) (Ptr b o) len ;; k p) Q noflt w.
Proof.
  intros Hka Hkey Hlen HQ. destruct (key_buffers _ _ _ _ _ Hka) as [Hbp Hbo].
  pose proof (peek_length _ _ _ _ Hkey) as Hl. pose proof (ka_serving _ _ _ _ _ Hka) as Hs.
  assert (0 <= len) as H0 by (apply peek_Some in Hkey as (?&?&?&_&_&_&?&_); lia).
  assert (b <> w_brk w) as Hb.
  { apply peek_Some in Hkey as (? & ? & a & [= <- <-] & Ha & _). pose proof (fresh_lt _ _ _ Hs Ha). lia. }
  pose proof CONFIG_KEYSIZE_eq as HN. unfold KEYSIZE in Hlen.
  set (z := replicate (Z.to_nat CONFIG_KEYSIZE) 0).
  wp_step. apply wp_kzalloc; [exact Hs|]. fold z. intros w1 Hb1 Hs1 Hk1 Hm1. cbn [is_null].
  unfold base in Hb1. injection Hb1 as Ec Ed Em Ei Eo Eal. wp_step. unfold memset. change (u8 0) with 0.
  fold z. apply (wp_store_at _ z); [by rewrite Hm1, lookup_insert_eq | done |].
  rewrite drop_ge, app_nil_r, Hm1, insert_insert_eq by done.
  wp_step. unfold memcpy, OFF_key_data. wp_steps. cbn [ptr_add].
  eapply wp_load_bytes.
  { cbn [w_mem set_w_mem]. erewrite <- Hkey. unfold peek. rewrite lookup_insert_ne by congruence. done. }
  eapply wp_store_bytes.
  { apply poke_Some. exists (w_brk w), (0 + 4), z. cbn [w_mem set_w_mem]. rewrite lookup_insert_eq.
    assert (length z = Z.to_nat CONFIG_KEYSIZE) by (unfold z; by rewrite length_replicate).
    split; [reflexivity|]. split; [reflexivity|]. split; [lia|]. split; [lia | reflexivity]. }
  cbn [w_mem set_w_mem]. rewrite insert_insert_eq. fold (key_record key).
  apply HQ; cbn; try done. apply (key_at_ext _ _ _ _ w); cbn; try done.
  - destruct Hs1 as [Ho1 Hf1]. split; [done|]. intros x Hx. cbn in Hx |- *.
    rewrite lookup_insert_ne by lia. apply Hs. lia.
  - rewrite lookup_insert_ne; [done | lia].
  - rewrite lookup_insert_ne; [done | lia].
Qed.

Lemma wp_key_write bp bo blk t0 b o len key w (Q : Z -> world D -> Prop) :
  let t := t0 + 2 * arg_pages_of CONFIG_KEYSIZE (pagesize (flash (w_chip w))) in
  key_at bp bo blk t0 w -> key_room blk t0 w ->
  peek (w_mem w) (Ptr b o) len = Some key -> len <= KEYSIZE ->
  (forall w', key_at bp bo blk t w' -> key_stored blk t (key_record key) w' ->
     w_brk w <= w_brk w' ->
     (forall b', b' <> bp -> b' <> bo -> w_mem w' !! b' = w_mem w !! b') -> Q 0 w') ->
  wp (nand_key_write spin (Ptr b o) len) Q noflt w.
Proof.
  intros t Hka [Hallow Hopt Hpos Hroom Hfit Hblk Hpage] Hkey Hlen HQ.
  pose proof CONFIG_KEYSIZE_eq as HN. pose proof (peek_length _ _ _ _ Hkey) as Hl.
  assert (0 <= len) as H0 by (apply peek_Some in Hkey as (?&?&?&_&_&_&?&_); lia).
  pose proof (length_key_record key) as Hlr. pose proof (ka_serving _ _ _ _ _ Hka) as Hs.
  destruct (key_buffers _ _ _ _ _ Hka) as [Hbp Hbo]. unfold KEYSIZE in *.
  unfold nand_key_write, KEYSIZE. replace (u32 len) with len by (unfold wrap; rewrite Z.mod_small; lia).
  rewrite (proj2 (Z.ltb_ge _ _)) by lia.
  eapply (wp_key_stage bp bo blk t0); [done.. |]. intros w1 Hka1 Hc1 Hd1 Ha1 Hk1 Hm1.
  set (k := w_brk w) in *. wp_step.
  apply wp_take; [apply Hka1 | intros n; by rewrite (se_oracle _ (ka_serving _ _ _ _ _ Hka1)) |].
  intros w2 Hc2 Hr2 Hi2. destruct (rest_inv _ _ Hr2) as (Hd2 & Hm2 & Hb2 & Ho2 & Ha2).
  assert (flash (w_chip w2) = flash (w_chip w)) as Ef2 by (rewrite Hc2, Hc1; done).
  wp_step. eapply wp_mono; [apply (wp_save_appends spin Key KEY_INFO_HEAD_MAGIC CONFIG_KEYSIZE
    blk t0 bp bo k 0 (key_record key)) | | done].
  { split; rewrite ?Ef2, ?key_page_total by done; try lia.
    - split.
      + apply (usable_ext (driven CHIP_WRITING w1)); [done | by rewrite Hm2.. | apply Hka1].
      + pose proof (ka_place _ _ _ _ _ Hka1) as Hp. unfold appendable, placed in *. by rewrite Hc2.
      + apply peek_Some. exists k, 0, (key_record key). rewrite Hm2, Hm1, lookup_insert_eq, Hlr by lia.
        split_and!; try done; try lia. by rewrite drop_0, take_ge by lia.
    - apply Hka.
    - by rewrite Hc2, Hc1. }
  { reflexivity. }
  rewrite Ef2. fold t. rewrite key_page_total by done.
  intros r w3 (-> & [Hu3 Hap3 _] & Hg3 & Ho3 & stamp & Hst3). wp_step.
  pose proof (geometry_flash _ _ Hg3) as Ef3.
  apply wp_give; [unfold geometry in Hg3; simplify_eq; congruence|].
  intros w4 Hc4 Hr4 Hun4. destruct (rest_inv _ _ Hr4) as (Hd4 & Hm4 & Hb4 & Ho4 & Ha4).
  unfold kfree. wp_steps. cbn [truthy Z.eqb negb].
  assert (flash (w_chip w4) = flash (w_chip w)) as Ef4 by (rewrite Hc4; cbn; congruence).
  assert (w_brk w4 = k + 1 /\ w_oracle w4 = w_oracle w1) as [Hk4 Hor4].
  { unfold geometry in Hg3. simplify_eq. split; congruence. }
  assert (forall b', b' <> k -> b' <> bp -> b' <> bo -> w_mem w4 !! b' = w_mem w !! b') as Hm.
  { intros. rewrite Hm4, Ho3, Hm2, Hm1, lookup_insert_ne by congruence. done. }
  apply HQ; cbn; try lia.
  - split; cbn.
    + exact Hun4.
    + split; cbn; [intros n; rewrite Hor4; apply (ka_serving _ _ _ _ _ Hka1)|].
      intros x Hx. rewrite lookup_delete_ne, Hm by lia. apply Hs. lia.
    + apply (usable_ext (driven CHIP_WRITING w4)); cbn; try done; try (apply lookup_delete_ne; lia).
      destruct Hu3 as [_ ? ? ? ? ?]. split; cbn; rewrite ?Hc4, ?Hm4; cbn; done.
    + unfold appendable, placed in *. cbn. by rewrite Hc4.
    + rewrite Ef4. apply Hka.
  - exists stamp. cbn. rewrite Ef4. intros i ??. cbn [w_dev set_w_mem]. rewrite Hd4.
    etransitivity; [|by apply (Hst3 i)]. f_equal. unfold page_of. cbn. rewrite Hc4. done.
  - intros b' ??. destruct (decide (b' = k)) as [->|]; [|by rewrite lookup_delete_ne, Hm by done].
    rewrite lookup_delete_eq. symmetry. apply Hs. lia.
Qed.

Lemma usable_driven s w w' bp bo :
  usable (driven CHIP_WRITING w) bp bo -> w_chip w' = set_state s (w_chip w) -> s <> CHIP_READY ->
  w_mem w' !! bp = w_mem w !! bp -> w_mem w' !! bo = w_mem w !! bo -> usable w' bp bo.
Proof.
  intros [_ ? ? ? (o1 & l1 & E1 & P1) (o2 & l2 & E2 & P2)] Hc Hs Hbp Hbo.
  split; rewrite ?Hc; cbn in *; try done.
  - exists o1, l1. split; [done|]. unfold peek in *. by rewrite Hbp.
  - exists o2, l2. split; [done|]. unfold peek in *. by rewrite Hbo.
Qed.

Lemma take_key_record key :
  Z.of_nat (length key) <= KEYSIZE -> take (length key) (drop 4 (key_record key)) = key.
Proof.
  intros H. unfold key_record. apply (splice_inside _ OFF_key_data).
  - done.
  - rewrite length_replicate. unfold KEYSIZE, OFF_key_data in *. pose proof CONFIG_KEYSIZE_eq. lia.
Qed.

Lemma wp_key_read bp bo blk t0 b o len key old w :
  key_at bp bo blk t0 w -> key_stored blk t0 (key_record key) w ->
  Z.of_nat (length key) = len -> len <= KEYSIZE ->
  peek (w_mem w) (Ptr b o) len = Some old -> b <> bp -> b <> bo ->
  wp (nand_key_read (Ptr b o) len)
    (fun r w' => r = 0 /\ unlocked w' /\ peek (w_mem w') (Ptr b o) len = Some key) noflt w.
Proof.
  intros Hka [stamp Hst] Hl Hlen Hold Hbp Hbo. cbv zeta in Hst.
  pose proof CONFIG_KEYSIZE_eq as HN. pose proof (length_key_record key) as Hlr.
  pose proof (take_key_record key) as Htk. pose proof (ka_serving _ _ _ _ _ Hka) as Hs.
  destruct (key_buffers _ _ _ _ _ Hka) as [Hkp Hko]. unfold KEYSIZE in *.
  assert (b < w_brk w) as Hb.
  { apply peek_Some in Hold as (? & ? & a & [= <- <-] & Ha & _). by eapply fresh_lt. }
  unfold nand_key_read, KEYSIZE. replace (u32 len) with len by (unfold wrap; rewrite Z.mod_small; lia).
  rewrite (proj2 (Z.ltb_ge _ _)) by lia. set (k := w_brk w) in *. wp_step.
  set (z := replicate (Z.to_nat CONFIG_KEYSIZE) 0).
  assert (length z = Z.to_nat CONFIG_KEYSIZE) as Hz by (unfold z; by rewrite length_replicate).
  apply wp_kzalloc; [exact Hs|]. fold z k. intros w1 Hb1 Hs1 Hk1 Hm1. cbn [is_null].
  unfold base in Hb1. injection Hb1 as Ec Ed Em Ei Eo Eal. wp_step.
  apply wp_take; [split; rewrite ?Em, ?Ec; apply Hka | intros n; rewrite Eo; by rewrite (se_oracle _ Hs) |].
  intros w2 Hc2 Hr2 Hi2. destruct (rest_inv _ _ Hr2) as (Hd2 & Hm2 & Hb2 & Ho2 & Ha2).
  assert (flash (w_chip w2) = flash (w_chip w)) as Ef2 by (rewrite Hc2, Ec; done).
  wp_step. unfold memset. change (u8 0) with 0. fold z.
  apply (wp_store_at _ z); [by rewrite Hm2, Hm1, lookup_insert_eq | done |].
  rewrite drop_ge, app_nil_r, Hm2, Hm1, insert_insert_eq by done. wp_step.
  assert (forall b', b' <> k -> <[k := z]> (w_mem w) !! b' = w_mem w !! b') as Hne
    by (intros; by rewrite lookup_insert_ne).
  eapply wp_mono; [eapply (wp_read_info_loads Key (Ptr k 0) _ stamp CONFIG_KEYSIZE (key_record key)
    t0 blk _ bp bo k 0 z); [| reflexivity | lia | lia | | lia | reflexivity | |] | | done].
  { eapply usable_driven; [apply Hka | cbn; by rewrite Hc2, Ec | done | by apply Hne; lia..]. }
  { apply peek_Some. exists k, 0, z. cbn. rewrite lookup_insert_eq. split; [reflexivity|]. split; [reflexivity|]. split; [lia|]. split; [lia|]. split; [lia|].
    rewrite drop_0, take_ge by lia. reflexivity. }
  { pose proof (ka_place _ _ _ _ _ Hka) as [Hp _]. unfold placed in *. cbn. by rewrite Hc2, Ec. }
  { cbn. rewrite Ef2. intros i Hn1 Hn2. cbn [w_dev set_w_mem]. rewrite Hd2, Ed.
    etransitivity; [|by apply (Hst i)]. f_equal. unfold page_of. cbn. by rewrite Hc2, Ec. }
  intros r w3 (-> & Hs3 & Hr3 & _ & _ & Hm3 & _). cbn [truthy Z.eqb negb when_].
  destruct (setup_kernel _ _ Hs3) as (_ & Hi3 & Hb3 & Ho3 & _). cbn in Hi3, Hb3, Ho3.
  wp_step. unfold memcpy. wp_step.
  assert (w_mem w3 !! b = w_mem w !! b) as Hb3'.
  { rewrite Hm3 by (congruence || lia). cbn. apply Hne. lia. }
  assert (peek (w_mem w3) (Ptr b o) len = Some old) as Hold3.
  { unfold peek. rewrite Hb3'. exact Hold. }
  eapply wp_load_bytes.
  { cbn [ptr_add]. apply (peek_sub _ (Ptr k 0) CONFIG_KEYSIZE _ OFF_key_data len Hr3); unfold OFF_key_data; lia. }
  rewrite (take_ge (key_record key)) by lia. change (Z.to_nat OFF_key_data) with 4%nat.
  replace (Z.to_nat len) with (length key) by lia. rewrite Htk by lia.
  eapply wp_store; [exact Hold3 | lia |]. intros m Hm. wp_step.
  apply wp_give; [cbn; congruence|]. intros w4 Hc4 Hr4 Hun4.
  destruct (rest_inv _ _ Hr4) as (_ & Hm4 & _). cbn in Hm4. unfold kfree. wp_steps.
  split; [done|]. split; [exact Hun4|]. cbn. rewrite Hm4.
  assert (peek m (Ptr b o) len = Some key) as Hfin.
  { rewrite (peek_poke_prefix _ _ _ _ _ _ Hold3) with (2 := Hm) by lia.
    apply peek_length in Hold3. by rewrite drop_ge, app_nil_r by lia. }
  rewrite <- Hfin. unfold peek. rewrite lookup_delete_ne by lia. done.
Qed.

End KeyStore.

(** ** A flash with pages of 16 KiB and the key's item in block 4 *)
Module KeyFile.
#[local] Existing Instance IdealChip.hw.
#[local] Existing Instance IdealChip.ops.
#[local] Existing Instance IdealChip.store.

Definition the_chip : amlnand_chip :=
  set_nand_key (mk_arg FULL_PAGE 4 0 0 1 1 0) EnvFile.the_chip.
(** The key to write in buffer 5, the place to read it to in buffer 6. *)
Definition start : world EnvFile.D :=
  set_w_brk 7 (set_w_allow_meta 1
    (set_w_mem (<[5 := [11; 22; 33]]> (<[6 := [0; 0; 0]]> (w_mem EnvFile.start)))
      (set_w_chip the_chip (world0 ∅)))).

Lemma start_key : key_at 1 2 4 0 start.
Proof.
  split.
  - done.
  - split; [done|]. intros b Hb. change (7 <= b) in Hb. cbn [w_mem start set_w_brk set_w_allow_meta set_w_mem].
    rewrite !lookup_insert_ne by lia. apply (se_fresh _ (ea_serving _ _ _ _ _ _ (ef_at _ _ _ _ _ _ EnvFile.start_file))).
    change (3 <= b). lia.
  - destruct (ea_usable _ _ _ _ _ _ (ef_at _ _ _ _ _ _ EnvFile.start_file)) as [_ ? ? ? H1 H2].
    by split; [| | | | exact H1 | exact H2].
  - repeat split.
  - reflexivity.
Qed.

Lemma start_room : key_room 4 0 start.
Proof.
  assert (arg_pages_of CONFIG_KEYSIZE (pagesize (flash (w_chip start))) = 1) as Ha
    by (rewrite CONFIG_KEYSIZE_eq; vm_compute; reflexivity).
  split; rewrite ?Ha, ?CONFIG_KEYSIZE_eq; lia || (vm_compute; (reflexivity || discriminate)).
Qed.

End KeyFile.
