(* ===== verification/PhyDev.v ===== *)
(** * PhyDev: [dev/phydev.c] and the power management of [dev/amlnf_ctrl.c],
    the physical devices the flash is cut into.

    A device is a range of the flash with its own way of addressing pages
    (several planes, several chips, or SLC mode).  It reads, writes and erases
    through the chip operations, under the device lock. *)
From S2P Require Import Prelude NfcWords Data Machine Guards Ctrl HwController ChipOp ChipEnv.

#[local] Arguments peek : simpl never.
#[local] Arguments poke : simpl never.

(** ** Constants *)
Definition NAND_HW_ECC : Z := 0.
Definition NAND_SOFT_ECC : Z := 1.
Definition NAND_WRITE_VERIFY : Z := 1.
Definition NAND_CHIP_SLC_MODE : Z := Z.shiftl 1 13.
Definition BOOT_COPY_NUM : Z := 4.
Definition BOOT_PAGES_PER_COPY : Z := 256.
Definition ADJUST_PART_SIZE : Z := 10.
Definition ADJUST_SIZE_NFTL : Z := 8.
Definition ADJUST_BLOCK_NUM : Z := 4.
Definition ONFI_TIMING_ADDR : Z := 1.
Definition DEFAULT_T_REA : Z := 20.
Definition DEFAULT_T_RHOH : Z := 25.
Definition chars (s : string) : list Z :=
  map (fun c => Z.of_N (Ascii.N_of_ascii c)) (String.list_ascii_of_string s).
Definition NAND_BOOT_NAME : list Z := chars "nfboot".
Definition NAND_CODE_NAME : list Z := chars "nfcode".

(** [!strncmp(name, s, strlen(s))], where [name] is a [char[16]]. *)
Definition starts_with (s name : list Z) : bool := bool_decide (take (length s) name = s).

(** ** Data *)

(** [struct phydev_ops]: a request. *)
Record phydev_ops := mk_devops {
  mode : Z;
  addr : Z;
  len : Z;
  retlen : Z;
  devops_ooblen : Z;
  datbuf : ptr;
  oobbuf : ptr
}.
Definition devops0 : phydev_ops := mk_devops 0 0 0 0 0 Null Null.

(** [struct amlnand_phydev]; its function pointers are the functions below. *)
Record amlnand_phydev := mk_phydev {
  name : list Z;
  phydev_option : Z;
  offset : Z;
  size : Z;
  erasesize : Z;
  writesize : Z;
  dev_oobavail : Z;
  erasesize_shift : Z;
  writesize_shift : Z;
  writesize_mask : Z;
  nr_partitions : Z;
  partitions : ptr;
  devops : phydev_ops
}.
Definition eta_phydev (p : amlnand_phydev) : amlnand_phydev := mk_phydev p.(name)
  p.(phydev_option) p.(offset) p.(size) p.(erasesize) p.(writesize) p.(dev_oobavail)
  p.(erasesize_shift) p.(writesize_shift) p.(writesize_mask) p.(nr_partitions) p.(partitions)
  p.(devops).
Definition set_phydev_option (v : Z) (r : amlnand_phydev) : amlnand_phydev :=
  ltac:(set_field (eta_phydev r) (r.(phydev_option)) v).
Definition set_offset (v : Z) (r : amlnand_phydev) : amlnand_phydev :=
  ltac:(set_field (eta_phydev r) (r.(offset)) v).
Definition set_size (v : Z) (r : amlnand_phydev) : amlnand_phydev :=
  ltac:(set_field (eta_phydev r) (r.(size)) v).
Definition set_erasesize (v : Z) (r : amlnand_phydev) : amlnand_phydev :=
  ltac:(set_field (eta_phydev r) (r.(erasesize)) v).
Definition set_writesize (v : Z) (r : amlnand_phydev) : amlnand_phydev :=
  ltac:(set_field (eta_phydev r) (r.(writesize)) v).
Definition set_dev_oobavail (v : Z) (r : amlnand_phydev) : amlnand_phydev :=
  ltac:(set_field (eta_phydev r) (r.(dev_oobavail)) v).
Definition set_erasesize_shift (v : Z) (r : amlnand_phydev) : amlnand_phydev :=
  ltac:(set_field (eta_phydev r) (r.(erasesize_shift)) v).
Definition set_writesize_shift (v : Z) (r : amlnand_phydev) : amlnand_phydev :=
  ltac:(set_field (eta_phydev r) (r.(writesize_shift)) v).
Definition set_writesize_mask (v : Z) (r : amlnand_phydev) : amlnand_phydev :=
  ltac:(set_field (eta_phydev r) (r.(writesize_mask)) v).
Definition set_devops (v : phydev_ops) (r : amlnand_phydev) : amlnand_phydev :=
  ltac:(set_field (eta_phydev r) (r.(devops)) v).
Definition set_retlen (v : Z) (d : phydev_ops) : phydev_ops :=
  mk_devops d.(mode) d.(addr) d.(len) v d.(devops_ooblen) d.(datbuf) d.(oobbuf).
Definition set_addr (v : Z) (d : phydev_ops) : phydev_ops :=
  mk_devops d.(mode) v d.(len) d.(retlen) d.(devops_ooblen) d.(datbuf) d.(oobbuf).

(** C's [p += n] on a pointer that may be NULL: afterwards it is not. *)
Definition bump (p : ptr) (n : Z) : ptr :=
  match p with
  | Null => if n =? 0 then Null else Ptr 0 n
  | Ptr b off => Ptr b (off + n)
  end.

(** Rounds of a loop that goes on by [step] until [n] is reached. *)
Definition rounds (n step : Z) : nat := S (Z.to_nat (n / Z.max 1 step)).

Section PhyDev.
Context {D : Type} `{!NandHw D} `{!ChipOperation D} (spin : nat).

(** ** Addressing *)
Definition slc_addr (p : amlnand_phydev) (type : Z) (pages : list Z) : Z :=
  let real_erase_size := shl32 p.(erasesize) 1 in
  let real_erase_shift := u32 (ffs real_erase_size - 1) in
  let real_page_per_blk := s32 (Z.shiftl 1 (u32 (real_erase_shift - p.(writesize_shift)))) in
  let page_per_blk := s32 (Z.shiftl 1 (u32 (p.(erasesize_shift) - p.(writesize_shift)))) in
  let blk_num_in_dev := s32 (Z.shiftr p.(devops).(addr) p.(erasesize_shift)) in
  let blk_num := s32 (s32 (Z.shiftr p.(offset) real_erase_shift) + blk_num_in_dev) in
  let page_num := s32 (u64 (Z.shiftr p.(devops).(addr) p.(writesize_shift)
                            - blk_num_in_dev * page_per_blk)) in
  if (0 <? type) && (type <? 10) then u32 (blk_num * real_page_per_blk + arr pages page_num)
  else if type =? SANDISK_19NM then u32 (blk_num * real_page_per_blk + Z.shiftl page_num 1)
  else u32 (Z.shiftr (u64 (p.(offset) + p.(devops).(addr))) p.(writesize_shift)).
Definition amlnand_slc_addr_trs (p : amlnand_phydev) : act D Z :=
  c ← gets w_chip;
  mret (slc_addr p c.(flash).(new_type) c.(controller).(slc_info).(pagelist)).

(** [ops_para->page_addr] for flash address [a]. *)
Definition point_to (p : amlnand_phydev) (a : Z) : act D unit :=
  opts ← ops_ ops_option;
  page ← (if has opts DEV_SLC_MODE then amlnand_slc_addr_trs p
          else mret (u32 (Z.shiftr a p.(writesize_shift))));
  upd_ops (set_page_addr page).

(** [if (option & DEV_SERIAL_CHIP_MODE)]: chip by chip.  The mode is [0 << 1],
    so this is never taken.  Most functions shift by the size of a block here,
    not by its logarithm. *)
Definition serial_chip (a shift : Z) : act D unit :=
  opts ← ops_ ops_option;
  when_ (has opts DEV_SERIAL_CHIP_MODE)
    (chips ← ctl_ chip_num;
     n ← mod_ (Z.shiftr a shift) chips;
     upd_ops (set_chipnr (u8 n)) ;;
     controller_select_chip (u8 n) ;; mret tt).

Definition out_of_space (p : amlnand_phydev) : bool :=
  p.(size) <? u64 (p.(devops).(addr) + p.(devops).(len)).
Definition shut_down (p : amlnand_phydev) : bool := has p.(phydev_option) NAND_SHUT_DOWN.

(** What [nand_read] and [nand_write] put into the request. *)
Definition set_request (p : amlnand_phydev) : act D unit :=
  let d := p.(devops) in
  clear_ops ;;
  upd_ops (fun o => set_ooblen d.(devops_ooblen) (set_data_buf d.(datbuf)
    (set_ops_option p.(phydev_option) (set_oob_buf d.(oobbuf) o)))) ;;
  when_ (d.(mode) =? NAND_SOFT_ECC)
    (upd_ops (fun o => set_ops_option (Z.lor o.(ops_option) DEV_ECC_SOFT_MODE) o)).

(** ** Reading and writing
    Each function answers its result and the device with its request. *)
Definition done_with (p : amlnand_phydev) (n : Z) : amlnand_phydev :=
  set_devops (set_retlen (u32 n) p.(devops)) p.

(** One page; the loop variables are [addr] and [readlen], then [ret]. *)
Definition read_one (p : amlnand_phydev) (n : Z) (l : Z * Z * Z) : act D (ctl (Z * Z * Z) Z) :=
  let '(a, readlen, _) := l in
  serial_chip a p.(erasesize) ;;
  point_to p a ;;
  ret ← op_read_page;
  o ← ops_ id;
  if truthy o.(ecc_err) || (ret <? 0) then mret (Break (a, readlen, ret))
  else
    upd_ops (fun o => set_data_buf (bump o.(data_buf) p.(writesize)) o) ;;
    let readlen := u64 (readlen + p.(writesize)) in
    mret (if n <=? readlen then Break (u64 (a + p.(writesize)), readlen, ret)
          else Next (u64 (a + p.(writesize)), readlen, ret)).

Definition nand_read (p : amlnand_phydev) : act D (Z * amlnand_phydev) :=
  let d := p.(devops) in
  if out_of_space p then mret (- NAND_ARGUMENT_FAILURE, p)
  else if (d.(len) =? 0) && (d.(devops_ooblen) =? 0) then mret (0, p)
  else
    e ← amlnand_get_device CHIP_READING;
    set_request p ;;
    let n := if d.(len) =? 0 then p.(writesize) else d.(len) in
    r ← while_ (R := Z) (rounds n p.(writesize)) (fun _ => true) (read_one p n)
          (u64 (p.(offset) + d.(addr)), 0, 0);
    let '(_, readlen, ret) := match r with inl l => l | inr _ => (0, 0, 0) end in
    amlnand_release_device ;;
    o ← ops_ id;
    mret (if ret =? 0 then
            if truthy o.(ecc_err) then NAND_ECC_FAILURE
            else if truthy o.(bit_flip) then - EUCLEAN else ret
          else ret, done_with p readlen).

(** Reads the last page back; only messages depend on what it finds. *)
Definition nand_write_verify (p : amlnand_phydev) : act D unit :=
  verify_buf ← kmalloc (2 * p.(writesize));
  if is_null verify_buf then mret tt
  else
    upd_ops (set_data_buf verify_buf) ;;
    ret ← op_read_page;
    x ← load_bytes verify_buf p.(writesize);
    y ← load_bytes p.(devops).(datbuf) p.(writesize);
    kfree verify_buf.

Definition write_one (p : amlnand_phydev) (n : Z) (l : Z * Z * Z) : act D (ctl (Z * Z * Z) Z) :=
  let '(a, writelen, _) := l in
  serial_chip a p.(erasesize_shift) ;;
  point_to p a ;;
  ret ← op_write_page;
  if ret <? 0 then mret (Break (a, writelen, ret))
  else
    upd_ops (fun o => set_data_buf (bump o.(data_buf) p.(writesize)) o) ;;
    let writelen := u64 (writelen + p.(writesize)) in
    mret (if n <=? writelen then Break (u64 (a + p.(writesize)), writelen, ret)
          else Next (u64 (a + p.(writesize)), writelen, ret)).

Definition nand_write (p : amlnand_phydev) : act D (Z * amlnand_phydev) :=
  let d := p.(devops) in
  if out_of_space p then mret (- NAND_ARGUMENT_FAILURE, p)
  else if (d.(len) =? 0) && (d.(devops_ooblen) =? 0) then mret (0, p)
  else if shut_down p then mret (0, p)
  else
    e ← amlnand_get_device CHIP_WRITING;
    set_request p ;;
    r ← while_ (R := Z) (rounds d.(len) p.(writesize)) (fun _ => true) (write_one p d.(len))
          (u64 (p.(offset) + d.(addr)), 0, 0);
    let '(_, writelen, ret) := match r with inl l => l | inr _ => (0, 0, 0) end in
    debug ← chip debug_flag;
    when_ (has debug NAND_WRITE_VERIFY) (nand_write_verify p) ;;
    amlnand_release_device ;;
    mret (ret, done_with p writelen).

(** ** Erasing *)
Definition set_block_request (p : amlnand_phydev) : act D unit :=
  clear_ops ;; upd_ops (set_ops_option p.(phydev_option)).

Definition erase_one (p : amlnand_phydev) (l : Z * Z * Z) : act D (ctl (Z * Z * Z) Z) :=
  let '(a, eraselen, _) := l in
  point_to p a ;;
  serial_chip a p.(erasesize) ;;
  ret ← op_erase_block;
  if ret <? 0 then mret (Break (a, eraselen, ret))
  else
    let eraselen := u64 (eraselen + p.(erasesize)) in
    mret (if p.(devops).(len) <=? eraselen then Break (u64 (a + p.(erasesize)), eraselen, ret)
          else Next (u64 (a + p.(erasesize)), eraselen, ret)).

Definition nand_erase (p : amlnand_phydev) : act D (Z * amlnand_phydev) :=
  let d := p.(devops) in
  if out_of_space p then mret (- NAND_ARGUMENT_FAILURE, p)
  else if d.(len) =? 0 then mret (0, p)
  else if shut_down p then mret (0, p)
  else
    e ← amlnand_get_device CHIP_ERASING;
    set_block_request p ;;
    r ← while_ (R := Z) (rounds d.(len) p.(erasesize)) (fun _ => true) (erase_one p)
          (u64 (p.(offset) + d.(addr)), 0, 0);
    let '(_, eraselen, ret) := match r with inl l => l | inr _ => (0, 0, 0) end in
    amlnand_release_device ;;
    mret (ret, done_with p eraselen).

(** ** Bad blocks *)

(** What the functions on one block share: [op] on the block at [addr], under
    the lock.  Here [addr == size] passes. *)
Definition on_block (p : amlnand_phydev) (op : act D Z) : act D Z :=
  e ← amlnand_get_device CHIP_READING;
  set_block_request p ;;
  let a := u64 (p.(offset) + p.(devops).(addr)) in
  point_to p a ;;
  serial_chip a p.(erasesize) ;;
  ret ← op;
  amlnand_release_device ;;
  mret ret.
Definition past_end (p : amlnand_phydev) : bool := p.(size) <? p.(devops).(addr).

(** Unlike the others this does not select the chip. *)
Definition nand_block_isbad (p : amlnand_phydev) : act D Z :=
  if past_end p then mret (- NAND_ARGUMENT_FAILURE)
  else if shut_down p then mret 0
  else
    e ← amlnand_get_device CHIP_READING;
    set_block_request p ;;
    let a := u64 (p.(offset) + p.(devops).(addr)) in
    point_to p a ;;
    opts ← ops_ ops_option;
    when_ (has opts DEV_SERIAL_CHIP_MODE)
      (chips ← ctl_ chip_num;
       n ← mod_ (Z.shiftr a p.(erasesize_shift)) chips;
       upd_ops (set_chipnr (u8 n))) ;;
    ret ← op_block_isbad;
    amlnand_release_device ;;
    mret ret.
Definition nand_block_markbad (p : amlnand_phydev) : act D Z :=
  if past_end p then mret (- NAND_ARGUMENT_FAILURE)
  else if shut_down p then mret 0
  else on_block p op_block_markbad.
Definition block_modifybbt (p : amlnand_phydev) (value : Z) : act D Z :=
  if past_end p then mret (- NAND_ARGUMENT_FAILURE)
  else on_block p (op_blk_modify_bbt_chip_op value).
Definition update_bbt (p : amlnand_phydev) : act D Z :=
  if past_end p then mret (- NAND_ARGUMENT_FAILURE) else on_block p op_update_bbt_chip_op.

(** Erase, write, read, erase.  The inner loops go on while the page address
    is not below the length of the request. *)
Definition test_pages (p : amlnand_phydev) (op : act D Z) (failed : chip_ops_para -> Z -> bool)
    : act D (unit + Z) :=
  do_while (R := Z) spin
    (fun _ =>
       ret ← op;
       o ← ops_ id;
       if failed o ret then mret (Return ret)
       else
         upd_ops (fun o => set_page_addr (u32 (o.(page_addr) + p.(writesize))) o) ;;
         o ← ops_ id;
         mret (if p.(devops).(len) <=? o.(page_addr) then Next tt else Break tt))
    (fun _ => true) tt.
Definition test_run (p : amlnand_phydev) : act D Z :=
  tmp_addr ← ops_ page_addr;
  upd_ops (set_data_buf p.(devops).(datbuf)) ;;
  ret ← op_erase_block;
  if ret <? 0 then mret ret
  else
    upd_ops (set_page_addr tmp_addr) ;;
    r ← test_pages p op_write_page (fun _ ret => ret <? 0);
    match r with
    | inr ret => mret ret
    | inl _ =>
        upd_ops (set_page_addr tmp_addr) ;;
        r ← test_pages p op_read_page (fun o ret => truthy o.(ecc_err) || (ret <? 0));
        match r with
        | inr ret => mret ret
        | inl _ => upd_ops (set_page_addr tmp_addr) ;; op_erase_block
        end
    end.
Definition nand_test_block (p : amlnand_phydev) : act D Z :=
  if past_end p then mret (- NAND_ARGUMENT_FAILURE)
  else if shut_down p then mret 0
  else on_block p (test_run p).

(** ** The debug files *)

(** One page (the loop ends after [writesize] bytes) at [off]; the results of
    [block_isbad] and of [op] go into a [size_t].  The loop variables are the
    request's address and [datbuf]. *)
Definition debug_pages (p : amlnand_phydev) (op : amlnand_phydev -> act D (Z * amlnand_phydev))
    (off : Z) : act D (Z * ptr + unit) :=
  do_while (R := unit) spin
    (fun '(a, datbuf) =>
       let q := set_devops (set_addr a p.(devops)) p in
       at_start ← mod_ (u32 a) p.(erasesize);
       bad ← (if at_start =? 0 then nand_block_isbad q else mret 0);
       if truthy bad then mret (Next (u64 (a + p.(erasesize)), datbuf))
       else
         r ← op q;
         mret (Next (u64 (a + p.(writesize)), ptr_add datbuf p.(writesize))))
    (fun '(a, _) => a <? u64 (off + p.(writesize)))
    (p.(devops).(addr), p.(devops).(datbuf)).

(** The pointer that is freed is the one the loop moved on. *)
Definition debug_file (p : amlnand_phydev) (op : amlnand_phydev -> act D (Z * amlnand_phydev))
    (fill off md : Z) (show : bool) (count : Z) : act D Z :=
  datbuf ← kmalloc (2 * p.(writesize));
  if is_null datbuf then mret count
  else
    memset datbuf fill (2 * p.(writesize)) ;;
    let q := set_devops (mk_devops md off p.(writesize) 0 0 datbuf Null) p in
    r ← debug_pages q op off;
    when_ show (l ← load_bytes datbuf (512 * 16); mret tt) ;;
    kfree (match r with inl (_, moved) => moved | inr _ => datbuf end) ;;
    mret count.
Definition nand_page_read (p : amlnand_phydev) (count : Z) : act D Z :=
  debug_file p nand_read 0 0 NAND_HW_ECC true count.
Definition nand_page_write (p : amlnand_phydev) (count : Z) : act D Z :=
  debug_file p nand_write 0xa5 0 NAND_HW_ECC false count.
Definition dump_nand_page (p : amlnand_phydev) (off count : Z) : act D Z :=
  debug_file p nand_read 0 off NAND_SOFT_ECC true count.

(** A local variable: an allocation the kernel is not asked for. *)
Definition on_stack {A} (bs : list Z) (f : ptr -> act D A) : act D A :=
  b ← gets w_brk;
  modify (fun w => set_w_mem (<[b := bs]> w.(w_mem)) (set_w_brk (b + 1) w)) ;;
  a ← f (Ptr b 0);
  kfree (Ptr b 0) ;;
  mret a.

(** [sscanf] stores an [int] in a variable of one byte. *)
Definition verify_nand_page (num count : Z) : act D Z :=
  on_stack [0] (fun off =>
    store32 off num ;;
    v ← load8 off;
    upd_chip (set_debug_flag v) ;;
    mret count).

(** The number the user gives is an index that nothing checks; [total_block + 50]
    is an [int]. *)
Definition show_bbt_table (total_block count : Z) : act D Z :=
  chips ← ctl_ chip_num;
  table ← chip block_status;
  let rounds := if total_block <? s32 (total_block + 50) then 50%nat else 0%nat in
  r ← for_ (R := unit) (Z.to_nat chips) 0
        (fun chipnr _ =>
           r ← for_ (R := unit) rounds 0
                 (fun i _ =>
                    v ← load16 (status_entry table chipnr (total_block + i));
                    mret (Next tt)) tt;
           mret (Next tt)) tt;
  mret count.

(** ** Power management *)
Definition phydev_suspend (p : amlnand_phydev) : act D Z :=
  if starts_with NAND_BOOT_NAME p.(name) then mret 0
  else set_chip_state CHIP_PM_SUSPENDED ;; mret 0.

(** The timing mode set when the chip was found is set again. *)
Definition set_onfi_again : act D unit :=
  onfi ← ctl_ onfi_mode;
  when_ (truthy onfi)
    (r ← on_stack (le_bytes 4 onfi) (fun b => set_onfi_features b ONFI_TIMING_ADDR);
     feature ← on_stack [0; 0; 0; 0] (fun b =>
       get_onfi_features b ONFI_TIMING_ADDR ;; load8 b);
     when_ (negb (feature =? onfi))
       (upd_flash (fun fl => set_T_REA DEFAULT_T_REA (set_T_RHOH DEFAULT_T_RHOH fl)))).

Definition amlchip_resume (p : amlnand_phydev) : act D unit :=
  when_ (starts_with NAND_CODE_NAME p.(name))
    (nand_get_chip ;;
     chips ← ctl_ chip_num;
     r ← for_ (R := unit) (Z.to_nat chips) 0
           (fun i _ => controller_select_chip i ;; ret ← nand_reset i; mret (Next tt)) tt;
     set_onfi_again ;;
     amlnand_release_device).
Definition phydev_resume (p : amlnand_phydev) : act D unit := amlchip_resume p.

(** [amlnf_shutdown] on the devices of the list: from then on they refuse
    writes and erases. *)
Fixpoint amlnf_shutdown (devs : list amlnand_phydev) : act D (list amlnand_phydev) :=
  match devs with
  | [] => mret []
  | p :: devs =>
      e ← amlnand_get_device CHIP_SHUTDOWN;
      amlnand_release_device ;;
      devs ← amlnf_shutdown devs;
      mret (set_phydev_option (Z.lor p.(phydev_option) NAND_SHUT_DOWN) p :: devs)
  end.
End PhyDev.
