(* ===== verification/Boot.v ===== *)
(** * Boot: [phy/boot_operation.c], the boot loader's device file.

    The boot loader is kept four times at the start of the flash, 256 pages
    apart.  The first page of each copy tells the boot ROM how to read the
    others; it is written with settings of its own. *)
From S2P Require Import Prelude NfcWords Data Machine Guards Ctrl HwController ChipOp RetryTables ChipEnv NewNand PageStore UbootEnv PhyDev.

Definition NAND_ECC_UNIT_SHORT : Z := 384.
Definition NAND_BCH60_1K_ECC_SIZE : Z := 106.
Definition NAND_PAGELIST_CNT : Z := 16.

(** ** What a write changes and puts back *)

(** The controller's settings for a page, without the randomiser. *)
Record page_settings := mk_settings {
  st_unit : Z;
  st_bytes : Z;
  st_bch : Z;
  st_user : Z;
  st_limit : Z;
  st_max : Z;
  st_steps : Z
}.
Definition settings_of (h : hw_controller) : page_settings :=
  mk_settings h.(ecc_unit) h.(ecc_bytes) h.(bch_mode) h.(user_mode) h.(ecc_cnt_limit)
    h.(ecc_max) h.(ecc_steps).
Definition set_settings (s : page_settings) (h : hw_controller) : hw_controller :=
  set_ecc_steps s.(st_steps) (set_ecc_max s.(st_max) (set_ecc_cnt_limit s.(st_limit)
    (set_user_mode s.(st_user) (set_bch_mode s.(st_bch)
      (set_ecc_bytes s.(st_bytes) (set_ecc_unit s.(st_unit) h)))))).
(** Those of the first page of a copy. *)
Definition page0_settings (fl : nand_flash) : page_settings :=
  mk_settings NAND_ECC_UNIT_SHORT NAND_BCH60_1K_ECC_SIZE NAND_ECC_BCH_SHORT 2 55 60
    (u16 (u32 (fl.(pagesize) + fl.(oobsize)) / 512)).
Definition page0_size (fl : nand_flash) : Z := u32 (fl.(pagesize) / 512 * NAND_ECC_UNIT_SHORT).

Section Boot.
Context {D : Type} `{!NandHw D} `{!ChipOperation D}.

Definition uboot_set_ran_mode : act D unit := upd_ctl (set_ran_mode 1).

(** ** The first page *)

(** [NFC_CMD_N2M(...)] with the settings of the other pages. *)
Definition boot_command (h : hw_controller) : Z :=
  u32 (word (N2m h.(ran_mode) h.(bch_mode) 0 (Z.shiftr h.(ecc_unit) 3) h.(ecc_steps))).
(** [info_cfg->list]: the pages of an SLC mode block but the first. *)
Definition boot_pagelist (type : Z) (slc_pages : list Z) : list Z :=
  if slc_type type then
    if type <? 10 then take (Z.to_nat NAND_PAGELIST_CNT) (drop 1 slc_pages)
    else map (fun i => 2 * Z.of_nat i) (seq 1 15) ++ [0]
  else zeros (Z.to_nat NAND_PAGELIST_CNT).
Definition boot_ext (type command : Z) : Z :=
  Z.lor (ored [command; Z.shiftl 1 23; Z.shiftl 1 22; Z.shiftl 2 20; Z.shiftl 1 19])
    (if slc_type type
     then Z.lor (Z.shiftl 1 26) (if type =? SANDISK_19NM then Z.shiftl 1 24 else 0) else 0).

(** [struct nand_page0_cfg_t] at the start, [struct nand_page0_info_t] (32
    bytes) before byte 384. *)
Definition nand_boot_info_prepare (page0_buf : ptr) : act D unit :=
  fl ← chip flash;
  h ← chip controller;
  mask ← chip ce_bit_mask;
  pages ← div_ fl.(blocksize) fl.(pagesize);
  let info := ptr_add page0_buf (384 - 32) in
  memset page0_buf 0 fl.(pagesize) ;;
  store32 page0_buf (boot_ext fl.(new_type) (boot_command h)) ;;
  store16 (ptr_add page0_buf 4) 0 ;;
  store16 (ptr_add page0_buf 6) 0 ;;
  store_bytes (ptr_add page0_buf 8) (boot_pagelist fl.(new_type) h.(slc_info).(pagelist)) ;;
  store32 (ptr_add info 16) mask ;;
  store32 info h.(chip_num) ;;
  store32 (ptr_add info 8) pages ;;
  store32 (ptr_add info 4) fl.(new_type).

(** ** Writing the copies *)

(** [devops->datbuf = b] *)
Definition set_datbuf (b : ptr) (p : amlnand_phydev) : amlnand_phydev :=
  let d := p.(devops) in
  set_devops (mk_devops d.(mode) d.(addr) d.(len) d.(retlen) d.(devops_ooblen) b d.(oobbuf)) p.

(** What stays the same while the copies are written. *)
Record boot_job := mk_boot {
  bj_settings : page_settings;
  bj_ran_mode : Z;
  bj_size : Z;
  bj_len : Z;
  bj_pages : Z;
  bj_page0 : ptr;
  bj_fill : ptr
}.

(** HYNIX_1YNM: the pages between the last one used and the next are filled,
    raw, whatever that reports. *)
Definition fill_between (j : boot_job) (at_ previous : Z) (p : amlnand_phydev)
    : act D amlnand_phydev :=
  (r ← for_ (R := unit) (Z.to_nat (at_ - (previous + 1))) (previous + 1)
         (fun page _ =>
            upd_ops (set_data_buf j.(bj_fill)) ;;
            upd_ctl (fun h => set_ran_mode 0 (set_bch_mode NAND_ECC_NONE h)) ;;
            upd_ops (set_page_addr page) ;;
            ret ← op_write_page;
            mret (Next tt)) tt;
   mret tt) ;;
  upd_ops (fun o => set_data_buf p.(devops).(datbuf) (set_page_addr at_ o)) ;;
  upd_ctl (fun h => set_ran_mode j.(bj_ran_mode) (set_settings j.(bj_settings) h)) ;;
  mret (set_writesize j.(bj_size) p).

(** One page; the loop variables are [addr], [writelen], the device and [ret]. *)
Definition boot_round (j : boot_job) (l : Z * Z * amlnand_phydev * Z)
    : act D (ctl (Z * Z * amlnand_phydev * Z) unit) :=
  let '(a, writelen, p, _) := l in
  fl ← chip flash;
  page ← div_ (u32 a) fl.(pagesize);
  let first := page mod BOOT_PAGES_PER_COPY =? 0 in
  let p := if first then set_writesize (page0_size fl) p else p in
  when_ first
    (uboot_set_ran_mode ;;
     upd_ops (set_data_buf j.(bj_page0)) ;;
     upd_ctl (set_settings (page0_settings fl))) ;;
  opts ← ops_ ops_option;
  list ← ctl_ (fun h => h.(slc_info).(pagelist));
  let slc := has opts DEV_SLC_MODE in
  let at_ := if slc then slc_page fl.(new_type) page j.(bj_pages) list else page in
  upd_ops (set_page_addr at_) ;;
  p ← (if (fl.(new_type) =? HYNIX_1YNM_8GB) && (1 <? page mod 256) then
         let previous := Z.lor (Z.land page (not32 (j.(bj_pages) - 1)))
                           (arr list (page mod 256 - 1)) in
         fill_between j at_ previous p
       else mret p);
  when_ (negb first) (upd_ops (set_data_buf p.(devops).(datbuf))) ;;
  ret ← op_write_page;
  if ret <? 0 then mret (Break (a, writelen, p, ret))
  else
    let a := u64 (a + fl.(pagesize)) in
    if first then
      upd_ops (set_data_buf p.(devops).(datbuf)) ;;
      upd_ctl (fun h => set_ran_mode 1 (set_settings j.(bj_settings) h)) ;;
      mret (Next (a, writelen, set_writesize j.(bj_size) p, ret))
    else
      let p := set_datbuf (bump p.(devops).(datbuf) p.(writesize)) p in
      let writelen := u64 (writelen + p.(writesize)) in
      let p := if (p.(devops).(len) <=? writelen) && (writelen <? p.(erasesize))
               then set_datbuf j.(bj_fill) p else p in
      if u64 (j.(bj_len) - fl.(pagesize)) <=? writelen
      then mret (Break (a, writelen, p, ret))
      else
        rest ← mod_ (u32 a) (if slc then Z.shiftr fl.(blocksize) 1 else fl.(blocksize));
        mret (if rest =? 0 then Break (a, writelen, p, ret) else Next (a, writelen, p, ret)).

(** The copies; the loop variables are the number of failed ones, [writelen]
    and the device.  A copy ends with its block at the latest. *)
Definition boot_copy (j : boot_job) (lazy_buf : ptr) (i : Z) (l : Z * Z * amlnand_phydev)
    : act D (ctl (Z * Z * amlnand_phydev) unit) :=
  let '(err, _, p) := l in
  fl ← chip flash;
  upd_ops (set_data_buf lazy_buf) ;;
  r ← while_ (Z.to_nat j.(bj_pages)) (fun _ => true) (boot_round j)
        (u32 (fl.(pagesize) * (BOOT_PAGES_PER_COPY * i)), 0, set_datbuf lazy_buf p, 0);
  mret (match r with
        | inl (_, writelen, p, ret) => Next (err + (if ret <? 0 then 1 else 0), writelen, p)
        | inr _ => Next l
        end).

Definition write_copies (j : boot_job) (oob_buf : ptr) (p : amlnand_phydev)
    : act D (Z * amlnand_phydev) :=
  fl ← chip flash;
  clear_ops ;;
  upd_ops (fun o => set_oob_buf oob_buf (set_data_buf p.(devops).(datbuf)
    (set_ops_option (if slc_type fl.(new_type) then Z.lor p.(phydev_option) DEV_SLC_MODE
                     else p.(phydev_option)) o))) ;;
  nand_boot_info_prepare j.(bj_page0) ;;
  r ← for_ (Z.to_nat BOOT_COPY_NUM) 0 (boot_copy j p.(devops).(datbuf)) (0, 0, p);
  let '(err, writelen, p) := match r with inl l => l | inr _ => (0, 0, p) end in
  mret (if err <? 2 then 0 else 1, set_devops (set_retlen (u32 writelen) p.(devops)) p).

(** [oob_buf[i] = 0x55; oob_buf[i+1] = 0xaa] *)
Definition fill_oob (oob_buf : ptr) (oobsize : Z) : act D unit :=
  r ← for_ (R := unit) (Z.to_nat ((oobsize + 1) / 2)) 0
        (fun i _ => store8 (ptr_add oob_buf (2 * i)) 0x55 ;;
                    store8 (ptr_add oob_buf (2 * i + 1)) 0xaa ;; mret (Next tt)) tt;
  mret tt.

(** [error_exit] *)
Definition boot_exit (tmp : page_settings) (tmp_size : Z) (fill_buf page0_buf oob_buf : ptr)
    (ret : Z) (p : amlnand_phydev) : act D (Z * amlnand_phydev) :=
  upd_ctl (fun h => set_settings tmp (set_ran_mode 1 h)) ;;
  kfree fill_buf ;; kfree page0_buf ;; kfree oob_buf ;;
  mret (ret, set_writesize tmp_size p).

Definition write_uboot (p : amlnand_phydev) : act D (Z * amlnand_phydev) :=
  let d := p.(devops) in
  if out_of_space p then mret (- NAND_ARGUMENT_FAILURE, p)
  else if (d.(len) =? 0) && (d.(devops_ooblen) =? 0) then mret (0, p)
  else if negb (d.(addr) =? 0) then mret (0, p)
  else
    h ← chip controller;
    fl ← chip flash;
    let tmp := settings_of h in
    let oobsize := u32 (h.(ecc_steps) * h.(user_mode)) in
    oob_buf ← kmalloc oobsize;
    if is_null oob_buf
    then boot_exit tmp p.(writesize) Null Null Null (- NAND_MALLOC_FAILURE) p
    else
      memset oob_buf 0 oobsize ;;
      page0_buf ← kmalloc fl.(pagesize);
      if is_null page0_buf
      then boot_exit tmp p.(writesize) Null Null oob_buf (- NAND_MALLOC_FAILURE) p
      else
        memset page0_buf 0 fl.(pagesize) ;;
        fill_oob oob_buf oobsize ;;
        fill_buf ← kmalloc fl.(pagesize);
        if is_null fill_buf
        then boot_exit tmp p.(writesize) Null page0_buf oob_buf (- NAND_MALLOC_FAILURE) p
        else
          memset fill_buf 0xff fl.(pagesize) ;;
          pages ← div_ fl.(blocksize) fl.(pagesize);
          '(ret, q) ← write_copies (mk_boot tmp h.(ran_mode) p.(writesize) d.(len) pages
                        page0_buf fill_buf) oob_buf p;
          boot_exit tmp p.(writesize) fill_buf page0_buf oob_buf ret q.

(** ** Erasing the area and writing it *)
Definition NFC_CLR_OOB_MODE (m : Z) : act D unit := device (hw_cfg m 0).

(** [((unsigned int)n + size - 1) / size * size] *)
Definition round_up (n size : Z) : act D Z :=
  q ← div_ (u32 (u32 (u32 n + size) - 1)) size; mret (u32 (q * size)).

(** The length that is written: a whole block at least, or half a block on
    chips in SLC mode. *)
Definition boot_length (fl : nand_flash) (p : amlnand_phydev) : Z :=
  if slc_type fl.(new_type) then Z.shiftr p.(erasesize) 1
  else Z.max p.(devops).(len) p.(erasesize).

(** Erases block after block up to page 1024, bad ones excepted, whatever the
    result. *)
Definition erase_boot_area (fl : nand_flash) (pages : Z) (p : amlnand_phydev) : act D unit :=
  r ← do_while (R := unit) (rounds (u32 (1024 * fl.(pagesize))) p.(erasesize))
        (fun a =>
           page ← div_ (u32 a) fl.(pagesize);
           upd_ops (set_page_addr page) ;;
           o ← ops_ id;
           controller_select_chip o.(chipnr) ;;
           ret ← op_block_isbad;
           let next := u64 (a + p.(erasesize)) in
           if ret =? NAND_BLOCK_FACTORY_BAD then mret (Next next)
           else
             o ← ops_ id;
             (if (fl.(new_type) =? SANDISK_19NM) && has o.(ops_option) DEV_SLC_MODE then
                at_ ← mod_ o.(page_addr) pages;
                upd_ops (set_page_addr
                  (Z.lor (Z.land o.(page_addr) (not32 (pages - 1))) (shl32 at_ 1)))
              else mret tt) ;;
             ret ← op_erase_block;
             mret (Next next))
        (fun a => a <? u32 (1024 * fl.(pagesize))) (u64 (p.(offset) + p.(devops).(addr)));
  mret tt.

Definition roomboot_nand_write (p : amlnand_phydev) : act D (Z * amlnand_phydev) :=
  let d := p.(devops) in
  if negb (d.(addr) =? 0) then mret (-1, p)
  else
    fl ← chip flash;
    write_len ← round_up (boot_length fl p) p.(writesize);
    if truthy (Z.land d.(addr) (u32 (p.(writesize) - 1)))
       || truthy (Z.land write_len (u32 (p.(writesize) - 1)))
    then mret (- NAND_WRITE_FAILED, p)
    else if p.(size) / BOOT_COPY_NUM <? u64 (d.(addr) + write_len)
    then mret (- NAND_WRITE_FAILED, p)
    else
      oob_set ← ctl_ oob_mod;
      when_ (truthy oob_set)
        (NFC_CLR_OOB_MODE (Z.shiftl 3 26) ;; upd_ctl (set_oob_mod 0)) ;;
      pages ← div_ fl.(blocksize) fl.(pagesize);
      clear_ops ;;
      upd_ops (set_ops_option
        (if truthy fl.(new_type) && (fl.(new_type) =? SANDISK_19NM)
         then Z.lor p.(phydev_option) DEV_SLC_MODE else p.(phydev_option))) ;;
      erase_boot_area fl pages p ;;
      '(ret, p) ← write_uboot (set_devops (mk_devops NAND_HW_ECC d.(addr) write_len 0 0
                                 d.(datbuf) Null) p);
      if ret <? 0 then mret (ret, p)
      else
        when_ (truthy oob_set)
          (upd_ctl (set_oob_mod oob_set) ;; NFC_SET_OOB_MODE (Z.shiftl 3 26)) ;;
        mret (ret, p).

(** ** The device file *)

(** [user]: what the process passes, [count] bytes. *)
Definition uboot_write (p : amlnand_phydev) (user : list Z) (count : Z)
    : act D (Z * amlnand_phydev) :=
  align_count ← round_up count p.(writesize);
  data_buf ← kmalloc align_count;
  if is_null data_buf then mret (count, p)
  else
    memset data_buf 0 align_count ;;
    copy_from_user data_buf user count ;;
    let p := set_devops (mk_devops NAND_HW_ECC 0 align_count 0 0 data_buf Null) p in
    e ← amlnand_get_device CHIP_WRITING;
    '(ret, p) ← roomboot_nand_write p;
    amlnand_release_device ;;
    kfree data_buf ;;
    mret (if ret <? 0 then 0 else count, p).

(** Nothing is undone when a later step fails. *)
Definition boot_device_register (p : amlnand_phydev) : act D (Z * list registration) :=
  if starts_with NAND_BOOT_NAME p.(name) then
    r ← kernel_call;
    if r <? 0 then mret (r, [])
    else
      r ← kernel_call;
      if truthy r then mret (r, [ChrdevRegion])
      else
        r ← kernel_call;
        if r <? 0 then mret (r, [CharDevice; ChrdevRegion])
        else
          d ← kernel_call;
          if d <? 0 then mret (d, [DeviceClass; CharDevice; ChrdevRegion])
          else mret (0, [DeviceNode; DeviceClass; CharDevice; ChrdevRegion])
  else mret (0, []).
End Boot.

(** ** A read-only driver and the boot loader *)
Section Refused.
Context {D : Type} `{!NandHw D} `{ops : !ChipOperation D}.
Implicit Types w : world D.

(** The module parameter, and the kernel's answers. *)
Definition keeps w w' : Prop := w_readonly w' = w_readonly w /\ w_oracle w' = w_oracle w.
#[export] Instance keeps_preorder : PreOrder keeps.
Proof. split; [done|]. intros w1 w2 w3. unfold keeps. intros [-> ->] [-> ->]. done. Qed.
#[export] Instance keeps_frame : CmdFrame keeps.
Proof. split; [split; [apply _ | done ..] | done]. Qed.
#[export] Instance keeps_chip : ChipFrame keeps.
Proof. done. Qed.

Lemma wp_boot_keeps {A} (m : act D A) (Q : A -> world D -> Prop) w :
  respects keeps m -> (forall a w', keeps w w' -> Q a w') -> wp m Q (fun _ _ => True) w.
Proof. intros H HQ. eapply wp_mono; [apply H | apply HQ | done]. Qed.

(** What writing and erasing do in a read-only driver. *)
Definition refuses (m : act D Z) : Prop :=
  forall w, w_readonly w <> 0 -> m w = Done (- EROFS) (set_w_refused (s32 (w_refused w + 1)) w).

Context (Hwrite : refuses op_write_page) (Hkeep : respects keeps op_write_page).
Context (Herase : respects keeps op_erase_block) (Hisbad : respects keeps op_block_isbad).
#[local] Hint Resolve Hkeep Herase Hisbad : respects.

Ltac boot_respects := unfold clear_ops, NFC_CLR_OOB_MODE, NFC_SET_OOB_MODE; op_respects.

Lemma keeps_fill_between j a b p : respects keeps (fill_between j a b p).
Proof. unfold fill_between. boot_respects. Qed.
Lemma keeps_boot_info p : respects keeps (nand_boot_info_prepare p).
Proof. unfold nand_boot_info_prepare. boot_respects. Qed.
Lemma keeps_fill_oob p n : respects keeps (fill_oob p n).
Proof. unfold fill_oob. boot_respects. Qed.
Lemma keeps_erase_area fl n p : respects keeps (erase_boot_area fl n p).
Proof. unfold erase_boot_area. boot_respects. Qed.
Lemma keeps_select_chip n : respects keeps (controller_select_chip n).
Proof. boot_respects. Qed.
#[local] Hint Resolve keeps_fill_between keeps_boot_info keeps_fill_oob keeps_erase_area
  keeps_select_chip : respects.

(** Runs the part of an action that keeps to [keeps]. *)
Ltac run_kept :=
  lazymatch goal with
  | |- wp (mbind _ op_write_page) _ _ _ => fail
  | |- wp (mbind _ _) _ _ _ => apply wp_bind; apply wp_boot_keeps; [solve [boot_respects] | cbv beta]
  end.

Definition locked w : Prop := w_readonly w <> 0 /\ willing w.
Lemma keeps_locked w w' : keeps w w' -> locked w -> locked w'.
Proof. intros [E1 E2] [H1 H2]. split; [congruence|]. intros n. rewrite E2. apply H2. Qed.

Ltac run_locked := run_kept;
  let v := fresh "val" in let wk := fresh "wk" in let Hk := fresh "Hk" in
  intros v wk Hk%keeps_locked; [|done].
Lemma wp_refused (Q : Z -> world D -> Prop) E w :
  locked w -> (forall w', locked w' -> Q (- EROFS) w') -> wp op_write_page Q E w.
Proof. intros Hw HQ. unfold wp. rewrite Hwrite by apply Hw. by apply HQ. Qed.

Lemma wp_boot_round j l w :
  locked w ->
  wp (boot_round j l) (fun c w' => locked w' /\ exists a n p, c = Break (a, n, p, - EROFS))
     (fun _ _ => True) w.
Proof.
  intros Hw. destruct l as [[[a n] p] r0]. unfold boot_round, uboot_set_ran_mode.
  repeat run_locked.
  apply wp_bind, wp_refused; [done|]. intros wr Hwr. apply wp_ret. eauto.
Qed.
Lemma wp_boot_copy j b i err n p w :
  locked w ->
  wp (boot_copy j b i (err, n, p))
     (fun c w' => locked w' /\ exists n p, c = Next (err + 1, n, p)) (fun _ _ => True) w.
Proof.
  intros Hw. unfold boot_copy. do 2 run_locked. apply wp_bind.
  destruct (Z.to_nat j.(bj_pages)) as [|fuel]; cbn [while_]; [done|].
  apply wp_bind. eapply wp_mono; [by apply wp_boot_round | | done].
  intros c wr (Hwr & a & n' & p' & ->). cbn. eauto.
Qed.
Lemma wp_write_copies j oob p w :
  locked w ->
  wp (write_copies j oob p) (fun r w' => locked w' /\ fst r = 1) (fun _ _ => True) w.
Proof.
  intros Hw. unfold write_copies. do 4 run_locked. apply wp_bind.
  apply (wp_for (fun n _ l w' => locked w' /\ exists err m q, l = (err, m, q) /\ err = 4 - Z.of_nat n)).
  - intros i l w' (Hw' & err & m & q & -> & ->). apply wp_ret. done.
  - intros m i l w' (Hw' & err & n & q & -> & ->).
    eapply wp_mono; [by apply wp_boot_copy | | done]. cbv beta.
    intros c w2 (Hw2 & n' & q' & ->). split; [done|]. do 3 eexists. split; [done|]. lia.
  - split; [done|]. do 3 eexists. done.
Qed.

Lemma wp_kmalloc_locked n (Q : ptr -> world D -> Prop) w :
  locked w -> (forall b w', locked w' -> Q (Ptr b 0) w') -> wp (kmalloc n) Q (fun _ _ => True) w.
Proof.
  intros Hw HQ. unfold wp, kmalloc, alloc_, kernel_call, mbind, M_bind, gets, modify, mret, M_ret.
  cbn. rewrite (proj2 (Z.ltb_ge _ _)) by apply Hw. apply HQ. exact Hw.
Qed.
Lemma wp_write_uboot p w :
  locked w -> out_of_space p = false ->
  wp (write_uboot p) (fun r _ => 0 <= fst r) (fun _ _ => True) w.
Proof.
  intros Hw Hs. unfold write_uboot. rewrite Hs.
  destruct (_ && _); [by apply wp_ret|]. destruct (negb _); [by apply wp_ret|].
  do 2 run_locked. apply wp_bind, wp_kmalloc_locked; [done|]. intros b1 w1 Hw1. cbn [is_null].
  run_locked. apply wp_bind, wp_kmalloc_locked; [done|]. intros b2 w2 Hw2. cbn [is_null].
  do 2 run_locked. apply wp_bind, wp_kmalloc_locked; [done|]. intros b3 w3 Hw3. cbn [is_null].
  do 2 run_locked. apply wp_bind.
  eapply wp_mono; [by apply wp_write_copies | | done]. intros [ret q] w4 [Hw4 E]. cbn in E. subst ret.
  unfold boot_exit. repeat (apply wp_bind; eapply wp_mono; [apply wp_any | intros | done]).
  by apply wp_ret.
Qed.

(** [n] rounded up to pages of [2 ^ k] bytes. *)
Lemma wp_round_up n k (Q : Z -> world D -> Prop) E w :
  0 <= k -> 0 <= n -> n + 2 ^ k < 2 ^ 32 ->
  (forall r, n <= r < n + 2 ^ k -> (2 ^ k | r) -> Q r w) -> wp (round_up n (2 ^ k)) Q E w.
Proof.
  intros Hk Hn Hb HQ. pose proof (Z.pow_pos_nonneg 2 k ltac:(lia) Hk) as Hp.
  assert (0 <= n < 2 ^ 32) as Hn' by lia. assert (0 <= n + 2 ^ k - 1 < 2 ^ 32) as Hn1 by lia.
  assert (0 <= n + 2 ^ k < 2 ^ 32) as Hn2 by lia.
  unfold round_up, wrap. rewrite (Z.mod_small n), (Z.mod_small (n + _)), (Z.mod_small (_ - 1)) by lia.
  apply wp_bind, wp_div; [lia|]. apply wp_ret.
  pose proof (Z_div_mod_eq_full (n + 2 ^ k - 1) (2 ^ k)) as Hd.
  pose proof (Z.mod_pos_bound (n + 2 ^ k - 1) (2 ^ k) Hp) as Hm.
  rewrite Z.mod_small by lia. apply HQ; [lia|]. by exists ((n + 2 ^ k - 1) / 2 ^ k).
Qed.
Lemma aligned_land r k : 0 <= k < 32 -> (2 ^ k | r) -> Z.land r (u32 (2 ^ k - 1)) = 0.
Proof.
  intros Hk [q ->]. pose proof (Z.pow_pos_nonneg 2 k ltac:(lia) ltac:(lia)).
  pose proof (Z.pow_lt_mono_r 2 k 32 ltac:(lia) ltac:(lia) ltac:(lia)).
  unfold wrap. rewrite Z.mod_small by lia. replace (2 ^ k - 1) with (Z.ones k) by (rewrite Z.ones_equiv; lia).
  rewrite Z.land_ones by lia. apply Z.mod_mul. lia.
Qed.

(** A boot device of pages of [2 ^ k] bytes and blocks of whole pages, which
    stay whole when a block is halved; the request fits a block, and a block the
    room of a copy. *)
Record boot_room (p : amlnand_phydev) (k count : Z) : Prop := {
  br_page : p.(writesize) = 2 ^ k;
  br_shift : 0 <= k < 30;
  br_erase : (2 ^ (k + 1) | p.(erasesize));
  br_count : 0 <= count <= p.(erasesize);
  br_width : p.(erasesize) < 2 ^ 31;
  br_size : p.(erasesize) <= p.(size) / BOOT_COPY_NUM
}.

Lemma divide_between r n d : 0 < d -> (d | r) -> (d | n) -> r < n + d -> r <= n.
Proof.
  intros Hd [a ->] [b ->] H. apply Z.mul_le_mono_nonneg_r; [lia|].
  assert (a < b + 1); [|lia]. apply (Z.mul_lt_mono_pos_r d); lia.
Qed.
Lemma boot_room_lengths p k count fl len_ buf :
  boot_room p k count -> 0 <= len_ <= p.(erasesize) -> (2 ^ k | len_) ->
  let L := boot_length fl (set_devops (mk_devops NAND_HW_ECC 0 len_ 0 0 buf Null) p) in
  0 <= L <= p.(erasesize) /\ (2 ^ k | L).
Proof.
  intros [Hk Hks [q Hq] Hc Hwd Hsz] Hl Hd. unfold boot_length. cbn.
  rewrite Z.pow_add_r in Hq by lia. change (2 ^ 1) with 2 in Hq.
  destruct (slc_type _).
  - rewrite Z.shiftr_div_pow2 by lia. change (2 ^ 1) with 2.
    split; [Z.to_euclidean_division_equations; lia|]. exists q. rewrite Hq.
    replace (q * (2 ^ k * 2)) with (q * 2 ^ k * 2) by lia. by apply Z.div_mul.
  - rewrite Z.max_r by lia. split; [lia|]. exists (q * 2). lia.
Qed.

Lemma wp_roomboot p k count len_ buf w :
  locked w -> boot_room p k count -> 0 <= len_ <= p.(erasesize) -> (2 ^ k | len_) ->
  wp (roomboot_nand_write (set_devops (mk_devops NAND_HW_ECC 0 len_ 0 0 buf Null) p))
     (fun r _ => 0 <= fst r) (fun _ _ => True) w.
Proof.
  intros Hw Hp Hlen Hdiv. pose proof Hp as [Hk Hks He Hc Hwd Hsz].
  unfold roomboot_nand_write. cbn [devops addr negb Z.eqb set_devops].
  run_locked. apply wp_bind.
  change (writesize (set_devops _ p)) with p.(writesize).
  change (size (set_devops _ p)) with p.(size). rewrite Hk.
  pose proof (boot_room_lengths p k count val len_ buf Hp Hlen Hdiv) as HL. cbv zeta in HL.
  revert HL. generalize (boot_length val (set_devops (mk_devops NAND_HW_ECC 0 len_ 0 0 buf Null) p)).
  intros L [HL HdL]. pose proof (Z.pow_le_mono_r 2 k 29 ltac:(lia) ltac:(lia)) as Hk29.
  change (2 ^ 29) with 536870912 in Hk29. pose proof (Z.pow_pos_nonneg 2 k ltac:(lia) ltac:(lia)).
  apply wp_round_up; [lia | lia | lia |]. intros r Hr Hd.
  assert (r <= L) as HrL by (by apply (divide_between r L (2 ^ k)); try lia).
  rewrite (aligned_land r k) by (done || lia).
  change (Z.land 0 _) with 0. cbn [truthy Z.eqb negb orb].
  assert (u64 (0 + r) = r) as E64 by (unfold wrap; rewrite Z.mod_small; lia). rewrite E64.
  rewrite (proj2 (Z.ltb_ge _ _)) by lia. do 6 run_locked. apply wp_bind.
  eapply wp_mono; [apply wp_write_uboot; [done|] | | done].
  { unfold out_of_space. cbn. rewrite E64. apply Z.ltb_ge. unfold BOOT_COPY_NUM in *. Z.to_euclidean_division_equations. lia. }
  intros [ret q] w1 Hret. cbn in Hret. rewrite (proj2 (Z.ltb_ge _ _)) by done.
  apply wp_bind. eapply wp_mono; [apply wp_any | intros | done]. by apply wp_ret.
Qed.

(** In a read-only driver a process that writes the boot loader is told that
    all its bytes were written: four refused copies make the result 1, and only
    a negative result counts as an error. *)
Theorem uboot_write_refused_succeeds p k user count w :
  w_readonly w <> 0 -> willing w -> boot_room p k count ->
  wp (uboot_write p user count) (fun r _ => fst r = count) (fun _ _ => True) w.
Proof.
  intros Hr Hwill Hp. assert (locked w) as Hw by done. pose proof Hp as [Hk Hks He Hc Hwd Hsz].
  pose proof (Z.pow_le_mono_r 2 k 29 ltac:(lia) ltac:(lia)) as Hk29. change (2 ^ 29) with 536870912 in Hk29.
  pose proof (Z.pow_pos_nonneg 2 k ltac:(lia) ltac:(lia)).
  unfold uboot_write. rewrite Hk. apply wp_bind, wp_round_up; [lia | lia | lia |].
  intros r Hcr Hdr. apply wp_bind, wp_kmalloc_locked; [done|]. intros b w1 Hw1. cbn [is_null].
  assert (r <= p.(erasesize)) as Hre.
  { apply (divide_between r _ (2 ^ k)); [lia | done | | lia].
    etransitivity; [|exact He]. exists 2. rewrite Z.pow_add_r; lia. }
  unfold copy_from_user, not_copied. do 3 run_locked. apply wp_bind.
  eapply wp_mono; [eapply wp_roomboot; [done | exact Hp | lia | done] | | done]. intros [ret q] w2 Hret. cbn in Hret.
  do 2 (apply wp_bind; eapply wp_mono; [apply wp_any | intros | done]).
  apply wp_ret. by rewrite (proj2 (Z.ltb_ge _ _)).
Qed.
End Refused.

(** ** The settings afterwards *)
Section Restored.
Context {D : Type} `{!NandHw D} `{ops : !ChipOperation D}.
Implicit Types w : world D.

Definition ctl_settings w : page_settings := settings_of (controller (w_chip w)).

Lemma wp_boot_exit s n a b c ret q w :
  wp (boot_exit s n a b c ret q)
     (fun r w' => ctl_settings w' = s /\ ran_mode (controller (w_chip w')) = 1 /\ fst r = ret /\
                  writesize (snd r) = n) (fun _ _ => True) w.
Proof.
  unfold boot_exit. apply wp_bind, wp_upd_chip.
  match goal with |- wp _ _ _ ?w1 =>
    assert (forall w', w_chip w' = w_chip w1 -> ctl_settings w' = s /\ ran_mode (controller (w_chip w')) = 1) as H end.
  { intros w' E. unfold ctl_settings. rewrite E. by destruct s. }
  assert (forall (p : ptr), respects (fun w w' => w_chip w' = w_chip w) (kfree (D := D) p)) as Hfree.
  { intros p w'. destruct p as [|x off]; [done|]. cbn. by destruct (off =? 0). }
  do 3 (apply wp_bind; eapply wp_mono; [apply Hfree | cbv beta; intros _ ? ? | done]).
  apply wp_ret. match goal with |- ctl_settings ?w' = _ /\ _ => destruct (H w') as [Hs Hran]; [congruence | done] end.
Qed.

(** C38: However the writing of the boot loader ends, with bad arguments, without
    memory or with failed copies, the ECC unit, mode, limits and codewords of
    the controller and the page size of the device are the ones it found; only
    the randomiser may have been switched on. *)
Theorem write_uboot_restores_settings p w :
  wp (write_uboot p)
     (fun r w' => ctl_settings w' = ctl_settings w /\ writesize (snd r) = writesize p /\
        let ran w := ran_mode (controller (w_chip w)) in ran w' = ran w \/ ran w' = 1)
     (fun _ _ => True) w.
Proof.
  unfold write_uboot. do 3 (match goal with |- wp (if ?b then _ else _) _ _ _ => destruct b end;
    [apply wp_ret; auto|]).
  do 2 apply wp_bind, wp_chip. cbv beta zeta. fold (ctl_settings w).
  assert (forall m (a b c : ptr) ret q w1, m = boot_exit (ctl_settings w) p.(writesize) a b c ret q ->
    wp m (fun r w' => ctl_settings w' = ctl_settings w /\ writesize (snd r) = writesize p /\
        let ran w := ran_mode (controller (w_chip w)) in ran w' = ran w \/ ran w' = 1)
     (fun _ _ => True) w1) as Hexit.
  { intros m a b c ret q w1 ->. eapply wp_mono; [apply wp_boot_exit | | done].
    cbv beta. intros r w' (H1 & H2 & _ & H3). auto. }
  repeat (lazymatch goal with
    | |- wp (mbind _ _) _ _ _ => apply wp_bind; eapply wp_mono; [apply wp_any | intros; cbv beta | done]
    | |- wp (if ?b then _ else _) _ _ _ => destruct b
    | |- wp (let '(_, _) := ?x in _) _ _ _ => destruct x
    | |- wp (boot_exit _ _ _ _ _ _ _) _ _ _ => by eapply Hexit
    end).
Qed.
End Restored.

(** ** It comes to an end *)
Section Ends.
Context {D : Type} `{!NandHw D} `{ops : !ChipOperation D}.
Implicit Types w : world D.

Definition same_flash w w' : Prop := flash (w_chip w') = flash (w_chip w).
#[export] Instance same_flash_frame : AnyCmdFrame same_flash.
Proof.
  split; [split; [split; [|done ..] | done] | done].
  split; [done | intros x y z E F]. unfold same_flash in *. congruence.
Qed.

Context (Hwrite : bounded op_write_page) (Hkeep : respects same_flash op_write_page).
Context (Herase : bounded op_erase_block) (Hekeep : respects same_flash op_erase_block).
Context (Hisbad : bounded op_block_isbad) (Hbkeep : respects same_flash op_block_isbad).
#[local] Hint Resolve Hkeep Hekeep Hbkeep : respects.
#[local] Hint Resolve Hwrite Herase Hisbad : bounded.

Ltac boot_respects := unfold uboot_set_ran_mode, clear_ops, NFC_CLR_OOB_MODE, NFC_SET_OOB_MODE; op_respects.
Ltac boot_bounded := unfold uboot_set_ran_mode, clear_ops, NFC_CLR_OOB_MODE, NFC_SET_OOB_MODE, ctl_, ops_, memset, store8, store16, store32, kmalloc; solve_bounded.

(** Steps that come to an end and leave the chip's geometry alone. *)
Lemma wp_steady {A} fl (m : act D A) (Q : A -> world D -> Prop) w :
  bounded m -> respects same_flash m -> flash (w_chip w) = fl ->
  (forall a w', flash (w_chip w') = fl -> Q a w') -> wp m Q in_fuel w.
Proof.
  intros Hb Hs E HQ. specialize (Hb w). specialize (Hs w). unfold wp in *.
  destruct (m w) as [a w' | f w']; [|done]. apply HQ. unfold same_flash in Hs. congruence.
Qed.

(** Blocks of an even number of pages that divides 256; 1024 pages fit 32 bits. *)
Record boot_geometry (fl : nand_flash) (n : Z) : Prop := {
  bg_page : 0 < fl.(pagesize) /\ fl.(pagesize) * 1024 < 2 ^ 32;
  bg_block : fl.(blocksize) = n * fl.(pagesize);
  bg_pages : 0 < n;
  bg_even : (2 | n);
  bg_div : (n | 256)
}.

Lemma bounded_fill_between j a b p : bounded (fill_between j a b p).
Proof. unfold fill_between. boot_bounded. Qed.
Lemma steady_fill_between j a b p : respects same_flash (fill_between j a b p).
Proof. unfold fill_between. boot_respects. Qed.

Lemma page_in_range size m : 0 < size -> size * 1024 < 2 ^ 32 -> 0 <= m <= 1024 -> u32 (size * m) = size * m.
Proof.
  intros Hp Hs Hm. apply Z.mod_small. split; [apply Z.mul_nonneg_nonneg; lia|].
  eapply Z.le_lt_trans; [apply Z.mul_le_mono_nonneg_l|]; [lia | apply Hm | done].
Qed.
(** The end of a block is also the end of its half. *)
Lemma copy_ends fl n i (slc : bool) :
  boot_geometry fl n -> 0 <= i < 4 ->
  u32 (fl.(pagesize) * (256 * i + n)) mod (if slc then Z.shiftr fl.(blocksize) 1 else fl.(blocksize)) = 0.
Proof.
  intros [[Hp Hs] Hb Hn [h Hh] [q Hq]] Hi.
  assert (n <= 256) by (apply Z.divide_pos_le; [lia | by exists q]).
  rewrite page_in_range by lia.
  replace (256 * i + n) with ((q * i + 1) * n) by (rewrite Hq; ring).
  destruct slc; rewrite Hb.
  - rewrite Z.shiftr_div_pow2, Hh by lia. change (2 ^ 1) with 2.
    replace (h * 2 * pagesize fl) with (h * pagesize fl * 2) by ring. rewrite Z.div_mul by lia.
    replace (pagesize fl * ((q * i + 1) * (h * 2))) with ((q * i + 1) * 2 * (h * pagesize fl)) by ring.
    apply Z.mod_mul. nia.
  - replace (pagesize fl * ((q * i + 1) * n)) with ((q * i + 1) * (n * pagesize fl)) by ring.
    apply Z.mod_mul. nia.
Qed.

Ltac steady fl := apply wp_bind, (wp_steady fl);
  [solve [boot_bounded] | solve [boot_respects] | congruence |].
#[local] Hint Resolve bounded_fill_between : bounded.
#[local] Hint Resolve steady_fill_between : respects.

(** A round either ends the copy or goes on to the next page of the block. *)
Lemma wp_boot_round_next fl n j i k wl p r0 w :
  flash (w_chip w) = fl -> boot_geometry fl n -> j.(bj_pages) = n -> 0 <= i < 4 -> 0 <= k < n ->
  wp (boot_round j (fl.(pagesize) * (256 * i + k), wl, p, r0))
     (fun c w' => flash (w_chip w') = fl /\
        match c with
        | Next (a, _, _, _) => a = fl.(pagesize) * (256 * i + (k + 1)) /\ k + 1 < n
        | _ => True
        end) in_fuel w.
Proof.
  intros E Hg Hj Hi Hk. pose proof (copy_ends fl n i) as Hend.
  destruct Hg as [[Hp Hs] Hb Hn He Hd] eqn:Eg.
  assert (n <= 256) by (apply Z.divide_pos_le; [lia | done]).
  assert (2 <= n) by (apply Z.divide_pos_le; [lia | done]).
  unfold boot_round. apply wp_bind, wp_chip. rewrite E.
  apply wp_bind, wp_div; [lia|]. rewrite page_in_range by lia.
  rewrite (Z.mul_comm (pagesize fl)), Z.div_mul by lia.
  change BOOT_PAGES_PER_COPY with 256.
  replace ((256 * i + k) mod 256) with k by (Z.to_euclidean_division_equations; lia).
  cbv zeta. set (first := k =? 0).
  do 5 (steady fl; intros ?a ?wk ?Ek).
  steady fl; intros u1 w1 E1. steady fl; intros ret w2 E2.
  destruct (ret <? 0); [by apply wp_ret|].
  assert (u64 ((256 * i + k) * pagesize fl + pagesize fl) = pagesize fl * (256 * i + (k + 1))) as Ea.
  { replace ((256 * i + k) * pagesize fl + pagesize fl)
      with (pagesize fl * (256 * i + (k + 1))) by ring.
    apply Z.mod_small. pose proof (page_in_range (pagesize fl) (256 * i + (k + 1)) Hp Hs ltac:(lia)) as H'.
    rewrite <- H'. unfold wrap. pose proof (Z.mod_pos_bound (pagesize fl * (256 * i + (k + 1))) (2 ^ 32)).
    lia. }
  rewrite Ea. destruct first eqn:Ef; subst first.
  { steady fl; intros ? w3 E3. steady fl; intros ? w4 E4. apply wp_ret. split; [done|]. split; [done | lia]. }
  destruct (_ <=? _); [by apply wp_ret|].
  apply wp_bind, wp_mod.
  - destruct (has _ _); [|nia]. destruct He as [h Hh]. rewrite Hb, Z.shiftr_div_pow2, Hh by lia.
    change (2 ^ 1) with 2. replace (h * 2 * pagesize fl) with (h * pagesize fl * 2) by ring.
    rewrite Z.div_mul by lia. nia.
  - specialize (Hend (has a0 DEV_SLC_MODE) ltac:(by constructor) Hi).
    destruct (decide (k + 1 = n)) as [->|Hk'].
    + rewrite Hend. apply wp_ret. done.
    + apply wp_ret. cbv beta. match goal with |- context [if ?b then Break _ else _] => destruct b end;
        (split; [done|]); [done | split; [done | lia]].
Qed.

Lemma steady_boot_copy fl n j b i l w :
  flash (w_chip w) = fl -> boot_geometry fl n -> j.(bj_pages) = n -> 0 <= i < 4 ->
  wp (boot_copy j b i l)
     (fun c w' => flash (w_chip w') = fl /\ exists l', c = Next l') in_fuel w.
Proof.
  intros E Hg Hj Hi. unfold boot_copy. destruct l as [[err wl] p].
  apply wp_bind, wp_chip. steady fl; intros [] w1 E1. rewrite E. apply wp_bind.
  apply (wp_while (fun m (l : Z * Z * amlnand_phydev * Z) w' => flash (w_chip w') = fl /\
    exists k wl p r, l = (fl.(pagesize) * (256 * i + k), wl, p, r) /\ 0 <= k /\
      k + Z.of_nat m = n /\ 0 < Z.of_nat m)).
  - done.
  - intros m l' w' (E' & k & wl' & p' & r & -> & Hk & Hm & Hpos) _.
    destruct m as [|m]; [lia|]. exists m. split; [done|].
    eapply wp_mono; [by apply wp_boot_round_next; eauto; lia | | done]. cbv beta.
    intros [[[[a wl2] p2] r2]|[[[a wl2] p2] r2]|[]] w2 [E2 H2]; [|apply wp_ret; by eauto ..].
    destruct H2 as [-> H2]. split; [done|]. do 4 eexists. split; [done|]. lia.
  - split; [done|]. destruct Hg as [[Hp Hs] Hb Hn He Hd]. exists 0. do 3 eexists. split; [|lia].
    do 3 f_equal. rewrite Z.add_0_r. apply page_in_range; lia.
Qed.

Lemma bounded_boot_info p : bounded (S := world D) (nand_boot_info_prepare p).
Proof. unfold nand_boot_info_prepare. boot_bounded. Qed.
Lemma steady_boot_info p : respects same_flash (nand_boot_info_prepare p).
Proof. unfold nand_boot_info_prepare. boot_respects. Qed.
Lemma bounded_fill_oob p n : bounded (S := world D) (fill_oob p n).
Proof. unfold fill_oob. boot_bounded. Qed.
Lemma steady_fill_oob p n : respects same_flash (fill_oob p n).
Proof. unfold fill_oob. boot_respects. Qed.
Lemma bounded_boot_exit s n a b c r q : bounded (S := world D) (boot_exit s n a b c r q).
Proof. unfold boot_exit. boot_bounded. Qed.
#[local] Hint Resolve bounded_boot_info bounded_fill_oob bounded_boot_exit : bounded.
#[local] Hint Resolve steady_boot_info steady_fill_oob : respects.

Lemma ends_write_copies fl n j b p w :
  flash (w_chip w) = fl -> boot_geometry fl n -> j.(bj_pages) = n ->
  wp (write_copies j b p) (fun _ _ => True) in_fuel w.
Proof.
  intros E Hg Hj. unfold write_copies. apply wp_bind, wp_chip.
  do 3 (steady fl; intros ?a ?wk ?Ek). apply wp_bind.
  apply (wp_for (fun m i _ w' => flash (w_chip w') = fl /\ 0 <= i /\ i + Z.of_nat m = 4)).
  - intros i [[? ?] ?] w' _. by apply wp_ret.
  - intros m i l w' (E' & Hi & Hm). eapply wp_mono; [by apply (steady_boot_copy fl n); [..|lia] | | done].
    cbv beta. intros c w2 [E2 [l' ->]]. split; [done | lia].
  - done.
Qed.

Lemma ends_write_uboot fl n p w :
  flash (w_chip w) = fl -> boot_geometry fl n ->
  wp (write_uboot p) (fun _ _ => True) in_fuel w.
Proof.
  intros E Hg. unfold write_uboot. do 3 (destruct (_ : bool); [by apply wp_ret|]).
  do 2 apply wp_bind, wp_chip. cbv zeta. rewrite E.
  do 3 (steady fl; intros ?b ?wk ?Ek; destruct (is_null _); [apply wp_of_bounded; boot_bounded|];
        repeat (steady fl; intros _ ?wk ?Ek)).
  destruct Hg as [[Hp Hs] Hb Hn He Hd] eqn:Eg. apply wp_bind, wp_div; [lia|].
  rewrite Hb, Z.div_mul by lia. apply wp_bind.
  eapply wp_mono; [by apply (ends_write_copies fl n) | | done].
  intros [ret q] w' _. apply wp_of_bounded. boot_bounded.
Qed.

Lemma bounded_erase_area fl n p :
  p.(offset) = 0 -> p.(devops).(addr) = 0 -> 0 < p.(erasesize) < 2 ^ 32 ->
  bounded (erase_boot_area fl n p).
Proof.
  intros Ho Ha He. unfold erase_boot_area. rewrite Ho, Ha. apply bounded_bind; [|intros; boot_bounded].
  set (total := u32 (1024 * pagesize fl)).
  assert (0 <= total < 2 ^ 32) as Ht by (apply Z.mod_pos_bound; lia).
  match goal with |- bounded (do_while _ ?body _ _) => assert (forall a s,
    wp (body a) (fun c _ => c = Next (u64 (a + p.(erasesize)))) in_fuel s) as Hbody end.
  { intros a s. cbv beta. boot_bounded; done. }
  intros s. unfold do_while. apply wp_bind. eapply wp_mono; [apply Hbody | | done].
  intros c s' ->. revert s'. change (u64 (u64 (0 + 0) + erasesize p)) with (u64 (0 + erasesize p)).
  replace (u64 (0 + erasesize p)) with (erasesize p) by (unfold wrap; rewrite Z.mod_small; lia).
  apply (bounded_while (rounds_left p.(erasesize) total)).
  - intros a Hc%Z.ltb_lt. apply rounds_left_pos; lia.
  - intros a s' Hc%Z.ltb_lt. eapply wp_mono; [apply Hbody | | done]. intros c ? ->.
    eapply Nat.le_lt_trans; [|apply (rounds_left_step p.(erasesize) total a); lia].
    assert (a + p.(erasesize) <= u64 (a + p.(erasesize))).
    { unfold wrap. destruct (decide (0 <= a + p.(erasesize))).
      - rewrite Z.mod_small; lia.
      - pose proof (Z.mod_pos_bound (a + p.(erasesize)) (2 ^ 64)). lia. }
    unfold rounds_left.
    assert ((total - u64 (a + erasesize p) + erasesize p - 1) / erasesize p <=
      (total - (a + erasesize p) + erasesize p - 1) / erasesize p) by (apply Z.div_le_mono; lia). lia.
  - unfold rounds. rewrite Z.max_r by lia.
    unfold rounds_left.
    assert ((total - erasesize p + erasesize p - 1) / erasesize p <= total / erasesize p)
      by (apply Z.div_le_mono; lia).
    pose proof (Z.div_pos total (erasesize p)). lia.
Qed.
Lemma steady_erase_area fl n p : respects same_flash (erase_boot_area fl n p).
Proof. unfold erase_boot_area. boot_respects. Qed.
#[local] Hint Resolve steady_erase_area : respects.

(** C37: Writing the boot loader comes to an end when writing and erasing a page
    do: every copy ends with its block at the latest, and the erasing leaves
    the boot area.  The device is the boot device, at the start of a flash
    whose blocks have an even number of pages that divides 256. *)
Theorem roomboot_terminates p n w :
  boot_geometry (flash (w_chip w)) n -> p.(offset) = 0 -> 0 < p.(erasesize) < 2 ^ 32 ->
  wp (roomboot_nand_write p) (fun _ _ => True) in_fuel w.
Proof.
  intros Hg Ho He. set (fl := flash (w_chip w)) in *. assert (flash (w_chip w) = fl) as E by done.
  clearbody fl. unfold roomboot_nand_write.
  destruct (negb _) eqn:Ha; [by apply wp_ret|]. apply negb_false_iff, Z.eqb_eq in Ha.
  apply wp_bind, wp_chip. rewrite E. unfold round_up.
  steady fl; intros len_ w1 E1. do 2 (destruct (_ : bool); [by apply wp_ret|]).
  do 5 (steady fl; intros ? ?w ?E).
  apply wp_bind, (wp_steady fl); [by apply bounded_erase_area | solve [boot_respects] | done |].
  intros [] w7 E7. apply wp_bind. eapply wp_mono; [by apply (ends_write_uboot fl n) | | done].
  intros [ret q] w8 _. apply wp_of_bounded. boot_bounded.
Qed.
End Ends.

(** ** What the boot ROM is told *)
Lemma field_wrap x lo n : 0 <= lo -> 0 <= n -> lo + n <= 32 -> field (u32 x) lo n = field x lo n.
Proof.
  intros Hl Hn Hb. rewrite !field_mod by done. unfold wrap.
  rewrite <- !Z.land_ones by lia. apply Z.bits_inj'. intros i Hi.
  rewrite !Z.land_spec, !Z.shiftr_spec, Z.land_spec by lia.
  destruct (Z.ltb_spec i n).
  - rewrite !Z.ones_spec_low by lia. by rewrite andb_true_r.
  - rewrite (Z.ones_spec_high n) by lia. by rewrite !andb_false_r.
Qed.

Lemma first_pages_in_place :
  forallb (fun m => forallb (fun k => Z.land (Z.of_nat k) (not32 (2 ^ Z.of_nat m - 1)) =? 0) (seq 1 15))
    (seq 4 13) = true.
Proof. vm_compute. reflexivity. Qed.
Lemma first_page_base k m :
  1 <= k <= 15 -> 4 <= m <= 16 -> Z.land k (not32 (2 ^ m - 1)) = 0.
Proof.
  intros Hk Hm. pose proof first_pages_in_place as H.
  rewrite forallb_forall in H. specialize (H (Z.to_nat m) ltac:(apply in_seq; lia)).
  rewrite forallb_forall in H. specialize (H (Z.to_nat k) ltac:(apply in_seq; lia)).
  rewrite !Z2Nat.id in H by lia. by apply Z.eqb_eq.
Qed.

(** The fields of the first word: of the command, and of what is added to it. *)
Lemma command_field h lo n :
  cmd_ok (N2m h.(ran_mode) h.(bch_mode) 0 (Z.shiftr h.(ecc_unit) 3) h.(ecc_steps)) ->
  0 <= lo -> 0 <= n -> lo + n <= 32 ->
  field (boot_command h) lo n =
  Z.lor (field (Z.lor (Z.shiftl 1 17) (Z.shiftl 2 20)) lo n)
    (Z.lor (field (Z.shiftl h.(ran_mode) 19) lo n)
      (Z.lor (field (Z.shiftl h.(bch_mode) 14) lo n)
        (Z.lor (field (Z.shiftl (Z.shiftr h.(ecc_unit) 3 mod 2 ^ 7) 6) lo n)
          (field (Z.shiftl h.(ecc_steps) 0) lo n)))).
Proof.
  intros (Hr & He & _ & Hp & Hg) Hlo Hn Hb. unfold boot_command. rewrite field_wrap by done.
  cbn [word].
  replace (if truthy h.(ran_mode) then N2M else N2M_NORAN)
    with (Z.lor (Z.lor (Z.shiftl 1 17) (Z.shiftl 2 20)) (Z.shiftl h.(ran_mode) 19))
    by (assert (h.(ran_mode) = 0 \/ h.(ran_mode) = 1) as [-> | ->] by lia; reflexivity).
  unfold dma_word, ored. change 127 with (Z.ones 7). change 63 with (Z.ones 6).
  rewrite (land_small h.(ecc_steps)), (Z.land_ones (Z.shiftr _ _)) by lia. cbn [fold_right].
  rewrite !Z.lor_0_r, !field_lor, !Z.lor_assoc, Z.shiftl_0_r, (Z.shiftl_0_l 13).
  f_equal. f_equal. unfold field at 5. rewrite Z.shiftr_0_l, Z.land_0_l. by rewrite Z.lor_0_r.
Qed.
Definition ext_bits (type : Z) : Z := boot_ext type 0.
Lemma boot_ext_lor type c : boot_ext type c = Z.lor c (ext_bits type).
Proof. unfold ext_bits, boot_ext, ored. cbn [fold_right]. by rewrite Z.lor_0_l, !Z.lor_assoc. Qed.

Lemma boot_ext_fields h type :
  cmd_ok (N2m h.(ran_mode) h.(bch_mode) 0 (Z.shiftr h.(ecc_unit) 3) h.(ecc_steps)) ->
  let ext := boot_ext type (boot_command h) in
  decode ext = DDma 1 1 h.(bch_mode) 0 (Z.shiftr h.(ecc_unit) 3 mod 2 ^ 7) h.(ecc_steps) /\
  field ext 26 1 = Z.b2z (slc_type type) /\
  field ext 24 1 = Z.b2z (slc_type type && (type =? SANDISK_19NM)).
Proof.
  intros Hcmd ext. unfold ext. rewrite boot_ext_lor. unfold decode. rewrite !field_lor.
  rewrite !command_field by (done || lia). destruct Hcmd as (Hr & He & _ & Hp & Hg).
  pose proof (Z.mod_pos_bound (Z.shiftr h.(ecc_unit) 3) (2 ^ 7) ltac:(lia)).
  set (size := Z.shiftr h.(ecc_unit) 3 mod 2 ^ 7) in *. clearbody size.
  assert (forall lo n, field (ext_bits type) lo n =
    Z.lor (field (ored [0; Z.shiftl 1 23; Z.shiftl 1 22; Z.shiftl 2 20; Z.shiftl 1 19]) lo n)
      (field (if slc_type type then Z.lor (Z.shiftl 1 26)
                (if type =? SANDISK_19NM then Z.shiftl 1 24 else 0) else 0) lo n)) as Hx.
  { intros. unfold ext_bits, boot_ext. by rewrite field_lor. }
  rewrite !Hx. clear Hx.
  assert (h.(ran_mode) = 0 \/ h.(ran_mode) = 1) as [-> | ->] by lia;
    repeat field_step; destruct (slc_type type), (type =? SANDISK_19NM);
    repeat field_step; rewrite ?Z.lor_0_r, ?Z.lor_0_l, ?Z.shiftl_0_r; done.
Qed.


(** ** With the chip operations themselves *)
Module BootWitness.
#[local] Instance hw : NandHw unit := {
  hw_cmd _ d m := (d, m);
  hw_info d m := (0, (d, m));
  hw_buf d m := (NAND_STATUS_READY, (d, m));
  hw_cfg _ _ d m := (d, m);
  hw_wait d m := (d, m);
  hw_virt _ := 0
}.
#[local] Instance chip_ops : ChipOperation unit :=
  amlnand_init_operation 1 vendor_hooks (mret 0).

#[local] Instance keeps_any : AnyCmdFrame (keeps (D := unit)).
Proof. split; [apply _ | done]. Qed.
Lemma chip_ops_keep : OpsRespect keeps chip_ops.
Proof.
  apply init_operation_respects; try apply _.
  - apply vendor_hooks_respect, _.
  - apply respects_write_page_any; [apply _ | apply vendor_hooks_respect, _].
  - apply respects_erase_block_any; [apply _ | apply vendor_hooks_respect, _].
  - apply respects_ret, _.
Qed.

(** Pages of 1 KiB in blocks of 256, four of which are the boot area. *)
Definition boot_dev : amlnand_phydev := mk_phydev NAND_BOOT_NAME 0 0 0x100000 0x40000 1024
  0 18 10 1023 0 Null devops0.
Definition read_only : world unit :=
  set_w_readonly 1 (set_w_chip
    (set_flash (mk_flash 1024 8192 0x40000 64 1 20 25 0 SANDISK_19NM 0 [])
      (set_controller (set_ce_enable [0] (set_rb_enable [0] (set_chip_num 1 ctl0)))
        (set_state CHIP_READY chip0))) (world0 tt)).

Example uboot_write_refused_succeeds_witness :
  w_readonly read_only <> 0 /\
  wp (uboot_write boot_dev [1; 2; 3] 3) (fun r _ => fst r = 3) (fun _ _ => True) read_only.
Proof.
  split; [discriminate|].
  apply (uboot_write_refused_succeeds (D := unit)) with (k := 10).
  - intros w H. by apply write_page_refused.
  - apply chip_ops_keep.
  - apply chip_ops_keep.
  - apply chip_ops_keep.
  - discriminate.
  - intros n. discriminate.
  - split; [reflexivity | lia | by exists 128 | cbn; lia | reflexivity | discriminate].
Defined.

(** With a bad block table of good blocks: the process is told that its three
    bytes were written, and the chip was sent nothing but the selection. *)
Definition with_table : world unit :=
  set_w_mem {[ 1 := replicate 64 0 ]} (set_w_brk 2
    (set_w_chip (set_block_status (Ptr 1 0) read_only.(w_chip)) read_only)).
Definition told (o : outcome (world unit) (Z * amlnand_phydev)) : Z * list nfc_cmd :=
  match o with Done (n, _) w => (n, w.(w_log)) | Fault _ _ => (-1, []) end.
Example three_bytes_written :
  told (uboot_write boot_dev [1; 2; 3] 3 with_table) = (3, replicate 4 (Idle 0 0)).
Proof. vm_compute. reflexivity. Qed.


(** Operations that succeed at once. *)
Definition instant : ChipOperation unit := {|
  op_erase_block := mret 0; op_read_page := mret 0; op_write_page := mret 0;
  op_block_isbad := mret 0; op_block_markbad := mret 0; op_test_block_chip_op := mret 0;
  op_test_block_reserved _ := mret 0; op_blk_modify_bbt_chip_op _ := mret 0;
  op_update_bbt_chip_op := mret 0
|}.
Example roomboot_terminates_witness :
  boot_geometry (flash (w_chip read_only)) 256 /\
  wp (roomboot_nand_write (ChipOperation0 := instant) boot_dev) (fun _ _ => True) in_fuel read_only.
Proof.
  assert (boot_geometry (flash (w_chip read_only)) 256) as Hg.
  { split; [split; reflexivity | reflexivity | reflexivity | by exists 128 | by exists 1]. }
  split; [done|]. apply (roomboot_terminates (ops := instant)) with (n := 256); try done.
Defined.
End BootWitness.
