(* ===== verification/ChipInit.v ===== *)
(** * ChipInit: [phy/chip.c] and the tables of [phy/id_table.c].

    Bringing a chip up: it is asked for its identification, looked up in the
    tables of known chips, the other chip selects are scanned for more chips
    of the same kind, and the controller's buffers, timing and ECC mode are
    chosen. *)
From S2P Require Import Prelude NfcWords Data Machine Guards Ctrl HwController ChipOp RetryTables ChipEnv NewNand PhyDev.

Definition NAND_MFR_TOSHIBA : Z := 0x98.
Definition NAND_MFR_SANDISK : Z := 0x45.
Definition NAND_TYPE_MLC : Z := 0.
Definition NAND_TYPE_SLC : Z := 1.
Definition MAX_ID_LEN : nat := 8.
Definition NAND_CMD_ID_ADDR_NORMAL : Z := 0x00.
Definition NAND_CMD_ID_ADDR_ONFI : Z := 0x20.
Definition NAND_ID_FAILURE : Z := 3.
Definition NAND_ECC_UNIT_SIZE : Z := 512.

(** ** The known chips
    Without their names; an identification is filled up with zeros. *)
Definition flash_id_of (id : list Z) : list Z := id ++ replicate (MAX_ID_LEN - length id) 0.

Definition flash_ids_slc : list nand_flash := [
  mk_flash 512 128 0x4000 0 0 0 0 0 0 0
    (flash_id_of [0; 0x79]);
  mk_flash 512 256 0x4000 0 0 0 0 0 0 0
    (flash_id_of [0; 0x71]);
  mk_flash 0 64 0 0 0 0 0 0 0 0
    (flash_id_of [0; 0xF2]);
  mk_flash 0 128 0 0 0 0 0 0 0 0
    (flash_id_of [0; 0xF1]);
  mk_flash 0 256 0 0 0 0 0 0 0 0
    (flash_id_of [0; 0xDA]);
  mk_flash 0 512 0 0 0 0 0 0 0 0
    (flash_id_of [0; 0xDC]);
  mk_flash 0 1024 0 0 0 0 0 0 0 0
    (flash_id_of [0; 0xD3])].

Definition flash_ids_mlc : list nand_flash := [
  mk_flash 4096 2048 0x80000 224 1 20 15 0 0 NAND_MULTI_PLANE_MODE
    (flash_id_of [NAND_MFR_HYNIX; 0xd5; 0x94; 0x25; 0x44; 0x41]);
  mk_flash 8192 4096 0x200000 448 1 20 15 0 0 NAND_MULTI_PLANE_MODE
    (flash_id_of [NAND_MFR_HYNIX; 0xd7; 0x94; 0x9a; 0x74; 0x42]);
  mk_flash 8192 2048 0x200000 448 1 20 15 0 0 NAND_MULTI_PLANE_MODE
    (flash_id_of [NAND_MFR_HYNIX; 0xd5; 0x94; 0x9a; 0x74; 0x42]);
  mk_flash 8192 4096 0x200000 640 1 16 15 0 HYNIX_26NM_4GB NAND_MULTI_PLANE_MODE
    (flash_id_of [NAND_MFR_HYNIX; 0xd7; 0x94; 0xda; 0x74; 0xc3]);
  mk_flash 8192 8192 0x200000 448 1 16 15 0 HYNIX_26NM_8GB NAND_MULTI_PLANE_MODE
    (flash_id_of [NAND_MFR_HYNIX; 0xde; 0x94; 0xd2; 0x04; 0x43]);
  mk_flash 8192 4096 0x200000 640 1 16 15 0 HYNIX_20NM_4GB NAND_MULTI_PLANE_MODE
    (flash_id_of [NAND_MFR_HYNIX; 0xd7; 0x94; 0x91; 0x60; 0x44]);
  mk_flash 8192 8192 0x200000 640 1 16 15 0 HYNIX_20NM_8GB NAND_MULTI_PLANE_MODE
    (flash_id_of [NAND_MFR_HYNIX; 0xde; 0x94; 0xda; 0x74; 0xc4]);
  mk_flash 16384 8192 0x400000 1280 1 16 15 0 HYNIX_20NM_4GB NAND_MULTI_PLANE_MODE
    (flash_id_of [NAND_MFR_HYNIX; 0xde; 0x94; 0xeb; 0x74; 0x44]);
  mk_flash 16384 8192 0x400000 1664 1 16 15 0 HYNIX_1YNM_8GB NAND_MULTI_PLANE_MODE
    (flash_id_of [NAND_MFR_HYNIX; 0xde; 0x14; 0xA7; 0x42; 0x4A]);
  mk_flash 8192 8192 0x200000 744 1 16 15 5 MICRON_20NM NAND_MULTI_PLANE_MODE
    (flash_id_of [NAND_MFR_MICRON; 0x64; 0x44; 0x4B; 0xA9]);
  mk_flash 8192 4096 0x200000 744 1 16 15 5 MICRON_20NM NAND_MULTI_PLANE_MODE
    (flash_id_of [NAND_MFR_MICRON; 0x44; 0x44; 0x4B; 0xA9]);
  mk_flash 8192 8192 0x200000 448 1 20 15 0 INTEL_20NM NAND_MULTI_PLANE_MODE
    (flash_id_of [NAND_MFR_INTEL; 0x88; 0x24; 0x4b; 0xA9; 0x84]);
  mk_flash 8192 16384 0x200000 448 1 20 15 0 INTEL_20NM NAND_MULTI_PLANE_MODE
    (flash_id_of [NAND_MFR_INTEL; 0x88; 0x24; 0x4b; 0xA9; 0x84]);
  mk_flash 4096 4096 0x80000 218 1 16 15 0 0 NAND_MULTI_PLANE_MODE
    (flash_id_of [NAND_MFR_MICRON; 0xd7; 0x94; 0x3e; 0x84]);
  mk_flash 4096 16384 0x80000 218 1 16 15 0 0 NAND_MULTI_PLANE_MODE
    (flash_id_of [NAND_MFR_MICRON; 0xd9; 0xd5; 0x3e; 0x88]);
  mk_flash 4096 4096 0x100000 224 1 20 15 4 0 NAND_MULTI_PLANE_MODE
    (flash_id_of [NAND_MFR_MICRON; 0x68; 0x04; 0x46; 0x89]);
  mk_flash 4096 8192 0x100000 224 1 20 15 4 0 NAND_MULTI_PLANE_MODE
    (flash_id_of [NAND_MFR_MICRON; 0x88; 0x05; 0xc6; 0x89]);
  mk_flash 4096 4096 0x100000 224 1 16 15 5 0 NAND_MULTI_PLANE_MODE
    (flash_id_of [NAND_MFR_MICRON; 0x68; 0x04; 0x4a; 0xa9]);
  mk_flash 8192 8192 0x200000 448 1 16 15 5 0 NAND_MULTI_PLANE_MODE
    (flash_id_of [NAND_MFR_MICRON; 0x88; 0x04; 0x4b; 0xa9]);
  mk_flash 8192 16384 0x200000 448 2 16 15 5 0 NAND_MULTI_PLANE_MODE
    (flash_id_of [NAND_MFR_MICRON; 0xa8; 0x05; 0xcb; 0xa9]);
  mk_flash 4096 4096 0x100000 218 1 20 15 0 0 NAND_MULTI_PLANE_MODE
    (flash_id_of [NAND_MFR_INTEL; 0x68; 0x04; 0x46; 0xA9]);
  mk_flash 8192 8192 0x200000 448 1 20 15 0 0 NAND_MULTI_PLANE_MODE
    (flash_id_of [NAND_MFR_INTEL; 0x88; 0x24; 0x4b; 0xA9]);
  mk_flash 8192 2048 0x100000 376 1 20 25 0 0 NAND_MULTI_PLANE_MODE
    (flash_id_of [NAND_MFR_TOSHIBA; 0xD5; 0x94; 0x32; 0x76; 0x54]);
  mk_flash 8192 4096 0x100000 376 1 20 25 0 0 NAND_MULTI_PLANE_MODE
    (flash_id_of [NAND_MFR_TOSHIBA; 0xD7; 0x94; 0x32; 0x76; 0x54]);
  mk_flash 8192 2076 0x100000 448 1 20 25 0 0 NAND_MULTI_PLANE_MODE
    (flash_id_of [NAND_MFR_TOSHIBA; 0xD5; 0x94; 0x32; 0x76; 0x55]);
  mk_flash 8192 4096 0x100000 448 1 20 25 0 0 NAND_MULTI_PLANE_MODE
    (flash_id_of [NAND_MFR_TOSHIBA; 0xD7; 0x94; 0x32; 0x76; 0x55]);
  mk_flash 8192 8192 0x100000 448 1 20 25 0 0 NAND_MULTI_PLANE_MODE
    (flash_id_of [NAND_MFR_TOSHIBA; 0xDE; 0x94; 0x32; 0x76; 0x55]);
  mk_flash 8192 8200 0x100000 448 2 20 25 0 0 NAND_MULTI_PLANE_MODE
    (flash_id_of [NAND_MFR_TOSHIBA; 0xDE; 0x95; 0x32; 0x7a; 0x55]);
  mk_flash 8192 4096 0x100000 640 1 20 25 0 TOSHIBA_2XNM NAND_MULTI_PLANE_MODE
    (flash_id_of [NAND_MFR_TOSHIBA; 0xD7; 0x94; 0x32; 0x76; 0x56]);
  mk_flash 8192 8192 0x200000 640 1 20 25 0 TOSHIBA_2XNM NAND_MULTI_PLANE_MODE
    (flash_id_of [NAND_MFR_TOSHIBA; 0xDE; 0x94; 0x82; 0x76; 0x56]);
  mk_flash 16384 8192 0x400000 1280 1 20 25 0 TOSHIBA_2XNM 0
    (flash_id_of [NAND_MFR_TOSHIBA; 0xDE; 0x84; 0x93; 0x72; 0x57]);
  mk_flash 16384 4096 0x400000 1280 1 20 25 0 TOSHIBA_2XNM 0
    (flash_id_of [NAND_MFR_TOSHIBA; 0xD7; 0x84; 0x93; 0x72; 0x57]);
  mk_flash 16384 16384 0x400000 1280 2 20 25 0 TOSHIBA_2XNM 0
    (flash_id_of [NAND_MFR_TOSHIBA; 0x3a; 0x85; 0x93; 0x76; 0x57]);
  mk_flash 16384 4096 0x400000 1280 1 20 25 0 TOSHIBA_A19NM 0
    (flash_id_of [NAND_MFR_TOSHIBA; 0xD7; 0x84; 0x93; 0x72; 0x50]);
  mk_flash 16384 8192 0x400000 1280 1 20 25 0 TOSHIBA_A19NM NAND_MULTI_PLANE_MODE
    (flash_id_of [NAND_MFR_TOSHIBA; 0xDE; 0x94; 0x93; 0x76; 0x50]);
  mk_flash 16384 8192 0x400000 1280 1 20 25 0 SANDISK_19NM NAND_MULTI_PLANE_MODE
    (flash_id_of [NAND_MFR_SANDISK; 0xDE; 0x94; 0x93; 0x76; 0x57]);
  mk_flash 16384 4096 0x400000 1280 1 20 25 0 SANDISK_19NM 0
    (flash_id_of [NAND_MFR_SANDISK; 0xD7; 0x84; 0x93; 0x72; 0x57]);
  mk_flash 8192 8192 0x200000 640 1 20 25 0 SANDISK_24NM 0
    (flash_id_of [NAND_MFR_SANDISK; 0xDE; 0xA4; 0x82; 0x76; 0x56]);
  mk_flash 16384 8192 0x400000 1280 1 20 25 0 SANDISK_A19NM NAND_MULTI_PLANE_MODE
    (flash_id_of [NAND_MFR_SANDISK; 0xDE; 0x94; 0x93; 0x76; 0x50]);
  mk_flash 16384 4096 0x400000 1280 1 20 25 0 SANDISK_A19NM_4G 0
    (flash_id_of [NAND_MFR_SANDISK; 0xD7; 0x84; 0x93; 0x72; 0x50]);
  mk_flash 4096 2048 0x80000 128 1 20 15 0 0 0
    (flash_id_of [NAND_MFR_SAMSUNG; 0xD5; 0x14; 0xb6; 0x74]);
  mk_flash 4096 2048 0x80000 218 1 20 15 0 0 NAND_MULTI_PLANE_MODE
    (flash_id_of [NAND_MFR_SAMSUNG; 0xD5; 0x94; 0x29; 0x34; 0x41]);
  mk_flash 8192 2048 0x100000 436 1 25 15 0 0 0
    (flash_id_of [NAND_MFR_SAMSUNG; 0xD5; 0x84; 0x72; 0x50; 0x42]);
  mk_flash 8192 2048 0x100000 512 1 25 15 0 0 NAND_MULTI_PLANE_MODE
    (flash_id_of [NAND_MFR_SAMSUNG; 0xD5; 0x94; 0x76; 0x54; 0x43]);
  mk_flash 8192 4096 0x100000 436 1 20 15 0 0 NAND_MULTI_PLANE_MODE
    (flash_id_of [NAND_MFR_SAMSUNG; 0xD7; 0xC5; 0x72; 0x54; 0x42]);
  mk_flash 8192 8192 0x100000 436 1 20 15 0 0 NAND_MULTI_PLANE_MODE
    (flash_id_of [NAND_MFR_SAMSUNG; 0xDE; 0xC5; 0x72; 0x54; 0x42]);
  mk_flash 8192 4152 0x100000 640 1 20 15 0 0 NAND_MULTI_PLANE_MODE
    (flash_id_of [NAND_MFR_SAMSUNG; 0xD7; 0x94; 0x7a; 0x54; 0x43]);
  mk_flash 8192 8304 0x100000 640 1 20 15 0 0 NAND_MULTI_PLANE_MODE
    (flash_id_of [NAND_MFR_SAMSUNG; 0xDE; 0xD5; 0x7a; 0x58; 0x43]);
  mk_flash 8192 4096 0x100000 640 1 20 15 0 SUMSUNG_2XNM NAND_MULTI_PLANE_MODE
    (flash_id_of [NAND_MFR_SAMSUNG; 0xD7; 0x94; 0x7e; 0x64; 0x44]);
  mk_flash 8192 8192 0x100000 640 1 20 15 0 SUMSUNG_2XNM NAND_MULTI_PLANE_MODE
    (flash_id_of [NAND_MFR_SAMSUNG; 0xDE; 0xA4; 0x7A; 0x68; 0xC4]);
  mk_flash 8192 8192 0x100000 640 1 20 15 0 SUMSUNG_2XNM NAND_MULTI_PLANE_MODE
    (flash_id_of [NAND_MFR_SAMSUNG; 0xDE; 0xD5; 0x7e; 0x68; 0x44])].

(** ** Looking a chip up
    SLC chips by their second byte, MLC chips by all bytes of their table
    entry up to its first zero. *)
Fixpoint strlen (l : list Z) : nat :=
  match l with
  | [] => 0
  | c :: l' => if c =? 0 then 0 else S (strlen l')
  end.
(** [!strncmp(id, dev_id, strlen(id))] *)
Definition id_matches (dev_id id : list Z) : bool :=
  bool_decide (take (strlen id) dev_id = take (strlen id) id).
Definition find_slc (dev_id : list Z) : Datatypes.option nand_flash :=
  List.find (fun f => arr dev_id 1 =? arr f.(flash_id) 1) flash_ids_slc.
Definition find_mlc (dev_id : list Z) : Datatypes.option nand_flash :=
  List.find (fun f => id_matches dev_id f.(flash_id)) flash_ids_mlc.

Section ChipInit.
Context {D : Type} `{!NandHw D}.

Definition read_dev_id (chip_nr id_addr : Z) (dev_id : list Z) : act D (Z * list Z) :=
  on_stack dev_id (fun b =>
    ret ← read_id chip_nr id_addr b; l ← load_bytes b (Z.of_nat MAX_ID_LEN); mret (ret, l)).

(** An SLC chip whose size is not in the table says it in its fifth byte. *)
Definition read_geometry : act D Z :=
  v ← controller_read_byte;
  extid ← controller_read_byte;
  let page := 1024 * 2 ^ Z.land extid 3 in
  let extid1 := Z.shiftr extid 2 in
  let oob := (8 * 2 ^ Z.land extid1 1) * (page / 512) in
  let extid2 := Z.shiftr extid1 2 in
  let block := (64 * 1024) * 2 ^ Z.land extid2 3 in
  let extid3 := Z.shiftr extid2 2 in
  upd_flash (fun f => set_pagesize page (set_oobsize oob (set_blocksize block f))) ;;
  mret (if has extid3 2 then - NAND_ID_FAILURE else 0).

Definition get_flash_type : act D Z :=
  '(ret, dev_id) ← read_dev_id 0 NAND_CMD_ID_ADDR_NORMAL (zeros MAX_ID_LEN);
  if ret <? 0 then mret ret
  else
    let slc := find_slc dev_id in
    let type := match slc with Some f => Some f | None => find_mlc dev_id end in
    match type with
    | None => mret (- NAND_ID_FAILURE)
    | Some f =>
        upd_ctl (set_flash_type (match slc with Some _ => NAND_TYPE_SLC | None => NAND_TYPE_MLC end)) ;;
        upd_chip (set_flash f) ;;
        upd_ctl (set_mfr_type (arr f.(flash_id) 0)) ;;
        ret ← (if f.(pagesize) =? 0 then read_geometry else mret ret);
        if ret <? 0 then mret ret
        else
          '(ret, dev_id) ← read_dev_id 0 NAND_CMD_ID_ADDR_ONFI dev_id;
          if ret <? 0 then mret ret
          else
            fl ← chip flash;
            upd_ctl (set_page_shift (u16 (ffs fl.(pagesize) - 1))) ;;
            upd_ctl (set_block_shift (u16 (ffs fl.(blocksize) - 1))) ;;
            shift ← ctl_ page_shift;
            nums ← div_ (shl32 fl.(chipsize) (20 - shift)) fl.(internal_chipnr);
            upd_ctl (set_internal_page_nums nums) ;;
            when_ (bool_decide (take 4 dev_id = ascii4 "ONFI"))
              (upd_ctl (set_onfi_mode fl.(flash_onfi_mode))) ;;
            mret ret
    end.

(** One more chip select: a chip with the same second byte gets the next place
    in the controller's lists. *)
Definition scan_chip (i chip_num : Z) : act D Z :=
  '(ret, dev_id) ← read_dev_id i NAND_CMD_ID_ADDR_NORMAL (zeros MAX_ID_LEN);
  if ret <? 0 then mret chip_num
  else
    c ← gets w_chip;
    let type := c.(controller).(flash_type) in
    if ((type =? NAND_TYPE_SLC) || (type =? NAND_TYPE_MLC))
       && (arr c.(flash).(flash_id) 1 =? arr dev_id 1) then
      upd_ctl (fun h =>
        set_ce_enable (<[Z.to_nat chip_num := pad_enable CE_PAD_DEFAULT i]> h.(ce_enable))
          (set_rb_enable (<[Z.to_nat chip_num := pad_enable RB_PAD_DEFAULT i]> h.(rb_enable)) h)) ;;
      upd_chip (fun c => set_ce_bit_mask (Z.lor c.(ce_bit_mask) (Z.shiftl 1 i)) c) ;;
      mret (chip_num + 1)
    else mret chip_num.

Definition scan_chips : act D Z :=
  r ← for_ (R := unit) 3 1 (fun i n => n ← scan_chip i n; mret (Next n)) 1;
  mret (match r with inl n => n | inr _ => 0 end).

Definition amlnand_chip_scan : act D Z :=
  nand_get_chip ;;
  ret ← get_flash_type;
  ret ← (if ret <? 0 then mret ret
         else
           upd_ctl (set_chip_num MAX_CHIP_NUM) ;;
           upd_ctl (fun h => set_ctl_option (Z.lor h.(ctl_option) NAND_CTRL_NONE_RB) h) ;;
           upd_chip (fun c => set_ce_bit_mask (Z.lor c.(ce_bit_mask) 1) c) ;;
           chip_num ← scan_chips;
           upd_ctl (set_chip_num (u8 chip_num)) ;;
           when_ (chip_num =? MAX_CHIP_NUM)
             (upd_flash (fun f =>
                set_flash_option (Z.land f.(flash_option) (not32 NAND_MULTI_PLANE_MODE)) f)) ;;
           set_onfi_again ;;
           mret 0);
  nand_release_chip ;;
  mret ret.

(** ** Buffers *)

(** [dma_alloc_coherent]: zeroed memory, and its address on the bus. *)
Definition dma_alloc (size : Z) : act D (ptr * Z) :=
  p ← kzalloc size;
  if is_null p then mret (Null, 0) else addr ← kernel_call; mret (p, u32 addr).
(** [amlnf_dma_free]; the device and the bus address it passes on are NULL and
    a variable that is never set. *)
Definition amlnf_dma_free (p : ptr) (size : Z) : act D unit := kfree p.

Definition multi_plane (n option : Z) : Z :=
  if has option NAND_MULTI_PLANE_MODE then shl32 n 1 else n.

(** The labels [exit_error2] and [exit_error1]. *)
Definition free_dma_bufs : act D unit :=
  fl ← chip flash;
  c ← chip controller;
  n ← div_ fl.(pagesize) c.(ecc_bytes);
  amlnf_dma_free c.(ctl_user_buf) (n * 4) ;;
  amlnf_dma_free c.(ctl_data_buf) (fl.(pagesize) + fl.(oobsize)).

Definition nand_buf_init : act D Z :=
  upd_ctl (set_ecc_unit NAND_ECC_UNIT_SIZE) ;;
  fl ← chip flash;
  chips ← ctl_ chip_num;
  let both := u32 (fl.(pagesize) + fl.(oobsize)) in
  '(p, a) ← dma_alloc both;
  upd_ctl (fun h => set_ctl_data_buf p (if is_null p then h else set_data_dma_addr a h)) ;;
  if is_null p then mret (- NAND_MALLOC_FAILURE)
  else
    '(q, a) ← dma_alloc (u32 (fl.(pagesize) / NAND_ECC_UNIT_SIZE * PER_INFO_BYTE + 16));
    upd_ctl (fun h => set_ctl_user_buf q (if is_null q then h else set_info_dma_addr a h)) ;;
    if is_null q then
      amlnf_dma_free p both ;; mret (- NAND_MALLOC_FAILURE)
    else
      page ← kmalloc (multi_plane (u32 (both * chips)) fl.(flash_option));
      upd_ctl (set_ctl_page_buf page) ;;
      if is_null page then free_dma_bufs ;; mret (- NAND_MALLOC_FAILURE)
      else
        oob ← kmalloc (multi_plane (u32 (fl.(oobsize) * chips)) fl.(flash_option));
        upd_ctl (set_ctl_oob_buf oob) ;;
        if is_null oob then kfree page ;; free_dma_bufs ;; mret (- NAND_MALLOC_FAILURE)
        else mret 0.

Definition nand_buf_free : act D unit :=
  fl ← chip flash;
  c ← chip controller;
  amlnf_dma_free c.(ctl_data_buf) (fl.(pagesize) + fl.(oobsize)) ;;
  n ← div_ fl.(pagesize) c.(ecc_bytes);
  amlnf_dma_free c.(ctl_user_buf) (n * 4) ;;
  kfree c.(ctl_page_buf) ;;
  kfree c.(ctl_oob_buf).

Definition amlnand_chip_init : act D Z :=
  ret ← amlnand_chip_scan;
  if truthy ret then mret ret
  else
    ret ← nand_buf_init;
    if truthy ret then mret ret
    else
      ret ← controller_adjust_timing;
      if truthy ret then nand_buf_free ;; mret ret
      else
        ret ← controller_ecc_confirm;
        if truthy ret then nand_buf_free ;; mret ret else mret 0.
End ChipInit.

(** ** The tables *)
Definition log2_in (lo hi x : Z) : bool :=
  existsb (fun k => x =? 2 ^ Z.of_nat k) (seq (Z.to_nat lo) (Z.to_nat (hi - lo + 1))).
(** Pages of 4 to 16 KiB in blocks of 64 to 256 pages, one or two dies of whole
    pages, a size that fits 32 bits, and a type the driver has a place for. *)
Definition geometry_ok (f : nand_flash) : bool :=
  log2_in 12 14 f.(pagesize) && log2_in 19 22 f.(blocksize)
  && (64 <=? f.(blocksize) / f.(pagesize)) && (f.(blocksize) / f.(pagesize) <=? 256)
  && ((f.(internal_chipnr) =? 1) || (f.(internal_chipnr) =? 2))
  && (f.(chipsize) mod f.(internal_chipnr) =? 0)
  && (0 <? f.(chipsize)) && (f.(chipsize) <? 2 ^ 23) && (0 <? f.(oobsize)).

Lemma mlc_table_ok : forallb geometry_ok flash_ids_mlc = true.
Proof. vm_compute. reflexivity. Qed.
Lemma slc_table_dies : forallb (fun f => f.(internal_chipnr) =? 0) flash_ids_slc = true.
Proof. vm_compute. reflexivity. Qed.

Lemma find_mlc_ok id f : find_mlc id = Some f -> f ∈ flash_ids_mlc /\ geometry_ok f = true.
Proof.
  intros [Hin _]%List.find_some. split; [by apply list_elem_of_In|].
  pose proof mlc_table_ok as H. rewrite forallb_forall in H. by apply H.
Qed.
Lemma find_slc_ok id f : find_slc id = Some f -> internal_chipnr f = 0.
Proof.
  intros [Hin _]%List.find_some. pose proof slc_table_dies as H.
  rewrite forallb_forall in H. apply Z.eqb_eq. by apply H.
Qed.

Lemma ffs_double x : 0 < x -> ffs (2 * x) = 1 + ffs x.
Proof. by destruct x. Qed.
Lemma ffs_pow2 k : ffs (2 ^ Z.of_nat k) = Z.of_nat k + 1.
Proof.
  induction k as [|k IH]; [done|].
  rewrite Nat2Z.inj_succ, Z.pow_succ_r, ffs_double, IH by (try apply Z.pow_pos_nonneg; lia). lia.
Qed.
Lemma log2_in_spec lo hi x :
  0 <= lo -> log2_in lo hi x = true -> exists k, lo <= k <= hi /\ x = 2 ^ k /\ ffs x - 1 = k.
Proof.
  intros Hlo H. unfold log2_in in H. apply existsb_exists in H as (k & Hk & Hx%Z.eqb_eq).
  apply in_seq in Hk. exists (Z.of_nat k). subst x. rewrite ffs_pow2. split; [lia|]. split; [done | lia].
Qed.

(** What the controller derives from an entry. *)
Lemma geometry_derived f :
  geometry_ok f = true ->
  let ps := u16 (ffs f.(pagesize) - 1) in
  let bs := u16 (ffs f.(blocksize) - 1) in
  2 ^ ps = f.(pagesize) /\ 2 ^ bs = f.(blocksize) /\
  64 <= f.(blocksize) / f.(pagesize) <= 256 /\ f.(internal_chipnr) <> 0 /\
  shl32 f.(chipsize) (20 - ps) / f.(internal_chipnr) * f.(internal_chipnr) * f.(pagesize)
    = f.(chipsize) * 2 ^ 20.
Proof.
  intros H. unfold geometry_ok in H. rewrite !andb_true_iff in H.
  destruct H as [[[[[[[[Hp Hb] Hlo] Hhi] Hn] Hm] H0] Hs] _].
  apply log2_in_spec in Hp as (p & Hp & Ep & Fp); [|lia].
  apply log2_in_spec in Hb as (b & Hb & Eb & Fb); [|lia].
  cbv zeta. rewrite Fp, Fb. unfold wrap. rewrite !Z.mod_small by lia.
  split_and!; [done | done | lia | lia | lia |].
  unfold shl32, wrap. rewrite Z.shiftl_mul_pow2 by lia.
  assert (p = 12 \/ p = 13 \/ p = 14) as Hcases by lia.
  assert (internal_chipnr f = 1 \/ internal_chipnr f = 2) as Hc by lia.
  rewrite Ep. destruct Hcases as [-> | [-> | ->]], Hc as [-> | ->];  rewrite Z.mod_small by lia;
    repeat match goal with |- context [2 ^ ?e] =>
      let v := eval vm_compute in (2 ^ e) in change (2 ^ e) with v end; clear; Z.to_euclidean_division_equations; lia.
Qed.

(** ** What reading an identification leaves alone: the chip's structure, but
    for which chip is selected. *)
Definition deselected (c : amlnand_chip) : amlnand_chip :=
  set_controller (set_chip_selected 0 (set_rb_received 0 c.(controller))) c.
Definition same_chip {D} (w w' : world D) : Prop :=
  deselected w'.(w_chip) = deselected w.(w_chip).

#[export] Instance same_chip_bus {D} : BusFrame (same_chip (D := D)).
Proof.
  split; try done. split; [done|]. intros w1 w2 w3. unfold same_chip. congruence.
Qed.
#[export] Instance same_chip_preorder {D} : PreOrder (same_chip (D := D)) := bus_preorder.

Lemma runs_respects {S A} (R : S -> S -> Prop) (m : M S A) : runs R m -> respects R m.
Proof. intros H s. eapply wp_mono; [apply H | done | by intros ? ? []]. Qed.

Section Scan.
Context {D : Type} `{!NandHw D}.
Implicit Types w : world D.

Abbreviation only_selects := (respects (same_chip (D := D))).

Lemma selects_load8 p : only_selects (load8 p).
Proof.
  unfold load8. apply respects_bind; [apply _ | | intros; apply respects_ret, _].
  intros w. unfold wp, load_bytes. by destruct (peek _ _ _).
Qed.
Lemma selects_load_bytes p n : only_selects (load_bytes p n).
Proof. intros w. unfold wp, load_bytes. by destruct (peek _ _ _). Qed.
Lemma selects_store8 p v : only_selects (store8 p v).
Proof. intros w. unfold wp, store8, store_bytes. by destruct (poke _ _ _). Qed.
Lemma selects_on_stack {A} bs (f : ptr -> act D A) :
  (forall p, only_selects (f p)) -> only_selects (on_stack bs f).
Proof.
  intros Hf. unfold on_stack. apply respects_bind; [apply _ | apply respects_gets, _ | intros b].
  apply respects_bind; [apply _ | by apply respects_modify | intros _].
  apply respects_bind; [apply _ | apply Hf | intros a].
  apply respects_bind; [apply _ | | intros; apply respects_ret, _].
  intros w. by cbn.
Qed.
Lemma selects_reset n : 0 <= n <= 3 -> only_selects (nand_reset n).
Proof.
  intros Hn. apply runs_respects. unfold nand_reset, NFC_WAIT_FIFO_EMPTY, cle. solve_runs.
  by apply runs_quene_rb; [apply _|].
Qed.
Lemma selects_bus {A} (m : act D A) : runs same_chip m -> only_selects m.
Proof. apply runs_respects. Qed.

Lemma selects_read_bytes b n : only_selects (read_bytes_to b n).
Proof.
  unfold read_bytes_to. apply respects_bind; [apply _ | | intros; apply respects_ret, _].
  apply respects_for; [apply _|]. intros i l.
  apply respects_bind; [apply _ | apply selects_bus, runs_read_byte, _ | intros v].
  apply respects_bind; [apply _ | apply selects_store8 | intros; apply respects_ret, _].
Qed.

Lemma selects_read_id n a b : 0 <= n <= 3 -> only_selects (read_id n a b).
Proof.
  intros Hn. unfold read_id. destruct (is_null b); [apply respects_ret, _|].
  apply respects_bind; [apply _ | apply selects_bus, runs_select_chip; [apply _ | done] | intros r].
  destruct (r <? 0); [apply respects_ret, _|].
  apply respects_bind; [apply _ | by apply selects_reset | intros r'].
  destruct (r' <? 0); [apply respects_ret, _|].
  do 4 (apply respects_bind; [apply _ | apply selects_bus; unfold cle, ale; solve_runs | intros _]).
  apply respects_bind; [apply _ | apply selects_read_bytes | intros; apply respects_ret, _].
Qed.
Lemma selects_read_dev_id n a l : 0 <= n <= 3 -> only_selects (read_dev_id n a l).
Proof.
  intros Hn. apply selects_on_stack. intros p.
  apply respects_bind; [apply _ | by apply selects_read_id | intros r].
  apply respects_bind; [apply _ | apply selects_load_bytes | intros; apply respects_ret, _].
Qed.

Lemma same_chip_flash w w' : same_chip w w' -> flash (w_chip w') = flash (w_chip w).
Proof. intros H. by apply (f_equal flash) in H. Qed.
Lemma same_chip_ctl {A} (g : hw_controller -> A) w w' :
  (forall h, g (set_chip_selected 0 (set_rb_received 0 h)) = g h) ->
  same_chip w w' -> g (controller (w_chip w')) = g (controller (w_chip w)).
Proof. intros Hg H. apply (f_equal (fun c => g (controller c))) in H. cbn in H. by rewrite !Hg in H. Qed.

(** [internal_chipnr] of an SLC chip stays 0, and the number of its pages is
    divided by it. *)
Lemma slc_never_comes_up f v (k : act D Z) Q w :
  internal_chipnr f = 0 -> flash (w_chip w) = f ->
  (forall w, internal_chipnr (flash (w_chip w)) = 0 -> wp k Q (fun _ _ => True) w) ->
  (forall ret w, ret < 0 -> Q ret w) -> 0 <= v ->
  wp (ret ← (if f.(pagesize) =? 0 then read_geometry else mret v);
      if ret <? 0 then mret ret else k) Q (fun _ _ => True) w.
Proof.
  intros Hf Hw Hk HQ Hv. apply wp_bind.
  apply (wp_mono _ (fun _ w' => internal_chipnr (flash (w_chip w')) = 0) _ (fun _ _ => True));
    [|cbv beta; intros ret w1 H1; destruct (Z.ltb_spec ret 0); [by apply wp_ret, HQ | by apply Hk] | done].
  destruct (_ =? _); [|apply wp_ret; by rewrite Hw]. unfold read_geometry.
  do 2 (apply wp_bind; eapply wp_runs; [apply runs_read_byte, _|]; cbv beta; intros ? ? ?%same_chip_flash).
  wp_steps. cbn. congruence.
Qed.

(** *** The chip selects *)

(** The lists of the chips found, the mask of their chip selects and their
    number. *)
Definition lists_of (c : amlnand_chip) : list Z * list Z * Z * Z :=
  (ce_enable (controller c), rb_enable (controller c), ce_bit_mask c, chip_num (controller c)).
Definition selects w := lists_of (w_chip w).
Definition same_selects w w' : Prop := selects w' = selects w.
Instance same_selects_preorder : PreOrder same_selects.
Proof. split; [done|]. intros w1 w2 w3. unfold same_selects. congruence. Qed.

Lemma same_chip_selects w w' : same_chip w w' -> same_selects w w'.
Proof.
  intros H. apply (f_equal lists_of) in H. exact H.
Qed.
Lemma keeps_selects {A} (m : act D A) : only_selects m -> respects same_selects m.
Proof.
  intros H w. eapply wp_mono; [apply H | |]; cbv beta; intros; by apply same_chip_selects.
Qed.
Lemma keeps_nand_get_chip : respects same_selects nand_get_chip.
Proof.
  intros w. unfold wp. rewrite nand_get_chip_eq. cbv zeta.
  destruct (w_mutex w); [done|]. by destruct (w_oracle w (w_calls w) <? 0).
Qed.
Lemma keeps_nand_release_chip : respects same_selects nand_release_chip.
Proof.
  intros w. unfold nand_release_chip. apply wp_bind, wp_gets. destruct (truthy _); [|done].
  unfold wp, mutex_unlock, pinctrl_select_state, kernel_call; by cbn.
Qed.
Hint Resolve keeps_nand_get_chip keeps_nand_release_chip : respects.
Lemma keeps_read_dev_id n a l : 0 <= n <= 3 -> respects same_selects (read_dev_id n a l).
Proof. intros. by apply keeps_selects, selects_read_dev_id. Qed.

Lemma selects_select_chip n : only_selects (controller_select_chip n).
Proof.
  unfold controller_select_chip. destruct (_ && _) eqn:E; [|apply respects_throw, _].
  apply selects_bus. pose proof (runs_select_chip same_chip n ltac:(lia)) as H.
  unfold controller_select_chip in H. by rewrite E in H.
Qed.
Lemma selects_ret {A} (a : A) : only_selects (mret a).
Proof. apply respects_ret, _. Qed.
Lemma selects_chip {A} (f : amlnand_chip -> A) : only_selects (chip f).
Proof. apply respects_gets, _. Qed.
Lemma selects_cmd a b : only_selects (controller_cmd_ctrl a b).
Proof. apply selects_bus, runs_cmd_ctrl, _. Qed.
Lemma selects_idle n : only_selects (idle_selected n).
Proof. apply selects_bus, runs_idle_selected, _. Qed.
Lemma selects_write_byte b : only_selects (controller_write_byte b).
Proof. apply selects_bus, runs_write_byte, _. Qed.
Lemma selects_cmdfifo_size : only_selects NFC_CMDFIFO_SIZE.
Proof. intros w. unfold wp, NFC_CMDFIFO_SIZE, NFC_INFO_GET, mbind, M_bind, device_read. by destruct (hw_info _ _) as [? []]. Qed.
Lemma selects_udelay : only_selects udelay.
Proof. apply selects_bus, runs_udelay, _. Qed.
Hint Resolve selects_select_chip selects_chip selects_ret selects_cmd selects_idle selects_write_byte
  selects_load8 selects_store8 selects_read_bytes selects_cmdfifo_size selects_udelay : respects.

Lemma selects_get_features b a : only_selects (get_onfi_features b a).
Proof. unfold get_onfi_features, ctl_, cle, ale. solve_respects. Qed.
Lemma selects_set_features b a : only_selects (set_onfi_features b a).
Proof. unfold set_onfi_features, ctl_, cle, ale, poll_from. solve_respects. Qed.
Hint Resolve selects_get_features selects_set_features : respects.

Lemma keeps_upd_chip f : (forall c, lists_of (f c) = lists_of c) -> respects same_selects (upd_chip f).
Proof. intros H. apply respects_modify. intros w. apply H. Qed.
Lemma keeps_set_onfi_again : respects same_selects set_onfi_again.
Proof.
  unfold set_onfi_again, ctl_. apply respects_bind; [apply _ | apply respects_gets, _ | intros onfi].
  apply respects_when; [apply _|]. apply respects_bind; [apply _ | | intros _].
  { apply keeps_selects, selects_on_stack. auto with respects nocore. }
  apply respects_bind; [apply _ | | intros f].
  { apply keeps_selects, selects_on_stack. intros. solve_respects. }
  apply respects_when; [apply _|]. by apply keeps_upd_chip.
Qed.

Lemma keeps_get_flash_type : respects same_selects get_flash_type.
Proof.
  assert (respects same_selects read_geometry) as Hgeo.
  { unfold read_geometry.
    do 2 (apply respects_bind; [apply _ | by apply keeps_selects, selects_bus, runs_read_byte, _ | intros ?]).
    apply respects_bind; [apply _ | by apply keeps_upd_chip | intros; apply respects_ret, _]. }
  unfold get_flash_type. repeat (respects_step || (by apply keeps_read_dev_id; lia)
    || (by apply keeps_upd_chip) || apply respects_gets).
Qed.

(** A scanned chip select is found or not. *)
Lemma wp_scan_chip i n w :
  1 <= i <= 3 ->
  wp (scan_chip i n)
     (fun n' w' =>
        (n' = n /\ selects w' = selects w) \/
        (n' = n + 1 /\ let '(ce, rb, mask, num) := selects w in
           selects w' = (<[Z.to_nat n := pad_enable CE_PAD_DEFAULT i]> ce,
                         <[Z.to_nat n := pad_enable RB_PAD_DEFAULT i]> rb,
                         Z.lor mask (Z.shiftl 1 i), num)))
     (fun _ _ => True) w.
Proof.
  intros Hi. unfold scan_chip. apply wp_bind.
  eapply wp_mono; [apply (keeps_read_dev_id i); lia | | done]. intros [ret id] w1 H1.
  destruct (ret <? 0); [apply wp_ret; by left|]. wp_steps.
  destruct (_ && _); wp_steps; [right | by left]. split; [done|].
  unfold same_selects, selects, lists_of in *. cbn in *. injection H1 as -> -> -> ->. done.
Qed.

(** [n] chips, listed in the order of their chip selects. *)
Definition in_order (n : Z) (lists : list Z * list Z * Z * Z) : Prop :=
  let '(ce, rb, mask, _) := lists in
  let sels := List.filter (Z.testbit mask) [0; 1; 2; 3] in
  hd 3 sels = 0 /\ n = Z.of_nat (length sels) /\
  take (length sels) ce = map (pad_enable CE_PAD_DEFAULT) sels /\
  take (length sels) rb = map (pad_enable RB_PAD_DEFAULT) sels.

Lemma wp_scan_chips num w :
  selects w = (map (pad_enable CE_PAD_DEFAULT) [0; 1; 2; 3],
               map (pad_enable RB_PAD_DEFAULT) [0; 1; 2; 3], 1, num) ->
  wp scan_chips (fun n w' => 1 <= n < 256 /\ in_order n (selects w')) (fun _ _ => True) w.
Proof.
  intros E. unfold scan_chips. cbn [for_]. apply wp_bind.
  do 3 (apply wp_bind; apply wp_bind; eapply wp_mono; [apply wp_scan_chip; lia | | done];
    intros ? ? ?; apply wp_ret; cbv beta iota).
  do 2 apply wp_ret. rewrite E in *.
  repeat match goal with
    H : _ \/ _ |- _ => destruct H as [[-> H] | [-> H]]; try rewrite H in *; clear H end;
    vm_compute; done.
Qed.

(** C36: The chips that answer with the kind of the first one are listed in the
    order of their chip selects, without gaps: [ce_bit_mask] has the bits of the
    chip selects found, chip 0 among them, and the [k]th chip is driven through
    the [k]th of these. *)
Theorem chip_scan_selects w :
  w.(w_chip).(controller).(ce_enable) = map (pad_enable CE_PAD_DEFAULT) [0; 1; 2; 3] ->
  w.(w_chip).(controller).(rb_enable) = map (pad_enable RB_PAD_DEFAULT) [0; 1; 2; 3] ->
  w.(w_chip).(ce_bit_mask) = 0 ->
  wp amlnand_chip_scan
     (fun ret w' => 0 <= ret ->
        let c := (w_chip w').(controller) in
        let sels := List.filter (Z.testbit (w_chip w').(ce_bit_mask)) [0; 1; 2; 3] in
        hd 3 sels = 0 /\ c.(chip_num) = Z.of_nat (length sels) /\
        take (length sels) c.(ce_enable) = map (pad_enable CE_PAD_DEFAULT) sels /\
        take (length sels) c.(rb_enable) = map (pad_enable RB_PAD_DEFAULT) sels)
     (fun _ _ => True) w.
Proof.
  intros Hce Hrb Hmask. unfold amlnand_chip_scan.
  apply wp_bind. eapply wp_mono; [apply keeps_nand_get_chip | cbv beta; intros _u w1 H1 | done].
  apply wp_bind. eapply wp_mono; [apply keeps_get_flash_type | cbv beta; intros ret w2 H2 | done].
  assert (selects w2 = selects w) as E by (etransitivity; [exact H2 | exact H1]).
  unfold selects, lists_of in E. rewrite Hce, Hrb, Hmask in E. clear H1 H2 Hce Hrb Hmask.
  injection E as Hce Hrb Hmask _. apply wp_bind. destruct (Z.ltb_spec ret 0).
  { apply wp_ret, wp_bind. eapply wp_mono; [apply wp_any | | done]. intros. apply wp_ret. lia. }
  do 3 (apply wp_bind, wp_upd_chip). apply wp_bind. eapply wp_mono; [|
    | done]; [eapply wp_scan_chips; unfold selects, lists_of; cbn; by rewrite Hce, Hrb, Hmask|].
  cbv beta. intros n w3 [Hn Ho]. apply wp_bind, wp_upd_chip.
  match goal with |- wp _ _ _ ?w4 => assert (in_order (chip_num (controller (w_chip w4))) (selects w4)) as H4 end.
  { cbn. unfold wrap. by rewrite Z.mod_small by (change (2 ^ 8) with 256; lia). }
  match type of H4 with context [selects ?w0] => set (w4 := w0) in *; clearbody w4 end.
  apply (wp_mono _ (fun _ => same_selects w4) _ (fun _ _ => True)); [| |done].
  - apply wp_bind. eapply wp_mono; [by apply (respects_when same_selects _ (upd_flash _)), keeps_upd_chip | | done].
    cbv beta. intros _v w5 H5.
    apply wp_bind. eapply wp_mono; [apply keeps_set_onfi_again | | done]. cbv beta. intros _x w6 H6.
    apply wp_ret. etransitivity; [exact H5 | exact H6].
  - intros r w5 H5. apply wp_bind. eapply wp_mono; [apply keeps_nand_release_chip | | done].
    cbv beta. intros _y w6 H6. apply wp_ret. intros _.
    assert (selects w6 = selects w4) as E by (etransitivity; [exact H6 | exact H5]).
    rewrite <- E in H4. unfold selects, lists_of in E. injection E as _ _ _ E.
    rewrite <- E in H4. exact H4.
Qed.

(** *** Buffers *)
Lemma alloc_done bytes w :
  0 <= w.(w_oracle) w.(w_calls) ->
  alloc_ bytes w = Done (Ptr w.(w_brk) 0)
    (set_w_mem (<[w.(w_brk) := bytes w.(w_calls)]> w.(w_mem))
       (set_w_brk (w.(w_brk) + 1) (set_w_calls (S w.(w_calls)) w))).
Proof.
  intros H. unfold alloc_, kernel_call, mbind, M_bind, gets, modify, mret, M_ret. cbn.
  by rewrite (proj2 (Z.ltb_ge _ _) H).
Qed.
Lemma alloc_failed bytes w :
  w.(w_oracle) w.(w_calls) < 0 -> alloc_ bytes w = Done Null (set_w_calls (S w.(w_calls)) w).
Proof.
  intros H. unfold alloc_, kernel_call, mbind, M_bind, gets, modify, mret, M_ret. cbn.
  by rewrite (proj2 (Z.ltb_lt _ _) H).
Qed.
Lemma wp_dma_alloc size (Q : ptr * Z -> world D -> Prop) E w :
  0 <= w.(w_oracle) w.(w_calls) ->
  (forall a m, Q (Ptr w.(w_brk) 0, a)
     (set_w_calls (S (S w.(w_calls))) (set_w_mem m (set_w_brk (w.(w_brk) + 1) w)))) ->
  wp (dma_alloc size) Q E w.
Proof. intros H HQ. apply wp_bind. unfold wp at 1, kzalloc. rewrite alloc_done by done. apply HQ. Qed.

(** When the page buffer cannot be allocated, the error path divides by
    [ecc_bytes] to find the size of the buffer it frees; at this point of the
    initialisation no ECC mode was chosen yet, and it is 0. *)
Theorem nand_buf_init_error_divides w :
  w.(w_chip).(controller).(ecc_bytes) = 0 ->
  0 <= w.(w_oracle) w.(w_calls) -> 0 <= w.(w_oracle) (w.(w_calls) + 2)%nat ->
  w.(w_oracle) (w.(w_calls) + 4)%nat < 0 ->
  wp nand_buf_init (fun _ _ => False) (fun f _ => f = DivByZero) w.
Proof.
  intros Hecc H0 H2 H4. rewrite Nat.add_comm in H2, H4. unfold nand_buf_init. wp_steps.
  apply wp_dma_alloc; [done|]. intros a m. cbv beta iota. wp_steps. cbn [is_null]. wp_steps.
  apply wp_dma_alloc; [done|]. intros a' m'. cbv beta iota. wp_steps. cbn [is_null]. wp_steps.
  unfold kmalloc. wp_steps. unfold wp at 1. rewrite alloc_failed by done. cbn [is_null].
  unfold free_dma_bufs. wp_steps. cbn. rewrite Hecc. by apply wp_throw.
Qed.
End Scan.

(** ** Two chips, on the first and the third chip select *)
Module ChipWitness.
(** The chip select that commands go to, and the next byte of the
    identification, or -1 for the status. *)
#[local] Instance hw : NandHw (Z * Z) := {
  hw_cmd w d m :=
    let cmd := Z.land w 0x3ff in
    if Z.land w 0x3c000 =? 0x14000 then
      ((Z.land w 0x3c00, if Z.land w 0xff =? 0x90 then 0 else -1), m) else (d, m);
  hw_info d m := (0, (d, m));
  hw_buf d m :=
    if (d.1 =? pad_enable CE_PAD_DEFAULT 0) || (d.1 =? pad_enable CE_PAD_DEFAULT 2) then
      if d.2 <? 0 then (NAND_STATUS_READY, (d, m))
      else (arr [NAND_MFR_HYNIX; 0xde; 0x14; 0xA7; 0x42; 0x4A; 0; 0] d.2, ((d.1, d.2 + 1), m))
    else (0, (d, m));
  hw_cfg _ _ d m := (d, m);
  hw_wait d m := (d, m);
  hw_virt _ := 0
}.

Definition probed : world (Z * Z) :=
  set_w_chip (set_controller
    (set_ce_enable (map (pad_enable CE_PAD_DEFAULT) [0; 1; 2; 3])
      (set_rb_enable (map (pad_enable RB_PAD_DEFAULT) [0; 1; 2; 3])
        (set_ctl_option NAND_CTRL_NONE_RB ctl0))) chip0) (world0 (0, 0)).

Definition answer {S A} (g : A -> S -> Z) (o : outcome S A) : Z :=
  match o with Done a s => g a s | Fault _ _ => -1 end.
Example a_chip_is_found :
  answer (fun ret w => ret * 1000 + page_shift (controller (w_chip w))) (get_flash_type probed) = 14.
Proof. vm_compute. reflexivity. Qed.
Example two_chips_are_found :
  answer (fun ret w => ret * 1000 + ce_bit_mask (w_chip w)) (amlnand_chip_scan probed) = 5.
Proof. vm_compute. reflexivity. Qed.

Example chip_scan_selects_witness :
  wp amlnand_chip_scan
     (fun ret w' => 0 <= ret ->
        let c := (w_chip w').(controller) in
        let sels := List.filter (Z.testbit (w_chip w').(ce_bit_mask)) [0; 1; 2; 3] in
        hd 3 sels = 0 /\ c.(chip_num) = Z.of_nat (length sels) /\
        take (length sels) c.(ce_enable) = map (pad_enable CE_PAD_DEFAULT) sels /\
        take (length sels) c.(rb_enable) = map (pad_enable RB_PAD_DEFAULT) sels)
     (fun _ _ => True) probed.
Proof. apply chip_scan_selects; reflexivity. Defined.

(** The fifth call of the kernel fails. *)
Definition short_of_memory : world (Z * Z) :=
  set_w_oracle (fun n => if Nat.eqb n 4 then -1 else 0) probed.
Example nand_buf_init_error_divides_witness :
  wp nand_buf_init (fun _ _ => False) (fun f _ => f = DivByZero) short_of_memory.
Proof. apply nand_buf_init_error_divides; [reflexivity | discriminate | discriminate | reflexivity]. Defined.
End ChipWitness.
