(* ===== verification/PhyStore.v ===== *)
(** * PhyStore: the physical devices over a chip that keeps what it is given.

    The interface [DevStore] says what [nand_read] and [nand_write] need of the
    chip operations for one way of addressing pages.  Against it: what was
    written is read back, whatever the number of pages, and in SLC mode every
    page of a request is the same page. *)
From S2P Require Import Prelude NfcWords Data Machine Guards Ctrl HwController ChipOp ChipEnv PageStore PhyDev.

#[local] Arguments peek : simpl never.
#[local] Arguments poke : simpl never.

(** ** The interface *)

(** What the loops read of the driver's state between the operations. *)
Definition calm {D} (w : world D) := (setup w, debug_flag (w_chip w)).
(** What stays when the device is taken and given back. *)
Definition fixture {D} (w : world D) :=
  let c := w_chip w in
  (flash c, chip_num (controller c), slc_info (controller c), debug_flag c, w_oracle w).
Definition request (o : chip_ops_para) :=
  (chipnr o, data_buf o, oob_buf o, ooblen o, ops_option o).

(** [unit]: the bytes of a page as the option [opt] addresses it.  Requests are
    without spare bytes. *)
Class DevStore {D : Type} `{!NandHw D} (ops : ChipOperation D) (unit : nand_flash -> Z)
    (opt : Z) := {
  dev_page : D -> Z -> Datatypes.option (list Z);
  ds_write : forall (w : world D) data,
    let o := ops_para (w_chip w) in
    request o = (0, data_buf o, Null, 0, opt) ->
    peek (w_mem w) (data_buf o) (unit (flash (w_chip w))) = Some data ->
    wp op_write_page
      (fun r w' => r = 0 /\ calm w' = calm w /\ w_mem w' = w_mem w /\
        request (ops_para (w_chip w')) = request o /\
        forall a, dev_page (w_dev w') a =
                  if decide (a = page_addr o) then Some data else dev_page (w_dev w) a) noflt w;
  ds_read : forall (w : world D) data m,
    let o := ops_para (w_chip w) in
    request o = (0, data_buf o, Null, 0, opt) ->
    dev_page (w_dev w) (page_addr o) = Some data ->
    Z.of_nat (length data) = unit (flash (w_chip w)) ->
    poke (w_mem w) (data_buf o) data = Some m ->
    wp op_read_page
      (fun r w' => r = 0 /\ calm w' = calm w /\ w_mem w' = m /\
        dev_page (w_dev w') = dev_page (w_dev w) /\
        request (ops_para (w_chip w')) = request o /\
        ecc_err (ops_para (w_chip w')) = 0 /\
        bit_flip (ops_para (w_chip w')) = bit_flip o) noflt w
}.

(** ** Pages of a request *)
Definition chunk (ws : Z) (data : list Z) (k : Z) : list Z :=
  take (Z.to_nat ws) (drop (Z.to_nat (k * ws)) data).

Section Store.
Context {D : Type} `{!NandHw D} `{ops : !ChipOperation D}.
Implicit Types (w : world D) (p : amlnand_phydev).

(** The page address of page [k] of the request. *)
Definition page_of_request w p (k : Z) : Z :=
  if has (phydev_option p) DEV_SLC_MODE
  then slc_addr p (new_type (flash (w_chip w))) (pagelist (slc_info (controller (w_chip w))))
  else u32 (Z.shiftr (u64 (offset p + addr (devops p) + k * writesize p)) (writesize_shift p)).

(** A request of [m] whole pages that fits the device, hardware ECC. *)
Record whole_pages (p : amlnand_phydev) (m : Z) : Prop := {
  wh_some : 0 < m;
  wh_page : 0 < writesize p;
  wh_len : len (devops p) = m * writesize p;
  wh_addr : 0 <= addr (devops p);
  wh_fits : addr (devops p) + len (devops p) <= size p;
  wh_size : size p < 2 ^ 64;
  wh_spare : devops_ooblen (devops p) = 0 /\ oobbuf (devops p) = Null;
  wh_mode : mode (devops p) = NAND_HW_ECC
}.

Lemma in_space p m : whole_pages p m -> out_of_space p = false.
Proof.
  intros [? ? ? ? ? ? ? ?]. unfold out_of_space, wrap. apply Z.ltb_ge.
  rewrite Z.mod_small; nia.
Qed.

Lemma rounds_enough p m : whole_pages p m -> (Z.to_nat m < rounds (len (devops p)) (writesize p))%nat.
Proof.
  intros [? ? E ? ? ? ? ?]. unfold rounds. rewrite E.
  replace (Z.max 1 (writesize p)) with (writesize p) by lia. rewrite Z.div_mul by lia. lia.
Qed.

Lemma wp_serial_chip a s w (Q : () -> world D -> Prop) E : Q tt w -> wp (serial_chip a s) Q E w.
Proof.
  intros HQ. unfold serial_chip. wp_steps. unfold has, DEV_SERIAL_CHIP_MODE. rewrite Z.land_0_r.
  exact HQ.
Qed.

Lemma wp_point_to p a w (Q : () -> world D -> Prop) E :
  Q tt (set_w_chip (set_ops_para
    (set_page_addr
       (if has (ops_option (ops_para (w_chip w))) DEV_SLC_MODE
        then slc_addr p (new_type (flash (w_chip w))) (pagelist (slc_info (controller (w_chip w))))
        else u32 (Z.shiftr a (writesize_shift p)))
       (ops_para (w_chip w))) (w_chip w)) w) ->
  wp (point_to p a) Q E w.
Proof.
  intros HQ. unfold point_to, amlnand_slc_addr_trs. wp_steps.
  destruct (has _ DEV_SLC_MODE); wp_steps; exact HQ.
Qed.

Lemma fixture_calm w w' : calm w' = calm w -> fixture w' = fixture w.
Proof. unfold calm, setup, fixture. intros E. cbn in *. congruence. Qed.
Lemma calm_inv w w' : calm w' = calm w ->
  flash (w_chip w') = flash (w_chip w) /\ state (w_chip w') = state (w_chip w) /\
  slc_info (controller (w_chip w')) = slc_info (controller (w_chip w)) /\
  debug_flag (w_chip w') = debug_flag (w_chip w) /\ w_idleflag w' = w_idleflag w /\
  w_oracle w' = w_oracle w.
Proof. unfold calm, setup. intros E. cbn in E. split_and!; congruence. Qed.
Lemma page_of_request_calm w w' p k :
  fixture w' = fixture w -> page_of_request w' p k = page_of_request w p k.
Proof.
  unfold fixture, page_of_request. cbn. intros E.
  assert (flash (w_chip w') = flash (w_chip w)) as -> by congruence.
  by assert (slc_info (controller (w_chip w')) = slc_info (controller (w_chip w))) as -> by congruence.
Qed.

(** *** One page *)
Context (unit : nand_flash -> Z) (opt : Z) `{!DevStore ops unit opt}.

(** The page the loops point to for flash address [a]. *)
Definition pointed w p (a : Z) : Z :=
  if has opt DEV_SLC_MODE
  then slc_addr p (new_type (flash (w_chip w))) (pagelist (slc_info (controller (w_chip w))))
  else u32 (Z.shiftr a (writesize_shift p)).

Definition next_page p (n a l : Z) : ctl (Z * Z * Z) Z :=
  if n <=? u64 (l + writesize p) then Break (u64 (a + writesize p), u64 (l + writesize p), 0)
  else Next (u64 (a + writesize p), u64 (l + writesize p), 0).

Lemma wp_write_one p n a l r0 buf data w (Q : ctl (Z * Z * Z) Z -> world D -> Prop) :
  writesize p = unit (flash (w_chip w)) ->
  request (ops_para (w_chip w)) = (0, buf, Null, 0, opt) ->
  peek (w_mem w) buf (writesize p) = Some data ->
  (forall w', calm w' = calm w -> w_mem w' = w_mem w ->
     request (ops_para (w_chip w')) = (0, bump buf (writesize p), Null, 0, opt) ->
     (forall x, dev_page (w_dev w') x =
        if decide (x = pointed w p a) then Some data else dev_page (w_dev w) x) ->
     Q (next_page p n a l) w') ->
  wp (write_one p n (a, l, r0)) Q noflt w.
Proof.
  intros Hws Hreq Hdata HQ. unfold write_one. wp_step. apply wp_serial_chip. wp_step.
  apply wp_point_to. set (w1 := set_w_chip _ w).
  assert (ops_option (ops_para (w_chip w)) = opt /\ data_buf (ops_para (w_chip w)) = buf)
    as [Hopt Hbuf] by (unfold request in Hreq; split; congruence).
  wp_step. eapply wp_mono; [apply (ds_write w1 data) | | done].
  - unfold w1. cbn. unfold request in *. cbn. congruence.
  - unfold w1. cbn. rewrite Hbuf, <- Hws. exact Hdata.
  - intros r w2 (-> & Hc & Hm & Hr & Hp). change (0 <? 0) with false. wp_steps. unfold next_page in HQ.
    specialize (HQ (set_w_chip (set_ops_para (set_data_buf
      (bump (data_buf (ops_para (w_chip w2))) (writesize p)) (ops_para (w_chip w2))) (w_chip w2)) w2)).
    assert (data_buf (ops_para (w_chip w2)) = buf /\ request (ops_para (w_chip w2)) = (0, buf, Null, 0, opt))
      as [Hb2 Hr2].
    { unfold w1, request in *. cbn in Hr. split; congruence. }
    apply HQ.
    + transitivity (calm w2); [reflexivity|]. rewrite Hc. reflexivity.
    + cbn. rewrite Hm. reflexivity.
    + unfold request in *. cbn. congruence.
    + intros x. cbn. rewrite Hp. unfold w1, pointed. cbn. by rewrite Hopt.
Qed.

Lemma wp_read_one p n a l r0 buf data m w (Q : ctl (Z * Z * Z) Z -> world D -> Prop) :
  writesize p = unit (flash (w_chip w)) ->
  request (ops_para (w_chip w)) = (0, buf, Null, 0, opt) ->
  dev_page (w_dev w) (pointed w p a) = Some data -> Z.of_nat (length data) = writesize p ->
  poke (w_mem w) buf data = Some m ->
  (forall w', calm w' = calm w -> w_mem w' = m ->
     request (ops_para (w_chip w')) = (0, bump buf (writesize p), Null, 0, opt) ->
     dev_page (w_dev w') = dev_page (w_dev w) -> ecc_err (ops_para (w_chip w')) = 0 ->
     bit_flip (ops_para (w_chip w')) = bit_flip (ops_para (w_chip w)) ->
     Q (next_page p n a l) w') ->
  wp (read_one p n (a, l, r0)) Q noflt w.
Proof.
  intros Hws Hreq Hpage Hlen Hm HQ. unfold read_one. wp_step. apply wp_serial_chip. wp_step.
  apply wp_point_to. set (w1 := set_w_chip _ w).
  assert (ops_option (ops_para (w_chip w)) = opt /\ data_buf (ops_para (w_chip w)) = buf)
    as [Hopt Hbuf] by (unfold request in Hreq; split; congruence).
  wp_step. eapply wp_mono; [apply (ds_read w1 data m) | | done].
  - unfold w1. cbn. unfold request in *. cbn. congruence.
  - unfold w1. cbn. unfold pointed in Hpage. rewrite Hopt. exact Hpage.
  - unfold w1. cbn. congruence.
  - unfold w1. cbn. by rewrite Hbuf.
  - intros r w2 (-> & Hc & Hm2 & Hp & Hr & He & Hf). wp_steps. unfold id. rewrite He.
    change (truthy 0 || (0 <? 0)) with false. wp_steps. unfold next_page in HQ.
    assert (data_buf (ops_para (w_chip w2)) = buf /\ request (ops_para (w_chip w2)) = (0, buf, Null, 0, opt))
      as [Hb2 Hr2].
    { unfold w1, request in *. cbn in Hr. split; congruence. }
    apply HQ; [transitivity (calm w2); [reflexivity | by rewrite Hc] | exact Hm2 | | exact Hp | exact He
      | exact Hf].
    unfold request in *. cbn. congruence.
Qed.

(** *** All pages *)
Lemma length_chunk ws m data k :
  0 < ws -> Z.of_nat (length data) = m * ws -> 0 <= k < m -> Z.of_nat (length (chunk ws data k)) = ws.
Proof. intros. unfold chunk. rewrite length_take, length_drop. nia. Qed.

Lemma peek_chunk mem buf ws m data k :
  0 < ws -> peek mem buf (m * ws) = Some data -> 0 <= k < m ->
  peek mem (ptr_add buf (k * ws)) ws = Some (chunk ws data k).
Proof. intros ? H ?. apply (peek_sub _ _ (m * ws) data); [exact H | nia..]. Qed.

(** What the pages of a request are after [j] rounds of writing. *)
Definition written w0 p (m j : Z) (data : list Z) w : Prop :=
  (forall k, 0 <= k < j -> dev_page (w_dev w) (page_of_request w0 p k) = Some (chunk (writesize p) data k)) /\
  (forall x, (forall k, 0 <= k < m -> x <> page_of_request w0 p k) ->
     dev_page (w_dev w) x = dev_page (w_dev w0) x).

Definition distinct_pages w p (m : Z) : Prop :=
  forall j k, 0 <= j < k -> k < m -> page_of_request w p j <> page_of_request w p k.

Definition start_of p (k : Z) : Z := u64 (offset p + addr (devops p) + k * writesize p).
Lemma start_of_step p k : u64 (start_of p k + writesize p) = start_of p (k + 1).
Proof. unfold start_of, wrap. rewrite Zplus_mod_idemp_l. f_equal. lia. Qed.
Lemma pointed_start w w0 p k :
  phydev_option p = opt -> fixture w = fixture w0 -> pointed w p (start_of p k) = page_of_request w0 p k.
Proof.
  intros Ho Hf. rewrite <- (page_of_request_calm _ _ _ _ Hf). unfold pointed, page_of_request.
  by rewrite Ho.
Qed.

Lemma bump_step b o ws j : bump (Ptr b (o + j * ws)) ws = Ptr b (o + (j + 1) * ws).
Proof. cbn. f_equal. lia. Qed.

Lemma last_page p m j l :
  whole_pages p m -> 0 <= j < m -> l = j * writesize p ->
  u64 (l + writesize p) = (j + 1) * writesize p /\
  ((len (devops p) <=? (j + 1) * writesize p) = (m <=? j + 1)).
Proof.
  intros [? ? E ? ? ? ? ?] ? ->. split.
  - unfold wrap. rewrite Z.mod_small; nia.
  - rewrite E. destruct (Z.leb_spec m (j + 1)), (Z.leb_spec (m * writesize p) ((j + 1) * writesize p));
      nia.
Qed.

Lemma wp_write_loop p m b o data w (Q : (Z * Z * Z) + Z -> world D -> Prop) :
  whole_pages p m -> phydev_option p = opt -> writesize p = unit (flash (w_chip w)) ->
  request (ops_para (w_chip w)) = (0, Ptr b o, Null, 0, opt) ->
  peek (w_mem w) (Ptr b o) (len (devops p)) = Some data -> distinct_pages w p m ->
  (forall w' a, calm w' = calm w -> w_mem w' = w_mem w -> written w p m m data w' ->
     Q (inl (a, len (devops p), 0)) w') ->
  wp (while_ (R := Z) (rounds (len (devops p)) (writesize p)) (fun _ => true)
        (write_one p (len (devops p))) (start_of p 0, 0, 0)) Q noflt w.
Proof.
  intros Hwh Hopt Hws Hreq Hdata Hdist HQ.
  pose proof (rounds_enough _ _ Hwh) as Hfuel.
  destruct (id Hwh) as [Hm Hpos Hlen _ _ _ _ _]. rewrite Hlen in Hdata.
  apply (wp_while (fun n '(a, l, r) w' => exists j, 0 <= j < m /\ m - j < Z.of_nat n /\
    a = start_of p j /\ l = j * writesize p /\ r = 0 /\ calm w' = calm w /\ w_mem w' = w_mem w /\
    request (ops_para (w_chip w')) = (0, Ptr b (o + j * writesize p), Null, 0, opt) /\
    written w p m j data w')); [done | |].
  - intros n [[a l] r] w1 (j & Hj & Hn & -> & El & _ & Hc & Hmem & Hr & Hst & Hout) _.
    exists (pred n). split; [lia|]. destruct (calm_inv _ _ Hc) as (Hf & _).
    eapply wp_write_one; [by rewrite Hf | exact Hr | |].
    { rewrite Hmem. apply (peek_chunk _ (Ptr b o) _ m data j); done. }
    intros w2 Hc2 Hm2 Hr2 Hp2. rewrite (pointed_start _ w) in Hp2;
      [| exact Hopt | by apply fixture_calm].
    assert (written w p m (j + 1) data w2) as Hwr.
    { split.
      - intros k Hk. rewrite Hp2. case_decide as Ek.
        + destruct (decide (k = j)) as [->|]; [done|]. exfalso. apply (Hdist k j); [lia | lia | done].
        + apply Hst. destruct (decide (k = j)) as [->|]; [done | lia].
      - intros x Hx. rewrite Hp2, decide_False; [by apply Hout | apply Hx; lia]. }
    destruct (last_page p m j l Hwh Hj El) as [Eu Eb]. unfold next_page. rewrite Eu, Eb, start_of_step.
    destruct (Z.leb_spec m (j + 1)) as [Hend|Hmore].
    + replace ((j + 1) * writesize p) with (len (devops p)) by nia.
      apply HQ; [congruence | congruence|]. by replace m with (j + 1) at 2 by lia.
    + exists (j + 1). rewrite <- bump_step. split_and!; try done; try lia; congruence.
  - exists 0. replace (o + 0 * writesize p) with o by lia. split_and!; try done; try lia.
    split; [lia | done].
Qed.

(** The buffer after [j] rounds of reading. *)
Definition filled (ws : Z) (data old : list Z) (j : Z) : list Z :=
  take (Z.to_nat (j * ws)) data ++ drop (Z.to_nat (j * ws)) old.

Lemma filled_step ws m data old j :
  0 < ws -> Z.of_nat (length data) = m * ws -> length old = length data -> 0 <= j < m ->
  splice (filled ws data old j) (j * ws) (chunk ws data j) = filled ws data old (j + 1).
Proof.
  intros Hws Hd Ho Hj. pose proof (length_chunk ws m data j Hws Hd Hj) as Hc.
  assert (Z.to_nat ((j + 1) * ws) = (Z.to_nat (j * ws) + Z.to_nat ws)%nat) as E by nia.
  assert ((Z.to_nat (j * ws) + Z.to_nat ws <= length data)%nat) as Hle by nia.
  unfold splice, filled. replace (length (chunk ws data j)) with (Z.to_nat ws) by lia.
  rewrite E, <- take_take_drop. fold (chunk ws data j).
  assert (length (take (Z.to_nat (j * ws)) data) = Z.to_nat (j * ws)) as Ht
    by (rewrite length_take; lia).
  rewrite take_app_length', drop_app_ge, Ht by lia.
  rewrite <- app_assoc, drop_drop. do 3 f_equal. lia.
Qed.

Lemma filled_all ws m data old :
  Z.of_nat (length data) = m * ws -> length old = length data -> filled ws data old m = data.
Proof.
  intros Hd Ho. unfold filled. rewrite take_ge, drop_ge by lia. by rewrite app_nil_r.
Qed.

(** Memory but for what [peek] sees at [p]. *)
Lemma wp_read_loop p m b o data old w (Q : (Z * Z * Z) + Z -> world D -> Prop) :
  whole_pages p m -> phydev_option p = opt -> writesize p = unit (flash (w_chip w)) ->
  request (ops_para (w_chip w)) = (0, Ptr b o, Null, 0, opt) ->
  peek (w_mem w) (Ptr b o) (len (devops p)) = Some old ->
  Z.of_nat (length data) = len (devops p) ->
  (forall k, 0 <= k < m ->
     dev_page (w_dev w) (page_of_request w p k) = Some (chunk (writesize p) data k)) ->
  (forall w' a, calm w' = calm w -> peek (w_mem w') (Ptr b o) (len (devops p)) = Some data ->
     (forall b', b' <> b -> w_mem w' !! b' = w_mem w !! b') ->
     dev_page (w_dev w') = dev_page (w_dev w) -> ecc_err (ops_para (w_chip w')) = 0 ->
     bit_flip (ops_para (w_chip w')) = bit_flip (ops_para (w_chip w)) ->
     Q (inl (a, len (devops p), 0)) w') ->
  wp (while_ (R := Z) (rounds (len (devops p)) (writesize p)) (fun _ => true)
        (read_one p (len (devops p))) (start_of p 0, 0, 0)) Q noflt w.
Proof.
  intros Hwh Hopt Hws Hreq Hold Hdl Hst HQ.
  pose proof (rounds_enough _ _ Hwh) as Hfuel.
  destruct (id Hwh) as [Hm Hpos Hlen _ _ _ _ _]. apply peek_length in Hold as Hol.
  rewrite Hlen in Hold, Hdl.
  apply (wp_while (fun n '(a, l, r) w' => exists j, 0 <= j < m /\ m - j < Z.of_nat n /\
    a = start_of p j /\ l = j * writesize p /\ calm w' = calm w /\
    peek (w_mem w') (Ptr b o) (m * writesize p) = Some (filled (writesize p) data old j) /\
    (forall b', b' <> b -> w_mem w' !! b' = w_mem w !! b') /\
    request (ops_para (w_chip w')) = (0, Ptr b (o + j * writesize p), Null, 0, opt) /\
    dev_page (w_dev w') = dev_page (w_dev w) /\
    bit_flip (ops_para (w_chip w')) = bit_flip (ops_para (w_chip w)))); [done | |].
  - intros n [[a l] r] w1 (j & Hj & Hn & -> & El & Hc & Hmem & Hoth & Hr & Hd & Hbf) _.
    exists (pred n). split; [lia|]. destruct (calm_inv _ _ Hc) as (Hf & _).
    pose proof (length_chunk (writesize p) m data j Hpos Hdl Hj) as Hcl.
    destruct (peek_poke_Some (w_mem w1) (ptr_add (Ptr b o) (j * writesize p)) (writesize p)
      (chunk (writesize p) (filled (writesize p) data old j) j) (chunk (writesize p) data j))
      as [mem2 Hpoke]; [by apply (peek_chunk _ _ _ m) | lia |].
    eapply wp_read_one; [by rewrite Hf | exact Hr | | exact Hcl | exact Hpoke |].
    { rewrite Hd, (pointed_start _ w); [by apply Hst | done | by apply fixture_calm]. }
    intros w2 Hc2 Hm2 Hr2 Hp2 He2 Hb2.
    assert (peek (w_mem w2) (Ptr b o) (m * writesize p) = Some (filled (writesize p) data old (j + 1)))
      as Hmem2.
    { rewrite Hm2. rewrite <- (filled_step _ m) by (done || lia).
      apply (peek_poke_inside (w_mem w1)); [exact Hmem | nia | nia | exact Hpoke]. }
    assert (forall b', b' <> b -> w_mem w2 !! b' = w_mem w !! b') as Hoth2.
    { intros b' Hb'. rewrite Hm2. apply poke_Some in Hpoke as (b2 & ? & ? & [= <- _] & _ & _ & _ & ->).
      rewrite lookup_insert_ne by done. by apply Hoth. }
    destruct (last_page p m j l Hwh Hj El) as [Eu Eb]. unfold next_page. rewrite Eu, Eb, start_of_step.
    destruct (Z.leb_spec m (j + 1)) as [Hend|Hmore].
    + replace ((j + 1) * writesize p) with (len (devops p)) by nia.
      apply HQ; [congruence | | exact Hoth2 | congruence | exact He2 | congruence].
      rewrite Hlen, Hmem2. replace (j + 1) with m by lia. f_equal. apply filled_all; lia.
    + exists (j + 1). rewrite <- bump_step. split_and!; try done; try lia; congruence.
  - exists 0. replace (o + 0 * writesize p) with o by lia. split_and!; try done; try lia.
Qed.

(** ** Whole requests *)

(** What both need: the device is free, its pages are those of [unit], its
    request is for whole pages in one buffer. *)
Record ready (p : amlnand_phydev) (m b o : Z) w : Prop := {
  rd_unlocked : unlocked w;
  rd_willing : willing w;
  rd_pages : whole_pages p m;
  rd_option : phydev_option p = opt;
  rd_unit : writesize p = unit (flash (w_chip w));
  rd_buf : datbuf (devops p) = Ptr b o
}.

Lemma wp_set_request p m b o w (Q : () -> world D -> Prop) :
  whole_pages p m -> phydev_option p = opt -> datbuf (devops p) = Ptr b o ->
  (forall w', calm w' = calm w -> w_mem w' = w_mem w -> w_dev w' = w_dev w ->
     request (ops_para (w_chip w')) = (0, Ptr b o, Null, 0, opt) ->
     bit_flip (ops_para (w_chip w')) = 0 -> Q tt w') ->
  wp (set_request p) Q noflt w.
Proof.
  intros [_ _ _ _ _ _ [Ho Hb] Hmode] Hopt Hbuf HQ. unfold set_request, clear_ops. rewrite Hmode.
  change (NAND_HW_ECC =? NAND_SOFT_ECC) with false. wp_steps.
  apply HQ; try reflexivity. unfold request. cbn. congruence.
Qed.

Lemma fixture_take s w w' :
  w_chip w' = set_state s (w_chip w) -> rest w' = rest w -> fixture w' = fixture w.
Proof.
  intros Hc Hr. destruct (rest_inv _ _ Hr) as (_ & _ & _ & Ho & _). unfold fixture.
  rewrite Hc, Ho. reflexivity.
Qed.

(** Writing: the pages hold the data, all other pages are as they were. *)
Lemma wp_nand_write p m b o data w (Q : Z * amlnand_phydev -> world D -> Prop) :
  ready p m b o w -> shut_down p = false -> has (debug_flag (w_chip w)) NAND_WRITE_VERIFY = false ->
  peek (w_mem w) (Ptr b o) (len (devops p)) = Some data -> distinct_pages w p m ->
  (forall w', unlocked w' -> fixture w' = fixture w -> w_mem w' = w_mem w ->
     written w p m m data w' -> Q (0, done_with p (len (devops p))) w') ->
  wp (nand_write p) Q noflt w.
Proof.
  intros [Hun Hwill Hwh Hopt Hunit Hbuf] Hsd Hdebug Hdata Hdist HQ. unfold nand_write.
  rewrite (in_space _ _ Hwh), Hsd.
  destruct (id Hwh) as [Hm Hpos Hlen _ _ _ _ _].
  rewrite (proj2 (Z.eqb_neq (len (devops p)) 0)) by nia. cbn [andb].
  wp_step. apply wp_take; [exact Hun | exact Hwill |]. intros w1 Hc1 Hr1 Hi1.
  destruct (rest_inv _ _ Hr1) as (Hd1 & Hm1 & _).
  pose proof (fixture_take _ _ _ Hc1 Hr1) as Hf1.
  wp_step. apply (wp_set_request p m b o); [done..|]. intros w2 Hcalm2 Hm2 Hd2 Hreq2 _.
  assert (fixture w2 = fixture w) as Hf2 by (rewrite <- Hf1; by apply fixture_calm).
  destruct (calm_inv _ _ Hcalm2) as (Hfl2 & _ & _ & Hdb2 & Hi2 & _).
  wp_step. replace (u64 (offset p + addr (devops p))) with (start_of p 0) by (unfold start_of; f_equal; lia).
  eapply (wp_write_loop p m b o data); [done.. | | exact Hreq2 | congruence | |].
  - rewrite Hfl2, Hc1. exact Hunit.
  - intros j k Hj Hk. rewrite !(page_of_request_calm w w2) by done. by apply Hdist.
  - intros w3 a Hcalm3 Hm3 [Hw3 Ho3]. destruct (calm_inv _ _ Hcalm3) as (_ & _ & _ & Hdb3 & Hi3 & _).
    wp_steps. replace (has (debug_flag (w_chip w3)) NAND_WRITE_VERIFY) with false.
    2:{ rewrite Hdb3, Hdb2, Hc1. symmetry. exact Hdebug. }
    cbn [when_]. wp_steps. apply wp_give; [congruence|]. intros w4 Hc4 Hr4 Hun4. wp_steps.
    destruct (rest_inv _ _ Hr4) as (Hd4 & Hm4 & _).
    apply HQ; [exact Hun4 | | congruence |].
    + rewrite (fixture_take _ _ _ Hc4 Hr4), (fixture_calm _ _ Hcalm3). exact Hf2.
    + split; rewrite Hd4.
      * intros k Hk. rewrite <- (page_of_request_calm w w2) by done. by apply Hw3.
      * intros x Hx. rewrite Ho3; [congruence|]. intros k Hk.
        rewrite (page_of_request_calm w w2) by done. by apply Hx.
Qed.

(** Reading: the buffer holds what the pages hold. *)
Lemma wp_nand_read p m b o data old w (Q : Z * amlnand_phydev -> world D -> Prop) :
  ready p m b o w -> peek (w_mem w) (Ptr b o) (len (devops p)) = Some old ->
  Z.of_nat (length data) = len (devops p) ->
  (forall k, 0 <= k < m ->
     dev_page (w_dev w) (page_of_request w p k) = Some (chunk (writesize p) data k)) ->
  (forall w', unlocked w' -> fixture w' = fixture w -> dev_page (w_dev w') = dev_page (w_dev w) ->
     peek (w_mem w') (Ptr b o) (len (devops p)) = Some data ->
     (forall b', b' <> b -> w_mem w' !! b' = w_mem w !! b') ->
     Q (0, done_with p (len (devops p))) w') ->
  wp (nand_read p) Q noflt w.
Proof.
  intros [Hun Hwill Hwh Hopt Hunit Hbuf] Hold Hdl Hst HQ. unfold nand_read.
  rewrite (in_space _ _ Hwh).
  destruct (id Hwh) as [Hm Hpos Hlen _ _ _ _ _].
  rewrite (proj2 (Z.eqb_neq (len (devops p)) 0)) by nia. cbn [andb].
  wp_step. apply wp_take; [exact Hun | exact Hwill |]. intros w1 Hc1 Hr1 Hi1.
  destruct (rest_inv _ _ Hr1) as (Hd1 & Hm1 & _).
  pose proof (fixture_take _ _ _ Hc1 Hr1) as Hf1.
  wp_step. apply (wp_set_request p m b o); [done..|]. intros w2 Hcalm2 Hm2 Hd2 Hreq2 Hbf2.
  assert (fixture w2 = fixture w) as Hf2 by (rewrite <- Hf1; by apply fixture_calm).
  destruct (calm_inv _ _ Hcalm2) as (Hfl2 & _ & _ & _ & Hi2 & _).
  wp_step. replace (u64 (offset p + addr (devops p))) with (start_of p 0) by (unfold start_of; f_equal; lia).
  eapply (wp_read_loop p m b o data old); [done.. | | exact Hreq2 | congruence | done | |].
  - rewrite Hfl2, Hc1. exact Hunit.
  - intros k Hk. rewrite (page_of_request_calm w w2) by done. rewrite Hd2, Hd1. by apply Hst.
  - intros w3 a Hcalm3 Hm3 Hoth3 Hd3 He3 Hb3.
    destruct (calm_inv _ _ Hcalm3) as (_ & _ & _ & _ & Hi3 & _).
    wp_steps. apply wp_give; [congruence|]. intros w4 Hc4 Hr4 Hun4. wp_steps. unfold id.
    destruct (rest_inv _ _ Hr4) as (Hd4 & Hm4 & _).
    rewrite Hc4. cbn [ops_para set_state]. rewrite He3, Hb3, Hbf2.
    change (0 =? 0) with true. change (truthy 0) with false. cbv iota.
    apply HQ; [exact Hun4 | | congruence | congruence |].
    + rewrite (fixture_take _ _ _ Hc4 Hr4), (fixture_calm _ _ Hcalm3). exact Hf2.
    + intros b' Hb'. rewrite Hm4, Hoth3, Hm2, Hm1; done.
Qed.

(** ** Plain addressing *)

(** Page addresses of the device fit 32 bits and the size of a page is a power
    of two. *)
Record plain p : Prop := {
  pl_mode : has (phydev_option p) DEV_SLC_MODE = false;
  pl_shift : 0 <= writesize_shift p <= 32;
  pl_page : writesize p = 2 ^ writesize_shift p;
  pl_start : 0 <= offset p;
  pl_end : offset p + size p <= 2 ^ 32 * writesize p
}.

Lemma plain_page w p m k :
  plain p -> whole_pages p m -> 0 <= k < m ->
  page_of_request w p k = Z.shiftr (offset p + addr (devops p)) (writesize_shift p) + k.
Proof.
  intros [Hslc Hsh Hws Ho He] [? ? Hlen ? Hfit ? _ _] Hk. unfold page_of_request. rewrite Hslc.
  assert (0 < 2 ^ writesize_shift p) as Hpos by lia.
  assert (2 ^ 32 * writesize p <= 2 ^ 64).
  { rewrite Hws. change (2 ^ 64) with (2 ^ 32 * 2 ^ 32).
    apply Z.mul_le_mono_nonneg_l; [lia|]. apply Z.pow_le_mono_r; lia. }
  set (x := offset p + addr (devops p)).
  assert (0 <= x /\ x + m * writesize p <= 2 ^ 32 * writesize p) as [Hx0 Hx] by (unfold x; lia).
  unfold wrap. rewrite (Z.mod_small (x + k * writesize p) (2 ^ 64)) by nia.
  rewrite !Z.shiftr_div_pow2, <- Hws, Z.div_add by lia. apply Z.mod_small.
  assert (0 <= x / writesize p) by (apply Z.div_pos; lia).
  assert (x / writesize p + m <= 2 ^ 32); [|lia].
  rewrite <- Z.div_add by lia. apply Z.div_le_upper_bound; lia.
Qed.

Lemma plain_distinct w p m : plain p -> whole_pages p m -> distinct_pages w p m.
Proof. intros Hp Hw j k ? ?. rewrite !(plain_page w p m) by (done || lia). lia. Qed.

(** C6: Pages written through a device are read back through it, with any two
    buffers, and no other page of the flash changes. *)
Theorem nand_write_then_read p dw dr m bw ow br or data old w :
  let pw := set_devops dw p in
  let pr := set_devops dr p in
  ready pw m bw ow w -> plain p -> shut_down p = false ->
  has (debug_flag (w_chip w)) NAND_WRITE_VERIFY = false ->
  peek (w_mem w) (Ptr bw ow) (len dw) = Some data ->
  whole_pages pr m -> addr dr = addr dw -> datbuf dr = Ptr br or ->
  peek (w_mem w) (Ptr br or) (len dr) = Some old ->
  wp (x ← nand_write pw; y ← nand_read pr; mret (x.1, y.1))
    (fun r w' => r = (0, 0) /\ unlocked w' /\
       peek (w_mem w') (Ptr br or) (len dr) = Some data /\
       forall x, (forall k, 0 <= k < m -> x <> page_of_request w pw k) ->
         dev_page (w_dev w') x = dev_page (w_dev w) x) noflt w.
Proof.
  intros pw pr Hrd Hpl Hsd Hdebug Hdata Hwr Haddr Hbuf Hold.
  assert (plain pw) as Hplw by (destruct Hpl; by split).
  wp_step. eapply (wp_nand_write pw m bw ow data); [done.. | by apply plain_distinct, Hrd |].
  intros w1 Hun1 Hf1 Hm1 [Hw1 Ho1].
  destruct Hrd as [_ Hwill Hww Hopt Hunit _].
  assert (len dr = len dw) as Hlen.
  { rewrite (wh_len _ _ Hwr : len dr = m * writesize p). by rewrite (wh_len _ _ Hww : len dw = m * writesize p). }
  apply peek_length in Hdata as Hdl. pose proof (wh_some _ _ Hww). pose proof (wh_page _ _ Hww).
  pose proof (wh_len _ _ Hww : len dw = m * writesize p) as Hlw.
  unfold fixture in Hf1. cbn in Hf1.
  wp_step. eapply (wp_nand_read pr m br or data old).
  - split; [exact Hun1 | | exact Hwr | exact Hopt | | exact Hbuf].
    + intros n. replace (w_oracle w1) with (w_oracle w) by congruence. apply Hwill.
    + replace (flash (w_chip w1)) with (flash (w_chip w)) by congruence. exact Hunit.
  - rewrite Hm1. exact Hold.
  - change (len (devops pr)) with (len dr). cbn in *. nia.
  - intros k Hk. etransitivity; [|exact (Hw1 k Hk)]. f_equal. unfold page_of_request. cbn.
    by rewrite (pl_mode _ Hpl), Haddr.
  - intros w2 Hun2 _ Hd2 Hm2 _. wp_steps. split_and!; [done | done | exact Hm2 |].
    intros x Hx. rewrite Hd2. by apply Ho1.
Qed.

(** ** SLC addressing *)
Lemma chunk_repeat ws d k n :
  Z.of_nat (length d) = ws -> (k < n)%nat ->
  chunk ws (mjoin (replicate n d)) (Z.of_nat k) = d.
Proof.
  intros Hd Hk. unfold chunk. replace (Z.to_nat (Z.of_nat k * ws)) with (k * length d)%nat by nia.
  replace (Z.to_nat ws) with (length d) by lia. clear ws Hd. revert n Hk.
  induction k as [|k IH]; intros [|n] Hk; try lia;
    change (mjoin (replicate (S n) d)) with (d ++ mjoin (replicate n d)).
  - change (0 * length d)%nat with 0%nat. by rewrite drop_0, take_app_length.
  - rewrite drop_app_ge by lia. replace (_ - length d)%nat with (k * length d)%nat by lia.
    apply IH. lia.
Qed.

Lemma length_repeat {A} n (d : list A) : length (mjoin (replicate n d)) = (n * length d)%nat.
Proof.
  induction n as [|n IH]; [done|].
  change (mjoin (replicate (S n) d)) with (d ++ mjoin (replicate n d)). rewrite length_app. lia.
Qed.

(** In SLC mode the address is computed from the request and not from the
    loop: a read of several pages gives the first one over and over. *)
Theorem slc_read_repeats p m b o d old w :
  ready p m b o w -> has opt DEV_SLC_MODE = true ->
  peek (w_mem w) (Ptr b o) (len (devops p)) = Some old ->
  dev_page (w_dev w) (page_of_request w p 0) = Some d -> Z.of_nat (length d) = writesize p ->
  wp (nand_read p)
    (fun r w' => r = (0, done_with p (len (devops p))) /\
       peek (w_mem w') (Ptr b o) (len (devops p)) = Some (mjoin (replicate (Z.to_nat m) d)))
    noflt w.
Proof.
  intros Hrd Hslc Hold Hd Hdl. pose proof (wh_len _ _ (rd_pages _ _ _ _ _ Hrd)) as Hlen.
  pose proof (wh_some _ _ (rd_pages _ _ _ _ _ Hrd)).
  eapply (wp_nand_read p m b o (mjoin (replicate (Z.to_nat m) d)) old); [done | done | | |].
  - rewrite length_repeat. nia.
  - intros k Hk. replace k with (Z.of_nat (Z.to_nat k)) at 2 by lia.
    rewrite chunk_repeat by lia. etransitivity; [|exact Hd]. f_equal. unfold page_of_request.
    by rewrite (rd_option _ _ _ _ _ Hrd), Hslc.
  - intros w' _ _ _ Hm _. done.
Qed.
End Store.

(** ** A chip with the interface, and witnesses *)
Module IdealDev.
Abbreviation D := (gmap Z (list Z)).

#[local] Instance hw : NandHw D := {
  hw_cmd _ d m := (d, m);
  hw_info d m := (0, (d, m));
  hw_buf d m := (0, (d, m));
  hw_cfg _ _ d m := (d, m);
  hw_wait d m := (d, m);
  hw_virt _ := 0
}.

(** A page that was never written reads as erased. *)
Definition read : act D Z :=
  c ← gets w_chip;
  let o := ops_para c in
  p ← gets (fun w => w_dev w !! page_addr o);
  store_bytes (data_buf o) (default (replicate (Z.to_nat (pagesize (flash c))) 255) p) ;;
  upd_ops (set_ecc_err 0) ;;
  mret 0.
Definition write : act D Z :=
  c ← gets w_chip;
  let o := ops_para c in
  data ← load_bytes (data_buf o) (pagesize (flash c));
  modify (fun w => set_w_dev (<[page_addr o := data]> (w_dev w)) w) ;;
  mret 0.

#[local] Instance ops : ChipOperation D := {|
  op_erase_block := mret 0;
  op_read_page := read;
  op_write_page := write;
  op_block_isbad := mret NAND_BLOCK_GOOD;
  op_block_markbad := mret 0;
  op_test_block_chip_op := mret 0;
  op_test_block_reserved := fun _ => mret 0;
  op_blk_modify_bbt_chip_op := fun _ => mret 0;
  op_update_bbt_chip_op := mret 0
|}.

#[local] Instance store opt : DevStore ops pagesize opt.
Proof.
  refine {| dev_page := fun d a => d !! a |}.
  - intros w data o Hreq Hdata. cbn [op_write_page ops]. unfold write. wp_steps.
    eapply wp_load_bytes; [exact Hdata|]. wp_steps. split_and!; [done.. |].
    intros a. cbn. case_decide as E; [subst a; apply lookup_insert_eq | by apply lookup_insert_ne].
  - intros w data m o Hreq Hpage Hlen Hm. cbn [op_read_page ops]. unfold read. wp_steps.
    fold o. rewrite Hpage. cbn [default]. eapply wp_store_bytes; [exact Hm|]. by wp_steps.
Defined.

(** Two pages of 16 bytes, at the start of the second block of a device that
    begins at 4096. *)
Definition fl : nand_flash := mk_flash 16 1048576 256 8 1 0 0 0 0 0 [].
Definition item : list Z := map (fun i => 7 * Z.of_nat i mod 256) (seq 0 32).
Definition start : world D :=
  set_w_mem {[ 1 := item; 2 := replicate 40 0 ]}
    (set_w_chip (set_flash fl (set_controller (set_chip_num 1 ctl0) chip0)) (world0 ∅)).
Definition dev (option : Z) : amlnand_phydev :=
  mk_phydev NAND_CODE_NAME option 4096 8192 256 16 8 8 4 0 0 Null devops0.
Definition at_block (b o : Z) : phydev_ops := mk_devops NAND_HW_ECC 256 32 0 0 (Ptr b o) Null.

Lemma dev_pages option b o : whole_pages (set_devops (at_block b o) (dev option)) 2.
Proof. by split. Qed.
Lemma dev_ready option b o : ready pagesize option (set_devops (at_block b o) (dev option)) 2 b o start.
Proof. split; [done | done | apply dev_pages | done..]. Qed.

Example nand_write_then_read_witness :
  wp (x ← nand_write (set_devops (at_block 1 0) (dev 0));
      y ← nand_read (set_devops (at_block 2 8) (dev 0)); mret (x.1, y.1))
    (fun r w' => r = (0, 0) /\ unlocked w' /\ peek (w_mem w') (Ptr 2 8) 32 = Some item /\
       forall x, (forall k, 0 <= k < 2 ->
         x <> page_of_request start (set_devops (at_block 1 0) (dev 0)) k) ->
         w_dev w' !! x = w_dev start !! x) noflt start.
Proof.
  pose proof (nand_write_then_read pagesize 0 (dev 0) (at_block 1 0) (at_block 2 8) 2 1 0 2 8 item
    (replicate 32 0) start) as H. cbv zeta in H.
  apply H; [apply dev_ready | by split | done | done | vm_compute; done | apply dev_pages | done | done
    | vm_compute; done].
Defined.

(** The same device in SLC mode, with one page written. *)
Definition slc : world D :=
  set_w_dev {[ 288 := take 16 item ]}
    (set_w_chip (set_flash (set_new_type 3 fl)
      (set_controller (set_slc_info (mk_slc 0 (map (fun i => 2 * Z.of_nat i) (seq 0 16)) 0 [] [] [] NoSlc)
        (set_chip_num 1 ctl0)) chip0)) start).
Example slc_read_repeats_witness :
  wp (nand_read (set_devops (at_block 2 8) (dev DEV_SLC_MODE)))
    (fun r w' => r = (0, done_with (set_devops (at_block 2 8) (dev DEV_SLC_MODE)) 32) /\
       peek (w_mem w') (Ptr 2 8) 32 = Some (mjoin (replicate 2 (take 16 item)))) noflt slc.
Proof.
  pose proof (slc_read_repeats pagesize DEV_SLC_MODE (set_devops (at_block 2 8) (dev DEV_SLC_MODE)) 2 2 8
    (take 16 item) (replicate 32 0) slc) as H.
  apply H; [| done | vm_compute; done | | done].
  - split; [done | done | apply dev_pages | done..].
  - vm_compute. done.
Defined.

(** The debug file writes its page and then frees the pointer it moved on. *)
Example page_write_bad_free :
  match nand_page_write 4 (dev 0) 5 start with
  | Done _ _ => False
  | Fault f w => f = BadFree /\ w_dev w !! 256 = Some (replicate 16 0xa5)
  end.
Proof. vm_compute. done. Qed.
End IdealDev.
