(* ===== verification/PhyLayout.v ===== *)
(** * PhyLayout: [amlnand_phydev_init] of [dev/phydev.c], which cuts the flash
    into devices.

    The boot device comes first, then the metadata area, then the devices of
    the configuration one behind the other, each with as many blocks as hold
    the good blocks it asks for.  The theorems: the search for good blocks ends
    where the last good block wanted ends, and devices do not overlap. *)
From S2P Require Import Prelude NfcWords Data Machine Guards Ctrl HwController ChipOp ChipEnv PhyDev.

(** ** The configuration *)

(** [struct dev_para]; only the sizes of the partitions are looked at. *)
Record dev_para := mk_dev_para {
  para_name : list Z;
  para_size : Z;
  para_parts : list Z;
  para_parts_ptr : ptr;
  para_option : Z
}.

Section Layout.
Context {D : Type} `{!NandHw D} `{!ChipOperation D} (spin : nat).

Definition load64 (p : ptr) : act D Z := l ← load_bytes p 8; mret (le_value l).
Definition SIZEOF_amlnf_partition : Z := 40.
Definition load_dev_para (config : ptr) (i : Z) : act D dev_para :=
  let p := ptr_add config (OFF_dev_para + i * SIZEOF_dev_para) in
  nm ← load_bytes p 16;
  sz ← load64 (ptr_add p 24);
  n ← load8 (ptr_add p 672);
  opt ← load32 (ptr_add p 676);
  r ← for_ (R := unit) (Z.to_nat n) 0
        (fun j parts =>
           z ← load64 (ptr_add p (32 + j * SIZEOF_amlnf_partition + 16));
           mret (Next (parts ++ [z]))) [];
  mret (mk_dev_para nm sz (match r with inl l => l | inr _ => [] end) (ptr_add p 32) opt).

(** Offsets of blocks passed over until [total_blk] of them were not factory
    bad; [point] puts the block at an offset into [ops_para]. *)
Definition sweep_blocks (point : Z -> act D unit) (step total_blk from : Z) : act D Z :=
  r ← do_while (R := unit) spin
        (fun '(offset, start_blk) =>
           point offset ;;
           ret ← op_block_isbad;
           mret (Next (u64 (offset + step),
                       if ret =? NAND_BLOCK_FACTORY_BAD then start_blk else u32 (start_blk + 1))))
        (fun '(_, start_blk) => start_blk <? total_blk) (from, 0);
  mret (match r with inl (offset, _) => offset | inr _ => from end).

(** [total_blk]: the blocks up to an offset, rounded up to whole rows of all
    chips and planes. *)
Definition whole_rows (blks rows : Z) : act D Z :=
  q ← div_ (u32 (blks - 1)) rows;
  mret (u32 (u32 (q + 1) * rows)).

(** The area of the metadata, behind [tmp_blk] blocks of boot area. *)
Definition reserved_blocks (tmp_blk plane_num : Z) : act D Z :=
  fl ← chip flash;
  chips ← ctl_ chip_num;
  let shift := ffs fl.(blocksize) - 1 in
  clear_ops ;;
  offset ← sweep_blocks
    (fun offset =>
       let blk := u32 (Z.shiftr offset shift) in
       n ← mod_ blk chips;
       upd_ops (fun o => set_chipnr n (set_page_addr
         (reserved_page chips tmp_blk (pages_of_block fl) (u32 (blk + tmp_blk))) o)))
    fl.(blocksize) RESERVED_BLOCK_CNT 0;
  whole_rows (u32 (Z.shiftr offset shift)) (chips * plane_num).

(** Is SLC mode wanted and there?  The last test is on the option of [now]. *)
Definition slc_wanted (fl : nand_flash) (option now : Z) : bool :=
  has option DEV_SLC_MODE && has fl.(flash_option) NAND_CHIP_SLC_MODE
  && negb (has now DEV_MULTI_PLANE_MODE).

(** [phydev_pre_size]: how much of the flash the device before takes. *)
Definition pre_size (fl : nand_flash) (pre p : amlnand_phydev) : Z :=
  if slc_wanted fl pre.(phydev_option) p.(phydev_option) then u64 (Z.shiftl pre.(size) 1)
  else pre.(size).

(** [dev_size]; for a partitioned last device what is left of the flash, and
    then there must be a device before it. *)
Definition device_size (fl : nand_flash) (chip_size : Z) (last : bool) (d : dev_para)
    (pre : Datatypes.option amlnand_phydev) (p : amlnand_phydev) : act D Z :=
  n ← (if bool_decide (d.(para_parts) = []) then mret d.(para_size)
       else if last then
         match pre with
         | None => throw NullDeref
         | Some q => mret (u64 (chip_size - q.(offset) - pre_size fl q p))
         end
       else mret (fold_left (fun z x => u64 (z + x)) d.(para_parts) 0));
  mret (if slc_wanted fl d.(para_option) d.(para_option) then u64 (Z.shiftl n 1) else n).

(** Page and block of the device span all chips and planes it uses. *)
Definition widen (fl : nand_flash) (chips : Z) (d : dev_para) (p : amlnand_phydev)
    : amlnand_phydev :=
  let p := if has d.(para_option) DEV_MULTI_CHIP_MODE && (1 <? chips)
           then set_phydev_option (Z.lor p.(phydev_option) DEV_MULTI_CHIP_MODE)
                  (set_writesize (u32 (p.(writesize) * chips))
                    (set_erasesize (u32 (p.(erasesize) * chips))
                      (set_dev_oobavail (u32 (p.(dev_oobavail) * chips)) p)))
           else p in
  let p := if has d.(para_option) DEV_MULTI_PLANE_MODE && has fl.(flash_option) NAND_MULTI_PLANE_MODE
           then set_phydev_option (Z.lor p.(phydev_option) DEV_MULTI_PLANE_MODE)
                  (set_writesize (shl32 p.(writesize) 1) (set_erasesize (shl32 p.(erasesize) 1)
                    (set_dev_oobavail (shl32 p.(dev_oobavail) 1) p)))
           else p in
  set_erasesize_shift (u32 (ffs p.(erasesize) - 1))
    (set_writesize_shift (u32 (ffs p.(writesize) - 1)) p).

(** The boot device: its size is fixed. *)
Definition boot_device (fl : nand_flash) (p : amlnand_phydev) : amlnand_phydev :=
  let p := set_offset 0 (set_size (BOOT_COPY_NUM * BOOT_PAGES_PER_COPY * fl.(pagesize)) p) in
  let p := set_erasesize_shift (u32 (ffs p.(erasesize) - 1))
             (set_writesize_shift (u32 (ffs p.(writesize) - 1)) p) in
  set_writesize_mask (u32 (Z.shiftr p.(size) p.(writesize_shift) - 1)) p.

(** [phydev->offset]: the first device behind the boot area, or without one,
    starts behind the metadata. *)
Definition place_device (fl : nand_flash) (boot : bool) (tmp_blk plane_num i : Z)
    (pre : Datatypes.option amlnand_phydev) (p : amlnand_phydev) : act D amlnand_phydev :=
  match pre with
  | Some q =>
      if boot && (i =? 1) then
        total_blk ← reserved_blocks tmp_blk plane_num;
        mret (set_offset (u64 (u32 (total_blk * fl.(blocksize)) + q.(size))) p)
      else mret (set_offset (u64 (q.(offset) + pre_size fl q p)) p)
  | None =>
      if boot then throw NullDeref
      else
        total_blk ← reserved_blocks tmp_blk plane_num;
        mret (set_offset (u32 (total_blk * fl.(blocksize))) p)
  end.

(** The blocks of a device: the size asked for, one in ten and four more. *)
Definition adjusted_blocks (dev_size erasesize_shift : Z) : Z :=
  let total_blk := u32 (Z.shiftr dev_size erasesize_shift) in
  u32 (total_blk + u32 (total_blk + ADJUST_PART_SIZE - 1) / ADJUST_PART_SIZE + ADJUST_BLOCK_NUM).

(** [phydev->size] of a device that is not the last: as many blocks as hold the
    adjusted number of good ones.  [tmp_offset] is an [unsigned int]. *)
Definition measure_device (boot : bool) (plane_num i dev_size : Z)
    (pre : Datatypes.option amlnand_phydev) (p : amlnand_phydev) : act D amlnand_phydev :=
  from ← (if i =? (if boot then 1 else 0) then mret p.(offset)
          else match pre with
               | Some q => mret (u64 (q.(offset) + q.(size)))
               | None => throw NullDeref
               end);
  let tmp_offset := u32 from in
  clear_ops ;;
  upd_ops (set_ops_option p.(phydev_option)) ;;
  offset ← sweep_blocks
    (fun offset => upd_ops (set_page_addr (u32 (Z.shiftr offset p.(writesize_shift)))))
    p.(erasesize) (adjusted_blocks dev_size p.(erasesize_shift)) from;
  chips ← ctl_ chip_num;
  total_blk ← whole_rows (u32 (Z.shiftr (u64 (offset - tmp_offset)) p.(erasesize_shift)))
                (chips * plane_num);
  mret (set_size (u64 (total_blk * p.(erasesize))) p).

(** In SLC mode half of each block is used. *)
Definition enter_slc (fl : nand_flash) (d : dev_para) (p : amlnand_phydev) : amlnand_phydev :=
  if slc_wanted fl d.(para_option) p.(phydev_option) then
    let e := Z.shiftr p.(erasesize) 1 in
    set_phydev_option (Z.lor p.(phydev_option) DEV_SLC_MODE)
      (set_erasesize e (set_erasesize_shift (u32 (ffs e - 1)) (set_size (Z.shiftr p.(size) 1) p)))
  else p.

(** The device of one entry of the configuration; [None] when it does not fit. *)
Definition new_device (fl : nand_flash) (oob : Z) (d : dev_para) : amlnand_phydev :=
  mk_phydev d.(para_name) 0 0 0 fl.(blocksize) fl.(pagesize) oob 0 0 0
    (Z.of_nat (length d.(para_parts)))
    (if bool_decide (d.(para_parts) = []) then Null else d.(para_parts_ptr)) devops0.
Definition layout_device (fl : nand_flash) (chips chip_size plane_num : Z) (boot last : bool)
    (tmp_blk i dev_size : Z) (d : dev_para) (pre : Datatypes.option amlnand_phydev)
    (p : amlnand_phydev) : act D (Datatypes.option amlnand_phydev) :=
  p ← place_device fl boot tmp_blk plane_num i pre (widen fl chips d p);
  p ← (if last then mret (set_size dev_size p)
       else measure_device boot plane_num i dev_size pre p);
  mret (if chip_size <? u64 (p.(offset) + p.(size)) then None else Some p).

(** One round of the loop over the configuration; the loop variables are the
    devices so far, the last of which is [phydev_pre], [boot_flag] and
    [tmp_blk]. *)
Definition layout := (list amlnand_phydev * bool * Z)%type.
Definition add_device (fl : nand_flash) (chip_size plane_num : Z) (is_last : bool) (i : Z)
    (d : dev_para) (l : layout) : act D (ctl layout (Z * list amlnand_phydev)) :=
  let '(devs, boot, tmp_blk) := l in
  let pre := last devs in
  chips ← ctl_ chip_num;
  oob ← ctl_ oobavail;
  let p := new_device fl oob d in
  dev_size ← device_size fl chip_size is_last d pre p;
  if starts_with NAND_BOOT_NAME d.(para_name) then
    let p := boot_device fl p in
    mret (Next (devs ++ [enter_slc fl d p], true, u32 (Z.shiftr p.(size) p.(erasesize_shift))))
  else
    q ← layout_device fl chips chip_size plane_num boot is_last tmp_blk i dev_size d pre p;
    mret (match q with
          | None => Return (- NAND_FAILED, devs)
          | Some q => Next (devs ++ [enter_slc fl d q], boot, tmp_blk)
          end).
Definition layout_round (config : ptr) (fl : nand_flash) (chip_size plane_num dev_num i : Z)
    (l : layout) : act D (ctl layout (Z * list amlnand_phydev)) :=
  r ← kernel_call;
  if r <? 0 then mret (Return (- NAND_MALLOC_FAILURE, l.1.1))
  else
    d ← load_dev_para config i;
    add_device fl chip_size plane_num (i =? dev_num - 1) i d l.

(** The blocks that went bad in use, of one device: the first 128 are noted. *)
Definition count_bad (bad_blk : ptr) (p : amlnand_phydev) : act D Z :=
  memset bad_blk 0 (128 * 8) ;;
  r ← do_while (R := unit) spin
        (fun '(relative, cnt) =>
           let q := set_devops (mk_devops NAND_HW_ECC relative p.(erasesize) 0 0 Null Null) p in
           ret ← nand_block_isbad q;
           cnt ← (if (ret =? NAND_BLOCK_USED_BAD) && (cnt <? 128)
                  then store_bytes (ptr_add bad_blk (8 * cnt)) (le_bytes 8 relative) ;;
                       mret (cnt + 1)
                  else mret cnt);
           mret (Next (u64 (relative + p.(erasesize)), cnt)))
        (fun '(relative, _) => relative <? p.(size)) (0, 0);
  mret (match r with inl (_, cnt) => cnt | inr _ => 0 end).

(** [nphy_dev_list] is empty before; the devices made so far stay in it when
    an error ends the function. *)
Definition amlnand_phydev_init : act D (Z * list amlnand_phydev) :=
  bad_blk ← kmalloc (128 * 8);
  if is_null bad_blk then mret (- NAND_MALLOC_FAILURE, [])
  else
    memset bad_blk 0 (128 * 8) ;;
    c ← gets w_chip;
    let config := c.(config_ptr) in
    let fl := c.(flash) in
    let plane_num := if has fl.(flash_option) NAND_MULTI_PLANE_MODE then 2 else 1 in
    let chip_size := u64 (Z.shiftl (u32 (fl.(chipsize) * c.(controller).(chip_num))) 20) in
    dev_num ← load8 (ptr_add config OFF_dev_num);
    r ← (if dev_num =? 0 then mret (inr (- NAND_FAILED, []))
         else for_ (Z.to_nat dev_num) 0
                (layout_round config fl chip_size plane_num dev_num) ([], false, 0));
    match r with
    | inr (e, devs) => kfree bad_blk ;; mret (e, devs)
    | inl (devs, _, _) =>
        r ← for_ (R := unit) (length devs) 0
              (fun i _ =>
                 match devs !! Z.to_nat i with
                 | Some p => n ← count_bad bad_blk p; mret (Next tt)
                 | None => mret (Next tt)
                 end) tt;
        kfree bad_blk ;;
        mret (0, devs)
    end.
End Layout.

(** ** The search for good blocks *)
Section Sweep.
Context {D : Type} `{!NandHw D} `{!ChipOperation D} (spin : nat).
Implicit Types w : world D.
Context (I : world D -> Prop) (bad : Z -> bool) (point : Z -> act D unit) (step : Z).

(** Good blocks among [n] blocks from an offset. *)
Fixpoint good_blocks (from : Z) (n : nat) : Z :=
  match n with
  | O => 0
  | S n' => (if bad from then 0 else 1) + good_blocks (u64 (from + step)) n'
  end.
Fixpoint nth_block (from : Z) (n : nat) : Z :=
  match n with O => from | S n' => nth_block (u64 (from + step)) n' end.

Lemma good_blocks_bound from n : 0 <= good_blocks from n <= Z.of_nat n.
Proof. revert from. induction n as [|n IH]; intros from; cbn; [lia|]. destruct (bad from); specialize (IH (u64 (from + step))); lia. Qed.

Lemma good_blocks_mono from n k : (k <= n)%nat -> good_blocks from k <= good_blocks from n.
Proof.
  revert from k. induction n as [|n IH]; intros from [|k] Hk; try lia; cbn.
  - pose proof (good_blocks_bound (u64 (from + step)) n). destruct (bad from); lia.
  - specialize (IH (u64 (from + step)) k). lia.
Qed.

(** The answer to a block is whether it is factory bad. *)
Context (Hblock : forall from w, I w ->
  wp (point from ;; op_block_isbad)
    (fun r w' => I w' /\ (r = NAND_BLOCK_FACTORY_BAD <-> bad from = true)) noflt w).

Definition sweep_body (l : Z * Z) : act D (ctl (Z * Z) unit) :=
  let '(offset, start_blk) := l in
  point offset ;;
  ret ← op_block_isbad;
  mret (Next (u64 (offset + step),
              if ret =? NAND_BLOCK_FACTORY_BAD then start_blk else u32 (start_blk + 1))).

Lemma wp_sweep_body from cnt w (Q : ctl (Z * Z) unit -> world D -> Prop) :
  I w -> 0 <= cnt < 2 ^ 32 - 1 ->
  (forall w', I w' -> Q (Next (u64 (from + step), cnt + if bad from then 0 else 1)) w') ->
  wp (sweep_body (from, cnt)) Q noflt w.
Proof.
  intros HI Hc HQ. unfold sweep_body. apply wp_bind.
  pose proof (wp_bind_inv _ _ _ _ _ (Hblock from w HI)) as Hb.
  eapply wp_mono; [exact Hb | | done].
  intros [] w1 Hw1. wp_step. eapply wp_mono; [exact Hw1 | | done].
  intros r w2 [HI2 Hr]. wp_step.
  destruct (Z.eqb_spec r NAND_BLOCK_FACTORY_BAD) as [E|E], (bad from) eqn:Eb; try (by apply Hr in E);
    try (by exfalso; apply E, Hr).
  - specialize (HQ w2 HI2). by rewrite Z.add_0_r in HQ.
  - unfold wrap at 2. rewrite Z.mod_small by lia. by apply HQ.
Qed.

(** Whatever blocks are bad: when the next [n] blocks hold the blocks wanted,
    and one fewer do not, the search ends behind the [n]th. *)
Theorem sweep_blocks_spec total n from w :
  I w -> 0 < total < 2 ^ 32 -> (n <= spin)%nat ->
  good_blocks from n = total -> good_blocks from (pred n) < total ->
  wp (sweep_blocks spin point step total from)
    (fun offset w' => offset = nth_block from n /\ I w') noflt w.
Proof.
  intros HI Htot Hn Hgood Hless.
  destruct n as [|n]; [cbn in Hgood; lia|]. cbn [pred] in Hless.
  unfold sweep_blocks. fold sweep_body. wp_step. unfold do_while. wp_step.
  apply (wp_sweep_body from 0); [done | lia |]. intros w1 HI1.
  apply (wp_while (fun k '(off, cnt) w' => exists j, (j <= k)%nat /\ I w' /\
    0 <= cnt /\ nth_block off j = nth_block from (S n) /\
    cnt + good_blocks off j = total /\ (j = 0%nat \/ cnt + good_blocks off (pred j) < total))).
  - intros k [off cnt] w2 (j & _ & HI2 & Hc & Hoff & Hcnt & Hlast) Hexit%Z.ltb_ge. wp_step.
    pose proof (good_blocks_bound off (pred j)).
    destruct Hlast as [->|Hlast]; [by split | lia].
  - intros k [off cnt] w2 (j & Hk & HI2 & Hc & Hoff & Hcnt & Hlast) Hgo%Z.ltb_lt.
    destruct j as [|j]; [cbn in Hcnt; lia|]. destruct k as [|k]; [lia|].
    exists k. split; [done|]. apply (wp_sweep_body off cnt); [done | lia |]. intros w3 HI3.
    exists j. cbn [nth_block good_blocks pred] in *. split_and!; try done; try lia.
    + destruct (bad off); lia.
    + destruct j as [|j]; [by left | right]. cbn [good_blocks pred] in *. destruct Hlast; lia.
  - exists n. cbn [nth_block good_blocks] in *. split_and!; try done; try lia.
    + destruct (bad from); lia.
    + destruct n as [|n]; [by left | right]. cbn [good_blocks pred] in *. lia.
Qed.
End Sweep.

(** ** Devices do not overlap *)

(** Each device ends before the next begins, inside the flash. *)
Record laid_out (chip_size : Z) (devs : list amlnand_phydev) : Prop := {
  lo_chain : forall k p q, devs !! k = Some p -> devs !! S k = Some q ->
    offset p + size p <= offset q;
  lo_inside : forall p, p ∈ devs -> 0 <= offset p /\ 0 <= size p /\ offset p + size p <= chip_size
}.

(** A flash without SLC mode whose boot area fits. *)
Record flash_ok (fl : nand_flash) (chips chip_size : Z) : Prop := {
  fk_slc : has (flash_option fl) NAND_CHIP_SLC_MODE = false;
  fk_page : 0 <= pagesize fl;
  fk_boot : BOOT_COPY_NUM * BOOT_PAGES_PER_COPY * pagesize fl <= chip_size;
  fk_chip : chip_size < 2 ^ 62;
  fk_block : 0 <= blocksize fl;
  fk_chips : 1 <= chips;
  fk_erase : 2 * (blocksize fl * chips) < 2 ^ 31
}.

(** The state of the loop before round [i]: the boot device, if any, is the
    first. *)
Record layout_inv (chip_size i : Z) (l : layout) : Prop := {
  li_devs : laid_out chip_size l.1.1;
  li_round : Z.of_nat (length l.1.1) = i;
  li_boot : l.1.2 = true -> exists p, l.1.1 !! 0%nat = Some p /\ offset p = 0
}.

Lemma laid_out_snoc cs devs q :
  laid_out cs devs -> 0 <= offset q -> 0 <= size q -> offset q + size q <= cs ->
  (forall p, last devs = Some p -> offset p + size p <= offset q) -> laid_out cs (devs ++ [q]).
Proof.
  intros [Hc Hi] ??? Hl. split.
  - intros k p p' Hk Hk'. apply lookup_app_Some in Hk' as [Hk'|[Hge Hk']].
    + apply (Hc k); [|done]. rewrite lookup_app_l in Hk; [done|].
      apply lookup_lt_Some in Hk'. lia.
    + apply list_lookup_singleton_Some in Hk' as [? <-]. apply Hl.
      rewrite lookup_app_l in Hk by lia. rewrite last_lookup. by replace (pred (length devs)) with k by lia.
  - intros p [Hp | ->%list_elem_of_singleton]%elem_of_app; [by apply Hi | done].
Qed.

Lemma laid_out_nil cs : laid_out cs [].
Proof. split; [done | intros p Hp; by apply elem_of_nil in Hp]. Qed.

Section LaidOut.
Context {D : Type} `{!NandHw D} `{!ChipOperation D} (spin : nat).
Implicit Types w : world D.

Section Steps.
Context (fl : nand_flash) (chips chip_size : Z) (Hfl : flash_ok fl chips chip_size).

Lemma no_slc option now : slc_wanted fl option now = false.
Proof. unfold slc_wanted. rewrite (fk_slc _ _ _ Hfl). by rewrite andb_false_r. Qed.
Lemma pre_size_plain pre p : pre_size fl pre p = size pre.
Proof. unfold pre_size. by rewrite no_slc. Qed.
Lemma enter_slc_plain d p : enter_slc fl d p = p.
Proof. unfold enter_slc. by rewrite no_slc. Qed.

Lemma widen_place d p :
  erasesize p = blocksize fl ->
  let q := widen fl chips d p in
  offset q = offset p /\ size q = size p /\ 0 <= erasesize q < 2 ^ 31.
Proof.
  intros He q. unfold q, widen. destruct Hfl as [_ _ _ _ Hb Hc Hl].
  assert (u32 (blocksize fl * chips) = blocksize fl * chips) as E1 by (apply Z.mod_small; nia).
  assert (forall x, 0 <= x -> 2 * x < 2 ^ 31 -> shl32 x 1 = 2 * x) as E2.
  { intros x ??. unfold shl32. rewrite Z.shiftl_mul_pow2 by lia. change (2 ^ 1) with 2.
    unfold wrap. rewrite Z.mod_small; lia. }
  destruct (_ && (1 <? chips)), (_ && has _ NAND_MULTI_PLANE_MODE); cbn; rewrite ?He, ?E1, ?E2;
    repeat split; try done; nia.
Qed.

(** What the searches give, and how they may fail. *)
Context (J : world D -> Prop) (E : fault -> world D -> Prop) (plane_num : Z).
Context (Hreserved : forall tmp_blk w, J w ->
  wp (reserved_blocks spin tmp_blk plane_num) (fun t w' => 0 <= t < 2 ^ 32 /\ J w') E w).
Context (measured : Z -> amlnand_phydev -> Prop).
Context (Hmeasure : forall boot i dev_size pre p w, J w -> measured dev_size p ->
  i = (if boot : bool then 1 else 0) \/ pre <> None ->
  wp (measure_device spin boot plane_num i dev_size pre p)
    (fun q w' => (exists t, 0 <= t < 2 ^ 32 /\ q = set_size (u64 (t * erasesize p)) p) /\ J w') E w).

Lemma wp_place_device boot tmp_blk i pre p w (Q : amlnand_phydev -> world D -> Prop) :
  J w -> (boot = true -> pre <> None) ->
  (forall q, pre = Some q -> 0 <= offset q /\ 0 <= size q /\ offset q + size q <= chip_size) ->
  (boot = true -> i = 1 -> forall q, pre = Some q -> offset q = 0) ->
  (forall o w', J w' -> 0 <= o < 2 ^ 63 ->
     (forall q, pre = Some q -> offset q + size q <= o) -> Q (set_offset o p) w') ->
  wp (place_device spin fl boot tmp_blk plane_num i pre p) Q E w.
Proof.
  intros Hw Hsome Hpre Hboot HQ. destruct Hfl as [_ _ _ Hcs _ _ _]. unfold place_device.
  destruct pre as [q|].
  - destruct (Hpre q eq_refl) as (? & ? & ?).
    destruct (boot && (i =? 1)) eqn:Eb.
    + apply andb_true_iff in Eb as [-> Ei%Z.eqb_eq]. wp_step.
      eapply wp_mono; [by apply Hreserved | | done]. intros t w1 [Ht HJ1]. wp_step.
      pose proof (Z.mod_pos_bound (t * blocksize fl) (2 ^ 32) eq_refl).
      specialize (Hboot eq_refl Ei q eq_refl).
      unfold wrap in *. rewrite (Z.mod_small (_ + size q)) by lia.
      apply HQ; [done | lia |]. intros q' [= <-]. lia.
    + wp_step. rewrite pre_size_plain. unfold wrap. rewrite Z.mod_small by lia.
      apply HQ; [done | lia |]. intros q' [= <-]. lia.
  - destruct boot; [by destruct Hsome|]. wp_step.
    eapply wp_mono; [by apply Hreserved | | done]. intros t w1 [Ht HJ1]. wp_step.
    pose proof (Z.mod_pos_bound (t * blocksize fl) (2 ^ 32) eq_refl).
    apply HQ; [done | unfold wrap; lia | done].
Qed.

(** What the configuration asks for, for all but the last device. *)
Definition asked (d : dev_para) : Z :=
  if bool_decide (para_parts d = []) then para_size d
  else fold_left (fun z x => u64 (z + x)) (para_parts d) 0.

Lemma wp_device_size last_ d pre p w (Q : Z -> world D -> Prop) :
  J w -> 0 <= para_size d < 2 ^ 63 ->
  (last_ = true -> para_parts d <> [] -> pre <> None) ->
  (forall q, pre = Some q -> 0 <= offset q /\ 0 <= size q /\ offset q + size q <= chip_size) ->
  (forall n, (last_ = true -> 0 <= n < 2 ^ 63) -> (last_ = false -> n = asked d) -> Q n w) ->
  wp (device_size fl chip_size last_ d pre p) Q E w.
Proof.
  intros Hw Hsz Hsome Hpre HQ. destruct Hfl as [_ _ _ Hcs _ _ _]. unfold device_size. wp_step.
  unfold asked in HQ. destruct (bool_decide _) eqn:Ep; [|destruct last_; [destruct pre as [q|]|]];
    try (by apply bool_decide_eq_false in Ep; destruct Hsome);
    wp_steps; rewrite no_slc; apply HQ; try done.
  intros _. destruct (Hpre q eq_refl) as (? & ? & ?). rewrite pre_size_plain.
  unfold wrap. rewrite Z.mod_small; lia.
Qed.

Lemma wp_layout_device boot last_ tmp_blk i dev_size d pre p w
    (Q : Datatypes.option amlnand_phydev -> world D -> Prop) :
  J w -> offset p = 0 -> size p = 0 -> erasesize p = blocksize fl ->
  (last_ = true -> 0 <= dev_size < 2 ^ 63) ->
  (last_ = false -> forall o, measured dev_size (set_offset o (widen fl chips d p))) ->
  (forall q, pre = Some q -> 0 <= offset q /\ 0 <= size q /\ offset q + size q <= chip_size) ->
  (boot = true -> i = 1 -> forall q, pre = Some q -> offset q = 0) ->
  i = (if boot : bool then 1 else 0) \/ pre <> None -> (boot = true -> pre <> None) ->
  (forall r w', J w' ->
     (forall q, r = Some q -> 0 <= offset q /\ 0 <= size q /\ offset q + size q <= chip_size /\
        forall q', pre = Some q' -> offset q' + size q' <= offset q) -> Q r w') ->
  wp (layout_device spin fl chips chip_size plane_num boot last_ tmp_blk i dev_size d pre p) Q E w.
Proof.
  intros Hw Ho Hs He Hlast Hmeas Hpre Hboot Hi Hsome HQ. unfold layout_device.
  destruct (widen_place d p He) as (Ho' & Hs' & He'). set (p' := widen fl chips d p) in *.
  wp_step. apply wp_place_device; [done.. |].
  intros o w1 HJ1 Hob Hafter. wp_step.
  assert (forall n w2, 0 <= n < 2 ^ 63 -> J w2 ->
    wp (mret (if chip_size <? u64 (offset (set_size n (set_offset o p')) + size (set_size n (set_offset o p')))
              then None else Some (set_size n (set_offset o p')))) Q E w2) as Hfit.
  { intros n w2 Hn HJ2. wp_step. apply HQ; [done|]. cbn.
    unfold wrap. rewrite Z.mod_small by lia.
    destruct (Z.ltb_spec chip_size (o + n)); [done|]. intros q [= <-]. cbn.
    split_and!; [lia | lia | lia | exact Hafter]. }
  destruct last_.
  - wp_step. cbv beta. apply Hfit; [by apply Hlast | done].
  - eapply wp_mono; [apply Hmeasure; [done | by apply Hmeas | done] | | done].
    intros q w2 [(t & Ht & ->) HJ2]. cbn [erasesize set_offset] in *. apply Hfit; [|done].
    change (erasesize (set_offset o p')) with (erasesize p'). unfold wrap. rewrite Z.mod_small; nia.
Qed.

(** One round keeps the invariant. *)
Lemma wp_add_device last_ i d l w :
  J w -> chip_num (controller (w_chip w)) = chips ->
  layout_inv chip_size i l -> 0 <= para_size d < 2 ^ 63 ->
  (last_ = true -> para_parts d <> [] -> 0 < i) ->
  (starts_with NAND_BOOT_NAME (para_name d) = true -> i = 0) ->
  (last_ = false -> forall oob o,
     measured (asked d) (set_offset o (widen fl chips d (new_device fl oob d)))) ->
  wp (add_device spin fl chip_size plane_num last_ i d l)
    (fun c w' => J w' /\
       match c with
       | Next l' => layout_inv chip_size (i + 1) l'
       | Return (e, devs) => e = - NAND_FAILED /\ devs = l.1.1
       | Break _ => False
       end) E w.
Proof.
  intros Hw Hchips [Hlaid Hlen Hboot] Hsz Hpos Hname Hmeas. destruct l as [[devs boot] tmp_blk]. cbn in *.
  unfold add_device. wp_steps. rewrite Hchips. set (oob := oobavail _).
  assert (forall q, last devs = Some q -> 0 <= offset q /\ 0 <= size q /\ offset q + size q <= chip_size)
    as Hpre.
  { intros q Hq. apply (lo_inside _ _ Hlaid). rewrite last_lookup in Hq. by eapply list_elem_of_lookup_2. }
  assert (0 < i -> last devs <> None) as Hsome.
  { intros Hi. rewrite last_lookup. intros Hl%lookup_ge_None. lia. }
  apply wp_device_size; [done | done | | done |].
  { intros El Ep. by apply Hsome, Hpos. }
  intros n Hn Hn'.
  destruct (starts_with _ _) eqn:Eb.
  - wp_step. split; [done|]. rewrite enter_slc_plain. specialize (Hname eq_refl).
    destruct devs; [|cbn in Hlen; lia]. cbn [app].
    destruct Hfl as [_ Hp Hbt _ _ _ _]. unfold BOOT_COPY_NUM, BOOT_PAGES_PER_COPY in *.
    split; cbn; [|lia | intros _; eexists; by split].
    apply (laid_out_snoc _ []); cbn; unfold BOOT_COPY_NUM, BOOT_PAGES_PER_COPY;
      [apply laid_out_nil | lia.. | done].
  - wp_step. apply wp_layout_device; try done.
    + intros El o. rewrite (Hn' El). by apply Hmeas.
    + intros -> -> q Hq. destruct (Hboot eq_refl) as (p & Hp & Hp0).
      rewrite last_lookup in Hq. replace (pred (length devs)) with 0%nat in Hq by lia. congruence.
    + destruct devs as [|p devs] using rev_ind; [left | right].
      * destruct boot; [|cbn in Hlen; lia]. by destruct (Hboot eq_refl) as (? & ? & _).
      * by rewrite last_snoc.
    + intros ->. apply Hsome. destruct (Hboot eq_refl) as (p & Hp%lookup_lt_Some & _). lia.
    + intros [q|] w2 HJ2 Hq; wp_step; [|done]. destruct (Hq q eq_refl) as (? & ? & ? & Hafter).
      split; [done|]. rewrite enter_slc_plain. split; cbn.
      * by apply laid_out_snoc.
      * rewrite length_app. cbn. lia.
      * intros Hb. destruct (Hboot Hb) as (p & Hp & Hp0). exists p. split; [|done].
        by apply lookup_app_l_Some.
Qed.
End Steps.

(** *** Whatever the blocks answer *)

Lemma whole_rows_any blks rows w (Q : Z -> world D -> Prop) :
  (forall t, 0 <= t < 2 ^ 32 -> Q t w) -> wp (whole_rows blks rows) Q (fun _ _ => True) w.
Proof.
  intros HQ. unfold whole_rows, div_. destruct (rows =? 0); [done|]. wp_steps.
  apply HQ. by apply Z.mod_pos_bound.
Qed.

Lemma reserved_any tmp_blk plane_num w :
  wp (reserved_blocks spin tmp_blk plane_num) (fun t _ => 0 <= t < 2 ^ 32 /\ True)
    (fun _ _ => True) w.
Proof.
  unfold reserved_blocks, clear_ops. wp_steps. eapply wp_mono; [apply wp_any | | done]. intros o w1 _.
  by apply whole_rows_any.
Qed.

Lemma measure_any boot plane_num i dev_size pre p w :
  wp (measure_device spin boot plane_num i dev_size pre p)
    (fun q _ => (exists t, 0 <= t < 2 ^ 32 /\ q = set_size (u64 (t * erasesize p)) p) /\ True)
    (fun _ _ => True) w.
Proof.
  unfold measure_device, clear_ops. wp_step. eapply wp_mono; [apply wp_any | | done]. intros from w1 _.
  wp_steps. eapply wp_mono; [apply wp_any | | done]. intros o w2 _. wp_steps.
  apply whole_rows_any. intros t Ht. wp_step. split; [by exists t | done].
Qed.

(** *** On a flash without factory bad blocks *)
Definition geo w := (flash (w_chip w), chip_num (controller (w_chip w))).
Definition no_factory_bad : Prop := forall w,
  wp op_block_isbad (fun r w' => geo w' = geo w /\ r <> NAND_BLOCK_FACTORY_BAD) noflt w.

Section Good.
Context (Hgood : no_factory_bad) (fl : nand_flash) (chips plane_num : Z).
Context (Hchips : 1 <= chips) (Hplanes : 1 <= plane_num).

Lemma wp_sweep_good point step total from w :
  (forall o w', geo w' = (fl, chips) -> wp (point o) (fun _ w'' => geo w'' = geo w') noflt w') ->
  geo w = (fl, chips) -> total <= Z.of_nat spin -> total < 2 ^ 32 ->
  wp (sweep_blocks spin point step total from) (fun _ w' => geo w' = (fl, chips)) noflt w.
Proof.
  intros Hpoint Hw Htot Hlt. set (I w' := geo w' = (fl, chips)).
  assert (forall from w', I w' -> wp (point from ;; op_block_isbad)
    (fun r w'' => I w'' /\ (r = NAND_BLOCK_FACTORY_BAD <-> false = true)) noflt w') as Hblock.
  { intros o w1 HI. wp_step. eapply wp_mono; [by apply Hpoint | | done]. cbv beta. intros u w2 Hw2.
    eapply wp_mono; [apply Hgood | | done]. intros r w3 [Hw3 Hr]. split; [|done].
    unfold I. congruence. }
  unfold sweep_blocks. change (wp (r ← do_while spin (sweep_body point step)
    (fun '(_, start_blk) => start_blk <? total) (from, 0);
    mret (match r with inl (offset, _) => offset | inr _ => from end)) (fun _ => I) noflt w).
  wp_step. unfold do_while. wp_step.
  apply (wp_sweep_body I (fun _ => false) point step Hblock); [done | lia|]. intros w1 HI1.
  apply (wp_while (fun k '(_, cnt) w' => I w' /\ 0 <= cnt /\ (cnt < total -> total - cnt <= Z.of_nat k))).
  - intros k [o cnt] w2 (HI2 & _) _. by wp_step.
  - intros k [o cnt] w2 (HI2 & Hc & Hk) Hgo%Z.ltb_lt. exists (pred k).
    split; [lia|].
    apply (wp_sweep_body I (fun _ => false) point step Hblock); [done | lia |]. intros w3 HI3.
    split_and!; [done | lia | lia].
  - split_and!; [done | lia | lia].
Qed.

Lemma wp_whole_rows blks rows w (Q : Z -> world D -> Prop) :
  rows <> 0 -> (forall t, 0 <= t < 2 ^ 32 -> Q t w) -> wp (whole_rows blks rows) Q noflt w.
Proof.
  intros Hr HQ. unfold whole_rows, div_. rewrite (proj2 (Z.eqb_neq _ _) Hr). wp_steps.
  apply HQ. by apply Z.mod_pos_bound.
Qed.

Lemma reserved_good tmp_blk w :
  geo w = (fl, chips) -> RESERVED_BLOCK_CNT <= Z.of_nat spin ->
  wp (reserved_blocks spin tmp_blk plane_num)
    (fun t w' => 0 <= t < 2 ^ 32 /\ geo w' = (fl, chips)) noflt w.
Proof.
  intros Hw Hspin. unfold reserved_blocks, clear_ops. wp_steps.
  assert (chip_num (controller (w_chip w)) = chips) as -> by (unfold geo in Hw; congruence).
  eapply wp_mono; [apply wp_sweep_good; [|done..] | | done].
  - intros o w1 Hw1. wp_steps. unfold mod_. rewrite (proj2 (Z.eqb_neq chips 0)) by lia. by wp_steps.
  - intros o w1 Hw1. apply wp_whole_rows; [nia|]. by intros t.
Qed.

Lemma measure_good boot i dev_size pre p w :
  geo w = (fl, chips) -> adjusted_blocks dev_size (erasesize_shift p) <= Z.of_nat spin ->
  i = (if boot : bool then 1 else 0) \/ pre <> None ->
  wp (measure_device spin boot plane_num i dev_size pre p)
    (fun q w' => (exists t, 0 <= t < 2 ^ 32 /\ q = set_size (u64 (t * erasesize p)) p) /\
                 geo w' = (fl, chips)) noflt w.
Proof.
  intros Hw Hspin Hi. unfold measure_device, clear_ops. wp_step.
  destruct (Z.eqb_spec i (if boot then 1 else 0)) as [E|E]; [wp_step | destruct pre as [q|]; [wp_step | by destruct Hi]];
    (wp_steps; eapply wp_mono; [apply wp_sweep_good; [|done| exact Hspin |] | | done];
     [intros o w1 Hw1; by wp_steps | by apply Z.mod_pos_bound |
      intros o w1 Hw1; wp_steps;
      assert (chip_num (controller (w_chip w1)) = chips) as -> by (unfold geo in Hw1; congruence);
      apply wp_whole_rows; [nia|]; intros t Ht; wp_step; split; [by exists t | done]]).
Qed.
End Good.

(** C7: A device is put behind those before it and inside the flash, or the round
    fails and nothing is added, whatever the blocks answer.  On a flash without
    factory bad blocks the round ends. *)
Theorem add_device_laid_out fl chips chip_size plane_num last_ i d l w :
  flash_ok fl chips chip_size -> geo w = (fl, chips) -> layout_inv chip_size i l ->
  0 <= para_size d < 2 ^ 63 -> 1 <= plane_num ->
  (starts_with NAND_BOOT_NAME (para_name d) = true -> i = 0) ->
  (last_ = true -> para_parts d <> [] -> 0 < i) ->
  let added c (_ : world D) :=
    match c with
    | Next l' => layout_inv chip_size (i + 1) l'
    | Return (e, devs) => e = - NAND_FAILED /\ devs = l.1.1
    | Break _ => False
    end in
  wp (add_device spin fl chip_size plane_num last_ i d l) added (fun _ _ => True) w /\
  (no_factory_bad -> RESERVED_BLOCK_CNT <= Z.of_nat spin ->
   (last_ = false -> forall oob,
      adjusted_blocks (asked d) (erasesize_shift (widen fl chips d (new_device fl oob d)))
      <= Z.of_nat spin) ->
   wp (add_device spin fl chip_size plane_num last_ i d l) added noflt w).
Proof.
  intros Hfl Hw Hinv Hsz Hplane Hboot Hlast added.
  assert (chip_num (controller (w_chip w)) = chips) as Hchips by (unfold geo in Hw; congruence).
  split.
  - eapply wp_mono; [apply (wp_add_device fl chips chip_size Hfl (fun _ => True) (fun _ _ => True)
      plane_num (fun _ _ _ => reserved_any _ _ _) (fun _ _ => True)
      (fun _ _ _ _ _ _ _ _ _ => measure_any _ _ _ _ _ _ _)); try done | | done].
    by intros c w' [_ Hc].
  - intros Hgood Hres Hspin. pose proof (fk_chips _ _ _ Hfl) as H1.
    eapply wp_mono; [apply (wp_add_device fl chips chip_size Hfl (fun w' => geo w' = (fl, chips)) noflt
      plane_num (fun t w' Hw' => reserved_good Hgood fl chips plane_num H1 Hplane t w' Hw' Hres)
      (fun dev_size p => adjusted_blocks dev_size (erasesize_shift p) <= Z.of_nat spin)
      (fun b j n pre p w' Hw' Hm Hj => measure_good Hgood fl chips plane_num H1 Hplane b j n pre p w' Hw' Hm Hj));
      try done | | done].
    + intros El oob o. by apply Hspin.
    + by intros c w' [_ Hc].
Qed.
End LaidOut.

(** ** Witnesses *)
Module LayoutWitness.
#[local] Instance hw : NandHw () := {
  hw_cmd _ d m := (d, m);
  hw_info d m := (0, (d, m));
  hw_buf d m := (0, (d, m));
  hw_cfg _ _ d m := (d, m);
  hw_wait d m := (d, m);
  hw_virt _ := 0
}.

(** Blocks are factory bad where [bad] says so of their page address. *)
Definition isbad (bad : Z -> bool) : act () Z :=
  page ← ops_ page_addr;
  mret (if bad page then NAND_BLOCK_FACTORY_BAD else NAND_BLOCK_GOOD).
Definition blocks (bad : Z -> bool) : ChipOperation () := {|
  op_erase_block := mret 0;
  op_read_page := mret 0;
  op_write_page := mret 0;
  op_block_isbad := isbad bad;
  op_block_markbad := mret 0;
  op_test_block_chip_op := mret 0;
  op_test_block_reserved := fun _ => mret 0;
  op_blk_modify_bbt_chip_op := fun _ => mret 0;
  op_update_bbt_chip_op := mret 0
|}.

(** Blocks of 4 MiB with 256 pages on one chip of 8 GiB. *)
Definition fl : nand_flash := mk_flash 16384 8192 4194304 1280 1 0 0 0 0 0 [].
Definition start : world () :=
  set_w_chip (set_flash fl (set_controller (set_chip_num 1 ctl0) chip0)) (world0 ()).

(** Every third block is bad: ten good blocks end with the fifteenth. *)
Example sweep_blocks_spec_witness :
  wp (sweep_blocks (ChipOperation0 := blocks (fun page => page / 256 mod 3 =? 0)) 20
        (fun offset => upd_ops (set_page_addr (u32 (Z.shiftr offset 14)))) 4194304 10 0)
    (fun offset w' => offset = 15 * 4194304 /\ True) noflt start.
Proof.
  pose proof (sweep_blocks_spec (ChipOperation0 := blocks (fun page => page / 256 mod 3 =? 0)) 20
    (fun _ => True) (fun offset => u32 (Z.shiftr offset 14) / 256 mod 3 =? 0)
    (fun offset => upd_ops (set_page_addr (u32 (Z.shiftr offset 14)))) 4194304) as H.
  apply (fun Hb => H Hb 10 15%nat 0 start I); [| lia | lia | vm_compute; done | vm_compute; done].
  intros from w _. cbn [op_block_isbad blocks]. unfold isbad. wp_steps. split; [done|]. cbn.
  by destruct (_ =? 0).
Defined.

(** A code device of 64 MiB behind the boot device. *)
Definition boot : amlnand_phydev := boot_device fl (mk_phydev NAND_BOOT_NAME 0 0 0 4194304 16384 8
  0 0 0 0 Null devops0).
Definition code : dev_para := mk_dev_para (NAND_CODE_NAME ++ replicate 10 0) 0 [67108864] Null 0.

Example add_device_laid_out_witness :
  wp (add_device (ChipOperation0 := blocks (fun _ => false)) 60 fl (Z.shiftl 8192 20) 1 false 1 code
        ([boot], true, 4))
    (fun c _ => match c with
                | Next l' => layout_inv (Z.shiftl 8192 20) 2 l'
                | Return (e, devs) => e = - NAND_FAILED /\ devs = [boot]
                | Break _ => False
                end) noflt start.
Proof.
  assert (layout_inv (Z.shiftl 8192 20) 1 ([boot], true, 4)) as Hinv.
  { split; cbn; [|done | intros _; by exists boot].
    apply (laid_out_snoc _ []); [apply laid_out_nil | done..]. }
  apply (add_device_laid_out (ChipOperation0 := blocks (fun _ => false)) 60 fl 1 (Z.shiftl 8192 20) 1 false 1 code
    ([boot], true, 4) start); try done.
Defined.

(** The whole function: boot, code and data devices out of a configuration in
    memory. *)
Definition para_bytes (nm : list Z) (parts : list Z) : list Z :=
  let name16 := nm ++ replicate (16 - length nm) 0 in
  let part z := replicate 16 0 ++ le_bytes 8 z ++ replicate 16 0 in
  let ps := mjoin (map part parts) in
  name16 ++ replicate 16 0 ++ ps ++ replicate (640 - length ps) 0
    ++ [Z.of_nat (length parts); 0; 0; 0] ++ le_bytes 4 0.
Definition config : list Z :=
  replicate 8 0 ++ para_bytes NAND_BOOT_NAME [] ++ para_bytes NAND_CODE_NAME [67108864]
    ++ para_bytes (chars "nfdata") [1; 2] ++ replicate 680 0 ++ replicate 4 0 ++ [3; 0; 0; 0].
Definition configured : world () :=
  set_w_mem {[ 1 := config ]} (set_w_brk 2
    (set_w_chip (set_config_ptr (Ptr 1 0) (w_chip start)) start)).
Example phydev_init_runs :
  match amlnand_phydev_init (ChipOperation0 := blocks (fun page => page =? 256 * 70)) 3000 configured with
  | Done (r, devs) _ => (r, map (fun p => (offset p, size p)) devs)
  | Fault _ _ => (-1, [])
  end = (0, [(0, 16777216); (52 * 4194304, 23 * 4194304); (75 * 4194304, 8589934592 - 75 * 4194304)]).
Proof. vm_compute. reflexivity. Qed.

(** A device in SLC mode before one of several planes: its second half is given
    away again. *)
Definition slc_flash : nand_flash :=
  mk_flash 16384 8192 4194304 1280 1 0 0 0 0 (NAND_CHIP_SLC_MODE + NAND_MULTI_PLANE_MODE) [].
Definition slc_code : amlnand_phydev :=
  mk_phydev NAND_CODE_NAME DEV_SLC_MODE 218103808 67108864 2097152 16384 8 21 14 0 1 Null devops0.
Definition data : dev_para := mk_dev_para (chars "nfdata") 0 [1] Null DEV_MULTI_PLANE_MODE.
Example slc_devices_overlap :
  match place_device (ChipOperation0 := blocks (fun _ => false)) 60 slc_flash false 0 2 1 (Some slc_code)
          (widen slc_flash 1 data (new_device slc_flash 8 data)) start with
  | Done p _ => offset p = offset slc_code + size slc_code /\
                offset p < offset slc_code + 2 * size slc_code
  | Fault _ _ => False
  end.
Proof. vm_compute. done. Qed.
End LayoutWitness.
