(* ===== verification/Uboot.v ===== *)
(** * Uboot: what only the boot loader's build of the driver has.

    The parts of [phy/chipenv.c] under [AML_NAND_UBOOT]: the boot loader writes
    the configuration the kernel's build only reads, and on later starts
    compares it with its own table of partitions; and on the first start of a
    board it looks for the blocks the factory marked as bad.

    The table of partitions ([amlnand_config]), the flags of its entries
    ([STORE_CACHE] and the like) and the mode the board booted in come from
    outside the repository and are arguments. *)
From S2P Require Import Prelude NfcWords Data Machine Guards Ctrl HwController ChipOp ChipEnv PageStore ChipInit PhyDev PhyLayout.

Definition PHY_DEV_NUM : Z := 3.
Definition MAX_NAND_PART_NUM : nat := 16.
Definition MAX_NAND_PART_NAME_LEN : Z := 16.
Definition NAND_CACHE_NAME : list Z := chars "nfcache".
Definition NAND_DATA_NAME : list Z := chars "nfdata".
Definition NAND_DATA_OPTION : Z := Z.lor DEV_MULTI_PLANE_MODE DEV_MULTI_CHIP_MODE.
Definition NAND_CODE_OPTION : Z := Z.lor DEV_MULTI_PLANE_MODE DEV_MULTI_CHIP_MODE.
Definition DRV_PHY_VERSION : Z :=
  Z.shiftl 1 24 + Z.shiftl 1 16 + Z.shiftl 1 8 + 6.

(** Offsets in [struct dev_para] and [struct amlnf_partition]. *)
Definition OFF_partitions : Z := 32.
Definition OFF_nr_partitions : Z := 672.
Definition OFF_option : Z := 676.
Definition OFF_part_size : Z := 16.
Definition OFF_mask_flags : Z := 32.

(** An entry of [amlnand_config]; the name is the string without its NUL. *)
Record part_entry := mk_entry {
  entry_name : list Z;
  entry_size : Z;
  entry_flags : Z
}.

Section Config.
Context {D : Type} `{!NandHw D} `{!ChipOperation D} (spin : nat).
Context (STORE_CACHE STORE_CODE STORE_DATA : Z).

Definition store64 (p : ptr) (v : Z) : act D unit := store_bytes p (le_bytes 8 v).

Definition config_entry (tbl : list part_entry) (j : Z) : act D part_entry :=
  match tbl !! Z.to_nat j with Some e => mret e | None => throw OutOfBounds end.
Definition partition_at (p : ptr) (n : Z) : ptr :=
  ptr_add p (OFF_partitions + n * SIZEOF_amlnf_partition).

(** The entries with [dev_flag], one behind the other.  [partition == NULL] is
    the address of an element of an array and never holds. *)
Definition init_dev_para (p : ptr) (tbl : list part_entry) (dev_flag : Z) : act D unit :=
  r ← for_ (R := unit) MAX_NAND_PART_NUM 0
        (fun j n =>
           e ← config_entry tbl j;
           if e.(entry_flags) =? dev_flag then
             let q := partition_at p n in
             store_bytes q e.(entry_name) ;;
             store64 (ptr_add q OFF_part_size) e.(entry_size) ;;
             store32 (ptr_add q OFF_mask_flags) e.(entry_flags) ;;
             mret (Next (n + 1))
           else mret (Next n)) 0;
  match r with inl n => store8 (ptr_add p OFF_nr_partitions) n | inr _ => mret tt end.

(** The stored names are compared as far as the new ones go. *)
Definition confirm_dev_para (p : ptr) (tbl : list part_entry) (dev_flag : Z) : act D Z :=
  r ← for_ (R := unit) MAX_NAND_PART_NUM 0
        (fun j '(ret, n) =>
           e ← config_entry tbl j;
           if e.(entry_flags) =? dev_flag then
             let q := partition_at p n in
             nm ← load_bytes q (Z.of_nat (length e.(entry_name)));
             if negb (bool_decide (nm = e.(entry_name))) then mret (Break (-1, n))
             else
               sz ← load64 (ptr_add q OFF_part_size);
               if negb (sz =? e.(entry_size)) then mret (Break (-1, n))
               else
                 fl ← load32 (ptr_add q OFF_mask_flags);
                 if negb (fl =? dev_flag) then mret (Break (-1, n))
                 else mret (Next (ret, n + 1))
           else mret (Next (ret, n))) (0, 0);
  match r with
  | inl (ret, n) =>
      nr ← load8 (ptr_add p OFF_nr_partitions);
      mret (if negb (nr =? n) then -1 else ret)
  | inr _ => mret (-1)
  end.

(** The devices behind the boot device: name, flag of its partitions, option. *)
Definition device_of (i : Z) : Datatypes.option (list Z * Z * Z) :=
  if i =? 0 then Some (NAND_CACHE_NAME, STORE_CACHE, NAND_DATA_OPTION)
  else if i =? 1 then Some (NAND_CODE_NAME, STORE_CODE, NAND_CODE_OPTION)
  else if i =? 2 then Some (NAND_DATA_NAME, STORE_DATA, NAND_DATA_OPTION)
  else None.

Definition dev_para_at (config : ptr) (i : Z) : ptr :=
  ptr_add config (OFF_dev_para + i * SIZEOF_dev_para).

(** The number of the first device behind the boot device. *)
Definition first_dev (boot_device_flag : Z) : Z := if boot_device_flag =? 1 then 1 else 0.

Definition amlnand_get_dev_num (boot_device_flag : Z) (tbl : list part_entry) : act D unit :=
  config ← chip config_ptr;
  let first := first_dev boot_device_flag in
  when_ (boot_device_flag =? 1)
    (let p := dev_para_at config 0 in
     store_bytes p NAND_BOOT_NAME ;;
     store8 (ptr_add p OFF_nr_partitions) 0 ;;
     store32 (ptr_add p OFF_option) 0) ;;
  store8 (ptr_add config OFF_dev_num) (PHY_DEV_NUM + first) ;;
  r ← for_ (R := unit) (Z.to_nat PHY_DEV_NUM) 0
        (fun i _ =>
           match device_of i with
           | None => mret (Break tt)
           | Some (nm, dev_flag, option) =>
               let p := dev_para_at config (first + i) in
               store_bytes p nm ;;
               init_dev_para p tbl dev_flag ;;
               store32 (ptr_add p OFF_option) option ;;
               mret (Next tt)
           end) tt;
  mret tt.

Definition phrase_driver_version (cp cmp : Z) : Z := if cp =? cmp then 0 else -1.

(** [ret] is the last result of [confirm_dev_para] unless something differs. *)
Definition amlnand_configs_confirm (boot_device_flag : Z) (tbl : list part_entry) : act D Z :=
  config ← chip config_ptr;
  version ← load32 (ptr_add config OFF_driver_version);
  let flag := truthy (phrase_driver_version (Z.land (Z.shiftr version 24) 0xff)
                        (Z.land (Z.shiftr DRV_PHY_VERSION 24) 0xff)) in
  let first := first_dev boot_device_flag in
  dev_num ← load8 (ptr_add config OFF_dev_num);
  let flag := flag || negb (PHY_DEV_NUM + first =? dev_num) in
  r ← for_ (R := unit) (Z.to_nat PHY_DEV_NUM) 0
        (fun i flag =>
           match device_of i with
           | None => mret (Break true)
           | Some (_, dev_flag, _) =>
               ret ← confirm_dev_para (dev_para_at config (first + i)) tbl dev_flag;
               mret (if truthy ret then Break true else Next flag)
           end) flag;
  match r with
  | inl false =>
      blk ← load16 (ptr_add config OFF_fbbt_blk_addr);
      upd_arg Fbbt (set_valid_blk_addr blk) ;;
      upd_chip (fun c => set_reserved_blk (reserve blk c.(reserved_blk)) c) ;;
      mret 0
  | _ => mret (-1)
  end.

(** What [amlnand_get_dev_configs] puts into the configuration. *)
Definition fill_config (boot_device_flag : Z) (tbl : list part_entry) : act D unit :=
  config ← chip config_ptr;
  store32 (ptr_add config OFF_driver_version) DRV_PHY_VERSION ;;
  fbbt ← arg_ Fbbt valid_blk_addr;
  store16 (ptr_add config OFF_fbbt_blk_addr) fbbt ;;
  amlnand_get_dev_num boot_device_flag tbl ;;
  put_checksum config OFF_dev_para (MAX_DEVICE_NUM * SIZEOF_dev_para).

Definition save_config (boot_device_flag : Z) (tbl : list part_entry) : act D Z :=
  fill_config boot_device_flag tbl ;;
  config ← chip config_ptr;
  amlnand_save_info_by_name spin Config config CONFIG_HEAD_MAGIC SIZEOF_nand_config.

(** [memset] of the members, one after the other. *)
Definition reset_amlchip_member : act D unit :=
  upd_chip (fun c => set_reserved_blk (replicate (Z.to_nat RESERVED_BLOCK_CNT) 0xff) c) ;;
  upd_arg Bbt (fun _ => arg0) ;;
  upd_arg Fbbt (fun _ => arg0) ;;
  upd_arg Key (fun _ => arg0) ;;
  upd_arg Secure (fun _ => arg0) ;;
  upd_arg Config (fun _ => arg0).

(** The whole flash is erased, marked blocks included.  The boot loader has its
    own [nand_get_chip] and [nand_release_chip]. *)
Definition amlnand_oops_handle (get_chip release_chip : act D unit) : act D Z :=
  fl ← chip flash;
  n ← ctl_ chip_num;
  let total_blk := s32 (Z.shiftr (Z.shiftl (u32 (fl.(chipsize) * n)) 20) (ffs fl.(blocksize) - 1)) in
  r ← for_ (R := unit) (Z.to_nat total_blk) 0
        (fun start_blk _ =>
           clear_ops ;;
           k ← mod_ start_blk n;
           q ← div_ (start_blk - k) n;
           upd_ops (set_page_addr (u32 (q * pages_of_block fl))) ;;
           upd_ops (set_chipnr k) ;;
           r ← controller_select_chip k;
           get_chip ;;
           ret ← op_erase_block;
           release_chip ;;
           mret (Next tt)) tt;
  mret 0.
End Config.

(** ** Hynix: the read retry values from the chip's one-time area *)
Section Otp.
Context {D : Type} `{!NandHw D}.
(** The functions that read the values are not in the repository. *)
Context (aml_nand_get_20nm_OTP_value aml_nand_get_1ynm_OTP_value : ptr -> Z -> act D Z).

Definition HYNIX_OTP_LEN : Z := 528.

(** A byte to a register of the chip. *)
Definition otp_register (addr value : Z) : act D unit :=
  ale addr ;; idle_selected 0 ;; controller_write_byte value.

Definition otp_enter (type : Z) : act D unit :=
  cle 0x36 ;; idle_selected 0 ;;
  (if type =? HYNIX_20NM_8GB then
     otp_register 0xff 0x40 ;; idle_selected 0 ;; otp_register 0xcc 0x4d
   else if type =? HYNIX_20NM_4GB then
     otp_register 0xae 0x00 ;; idle_selected 0 ;; otp_register 0xb0 0x4d
   else if type =? HYNIX_1YNM_8GB then
     otp_register 0x38 0x52 ;; idle_selected 0
   else mret tt) ;;
  idle_selected 0 ;;
  cle 0x16 ;; idle_selected 0 ;; cle 0x17 ;; idle_selected 0 ;;
  cle 0x04 ;; idle_selected 0 ;; cle 0x19 ;; idle_selected 0 ;;
  cle NAND_CMD_READ0 ;; ale 0 ;; ale 0 ;; send_row 0x200 ;; cle NAND_CMD_READSTART.

Definition otp_leave (type : Z) : act D unit :=
  if (type =? HYNIX_20NM_4GB) || (type =? HYNIX_20NM_8GB) then cle 0x38
  else if type =? HYNIX_1YNM_8GB then
    cle 0x36 ;; otp_register 0x38 0 ;; idle_selected 0 ;; cle 0x16 ;;
    cle NAND_CMD_READ0 ;; ale 0 ;; ale 0 ;; ale 0 ;; ale 0 ;; ale 0 ;; cle NAND_CMD_READSTART
  else mret tt.

(** [check_flag], the answer of the function that reads the values, is not
    looked at. *)
Definition get_reg_value_formOTP_hynix (chipnr : Z) : act D Z :=
  type ← flash_ new_type;
  if negb (type =? HYNIX_20NM_4GB) && negb (type =? HYNIX_20NM_8GB)
     && negb (type =? HYNIX_1YNM_8GB)
  then mret 0
  else
    buf ← kmalloc HYNIX_OTP_LEN;
    let failed := kfree buf ;; mret (- NAND_BUSY_FAILURE) in
    if is_null buf then mret (- NAND_MALLOC_FAILURE)
    else
      ret ← controller_quene_rb chipnr;
      if truthy ret then failed
      else
        ret ← nand_reset chipnr;
        if truthy ret then failed
        else
          otp_enter type ;;
          ret ← controller_quene_rb chipnr;
          if truthy ret then failed
          else
            option ← ctl_ ctl_option;
            when_ (truthy (Z.land option NAND_CTRL_NONE_RB)) (cle NAND_CMD_READ0) ;;
            check_flag ← (if (type =? HYNIX_20NM_4GB) || (type =? HYNIX_20NM_8GB)
                          then aml_nand_get_20nm_OTP_value buf chipnr
                          else aml_nand_get_1ynm_OTP_value buf chipnr);
            ret ← nand_reset chipnr;
            if truthy ret then failed
            else
              ret ← controller_quene_rb chipnr;
              if truthy ret then failed
              else
                otp_leave type ;;
                ret ← controller_quene_rb chipnr;
                if truthy ret then failed else kfree buf ;; mret 0.
End Otp.

(** ** Odds and ends of [dev/amlnf_dev.c] and [dev/phydev.c] *)
Section Boards.
(** What the pins say: [POR_SPI_BOOT] and the others. *)
Inductive boot_pins := SpiBoot | NandBoot | EmmcBoot | CardBoot | OtherBoot.

(** [boot_device_flag], and the result, which is none at the end of the
    function. *)
Definition get_boot_device (pins : boot_pins) (boot_device_flag : Z) : Z * Datatypes.option Z :=
  match pins with
  | SpiBoot => (0, Some 0)
  | NandBoot => (1, Some 0)
  | EmmcBoot | CardBoot => (-1, Some (-1))
  | OtherBoot => (boot_device_flag, None)
  end.

Context {D : Type}.

(** The chip's buffers are freed with the first device; the list is emptied. *)
Definition amlnf_phy_exit (devs : list amlnand_phydev) : act D (list amlnand_phydev) :=
  match devs with
  | [] => mret []
  | _ :: _ =>
      drop_buf block_status set_block_status ;;
      drop_buf user_page_buf set_user_page_buf ;;
      drop_buf user_oob_buf set_user_oob_buf ;;
      drop_buf shipped_bbt_ptr set_shipped_bbt_ptr ;;
      drop_buf config_ptr set_config_ptr ;;
      mret []
  end.

(** [!strncmp(a, b, n)]: the strings end at their NUL. *)
Fixpoint c_string (l : list Z) : list Z :=
  match l with [] => [] | c :: l => if c =? 0 then [] else c :: c_string l end.
Definition strn_eq (n : nat) (a b : list Z) : bool :=
  bool_decide (take n (c_string a) = take n (c_string b)).
Definition aml_phy_get_dev (devs : list amlnand_phydev) (nm : list Z) : Datatypes.option amlnand_phydev :=
  List.find (fun p => strn_eq 16 p.(name) nm) devs.
End Boards.

(** ** Bytes in a block of memory *)
Section Bytes.
Implicit Types l bs : list Z.

(** The bytes [bs] stand at [off]. *)
Definition on l (off : Z) bs : Prop :=
  forall i x, bs !! i = Some x -> l !! (Z.to_nat off + i)%nat = Some x.
(** Nothing but the bytes from [a] up to [b] is different. *)
Definition agree (a b : Z) l l' : Prop :=
  length l' = length l /\ forall i, ~ (a <= Z.of_nat i < b) -> l' !! i = l !! i.

Lemma lookup_splice l off bs i :
  0 <= off -> off + Z.of_nat (length bs) <= Z.of_nat (length l) ->
  splice l off bs !! i =
    if decide (off <= Z.of_nat i < off + Z.of_nat (length bs)) then bs !! (i - Z.to_nat off)%nat
    else l !! i.
Proof.
  intros. unfold splice. case_decide.
  - rewrite lookup_app_r by (rewrite length_take; lia).
    rewrite length_take, lookup_app_l by lia. f_equal. lia.
  - destruct (decide (Z.of_nat i < off)).
    + rewrite lookup_app_l by (rewrite length_take; lia). apply lookup_take_lt. lia.
    + rewrite lookup_app_r by (rewrite length_take; lia). rewrite length_take.
      rewrite lookup_app_r, lookup_drop by lia. f_equal. lia.
Qed.

Lemma on_splice l off bs :
  0 <= off -> off + Z.of_nat (length bs) <= Z.of_nat (length l) -> on (splice l off bs) off bs.
Proof.
  intros H0 H1 i x Hi. pose proof (lookup_lt_Some _ _ _ Hi).
  rewrite lookup_splice, decide_True by lia. rewrite <- Hi. f_equal. lia.
Qed.
Lemma agree_splice l off bs a b :
  0 <= off -> off + Z.of_nat (length bs) <= Z.of_nat (length l) ->
  a <= off -> off + Z.of_nat (length bs) <= b -> agree a b l (splice l off bs).
Proof.
  intros. split; [by apply length_splice|]. intros i Hi.
  rewrite lookup_splice, decide_False by lia. done.
Qed.

Lemma agree_refl a b l : agree a b l l.
Proof. by split. Qed.
Lemma agree_trans a b l1 l2 l3 : agree a b l1 l2 -> agree a b l2 l3 -> agree a b l1 l3.
Proof. intros [L1 H1] [L2 H2]. split; [congruence|]. intros i Hi. rewrite H2, H1 by done. done. Qed.
Lemma agree_wide a b a' b' l l' : agree a b l l' -> a' <= a -> b <= b' -> agree a' b' l l'.
Proof. intros [L H] ??. split; [done|]. intros i Hi. apply H. lia. Qed.
Lemma agree_length a b l l' : agree a b l l' -> length l' = length l.
Proof. by intros []. Qed.
Lemma agree_on a b l l' off bs :
  agree a b l l' -> on l off bs -> 0 <= off ->
  off + Z.of_nat (length bs) <= a \/ b <= off -> on l' off bs.
Proof.
  intros [_ H] Hon H0 Hd i x Hi. pose proof (lookup_lt_Some _ _ _ Hi). rewrite H by lia. by apply Hon.
Qed.

Lemma on_peek l off bs :
  on l off bs -> 0 <= off -> take (length bs) (drop (Z.to_nat off) l) = bs.
Proof.
  intros Hon H0. apply list_eq. intros i. destruct (decide (i < length bs)%nat) as [Hi|Hi].
  - rewrite lookup_take_lt, lookup_drop by done.
    destruct (lookup_lt_is_Some_2 bs i Hi) as [x Hx]. rewrite Hx. by apply Hon.
  - rewrite lookup_take_ge, (proj2 (lookup_ge_None bs i)) by lia. done.
Qed.
End Bytes.

Section Holding.
Context {D : Type}.
Implicit Types w : world D.

(** [w] with the block [b] holding [l]. *)
Definition holding (b : Z) (l : list Z) w : world D := set_w_mem (<[b := l]> (w_mem w)) w.

Lemma chip_holding b l w : w_chip (holding b l w) = w_chip w.
Proof. done. Qed.

Lemma wp_put b l off bs w (Q : unit -> world D -> Prop) E :
  0 <= off -> off + Z.of_nat (length bs) <= Z.of_nat (length l) ->
  Q tt (holding b (splice l off bs) w) -> wp (store_bytes (Ptr b off) bs) Q E (holding b l w).
Proof.
  intros H0 H1 HQ. eapply wp_store_bytes.
  { apply poke_Some. exists b, off, l. unfold holding. cbn [w_mem set_w_mem].
    rewrite lookup_insert_eq. split_and!; [reflexivity..|done|done|reflexivity]. }
  unfold holding in *. cbn [w_mem set_w_mem] in *. by rewrite insert_insert_eq.
Qed.
Lemma wp_get b l off bs n w (Q : list Z -> world D -> Prop) E :
  on l off bs -> 0 <= off -> n = Z.of_nat (length bs) -> off + n <= Z.of_nat (length l) ->
  Q bs (holding b l w) -> wp (load_bytes (Ptr b off) n) Q E (holding b l w).
Proof.
  intros Hon H0 -> H1 HQ. apply (wp_load_bytes _ _ bs); [|done]. apply peek_Some.
  exists b, off, l. unfold holding. cbn [w_mem set_w_mem]. rewrite lookup_insert_eq.
  split; [reflexivity|]. split; [reflexivity|]. split; [done|]. split; [lia|]. split; [done|].
  by rewrite Nat2Z.id, on_peek.
Qed.
(** The same for any content, with what is known of it afterwards. *)
Lemma wp_write b l off bs w (Q : unit -> world D -> Prop) E :
  0 <= off -> off + Z.of_nat (length bs) <= Z.of_nat (length l) ->
  (forall l', length l' = length l -> agree off (off + Z.of_nat (length bs)) l l' -> on l' off bs ->
     Q tt (holding b l' w)) ->
  wp (store_bytes (Ptr b off) bs) Q E (holding b l w).
Proof.
  intros H0 H1 HQ. apply wp_put; [done..|].
  apply HQ; [by apply length_splice | apply agree_splice; lia | by apply on_splice].
Qed.
Lemma wp_write_le b l off k v w (Q : unit -> world D -> Prop) E :
  0 <= off -> off + Z.of_nat k <= Z.of_nat (length l) ->
  (forall l', length l' = length l -> agree off (off + Z.of_nat k) l l' -> on l' off (le_bytes k v) ->
     Q tt (holding b l' w)) ->
  wp (store_bytes (Ptr b off) (le_bytes k v)) Q E (holding b l w).
Proof. intros ?? HQ. apply wp_write; rewrite ?length_le_bytes; done. Qed.
(** Reading a number. *)
Lemma wp_get_le b l off k v w (Q : Z -> world D -> Prop) E :
  on l off (le_bytes k v) -> 0 <= off -> off + Z.of_nat k <= Z.of_nat (length l) ->
  0 <= v < 2 ^ (8 * Z.of_nat k) -> Q v (holding b l w) ->
  wp (x ← load_bytes (Ptr b off) (Z.of_nat k); mret (le_value x)) Q E (holding b l w).
Proof.
  intros Hon H0 H1 Hv HQ. apply wp_bind. eapply wp_get; [exact Hon | done | by rewrite length_le_bytes | done |].
  apply wp_ret. by rewrite le_value_bytes, Z.mod_small.
Qed.
End Holding.

(** ** What is written is what is compared, and what the kernel reads *)
Section Filled.
Context {D : Type} `{!NandHw D} `{ops : !ChipOperation D} (spin : nat).
Context (STORE_CACHE STORE_CODE STORE_DATA : Z).
Implicit Types (w : world D) (tbl : list part_entry).
#[local] Abbreviation device_of := (device_of STORE_CACHE STORE_CODE STORE_DATA).

Definition wanted (dev_flag : Z) tbl : list part_entry :=
  filter (fun e => e.(entry_flags) = dev_flag) tbl.
(** The table fits the structures: sixteen entries, numbers of their width. *)
Record entry_ok (e : part_entry) : Prop := {
  eo_name : Z.of_nat (length e.(entry_name)) <= MAX_NAND_PART_NAME_LEN;
  eo_size : 0 <= e.(entry_size) < 2 ^ 64;
  eo_flags : 0 <= e.(entry_flags) < 2 ^ 32
}.
Definition table_ok tbl : Prop := length tbl = MAX_NAND_PART_NUM /\ Forall entry_ok tbl.

Definition entry_on (l : list Z) (q : Z) (e : part_entry) : Prop :=
  on l q e.(entry_name) /\ on l (q + OFF_part_size) (le_bytes 8 e.(entry_size)) /\
  on l (q + OFF_mask_flags) (le_bytes 4 e.(entry_flags)).
Definition part_off (off n : Z) : Z := off + OFF_partitions + n * SIZEOF_amlnf_partition.
Definition partitions_on (l : list Z) (off : Z) (ps : list part_entry) : Prop :=
  forall j e, ps !! j = Some e -> entry_on l (part_off off (Z.of_nat j)) e.
Lemma wanted_snoc dev_flag tbl j e :
  tbl !! j = Some e ->
  wanted dev_flag (take (S j) tbl) =
    wanted dev_flag (take j tbl) ++ (if entry_flags e =? dev_flag then [e] else []).
Proof.
  intros He. unfold wanted. rewrite (take_S_r _ _ _ He), filter_app. f_equal.
  destruct (Z.eqb_spec (entry_flags e) dev_flag).
  - by rewrite filter_cons_True.
  - by rewrite filter_cons_False.
Qed.
Lemma length_wanted dev_flag tbl j :
  Z.of_nat (length (wanted dev_flag (take j tbl))) <= Z.of_nat j.
Proof.
  unfold wanted. pose proof (length_filter (fun e => entry_flags e = dev_flag) (take j tbl)).
  rewrite length_take in H. lia.
Qed.

Lemma agree_entry a b l l' q e :
  agree a b l l' -> entry_on l q e -> entry_ok e -> 0 <= q ->
  q + SIZEOF_amlnf_partition <= a \/ b <= q -> entry_on l' q e.
Proof.
  intros Ha (H1 & H2 & H3) [Hn _ _] H0 Hd. unfold entry_on.
  unfold SIZEOF_amlnf_partition, OFF_part_size, OFF_mask_flags, MAX_NAND_PART_NAME_LEN in *.
  split_and!; (eapply agree_on; [exact Ha | eassumption | lia | rewrite ?length_le_bytes; lia]).
Qed.
Lemma agree_partitions a b l l' off ps :
  agree a b l l' -> partitions_on l off ps -> Forall entry_ok ps -> 0 <= off ->
  part_off off (Z.of_nat (length ps)) <= a \/ b <= off + OFF_partitions -> partitions_on l' off ps.
Proof.
  intros Ha Hp Hok H0 Hd j e He. pose proof (lookup_lt_Some _ _ _ He).
  rewrite Forall_lookup in Hok. unfold part_off, OFF_partitions, SIZEOF_amlnf_partition in *.
  eapply agree_entry; [exact Ha | by apply Hp | by apply (Hok j) | unfold part_off, OFF_partitions, SIZEOF_amlnf_partition; lia |].
  unfold part_off, OFF_partitions, SIZEOF_amlnf_partition. lia.
Qed.
Lemma wanted_ok dev_flag tbl : Forall entry_ok tbl -> Forall entry_ok (wanted dev_flag tbl).
Proof.
  rewrite !Forall_forall. intros H e He. apply H.
  by apply list_elem_of_filter in He as [_ ?].
Qed.

Lemma wp_config_entry tbl j w (Q : part_entry -> world D -> Prop) E :
  (forall e, tbl !! Z.to_nat j = Some e -> Q e w) -> (Z.to_nat j < length tbl)%nat ->
  wp (config_entry tbl j) Q E w.
Proof.
  intros HQ Hj. unfold config_entry. destruct (lookup_lt_is_Some_2 _ _ Hj) as [e He].
  rewrite He. apply wp_ret, HQ. done.
Qed.

(** Sixteen entries fit behind the head of [struct dev_para]. *)
Lemma part_off_bound off n :
  0 <= n < 16 -> off + OFF_partitions <= part_off off n /\
  part_off off n + SIZEOF_amlnf_partition <= off + OFF_nr_partitions.
Proof. unfold part_off, OFF_partitions, SIZEOF_amlnf_partition, OFF_nr_partitions. lia. Qed.

Lemma wp_store_entry {A} b q e l w (k : act D A) (Q : A -> world D -> Prop) E :
  entry_ok e -> 0 <= q -> q + SIZEOF_amlnf_partition <= Z.of_nat (length l) ->
  (forall l', agree q (q + SIZEOF_amlnf_partition) l l' -> entry_on l' q e -> wp k Q E (holding b l' w)) ->
  wp (store_bytes (Ptr b q) (entry_name e) ;;
      store64 (ptr_add (Ptr b q) OFF_part_size) (entry_size e) ;;
      store32 (ptr_add (Ptr b q) OFF_mask_flags) (entry_flags e) ;; k) Q E (holding b l w).
Proof.
  intros [Hn Hs Hf] H0 Hfit HQ. cbn [ptr_add]. unfold store64, store32.
  unfold SIZEOF_amlnf_partition, MAX_NAND_PART_NAME_LEN, OFF_part_size, OFF_mask_flags in *.
  wp_step. apply wp_write; [lia..|]. intros l1 L1 A1 O1.
  wp_step. apply (wp_write_le _ _ _ 8); [lia..|]. intros l2 L2 A2 O2.
  wp_step. apply (wp_write_le _ _ _ 4); [lia..|]. intros l3 L3 A3 O3.
  apply HQ.
  - eapply agree_trans; [|eapply agree_trans]; (eapply agree_wide; [eassumption | lia..]).
  - unfold entry_on, OFF_part_size, OFF_mask_flags. split_and!; [| | exact O3].
    + eapply agree_on; [exact A3 | eapply agree_on; [exact A2 | exact O1 | lia | lia] | lia | lia].
    + eapply agree_on; [exact A3 | exact O2 | lia | rewrite length_le_bytes; lia].
Qed.

(** One more entry behind those that are there. *)
Lemma partitions_snoc l l' off ps e :
  let q := part_off off (Z.of_nat (length ps)) in
  0 <= off -> agree q (q + SIZEOF_amlnf_partition) l l' -> partitions_on l off ps ->
  Forall entry_ok ps -> entry_on l' q e -> partitions_on l' off (ps ++ [e]).
Proof.
  intros q H0 Ha Hp Hok He i x Hx. apply lookup_app_Some in Hx as [Hx|[Hi Hx]].
  - pose proof (lookup_lt_Some _ _ _ Hx). rewrite Forall_lookup in Hok.
    eapply agree_entry; [exact Ha | by apply Hp | by eapply Hok | |].
    + unfold part_off, OFF_partitions, SIZEOF_amlnf_partition. lia.
    + left. unfold q, part_off, SIZEOF_amlnf_partition. lia.
  - apply list_lookup_singleton_Some in Hx as [Hi2 <-].
    replace i with (length ps) by lia. exact He.
Qed.

Lemma wp_init_dev_para b off dev_flag l tbl w (Q : unit -> world D -> Prop) E :
  table_ok tbl -> 0 <= off -> off + SIZEOF_dev_para <= Z.of_nat (length l) ->
  (forall l', agree (off + OFF_partitions) (off + OFF_option) l l' ->
     partitions_on l' off (wanted dev_flag tbl) ->
     on l' (off + OFF_nr_partitions) (le_bytes 1 (Z.of_nat (length (wanted dev_flag tbl)))) ->
     Q tt (holding b l' w)) ->
  wp (init_dev_para (Ptr b off) tbl dev_flag) Q E (holding b l w).
Proof.
  intros [Hlen Hok] H0 Hfit HQ. unfold SIZEOF_dev_para in Hfit. unfold init_dev_para. wp_step.
  apply (wp_for (fun m j n w' => Z.of_nat m + j = 16 /\ 0 <= j /\
    n = Z.of_nat (length (wanted dev_flag (take (Z.to_nat j) tbl))) /\
    exists l', w' = holding b l' w /\ agree (off + OFF_partitions) (off + OFF_nr_partitions) l l' /\
      partitions_on l' off (wanted dev_flag (take (Z.to_nat j) tbl)))).
  - intros j n w' (Hj & _ & -> & l' & -> & Ha & Hp). pose proof (agree_length _ _ _ _ Ha) as L.
    rewrite take_ge in * by (rewrite Hlen; unfold MAX_NAND_PART_NUM; lia).
    unfold store8. cbn [ptr_add]. unfold OFF_nr_partitions, OFF_partitions in *.
    apply (wp_write_le _ _ _ 1); [lia..|]. intros l2 L2 A2 O2. apply HQ; [| | exact O2].
    + eapply agree_trans; (eapply agree_wide; [eassumption | unfold OFF_option; lia..]).
    + eapply agree_partitions; [exact A2 | exact Hp | by apply wanted_ok | done |].
      left. pose proof (length_wanted dev_flag tbl 16) as Hw.
      rewrite take_ge in Hw by (rewrite Hlen; done).
      unfold part_off, OFF_partitions, SIZEOF_amlnf_partition. lia.
  - intros m j n w' (Hj & Hj0 & -> & l' & -> & Ha & Hp). pose proof (agree_length _ _ _ _ Ha) as L.
    wp_step. apply wp_config_entry; [|rewrite Hlen; unfold MAX_NAND_PART_NUM; lia]. intros e He.
    pose proof (wanted_snoc dev_flag _ _ _ He) as Hs.
    replace (Z.to_nat (j + 1)) with (S (Z.to_nat j)) by lia. rewrite Hs.
    pose proof (length_wanted dev_flag tbl (Z.to_nat j)) as Hw.
    set (ps := wanted dev_flag (take (Z.to_nat j) tbl)) in *.
    assert (entry_ok e) as Hoke by (rewrite Forall_lookup in Hok; by eapply Hok).
    destruct (entry_flags e =? dev_flag).
    + pose proof (part_off_bound off (Z.of_nat (length ps))) as [B1 B2]; [lia|].
      unfold OFF_nr_partitions in B2.
      unfold partition_at. cbn [ptr_add]. rewrite Z.add_assoc. fold (part_off off (Z.of_nat (length ps))).
      set (q := part_off off _) in *. assert (0 <= q) by (unfold OFF_partitions in B1; lia).
      apply wp_store_entry; [done | lia | lia |]. intros l2 Ha2 He2. apply wp_ret.
      split; [lia|]. split; [lia|]. split; [rewrite length_app; cbn; lia|].
      exists l2. split; [done|]. split.
      * eapply agree_trans; [exact Ha|]. eapply agree_wide; [exact Ha2 | lia | unfold OFF_nr_partitions; lia].
      * apply (partitions_snoc l'); try done. by apply wanted_ok, Forall_take.
    + rewrite app_nil_r. apply wp_ret. split; [lia|]. split; [lia|]. split; [done|]. by exists l'.
  - split; [reflexivity|]. split; [lia|]. split; [done|]. exists l. split; [done|].
    split; [apply agree_refl|]. intros i x Hx. done.
Qed.

Lemma wanted_at dev_flag tbl j e :
  tbl !! j = Some e -> entry_flags e = dev_flag ->
  wanted dev_flag tbl !! length (wanted dev_flag (take j tbl)) = Some e.
Proof.
  intros He Hf.
  assert (wanted dev_flag tbl =
    wanted dev_flag (take j tbl) ++ e :: wanted dev_flag (drop (S j) tbl)) as ->.
  { unfold wanted. rewrite <- (filter_cons_True (fun e => entry_flags e = dev_flag)), <- filter_app by done.
    by rewrite take_drop_middle. }
  by apply list_lookup_middle.
Qed.

(** The partitions of a device and their number, in [dev_para] at [off]. *)
Definition filled (l : list Z) (off dev_flag : Z) tbl : Prop :=
  0 <= off /\ off + SIZEOF_dev_para <= Z.of_nat (length l) /\
  partitions_on l off (wanted dev_flag tbl) /\
  on l (off + OFF_nr_partitions) (le_bytes 1 (Z.of_nat (length (wanted dev_flag tbl)))).

Lemma wanted_le dev_flag tbl : table_ok tbl -> Z.of_nat (length (wanted dev_flag tbl)) <= 16.
Proof.
  intros [Hl _]. pose proof (length_wanted dev_flag tbl (length tbl)) as H.
  rewrite take_ge, Hl in H by lia. exact H.
Qed.

Lemma wp_confirm_dev_para b off dev_flag l tbl w (Q : Z -> world D -> Prop) E :
  table_ok tbl -> filled l off dev_flag tbl -> Q 0 (holding b l w) ->
  wp (confirm_dev_para (Ptr b off) tbl dev_flag) Q E (holding b l w).
Proof.
  intros Ht (H0 & Hfit & Hp & Hnr) HQ. pose proof (wanted_le dev_flag _ Ht) as Hle.
  destruct Ht as [Hlen Hok]. unfold SIZEOF_dev_para in Hfit. unfold confirm_dev_para. wp_step.
  apply (wp_for (fun m j '(ret, n) w' => Z.of_nat m + j = 16 /\ 0 <= j /\ ret = 0 /\
    n = Z.of_nat (length (wanted dev_flag (take (Z.to_nat j) tbl))) /\ w' = holding b l w)).
  - intros j [ret n] w' (Hj & _ & -> & -> & ->).
    rewrite take_ge by (rewrite Hlen; unfold MAX_NAND_PART_NUM; lia). wp_step.
    eapply (wp_get_le b l (off + OFF_nr_partitions) 1); [exact Hnr | unfold OFF_nr_partitions; lia.. | ].
    rewrite Z.eqb_refl. by apply wp_ret.
  - intros m j [ret n] w' (Hj & Hj0 & -> & -> & ->).
    wp_step. apply wp_config_entry; [|rewrite Hlen; unfold MAX_NAND_PART_NUM; lia]. intros e He.
    pose proof (wanted_snoc dev_flag _ _ _ He) as Hs. pose proof (wanted_at dev_flag _ _ _ He) as Hat.
    replace (Z.to_nat (j + 1)) with (S (Z.to_nat j)) by lia. rewrite Hs. clear Hs.
    pose proof (length_wanted dev_flag tbl (Z.to_nat j)) as Hw.
    set (n := length (wanted dev_flag (take (Z.to_nat j) tbl))) in *.
    destruct (Z.eqb_spec (entry_flags e) dev_flag) as [Hf|].
    + destruct (Hp _ _ (Hat Hf)) as (E1 & E2 & E3).
      rewrite Forall_lookup in Hok. destruct (Hok _ _ He) as [N1 N2 N3].
      unfold partition_at. cbn [ptr_add]. rewrite Z.add_assoc. fold (part_off off (Z.of_nat n)).
      pose proof (part_off_bound off (Z.of_nat n)) as [B1 B2]; [lia|]. set (q := part_off off _) in *.
      unfold OFF_partitions, OFF_nr_partitions, SIZEOF_amlnf_partition, OFF_part_size, OFF_mask_flags,
        MAX_NAND_PART_NAME_LEN in *.
      wp_step. eapply wp_get; [exact E1 | lia | done | lia |]. rewrite bool_decide_true by done. cbn [negb].
      wp_step. eapply (wp_get_le b l (q + 16) 8); [exact E2 | lia | lia | exact N2 |]. rewrite Z.eqb_refl. cbn [negb].
      wp_step. eapply (wp_get_le b l (q + 32) 4); [exact E3 | lia | lia | exact N3 |].
      rewrite Hf, Z.eqb_refl. cbn [negb]. apply wp_ret. rewrite length_app. cbn. split_and!; lia || done.
    + rewrite app_nil_r. apply wp_ret. split_and!; lia || done.
  - by split_and!.
Qed.

Lemma wp_load_dev_para b i dev_flag option l tbl w (Q : dev_para -> world D -> Prop) E :
  let off := OFF_dev_para + i * SIZEOF_dev_para in
  table_ok tbl -> filled l off dev_flag tbl -> on l (off + OFF_option) (le_bytes 4 option) ->
  0 <= option < 2 ^ 32 ->
  (forall d, para_name d = take 16 (drop (Z.to_nat off) l) ->
     para_parts d = map entry_size (wanted dev_flag tbl) -> para_option d = option ->
     Q d (holding b l w)) ->
  wp (load_dev_para (Ptr b 0) i) Q E (holding b l w).
Proof.
  intros off Ht (H0 & Hfit & Hp & Hnr) Hopt Ho HQ. pose proof (wanted_le dev_flag _ Ht) as Hle.
  destruct Ht as [Hlen Hok]. pose proof (wanted_ok dev_flag _ Hok) as Hok'. rewrite Forall_lookup in Hok'.
  unfold SIZEOF_dev_para in Hfit. unfold load_dev_para. cbn [ptr_add]. rewrite Z.add_0_l. fold off.
  set (ps := wanted dev_flag tbl) in *.
  assert (forall o k, 0 <= o -> o + Z.of_nat k <= Z.of_nat (length l) ->
    peek (w_mem (holding b l w)) (Ptr b o) (Z.of_nat k) = Some (take k (drop (Z.to_nat o) l))) as Hpk.
  { intros o k ??. apply peek_Some. exists b, o, l. unfold holding. cbn [w_mem set_w_mem].
    rewrite lookup_insert_eq. split_and!; [done | done | lia | lia | lia |]. by rewrite Nat2Z.id. }
  wp_step. eapply wp_load_bytes; [apply (Hpk _ 16%nat); lia|].
  wp_step. unfold load64 at 1. wp_step. eapply wp_load_bytes; [apply (Hpk _ 8%nat); lia|]. wp_step.
  wp_step. eapply (wp_get_le b l (off + 672) 1); [exact Hnr | lia | lia | lia |].
  wp_step. eapply (wp_get_le b l (off + 676) 4); [exact Hopt | lia | lia | exact Ho |].
  wp_step. apply (wp_for (fun m j parts w' => Z.of_nat m + j = Z.of_nat (length ps) /\ 0 <= j /\
    parts = map entry_size (take (Z.to_nat j) ps) /\ w' = holding b l w)).
  - intros j parts w' (Hj & _ & -> & ->). apply wp_ret. apply HQ; cbn; [done | | done].
    rewrite take_ge by lia. done.
  - intros m j parts w' (Hj & Hj0 & -> & ->). wp_step.
    destruct (lookup_lt_is_Some_2 ps (Z.to_nat j)) as [e He]; [lia|].
    destruct (Hp _ _ He) as (_ & E2 & _). destruct (Hok' _ _ He) as [_ N2 _].
    rewrite Z2Nat.id in E2 by lia. pose proof (part_off_bound off j) as [B1 B2]; [lia|].
    unfold part_off, OFF_partitions, OFF_nr_partitions, OFF_part_size, SIZEOF_amlnf_partition in *.
    eapply (wp_get_le b l (off + (32 + j * 40 + 16)) 8); [| lia | lia | exact N2 |].
    { replace (off + (32 + j * 40 + 16)) with (off + 32 + j * 40 + 16) by lia. exact E2. }
    apply wp_ret. split; [lia|]. split; [lia|]. split; [|done].
    replace (Z.to_nat (j + 1)) with (S (Z.to_nat j)) by lia. by rewrite (take_S_r _ _ _ He), map_app.
  - split_and!; [lia | lia | done | done].
Qed.

(** A device of the configuration as it is written. *)
Definition device_on (l : list Z) (off : Z) (nm : list Z) (dev_flag option : Z) tbl : Prop :=
  on l off nm /\ filled l off dev_flag tbl /\ on l (off + OFF_option) (le_bytes 4 option).

Lemma agree_device a b l l' off nm dev_flag option tbl :
  agree a b l l' -> device_on l off nm dev_flag option tbl -> table_ok tbl ->
  Z.of_nat (length nm) <= 16 -> off + SIZEOF_dev_para <= a \/ b <= off ->
  device_on l' off nm dev_flag option tbl.
Proof.
  intros Ha (H1 & (H0 & Hfit & Hp & Hnr) & H2) Ht Hnm Hd. pose proof (wanted_le dev_flag _ Ht).
  destruct Ht as [_ Hok]. unfold device_on, filled. rewrite (agree_length _ _ _ _ Ha).
  unfold SIZEOF_dev_para, OFF_nr_partitions, OFF_option in *.
  split_and!; try done; try (eapply agree_on; [exact Ha | eassumption | lia | rewrite ?length_le_bytes; lia]).
  eapply agree_partitions; [exact Ha | exact Hp | by apply wanted_ok | done |].
  unfold part_off, OFF_partitions, SIZEOF_amlnf_partition. lia.
Qed.

Lemma wp_put_device {A} b off nm dev_flag option l tbl w (k : act D A) (Q : A -> world D -> Prop) E :
  table_ok tbl -> Z.of_nat (length nm) <= 16 -> 0 <= off ->
  off + SIZEOF_dev_para <= Z.of_nat (length l) ->
  (forall l', agree off (off + SIZEOF_dev_para) l l' -> device_on l' off nm dev_flag option tbl ->
     wp k Q E (holding b l' w)) ->
  wp (store_bytes (Ptr b off) nm ;; init_dev_para (Ptr b off) tbl dev_flag ;;
      store32 (ptr_add (Ptr b off) OFF_option) option ;; k) Q E (holding b l w).
Proof.
  intros Ht Hnm H0 Hfit HQ. unfold SIZEOF_dev_para in *. wp_step. apply wp_write; [lia..|]. intros l1 L1 A1 O1.
  wp_step. apply wp_init_dev_para; [done | done | unfold SIZEOF_dev_para; lia |].
  intros l2 A2 Hp Hnr. pose proof (agree_length _ _ _ _ A2) as L2.
  unfold OFF_partitions, OFF_option, OFF_nr_partitions in *. wp_step. unfold store32. cbn [ptr_add].
  apply (wp_write_le _ _ _ 4); [lia..|]. intros l3 L3 A3 O3. apply HQ.
  - eapply agree_trans; [eapply agree_wide; [exact A1 | lia..]|].
    eapply agree_trans; (eapply agree_wide; [eassumption | lia..]).
  - pose proof (wanted_le dev_flag _ Ht). destruct Ht as [_ Hok].
    unfold device_on, filled, OFF_nr_partitions, OFF_option, SIZEOF_dev_para.
    split_and!; try lia; try done.
    + eapply agree_on; [exact A3 | eapply agree_on; [exact A2 | exact O1 | lia | lia] | lia | lia].
    + eapply agree_partitions; [exact A3 | exact Hp | by apply wanted_ok | done |].
      unfold part_off, OFF_partitions, SIZEOF_amlnf_partition. lia.
    + eapply agree_on; [exact A3 | exact Hnr | lia | rewrite length_le_bytes; lia].
Qed.

(** The devices behind the boot device, and their number. *)
Definition config_on (l : list Z) (first : Z) tbl : Prop :=
  (forall i nm dev_flag option, device_of i = Some (nm, dev_flag, option) ->
     device_on l (OFF_dev_para + (first + i) * SIZEOF_dev_para) nm dev_flag option tbl) /\
  on l OFF_dev_num (le_bytes 1 (PHY_DEV_NUM + first)).

Lemma device_of_Some i nm dev_flag option :
  device_of i = Some (nm, dev_flag, option) ->
  (i = 0 \/ i = 1 \/ i = 2) /\ Z.of_nat (length nm) <= 16 /\ option = NAND_DATA_OPTION.
Proof.
  unfold Uboot.device_of. intros H.
  destruct (Z.eqb_spec i 0); [|destruct (Z.eqb_spec i 1); [|destruct (Z.eqb_spec i 2); [|done]]];
    simplify_eq; repeat split; try lia; by cbn; lia.
Qed.

Lemma wp_boot_device b flag l w {A} (k : act D A) (Q : A -> world D -> Prop) E :
  Z.of_nat (length l) = SIZEOF_nand_config ->
  (forall l', agree OFF_dev_para (OFF_dev_para + first_dev flag * SIZEOF_dev_para) l l' ->
     wp k Q E (holding b l' w)) ->
  wp (when_ (flag =? 1)
        (let p := dev_para_at (Ptr b 0) 0 in
         store_bytes p NAND_BOOT_NAME ;; store8 (ptr_add p OFF_nr_partitions) 0 ;;
         store32 (ptr_add p OFF_option) 0) ;; k) Q E (holding b l w).
Proof.
  unfold SIZEOF_nand_config. intros Hl HQ. wp_step. unfold first_dev in HQ.
  destruct (flag =? 1); cbn [when_]; [|apply wp_ret, HQ, agree_refl].
  cbv zeta. unfold dev_para_at, store8, store32. cbn [ptr_add].
  unfold OFF_dev_para, SIZEOF_dev_para, OFF_nr_partitions, OFF_option in *.
  wp_step. apply wp_write; [lia | cbn; lia |]. change (length NAND_BOOT_NAME) with 6%nat. intros l1 L1 A1 _.
  wp_step. apply (wp_write_le _ _ _ 1); [lia..|]. intros l2 L2 A2 _.
  apply (wp_write_le _ _ _ 4); [lia..|]. intros l3 L3 A3 _. apply HQ.
  eapply agree_trans; [|eapply agree_trans]; (eapply agree_wide; [eassumption | lia..]).
Qed.

Lemma wp_get_dev_num b flag l tbl w (Q : unit -> world D -> Prop) E :
  config_ptr (w_chip w) = Ptr b 0 -> Z.of_nat (length l) = SIZEOF_nand_config -> table_ok tbl ->
  (forall l', config_on l' (first_dev flag) tbl -> length l' = length l ->
     (forall o bs, on l o bs -> OFF_driver_version <= o ->
        o + Z.of_nat (length bs) <= OFF_dev_num \/ OFF_dev_num < o -> on l' o bs) ->
     Q tt (holding b l' w)) ->
  wp (amlnand_get_dev_num STORE_CACHE STORE_CODE STORE_DATA flag tbl) Q E (holding b l w).
Proof.
  intros Hc Hl Ht HQ. unfold amlnand_get_dev_num. do 2 wp_step. rewrite chip_holding, Hc. cbv zeta. apply wp_boot_device; [done|]. intros l1 A1.
  pose proof (agree_length _ _ _ _ A1) as L1. unfold SIZEOF_nand_config in Hl.
  set (first := first_dev flag) in *.
  assert (first = 0 \/ first = 1) as Hf by (unfold first, first_dev; destruct (flag =? 1); lia).
  wp_step. unfold store8. cbn [ptr_add]. unfold OFF_dev_num, OFF_driver_version in *.
  apply (wp_write_le _ _ _ 1); [lia..|]. intros l2 L2 A2 O2.
  wp_step. apply (wp_for (fun m i _ w' => Z.of_nat m + i = 3 /\ 0 <= i /\ exists l3, w' = holding b l3 w /\
    agree (OFF_dev_para + first * SIZEOF_dev_para) 2728 l2 l3 /\
    forall j nm dev_flag option, j < i -> device_of j = Some (nm, dev_flag, option) ->
      device_on l3 (OFF_dev_para + (first + j) * SIZEOF_dev_para) nm dev_flag option tbl)).
  - intros i [] w' (Hi & _ & l3 & -> & A3 & Hd). pose proof (agree_length _ _ _ _ A3) as L3.
    apply wp_ret. unfold OFF_dev_para, SIZEOF_dev_para in *. apply HQ.
    + split.
      * intros j nm dev_flag option Hj. destruct (device_of_Some _ _ _ _ Hj) as [? _].
        apply Hd; [lia | done].
      * eapply agree_on; [exact A3 | exact O2 | unfold OFF_dev_num; lia | right; unfold OFF_dev_num; lia].
    + congruence.
    + intros o bs Ho H1 H2. eapply agree_on; [exact A3 | | lia | lia].
      eapply agree_on; [exact A2 | | lia | lia]. eapply agree_on; [exact A1 | exact Ho | lia | lia].
  - intros m i [] w' (Hi & Hi0 & l3 & -> & A3 & Hd). pose proof (agree_length _ _ _ _ A3) as L3.
    destruct (device_of i) as [[[nm dev_flag] option]|] eqn:Ei.
    2: { exfalso. assert (i = 0 \/ i = 1 \/ i = 2) as [-> | [-> | ->]] by lia; done. }
    destruct (device_of_Some _ _ _ _ Ei) as (_ & Hnm & _). cbv zeta. unfold dev_para_at. cbn [ptr_add].
    rewrite Z.add_0_l.
    unfold OFF_dev_para, SIZEOF_dev_para in *. apply wp_put_device; [done | done | lia | unfold SIZEOF_dev_para; lia |].
    unfold SIZEOF_dev_para. intros l4 A4 Hd4. apply wp_ret. split; [lia|]. split; [lia|]. exists l4. split; [done|]. split.
    + eapply agree_trans; [exact A3|]. eapply agree_wide; [exact A4 | lia | lia].
    + intros j nm' fl' op' Hj Ej. destruct (decide (j = i)) as [->|].
      * rewrite Ei in Ej. simplify_eq. exact Hd4.
      * destruct (device_of_Some _ _ _ _ Ej) as (? & ? & _).
        eapply agree_device; [exact A4 | apply Hd; [lia | done] | done | done |].
        unfold SIZEOF_dev_para. lia.
  - split; [done|]. split; [lia|]. exists l2. split; [done|]. split; [apply agree_refl|].
    intros j nm dev_flag option ? Hj. destruct (device_of_Some _ _ _ _ Hj). lia.
Qed.

(** A configuration that was filled in, and the memory around it. *)
Definition config_filled (b flag : Z) tbl w w' : Prop :=
  exists l, w' = holding b l w /\ Z.of_nat (length l) = SIZEOF_nand_config /\
    config_on l (first_dev flag) tbl /\
    on l OFF_driver_version (le_bytes 4 DRV_PHY_VERSION) /\
    on l OFF_fbbt_blk_addr (le_bytes 2 (valid_blk_addr (arg_of Fbbt (w_chip w)))).

Lemma wp_fill_config b flag l tbl w (Q : unit -> world D -> Prop) E :
  config_ptr (w_chip w) = Ptr b 0 -> w_mem w !! b = Some l ->
  Z.of_nat (length l) = SIZEOF_nand_config -> table_ok tbl ->
  (forall w', config_filled b flag tbl w w' -> Q tt w') ->
  wp (fill_config STORE_CACHE STORE_CODE STORE_DATA flag tbl) Q E w.
Proof.
  intros Hc Hb Hl Ht HQ. unfold SIZEOF_nand_config in Hl.
  assert (w = holding b l w) as Ew.
  { unfold holding. rewrite insert_id by done. by destruct w. }
  rewrite Ew at 1. unfold fill_config, store32, store16. do 2 wp_step. rewrite chip_holding, Hc. cbn [ptr_add]. unfold OFF_driver_version, OFF_fbbt_blk_addr in *.
  wp_step. apply (wp_write_le _ _ _ 4); [lia..|]. intros l1 L1 A1 O1.
  unfold arg_. wp_step. wp_step. rewrite chip_holding.
  set (fbbt := valid_blk_addr _).
  wp_step. apply (wp_write_le _ _ _ 2); [lia..|]. intros l2 L2 A2 O2.
  apply (agree_on _ _ _ _ _ _ A2) in O1; [|lia | rewrite length_le_bytes; lia].
  wp_step. apply wp_get_dev_num; [done | unfold SIZEOF_nand_config; lia | done |].
  intros l3 Hon L3 Hk. unfold put_checksum, checksum_at, store32. cbn [ptr_add]. wp_step. wp_step.
  eapply wp_load_bytes.
  { apply peek_Some. exists b, (0 + OFF_dev_para), l3. unfold holding. cbn [w_mem set_w_mem].
    rewrite lookup_insert_eq. unfold OFF_dev_para, MAX_DEVICE_NUM, SIZEOF_dev_para.
    split_and!; [reflexivity | reflexivity | lia | lia | lia | reflexivity]. }
  wp_step. set (crc := aml_info_checksum _).
  apply (wp_write_le _ _ _ 4); [lia..|]. intros l4 L4 A4 _. apply HQ.
  exists l4. split; [done|]. unfold SIZEOF_nand_config. split; [lia|]. destruct Hon as [Hd Hn].
  assert (first_dev flag = 0 \/ first_dev flag = 1) as Hf by (unfold first_dev; destruct (flag =? 1); lia).
  unfold OFF_driver_version, OFF_fbbt_blk_addr, OFF_dev_num, OFF_dev_para, SIZEOF_dev_para in *.
  split; [split|split].
  - intros i nm dev_flag option Hi. destruct (device_of_Some _ _ _ _ Hi) as (? & ? & _).
    eapply agree_device; [exact A4 | by apply Hd | done | done | right; unfold OFF_dev_para, SIZEOF_dev_para; lia].
  - eapply agree_on; [exact A4 | exact Hn | unfold OFF_dev_num; lia | right; unfold OFF_dev_num; lia].
  - eapply agree_on; [exact A4 | apply Hk; [exact O1 | lia | rewrite length_le_bytes; lia] | lia | lia].
  - eapply agree_on; [exact A4 | apply Hk; [exact O2 | lia | lia] | lia | lia].
Qed.


(** C19: The kernel's driver reads the devices from it that the table asks for:
    their names, options, and the sizes of their partitions in order. *)
Theorem config_read_by_kernel b flag l tbl w i nm dev_flag option :
  config_ptr (w_chip w) = Ptr b 0 -> w_mem w !! b = Some l ->
  Z.of_nat (length l) = SIZEOF_nand_config -> table_ok tbl ->
  device_of i = Some (nm, dev_flag, option) ->
  wp (fill_config STORE_CACHE STORE_CODE STORE_DATA flag tbl ;;
      c ← chip config_ptr; load_dev_para c (first_dev flag + i))
    (fun d _ => starts_with nm (para_name d) = true /\ para_option d = option /\
       para_parts d = map entry_size (wanted dev_flag tbl)) noflt w.
Proof.
  intros Hc Hb Hl Ht Hi. wp_step. eapply wp_fill_config; [done..|].
  intros w' (l' & -> & Hl' & [Hd _] & _). do 2 wp_step. rewrite chip_holding, Hc.
  destruct (Hd _ _ _ _ Hi) as (H1 & H2 & H3). destruct (device_of_Some _ _ _ _ Hi) as (_ & Hnm & Ho).
  eapply wp_load_dev_para; [done | exact H2 | exact H3 | rewrite Ho; vm_compute; split; congruence |].
  intros d Hn Hp Hopt. split_and!; [|done..]. unfold starts_with. apply bool_decide_true.
  rewrite Hn, take_take. replace (length nm `min` 16)%nat with (length nm) by lia.
  apply on_peek; [exact H1 | apply H2].
Qed.
End Filled.

(** ** A board with three partitions *)
Module UbootWitness.
Definition part (nm : string) (z flags : Z) : part_entry := mk_entry (chars nm) z flags.
(** [STORE_CACHE] is 1, [STORE_CODE] 2 and [STORE_DATA] 4. *)
Definition tbl : list part_entry :=
  [part "system" 0x40000000 2; part "cache" 0x20000000 1; part "boot" 0x1000000 2;
   part "data" (2 ^ 64 - 1) 4] ++ replicate 12 (mk_entry [] 0 0).
Definition config : list Z := replicate (Z.to_nat SIZEOF_nand_config) 0.
Definition board : world unit :=
  set_w_mem {[ 1 := config ]}
    (set_w_chip (set_config_ptr (Ptr 1 0) (set_shipped_bbtinfo (set_valid_blk_addr 7 arg0)
       (set_reserved_blk [3; 255; 255] chip0))) (world0 tt)).

Lemma tbl_ok : table_ok tbl.
Proof.
  split; [done|]. apply Forall_app. split; [|apply Forall_replicate; split; vm_compute; try split; congruence].
  do 4 (apply Forall_cons_2; [split; vm_compute; try split; congruence|]). apply Forall_nil_2.
Qed.


Example config_read_by_kernel_witness :
  wp (fill_config 1 2 4 1 tbl ;; c ← chip config_ptr; load_dev_para c (first_dev 1 + 1))
    (fun d _ => starts_with NAND_CODE_NAME (para_name d) = true /\ para_option d = NAND_CODE_OPTION /\
       para_parts d = [0x40000000; 0x1000000]) noflt board.
Proof.
  apply (config_read_by_kernel 1 2 4 1 1 config tbl board 1 NAND_CODE_NAME 2 NAND_CODE_OPTION);
    [reflexivity | apply lookup_insert_eq | | apply tbl_ok | reflexivity].
  unfold config. rewrite length_replicate. vm_compute. reflexivity.
Defined.

(** A name is compared as far as the new one goes: "system" renamed to "sys"
    passes, a size that changed does not. *)
Definition renamed : list part_entry := part "sys" 0x40000000 2 :: drop 1 tbl.
Definition resized : list part_entry := part "system" 0x40000001 2 :: drop 1 tbl.
Definition verdict (new : list part_entry) : Z :=
  match (fill_config 1 2 4 1 tbl ;; amlnand_configs_confirm 1 2 4 1 new) board with
  | Done r _ => r
  | Fault _ _ => 1
  end.
Example changed_tables : (verdict tbl, verdict renamed, verdict resized) = (0, 0, -1).
Proof. vm_compute. reflexivity. Qed.
End UbootWitness.
