(* ===== verification/FactoryScan.v ===== *)
(** * FactoryScan: the blocks the factory marked ([shipped_badblock_detect] of
    [phy/chipenv.c]).

    On the first start of a board the boot loader's build reads the first byte
    of a page and of its spare area, in two pages of every block, and writes the
    marked blocks into the table of factory bad blocks, chip by chip.  The
    theorem: the table lists the marked blocks, with their siblings where two
    planes work together, each once and nothing else, inside its bounds; or the
    scan gives up because too many are marked. *)
From S2P Require Import Prelude NfcWords Data Machine Guards Ctrl HwController ChipOp ChipEnv ChipInit Uboot.

Definition NAND_TCCS_TIME_CYCLE : Z := 20.
Definition NAND_TRHW_TIME_CYCLE : Z := 20.
(** A block of the table of factory bad blocks. *)
Definition FACTORY_BAD : Z := 0x8000.

Section Scan.
Context {D : Type} `{!NandHw D}.
(** From the boot loader: its lock, and an error code no header here has. *)
Context (get_chip release_chip : act D unit) (NAND_SHIPPED_BADBLOCK_FAILED : Z).

(** The verdict on the first bytes of a page and of its spare area. *)
Definition factory_bad (mfr data oob : Z) : bool :=
  (mfr =? NAND_MFR_SAMSUNG) && (negb (oob =? 0xff) || negb (data =? 0xff))
  || (mfr =? NAND_MFR_TOSHIBA) && (negb (oob =? 0xff) || negb (data =? 0xff))
  || (mfr =? NAND_MFR_MICRON) && ((oob =? 0) || negb (oob =? 0xff))
  || (mfr =? NAND_MFR_HYNIX) && negb (oob =? 0xff)
  || (mfr =? NAND_MFR_SANDISK) && negb (oob =? 0xff).

(** [page_addr]: pages 0 and 1 on Sandisk chips, the first and the last on
    others. *)
Definition factory_page (mfr pages_per_blk start_block read_cnt : Z) : Z :=
  let offset := pages_per_blk * start_block in
  if mfr =? NAND_MFR_SANDISK then offset + read_cnt
  else offset + read_cnt * (pages_per_blk - 1).

(** [col0_data] and [col0_oob].  For Sandisk [col0_oob] is 0xff whenever a read
    starts, and [col0_data] is not looked at. *)
Definition factory_read (chipnr page_addr : Z) : act D (Z + Z * Z) :=
  fl ← chip flash;
  c ← chip controller;
  let page := internal_addr page_addr c.(internal_page_nums) fl.(internal_chipnr) in
  cle NAND_CMD_READ0 ;; send_addr page ;; cle NAND_CMD_READSTART ;;
  idle_selected NAND_TWB_TIME_CYCLE ;;
  ret ← controller_quene_rb chipnr;
  if truthy ret then mret (inl (- NAND_BUSY_FAILURE))
  else
    when_ (truthy (Z.land c.(ctl_option) NAND_CTRL_NONE_RB))
      (cle NAND_CMD_READ0 ;; idle_selected NAND_TWB_TIME_CYCLE) ;;
    if c.(mfr_type) =? NAND_MFR_SANDISK then
      r ← for_ (R := unit) 6 0
            (fun i col0_oob =>
               b ← controller_read_byte;
               mret (if b =? 0 then Break 0 else Next col0_oob)) 0xff;
      mret (inr (0, match r with inl oob => oob | inr _ => 0xff end))
    else
      col0_data ← controller_read_byte;
      idle_selected NAND_TRHW_TIME_CYCLE ;;
      cle NAND_CMD_RNDOUT ;; ale fl.(pagesize) ;; ale (Z.shiftr fl.(pagesize) 8) ;;
      cle NAND_CMD_RNDOUTSTART ;;
      idle_selected NAND_TCCS_TIME_CYCLE ;;
      col0_oob ← controller_read_byte;
      mret (inr (col0_data, col0_oob)).

(** The two reads of a block. *)
Definition factory_probe (chipnr start_block : Z) : act D (Z + bool) :=
  fl ← chip flash;
  mfr ← ctl_ mfr_type;
  r ← for_ 2 0
        (fun read_cnt _ =>
           r ← factory_read chipnr (factory_page mfr (pages_of_block fl) start_block read_cnt);
           mret (match r with
                 | inl ret => Return (inl ret)
                 | inr (data, oob) =>
                     if factory_bad mfr data oob then Return (inr true) else Next tt
                 end)) tt;
  mret (match r with inl _ => inr false | inr v => v end).

(** [tmp_arr[cnt] = block | 0x8000] in the row of a chip. *)
Definition note_factory_bad (chipnr cnt block : Z) : act D unit :=
  t ← chip shipped_bbt_ptr;
  store16 (ptr_add t (4 + 2 * (chipnr * MAX_BAD_BLK_NUM + cnt))) (Z.lor block FACTORY_BAD).

(** A block that is marked; the result is where to go on, or that there are too
    many. *)
Definition factory_found (chipnr total_block start_block cnt : Z) : act D (Z * Z + unit) :=
  fl ← chip flash;
  c ← chip controller;
  note_factory_bad chipnr cnt start_block ;;
  '(b, n) ← (if (c.(flash_type) =? NAND_TYPE_MLC) && has fl.(flash_option) NAND_MULTI_PLANE_MODE
             then if start_block mod 2 =? 0
                  then note_factory_bad chipnr (cnt + 1) (start_block + 1) ;;
                       mret (start_block + 1, cnt + 1)
                  else note_factory_bad chipnr (cnt + 1) (start_block - 1) ;;
                       mret (start_block, cnt + 1)
             else mret (start_block, cnt));
  mret (if total_block / 5 <=? n then inr tt else inl (b + 1, n + 1)).

Definition factory_total (fl : nand_flash) : Z :=
  s32 (Z.shiftr (u64 (Z.shiftl fl.(chipsize) 20)) (ffs fl.(blocksize) - 1)).

(** One chip; [inr ret] leaves the function. *)
Definition factory_chip (chipnr start_blk total_block : Z) : act D (Z * Z + (Z + unit)) :=
  while_ (Z.to_nat (total_block - start_blk)) (fun '(b, _) => b <? total_block)
    (fun '(b, cnt) =>
       r ← factory_probe chipnr b;
       match r with
       | inl ret => mret (Return (inl ret))
       | inr false => mret (Next (b + 1, cnt))
       | inr true =>
           r ← factory_found chipnr total_block b cnt;
           mret (match r with inl l => Next l | inr _ => Return (inr tt) end)
       end)
    (start_blk, 0).

(** [shipped_retry_flag] is an argument, and the second part of the result. *)
Definition shipped_badblock_detect (boot_device_flag shipped_retry_flag : Z) : act D (Z * Z) :=
  fl ← chip flash;
  n ← ctl_ chip_num;
  t ← chip shipped_bbt_ptr;
  let start_blk := if boot_device_flag =? 0 then 0
                   else Z.shiftr (s32 (1024 * fl.(pagesize))) (ffs fl.(blocksize) - 1) in
  memset t 0 SIZEOF_shipped_bbt ;;
  get_chip ;;
  r ← for_ (Z.to_nat n) 0
        (fun chipnr _ =>
           r ← controller_select_chip chipnr;
           r ← factory_chip chipnr start_blk (factory_total fl);
           mret (match r with inl _ => Next tt | inr e => Return e end)) tt;
  release_chip ;;
  mret (match r with
        | inl _ => (0, shipped_retry_flag)
        | inr (inl ret) => (ret, shipped_retry_flag)
        | inr (inr _) =>
            if truthy shipped_retry_flag then (- NAND_STATUS_FAILURE, shipped_retry_flag)
            else (- NAND_SHIPPED_BADBLOCK_FAILED, 1)
        end).
End Scan.

(** ** The list of blocks *)

(** The blocks of [b .. total_block) that are found [bad], as they are listed. *)
Fixpoint factory_list (multi : bool) (bad : Z -> bool) (total_block : Z) (n : nat) (b : Z) : list Z :=
  match n with
  | O => []
  | S n =>
      if total_block <=? b then []
      else if bad b then
        if multi then
          if b mod 2 =? 0 then b :: b + 1 :: factory_list multi bad total_block n (b + 2)
          else b :: b - 1 :: factory_list multi bad total_block n (b + 1)
        else b :: factory_list multi bad total_block n (b + 1)
      else factory_list multi bad total_block n (b + 1)
  end.

(** The other block of a pair. *)
Definition pair_of (b : Z) : Z := if b mod 2 =? 0 then b + 1 else b - 1.
Definition marked_or_pair (multi : bool) (bad : Z -> bool) (b : Z) : bool :=
  bad b || (multi && bad (pair_of b)).

Lemma pair_even b : b mod 2 = 0 -> pair_of b = b + 1 /\ pair_of (b + 1) = b.
Proof.
  intros H. unfold pair_of. rewrite H. replace ((b + 1) mod 2) with 1.
  - cbn. lia.
  - rewrite Z.add_mod, H by lia. done.
Qed.
Lemma next_even b : b mod 2 = 0 -> (b + 1) mod 2 = 1.
Proof. intros H. rewrite Z.add_mod, H by lia. done. Qed.
Lemma next_odd b : b mod 2 = 1 -> (b + 1) mod 2 = 0.
Proof. intros H. rewrite Z.add_mod, H by lia. done. Qed.

Lemma factory_list_end multi bad total n b : total <= b -> factory_list multi bad total n b = [].
Proof. intros H. destruct n; cbn; [done|]. by rewrite (proj2 (Z.leb_le _ _) H). Qed.

(** Single planes: the list is a filter. *)
Lemma in_factory_list_single bad total n b x :
  total - b <= Z.of_nat n ->
  x ∈ factory_list false bad total n b <-> b <= x < total /\ bad x = true.
Proof.
  revert b. induction n as [|n IH]; intros b Hn.
  { cbn. split; [by intros ?%elem_of_nil | lia]. }
  destruct (Z.le_gt_cases total b) as [Hb|Hb].
  { rewrite factory_list_end by done. split; [by intros ?%elem_of_nil | lia]. }
  cbn. rewrite (proj2 (Z.leb_gt _ _)) by done. destruct (bad b) eqn:Eb.
  - rewrite elem_of_cons, IH by lia. split.
    + intros [-> | [? ?]]; split; (done || lia).
    + intros [? ?]. destruct (decide (x = b)); [by left | right; split; [lia | done]].
  - rewrite IH by lia. split; intros [? ?]; (split; [|done]); [lia|].
    assert (x <> b) by congruence. lia.
Qed.

(** Pairs of planes: nothing is left out and nothing comes twice; a block that
    is passed over alone had a good sibling. *)
Lemma in_factory_list_pairs bad total n b x :
  total mod 2 = 0 -> (b mod 2 = 1 -> bad (b - 1) = false) -> total - b <= Z.of_nat n ->
  x ∈ factory_list true bad total n b <->
    b - b mod 2 <= x < total /\ marked_or_pair true bad x = true.
Proof.
  intros Ht. unfold marked_or_pair. cbn [andb]. revert b. induction n as [|n IH]; intros b Ho Hn.
  { cbn. split; [by intros ?%elem_of_nil|]. intros [? _].
    assert (b mod 2 = 1 -> total <> b) by congruence. pose proof (Z.mod_pos_bound b 2). lia. }
  destruct (Z.le_gt_cases total b) as [Hb|Hb].
  { rewrite factory_list_end by done. split; [by intros ?%elem_of_nil|].
    intros [? _].
    assert (b mod 2 = 1 -> total <> b) by congruence. pose proof (Z.mod_pos_bound b 2). lia. }
  cbn [factory_list]. rewrite (proj2 (Z.leb_gt _ _)) by done.
  assert (b mod 2 = 0 \/ b mod 2 = 1) as [Hp|Hp] by (pose proof (Z.mod_pos_bound b 2); lia); rewrite Hp.
  - destruct (pair_even _ Hp) as [P1 P2]. destruct (bad b) eqn:Eb; cbn.
    + assert ((b + 2) mod 2 = 0) as H2 by (rewrite Z.add_mod, Hp by lia; done).
      rewrite !elem_of_cons, IH; [| rewrite H2; discriminate | lia]. rewrite H2, Z.sub_0_r.
      pose proof (next_even _ Hp). assert (b + 1 <> total) by congruence. split.
      * intros [-> | [-> | [? ?]]]; split; try lia; [by rewrite Eb | by rewrite P2, Eb, orb_true_r | done].
      * intros [? ?]. destruct (decide (x = b)); [by left|]. destruct (decide (x = b + 1)); [by right; left|].
        right; right. split; [lia | done].
    + rewrite IH; [| intros _; by rewrite Z.add_simpl_r | lia]. rewrite next_even by done.
      replace (b + 1 - 1) with (b - 0) by lia. done.
  - pose proof (next_odd _ Hp) as He. destruct (pair_even (b - 1)) as [P1 P2].
    { rewrite <- (next_odd b Hp). replace (b + 1) with (b - 1 + 1 * 2) by lia. by rewrite Z.mod_add. }
    replace (b - 1 + 1) with b in P1, P2 by lia. destruct (bad b) eqn:Eb; cbn.
    + rewrite !elem_of_cons, IH; [| rewrite He; discriminate | lia]. rewrite He. split.
      * intros [-> | [-> | [? ?]]]; split; try lia; [by rewrite Eb | by rewrite P1, Eb, orb_true_r | done].
      * intros [? ?]. destruct (decide (x = b)); [by left|]. destruct (decide (x = b - 1)); [by right; left|].
        right; right. split; [lia | done].
    + rewrite IH; [| rewrite He; discriminate | lia]. rewrite He. split.
      * intros [? ?]. split; [lia | done].
      * intros [? Hx]. split; [|done]. destruct (decide (x = b)) as [->|].
        { rewrite P2, Eb, (Ho Hp) in Hx. done. }
        destruct (decide (x = b - 1)) as [->|]; [|lia]. rewrite P1, Eb, (Ho Hp) in Hx. done.
Qed.

Lemma factory_list_nodup multi bad total n b :
  (multi = true -> total mod 2 = 0 /\ (b mod 2 = 1 -> bad (b - 1) = false)) -> total - b <= Z.of_nat n ->
  NoDup (factory_list multi bad total n b).
Proof.
  revert b. induction n as [|n IH]; intros b Hm Hn; [constructor|].
  destruct (Z.le_gt_cases total b) as [Hb|Hb]; [rewrite factory_list_end by done; constructor|].
  cbn [factory_list]. rewrite (proj2 (Z.leb_gt _ _)) by done. destruct multi.
  - destruct (Hm eq_refl) as [Ht Ho].
    assert (b mod 2 = 0 \/ b mod 2 = 1) as [Hp|Hp] by (pose proof (Z.mod_pos_bound b 2); lia); rewrite Hp; cbn.
    + assert ((b + 2) mod 2 = 0) as H2 by (rewrite Z.add_mod, Hp by lia; done).
      destruct (bad b) eqn:Eb.
      * assert (forall x, x < b + 2 -> x ∉ factory_list true bad total n (b + 2)) as Hnot.
        { intros x Hx. rewrite in_factory_list_pairs; [rewrite H2; lia | done | rewrite H2; discriminate | lia]. }
        constructor; [rewrite not_elem_of_cons; split; [lia | apply Hnot; lia]|].
        constructor; [apply Hnot; lia|]. apply IH; [|lia]. intros _. split; [done|]. rewrite H2. discriminate.
      * apply IH; [|lia]. intros _. split; [done|]. intros _. by rewrite Z.add_simpl_r.
    + pose proof (next_odd _ Hp) as He. destruct (bad b) eqn:Eb.
      * assert (forall x, x < b + 1 -> x ∉ factory_list true bad total n (b + 1)) as Hnot.
        { intros x Hx. rewrite in_factory_list_pairs; [rewrite He; lia | done | rewrite He; discriminate | lia]. }
        constructor; [rewrite not_elem_of_cons; split; [lia | apply Hnot; lia]|].
        constructor; [apply Hnot; lia|]. apply IH; [|lia]. intros _. split; [done|]. rewrite He. discriminate.
      * apply IH; [|lia]. intros _. split; [done|]. rewrite He. discriminate.
  - destruct (bad b); [|apply IH; [done | lia]]. constructor; [|apply IH; [done | lia]].
    rewrite in_factory_list_single by lia. lia.
Qed.

(** ** The scan against the list *)
Section FactoryLaw.
Context {D : Type} `{!NandHw D}.
Context (get_chip release_chip : act D unit) (NAND_SHIPPED_BADBLOCK_FAILED : Z).
Implicit Types w : world D.

(** What the scan looks at, and what nothing but the table's stores changes. *)
Definition scan_setup w :=
  (flash (w_chip w), shipped_bbt_ptr (w_chip w),
   (chip_num (controller (w_chip w)), mfr_type (controller (w_chip w)),
    flash_type (controller (w_chip w)))).
Definition scan_kept w w' : Prop := w_mem w' = w_mem w /\ scan_setup w' = scan_setup w.

(** A bus on which chips can be selected and pages be read: [marks k page] are
    the first bytes of a page of chip [k] and of its spare area. *)
Record factory_law (fine : world D -> Prop) (marks : Z -> Z -> Z * Z) (start total : Z) : Prop := {
  fl_mem : forall m w, fine w -> fine (set_w_mem m w);
  fl_get : forall w, fine w -> wp get_chip (fun _ w' => fine w' /\ scan_kept w w') noflt w;
  fl_release : forall w, fine w -> wp release_chip (fun _ w' => fine w' /\ scan_kept w w') noflt w;
  fl_select : forall k w, fine w -> 0 <= k < chip_num (controller (w_chip w)) ->
    wp (controller_select_chip k) (fun _ w' => fine w' /\ scan_kept w w') noflt w;
  fl_read : forall k b c w, fine w -> 0 <= k < chip_num (controller (w_chip w)) ->
    start <= b < total -> 0 <= c < 2 ->
    let page := factory_page (mfr_type (controller (w_chip w))) (pages_of_block (flash (w_chip w))) b c in
    wp (factory_read k page) (fun r w' => r = inr (marks k page) /\ fine w' /\ scan_kept w w') noflt w
}.

Context (fine : world D -> Prop) (marks : Z -> Z -> Z * Z) (start total : Z).
Context (Hlaw : factory_law fine marks start total).

(** Block [b] of chip [k] is marked: one of its two pages is. *)
Definition block_marked (mfr pages k b : Z) : bool :=
  let '(d0, o0) := marks k (factory_page mfr pages b 0) in
  let '(d1, o1) := marks k (factory_page mfr pages b 1) in
  factory_bad mfr d0 o0 || factory_bad mfr d1 o1.
Definition marked_of w : Z -> Z -> bool :=
  block_marked (mfr_type (controller (w_chip w))) (pages_of_block (flash (w_chip w))).
Definition multi_of w : bool :=
  (flash_type (controller (w_chip w)) =? NAND_TYPE_MLC)
  && has (flash_option (flash (w_chip w))) NAND_MULTI_PLANE_MODE.
Definition listed w (k : Z) : list Z :=
  factory_list (multi_of w) (marked_of w k) total (Z.to_nat (total - start)) start.

Lemma scan_kept_trans w1 w2 w3 : scan_kept w1 w2 -> scan_kept w2 w3 -> scan_kept w1 w3.
Proof. intros [H1 H2] [H3 H4]. split; congruence. Qed.
Lemma scan_setup_inv w w' :
  scan_setup w' = scan_setup w ->
  flash (w_chip w') = flash (w_chip w) /\ shipped_bbt_ptr (w_chip w') = shipped_bbt_ptr (w_chip w) /\
  chip_num (controller (w_chip w')) = chip_num (controller (w_chip w)) /\
  mfr_type (controller (w_chip w')) = mfr_type (controller (w_chip w)) /\
  flash_type (controller (w_chip w')) = flash_type (controller (w_chip w)).
Proof. unfold scan_setup. intros H. injection H as ? ? ? ? ?. by split_and!. Qed.
Lemma setup_marked w w' : scan_setup w' = scan_setup w -> marked_of w' = marked_of w.
Proof. intros (E1 & _ & _ & E2 & _)%scan_setup_inv. unfold marked_of. by rewrite E1, E2. Qed.
Lemma setup_multi w w' : scan_setup w' = scan_setup w -> multi_of w' = multi_of w.
Proof. intros (E1 & _ & _ & _ & E2)%scan_setup_inv. unfold multi_of. by rewrite E1, E2. Qed.

Lemma wp_factory_probe k b w :
  fine w -> 0 <= k < chip_num (controller (w_chip w)) -> start <= b < total ->
  wp (factory_probe k b) (fun r w' => r = inr (marked_of w k b) /\ fine w' /\ scan_kept w w') noflt w.
Proof.
  intros Hf Hk Hb. unfold factory_probe. do 4 wp_step. wp_step.
  set (mfr := mfr_type (controller (w_chip w))). set (pages := pages_of_block (flash (w_chip w))).
  set (bad c := let '(d, o) := marks k (factory_page mfr pages b c) in factory_bad mfr d o).
  assert (marked_of w k b = bad 0 || bad 1) as Hm.
  { unfold marked_of, block_marked, bad. fold mfr pages.
    by destruct (marks k (factory_page mfr pages b 0)), (marks k (factory_page mfr pages b 1)). }
  apply (wp_for (fun m c _ w' => Z.of_nat m + c = 2 /\ 0 <= c /\ fine w' /\ scan_kept w w' /\
    (c = 0 \/ bad 0 = false) /\ (c < 2 \/ bad 1 = false))).
  - intros c [] w' (Hc & _ & Hf' & Hk' & H0 & H1). apply wp_ret. split_and!; [|done..].
    rewrite Hm. destruct H0 as [| ->]; [lia|]. destruct H1 as [| ->]; [lia | done].
  - intros m c [] w' (Hc & Hc0 & Hf' & Hk' & H0 & H1).
    destruct (scan_setup_inv _ _ (proj2 Hk')) as (E1 & _ & E2 & E3 & _). wp_step.
    pose proof (fl_read _ _ _ _ Hlaw k b c w' Hf') as Hread. rewrite E1, E2, E3 in Hread. fold mfr pages in Hread.
    eapply wp_mono; [apply Hread; [done | done | lia] | | done].
    intros r w2 (-> & Hf2 & Hk2). pose proof (scan_kept_trans _ _ _ Hk' Hk2) as Hkk.
    assert (bad c = let '(d, o) := marks k (factory_page mfr pages b c) in factory_bad mfr d o) as Ec by done.
    destruct (marks k (factory_page mfr pages b c)) as [d o]. rewrite <- Ec.
    assert (c = 0 \/ c = 1) as [-> | ->] by lia.
    + destruct (bad 0) eqn:Eb; wp_step; cbv iota;
        [|split_and!; first [lia | done | by right | by left; lia]].
      wp_steps. by rewrite Hm.
    + destruct H0 as [?|Eb0]; [lia|].
      destruct (bad 1) eqn:Eb; wp_step; cbv iota;
        [|split_and!; first [lia | done | by right | by left; lia]].
      wp_steps. by rewrite Hm, Eb0.
  - split_and!; first [done | lia | by left | left; lia].
Qed.

(** ** The table in memory *)
Definition slot (es : list Z) (i : nat) : Z :=
  match es !! i with Some b => Z.lor b FACTORY_BAD | None => 0 end.
Definition slot_off (k : Z) (i : Z) : Z := 4 + 2 * (k * MAX_BAD_BLK_NUM + i).
Definition row_is (l : list Z) (k : Z) (es : list Z) : Prop :=
  forall i, Z.of_nat i < MAX_BAD_BLK_NUM -> on l (slot_off k (Z.of_nat i)) (le_bytes 2 (slot es i)).

Lemma slot_snoc es x i :
  slot (es ++ [x]) i = if decide (i = length es) then Z.lor x FACTORY_BAD else slot es i.
Proof.
  unfold slot. case_decide as E.
  - subst. by rewrite list_lookup_middle.
  - destruct (decide (i < length es)%nat).
    + by rewrite lookup_app_l.
    + rewrite lookup_app_r by lia. rewrite (proj2 (lookup_ge_None es i)) by lia.
      destruct (i - length es)%nat eqn:Ei; [lia | done].
Qed.

Lemma wp_note k es x tb l w (Q : unit -> world D -> Prop) E :
  shipped_bbt_ptr (w_chip w) = Ptr tb 0 -> Z.of_nat (length l) = SIZEOF_shipped_bbt ->
  0 <= k < MAX_CHIP_NUM -> Z.of_nat (length es) < MAX_BAD_BLK_NUM -> row_is l k es ->
  (forall l', length l' = length l -> row_is l' k (es ++ [x]) ->
     (forall k' es', 0 <= k' -> k' <> k -> row_is l k' es' -> row_is l' k' es') -> Q tt (holding tb l' w)) ->
  wp (note_factory_bad k (Z.of_nat (length es)) x) Q E (holding tb l w).
Proof.
  unfold SIZEOF_shipped_bbt, MAX_CHIP_NUM, MAX_BAD_BLK_NUM. intros Ht Hl Hk Hes Hrow HQ.
  unfold note_factory_bad, store16. do 2 wp_step. rewrite chip_holding, Ht. cbn [ptr_add].
  unfold MAX_BAD_BLK_NUM. rewrite Z.add_0_l. set (off := 4 + 2 * (k * 2048 + Z.of_nat (length es))).
  apply (wp_write_le _ _ _ 2); [lia..|]. intros l' L A O.
  apply HQ; [exact L | |].
  - intros i Hi. unfold MAX_BAD_BLK_NUM in Hi. rewrite slot_snoc. unfold slot_off, MAX_BAD_BLK_NUM. case_decide as E1.
    + subst i. exact O.
    + eapply agree_on; [exact A | by apply Hrow | unfold slot_off, MAX_BAD_BLK_NUM; lia | rewrite length_le_bytes; lia].
  - intros k' es' Hk0 Hne Hrow' i Hi. unfold MAX_BAD_BLK_NUM in Hi.
    eapply agree_on; [exact A | by apply Hrow' | unfold slot_off, MAX_BAD_BLK_NUM; lia |].
    rewrite length_le_bytes. unfold slot_off, MAX_BAD_BLK_NUM. nia.
Qed.

(** The scan with [l] in the table. *)
Definition scanning (tb : Z) w0 (l : list Z) w : Prop :=
  fine w /\ scan_setup w = scan_setup w0 /\ w_mem w !! tb = Some l /\
  Z.of_nat (length l) = SIZEOF_shipped_bbt.

Lemma held tb l w : w_mem w !! tb = Some l -> w = holding tb l w.
Proof. intros H. unfold holding. rewrite insert_id by done. by destruct w. Qed.
Lemma scanning_kept tb w0 l w w' : scanning tb w0 l w -> fine w' -> scan_kept w w' -> scanning tb w0 l w'.
Proof. intros (_ & E & H & Hl) Hf [Hm Hs]. split_and!; [done | congruence | congruence | done]. Qed.
Lemma scanning_put tb w0 l l' w :
  scanning tb w0 l w -> length l' = length l -> scanning tb w0 l' (holding tb l' w).
Proof.
  intros (Hf & E & H & Hl) Hl'. split; [by apply (fl_mem _ _ _ _ Hlaw)|]. split; [done|].
  split; [apply lookup_insert_eq | congruence].
Qed.

(** Rows of other chips. *)
Definition other_rows (k : Z) (l l' : list Z) : Prop :=
  forall k' es', 0 <= k' -> k' <> k -> row_is l k' es' -> row_is l' k' es'.
Lemma other_rows_trans k l1 l2 l3 : other_rows k l1 l2 -> other_rows k l2 l3 -> other_rows k l1 l3.
Proof. intros H1 H2 k' es' ???. apply H2; [done..|]. by apply H1. Qed.

Lemma wp_note_scan k es x tb l w0 w (Q : unit -> world D -> Prop) E :
  scanning tb w0 l w -> shipped_bbt_ptr (w_chip w0) = Ptr tb 0 -> 0 <= k < MAX_CHIP_NUM ->
  Z.of_nat (length es) < MAX_BAD_BLK_NUM -> row_is l k es ->
  (forall l' w', scanning tb w0 l' w' -> row_is l' k (es ++ [x]) -> other_rows k l l' -> Q tt w') ->
  wp (note_factory_bad k (Z.of_nat (length es)) x) Q E w.
Proof.
  intros Hs Ht Hk Hes Hr HQ. destruct (id Hs) as (_ & E1 & Hm & Hl).
  destruct (scan_setup_inv _ _ E1) as (_ & E2 & _). rewrite (held _ _ _ Hm).
  apply wp_note with (es := es); [congruence | done.. |]. intros l' Hl' Hr' Ho.
  apply (HQ l'); [by eapply scanning_put | done | exact Ho].
Qed.

(** What a marked block adds to the list. *)
Definition found_at (multi : bool) (b : Z) : list Z :=
  if multi then if b mod 2 =? 0 then [b; b + 1] else [b; b - 1] else [b].

Lemma wp_factory_found k es b tb l w0 w (Q : Z * Z + unit -> world D -> Prop) E :
  scanning tb w0 l w -> shipped_bbt_ptr (w_chip w0) = Ptr tb 0 -> 0 <= k < MAX_CHIP_NUM ->
  Z.of_nat (length es) + 1 < MAX_BAD_BLK_NUM -> row_is l k es ->
  (forall l' w', scanning tb w0 l' w' -> row_is l' k (es ++ found_at (multi_of w0) b) -> other_rows k l l' ->
     let n := Z.of_nat (length (es ++ found_at (multi_of w0) b)) in
     Q (if total / 5 <? n then inr tt
        else inl (if multi_of w0 && (b mod 2 =? 0) then b + 2 else b + 1, n)) w') ->
  wp (factory_found k total b (Z.of_nat (length es))) Q E w.
Proof.
  intros Hs Ht Hk Hes Hr HQ. destruct (id Hs) as (_ & E1 & _).
  unfold factory_found. do 4 wp_step. fold (multi_of w). rewrite (setup_multi _ _ E1).
  wp_step. eapply (wp_note_scan k es b); [exact Hs | done | done | lia | done |].
  intros l1 w1 Hs1 Hr1 Ho1. wp_step. unfold found_at in HQ.
  assert (forall n, (total / 5 <=? n) = (total / 5 <? n + 1)) as Hcmp
    by (intros; destruct (Z.leb_spec (total / 5) n), (Z.ltb_spec (total / 5) (n + 1)); lia || done).
  destruct (multi_of w0); [destruct (b mod 2 =? 0)|]; cbn [andb] in HQ.
  - wp_step. replace (Z.of_nat (length es) + 1) with (Z.of_nat (length (es ++ [b]))) by (rewrite length_app; cbn; lia).
    eapply (wp_note_scan k (es ++ [b]) (b + 1)); [exact Hs1 | done | done | rewrite length_app; cbn; lia | done |].
    intros l2 w2 Hs2 Hr2 Ho2. do 2 wp_step. rewrite <- app_assoc in Hr2. rewrite Hcmp.
    specialize (HQ l2 w2 Hs2 Hr2 (other_rows_trans _ _ _ _ Ho1 Ho2)). rewrite !length_app in HQ |- *. cbn in HQ |- *.
    replace (Z.of_nat (length es + 2)) with (Z.of_nat (length es + 1) + 1) in HQ by lia.
    by replace (b + 1 + 1) with (b + 2) by lia.
  - wp_step. replace (Z.of_nat (length es) + 1) with (Z.of_nat (length (es ++ [b]))) by (rewrite length_app; cbn; lia).
    eapply (wp_note_scan k (es ++ [b]) (b - 1)); [exact Hs1 | done | done | rewrite length_app; cbn; lia | done |].
    intros l2 w2 Hs2 Hr2 Ho2. do 2 wp_step. rewrite <- app_assoc in Hr2. rewrite Hcmp.
    specialize (HQ l2 w2 Hs2 Hr2 (other_rows_trans _ _ _ _ Ho1 Ho2)). rewrite !length_app in HQ |- *. cbn in HQ |- *.
    by replace (Z.of_nat (length es + 2)) with (Z.of_nat (length es + 1) + 1) in HQ by lia.
  - do 2 wp_step. rewrite Hcmp. specialize (HQ l1 w1 Hs1 Hr1 Ho1). rewrite length_app in HQ. cbn in HQ.
    by replace (Z.of_nat (length es + 1)) with (Z.of_nat (length es) + 1) in HQ by lia.
Qed.

Lemma factory_list_step multi bad n b :
  b < total -> factory_list multi bad total (S n) b =
    if bad b then found_at multi b ++ factory_list multi bad total n
                    (if multi && (b mod 2 =? 0) then b + 2 else b + 1)
    else factory_list multi bad total n (b + 1).
Proof.
  intros H. cbn. rewrite (proj2 (Z.leb_gt _ _)) by done. unfold found_at.
  destruct (bad b), multi; cbn; try done. by destruct (b mod 2 =? 0).
Qed.

(** One chip: its row becomes the list, or the list is too long. *)
Lemma wp_factory_chip k tb l w0 w :
  scanning tb w0 l w -> shipped_bbt_ptr (w_chip w0) = Ptr tb 0 ->
  0 <= k < chip_num (controller (w_chip w0)) -> chip_num (controller (w_chip w0)) <= MAX_CHIP_NUM ->
  0 <= start -> total <= MAX_BLK_NUM -> row_is l k [] ->
  wp (factory_chip k start total)
    (fun r w' => exists l', scanning tb w0 l' w' /\ other_rows k l l' /\
       if decide (Z.of_nat (length (listed w0 k)) <= Z.max 0 (total / 5))
       then (exists x, r = inl x) /\ row_is l' k (listed w0 k) else r = inr (inr tt)) noflt w.
Proof.
  unfold MAX_BLK_NUM. intros Hs Ht Hk Hn Hst Htot Hr. unfold factory_chip.
  set (bad := marked_of w0 k). set (multi := multi_of w0).
  assert (listed w0 k = factory_list multi bad total (Z.to_nat (total - start)) start) as El by done.
  apply (wp_while (fun n '(b, cnt) w' => exists es l', start <= b /\ total - b <= Z.of_nat n /\
    cnt = Z.of_nat (length es) /\ cnt <= Z.max 0 (total / 5) /\ scanning tb w0 l' w' /\ other_rows k l l' /\
    row_is l' k es /\ listed w0 k = es ++ factory_list multi bad total n b)).
  - intros n [b cnt] w' (es & l' & Hb & Hfuel & -> & Hcnt & Hs' & Ho & Hr' & Hl) Hc.
    apply Z.ltb_ge in Hc. rewrite factory_list_end, app_nil_r in Hl by done.
    exists l'. split; [done|]. split; [done|]. rewrite Hl, decide_True by done. split; [by eexists | done].
  - intros n [b cnt] w' (es & l' & Hb & Hfuel & -> & Hcnt & Hs' & Ho & Hr' & Hl) Hc. apply Z.ltb_lt in Hc.
    destruct n as [|n]; [lia|]. exists n. split; [done|].
    destruct (id Hs') as (Hf' & E' & _). destruct (scan_setup_inv _ _ E') as (_ & _ & E2 & _).
    wp_step. eapply wp_mono; [apply (wp_factory_probe k b w'); [done | by rewrite E2 | lia] | | done].
    intros r w2 (-> & Hf2 & Hk2). rewrite (setup_marked _ _ E'). fold bad.
    pose proof (scanning_kept _ _ _ _ _ Hs' Hf2 Hk2) as Hs2.
    rewrite factory_list_step in Hl by done. destruct (bad b).
    + assert (total / 5 <= 1639) by (apply Z.div_le_upper_bound; lia).
      wp_step. eapply (wp_factory_found k es b); [exact Hs2 | done | unfold MAX_CHIP_NUM in *; lia | unfold MAX_BAD_BLK_NUM; lia | done |].
      intros l3 w3 Hs3 Hr3 Ho3. cbv zeta. fold multi in Hr3 |- *. rewrite app_assoc in Hl.
      set (es' := es ++ found_at multi b) in *.
      assert (Z.of_nat (length es') <= total / 5 \/ total / 5 < Z.of_nat (length es')) as [Hle|Hgt] by lia.
      * rewrite (proj2 (Z.ltb_ge _ _)) by done. wp_step. exists es', l3.
        split_and!; [by destruct (_ && _); lia | by destruct (_ && _); lia | done | lia | done | by eapply other_rows_trans | done | done].
      * rewrite (proj2 (Z.ltb_lt _ _)) by done. wp_step. exists l3. split; [done|].
        split; [by eapply other_rows_trans|]. rewrite decide_False; [done|].
        rewrite Hl, length_app. assert (0 < Z.of_nat (length es')) by
          (unfold es', found_at; rewrite length_app; destruct multi; [destruct (_ =? _)|]; cbn; lia). lia.
    + wp_step. exists es, l'. split_and!; try done; lia.
  - exists [], l. split_and!; try done; try lia. by intros ??.
Qed.

(** The blocks that belong into the table. *)
Definition factory_bad_block w (k b : Z) : bool := marked_or_pair (multi_of w) (marked_of w k) b.

Lemma in_listed w k b :
  (multi_of w = true -> start mod 2 = 0 /\ total mod 2 = 0) ->
  b ∈ listed w k <-> start <= b < total /\ factory_bad_block w k b = true.
Proof.
  intros Hp. unfold listed, factory_bad_block. destruct (multi_of w) eqn:Em.
  - destruct (Hp eq_refl) as [Hs Ht]. rewrite in_factory_list_pairs; [| done | rewrite Hs; discriminate | lia].
    by rewrite Hs, Z.sub_0_r.
  - rewrite in_factory_list_single by lia. unfold marked_or_pair. cbn [andb]. by rewrite orb_false_r.
Qed.
Lemma listed_nodup w k : (multi_of w = true -> start mod 2 = 0 /\ total mod 2 = 0) -> NoDup (listed w k).
Proof.
  intros Hp. apply factory_list_nodup; [|lia]. intros Em. destruct (Hp Em) as [Hs Ht].
  split; [done|]. rewrite Hs. discriminate.
Qed.

Lemma zero_rows k : 0 <= k < MAX_CHIP_NUM -> row_is (replicate (Z.to_nat SIZEOF_shipped_bbt) 0) k [].
Proof.
  unfold MAX_CHIP_NUM, row_is, slot_off, MAX_BAD_BLK_NUM. intros Hk i Hi j x Hx.
  apply lookup_replicate. unfold slot in Hx. change (le_bytes 2 _) with [0; 0] in Hx.
  assert (j = 0%nat \/ j = 1%nat) as Hj.
  { apply lookup_lt_Some in Hx. cbn in Hx. lia. }
  split; [destruct Hj; subst j; by injection Hx|]. unfold SIZEOF_shipped_bbt, MAX_CHIP_NUM, MAX_BAD_BLK_NUM. lia.
Qed.

(** The loop over the chips: all rows, or a list that is too long. *)
Definition short w k : Prop := Z.of_nat (length (listed w k)) <= Z.max 0 (total / 5).
Lemma wp_factory_chips tb z w w1 :
  let n := chip_num (controller (w_chip w)) in
  scanning tb w z w1 -> shipped_bbt_ptr (w_chip w) = Ptr tb 0 -> 0 <= n <= MAX_CHIP_NUM ->
  0 <= start -> total <= MAX_BLK_NUM -> (forall k, 0 <= k < n -> row_is z k []) ->
  wp (for_ (Z.to_nat n) 0
        (fun chipnr _ =>
           r ← controller_select_chip chipnr;
           r ← factory_chip chipnr start total;
           mret (match r with inl _ => Next tt | inr e => Return e end)) tt)
    (fun r w' => exists l', scanning tb w l' w' /\
       ((r = inl tt /\ forall k, 0 <= k < n -> short w k /\ row_is l' k (listed w k)) \/
        (r = inr (inr tt) /\ exists k, 0 <= k < n /\ ~ short w k))) noflt w1.
Proof.
  intros n Hs1 Ht Hn Hst Hmax Hz.
  apply (wp_for (fun m k _ w' => Z.of_nat m + k = n /\ 0 <= k /\ exists l', scanning tb w l' w' /\
    (forall j, k <= j < n -> row_is l' j []) /\
    forall j, 0 <= j < k -> short w j /\ row_is l' j (listed w j))).
  - intros k [] w' (Hk & Hk0 & l' & Hs' & _ & Hdone). exists l'. split; [done|]. left.
    split; [done|]. intros j Hj. apply Hdone. lia.
  - intros m k [] w' (Hk & Hk0 & l' & Hs' & Hrest & Hdone). destruct (id Hs') as (Hf' & E' & _).
    destruct (scan_setup_inv _ _ E') as (_ & _ & En & _). wp_step.
    eapply wp_mono; [apply (fl_select _ _ _ _ Hlaw); [done | rewrite En; fold n; lia] | | done].
    intros r w2 [Hf2 Hk2]. pose proof (scanning_kept _ _ _ _ _ Hs' Hf2 Hk2) as Hs2. wp_step.
    eapply wp_mono; [apply (wp_factory_chip k tb l' w); try done; [fold n; lia | lia | apply Hrest; lia] | | done].
    intros r2 w3 (l3 & Hs3 & Ho3 & Hr3). case_decide as Hle.
    + destruct Hr3 as [[x ->] Hrow]. wp_step. split; [lia|]. split; [lia|]. exists l3. split; [done|]. split.
      * intros j Hj. apply Ho3; [lia | lia | apply Hrest; lia].
      * intros j Hj. destruct (decide (j = k)) as [->|]; [done|].
        destruct (Hdone j ltac:(lia)) as [H1 H2]. split; [done|]. apply Ho3; [lia | lia | done].
    + subst r2. wp_step. exists l3. split; [done|]. right. split; [done|]. exists k. split; [lia | done].
  - split; [lia|]. split; [lia|]. exists z. split; [done|]. split; [done | intros; lia].
Qed.

End FactoryLaw.

(** ** A chip with one marked block
    One chip of sixteen blocks of four pages with two planes; the last page of
    block 5 is marked.  The chip remembers the address cycles since the last
    command, the row it has read, and what it is asked for: the page's bytes,
    the spare area's, or the status. *)
Module FactoryWitness.
Record bus := mk_bus { cycles : list Z; row : Z; part : Z }.

Definition on_command (c : Z) (d : bus) : bus :=
  if c =? NAND_CMD_READ0 then mk_bus [] d.(row) 0
  else if c =? NAND_CMD_READSTART then
    mk_bus [] (arr d.(cycles) 2 + 256 * arr d.(cycles) 3 + 65536 * arr d.(cycles) 4) 0
  else if c =? NAND_CMD_RNDOUTSTART then mk_bus [] d.(row) 1
  else if c =? NAND_CMD_STATUS then mk_bus d.(cycles) d.(row) 2
  else mk_bus [] d.(row) d.(part).
Definition byte_of (d : bus) : Z :=
  if d.(part) =? 2 then NAND_STATUS_READY
  else if (d.(part) =? 1) && (d.(row) =? 23) then 0 else 0xff.

#[local] Instance hw : NandHw bus := {
  hw_cmd w d m :=
    (match decode w with
     | DChip op _ payload =>
         if op =? 5 then on_command payload d
         else if op =? 6 then mk_bus (d.(cycles) ++ [payload]) d.(row) d.(part) else d
     | _ => d
     end, m);
  hw_info d m := (0, (d, m));
  hw_buf d m := (byte_of d, (d, m));
  hw_cfg _ _ d m := (d, m);
  hw_wait d m := (d, m);
  hw_virt _ := 0
}.

Definition fl : nand_flash := mk_flash 65536 4 262144 64 1 0 0 0 0 NAND_MULTI_PLANE_MODE [].
Definition the_chip : amlnand_chip :=
  set_shipped_bbt_ptr (Ptr 3 0) (set_flash fl
    (set_controller (set_chip_num 1 (set_mfr_type NAND_MFR_HYNIX (set_ctl_option NAND_CTRL_NONE_RB
      (set_internal_page_nums 64 (set_ce_enable [0] (set_rb_enable [0] ctl0)))))) chip0)).
Definition table : list Z := replicate (Z.to_nat SIZEOF_shipped_bbt) 7.
Definition board : world bus :=
  set_w_mem {[ 3 := table ]} (set_w_chip the_chip (world0 (mk_bus [] 0 0))).
Definition fine (w : world bus) : Prop := w_chip w = the_chip.
Definition marks (k page : Z) : Z * Z := (0xff, if page =? 23 then 0 else 0xff).

(** With the chip's state given, the bus is as well. *)
Lemma read_runs b c (w : world bus) :
  fine w -> 0 <= b < 16 -> 0 <= c < 2 ->
  let page := factory_page NAND_MFR_HYNIX 4 b c in
  wp (factory_read 0 page) (fun r w' => r = inr (marks 0 page) /\ fine w' /\ scan_kept w w') noflt w.
Proof.
  intros Hf Hb Hc. destruct w as [ch]. cbn in Hf. unfold fine in Hf. cbn in Hf. subst ch.
  assert (c = 0 \/ c = 1) as Hc' by lia.
  assert (b = 0 \/ b = 1 \/ b = 2 \/ b = 3 \/ b = 4 \/ b = 5 \/ b = 6 \/ b = 7 \/ b = 8 \/ b = 9 \/
    b = 10 \/ b = 11 \/ b = 12 \/ b = 13 \/ b = 14 \/ b = 15) as Hb' by lia. clear Hb Hc.
  destruct Hc' as [-> | ->]; repeat (destruct Hb' as [-> | Hb']); try subst b;
    (vm_compute; repeat split).
Qed.

Lemma board_law : factory_law (mret tt) (mret tt) fine marks 0 16.
Proof.
  split.
  - done.
  - intros w Hf. by apply wp_ret.
  - intros w Hf. by apply wp_ret.
  - intros k [ch] Hf Hk. unfold fine in Hf. cbn in Hf. subst ch.
    assert (k = 0) as -> by (change (0 <= k < 1) in Hk; lia). vm_compute. repeat split.
  - intros k b c [ch] Hf Hk Hb Hc. unfold fine in Hf. cbn in Hf. subst ch.
    assert (k = 0) as -> by (change (0 <= k < 1) in Hk; lia). by apply read_runs.
Qed.

Lemma board_listed k : 0 <= k < 1 -> listed marks 0 16 board k = [5; 4].
Proof. intros H. assert (k = 0) as -> by lia. vm_compute. reflexivity. Qed.

End FactoryWitness.
