(* ===== verification/Driver.v ===== *)
(** * Driver: bringing the physical driver up, and all of it together.

    [phy/amlnand_init.c], [amlnand_get_dev_configs] of [phy/chipenv.c] and
    [aml_sys_info_init] of [dev/amlnf_ctrl.c]; and the chip operations tied to
    the bad block table's update, which is made of them. *)
From S2P Require Import Prelude NfcWords Data Machine Guards Ctrl HwController ChipOp RetryTables ChipEnv NewNand PageStore UbootEnv Keys PhyDev Boot ChipInit PhyLayout.

Definition NAND_STATUS_NORMAL : Z := 0.

(** What [check_storage_device] sets: booted from NAND. *)
Definition boot_device_flag : Z := 1.

(** ** The configuration of the chip *)
Section Configs.
Context {D : Type} `{!NandHw D} `{!ChipOperation D} (spin : nat).

(** Keys and secure storage are stubs, so the buffer is cleared, also when
    there was no memory for it, and not used. *)
Definition aml_sys_info_init : act D (Z * list registration) :=
  let buf_size := if CONFIG_KEYSIZE <? CONFIG_SECURE_SIZE then CONFIG_SECURE_SIZE
                  else CONFIG_KEYSIZE in
  buf ← kmalloc buf_size;
  memset buf 0 buf_size ;;
  env ← chip uboot_env;
  r ← (if (env.(arg_valid) =? 0) && (boot_device_flag =? 1) then aml_ubootenv_init
       else mret (0, []));
  kfree buf ;;
  mret r.

Definition aml_sys_info_error_handle : act D Z :=
  env ← chip uboot_env;
  when_ ((env.(arg_valid) =? 1) && truthy env.(update_flag))
    (r ← aml_nand_update_ubootenv spin Null;
     upd_arg Env (set_update_flag 0)) ;;
  mret 0.

(** The label [exit_error0]. *)
Definition configs_failed (ret : Z) (regs : list registration)
    : act D (Z * list registration) := config_buf_free ;; mret (ret, regs).

(** Where the table of factory bad blocks is, from the configuration. *)
Definition note_fbbt : act D unit :=
  a ← arg_ Config id;
  when_ (a.(arg_valid) =? 1)
    (c ← chip config_ptr;
     blk ← load16 (ptr_add c OFF_fbbt_blk_addr);
     upd_arg Fbbt (set_valid_blk_addr blk) ;;
     upd_chip (fun c => set_reserved_blk (reserve blk c.(reserved_blk)) c)).

Definition amlnand_get_dev_configs : act D (Z * list registration) :=
  ret ← amlnand_config_buf_malloc;
  if ret <? 0 then configs_failed ret []
  else
    type ← flash_ new_type;
    ret ← (if truthy type then amlnand_set_readretry_slc_para else mret ret);
    if ret <? 0 then configs_failed ret []
    else
      amlnand_set_config_attribute ;;
      table ← chip block_status;
      ret ← amlnand_info_init Bbt table BBT_HEAD_MAGIC SIZEOF_block_status;
      bbt ← arg_ Bbt id;
      if bbt.(arg_valid) =? 0 then configs_failed (- NAND_READ_FAILED) []
      else
        config ← chip config_ptr;
        ret ← amlnand_info_init Config config CONFIG_HEAD_MAGIC SIZEOF_nand_config;
        if ret <? 0 then configs_failed ret []
        else
          note_fbbt ;;
          '(ret, regs) ← aml_sys_info_init;
          if ret <? 0 then configs_failed ret regs
          else
            amlnand_info_error_handle spin ;;
            bad ← repair_reserved_bad_block spin;
            mret (ret, regs).
End Configs.

(** ** The chip operations
    Marking a block bad saves the bad block table, and saving it marks a block
    bad when it cannot be written: the driver calls itself as deep as there are
    blocks that fail.  The depth allowed is the argument. *)
Section Knot.
Context {D : Type} `{!NandHw D} (spin : nat).

Fixpoint operation (depth : nat) : ChipOperation D :=
  amlnand_init_operation spin vendor_hooks
    (match depth with
     | O => throw OutOfFuel
     | S depth' => @amlnand_update_bbt D _ (operation depth') spin
     end).
End Knot.

(** ** Bringing the driver up *)

(** What becomes of the structure [aml_nand_chip] points to. *)
Inductive chip_owner := NoChip | OwnedChip | FreedChip.

Section Phy.
Context {D : Type} `{!NandHw D} `{!ChipOperation D} (spin : nat).

(** [kmalloc], [memset] and the fields set before anything else. *)
Definition new_chip (flag : Z) : amlnand_chip :=
  set_nand_status NAND_STATUS_NORMAL (set_init_flag flag
    (set_reserved_blk (replicate (Z.to_nat RESERVED_BLOCK_CNT) 0xff) chip0)).

Record phy_result := mk_phy {
  phy_ret : Z;
  phy_owner : chip_owner;
  phy_regs : list registration;
  phy_devs : list amlnand_phydev
}.

(** A negative answer of [devm_pinctrl_get] or [pinctrl_lookup_state] is the
    error pointer.  The labels [exit_error1] and [exit_error0]: the first frees
    the structure, which [aml_nand_chip] goes on pointing to. *)
Definition amlnf_phy_init (flag : Z) : act D phy_result :=
  let failed1 ret := mret (mk_phy ret FreedChip [] []) in
  let failed0 ret regs devs := mret (mk_phy ret OwnedChip regs devs) in
  r ← kernel_call;
  if r <? 0 then mret (mk_phy (- NAND_MALLOC_FAILURE) NoChip [] [])
  else
    upd_chip (fun _ => new_chip flag) ;;
    pinctrl ← kernel_call;
    if pinctrl <? 0 then failed0 pinctrl [] []
    else
      rbstate ← kernel_call;
      if rbstate <? 0 then failed0 rbstate [] []
      else
        r ← pinctrl_select_state;
        ret ← amlnand_hwcontroller_init;
        if ret <? 0 then failed1 (- NAND_FAILED)
        else
          ret ← amlnand_chip_init;
          if ret <? 0 then failed1 (- NAND_FAILED)
          else
            '(ret, regs) ← amlnand_get_dev_configs spin;
            if ret <? 0 then failed0 (- NAND_READ_FAILED) regs []
            else
              '(ret, devs) ← amlnand_phydev_init spin;
              if ret <? 0 then failed0 (- NAND_READ_FAILED) regs devs
              else mret (mk_phy ret OwnedChip regs devs).
End Phy.

(** ** What can be asked of the driver
    The functions of the physical devices, in the hands of the translation
    layer, the device files and the debugging files. *)
Inductive driver_call :=
  | CRead (p : amlnand_phydev)
  | CWrite (p : amlnand_phydev)
  | CErase (p : amlnand_phydev)
  | CBlockIsBad (p : amlnand_phydev)
  | CBlockMarkBad (p : amlnand_phydev)
  | CModifyBbt (p : amlnand_phydev) (value : Z)
  | CUpdateBbt (p : amlnand_phydev)
  | CTestBlock (p : amlnand_phydev)
  | CPageRead (p : amlnand_phydev) (count : Z)
  | CPageWrite (p : amlnand_phydev) (count : Z)
  | CPageDump (p : amlnand_phydev) (off count : Z)
  | CVerifyFlag (num count : Z)
  | CShowBbt (num count : Z)
  | CSuspend (p : amlnand_phydev)
  | CResume (p : amlnand_phydev)
  | CShutdown (devs : list amlnand_phydev)
  | CEnvRead (count ppos : Z)
  | CEnvWrite (user : list Z) (count ppos : Z)
  | CBootWrite (p : amlnand_phydev) (user : list Z) (count : Z).

Section Calls.
Context {D : Type} `{!NandHw D} `{!ChipOperation D} (spin : nat).

Definition driver_do (c : driver_call) : act D unit :=
  match c with
  | CRead p => r ← nand_read p; mret tt
  | CWrite p => r ← nand_write p; mret tt
  | CErase p => r ← nand_erase p; mret tt
  | CBlockIsBad p => r ← nand_block_isbad p; mret tt
  | CBlockMarkBad p => r ← nand_block_markbad p; mret tt
  | CModifyBbt p value => r ← block_modifybbt p value; mret tt
  | CUpdateBbt p => r ← update_bbt p; mret tt
  | CTestBlock p => r ← nand_test_block spin p; mret tt
  | CPageRead p count => r ← nand_page_read spin p count; mret tt
  | CPageWrite p count => r ← nand_page_write spin p count; mret tt
  | CPageDump p off count => r ← dump_nand_page spin p off count; mret tt
  | CVerifyFlag num count => r ← verify_nand_page num count; mret tt
  | CShowBbt num count => r ← show_bbt_table num count; mret tt
  | CSuspend p => r ← phydev_suspend p; mret tt
  | CResume p => phydev_resume p
  | CShutdown devs => r ← amlnf_shutdown devs; mret tt
  | CEnvRead count ppos => r ← uboot_env_read count ppos; mret tt
  | CEnvWrite user count ppos => r ← uboot_env_write spin user count ppos; mret tt
  | CBootWrite p user count => r ← uboot_write p user count; mret tt
  end.
Fixpoint driver_session (calls : list driver_call) : act D unit :=
  match calls with
  | [] => mret tt
  | c :: calls => driver_do c ;; driver_session calls
  end.
End Calls.

(** ** Everything stays inside a frame that the chip operations stay inside *)
Section Frames.
Context {D : Type} `{!NandHw D} `{ops : !ChipOperation D} (spin : nat).
Context (R : world D -> world D -> Prop) `{!CmdFrame R} `{!ChipFrame R} `{!OpsRespect R ops}.

Ltac driver_respects := unfold clear_ops, arg_, upd_arg, cle, ale; op_respects.

Lemma respects_point_to p a : respects R (point_to p a).
Proof. unfold point_to, amlnand_slc_addr_trs. driver_respects. Qed.
Lemma respects_serial_chip a n : respects R (serial_chip a n).
Proof. unfold serial_chip. driver_respects. Qed.
Lemma respects_set_request p : respects R (set_request p).
Proof. unfold set_request. driver_respects. Qed.
Lemma respects_set_block_request p : respects R (set_block_request p).
Proof. unfold set_block_request. driver_respects. Qed.
#[local] Hint Resolve respects_point_to respects_serial_chip respects_set_request
  respects_set_block_request : respects.
Lemma respects_read_one p n l : respects R (read_one p n l).
Proof. unfold read_one. driver_respects. Qed.
Lemma respects_write_one p n l : respects R (write_one p n l).
Proof. unfold write_one. driver_respects. Qed.
Lemma respects_erase_one p l : respects R (erase_one p l).
Proof. unfold erase_one. driver_respects. Qed.
Lemma respects_write_verify p : respects R (nand_write_verify p).
Proof. unfold nand_write_verify. driver_respects. Qed.
#[local] Hint Resolve respects_read_one respects_write_one respects_erase_one
  respects_write_verify : respects.
Lemma respects_nand_read p : respects R (nand_read p).
Proof. unfold nand_read. driver_respects. Qed.
Lemma respects_nand_write p : respects R (nand_write p).
Proof. unfold nand_write. driver_respects. Qed.
Lemma respects_nand_erase p : respects R (nand_erase p).
Proof. unfold nand_erase. driver_respects. Qed.
#[local] Hint Resolve respects_nand_read respects_nand_write respects_nand_erase : respects.
Lemma respects_on_block p op : respects R op -> respects R (on_block p op).
Proof. intros. unfold on_block. driver_respects. Qed.
#[local] Hint Extern 2 (respects _ (on_block _ _)) => apply respects_on_block : respects.
Lemma respects_isbad p : respects R (nand_block_isbad p).
Proof. unfold nand_block_isbad. driver_respects. Qed.
Lemma respects_markbad p : respects R (nand_block_markbad p).
Proof. unfold nand_block_markbad. driver_respects. Qed.
Lemma respects_modifybbt p v : respects R (block_modifybbt p v).
Proof. unfold block_modifybbt. driver_respects. Qed.
Lemma respects_update_bbt p : respects R (update_bbt p).
Proof. unfold update_bbt. driver_respects. Qed.
#[local] Hint Resolve respects_isbad respects_markbad respects_modifybbt respects_update_bbt : respects.

Lemma respects_test_run p : respects R (test_run spin p).
Proof. unfold test_run, test_pages. driver_respects. Qed.
#[local] Hint Resolve respects_test_run : respects.
Lemma respects_test_block p : respects R (nand_test_block spin p).
Proof. unfold nand_test_block. driver_respects. Qed.
Lemma respects_debug_pages p op off :
  (forall p, respects R (op p)) -> respects R (debug_pages spin p op off).
Proof. intros H. unfold debug_pages. driver_respects; apply H. Qed.
Lemma respects_debug_file p op fill off md show n :
  (forall p, respects R (op p)) -> respects R (debug_file spin p op fill off md show n).
Proof.
  intros H. unfold debug_file, memset. driver_respects; by apply respects_debug_pages.
Qed.
Lemma respects_page_read p n : respects R (nand_page_read spin p n).
Proof. apply respects_debug_file, respects_nand_read. Qed.
Lemma respects_page_write p n : respects R (nand_page_write spin p n).
Proof. apply respects_debug_file, respects_nand_write. Qed.
Lemma respects_page_dump p off n : respects R (dump_nand_page spin p off n).
Proof. apply respects_debug_file, respects_nand_read. Qed.
#[local] Hint Resolve respects_test_block respects_page_read respects_page_write
  respects_page_dump : respects.

Lemma respects_on_stack {A} bs (f : ptr -> act D A) :
  (forall p, respects R (f p)) -> respects R (on_stack bs f).
Proof.
  intros H. unfold on_stack. apply respects_bind; [apply _ | apply respects_gets, _ | intros b].
  apply respects_bind; [apply _ | | intros _].
  { apply respects_modify. intros w. etransitivity; [apply frame_brk | apply frame_mem]. }
  apply respects_bind; [apply _ | apply H | intros a].
  apply respects_bind; [apply _ | apply respects_kfree, _ | intros; apply respects_ret, _].
Qed.
Lemma respects_verify_flag n m : respects R (verify_nand_page n m).
Proof. apply respects_on_stack. intros. driver_respects. Qed.
Lemma respects_show_bbt n m : respects R (show_bbt_table n m).
Proof. unfold show_bbt_table. driver_respects. Qed.
Lemma respects_read_bytes b n : respects R (read_bytes_to b n).
Proof. unfold read_bytes_to. driver_respects. Qed.
#[local] Hint Resolve respects_verify_flag respects_show_bbt respects_read_bytes : respects.
Lemma respects_get_features b a : respects R (get_onfi_features b a).
Proof. unfold get_onfi_features. driver_respects. Qed.
Lemma respects_set_features b a : respects R (set_onfi_features b a).
Proof. unfold set_onfi_features. driver_respects; apply respects_poll_from; driver_respects. Qed.
#[local] Hint Resolve respects_get_features respects_set_features : respects.
#[local] Hint Extern 2 (respects _ (on_stack _ _)) =>
  apply respects_on_stack; intros; driver_respects : respects.
Lemma respects_set_onfi_again : respects R set_onfi_again.
Proof. unfold set_onfi_again. driver_respects; apply respects_modify; intros; apply frame_chip. Qed.
#[local] Hint Resolve respects_set_onfi_again : respects.
Lemma respects_suspend p : respects R (phydev_suspend p).
Proof. unfold phydev_suspend. driver_respects. Qed.
Lemma respects_resume p : respects R (phydev_resume p).
Proof. unfold phydev_resume, amlchip_resume. driver_respects. Qed.
Lemma respects_shutdown devs : respects R (amlnf_shutdown devs).
Proof. induction devs as [|p devs IH]; cbn [amlnf_shutdown]; driver_respects. Qed.
#[local] Hint Resolve respects_suspend respects_resume respects_shutdown : respects.

(** The boot device. *)
Ltac boot_respects := unfold NFC_CLR_OOB_MODE, NFC_SET_OOB_MODE, uboot_set_ran_mode; driver_respects.
Lemma respects_fill_between j a b p : respects R (fill_between j a b p).
Proof. unfold fill_between. boot_respects. Qed.
Lemma respects_boot_info p : respects R (nand_boot_info_prepare p).
Proof. unfold nand_boot_info_prepare. boot_respects. Qed.
Lemma respects_fill_oob p n : respects R (fill_oob p n).
Proof. unfold fill_oob. boot_respects. Qed.
Lemma respects_erase_area fl n p : respects R (erase_boot_area fl n p).
Proof. unfold erase_boot_area. boot_respects. Qed.
#[local] Hint Resolve respects_fill_between respects_boot_info respects_fill_oob
  respects_erase_area : respects.
Lemma respects_boot_round j l : respects R (boot_round j l).
Proof. unfold boot_round. boot_respects. Qed.
#[local] Hint Resolve respects_boot_round : respects.
Lemma respects_boot_copy j b i l : respects R (boot_copy j b i l).
Proof. unfold boot_copy. boot_respects. Qed.
#[local] Hint Resolve respects_boot_copy : respects.
Lemma respects_write_copies j b p : respects R (write_copies j b p).
Proof. unfold write_copies. boot_respects. Qed.
Lemma respects_boot_exit s n a b c r q : respects R (boot_exit s n a b c r q).
Proof. unfold boot_exit. boot_respects. Qed.
Lemma respects_round_up n m : respects R (round_up n m).
Proof. unfold round_up. boot_respects. Qed.
#[local] Hint Resolve respects_write_copies respects_boot_exit respects_round_up : respects.
Lemma respects_write_uboot p : respects R (write_uboot p).
Proof. unfold write_uboot. boot_respects. Qed.
#[local] Hint Resolve respects_write_uboot : respects.
Lemma respects_roomboot p : respects R (roomboot_nand_write p).
Proof. unfold roomboot_nand_write. boot_respects. Qed.
#[local] Hint Resolve respects_roomboot : respects.
Lemma respects_uboot_write p user n : respects R (uboot_write p user n).
Proof. unfold uboot_write, copy_from_user, not_copied. boot_respects. Qed.
#[local] Hint Resolve respects_uboot_write : respects.

(** Everything that can be asked. *)
Lemma respects_driver_do c : respects R (driver_do spin c).
Proof. destruct c; cbn [driver_do]; driver_respects. Qed.
#[local] Hint Resolve respects_driver_do : respects.
Lemma respects_session calls : respects R (driver_session spin calls).
Proof. induction calls; cbn [driver_session]; driver_respects. Qed.

(** Bringing the driver up. *)
Ltac up_respects := unfold pinctrl_select_state, upd_flash, set_bus_timing, NFC_SET_CFG,
  NFC_SET_TIMING_ASYC, NFC_SET_OOB_MODE; driver_respects.
Lemma respects_hwcontroller_init : respects R amlnand_hwcontroller_init.
Proof. unfold amlnand_hwcontroller_init, controller_hw_init. up_respects. Qed.
Lemma respects_read_dev_id n a l : respects R (read_dev_id n a l).
Proof. unfold read_dev_id, read_id. up_respects. Qed.
Lemma respects_read_geometry : respects R read_geometry.
Proof. unfold read_geometry. up_respects. Qed.
#[local] Hint Resolve respects_hwcontroller_init respects_read_dev_id respects_read_geometry : respects.
Lemma respects_get_flash_type : respects R get_flash_type.
Proof. unfold get_flash_type. up_respects. Qed.
Lemma respects_scan_chip i n : respects R (scan_chip i n).
Proof. unfold scan_chip. up_respects. Qed.
#[local] Hint Resolve respects_get_flash_type respects_scan_chip : respects.
Lemma respects_chip_scan : respects R amlnand_chip_scan.
Proof. unfold amlnand_chip_scan, scan_chips. up_respects. Qed.
Lemma respects_dma_alloc n : respects R (dma_alloc n).
Proof. unfold dma_alloc. up_respects. Qed.
#[local] Hint Resolve respects_chip_scan respects_dma_alloc : respects.
Lemma respects_nand_buf_init : respects R nand_buf_init.
Proof. unfold nand_buf_init, free_dma_bufs, amlnf_dma_free. up_respects. Qed.
Lemma respects_nand_buf_free : respects R nand_buf_free.
Proof. unfold nand_buf_free, amlnf_dma_free. up_respects. Qed.
#[local] Hint Resolve respects_nand_buf_init respects_nand_buf_free : respects.
Lemma respects_find_ecc i page oob : respects R (find_ecc i page oob).
Proof. induction i; cbn [find_ecc]; up_respects. Qed.
#[local] Hint Resolve respects_find_ecc : respects.
Lemma respects_chip_init : respects R amlnand_chip_init.
Proof. unfold amlnand_chip_init, controller_adjust_timing, controller_ecc_confirm. up_respects. Qed.
#[local] Hint Resolve respects_chip_init : respects.

(** Cutting the flash into devices. *)
Lemma respects_load_dev_para c i : respects R (load_dev_para c i).
Proof. unfold load_dev_para, load64. up_respects. Qed.
Lemma respects_sweep_blocks point n m from :
  (forall a, respects R (point a)) -> respects R (sweep_blocks spin point n m from).
Proof. intros H. unfold sweep_blocks. up_respects; apply H. Qed.
#[local] Hint Resolve respects_load_dev_para : respects.
#[local] Hint Extern 2 (respects _ (sweep_blocks _ _ _ _ _)) =>
  apply respects_sweep_blocks; intros; up_respects : respects.
Lemma respects_whole_rows b n : respects R (whole_rows b n).
Proof. unfold whole_rows. up_respects. Qed.
#[local] Hint Resolve respects_whole_rows : respects.
Lemma respects_reserved_blocks n m : respects R (reserved_blocks spin n m).
Proof. unfold reserved_blocks. up_respects. Qed.
#[local] Hint Resolve respects_reserved_blocks : respects.
Lemma respects_device_size fl n b d pre p : respects R (device_size (D := D) fl n b d pre p).
Proof. unfold device_size. up_respects. Qed.
Lemma respects_place_device fl b t n i pre p : respects R (place_device spin fl b t n i pre p).
Proof. unfold place_device. up_respects. Qed.
Lemma respects_measure_device b n i z pre p : respects R (measure_device spin b n i z pre p).
Proof. unfold measure_device. up_respects. Qed.
#[local] Hint Resolve respects_device_size respects_place_device respects_measure_device : respects.
Lemma respects_layout_device fl c z n b l t i y d pre p :
  respects R (layout_device spin fl c z n b l t i y d pre p).
Proof. unfold layout_device. up_respects. Qed.
#[local] Hint Resolve respects_layout_device : respects.
Lemma respects_layout_round c fl z n m i l : respects R (layout_round spin c fl z n m i l).
Proof. unfold layout_round, add_device. up_respects. Qed.
Lemma respects_count_bad b p : respects R (count_bad spin b p).
Proof. unfold count_bad. up_respects. Qed.
#[local] Hint Resolve respects_layout_round respects_count_bad : respects.
Lemma respects_phydev_init : respects R (amlnand_phydev_init spin).
Proof. unfold amlnand_phydev_init. up_respects. Qed.
#[local] Hint Resolve respects_phydev_init : respects.

Lemma respects_sys_info_init : respects R aml_sys_info_init.
Proof. unfold aml_sys_info_init. up_respects. Qed.
Lemma respects_note_fbbt : respects R note_fbbt.
Proof. unfold note_fbbt. up_respects. Qed.
#[local] Hint Resolve respects_sys_info_init respects_note_fbbt : respects.
Lemma respects_get_dev_configs : respects R (amlnand_get_dev_configs spin).
Proof. unfold amlnand_get_dev_configs, configs_failed. up_respects. Qed.
#[local] Hint Resolve respects_get_dev_configs : respects.
Lemma respects_phy_init flag : respects R (amlnf_phy_init spin flag).
Proof. unfold amlnf_phy_init. up_respects. Qed.
End Frames.
#[export] Hint Resolve respects_nand_read respects_nand_write respects_nand_erase respects_isbad
  respects_markbad respects_suspend respects_resume respects_shutdown respects_driver_do
  respects_phy_init : respects.

Section ReadOnly.
Context {D : Type} `{!NandHw D} (spin : nat).
Implicit Types w : world D.

(** However deep the bad block table's update goes. *)
Lemma operation_respects (R : world D -> world D -> Prop) `{!CmdFrame R} `{!ChipFrame R} depth :
  respects R (write_page vendor_hooks) -> respects R (erase_block vendor_hooks) ->
  OpsRespect R (operation spin depth).
Proof.
  intros Hw He. induction depth as [|depth IH]; cbn [operation];
    (apply init_operation_respects; try apply _; try done; [apply vendor_hooks_respect, _|]).
  - apply respects_throw, _.
  - apply respects_amlnand_update_bbt; apply _.
Qed.
#[local] Instance operation_guarded depth : OpsRespect guarded (operation spin depth).
Proof.
  apply operation_respects; try apply _;
    [apply respects_write_page | apply respects_erase_block]; apply vendor_hooks_respect, _.
Qed.

(** with the module parameter [readonly] set, bringing the driver up, and
    whatever is asked of it after that, never sends the chip a command that
    programs or erases; not when something fails on the way, and not when the
    driver faults or does not come back. *)
Theorem readonly_never_programs depth flag calls w :
  w_readonly w <> 0 ->
  let harmless := fun w' : world D =>
    exists l, w_log w' = l ++ w_log w /\ Forall (fun c => programs c = false) l in
  wp (let ops := operation spin depth in
      r ← amlnf_phy_init (ChipOperation0 := ops) spin flag;
      driver_session (ChipOperation0 := ops) spin calls)
     (fun _ => harmless) (fun _ => harmless) w.
Proof.
  intros Hr harmless.
  assert (respects guarded (
    r ← amlnf_phy_init (ChipOperation0 := operation spin depth) spin flag;
    driver_session (ChipOperation0 := operation spin depth) spin calls)) as H.
  { apply respects_bind; [apply _ | apply respects_phy_init; apply _ | intros _].
    apply respects_session; apply _. }
  eapply wp_mono; [apply H | |]; intros ? w' (_ & _ & _ & Hl); by apply Hl.
Qed.
End ReadOnly.

(** ** A failed bring-up *)
Section Configured.
Context {D : Type} `{!NandHw D} `{!ChipOperation D} (spin : nat).
Implicit Types w : world D.

(** No buffer of the configuration is left. *)
Definition no_buffers (c : amlnand_chip) : Prop :=
  Forall (eq Null) [c.(block_status); c.(shipped_bbt_ptr); c.(config_ptr); c.(user_oob_buf);
                    c.(user_page_buf)].

Lemma wp_drop_buf get set (Q : unit -> world D -> Prop) w :
  (forall c, set (get c) c = c) ->
  (forall w', w_chip w' = set Null (w_chip w) -> Q tt w') ->
  wp (drop_buf get set) Q (fun _ _ => True) w.
Proof.
  intros Heta HQ. unfold drop_buf. apply wp_bind, wp_chip.
  destruct (get (w_chip w)) as [|b off] eqn:E; cbn [is_null negb].
  - apply wp_ret, HQ. by rewrite <- E, Heta.
  - apply wp_bind. unfold wp, kfree. destruct (off =? 0); [|done]. by apply HQ.
Qed.
Lemma wp_config_buf_free w :
  wp config_buf_free (fun _ w' => no_buffers (w_chip w')) (fun _ _ => True) w.
Proof.
  unfold config_buf_free.
  do 4 (apply wp_bind, wp_drop_buf; [by intros [] | intros]).
  apply wp_drop_buf; [by intros []|]. intros wn E.
  repeat match goal with H : w_chip ?x = _ |- _ => rewrite H; clear H end. by repeat constructor.
Qed.

End Configured.

Module DriverWitness.
(** A controller behind which every byte reads as a ready chip's status. *)
#[local] Instance hw : NandHw unit := {
  hw_cmd _ d m := (d, m);
  hw_info d m := (0, (d, m));
  hw_buf d m := (NAND_STATUS_READY, (d, m));
  hw_cfg _ _ d m := (d, m);
  hw_wait d m := (d, m);
  hw_virt _ := 0
}.
Definition locked_out : world unit := set_w_readonly 1 (world0 tt).
Definition dev : amlnand_phydev := mk_phydev (chars "nfcode") 0 0 0x100000 0x40000 16384
  0 18 14 1023 0 Null (mk_devops NAND_HW_ECC 0 16384 0 0 Null Null).
Definition session (calls : list driver_call) : act unit unit :=
  let ops := operation 3 1 in
  r ← amlnf_phy_init (ChipOperation0 := ops) 3 0;
  driver_session (ChipOperation0 := ops) 3 calls.

(** No chip is known by that identification; both requests are refused. *)
Example both_refused :
  match session [CWrite dev; CErase dev] locked_out with
  | Done _ w => (w_refused w, length (w_log w))
  | Fault _ _ => (0, O)
  end = (2, 59%nat).
Proof. vm_compute. reflexivity. Qed.

Example readonly_never_programs_witness :
  let harmless := fun w' : world unit =>
    exists l, w_log w' = l ++ w_log locked_out /\ Forall (fun c => programs c = false) l in
  w_readonly locked_out <> 0 /\
  wp (session [CWrite dev; CErase dev]) (fun _ => harmless) (fun _ => harmless) locked_out.
Proof.
  split; [discriminate|].
  exact (readonly_never_programs (D := unit) 3 1 0 [CWrite dev; CErase dev] locked_out
    ltac:(discriminate)).
Defined.
End DriverWitness.
