(* ===== verification/LogicData.v ===== *)
(** * LogicData: the data of the layers above the physical devices.

    The structures of [ntd/aml_ntd.h], [block/aml_nftl_block.h] and the state
    of the logical layers ([kernel]): the driver's own [world], the table of
    NTD devices, the block devices and their queues, the translation layer's
    devices, and the locks that are held.  Objects the code allocates live in
    maps from their address; what is not in the map is not allocated. *)
From S2P Require Import Prelude NfcWords Data Machine PhyDev.

(** ** Constants of [ntd/aml_ntd.h], [block/aml_nftl_block.h] and the kernel *)
Definition NTD_WRITEABLE : Z := 1024.
Definition PAGE_SIZE : Z := 4096.
Definition KMALLOC_MAX_SIZE : Z := 2 ^ 22.
Definition ENXIO : Z := 6.
Definition ENODEV : Z := 19.
Definition BLK_STS_OK : Z := 0.
Definition BLK_STS_IOERR : Z := 10.
Definition MINORMASK : Z := 2 ^ 20 - 1.
Definition AML_NFTL_MAJOR : Z := 250.
Definition RET_YES : Z := 1.

(** The mutexes of these layers; the locks of an object carry its address. *)
Inductive lock :=
  | TableLock
  | PartitionsLock
  | RefLock
  | DevLock (d : Z)
  | QueueLock (d : Z)
  | NftlLock (n : Z).
#[export] Instance lock_eq_dec : EqDecision lock.
Proof. solve_decision. Defined.

(** A request of the block layer: [rq_segs] are its segments, each an address
    and a length in bytes. *)
Inductive req_op :=
  | REQ_OP_READ
  | REQ_OP_WRITE
  | REQ_OP_FLUSH
  | REQ_OP_DISCARD
  | REQ_OP_WRITE_ZEROES
  | REQ_OP_OTHER.
#[export] Instance req_op_eq_dec : EqDecision req_op.
Proof. solve_decision. Defined.

(** [struct request] *)
Record request := mk_request {
  rq_tag : Z;
  rq_op : req_op;
  rq_sync : bool;
  rq_pos : Z;
  rq_sectors : Z;
  rq_segs : list (ptr * Z)
}.

(** [struct ntd_info]; its function pointers are the functions of [Ntd], and
    [get_device] and [put_device], which no code sets, are left out. *)
Record ntd_info := mk_ntd {
  ntd_offset : Z;
  ntd_size : Z;
  ntd_flags : Z;
  ntd_blocksize : Z;
  ntd_pagesize : Z;
  ntd_oobsize : Z;
  ntd_blocksize_shift : Z;
  ntd_pagesize_shift : Z;
  blocksize_mask : Z;
  pagesize_mask : Z;
  ntd_name : list Z;
  index : Z;
  parts : ptr;
  ntd_nr_partitions : Z;
  priv : Z;
  nftl_priv : Z;
  usecount : Z;
  badblocks : Z
}.
Definition eta_ntd_info (r : ntd_info) : ntd_info := mk_ntd r.(ntd_offset) r.(ntd_size)
    r.(ntd_flags) r.(ntd_blocksize) r.(ntd_pagesize) r.(ntd_oobsize)
    r.(ntd_blocksize_shift) r.(ntd_pagesize_shift) r.(blocksize_mask) r.(pagesize_mask)
    r.(ntd_name) r.(index) r.(parts) r.(ntd_nr_partitions) r.(priv) r.(nftl_priv)
    r.(usecount) r.(badblocks).
Definition set_ntd_flags (v : Z) (r : ntd_info) : ntd_info :=
  ltac:(set_field (eta_ntd_info r) (r.(ntd_flags)) v).
Definition set_index (v : Z) (r : ntd_info) : ntd_info :=
  ltac:(set_field (eta_ntd_info r) (r.(index)) v).
Definition set_nftl_priv (v : Z) (r : ntd_info) : ntd_info :=
  ltac:(set_field (eta_ntd_info r) (r.(nftl_priv)) v).
Definition set_usecount (v : Z) (r : ntd_info) : ntd_info :=
  ltac:(set_field (eta_ntd_info r) (r.(usecount)) v).
Definition set_badblocks (v : Z) (r : ntd_info) : ntd_info :=
  ltac:(set_field (eta_ntd_info r) (r.(badblocks)) v).

(** A physical device with its [flags], which only the NTD layer reads. *)
Record master := mk_master {
  m_phy : amlnand_phydev;
  m_flags : Z
}.

(** [struct ntd_blktrans_dev].  A pointer field that is only tested or freed is
    0 for NULL. *)
Record ntd_blktrans_dev := mk_nbd {
  devnum : Z;
  nbd_size : Z;
  readonly : Z;
  open_count : Z;
  kref : Z;
  disk : Z;
  tag_set : Z;
  nbd_ntd : Z;
  wq : Z;
  nbd_name : list Z;
  rq_list : list request
}.
Definition eta_ntd_blktrans_dev (r : ntd_blktrans_dev) : ntd_blktrans_dev := mk_nbd
    r.(devnum) r.(nbd_size) r.(readonly) r.(open_count) r.(kref) r.(disk) r.(tag_set)
    r.(nbd_ntd) r.(wq) r.(nbd_name) r.(rq_list).
Definition set_devnum (v : Z) (r : ntd_blktrans_dev) : ntd_blktrans_dev :=
  ltac:(set_field (eta_ntd_blktrans_dev r) (r.(devnum)) v).
Definition set_nbd_size (v : Z) (r : ntd_blktrans_dev) : ntd_blktrans_dev :=
  ltac:(set_field (eta_ntd_blktrans_dev r) (r.(nbd_size)) v).
Definition set_readonly (v : Z) (r : ntd_blktrans_dev) : ntd_blktrans_dev :=
  ltac:(set_field (eta_ntd_blktrans_dev r) (r.(readonly)) v).
Definition set_open_count (v : Z) (r : ntd_blktrans_dev) : ntd_blktrans_dev :=
  ltac:(set_field (eta_ntd_blktrans_dev r) (r.(open_count)) v).
Definition set_kref (v : Z) (r : ntd_blktrans_dev) : ntd_blktrans_dev :=
  ltac:(set_field (eta_ntd_blktrans_dev r) (r.(kref)) v).
Definition set_disk (v : Z) (r : ntd_blktrans_dev) : ntd_blktrans_dev :=
  ltac:(set_field (eta_ntd_blktrans_dev r) (r.(disk)) v).
Definition set_tag_set (v : Z) (r : ntd_blktrans_dev) : ntd_blktrans_dev :=
  ltac:(set_field (eta_ntd_blktrans_dev r) (r.(tag_set)) v).
Definition set_nbd_ntd (v : Z) (r : ntd_blktrans_dev) : ntd_blktrans_dev :=
  ltac:(set_field (eta_ntd_blktrans_dev r) (r.(nbd_ntd)) v).
Definition set_wq (v : Z) (r : ntd_blktrans_dev) : ntd_blktrans_dev :=
  ltac:(set_field (eta_ntd_blktrans_dev r) (r.(wq)) v).
Definition set_nbd_name (v : list Z) (r : ntd_blktrans_dev) : ntd_blktrans_dev :=
  ltac:(set_field (eta_ntd_blktrans_dev r) (r.(nbd_name)) v).
Definition set_rq_list (v : list request) (r : ntd_blktrans_dev) : ntd_blktrans_dev :=
  ltac:(set_field (eta_ntd_blktrans_dev r) (r.(rq_list)) v).

(** [struct gendisk], as far as the code sets it up. *)
Record gendisk := mk_gendisk {
  private_data : Z;
  capacity : Z;
  disk_ro : bool;
  disk_major : Z;
  first_minor : Z;
  minors : Z;
  disk_name : list Z;
  added : bool;
  disk_refs : Z
}.
Definition eta_gendisk (r : gendisk) : gendisk := mk_gendisk r.(private_data)
    r.(capacity) r.(disk_ro) r.(disk_major) r.(first_minor) r.(minors) r.(disk_name)
    r.(added) r.(disk_refs).
Definition set_private_data (v : Z) (r : gendisk) : gendisk :=
  ltac:(set_field (eta_gendisk r) (r.(private_data)) v).
Definition set_capacity (v : Z) (r : gendisk) : gendisk :=
  ltac:(set_field (eta_gendisk r) (r.(capacity)) v).
Definition set_disk_ro (v : bool) (r : gendisk) : gendisk :=
  ltac:(set_field (eta_gendisk r) (r.(disk_ro)) v).
Definition set_added (v : bool) (r : gendisk) : gendisk :=
  ltac:(set_field (eta_gendisk r) (r.(added)) v).
Definition set_disk_refs (v : Z) (r : gendisk) : gendisk :=
  ltac:(set_field (eta_gendisk r) (r.(disk_refs)) v).

(** [struct aml_nftl_blk]; [nbd] is its first field, so the two have one
    address.  [blk_lock]: [lock] is set, to the lock of [nftl_dev]. *)
Record aml_nftl_blk := mk_blk {
  nbd : ntd_blktrans_dev;
  blk_name : list Z;
  blk_offset : Z;
  blk_size : Z;
  blk_nftl_dev : Z;
  blk_lock : bool;
  req : Datatypes.option request
}.
Definition eta_aml_nftl_blk (r : aml_nftl_blk) : aml_nftl_blk := mk_blk r.(nbd)
    r.(blk_name) r.(blk_offset) r.(blk_size) r.(blk_nftl_dev) r.(blk_lock) r.(req).
Definition set_nbd (v : ntd_blktrans_dev) (r : aml_nftl_blk) : aml_nftl_blk :=
  ltac:(set_field (eta_aml_nftl_blk r) (r.(nbd)) v).
Definition set_blk_name (v : list Z) (r : aml_nftl_blk) : aml_nftl_blk :=
  ltac:(set_field (eta_aml_nftl_blk r) (r.(blk_name)) v).
Definition set_blk_offset (v : Z) (r : aml_nftl_blk) : aml_nftl_blk :=
  ltac:(set_field (eta_aml_nftl_blk r) (r.(blk_offset)) v).
Definition set_blk_size (v : Z) (r : aml_nftl_blk) : aml_nftl_blk :=
  ltac:(set_field (eta_aml_nftl_blk r) (r.(blk_size)) v).
Definition set_blk_nftl_dev (v : Z) (r : aml_nftl_blk) : aml_nftl_blk :=
  ltac:(set_field (eta_aml_nftl_blk r) (r.(blk_nftl_dev)) v).
Definition set_blk_lock (v : bool) (r : aml_nftl_blk) : aml_nftl_blk :=
  ltac:(set_field (eta_aml_nftl_blk r) (r.(blk_lock)) v).
Definition set_req (v : Datatypes.option request) (r : aml_nftl_blk) : aml_nftl_blk :=
  ltac:(set_field (eta_aml_nftl_blk r) (r.(req)) v).

(** [struct aml_nftl_dev].  [nftl_thread]: 0 for NULL, negative for an error
    pointer; [nftl_cfg] in the order of [struct _nftl_cfg]. *)
Record aml_nftl_dev := mk_nftl {
  nftl_size : Z;
  nftl_ntd : Z;
  aml_nftl_part : Z;
  nftl_lock : bool;
  nftl_thread : Z;
  ts_write_start : Z;
  nftl_cfg : list Z;
  sync_flag : Z;
  nftl_init_flag : Z;
  reboot_flag : Z
}.
Definition eta_aml_nftl_dev (r : aml_nftl_dev) : aml_nftl_dev := mk_nftl r.(nftl_size)
    r.(nftl_ntd) r.(aml_nftl_part) r.(nftl_lock) r.(nftl_thread) r.(ts_write_start)
    r.(nftl_cfg) r.(sync_flag) r.(nftl_init_flag) r.(reboot_flag).
Definition set_nftl_size (v : Z) (r : aml_nftl_dev) : aml_nftl_dev :=
  ltac:(set_field (eta_aml_nftl_dev r) (r.(nftl_size)) v).
Definition set_nftl_ntd (v : Z) (r : aml_nftl_dev) : aml_nftl_dev :=
  ltac:(set_field (eta_aml_nftl_dev r) (r.(nftl_ntd)) v).
Definition set_aml_nftl_part (v : Z) (r : aml_nftl_dev) : aml_nftl_dev :=
  ltac:(set_field (eta_aml_nftl_dev r) (r.(aml_nftl_part)) v).
Definition set_nftl_lock (v : bool) (r : aml_nftl_dev) : aml_nftl_dev :=
  ltac:(set_field (eta_aml_nftl_dev r) (r.(nftl_lock)) v).
Definition set_nftl_thread (v : Z) (r : aml_nftl_dev) : aml_nftl_dev :=
  ltac:(set_field (eta_aml_nftl_dev r) (r.(nftl_thread)) v).
Definition set_ts_write_start (v : Z) (r : aml_nftl_dev) : aml_nftl_dev :=
  ltac:(set_field (eta_aml_nftl_dev r) (r.(ts_write_start)) v).
Definition set_nftl_cfg (v : list Z) (r : aml_nftl_dev) : aml_nftl_dev :=
  ltac:(set_field (eta_aml_nftl_dev r) (r.(nftl_cfg)) v).
Definition set_sync_flag (v : Z) (r : aml_nftl_dev) : aml_nftl_dev :=
  ltac:(set_field (eta_aml_nftl_dev r) (r.(sync_flag)) v).
Definition set_nftl_init_flag (v : Z) (r : aml_nftl_dev) : aml_nftl_dev :=
  ltac:(set_field (eta_aml_nftl_dev r) (r.(nftl_init_flag)) v).
Definition set_reboot_flag (v : Z) (r : aml_nftl_dev) : aml_nftl_dev :=
  ltac:(set_field (eta_aml_nftl_dev r) (r.(reboot_flag)) v).

(** The data of [struct ntd_blktrans_ops]; [tr_listed]: it is on
    [ntd_blktrans_majors]. *)
Record ntd_blktrans_tr := mk_tr {
  tr_major : Z;
  part_bits : Z;
  blksize : Z;
  blkshift : Z;
  tr_devs : list Z;
  tr_listed : bool
}.
Definition eta_ntd_blktrans_tr (r : ntd_blktrans_tr) : ntd_blktrans_tr := mk_tr
    r.(tr_major) r.(part_bits) r.(blksize) r.(blkshift) r.(tr_devs) r.(tr_listed).
Definition set_tr_major (v : Z) (r : ntd_blktrans_tr) : ntd_blktrans_tr :=
  ltac:(set_field (eta_ntd_blktrans_tr r) (r.(tr_major)) v).
Definition set_blkshift (v : Z) (r : ntd_blktrans_tr) : ntd_blktrans_tr :=
  ltac:(set_field (eta_ntd_blktrans_tr r) (r.(blkshift)) v).
Definition set_tr_devs (v : list Z) (r : ntd_blktrans_tr) : ntd_blktrans_tr :=
  ltac:(set_field (eta_ntd_blktrans_tr r) (r.(tr_devs)) v).
Definition set_tr_listed (v : bool) (r : ntd_blktrans_tr) : ntd_blktrans_tr :=
  ltac:(set_field (eta_ntd_blktrans_tr r) (r.(tr_listed)) v).

(** The whole state; [F] is the state of the flash translation layer. *)
Record kernel (D F : Type) := mk_kernel {
  k_world : world D;
  k_ftl : F;
  k_held : list lock;
  k_next : Z;
  nphy_dev_list : list Z;
  masters : gmap Z master;
  infos : gmap Z ntd_info;
  ntd_partitions : list Z;
  ntd_idr : gmap Z Z;
  ntd_init_available : Z;
  ntd_class_ready : bool;
  registered : list Z;
  module_refs : Z;
  tr : ntd_blktrans_tr;
  blks : gmap Z aml_nftl_blk;
  disks : gmap Z gendisk;
  queues : list Z;
  ended : list (request * Z);
  k_maps : Z;
  nftl_devs : gmap Z aml_nftl_dev;
  notifiers : list Z;
  nftl_num : Z;
  dev_num : Z
}.
Arguments mk_kernel {D F}.
Arguments k_world {D F}.
Arguments k_ftl {D F}.
Arguments k_held {D F}.
Arguments k_next {D F}.
Arguments nphy_dev_list {D F}.
Arguments masters {D F}.
Arguments infos {D F}.
Arguments ntd_partitions {D F}.
Arguments ntd_idr {D F}.
Arguments ntd_init_available {D F}.
Arguments ntd_class_ready {D F}.
Arguments registered {D F}.
Arguments module_refs {D F}.
Arguments tr {D F}.
Arguments blks {D F}.
Arguments disks {D F}.
Arguments queues {D F}.
Arguments ended {D F}.
Arguments k_maps {D F}.
Arguments nftl_devs {D F}.
Arguments notifiers {D F}.
Arguments nftl_num {D F}.
Arguments dev_num {D F}.
Definition eta_kernel {D F} (r : kernel D F) : kernel D F := mk_kernel r.(k_world)
    r.(k_ftl) r.(k_held) r.(k_next) r.(nphy_dev_list) r.(masters) r.(infos)
    r.(ntd_partitions) r.(ntd_idr) r.(ntd_init_available) r.(ntd_class_ready)
    r.(registered) r.(module_refs) r.(tr) r.(blks) r.(disks) r.(queues) r.(ended)
    r.(k_maps) r.(nftl_devs) r.(notifiers) r.(nftl_num) r.(dev_num).
Definition set_k_world {D F} (v : world D) (r : kernel D F) : kernel D F :=
  ltac:(set_field (eta_kernel r) (r.(k_world)) v).
Definition set_k_ftl {D F} (v : F) (r : kernel D F) : kernel D F :=
  ltac:(set_field (eta_kernel r) (r.(k_ftl)) v).
Definition set_k_held {D F} (v : list lock) (r : kernel D F) : kernel D F :=
  ltac:(set_field (eta_kernel r) (r.(k_held)) v).
Definition set_k_next {D F} (v : Z) (r : kernel D F) : kernel D F :=
  ltac:(set_field (eta_kernel r) (r.(k_next)) v).
Definition set_nphy_dev_list {D F} (v : list Z) (r : kernel D F) : kernel D F :=
  ltac:(set_field (eta_kernel r) (r.(nphy_dev_list)) v).
Definition set_masters {D F} (v : gmap Z master) (r : kernel D F) : kernel D F :=
  ltac:(set_field (eta_kernel r) (r.(masters)) v).
Definition set_infos {D F} (v : gmap Z ntd_info) (r : kernel D F) : kernel D F :=
  ltac:(set_field (eta_kernel r) (r.(infos)) v).
Definition set_ntd_partitions {D F} (v : list Z) (r : kernel D F) : kernel D F :=
  ltac:(set_field (eta_kernel r) (r.(ntd_partitions)) v).
Definition set_ntd_idr {D F} (v : gmap Z Z) (r : kernel D F) : kernel D F :=
  ltac:(set_field (eta_kernel r) (r.(ntd_idr)) v).
Definition set_ntd_init_available {D F} (v : Z) (r : kernel D F) : kernel D F :=
  ltac:(set_field (eta_kernel r) (r.(ntd_init_available)) v).
Definition set_ntd_class_ready {D F} (v : bool) (r : kernel D F) : kernel D F :=
  ltac:(set_field (eta_kernel r) (r.(ntd_class_ready)) v).
Definition set_registered {D F} (v : list Z) (r : kernel D F) : kernel D F :=
  ltac:(set_field (eta_kernel r) (r.(registered)) v).
Definition set_module_refs {D F} (v : Z) (r : kernel D F) : kernel D F :=
  ltac:(set_field (eta_kernel r) (r.(module_refs)) v).
Definition set_tr {D F} (v : ntd_blktrans_tr) (r : kernel D F) : kernel D F :=
  ltac:(set_field (eta_kernel r) (r.(tr)) v).
Definition set_blks {D F} (v : gmap Z aml_nftl_blk) (r : kernel D F) : kernel D F :=
  ltac:(set_field (eta_kernel r) (r.(blks)) v).
Definition set_disks {D F} (v : gmap Z gendisk) (r : kernel D F) : kernel D F :=
  ltac:(set_field (eta_kernel r) (r.(disks)) v).
Definition set_queues {D F} (v : list Z) (r : kernel D F) : kernel D F :=
  ltac:(set_field (eta_kernel r) (r.(queues)) v).
Definition set_ended {D F} (v : list (request * Z)) (r : kernel D F) : kernel D F :=
  ltac:(set_field (eta_kernel r) (r.(ended)) v).
Definition set_k_maps {D F} (v : Z) (r : kernel D F) : kernel D F :=
  ltac:(set_field (eta_kernel r) (r.(k_maps)) v).
Definition set_nftl_devs {D F} (v : gmap Z aml_nftl_dev) (r : kernel D F) : kernel D F :=
  ltac:(set_field (eta_kernel r) (r.(nftl_devs)) v).
Definition set_notifiers {D F} (v : list Z) (r : kernel D F) : kernel D F :=
  ltac:(set_field (eta_kernel r) (r.(notifiers)) v).
Definition set_nftl_num {D F} (v : Z) (r : kernel D F) : kernel D F :=
  ltac:(set_field (eta_kernel r) (r.(nftl_num)) v).
Definition set_dev_num {D F} (v : Z) (r : kernel D F) : kernel D F :=
  ltac:(set_field (eta_kernel r) (r.(dev_num)) v).

(** ** Actions *)
Abbreviation kact D F := (M (kernel D F)).

Section Actions.
Context {D F : Type}.

(** The driver's own actions. *)
Definition lift {A} (m : act D A) : kact D F A := fun k =>
  match m k.(k_world) with
  | Done a w => Done a (set_k_world w k)
  | Fault f w => Fault f (set_k_world w k)
  end.

(** What is not in the map is NULL, an error pointer, or freed. *)
Definition object {A} (objs : kernel D F -> gmap Z A) (x : Z) : kact D F A := fun k =>
  match objs k !! x with
  | Some a => Done a k
  | None => Fault NullDeref k
  end.
Definition info (n : Z) : kact D F ntd_info := object infos n.
Definition blk (b : Z) : kact D F aml_nftl_blk := object blks b.
Definition nftl (n : Z) : kact D F aml_nftl_dev := object nftl_devs n.

Definition upd_info (n : Z) (f : ntd_info -> ntd_info) : kact D F unit :=
  i ← info n; modify (fun k => set_infos (<[n := f i]> k.(infos)) k).
Definition upd_blk (b : Z) (f : aml_nftl_blk -> aml_nftl_blk) : kact D F unit :=
  x ← blk b; modify (fun k => set_blks (<[b := f x]> k.(blks)) k).
Definition upd_nbd (b : Z) (f : ntd_blktrans_dev -> ntd_blktrans_dev) : kact D F unit :=
  upd_blk b (fun x => set_nbd (f x.(nbd)) x).
Definition upd_nftl (n : Z) (f : aml_nftl_dev -> aml_nftl_dev) : kact D F unit :=
  x ← nftl n; modify (fun k => set_nftl_devs (<[n := f x]> k.(nftl_devs)) k).
Definition upd_disk (d : Z) (f : gendisk -> gendisk) : kact D F unit :=
  x ← object disks d; modify (fun k => set_disks (<[d := f x]> k.(disks)) k).

(** The kernel's answer to a call; the address of a new object or the error
    the kernel answers; the address of a new object, 0 when there is no memory. *)
Definition ask : kact D F Z := lift kernel_call.
Definition new_object_err : kact D F Z :=
  r ← ask;
  if r <? 0 then mret r
  else n ← gets k_next; modify (set_k_next (n + 1)) ;; mret n.
Definition new_object : kact D F Z :=
  r ← new_object_err; mret (if r <? 0 then 0 else r).

(** Mapping a page of a request, and undoing it. *)
Definition kmap : kact D F unit := modify (fun k => set_k_maps (k.(k_maps) + 1) k).
Definition kunmap : kact D F unit := modify (fun k => set_k_maps (k.(k_maps) - 1) k).

(** Taking a mutex this thread already holds never returns. *)
Definition mutex_lock (l : lock) : kact D F unit :=
  h ← gets k_held;
  if bool_decide (l ∈ h) then throw Deadlock else modify (set_k_held (l :: h)).
Definition mutex_unlock (l : lock) : kact D F unit :=
  modify (fun k => set_k_held (filter (fun l' => l' <> l) k.(k_held)) k).
End Actions.

(** ** The kernel-level primitives *)
Section KernelWp.
Context {D F : Type}.
Implicit Types k : kernel D F.

Lemma wp_lift_any {A} (m : act D A) (Q : A -> kernel D F -> Prop) (E : fault -> kernel D F -> Prop) k :
  (forall a w, Q a (set_k_world w k)) -> (forall f w, E f (set_k_world w k)) ->
  wp (lift m) Q E k.
Proof. intros HQ HE. unfold wp, lift. by destruct (m (k_world k)). Qed.
Lemma wp_ask (Q : Z -> kernel D F -> Prop) E k :
  (forall r w, Q r (set_k_world w k)) -> wp ask Q E k.
Proof. intros H. apply H. Qed.
Lemma wp_object {A} (objs : kernel D F -> gmap Z A) x a Q (E : fault -> kernel D F -> Prop) k :
  objs k !! x = Some a -> Q a k -> wp (object objs x) Q E k.
Proof. intros H HQ. unfold wp, object. by rewrite H. Qed.
Lemma wp_object_or {A} (objs : kernel D F -> gmap Z A) x (Q : A -> kernel D F -> Prop)
    (E : fault -> kernel D F -> Prop) k :
  (forall a, objs k !! x = Some a -> Q a k) -> E NullDeref k -> wp (object objs x) Q E k.
Proof. intros HQ HE. unfold wp, object. destruct (objs k !! x) eqn:H; auto. Qed.
Lemma wp_upd_info n f d (Q : unit -> kernel D F -> Prop) E k :
  infos k !! n = Some d -> Q tt (set_infos (<[n := f d]> (infos k)) k) -> wp (upd_info n f) Q E k.
Proof. intros H HQ. apply wp_bind, (wp_object _ _ d); [done|]. by apply wp_modify. Qed.
Lemma wp_upd_blk b f x (Q : unit -> kernel D F -> Prop) E k :
  blks k !! b = Some x -> Q tt (set_blks (<[b := f x]> (blks k)) k) -> wp (upd_blk b f) Q E k.
Proof. intros H HQ. apply wp_bind, (wp_object _ _ x); [done|]. by apply wp_modify. Qed.
Lemma wp_upd_nftl n f d (Q : unit -> kernel D F -> Prop) E k :
  nftl_devs k !! n = Some d -> Q tt (set_nftl_devs (<[n := f d]> (nftl_devs k)) k) ->
  wp (upd_nftl n f) Q E k.
Proof. intros H HQ. apply wp_bind, (wp_object _ _ d); [done|]. by apply wp_modify. Qed.
Lemma wp_upd_disk g f x (Q : unit -> kernel D F -> Prop) E k :
  disks k !! g = Some x -> Q tt (set_disks (<[g := f x]> (disks k)) k) -> wp (upd_disk g f) Q E k.
Proof. intros H HQ. apply wp_bind, (wp_object _ _ x); [done|]. by apply wp_modify. Qed.
Lemma wp_new_object_err (Q : Z -> kernel D F -> Prop) E k :
  (forall r w, r < 0 -> Q r (set_k_world w k)) ->
  (forall w, Q (k_next k) (set_k_next (k_next k + 1) (set_k_world w k))) ->
  wp new_object_err Q E k.
Proof.
  intros H0 H1. apply wp_bind, wp_ask. intros r w.
  destruct (Z.ltb_spec r 0); [by apply wp_ret, H0|].
  by apply wp_bind, wp_gets, wp_bind, wp_modify, wp_ret.
Qed.
Lemma wp_new_object (Q : Z -> kernel D F -> Prop) E k :
  0 < k_next k -> (forall w, Q 0 (set_k_world w k)) ->
  (forall w, Q (k_next k) (set_k_next (k_next k + 1) (set_k_world w k))) ->
  wp new_object Q E k.
Proof.
  intros Hk H0 H1. apply wp_bind, wp_new_object_err.
  - intros r w Hr. apply wp_ret. by rewrite (proj2 (Z.ltb_lt _ _) Hr).
  - intros w. apply wp_ret. by rewrite (proj2 (Z.ltb_ge _ _)) by lia.
Qed.
(** The same, when the driver's memory matters: asking does not change it. *)
Lemma wp_ask_mem (Q : Z -> kernel D F -> Prop) E k :
  (forall r w, w_mem w = w_mem (k_world k) -> Q r (set_k_world w k)) -> wp ask Q E k.
Proof. intros H. apply H. reflexivity. Qed.
Lemma wp_new_object_err_mem (Q : Z -> kernel D F -> Prop) E k :
  (forall r w, r < 0 -> w_mem w = w_mem (k_world k) -> Q r (set_k_world w k)) ->
  (forall w, w_mem w = w_mem (k_world k) ->
     Q (k_next k) (set_k_next (k_next k + 1) (set_k_world w k))) ->
  wp new_object_err Q E k.
Proof.
  intros H0 H1. apply wp_bind, wp_ask_mem. intros r w Hw.
  destruct (Z.ltb_spec r 0); [by apply wp_ret, H0|].
  by apply wp_bind, wp_gets, wp_bind, wp_modify, wp_ret, H1.
Qed.
Lemma wp_new_object_mem (Q : Z -> kernel D F -> Prop) E k :
  0 < k_next k -> (forall w, w_mem w = w_mem (k_world k) -> Q 0 (set_k_world w k)) ->
  (forall w, w_mem w = w_mem (k_world k) ->
     Q (k_next k) (set_k_next (k_next k + 1) (set_k_world w k))) ->
  wp new_object Q E k.
Proof.
  intros Hk H0 H1. apply wp_bind, wp_new_object_err_mem.
  - intros r w Hr Hw. apply wp_ret. rewrite (proj2 (Z.ltb_lt _ _) Hr). by apply H0.
  - intros w Hw. apply wp_ret. rewrite (proj2 (Z.ltb_ge _ _)) by lia. by apply H1.
Qed.
Lemma wp_mutex_lock l (Q : unit -> kernel D F -> Prop) E k :
  l ∉ k_held k -> Q tt (set_k_held (l :: k_held k) k) -> wp (mutex_lock l) Q E k.
Proof.
  intros H HQ. apply wp_bind, wp_gets. rewrite bool_decide_eq_false_2 by done. by apply wp_modify.
Qed.
(** Giving a lock back leaves the locks that were held before. *)
Lemma unlock_held (l : lock) hs : l ∉ hs -> filter (fun l' => l' <> l) (l :: hs) = hs.
Proof.
  intros H. rewrite filter_cons_False by congruence.
  induction hs as [|x hs IH]; [done|]. apply not_elem_of_cons in H as [Hx H].
  by rewrite filter_cons_True, IH.
Qed.
Lemma wp_mutex_unlock l hs (Q : unit -> kernel D F -> Prop) E k :
  k_held k = l :: hs -> l ∉ hs -> Q tt (set_k_held hs k) -> wp (mutex_unlock l) Q E k.
Proof. intros Hk Hn HQ. apply wp_modify. by rewrite Hk, unlock_held. Qed.
End KernelWp.
