(* ===== verification/Ntd.v ===== *)
(** * Ntd: [ntd/aml_ntdpart.c], [ntd/aml_ntdcore.c] and the helpers of
    [ntd/aml_ntd.h], the NTD devices.

    An NTD device is a physical device seen as numbered pages and blocks.  The
    devices are entered in a table (an [idr]) under the mutex of the table. *)
From S2P Require Import Prelude NfcWords Data Machine Guards Ctrl HwController ChipOp ChipEnv PageStore PhyDev PhyStore LogicData.

(** ** The table
    Which free identifier [idr_alloc] hands out is the kernel's choice. *)
Class IdrAlloc := {
  idr_fresh : gmap Z Z -> Z;
  idr_fresh_ok : forall m, 0 <= idr_fresh m /\ m !! idr_fresh m = None
}.

(** [idr_get_next]: the entry with the least identifier from [i] on. *)
Definition idr_get_next (m : gmap Z Z) (i : Z) : Datatypes.option (Z * Z) :=
  map_fold (fun k v best =>
    if (i <=? k) && match best with Some (k', _) => k <? k' | None => true end
    then Some (k, v) else best) None m.

(** A string up to its NUL. *)
Fixpoint c_string (l : list Z) : list Z :=
  match l with
  | [] => []
  | c :: l => if c =? 0 then [] else c :: c_string l
  end.

(** [ALIGN(x, a)] on a [size_t]. *)
Definition align_up (x a : Z) : Z := Z.land (u32 (x + (a - 1))) (not32 (a - 1)).

Section Ntd.
Context {D F : Type} `{!NandHw D} `{!ChipOperation D} `{Idr : IdrAlloc}.
Abbreviation K := (kact D F).

(** ** Sizes in blocks and pages *)
Definition by_unit (shift : ntd_info -> Z) (by_shift : Z -> Z) (by_div : Z -> K Z) (sz : Z)
    (n : ntd_info) : K Z :=
  if truthy (shift n) then mret (u32 (by_shift sz)) else r ← by_div sz; mret (u32 r).
Definition ntd_div_by_eb (sz : Z) (n : ntd_info) : K Z :=
  by_unit ntd_blocksize_shift (fun sz => Z.shiftr sz n.(ntd_blocksize_shift))
    (fun sz => div_ sz n.(ntd_blocksize)) sz n.
Definition ntd_mod_by_eb (sz : Z) (n : ntd_info) : K Z :=
  by_unit ntd_blocksize_shift (fun sz => Z.land sz n.(blocksize_mask))
    (fun sz => mod_ sz n.(ntd_blocksize)) sz n.
Definition ntd_div_by_ws (sz : Z) (n : ntd_info) : K Z :=
  by_unit ntd_pagesize_shift (fun sz => Z.shiftr sz n.(ntd_pagesize_shift))
    (fun sz => div_ sz n.(ntd_pagesize)) sz n.
Definition ntd_mod_by_ws (sz : Z) (n : ntd_info) : K Z :=
  by_unit ntd_pagesize_shift (fun sz => Z.land sz n.(pagesize_mask))
    (fun sz => mod_ sz n.(ntd_pagesize)) sz n.

(** ** Pages and blocks of a device *)

(** Puts a request into the physical device and calls one of its functions. *)
Definition on_master (n : Z) (req : ntd_info -> phydev_ops)
    (f : amlnand_phydev -> act D (Z * amlnand_phydev)) : K Z :=
  i ← info n;
  m ← object masters i.(priv);
  r ← lift (f (set_devops (req i) m.(m_phy)));
  modify (fun k => set_masters (<[i.(priv) := mk_master r.2 m.(m_flags)]> k.(masters)) k) ;;
  mret r.1.

Definition page_request (page : Z) (oob_buf buf : ptr) (i : ntd_info) : phydev_ops :=
  mk_devops NAND_HW_ECC (u64 (Z.shiftl page i.(ntd_pagesize_shift))) i.(ntd_pagesize) 0
    i.(ntd_oobsize) buf oob_buf.
Definition block_request (block : Z) (i : ntd_info) : phydev_ops :=
  mk_devops NAND_HW_ECC (u64 (Z.shiftl block i.(ntd_blocksize_shift))) i.(ntd_blocksize) 0 0
    Null Null.

Definition read_page_with_oob (n page : Z) (oob_buf buf : ptr) : K Z :=
  on_master n (page_request page oob_buf buf) nand_read.
Definition read_only_oob (n page : Z) (oob_buf : ptr) : K Z :=
  on_master n (page_request page oob_buf Null) nand_read.
Definition write_page_with_oob (n page : Z) (oob_buf buf : ptr) : K Z :=
  on_master n (page_request page oob_buf buf) nand_write.
Definition part_erase (n block : Z) : K Z := on_master n (block_request block) nand_erase.
Definition part_block_isbad (n block : Z) : K Z :=
  on_master n (block_request block) (fun p => r ← nand_block_isbad p; mret (r, p)).
Definition part_block_markbad (n block : Z) : K Z :=
  on_master n (block_request block) (fun p => r ← nand_block_markbad p; mret (r, p)).

Definition part_suspend (n : Z) : K Z :=
  i ← info n;
  if i.(priv) =? 0 then mret 0
  else m ← object masters i.(priv); lift (phydev_suspend m.(m_phy)).
Definition part_resume (n : Z) : K unit :=
  i ← info n;
  if i.(priv) =? 0 then mret tt
  else m ← object masters i.(priv); lift (phydev_resume m.(m_phy)).
Definition part_flush (n : Z) : K Z := mret 0.

(** ** The table of devices *)
Definition __ntd_next_device (i : Z) : K Z :=
  m ← gets ntd_idr;
  mret match idr_get_next m i with Some (_, n) => n | None => 0 end.

(** The macro ignores its argument: the loop variable is always the variable
    called [ntd] of the function it stands in.  [l]: the other variables. *)
Definition ntd_for_each_device {L : Type} (body : Z -> L -> K (ctl L unit)) (l : L)
    : K (Z * L + unit) :=
  m ← gets ntd_idr;
  ntd ← __ntd_next_device 0;
  while_ (S (base.size m)) (fun '(ntd, _) => negb (ntd =? 0))
    (fun '(ntd, l) =>
       c ← body ntd l;
       match c with
       | Next l =>
           i ← info ntd;
           next ← __ntd_next_device (i.(index) + 1);
           mret (Next (next, l))
       | Break l => mret (Break (ntd, l))
       | Return r => mret (Return r)
       end)
    (ntd, l).

(** [owner] is never set, and every module exists that is NULL. *)
Definition __get_ntd_device (n : Z) : K Z :=
  upd_info n (fun i => set_usecount (s32 (i.(usecount) + 1)) i) ;; mret 0.

(** Both answer the address of the device or a negative error.  In the first
    loop [other] stays NULL and [ntd] is the loop's device; so it is in the
    second, which reads the name of [other]. *)
Definition get_ntd_device (ntd num : Z) : K Z :=
  mutex_lock TableLock ;;
  ret ← (if num =? -1 then
           let other := 0 in
           r ← ntd_for_each_device
                 (fun ntd ret => mret (if other =? ntd then Break ntd else Next ret)) 0;
           mret match r with inl (_, ret) => ret | inr _ => 0 end
         else if 0 <=? num then
           m ← gets ntd_idr;
           let ret := default 0 (m !! num) in
           mret (if truthy ntd && negb (ntd =? ret) then 0 else ret)
         else mret 0);
  if ret =? 0 then mutex_unlock TableLock ;; mret (- ENODEV)
  else
    err ← __get_ntd_device ret;
    mutex_unlock TableLock ;;
    mret (if truthy err then err else ret).

Definition get_ntd_device_nm (name : list Z) : K Z :=
  mutex_lock TableLock ;;
  let other := 0 in
  r ← ntd_for_each_device
        (fun ntd l =>
           o ← info other;
           mret (if bool_decide (c_string name = c_string o.(ntd_name)) then Break other
                 else Next l)) 0;
  let ntd := match r with inl (ntd, _) => ntd | inr _ => 0 end in
  if ntd =? 0 then mutex_unlock TableLock ;; mret (- ENODEV)
  else
    err ← __get_ntd_device ntd;
    mutex_unlock TableLock ;;
    mret (if truthy err then err else ntd).

Definition __put_ntd_device (n : Z) : K unit :=
  upd_info n (fun i => set_usecount (s32 (i.(usecount) - 1)) i) ;;
  i ← info n;
  if i.(usecount) <? 0 then throw BugHit else mret tt.
Definition put_ntd_device (n : Z) : K unit :=
  mutex_lock TableLock ;; __put_ntd_device n ;; mutex_unlock TableLock.

(** ** Entering and leaving the table *)
Definition init_ntd : K Z :=
  ret ← ask;
  if truthy ret then mret ret else modify (set_ntd_class_ready true) ;; mret 0.

Definition idr_alloc (n : Z) : K Z :=
  r ← ask;
  if r <? 0 then mret r
  else
    m ← gets ntd_idr;
    modify (set_ntd_idr (<[idr_fresh m := n]> m)) ;;
    mret (idr_fresh m).
Definition idr_remove (i : Z) : K unit :=
  modify (fun k => set_ntd_idr (delete i k.(ntd_idr)) k).

(** [atomic_dec_and_test] of the counter that starts at 1: the class is
    registered by the first call only. *)
Definition init_once : K Z :=
  a ← gets ntd_init_available;
  if truthy (a - 1) then modify (set_ntd_init_available a) ;; mret 0
  else modify (set_ntd_init_available (a - 1)) ;; init_ntd.

Definition add_ntd_device (n : Z) : K Z :=
  d ← info n;
  if d.(ntd_pagesize) =? 0 then throw BugHit
  else
    mutex_lock TableLock ;;
    i ← idr_alloc n;
    if i <? 0 then mutex_unlock TableLock ;; mret 1
    else
      upd_info n (fun d => set_usecount 0 (set_index i d)) ;;
      error ← init_once;
      if truthy error then mutex_unlock TableLock ;; mret 1
      else
        error ← ask;
        if truthy error then idr_remove i ;; mutex_unlock TableLock ;; mret 1
        else
          modify (fun k => set_registered (n :: k.(registered)) k) ;;
          _ro ← ask;
          mutex_unlock TableLock ;;
          mret 0.

Definition del_ntd_device (n : Z) : K Z :=
  mutex_lock TableLock ;;
  d ← info n;
  m ← gets ntd_idr;
  ret ← (if negb (bool_decide (m !! d.(index) = Some n)) then mret (- ENODEV)
         else if truthy d.(usecount) then mret (- EBUSY)
         else
           modify (fun k => set_registered (filter (fun n' => n' <> n) k.(registered)) k) ;;
           idr_remove d.(index) ;;
           mret 0);
  mutex_unlock TableLock ;;
  mret ret.

(** ** The NTD device of a physical device *)
Definition free_partition (n : Z) : K unit :=
  modify (fun k => set_infos (delete n k.(infos)) k).

(** [list_for_each_entry_safe] over the list; [err] is the last error. *)
Fixpoint del_slaves (m : Z) (slaves : list Z) (err : Z) : K Z :=
  match slaves with
  | [] => mret err
  | s :: slaves =>
      i ← info s;
      if i.(priv) =? m then
        ret ← del_ntd_device s;
        if ret <? 0 then del_slaves m slaves ret
        else
          modify (fun k => set_ntd_partitions (filter (fun s' => s' <> s) k.(ntd_partitions)) k) ;;
          free_partition s ;;
          del_slaves m slaves err
      else del_slaves m slaves err
  end.
Definition del_ntd_partitions (m : Z) : K Z :=
  mutex_lock PartitionsLock ;;
  slaves ← gets ntd_partitions;
  err ← del_slaves m slaves 0;
  mutex_unlock PartitionsLock ;;
  mret err.

(** The masks stay 0. *)
Definition new_slave (m : Z) (p : amlnand_phydev) (flags : Z) : ntd_info :=
  mk_ntd p.(offset) p.(size) flags p.(erasesize) p.(writesize) p.(dev_oobavail)
    (u32 (ffs p.(erasesize) - 1)) (u32 (ffs p.(writesize) - 1)) 0 0 (c_string p.(name)) 0
    p.(partitions) p.(nr_partitions) m 0 0 0.

(** The device becomes read-only when [sz] is not a whole number of blocks. *)
Definition check_boundary (n sz : Z) : K unit :=
  d ← info n;
  if has d.(ntd_flags) NTD_WRITEABLE then
    r ← ntd_mod_by_eb sz d;
    when_ (truthy r)
      (upd_info n (fun d => set_ntd_flags (Z.land d.(ntd_flags) (not32 NTD_WRITEABLE)) d))
  else mret tt.

(** [do ... while (block_num != 0)], counting a [uint32_t] down. *)
Definition count_bad_blocks (n block_num : Z) : K unit :=
  r ← do_while (R := unit) (Z.to_nat (u32 (block_num - 1)))
        (fun '(block, block_num) =>
           bad ← part_block_isbad n block;
           when_ (truthy bad)
             (upd_info n (fun d => set_badblocks (u32 (d.(badblocks) + 1)) d)) ;;
           mret (Next (u32 (block + 1), u32 (block_num - 1))))
        (fun '(_, block_num) => negb (block_num =? 0)) (0, block_num);
  mret tt.

Definition allocate_partition (m : Z) : K Z :=
  slave ← new_object;
  name ← new_object;
  if (name =? 0) || (slave =? 0) then mret (- ENOMEM)
  else
    p ← object masters m;
    modify (fun k => set_infos (<[slave := new_slave m p.(m_phy) p.(m_flags)]> k.(infos)) k) ;;
    check_boundary slave p.(m_phy).(offset) ;;
    check_boundary slave p.(m_phy).(size) ;;
    d ← info slave;
    count_bad_blocks slave (u32 (Z.shiftr d.(ntd_size) d.(ntd_blocksize_shift))) ;;
    mret slave.

(** Whether the device could be entered in the table does not matter. *)
Definition add_ntd_partitions (m : Z) : K Z :=
  slave ← allocate_partition m;
  if slave <? 0 then mret slave
  else
    mutex_lock PartitionsLock ;;
    modify (fun k => set_ntd_partitions (slave :: k.(ntd_partitions)) k) ;;
    mutex_unlock PartitionsLock ;;
    r ← add_ntd_device slave;
    mret 0.

(** ** A buffer of at most [size] bytes; answers its address and size. *)
Definition ntd_kmalloc_up_to (n size : Z) : K (Z * Z) :=
  d ← info n;
  let min_alloc := Z.max d.(ntd_pagesize) PAGE_SIZE in
  r ← while_ 23 (fun size => min_alloc <? size)
        (fun size =>
           kbuf ← new_object;
           if kbuf =? 0 then mret (Next (align_up (Z.shiftr size 1) d.(ntd_pagesize)))
           else mret (Return (kbuf, size)))
        (Z.min size KMALLOC_MAX_SIZE);
  match r with
  | inl size => kbuf ← new_object; mret (kbuf, size)
  | inr r => mret r
  end.
End Ntd.

(** ** The invariant of the table *)
Section Table.
Context {D F : Type} `{!NandHw D} `{!ChipOperation D} `{Idr : IdrAlloc}.
Implicit Types k : kernel D F.

(** Every entry of the table is an allocated device that knows its own
    identifier; what sysfs shows is in the table; the list holds allocated
    devices, each once. *)
Record table_ok k : Prop := {
  tab_entry : forall i n, ntd_idr k !! i = Some n ->
    exists d, infos k !! n = Some d /\ index d = i;
  tab_registered : forall n, n ∈ registered k ->
    exists d, infos k !! n = Some d /\ ntd_idr k !! index d = Some n;
  tab_address : forall n d, infos k !! n = Some d -> 0 < n < k_next k;
  tab_next : 0 < k_next k;
  tab_listed : forall n, n ∈ ntd_partitions k -> exists d, infos k !! n = Some d;
  tab_once : NoDup (ntd_partitions k)
}.

(** Outside the table. *)
Definition unlisted (n : Z) k : Prop := forall i, ntd_idr k !! i <> Some n.
Definition at_rest (hs : list lock) k : Prop := table_ok k /\ k_held k = hs.
Definition any_fault : fault -> kernel D F -> Prop := fun _ _ => True.

(** Fields of a device that say nothing about the table. *)
Lemma table_ok_upd k n d f :
  table_ok k -> infos k !! n = Some d -> index (f d) = index d ->
  table_ok (set_infos (<[n := f d]> (infos k)) k).
Proof.
  intros [He Hr Ha Hx Hl Ho] Hn Hi.
  assert (forall n' d', infos k !! n' = Some d' ->
    exists d'', <[n := f d]> (infos k) !! n' = Some d'' /\ index d'' = index d') as Hkeep.
  { intros n' d' H'. destruct (decide (n = n')) as [<-|Hne].
    - rewrite lookup_insert_eq. replace d' with d by congruence. eauto.
    - rewrite lookup_insert_ne by done. eauto. }
  split; cbn; try done.
  - intros i n' H. destruct (He i n' H) as (d' & H' & <-).
    destruct (Hkeep n' d' H') as (d'' & ? & ?). eauto.
  - intros n' H. destruct (Hr n' H) as (d' & H' & ?).
    destruct (Hkeep n' d' H') as (d'' & ? & E). rewrite <- E in *. eauto.
  - intros n' d' H. destruct (decide (n = n')) as [<-|Hne]; [by eapply Ha|].
    rewrite lookup_insert_ne in H by done. by eapply Ha.
  - intros n' H. destruct (Hl n' H) as [d' H']. destruct (Hkeep n' d' H') as (? & ? & ?). eauto.
Qed.

(** A device that is new to the table. *)
Lemma table_ok_new k n d :
  table_ok k -> infos k !! n = None -> 0 < n < k_next k ->
  table_ok (set_infos (<[n := d]> (infos k)) k).
Proof.
  intros [He Hr Ha Hx Hl Ho] Hn Hlt.
  assert (forall n' x, infos k !! n' = Some x -> <[n := d]> (infos k) !! n' = Some x) as Hkeep.
  { intros n' x H. rewrite lookup_insert_ne by congruence. done. }
  split; cbn; try done.
  - intros i n' H. destruct (He i n' H) as (x & ? & ?). eauto.
  - intros n' H. destruct (Hr n' H) as (x & ? & ?). eauto.
  - intros n' x H. destruct (decide (n = n')) as [<-|Hne]; [done|].
    rewrite lookup_insert_ne in H by done. by eapply Ha.
  - intros n' H. destruct (Hl n' H) as [x ?]. eauto.
Qed.

Lemma unlisted_none k n : table_ok k -> infos k !! n = None -> unlisted n k.
Proof. intros H Hn i Hi. destruct (tab_entry k H i n Hi) as (d & ? & _). congruence. Qed.

(** Entering a device. *)
Lemma table_ok_enter k n d d' i :
  table_ok k -> infos k !! n = Some d -> unlisted n k -> ntd_idr k !! i = None ->
  index d' = i ->
  table_ok (set_infos (<[n := d']> (infos k)) (set_ntd_idr (<[i := n]> (ntd_idr k)) k)).
Proof.
  intros [He Hr Ha Hx Hl Ho] Hn Hu Hi Ei. split; cbn; try done.
  - intros i' n' H. destruct (decide (i = i')) as [<-|Hne].
    + rewrite lookup_insert_eq in H. injection H as <-. exists d'. by rewrite lookup_insert_eq.
    + rewrite lookup_insert_ne in H by done. destruct (He i' n' H) as (x & Hx' & <-).
      assert (n <> n') by (intros <-; by apply (Hu _ H)).
      exists x. by rewrite lookup_insert_ne.
  - intros n' H. destruct (Hr n' H) as (x & Hx' & H').
    assert (n <> n') by (intros <-; by apply (Hu _ H')).
    exists x. rewrite lookup_insert_ne by done. split; [done|].
    rewrite lookup_insert_ne by (intros E; rewrite E in Hi; congruence). done.
  - intros n' x H. destruct (decide (n = n')) as [<-|Hne]; [by eapply Ha|].
    rewrite lookup_insert_ne in H by done. by eapply Ha.
  - intros n' H. destruct (decide (n = n')) as [<-|Hne];
      [rewrite lookup_insert_eq; eauto | rewrite lookup_insert_ne by done; auto].
Qed.

(** Leaving the table. *)
Lemma table_ok_leave k n d :
  table_ok k -> infos k !! n = Some d -> n ∉ registered k ->
  table_ok (set_ntd_idr (delete (index d) (ntd_idr k)) k) \/ ntd_idr k !! index d <> Some n.
Proof.
  intros [He Hr Ha Hx Hl Ho] Hn Hreg.
  destruct (decide (ntd_idr k !! index d = Some n)) as [Hin|?]; [left|by right].
  split; cbn; try done.
  - intros i' n' H. apply lookup_delete_Some in H as [? H]. eauto.
  - intros n' H. destruct (Hr n' H) as (x & Hx' & H'). exists x. split; [done|].
    rewrite lookup_delete_ne; [done|]. intros E. rewrite <- E in H'. congruence.
Qed.

Lemma table_ok_reg k n :
  table_ok k -> table_ok (set_registered (filter (fun n' => n' <> n) (registered k)) k).
Proof.
  intros [He Hr Ha Hx Hl Ho]. split; cbn; try done.
  intros n' [_ H]%list_elem_of_filter. auto.
Qed.
Lemma table_ok_free k n :
  table_ok k -> unlisted n k -> n ∉ registered k -> n ∉ ntd_partitions k ->
  table_ok (set_infos (delete n (infos k)) k).
Proof.
  intros [He Hr Ha Hx Hl Ho] Hu Hn Hp. split; cbn; try done.
  - intros i n' H. assert (n <> n') by (intros <-; by apply (Hu _ H)).
    rewrite lookup_delete_ne by done. auto.
  - intros n' H. rewrite lookup_delete_ne by (intros <-; done). auto.
  - intros n' d [_ H]%lookup_delete_Some. eauto.
  - intros n' H. rewrite lookup_delete_ne by (intros <-; done). auto.
Qed.
Lemma table_ok_unlist k n :
  table_ok k -> table_ok (set_ntd_partitions (filter (fun s => s <> n) (ntd_partitions k)) k).
Proof.
  intros [He Hr Ha Hx Hl Ho]. split; cbn; try done.
  - intros n' [_ H]%list_elem_of_filter. auto.
  - by apply NoDup_filter.
Qed.
Lemma table_ok_list k n d :
  table_ok k -> infos k !! n = Some d -> n ∉ ntd_partitions k ->
  table_ok (set_ntd_partitions (n :: ntd_partitions k) k).
Proof.
  intros [He Hr Ha Hx Hl Ho] Hn Hp. split; cbn; try done.
  - intros n' [->|H]%elem_of_cons; eauto.
  - by constructor.
Qed.

(** What [table_ok] looks at, and the locks. *)
Definition table k := (ntd_idr k, infos k, registered k, ntd_partitions k, k_next k).
Lemma table_ok_eq k k' : table k' = table k -> table_ok k -> table_ok k'.
Proof.
  intros [= E1 E2 E3 E4 E5] [He Hr Ha Hx Hl Ho].
  split; rewrite ?E1, ?E2, ?E3, ?E4, ?E5; done.
Qed.

Lemma wp_on_master n req f (Q : Z -> kernel D F -> Prop) k :
  (forall r k', table k' = table k -> k_held k' = k_held k -> Q r k') ->
  wp (on_master n req f) Q any_fault k.
Proof.
  intros HQ. apply wp_bind, wp_object_or; [|done]. intros i Hi.
  apply wp_bind, wp_object_or; [|done]. intros m Hm.
  apply wp_bind, wp_lift_any; [|done]. intros r w.
  by apply wp_bind, wp_modify, wp_ret, HQ.
Qed.

Lemma index_kept k n d d' :
  index d' = index d -> infos k !! n = Some d -> unlisted n k ->
  unlisted n (set_infos (<[n := d']> (infos k)) k).
Proof. done. Qed.

(** *** Entering and leaving *)
Definition entered (n : Z) k : Prop :=
  exists d, infos k !! n = Some d /\ ntd_idr k !! index d = Some n /\ n ∈ registered k.
(** In the table, but unknown to sysfs. *)
Definition stranded (n : Z) k : Prop :=
  (exists d, infos k !! n = Some d /\ ntd_idr k !! index d = Some n) /\ n ∉ registered k.

Lemma wp_init_once (Q : Z -> kernel D F -> Prop) E k :
  (forall r k', table k' = table k -> k_held k' = k_held k ->
     (r <> 0 -> ntd_init_available k = 1 /\ ntd_init_available k' = 0) -> Q r k') ->
  wp init_once Q E k.
Proof.
  intros HQ. apply wp_bind, wp_gets.
  destruct (truthy_cases (ntd_init_available k - 1)) as [[Ha ->]|[Ha ->]].
  - apply wp_bind, wp_modify, wp_bind, wp_ask. intros r w.
    destruct (truthy_cases r) as [[-> ->]|[Hr ->]].
    + by apply wp_bind, wp_modify, wp_ret, HQ.
    + apply wp_ret, HQ; [done..|]. cbn. lia.
  - by apply wp_bind, wp_modify, wp_ret, HQ.
Qed.

Lemma add_ntd_device_spec n d hs k :
  at_rest hs k -> TableLock ∉ hs -> infos k !! n = Some d -> ntd_pagesize d <> 0 ->
  unlisted n k -> n ∉ registered k ->
  wp (add_ntd_device n)
    (fun r k' => at_rest hs k' /\ ntd_partitions k' = ntd_partitions k /\
       ((r = 0 /\ entered n k') \/ (r = 1 /\ unlisted n k') \/
        (r = 1 /\ stranded n k' /\ ntd_init_available k = 1 /\ ntd_init_available k' = 0)))
    noflt k.
Proof.
  intros [Hk <-] Hlock Hn Hp Hu Hreg. apply wp_bind, (wp_object _ _ d); [done|].
  rewrite (proj2 (Z.eqb_neq _ _) Hp). apply wp_bind, wp_mutex_lock; [done|].
  apply wp_bind, wp_bind, wp_ask. intros r w. destruct (r <? 0) eqn:Hr.
  { apply wp_ret. rewrite Hr. apply wp_bind. eapply wp_mutex_unlock; [done..|]. apply wp_ret.
    split; [by split; [eapply table_ok_eq; [|exact Hk]|] | split; [done|]]. right; left.
    split; [done | by intros i]. }
  apply wp_bind, wp_gets, wp_bind, wp_modify, wp_ret. cbn.
  destruct (idr_fresh_ok (ntd_idr k)) as [Hi0 Hi].
  rewrite (proj2 (Z.ltb_ge _ _) Hi0). set (i := idr_fresh _) in *.
  apply wp_bind, (wp_upd_info _ _ d); [done|]. cbn.
  pose proof (table_ok_enter k n d (set_usecount 0 (set_index i d)) i Hk Hn Hu Hi eq_refl) as Hk1.
  apply wp_bind, wp_init_once. intros e k2 Ht Hh Hinit. cbn in Hinit.
  injection Ht as E1 E2 E3 E4 E5. cbn in Hh.
  assert (table_ok k2) as Hk2 by (eapply table_ok_eq; [|exact Hk1]; unfold table; cbn; by rewrite E1, E2, E3, E4, E5).
  assert (infos k2 !! n = Some (set_usecount 0 (set_index i d))) as Hn2
    by (rewrite E2; apply lookup_insert_eq).
  assert (ntd_idr k2 !! i = Some n) as Hi2 by (rewrite E1; apply lookup_insert_eq).
  destruct (truthy_cases e) as [[-> ->]|[He ->]].
  2: { apply wp_bind. eapply wp_mutex_unlock; [done..|]. apply wp_ret.
       split; [split; [by eapply table_ok_eq; [|exact Hk2]|done]|]. split; [done|]. right; right.
       split; [done|]. split; [|by apply Hinit]. split; [eauto | cbn; by rewrite E3]. }
  apply wp_bind, wp_ask. intros e w2. destruct (truthy_cases e) as [[-> ->]|[He ->]].
  - apply wp_bind, wp_modify, wp_bind, wp_ask. intros ro w3. cbn.
    apply wp_bind. eapply wp_mutex_unlock; [done..|]. apply wp_ret. cbn.
    split; [split; [|done]|]; [|split; [done|]; left; split; [done|]].
    + destruct Hk2 as [He2 Hr2 Ha2 Hx2 Hl2 Ho2]. split; cbn; try done.
      intros n' [->|H]%elem_of_cons; [eauto | auto].
    + exists (set_usecount 0 (set_index i d)). split; [done|]. split; [done|]. apply elem_of_cons. by left.
  - apply wp_bind, wp_modify, wp_bind. eapply wp_mutex_unlock; [done..|]. apply wp_ret. cbn.
    assert (delete i (ntd_idr k2) = ntd_idr k) as Ed
      by (rewrite E1; cbn; by rewrite delete_insert_id).
    split; [split; [|done]|].
    + destruct (table_ok_leave k2 n _ Hk2 Hn2) as [H|H]; [by rewrite E3 | by eapply table_ok_eq; [|exact H] | done].
    + split; [done|]. right; left. split; [done|]. intros i' Hi'. cbn in Hi'. rewrite Ed in Hi'. by eapply Hu.
Qed.

Lemma del_ntd_device_spec n d hs k :
  at_rest hs k -> TableLock ∉ hs -> infos k !! n = Some d ->
  wp (del_ntd_device n)
    (fun r k' => at_rest hs k' /\ infos k' = infos k /\ ntd_partitions k' = ntd_partitions k /\
       ((r = 0 /\ unlisted n k' /\ n ∉ registered k') \/
        (r < 0 /\ ntd_idr k' = ntd_idr k /\ registered k' = registered k)))
    noflt k.
Proof.
  intros [Hk <-] Hlock Hn. apply wp_bind, wp_mutex_lock; [done|].
  apply wp_bind, (wp_object _ _ d); [done|]. apply wp_bind, wp_gets.
  assert (forall e, e < 0 -> wp (mutex_unlock TableLock ;; mret e)
    (fun r k' => at_rest (k_held k) k' /\ infos k' = infos k /\ ntd_partitions k' = ntd_partitions k /\
       ((r = 0 /\ unlisted n k' /\ n ∉ registered k') \/
        (r < 0 /\ ntd_idr k' = ntd_idr k /\ registered k' = registered k)))
    noflt (set_k_held (TableLock :: k_held k) k)) as Hleave.
  { intros e He. apply wp_bind. eapply wp_mutex_unlock; [done..|]. apply wp_ret.
    split; [by split; [eapply table_ok_eq; [|exact Hk]|]|]. do 2 (split; [done|]). by right. }
  cbn. case_bool_decide as Hin; cbn; [|by apply wp_bind, wp_ret, Hleave].
  destruct (truthy _); [by apply wp_bind, wp_ret, Hleave|].
  do 2 apply wp_bind. apply wp_modify, wp_bind, wp_modify, wp_ret, wp_bind. eapply wp_mutex_unlock; [done..|].
  apply wp_ret. cbn.
  assert (n ∉ filter (fun n' => n' <> n) (registered k)) as Hnr
    by (by intros [H _]%list_elem_of_filter).
  split; [split; [|done]|].
  - destruct (table_ok_leave _ n d (table_ok_reg k n Hk) Hn Hnr) as [H|H];
      [by eapply table_ok_eq; [|exact H] | done].
  - do 2 (split; [done|]). left. split; [done|]. split; [|done].
    intros i Hi. cbn in Hi. apply lookup_delete_Some in Hi as [Hne Hi].
    destruct (tab_entry k Hk i n Hi) as (d' & Hd' & Ei). congruence.
Qed.

(** *** The devices of a physical device *)

(** Allocated, and not yet known to anybody. *)
Definition loose (hs : list lock) (n : Z) k : Prop :=
  at_rest hs k /\ (exists d, infos k !! n = Some d) /\ unlisted n k /\ (n ∉ registered k) /\
  n ∉ ntd_partitions k.

Lemma loose_eq hs n k k' : table k' = table k -> k_held k' = k_held k -> loose hs n k -> loose hs n k'.
Proof.
  intros Ht Hh ([Hok Hl] & Hd & Hu & Hr & Hp). pose proof Ht as Ht'.
  injection Ht as E1 E2 E3 E4 E5. unfold loose, unlisted. rewrite E1, E2, E3, E4.
  split; [split; [by eapply table_ok_eq | congruence] | done].
Qed.

Lemma wp_upd_loose hs n f k :
  (forall d, index (f d) = index d) -> loose hs n k ->
  wp (upd_info n f) (fun _ => loose hs n) any_fault k.
Proof.
  intros Hf ([Hk Hh] & [d Hd] & Hu & Hr & Hp). apply (wp_upd_info _ _ d); [done|].
  split; [split; [by apply table_ok_upd | done]|]. cbn. rewrite lookup_insert_eq. eauto 10.
Qed.

Lemma wp_check_boundary hs n sz k :
  loose hs n k -> wp (check_boundary n sz) (fun _ => loose hs n) any_fault k.
Proof.
  intros Hk. apply wp_bind, wp_object_or; [|done]. intros d _.
  destruct (has _ _); [|by apply wp_ret]. apply wp_bind.
  assert (forall r, wp (when_ (truthy r)
    (upd_info n (fun d => set_ntd_flags (Z.land (ntd_flags d) (not32 NTD_WRITEABLE)) d)))
    (fun _ => loose hs n) any_fault k) as Hw.
  { intros r. unfold when_. destruct (truthy r); [by apply wp_upd_loose | by apply wp_ret]. }
  unfold ntd_mod_by_eb, by_unit. destruct (truthy (ntd_blocksize_shift d)); [by apply wp_ret|].
  apply wp_bind. unfold mod_. destruct (_ =? 0); [done|]. by apply wp_ret, wp_ret.
Qed.

Lemma wp_count_bad_blocks hs n bn k :
  loose hs n k -> wp (count_bad_blocks n bn) (fun _ => loose hs n) any_fault k.
Proof.
  intros Hk. apply wp_bind.
  assert (forall (l : Z * Z) k, loose hs n k ->
    wp (let '(block, block_num) := l in
        bad ← part_block_isbad n block;
        when_ (truthy bad) (upd_info n (fun d => set_badblocks (u32 (d.(badblocks) + 1)) d)) ;;
        mret (Next (u32 (block + 1), u32 (block_num - 1))))
      (fun (c : ctl (Z * Z) unit) k' => match c with Next _ => loose hs n k' | _ => False end)
      any_fault k) as Hbody.
  { intros [b m] k1 H1. apply wp_bind, wp_on_master. intros bad k2 Ht Hh. apply wp_bind.
    pose proof (loose_eq _ _ _ _ Ht Hh H1) as H2.
    eapply wp_mono with (Q := fun _ => loose hs n); [|intros; by apply wp_ret | done].
    unfold when_. destruct (truthy bad); [by apply wp_upd_loose | by apply wp_ret]. }
  eapply wp_mono with (Q := fun _ => loose hs n); [|intros; by apply wp_ret | done].
  apply wp_bind. eapply wp_mono; [exact (Hbody (0, bn) k Hk) | | done].
  intros [l|l|r] k1 H1; [|done..].
  apply (wp_while_keep (fun _ => loose hs n)); [by intros | | done | done].
  intros l1 k2 H2 _. eapply wp_mono; [by apply Hbody | | done]. by intros [].
Qed.

Lemma table_ok_next k n : table_ok k -> k_next k <= n -> table_ok (set_k_next n k).
Proof.
  intros [He Hr Ha Hx Hl Ho] Hn. split; cbn; try done; [|lia].
  intros x d H. specialize (Ha x d H). lia.
Qed.
Lemma next_fresh k : table_ok k -> infos k !! k_next k = None.
Proof.
  intros Hk. destruct (infos k !! k_next k) as [d|] eqn:E; [|done].
  apply (tab_address k Hk) in E. lia.
Qed.

Lemma wp_fresh hs k :
  at_rest hs k ->
  wp new_object (fun n k' => at_rest hs k' /\ infos k' = infos k /\ ntd_idr k' = ntd_idr k /\
    registered k' = registered k /\ ntd_partitions k' = ntd_partitions k /\
    (n = 0 \/ (n = k_next k /\ k_next k < k_next k'))) any_fault k.
Proof.
  intros [Hk Hh]. apply wp_new_object; [apply (tab_next k Hk) | |]; intros w; cbn.
  - split; [split; [by eapply table_ok_eq; [|exact Hk] | done]|]. repeat (split; [done|]). by left.
  - split; [split; [|done] | repeat (split; [done|]); right; lia].
    eapply table_ok_eq; [|apply (table_ok_next k (k_next k + 1) Hk); lia]. done.
Qed.

Lemma wp_allocate_partition hs m k :
  at_rest hs k ->
  wp (allocate_partition m) (fun r k' => at_rest hs k' /\ (r < 0 \/ loose hs r k')) any_fault k.
Proof.
  intros Hk. apply wp_bind. eapply wp_mono; [by apply wp_fresh | | done].
  intros s k1 (Hk1 & E1 & E2 & E3 & E4 & Hs). apply wp_bind.
  eapply wp_mono; [by apply wp_fresh | | done].
  intros nm k2 (Hk2 & E1' & E2' & E3' & E4' & Hnm).
  destruct ((nm =? 0) || (s =? 0)) eqn:Hz; [apply wp_ret; split; [done|]; left; reflexivity|].
  assert (s = k_next k /\ s < k_next k1 <= k_next k2) as [Es Hs2] by lia. clear Hs Hnm.
  apply wp_bind, wp_object_or; [|done]. intros p _. apply wp_bind, wp_modify.
  assert (loose hs s (set_infos (<[s := new_slave m (m_phy p) (m_flags p)]> (infos k2)) k2)) as H3.
  { destruct Hk as [Hk Hh]. destruct Hk2 as [Hk2 Hh2].
    assert (infos k2 !! s = None) as Hnone by (rewrite E1', E1, Es; by apply next_fresh).
    split; [split; [|done]|].
    - apply table_ok_new; [done..|]. pose proof (tab_next k Hk). lia.
    - cbn. rewrite lookup_insert_eq. split; [eauto|]. split; [exact (unlisted_none k2 s Hk2 Hnone)|].
      split; intros Hin.
      + destruct (tab_registered k2 Hk2 s Hin) as (d & ? & _). congruence.
      + destruct (tab_listed k2 Hk2 s Hin) as [d ?]. congruence. }
  apply wp_bind. eapply wp_mono; [exact (wp_check_boundary hs s _ _ H3) | | done].
  intros ? k4 H4. apply wp_bind.
  eapply wp_mono; [exact (wp_check_boundary hs s _ _ H4) | | done]. intros ? k5 H5.
  apply wp_bind, wp_object_or; [|done]. intros d _. apply wp_bind.
  eapply wp_mono; [exact (wp_count_bad_blocks hs s _ _ H5) | | done]. intros ? k6 H6.
  apply wp_ret. split; [apply H6 | by right].
Qed.

Lemma wp_add_ntd_partitions m k :
  at_rest [] k -> wp (add_ntd_partitions m) (fun _ => at_rest []) any_fault k.
Proof.
  intros Hk. apply wp_bind. eapply wp_mono; [by apply wp_allocate_partition | | done].
  intros s k1 [Hk1 Hs]. destruct (s <? 0) eqn:Hneg; [by apply wp_ret|].
  destruct Hs as [|([Hok Hh] & [d Hd] & Hu & Hr & Hp)]; [lia|].
  apply wp_bind, wp_mutex_lock; [by rewrite Hh; apply not_elem_of_nil|].
  apply wp_bind, wp_modify, wp_bind. eapply wp_mutex_unlock; [cbn; by rewrite Hh | apply not_elem_of_nil|].
  cbn. apply wp_bind.
  pose proof (table_ok_list k1 s d Hok Hd Hp) as Hok2.
  destruct (decide (ntd_pagesize d = 0)) as [E|Hpz].
  { apply wp_bind, (wp_object _ _ d); [done|]. rewrite E. done. }
  eapply wp_mono.
  - apply (add_ntd_device_spec s d []); [split; [by eapply table_ok_eq; [|exact Hok2] | done] | by apply not_elem_of_nil | done..].
  - intros r k2 (Hk2 & _). by apply wp_ret.
  - done.
Qed.
(** *** Giving the devices of a physical device up *)
Lemma wp_del_slaves m slaves hs k err :
  at_rest hs k -> TableLock ∉ hs -> NoDup slaves ->
  (forall s, s ∈ slaves -> exists d, infos k !! s = Some d) ->
  wp (del_slaves m slaves err)
    (fun r k' => at_rest hs k' /\
       (forall n, infos k' !! n = None \/ infos k' !! n = infos k !! n) /\
       (r = 0 -> err = 0 /\ forall s d, s ∈ slaves -> infos k !! s = Some d -> priv d = m ->
                   infos k' !! s = None)) noflt k.
Proof.
  revert k err. induction slaves as [|s slaves IH]; intros k err Hk Hlock Hnd Hall.
  { apply wp_ret. split; [done|]. split; [by right|]. intros ->. split; [done|].
    by intros s d H%elem_of_nil. }
  apply NoDup_cons in Hnd as [Hs Hnd].
  destruct (Hall s) as [d Hd]; [apply elem_of_cons; by left|].
  assert (forall s', s' ∈ slaves -> exists d, infos k !! s' = Some d) as Hrest
    by (intros s' H; apply Hall, elem_of_cons; by right).
  apply wp_bind, (wp_object _ _ d); [done|]. destruct (Z.eqb_spec (priv d) m) as [Em|Em].
  2: { eapply wp_mono; [by apply IH | | done]. intros r k' (Hr & Hsame & Hdone).
       split; [done|]. split; [done|]. intros H0. destruct (Hdone H0) as [-> Hgone].
       split; [done|]. intros s' d' [->|Hin]%elem_of_cons Hd' Ep; [congruence | by eapply Hgone]. }
  apply wp_bind. eapply wp_mono; [by apply (del_ntd_device_spec s d hs) | | done].
  intros ret k1 (Hk1 & Ei & Ep & Hcase). destruct (ret <? 0) eqn:Hret.
  { eapply wp_mono; [apply IH; [done..|by rewrite Ei] | | done].
    intros r k' (Hr & Hsame & Hdone). split; [done|]. split; [by rewrite <- Ei|].
    intros H0. destruct (Hdone H0) as [? _]. lia. }
  destruct Hcase as [(_ & Hu & Hreg)|]; [|lia]. destruct Hk1 as [Hok Hh].
  apply wp_bind, wp_modify, wp_bind, wp_modify.
  set (k2 := set_infos _ _).
  assert (table_ok k2) as Hok2.
  { apply (table_ok_free (set_ntd_partitions (filter (fun s' => s' <> s) (ntd_partitions k1)) k1));
      [by apply table_ok_unlist | done | done|]. by intros [H _]%list_elem_of_filter. }
  assert (infos k2 = delete s (infos k)) as E2 by (unfold k2; cbn; by rewrite Ei).
  eapply wp_mono; [apply (IH k2 err); [done | done | done|] | | done].
  - intros s' H. rewrite E2, lookup_delete_ne by (intros <-; done). by apply Hrest.
  - intros r k' (Hr & Hsame & Hdone). rewrite E2 in Hsame. split; [done|]. split.
    + intros n. destruct (Hsame n) as [?|Hn]; [by left|]. rewrite Hn.
      destruct (decide (s = n)) as [<-|Hne]; [left; apply lookup_delete_eq|].
      rewrite lookup_delete_ne by done. by right.
    + intros H0. destruct (Hdone H0) as [-> Hgone]. split; [done|].
      intros s' d' [->|Hin]%elem_of_cons Hd' Epr.
      * destruct (Hsame s) as [?|Hn]; [done|]. by rewrite Hn, lookup_delete_eq.
      * apply (Hgone s' d' Hin); [|done].
        by rewrite E2, lookup_delete_ne by (intros <-; done).
Qed.

Lemma wp_del_ntd_partitions m k :
  at_rest [] k ->
  wp (del_ntd_partitions m)
    (fun r k' => at_rest [] k' /\
       (r = 0 -> forall s d, s ∈ ntd_partitions k -> infos k !! s = Some d -> priv d = m ->
                   infos k' !! s = None)) noflt k.
Proof.
  intros [Hk Hh]. apply wp_bind, wp_mutex_lock; [rewrite Hh; apply not_elem_of_nil|].
  apply wp_bind, wp_gets, wp_bind. cbn.
  eapply wp_mono; [apply (wp_del_slaves m (ntd_partitions k) [PartitionsLock]) | | done].
  - split; [by eapply table_ok_eq; [|exact Hk] | cbn; by rewrite Hh].
  - by intros [?|?%elem_of_nil]%elem_of_cons.
  - exact (tab_once k Hk).
  - exact (tab_listed k Hk).
  - intros r k' ([Hok Hh'] & _ & Hdone). apply wp_bind.
    eapply wp_mutex_unlock; [exact Hh' | apply not_elem_of_nil|]. apply wp_ret.
    split; [split; [by eapply table_ok_eq; [|exact Hok] | done]|].
    intros H0. by apply Hdone.
Qed.

(** *** Looking devices up *)
Lemma wp_get_ntd_device_index n num k :
  at_rest [] k -> 0 <= num ->
  wp (get_ntd_device n num)
    (fun r k' => at_rest [] k' /\
       (r = - ENODEV /\ table k' = table k \/
        ntd_idr k !! num = Some r /\ (n = 0 \/ n = r))) noflt k.
Proof.
  intros [Hk Hh] Hnum. apply wp_bind, wp_mutex_lock; [rewrite Hh; apply not_elem_of_nil|].
  apply wp_bind. rewrite (proj2 (Z.eqb_neq num (-1))) by lia. rewrite (proj2 (Z.leb_le 0 num)) by lia.
  apply wp_bind, wp_gets, wp_ret. cbn. 
  match goal with |- context [ (if ?b then 0 else ?x) =? 0 ] => set (ret := if b then 0 else x) end.
  destruct (Z.eqb_spec ret 0) as [E|Hne].
  { apply wp_bind. eapply wp_mutex_unlock; [cbn; by rewrite Hh | apply not_elem_of_nil|].
    apply wp_ret. split; [split; [by eapply table_ok_eq; [|exact Hk] | done] | by left]. }
  assert (ntd_idr k !! num = Some ret /\ (n = 0 \/ n = ret)) as [Hret Hn].
  { subst ret. destruct (ntd_idr k !! num) as [x|] eqn:Ex; cbn in *.
    - destruct (truthy_cases n) as [[-> Et]|[Hn Et]]; rewrite Et in *; cbn in *; [by auto|].
      destruct (Z.eqb_spec n x) as [->|]; cbn in *; [auto | done].
    - by destruct (_ && _). }
  destruct (tab_entry k Hk num ret Hret) as (d & Hd & Ei).
  apply wp_bind, wp_bind, (wp_upd_info _ _ d); [done|]. apply wp_ret, wp_bind.
  eapply wp_mutex_unlock; [cbn; by rewrite Hh | apply not_elem_of_nil|]. apply wp_ret. cbn.
  split; [|by right]. split; [|done].
  eapply table_ok_eq; [|exact (table_ok_upd k ret d (fun i => set_usecount (s32 (usecount i + 1)) i) Hk Hd eq_refl)].
  done.
Qed.

(** *** Walking through the table *)
Lemma idr_get_next_spec (m : gmap Z Z) i :
  match idr_get_next m i with
  | Some (j, v) => i <= j /\ m !! j = Some v
  | None => forall j v, m !! j = Some v -> j < i
  end.
Proof.
  unfold idr_get_next.
  apply (map_fold_weak_ind (fun (r : Datatypes.option (Z * Z)) m =>
    match r with
    | Some (j, v) => i <= j /\ m !! j = Some v
    | None => forall j v, m !! j = Some v -> j < i
    end)); [done|].
  intros j v m' r Hj IH. destruct ((i <=? j) && _) eqn:Hb.
  - rewrite lookup_insert_eq. split; [lia | done].
  - destruct r as [[j' v']|].
    + destruct IH as [? Hv]. split; [done|]. rewrite lookup_insert_ne; [done|]. congruence.
    + intros j' v' H. destruct (decide (j = j')) as [<-|Hne]; [lia|].
      rewrite lookup_insert_ne in H by done. by eapply IH.
Qed.

(** The entries from identifier [i] on. *)
Definition ahead (m : gmap Z Z) (i : Z) : nat := base.size (filter (fun e => i <= e.1) m).
Lemma ahead_next m i j v : m !! j = Some v -> i <= j -> (ahead m (j + 1) < ahead m i)%nat.
Proof.
  intros Hj Hi. apply map_subset_size, map_subset_alt.
  split.
  - apply map_subseteq_spec. intros x y [Hx Hle]%map_lookup_filter_Some.
    apply map_lookup_filter_Some. cbn in *. split; [done | lia].
  - exists j. split; [|].
    + apply map_lookup_filter_None. right. intros y Hy. cbn. lia.
    + exists v. apply map_lookup_filter_Some. done.
Qed.
Lemma ahead_size m i : (ahead m i <= base.size m)%nat.
Proof. apply map_subseteq_size, map_filter_subseteq. Qed.

Lemma next_device_spec i (Q : Z -> kernel D F -> Prop) E k :
  (forall j n d, i <= j -> ntd_idr k !! j = Some n -> infos k !! n = Some d -> index d = j ->
     n <> 0 -> Q n k) ->
  Q 0 k -> table_ok k -> wp (__ntd_next_device i) Q E k.
Proof.
  intros HQ H0 Hk. apply wp_bind, wp_gets, wp_ret.
  pose proof (idr_get_next_spec (ntd_idr k) i) as Hspec. destruct (idr_get_next _ _) as [[j n]|]; [|done].
  destruct Hspec as [Hj Hn]. destruct (tab_entry k Hk j n Hn) as (d & Hd & Ei).
  apply (HQ j n d); try done. pose proof (tab_address k Hk n d Hd). lia.
Qed.

(** A loop whose body always goes on ends after the last entry. *)
Lemma wp_for_each_passes {L} (body : Z -> L -> kact D F (ctl L unit)) l (Q : Z * L + unit -> kernel D F -> Prop) E k :
  table_ok k -> (forall n, n <> 0 -> body n l = mret (Next l)) -> Q (inl (0, l)) k ->
  wp (ntd_for_each_device body l) Q E k.
Proof.
  intros Hk Hbody HQ. apply wp_bind, wp_gets, wp_bind.
  set (I := fun (fuel : nat) (v : Z * L) k' => k' = k /\ v.2 = l /\
    (v.1 = 0 \/ exists d, infos k !! v.1 = Some d /\ ntd_idr k !! index d = Some v.1 /\
                  (ahead (ntd_idr k) (index d) < fuel)%nat)).
  assert (forall v, I (S (base.size (ntd_idr k))) v k ->
    wp (while_ (S (base.size (ntd_idr k))) (fun '(ntd, _) => negb (ntd =? 0))
      (fun '(ntd, l) =>
       c ← body ntd l;
       match c with
       | Next l =>
           i ← info ntd;
           next ← __ntd_next_device (index i + 1);
           mret (Next (next, l))
       | Break l => mret (Break (ntd, l))
       | Return r => mret (Return r)
       end) v) Q E k) as Hloop.
  { intros v Hv. apply (wp_while I); [| | done].
    - intros fuel [n l'] k' (-> & El & _) Hn. cbn in El, Hn. subst l'.
      assert (n = 0) as -> by lia. done.
    - intros fuel [n l'] k' (-> & El & Hn) Hc. cbn in El, Hc, Hn. subst l'.
      assert (n <> 0) as Hn0 by lia.
      destruct Hn as [?|(d & Hd & Hi & Hf)]; [done|].
      destruct fuel as [|fuel]; [lia|]. exists fuel. split; [done|].
      rewrite (Hbody n Hn0). apply wp_bind, wp_ret, wp_bind, (wp_object _ _ d); [done|].
      apply wp_bind. apply next_device_spec; [| | done].
      + intros j n' d' Hj Hn' Hd' Ej Hz. apply wp_ret. split; [done|]. split; [done|]. right.
        exists d'. cbn. split; [done|]. rewrite Ej. split; [done|].
        pose proof (ahead_next (ntd_idr k) (index d) (index d) n Hi ltac:(lia)).
        assert (ahead (ntd_idr k) j <= ahead (ntd_idr k) (index d + 1))%nat; [|lia].
        apply map_subseteq_size, map_subseteq_spec. intros x y [Hx Hle]%map_lookup_filter_Some.
        apply map_lookup_filter_Some. cbn in *. split; [done | lia].
      + apply wp_ret. split; [done|]. split; [done|]. by left. }
  apply next_device_spec; [| | done].
  - intros j n d Hj Hn Hd Ej Hz. apply Hloop. split; [done|]. split; [done|]. right. cbn.
    exists d. rewrite Ej. split; [done|]. split; [done|].
    pose proof (ahead_size (ntd_idr k) j). lia.
  - apply Hloop. split; [done|]. split; [done|]. by left.
Qed.

(** ** The NTD layer as a whole *)

(** What the rest of the driver asks of the layer. *)
Inductive ntd_call :=
  | AddPartitions (m : Z)
  | DelPartitions (m : Z)
  | GetDevice (n num : Z)
  | PutDevice (n : Z).
Definition ntd_step (c : ntd_call) : kact D F unit :=
  match c with
  | AddPartitions m => r ← add_ntd_partitions m; mret tt
  | DelPartitions m => r ← del_ntd_partitions m; mret tt
  | GetDevice n num => r ← get_ntd_device n num; mret tt
  | PutDevice n => put_ntd_device n
  end.
Fixpoint ntd_steps (cs : list ntd_call) : kact D F unit :=
  match cs with
  | [] => mret tt
  | c :: cs => ntd_step c ;; ntd_steps cs
  end.

Lemma wp_get_by_address n (Q : Z -> kernel D F -> Prop) E k :
  at_rest [] k ->
  (forall k', table k' = table k -> k_held k' = [] -> Q (- ENODEV) k') ->
  wp (get_ntd_device n (-1)) Q E k.
Proof.
  intros [Hk Hh] HQ. apply wp_bind, wp_mutex_lock; [rewrite Hh; apply not_elem_of_nil|].
  apply wp_bind. cbn. apply wp_bind, wp_for_each_passes.
  - by eapply table_ok_eq; [|exact Hk].
  - intros x Hx. by destruct x.
  - apply wp_ret. cbn. apply wp_bind.
    eapply wp_mutex_unlock; [cbn; by rewrite Hh | apply not_elem_of_nil|]. by apply wp_ret, HQ.
Qed.

Lemma wp_put_ntd_device n k :
  at_rest [] k -> wp (put_ntd_device n) (fun _ => at_rest []) any_fault k.
Proof.
  intros [Hk Hh]. apply wp_bind, wp_mutex_lock; [rewrite Hh; apply not_elem_of_nil|].
  apply wp_bind, wp_bind, wp_bind, wp_object_or; [|done]. intros d Hd. apply wp_modify.
  apply wp_bind, wp_object_or; [|done]. intros d' Hd'.
  destruct (_ <? 0); [done|]. apply wp_ret.
  eapply wp_mutex_unlock; [cbn; by rewrite Hh | apply not_elem_of_nil|]. split; [|done].
  eapply table_ok_eq; [|exact (table_ok_upd k n d (fun i => set_usecount (s32 (usecount i - 1)) i) Hk Hd eq_refl)].
  done.
Qed.

Lemma wp_ntd_step c k : at_rest [] k -> wp (ntd_step c) (fun _ => at_rest []) any_fault k.
Proof.
  intros Hk. destruct c as [m|m|n num|n]; [| | |by apply wp_put_ntd_device]; apply wp_bind.
  - eapply wp_mono; [by apply wp_add_ntd_partitions | | done]. intros r k' H. by apply wp_ret.
  - eapply wp_mono; [by apply wp_del_ntd_partitions | | done]. intros r k' [H _]. by apply wp_ret.
  - destruct (decide (num = -1)) as [->|Hne].
    { apply wp_get_by_address; [done|]. intros k' Ht Hh. apply wp_ret. split; [|done].
      eapply table_ok_eq; [exact Ht | apply Hk]. }
    destruct (decide (0 <= num)) as [Hn|Hn].
    + eapply wp_mono; [by apply wp_get_ntd_device_index | | done].
      intros r k' [H _]. by apply wp_ret.
    + destruct Hk as [Hk Hh]. apply wp_bind, wp_mutex_lock; [rewrite Hh; apply not_elem_of_nil|].
      apply wp_bind. rewrite (proj2 (Z.eqb_neq _ _) Hne), (proj2 (Z.leb_gt 0 num)) by lia.
      apply wp_ret, wp_bind.
      eapply wp_mutex_unlock; [cbn; by rewrite Hh | apply not_elem_of_nil|].
      apply wp_ret, wp_ret. split; [by eapply table_ok_eq; [|exact Hk] | done].
Qed.

(** C8: whatever sequence of registrations, removals, look-ups and releases
    the NTD layer is asked for, and however the allocations and the hardware
    answer, between the calls every entry of the table is an allocated device
    that carries its own identifier, everything sysfs shows is in the table,
    the list of partitions holds allocated devices without repetition, and no
    mutex of the layer is left locked. *)
Theorem ntd_table_invariant cs k :
  at_rest [] k -> wp (ntd_steps cs) (fun _ => at_rest []) any_fault k.
Proof.
  revert k. induction cs as [|c cs IH]; intros k Hk; [by apply wp_ret|].
  apply wp_bind. eapply wp_mono; [by apply wp_ntd_step | | done]. intros _u k' H. by apply IH.
Qed.

(** C30: [del_ntd_partitions] never touches a device it has freed, and when it
    answers 0 every NTD device of that physical device has been freed and has
    left the table. *)
Theorem del_ntd_partitions_frees m k :
  at_rest [] k ->
  wp (del_ntd_partitions m)
    (fun r k' => at_rest [] k' /\
       (r = 0 -> forall s d, s ∈ ntd_partitions k -> infos k !! s = Some d -> priv d = m ->
          infos k' !! s = None /\ unlisted s k' /\ (s ∉ ntd_partitions k'))) noflt k.
Proof.
  intros Hk. eapply wp_mono; [by apply wp_del_ntd_partitions | | done].
  intros r k' [[Hok Hh] Hdone]. split; [done|]. intros H0 s d Hs Hd Hp.
  pose proof (Hdone H0 s d Hs Hd Hp) as Hn. split; [done|]. split; [by apply unlisted_none|].
  intros Hin. destruct (tab_listed k' Hok s Hin) as [d' Hd']. congruence.
Qed.

(** looking a device up by its address never finds it, not even when it
    is in the table; looking one up by name dereferences NULL, with the mutex
    of the table held, as soon as the table has an entry. *)
Theorem ntd_lookups_fail k :
  at_rest [] k ->
  (forall n, wp (get_ntd_device n (-1))
     (fun r k' => r = - ENODEV /\ table k' = table k /\ k_held k' = []) noflt k) /\
  (forall name, (exists i n, 0 <= i /\ ntd_idr k !! i = Some n) ->
     wp (get_ntd_device_nm name) (fun _ _ => False)
       (fun f k' => f = NullDeref /\ k_held k' = [TableLock]) k).
Proof.
  intros [Hk Hh]. split.
  - intros n. by apply wp_get_by_address.
  - intros name (i & n & Hi & Hn). apply wp_bind, wp_mutex_lock; [rewrite Hh; apply not_elem_of_nil|].
    apply wp_bind, wp_bind, wp_gets, wp_bind, wp_bind, wp_gets, wp_ret. cbn.
    pose proof (idr_get_next_spec (ntd_idr k) 0) as Hspec.
    destruct (idr_get_next _ _) as [[j n']|]; [|specialize (Hspec i n Hn); lia].
    destruct Hspec as [_ Hj]. destruct (tab_entry k Hk j n' Hj) as (d & Hd & _).
    pose proof (tab_address k Hk n' d Hd). rewrite (proj2 (Z.eqb_neq n' 0)) by lia.
    do 3 apply wp_bind. unfold wp, info, object. cbn.
    destruct (infos k !! 0) as [d0|] eqn:E0; [|by rewrite Hh].
    pose proof (tab_address k Hk 0 d0 E0). lia.
Qed.

(** The check that a device starts and ends on a block boundary looks at a
    mask that is never set. *)
Lemma check_boundary_skipped n sz d k :
  infos k !! n = Some d -> blocksize_mask d = 0 -> ntd_blocksize_shift d <> 0 ->
  check_boundary n sz k = Done tt k.
Proof.
  intros Hd Hm Hs. unfold check_boundary, mbind, M_bind, info, object. rewrite Hd.
  destruct (has _ _); [|done]. unfold ntd_mod_by_eb, by_unit.
  destruct (truthy_cases (ntd_blocksize_shift d)) as [[? _]|[_ ->]]; [done|].
  by rewrite Hm, Z.land_0_r.
Qed.
End Table.

(** ** The size of a buffer *)
Lemma align_up_pow2 x p :
  0 <= x -> 0 <= p < 32 -> x + 2 ^ p <= 2 ^ 32 -> align_up x (2 ^ p) = (x + 2 ^ p - 1) / 2 ^ p * 2 ^ p.
Proof.
  intros Hx Hp Hb. assert (0 < 2 ^ p) by (apply Z.pow_pos_nonneg; lia).
  unfold align_up, not32. replace (x + (2 ^ p - 1)) with (x + 2 ^ p - 1) by lia.
  set (y := x + 2 ^ p - 1). unfold wrap. rewrite (Z.mod_small y) by lia.
  replace (2 ^ p - 1) with (Z.ones p) by (rewrite Z.ones_equiv; lia).
  rewrite <- (Z.land_ones _ 32) by lia. rewrite Z.land_assoc.
  rewrite <- Z.ldiff_land, Z.land_ones by lia. rewrite Z.ldiff_ones_r by lia.
  rewrite Z.shiftl_mul_pow2, Z.shiftr_div_pow2 by lia. apply Z.mod_small.
  split; [apply Z.mul_nonneg_nonneg; [apply Z.div_pos; lia | lia]|].
  pose proof (Z.mul_div_le y (2 ^ p) ltac:(lia)). lia.
Qed.

(** Halving and aligning what is at most [2 ^ (n + 1)] and above a page gives at
    most [2 ^ n]. *)
Lemma halve_align s n p :
  0 <= p -> 0 <= n <= 30 -> 2 ^ p < s <= 2 ^ (n + 1) -> 0 <= align_up (Z.shiftr s 1) (2 ^ p) <= 2 ^ n.
Proof.
  intros Hp Hn Hs. assert (p <= n).
  { destruct (Z.le_gt_cases p n); [done|]. assert (2 ^ (n + 1) <= 2 ^ p) by (apply Z.pow_le_mono_r; lia). lia. }
  assert (0 < 2 ^ p) by (apply Z.pow_pos_nonneg; lia).
  assert (2 ^ p <= 2 ^ n) by (apply Z.pow_le_mono_r; lia).
  assert (2 ^ n <= 2 ^ 30) by (apply Z.pow_le_mono_r; lia). change (2 ^ 30) with 1073741824 in *.
  rewrite Z.pow_add_r in Hs by lia. change (2 ^ 1) with 2 in Hs.
  rewrite Z.shiftr_div_pow2 by lia. change (2 ^ 1) with 2.
  assert (0 <= s / 2 <= 2 ^ n) by (split; [apply Z.div_pos; lia | apply Z.div_le_upper_bound; lia]).
  rewrite align_up_pow2 by lia. split; [apply Z.mul_nonneg_nonneg; [apply Z.div_pos; lia | lia]|].
  assert ((s / 2 + 2 ^ p - 1) / 2 ^ p <= 2 ^ (n - p)).
  { apply Z.lt_succ_r, Z.div_lt_upper_bound; [lia|]. rewrite Z.mul_succ_r, <- Z.pow_add_r by lia.
    replace (p + (n - p)) with n by lia. lia. }
  replace (2 ^ n) with (2 ^ (n - p) * 2 ^ p) by (rewrite <- Z.pow_add_r by lia; f_equal; lia).
  by apply Z.mul_le_mono_nonneg_r; [lia|].
Qed.

Section Kmalloc.
Context {D F : Type}.
(** The 23 rounds are enough. *)
Lemma kmalloc_up_to_spec n size d p (k : kernel D F) :
  0 < k_next k -> infos k !! n = Some d -> ntd_pagesize d = 2 ^ p -> 0 <= p -> 0 <= size ->
  wp (ntd_kmalloc_up_to n size) (fun r _ => 0 <= r.2) noflt k.
Proof.
  intros Hk Hd Ep Hp Hsize. apply wp_bind, (wp_object _ _ d); [done|]. cbv zeta. apply wp_bind.
  apply (wp_while (fun fuel s k => 0 < k_next k /\ 0 <= s <= 2 ^ (Z.of_nat fuel - 1) /\ (0 < fuel < 24)%nat)).
  - intros fuel s k' (Hx & Hs & _) _. apply wp_bind, wp_new_object; [done|..]; intros; apply wp_ret; cbn; lia.
  - intros fuel s k' (Hx & Hs & Hf) Hc. rewrite Ep in Hc. unfold PAGE_SIZE in Hc.
    destruct fuel as [|[|fuel]]; [lia | |].
    { change (2 ^ _) with 1 in Hs. lia. }
    exists (S fuel). split; [done|].
    assert (0 <= align_up (Z.shiftr s 1) (2 ^ p) <= 2 ^ (Z.of_nat (S fuel) - 1)) as Ha.
    { apply halve_align; [lia | lia |]. split; [lia|].
      replace (Z.of_nat (S fuel) - 1 + 1) with (Z.of_nat (S (S fuel)) - 1) by lia. lia. }
    apply wp_bind, wp_new_object; [done|..]; intros w.
    + apply wp_ret. rewrite Ep. split; [done|]. split; [exact Ha | lia].
    + destruct (_ =? 0); apply wp_ret; [rewrite Ep; split; [cbn; lia | split; [exact Ha | lia]]|]. apply wp_ret. cbn. lia.
  - unfold KMALLOC_MAX_SIZE. split; [done|]. split; [|lia]. change (2 ^ (Z.of_nat 23 - 1)) with (2 ^ 22). lia.
Qed.
End Kmalloc.

(** ** A table with one device *)
Module NtdWitness.
#[local] Existing Instance IdealDev.hw.
#[local] Existing Instance IdealDev.ops.

(** One more than the greatest identifier in use. *)
Definition above (m : gmap Z Z) : Z := map_fold (fun i _ a => Z.max (i + 1) a) 0 m.
Lemma above_spec m : 0 <= above m /\ forall i v, m !! i = Some v -> i < above m.
Proof.
  unfold above. apply (map_fold_weak_ind (fun a m => 0 <= a /\ forall i v, m !! i = Some v -> i < a)).
  - done.
  - intros i v m' a Hi [Ha IH]. split; [lia|]. intros j x H.
    destruct (decide (i = j)) as [<-|Hne]; [lia|]. rewrite lookup_insert_ne in H by done.
    specialize (IH j x H). lia.
Qed.
#[local] Instance idr : IdrAlloc.
Proof.
  refine {| idr_fresh := above |}. intros m. destruct (above_spec m) as [H0 H]. split; [done|].
  destruct (m !! above m) as [v|] eqn:E; [specialize (H _ _ E); lia | done].
Defined.

Definition no_tr : ntd_blktrans_tr := mk_tr AML_NFTL_MAJOR 0 512 0 [] false.
Definition disk : master := mk_master (IdealDev.dev 0) NTD_WRITEABLE.
(** Before and after the device is registered. *)
Definition k0 : kernel IdealDev.D unit :=
  mk_kernel IdealDev.start tt [] 1 [1] {[ 1 := disk ]} ∅ [] ∅ 1 false [] 0 no_tr ∅ ∅ [] [] 0 ∅ [] 0 0.
Definition slave : ntd_info := new_slave 1 (IdealDev.dev 0) NTD_WRITEABLE.
Definition k1 : kernel IdealDev.D unit :=
  set_infos {[ 1 := slave ]} (set_ntd_idr {[ 0 := 1 ]} (set_registered [1]
    (set_ntd_partitions [1] (set_k_next 3 (set_ntd_class_ready true (set_ntd_init_available 0 k0)))))).

Example add_runs :
  match add_ntd_partitions 1 k0 with
  | Done r k => r = 0 /\ table k = table k1 /\ k_held k = [] /\ ntd_init_available k = 0
  | Fault _ _ => False
  end.
Proof. vm_compute. split_and!; try done. Qed.

Lemma rest0 : at_rest [] k0.
Proof.
  split; [|done]. split; cbn; try (by intros); try lia.
  - by intros n H%elem_of_nil.
  - by intros n H%elem_of_nil.
  - constructor.
Qed.
Lemma rest1 : at_rest [] k1.
Proof.
  split; [|done]. split; cbn.
  - intros i n [<- <-]%lookup_singleton_Some. by exists slave.
  - intros n ->%list_elem_of_singleton. by exists slave.
  - intros n d [<- <-]%lookup_singleton_Some. lia.
  - lia.
  - intros n ->%list_elem_of_singleton. by exists slave.
  - apply NoDup_singleton.
Qed.

Definition calls : list ntd_call := [AddPartitions 1; GetDevice 0 0; PutDevice 1; DelPartitions 1].
Example ntd_table_invariant_witness :
  at_rest [] k0 /\ wp (ntd_steps calls) (fun _ => at_rest []) any_fault k0.
Proof. split; [exact rest0 | exact (ntd_table_invariant calls k0 rest0)]. Defined.

Example del_ntd_partitions_frees_witness :
  wp (del_ntd_partitions 1)
    (fun r k' => at_rest [] k' /\
       (r = 0 -> forall s d, s ∈ ntd_partitions k1 -> infos k1 !! s = Some d -> priv d = 1 ->
          infos k' !! s = None /\ unlisted s k' /\ (s ∉ ntd_partitions k'))) noflt k1.
Proof. exact (del_ntd_partitions_frees 1 k1 rest1). Defined.

Example ntd_lookups_fail_witness :
  wp (get_ntd_device 1 (-1))
     (fun r k' => r = - ENODEV /\ table k' = table k1 /\ k_held k' = []) noflt k1 /\
  wp (get_ntd_device_nm (chars "nfcode")) (fun _ _ => False)
     (fun f k' => f = NullDeref /\ k_held k' = [TableLock]) k1.
Proof.
  destruct (ntd_lookups_fail k1 rest1) as [H1 H2]. split; [apply H1|].
  apply H2. exists 0, 1. split; [lia | reflexivity].
Defined.
End NtdWitness.
