(* ===== verification/BlkDevs.v ===== *)
(** * BlkDevs: [ntd/aml_ntd_blkdevs.c], block devices over a translation layer.

    A block device has a queue: the block layer's [queue_rq] only appends to it
    and schedules the device's work item, and the work item takes the requests
    from its head, one at a time, and answers them.  Devices are counted by
    references and listed in the order of their numbers. *)
From Stdlib Require Import Sorted.
From S2P Require Import Prelude NfcWords Data Machine PhyDev LogicData Ntd.

(** The access functions of [struct ntd_blktrans_ops]; [None] is NULL.
    [add_ntd] and [remove_dev] are arguments of what calls them. *)
Record blktrans_ops (D F : Type) := mk_blktrans_ops {
  tr_do_request : Datatypes.option (Z -> request -> kact D F Z);
  tr_readsect : Datatypes.option (Z -> Z -> ptr -> kact D F Z);
  tr_writesect : Datatypes.option (Z -> Z -> ptr -> kact D F Z);
  tr_discard : Datatypes.option (Z -> Z -> Z -> kact D F Z);
  tr_getgeo : Datatypes.option (Z -> kact D F Z);
  tr_flush : Datatypes.option (Z -> kact D F Z);
  tr_open : Datatypes.option (Z -> kact D F Z);
  tr_release : Datatypes.option (Z -> kact D F Z)
}.
Arguments tr_do_request {D F}.
Arguments tr_readsect {D F}.
Arguments tr_writesect {D F}.
Arguments tr_discard {D F}.
Arguments tr_getgeo {D F}.
Arguments tr_flush {D F}.
Arguments tr_open {D F}.
Arguments tr_release {D F}.

Section BlkDevs.
Context {D F : Type}.
Abbreviation K := (kact D F).

Definition upd_tr (f : ntd_blktrans_tr -> ntd_blktrans_tr) : K unit :=
  modify (fun k => set_tr (f k.(tr)) k).

(** ** References *)

(** [list_del]; an entry that is on no list has poisoned pointers. *)
Definition list_del (d : Z) : K unit :=
  t ← gets tr;
  if bool_decide (d ∈ t.(tr_devs)) then
    upd_tr (set_tr_devs (filter (fun d' => d' <> d) t.(tr_devs)))
  else throw NullDeref.

(** The disk goes with its last reference. *)
Definition put_disk (g : Z) : K unit :=
  if g =? 0 then mret tt
  else
    x ← object disks g;
    if x.(disk_refs) =? 1 then modify (fun k => set_disks (delete g k.(disks)) k)
    else upd_disk g (set_disk_refs (x.(disk_refs) - 1)).

Definition free_blk (d : Z) : K unit :=
  x ← blk d; modify (fun k => set_blks (delete d k.(blks)) k).

Definition blktrans_dev_release (d : Z) : K unit :=
  x ← blk d;
  put_disk x.(nbd).(disk) ;;
  when_ (truthy x.(nbd).(tag_set)) (upd_nbd d (set_tag_set 0)) ;;
  list_del d ;;
  free_blk d.

Definition kref_get (d : Z) : K unit := upd_nbd d (fun n => set_kref (n.(kref) + 1) n).
Definition kref_put (d : Z) (release : Z -> K unit) : K unit :=
  upd_nbd d (fun n => set_kref (n.(kref) - 1) n) ;;
  x ← blk d;
  if x.(nbd).(kref) =? 0 then release d else mret tt.

Definition blktrans_dev_get (g : Z) : K Z :=
  mutex_lock RefLock ;;
  x ← object disks g;
  when_ (truthy x.(private_data)) (kref_get x.(private_data)) ;;
  mutex_unlock RefLock ;;
  mret x.(private_data).
Definition blktrans_dev_put (d : Z) : K unit := kref_put d blktrans_dev_release.

Definition module_get : K unit := modify (fun k => set_module_refs (k.(module_refs) + 1) k).
Definition module_put : K unit := modify (fun k => set_module_refs (k.(module_refs) - 1) k).

(** ** Serving requests *)
Context (ops : blktrans_ops D F).

(** The sectors of one segment; the loop variables are [block] and [buf]. *)
Definition serve_segment (op : Z -> ptr -> K Z) (bvec : ptr * Z) (block : Z) : K (Z + Z) :=
  t ← gets tr;
  kmap ;;
  r ← for_ (Z.to_nat (Z.shiftr bvec.2 t.(blkshift))) 0
        (fun _ '(block, buf) =>
           e ← op block buf;
           if truthy e then kunmap ;; mret (Return BLK_STS_IOERR)
           else mret (Next (u32 (block + 1), ptr_add buf t.(blksize))))
        (block, bvec.1);
  match r with
  | inl (block, _) => kmap ;; kunmap ;; mret (inl block)
  | inr e => mret (inr e)
  end.
Fixpoint serve_segments (op : Z -> ptr -> K Z) (segs : list (ptr * Z)) (block : Z) : K Z :=
  match segs with
  | [] => mret BLK_STS_OK
  | bvec :: segs =>
      r ← serve_segment op bvec block;
      match r with
      | inl block => serve_segments op segs block
      | inr e => mret e
      end
  end.
Definition status_of (e : Z) : Z := if truthy e then BLK_STS_IOERR else BLK_STS_OK.

Definition do_blktrans_request_fallback (d : Z) (req : request) : K Z :=
  t ← gets tr;
  let block := u32 (Z.shiftr (u64 (Z.shiftl req.(rq_pos) 9)) t.(blkshift)) in
  match req.(rq_op) with
  | REQ_OP_FLUSH =>
      match ops.(tr_flush) with
      | Some flush => e ← flush d; mret (status_of e)
      | None => mret BLK_STS_OK
      end
  | REQ_OP_DISCARD | REQ_OP_WRITE_ZEROES =>
      match ops.(tr_discard) with
      | Some discard => e ← discard d block req.(rq_sectors); mret (status_of e)
      | None => mret BLK_STS_OK
      end
  | REQ_OP_READ =>
      serve_segments
        (fun block buf => match ops.(tr_readsect) with
                          | Some readsect => readsect d block buf
                          | None => mret 1
                          end) req.(rq_segs) block
  | REQ_OP_WRITE =>
      match ops.(tr_writesect) with
      | Some writesect => serve_segments (writesect d) req.(rq_segs) block
      | None => mret BLK_STS_IOERR
      end
  | REQ_OP_OTHER => mret BLK_STS_IOERR
  end.

Definition ntd_next_request (d : Z) : K (Datatypes.option request) :=
  x ← blk d;
  match x.(nbd).(rq_list) with
  | [] => mret None
  | rq :: rqs => upd_nbd d (set_rq_list rqs) ;; mret (Some rq)
  end.

Definition blk_mq_end_request (req : request) (res : Z) : K unit :=
  modify (fun k => set_ended (k.(ended) ++ [(req, res)]) k).

Definition serve (d : Z) (req : request) : K Z :=
  match ops.(tr_do_request) with
  | Some do_request => err ← do_request d req; mret (status_of err)
  | None => do_blktrans_request_fallback d req
  end.

(** One request per round; the queue's length bounds the rounds as long as
    nothing is queued meanwhile. *)
Definition ntd_blktrans_work (d : Z) : K unit :=
  x ← blk d;
  r ← while_ (R := unit) (S (length x.(nbd).(rq_list))) (fun _ => true)
        (fun _ =>
           req ← ntd_next_request d;
           match req with
           | None => mret (Break tt)
           | Some req =>
               mutex_unlock (QueueLock d) ;;
               mutex_lock (DevLock d) ;;
               res ← serve d req;
               mutex_unlock (DevLock d) ;;
               blk_mq_end_request req res ;;
               mutex_lock (QueueLock d) ;;
               mret (Next tt)
           end) tt;
  mret tt.
Definition ntd_blktrans_work_fn (d : Z) : K unit :=
  mutex_lock (QueueLock d) ;;
  ntd_blktrans_work d ;;
  mutex_unlock (QueueLock d).

(** [queue_work]: an item that is already pending is not queued again. *)
Definition queue_work (d : Z) : K unit :=
  q ← gets queues;
  modify (set_queues (if bool_decide (d ∈ q) then q else q ++ [d])).

Definition ntd_queue_rq (d : Z) (rq : request) : K Z :=
  if d =? 0 then mret BLK_STS_IOERR
  else
    mutex_lock (QueueLock d) ;;
    upd_nbd d (fun n => set_rq_list (n.(rq_list) ++ [rq]) n) ;;
    mutex_unlock (QueueLock d) ;;
    queue_work d ;;
    mret BLK_STS_OK.

(** ** Opening and closing *)
Definition blktrans_open (g : Z) : K Z :=
  d ← blktrans_dev_get g;
  if d =? 0 then mret (- ENXIO)
  else
    mutex_lock (DevLock d) ;;
    x ← blk d;
    upd_nbd d (fun n => set_open_count (s32 (n.(open_count) + 1)) n) ;;
    ret ← (if truthy x.(nbd).(open_count) then mret 0
           else
             kref_get d ;;
             module_get ;;
             ret ← match ops.(tr_open) with Some open => open d | None => mret 0 end;
             (if truthy ret then
                module_put ;;
                kref_put d blktrans_dev_release ;;
                upd_nbd d (fun n => set_open_count (s32 (n.(open_count) - 1)) n)
              else mret tt) ;;
             mret ret);
    mutex_unlock (DevLock d) ;;
    blktrans_dev_put d ;;
    mret ret.

Definition blktrans_release (g : Z) : K unit :=
  d ← blktrans_dev_get g;
  if d =? 0 then mret tt
  else
    mutex_lock (DevLock d) ;;
    upd_nbd d (fun n => set_open_count (s32 (n.(open_count) - 1)) n) ;;
    x ← blk d;
    (if truthy x.(nbd).(open_count) then mret tt
     else
       kref_put d blktrans_dev_release ;;
       module_put ;;
       match ops.(tr_release) with Some release => e ← release d; mret tt | None => mret tt end) ;;
    mutex_unlock (DevLock d) ;;
    blktrans_dev_put d.

Definition blktrans_getgeo (g : Z) : K Z :=
  d ← blktrans_dev_get g;
  if d =? 0 then mret (- ENXIO)
  else
    mutex_lock (DevLock d) ;;
    ret ← match ops.(tr_getgeo) with Some getgeo => getgeo d | None => mret 0 end;
    mutex_unlock (DevLock d) ;;
    blktrans_dev_put d ;;
    mret ret.

(** ** Adding and removing devices *)

(** Where a device with number [num] goes: before the first greater number.
    [None] when the number is taken, or is the greatest and has no minor. *)
Fixpoint place_in (num bound : Z) (before : list (Z * Z)) (new : Z) : Datatypes.option (list Z) :=
  match before with
  | [] => if bound <? num then None else Some [new]
  | (d, n) :: ds =>
      if n =? num then None
      else if num <? n then Some (new :: d :: map fst ds)
      else ds' ← place_in num bound ds new; Some (d :: ds')
  end.
Fixpoint with_numbers (ds : list Z) : K (list (Z * Z)) :=
  match ds with
  | [] => mret []
  | d :: ds => x ← blk d; l ← with_numbers ds; mret ((d, x.(nbd).(devnum)) :: l)
  end.

(** The steps of [add_ntd_blktrans_dev] after the list, each with the label it
    leaves by. *)
Definition err_list (new ret : Z) : K Z :=
  mutex_lock RefLock ;; list_del new ;; mutex_unlock RefLock ;; mret ret.
Definition err_set (new ret : Z) : K Z := upd_nbd new (set_tag_set 0) ;; err_list new ret.
Definition err_disk (new gd ret : Z) : K Z := put_disk gd ;; err_set new ret.

Definition new_disk (t : ntd_blktrans_tr) (new : Z) (n : ntd_blktrans_dev) : gendisk :=
  mk_gendisk new n.(nbd_size) (truthy n.(readonly)) t.(tr_major) (Z.shiftl n.(devnum) t.(part_bits))
    (Z.shiftl 1 t.(part_bits)) n.(nbd_name) false 1.

Definition start_disk (new : Z) : K Z :=
  t ← gets tr;
  gd ← new_object_err;
  if gd <? 0 then err_set new gd
  else
    upd_nbd new (set_disk gd) ;;
    x ← blk new;
    modify (fun k => set_disks (<[gd := new_disk t new x.(nbd)]> k.(disks)) k) ;;
    ret ← ask;
    if truthy ret then err_disk new gd ret
    else upd_disk gd (set_added true) ;; mret 0.

Definition start_tags (new : Z) : K Z :=
  set ← new_object;
  if set =? 0 then err_list new (- ENOMEM)
  else
    upd_nbd new (set_tag_set set) ;;
    ret ← ask;
    if truthy ret then err_set new ret else start_disk new.

Definition start_queue (new wq : Z) : K Z :=
  upd_nbd new (set_wq wq) ;;
  if wq =? 0 then err_list new (- ENOMEM)
  else
    (match ops.(tr_writesect) with
     | None => upd_nbd new (set_readonly 1)
     | Some _ => mret tt
     end) ;;
    start_tags new.

Definition start_dev (new : Z) : K Z :=
  upd_nbd new (fun n => set_kref 1 (set_rq_list [] n)) ;;
  wq ← new_object;
  start_queue new wq.

Definition add_ntd_blktrans_dev (new : Z) : K Z :=
  x ← blk new;
  mutex_lock RefLock ;;
  t ← gets tr;
  nums ← with_numbers t.(tr_devs);
  match place_in x.(nbd).(devnum) (Z.shiftr MINORMASK t.(part_bits)) nums new with
  | None => mutex_unlock RefLock ;; mret (- EBUSY)
  | Some devs =>
      upd_tr (set_tr_devs devs) ;;
      mutex_unlock RefLock ;;
      start_dev new
  end.

Definition del_ntd_blktrans_dev (old : Z) : K Z :=
  x ← blk old;
  upd_disk x.(nbd).(disk) (set_added false) ;;
  blktrans_dev_put old ;;
  mret 0.

(** ** Registering the translation layer *)
Definition register_ntd_blktrans (add_ntd : Z -> K unit) : K Z :=
  mutex_lock TableLock ;;
  ret ← ask;
  if ret <? 0 then mutex_unlock TableLock ;; mret ret
  else
    when_ (truthy ret) (upd_tr (set_tr_major ret)) ;;
    upd_tr (fun t => set_tr_listed true (set_tr_devs [] (set_blkshift (s32 (ffs t.(blksize) - 1)) t))) ;;
    r ← ntd_for_each_device (fun ntd l => add_ntd ntd ;; mret (Next l)) tt;
    mutex_unlock TableLock ;;
    mret 0.

Fixpoint remove_all (remove_dev : Z -> K unit) (ds : list Z) : K unit :=
  match ds with
  | [] => mret tt
  | d :: ds => remove_dev d ;; remove_all remove_dev ds
  end.
Definition deregister_ntd_blktrans (remove_dev : Z -> K unit) : K Z :=
  mutex_lock TableLock ;;
  upd_tr (set_tr_listed false) ;;
  t ← gets tr;
  remove_all remove_dev t.(tr_devs) ;;
  r ← ask;
  mutex_unlock TableLock ;;
  mret 0.
End BlkDevs.

(** ** The queue *)

(** What a device [d] needs of the layer that serves its requests, with the
    locks [hs] held outside: it answers, and leaves the queue, the answered
    requests and the locks alone. *)
Class Server {D F : Type} (ops : blktrans_ops D F) (d : Z) (hs : list lock)
    (P : kernel D F -> Prop) : Prop := {
  sv_serve : forall req k, P k -> k_held k = DevLock d :: hs ->
    wp (serve ops d req)
      (fun _ k' => P k' /\ k_held k' = k_held k /\ ended k' = ended k /\
         rq_list ∘ nbd <$> blks k' !! d = rq_list ∘ nbd <$> blks k !! d) noflt k;
  sv_held : forall k l, P k -> P (set_k_held l k);
  sv_ended : forall k e, P k -> P (set_ended e k);
  sv_queues : forall k q, P k -> P (set_queues q k);
  sv_queue : forall k x q, P k -> blks k !! d = Some x ->
    P (set_blks (<[d := set_nbd (set_rq_list q (nbd x)) x]> (blks k)) k)
}.

Section Queue.
Context {D F : Type} (ops : blktrans_ops D F) (d : Z) (hs : list lock) (P : kernel D F -> Prop)
  `{!Server ops d hs P}.
Implicit Types k : kernel D F.

Definition queue_of k : Datatypes.option (list request) := rq_list ∘ nbd <$> blks k !! d.
Definition free_locks : Prop := (QueueLock d ∉ hs) /\ (DevLock d ∉ hs).

(** One round takes the head of the queue and answers it. *)
Lemma wp_work_round k req rqs (Q : ctl unit unit -> kernel D F -> Prop) :
  free_locks -> P k -> k_held k = QueueLock d :: hs -> queue_of k = Some (req :: rqs) ->
  (forall res k', P k' -> k_held k' = QueueLock d :: hs -> queue_of k' = Some rqs ->
     ended k' = ended k ++ [(req, res)] -> Q (Next tt) k') ->
  wp (req ← ntd_next_request d;
      match req with
      | None => mret (Break tt)
      | Some req =>
          mutex_unlock (QueueLock d) ;;
          mutex_lock (DevLock d) ;;
          res ← serve ops d req;
          mutex_unlock (DevLock d) ;;
          blk_mq_end_request req res ;;
          mutex_lock (QueueLock d) ;;
          mret (Next tt)
      end) Q noflt k.
Proof.
  intros [Hq Hd] HP Hh Hqueue HQ. unfold queue_of in *.
  destruct (blks k !! d) as [x|] eqn:Hx; [|done]. injection Hqueue as Hrq.
  apply wp_bind, wp_bind, (wp_object _ _ x); [done|]. cbn in Hrq. rewrite Hrq.
  apply wp_bind, (wp_upd_blk _ _ x); [done|]. apply wp_ret, wp_bind.
  pose proof (sv_queue k x rqs HP Hx) as HP1. set (k1 := set_blks _ _) in *.
  eapply wp_mutex_unlock; [exact Hh | done|]. apply wp_bind, wp_mutex_lock; [done|].
  apply wp_bind. cbn. eapply wp_mono; [apply sv_serve; [by do 2 apply sv_held | done] | | done].
  intros res k2 (HP2 & Hh2 & He2 & Hq2). cbn in Hh2, He2, Hq2. rewrite lookup_insert_eq in Hq2.
  apply wp_bind. eapply wp_mutex_unlock; [exact Hh2 | done|].
  apply wp_bind, wp_modify, wp_bind, wp_mutex_lock; [done|]. apply wp_ret. cbn.
  apply (HQ res); [by apply sv_held, sv_ended, sv_held | done | done |]. cbn. by rewrite He2.
Qed.

Lemma wp_work_loop rqs k n :
  free_locks -> P k -> k_held k = QueueLock d :: hs -> queue_of k = Some rqs ->
  (length rqs < n)%nat ->
  wp (while_ (R := unit) n (fun _ => true)
        (fun _ =>
           req ← ntd_next_request d;
           match req with
           | None => mret (Break tt)
           | Some req =>
               mutex_unlock (QueueLock d) ;;
               mutex_lock (DevLock d) ;;
               res ← serve ops d req;
               mutex_unlock (DevLock d) ;;
               blk_mq_end_request req res ;;
               mutex_lock (QueueLock d) ;;
               mret (Next tt)
           end) tt)
    (fun _ k' => P k' /\ k_held k' = QueueLock d :: hs /\ queue_of k' = Some [] /\
       exists res, length res = length rqs /\ ended k' = ended k ++ zip rqs res) noflt k.
Proof.
  intros Hfree. revert k n. induction rqs as [|req rqs IH]; intros k n HP Hh Hq Hn;
    (destruct n as [|n]; [cbn in Hn; lia|]); cbn [while_]; apply wp_bind.
  - pose proof Hq as Hq'. unfold queue_of in Hq'. destruct (blks k !! d) as [x|] eqn:Hx; [|done].
    injection Hq' as Hrq. apply wp_bind, wp_bind, (wp_object _ _ x); [done|].
    cbn in Hrq. rewrite Hrq. do 3 apply wp_ret. split; [done|]. split; [done|]. split; [done|].
    exists []. by rewrite app_nil_r.
  - eapply wp_work_round; [done..|]. intros res k' HP' Hh' Hq' He'.
    eapply wp_mono; [apply IH; [done..|cbn in Hn; lia] | | done].
    intros _u k2 (HP2 & Hh2 & Hq2 & rs & Hrs & He2). split; [done|]. split; [done|]. split; [done|].
    exists (res :: rs). cbn. split; [by rewrite Hrs|]. rewrite He2, He', <- app_assoc. done.
Qed.

Fixpoint queue_all (rqs : list request) : kact D F unit :=
  match rqs with
  | [] => mret tt
  | rq :: rqs => r ← ntd_queue_rq d rq; queue_all rqs
  end.

Lemma wp_queue_all rqs k q0 :
  d <> 0 -> free_locks -> P k -> k_held k = hs -> queue_of k = Some q0 ->
  wp (queue_all rqs)
    (fun _ k' => P k' /\ k_held k' = hs /\ queue_of k' = Some (q0 ++ rqs) /\ ended k' = ended k)
    noflt k.
Proof.
  intros Hd0 Hfree. revert k q0. induction rqs as [|rq rqs IH]; intros k q0 HP Hh Hq.
  { apply wp_ret. by rewrite app_nil_r. }
  pose proof Hq as Hq'. unfold queue_of in Hq'. destruct (blks k !! d) as [x|] eqn:Hx; [|done].
  injection Hq' as Hrq. cbn in Hrq. cbn [queue_all]. apply wp_bind. unfold ntd_queue_rq.
  rewrite (proj2 (Z.eqb_neq _ _) Hd0).
  apply wp_bind, wp_mutex_lock; [rewrite Hh; apply Hfree|].
  apply wp_bind, (wp_upd_blk _ _ x); [done|]. apply wp_bind.
  eapply wp_mutex_unlock; [cbn; by rewrite Hh | apply Hfree|].
  apply wp_bind, wp_bind, wp_gets, wp_modify, wp_ret. cbn.
  match goal with |- wp _ _ _ ?k' => eapply wp_mono; [apply (IH k' (q0 ++ [rq])) | | done] end.
  - apply sv_queues, sv_held. eapply (sv_queue (set_k_held _ k)); [by apply sv_held | done].
  - done.
  - unfold queue_of. cbn. rewrite lookup_insert_eq. cbn. by rewrite Hrq.
  - intros _u k2 (? & ? & Hq2 & ?). rewrite <- app_assoc in Hq2. done.
Qed.

(** C5: requests that are queued one after the other behind those already
    waiting are answered by the device's work item, each exactly once and in
    that order; afterwards the queue is empty and no lock is left held. *)
Theorem requests_answered_in_order q0 rqs k :
  d <> 0 -> free_locks -> P k -> k_held k = hs -> queue_of k = Some q0 ->
  wp (queue_all rqs ;; ntd_blktrans_work_fn ops d)
    (fun _ k' => queue_of k' = Some [] /\ k_held k' = hs /\
       exists res, length res = length (q0 ++ rqs) /\
         ended k' = ended k ++ zip (q0 ++ rqs) res) noflt k.
Proof.
  intros Hd0 Hfree HP Hh Hq. apply wp_bind.
  eapply wp_mono; [by apply wp_queue_all | | done].
  intros _u k1 (HP1 & Hh1 & Hq1 & He1). apply wp_bind, wp_mutex_lock; [rewrite Hh1; apply Hfree|].
  apply wp_bind. pose proof Hq1 as Hq1'. unfold queue_of in Hq1'.
  destruct (blks k1 !! d) as [x|] eqn:Hx; [|done]. injection Hq1' as Hrq.
  apply wp_bind, (wp_object _ _ x); [done|]. apply wp_bind.
  eapply wp_mono; [apply (wp_work_loop (q0 ++ rqs)) | | done].
  - done.
  - by apply sv_held.
  - cbn. by rewrite Hh1.
  - done.
  - cbn in Hrq. rewrite Hrq. lia.
  - intros r k2 (HP2 & Hh2 & Hq2 & res & Hres & He2). apply wp_ret.
    eapply wp_mutex_unlock; [exact Hh2 | apply Hfree|].
    split; [done|]. split; [done|]. exists res. split; [done|]. cbn. rewrite He2. cbn. by rewrite He1.
Qed.
End Queue.

(** ** Adding a device *)
Section AddDev.
Context {D F : Type} (ops : blktrans_ops D F) (new : Z).
Implicit Types k : kernel D F.

(** What adding a device leaves alone of everything, and of the device. *)
Definition bystanders k :=
  (w_mem (k_world k), infos k, ntd_idr k, ntd_partitions k, nftl_devs k, notifiers k, nftl_num k,
   dev_num k, k_held k, queues k, ended k).
Definition shape (x : aml_nftl_blk) :=
  (blk_name x, blk_offset x, blk_size x, blk_nftl_dev x, blk_lock x, devnum (nbd x),
   nbd_size (nbd x), nbd_ntd (nbd x), nbd_name (nbd x)).

(** [k'] is [k] with the devices [devs] on the list and [new] dressed up. *)
Record dressed (devs : list Z) k k' : Prop := {
  dr_rest : bystanders k' = bystanders k;
  dr_tr : tr k' = set_tr_devs devs (tr k);
  dr_next : 0 < k_next k <= k_next k';
  dr_blk : exists x x', blks k !! new = Some x /\ blks k' = <[new := x']> (blks k) /\
             shape x' = shape x
}.

(** The device is out of the list again, and there is no disk. *)
Definition undone (devs : list Z) k k' : Prop :=
  dressed devs k k' /\ disks k' = disks k /\
  (exists x', blks k' !! new = Some x' /\ tag_set (nbd x') = 0).
Definition started (devs : list Z) k k' : Prop :=
  dressed devs k k' /\
  exists x' g d, blks k' !! new = Some x' /\ disks k' = <[g := d]> (disks k) /\
    disk (nbd x') = g /\ private_data d = new /\ capacity d = nbd_size (nbd x') /\ added d = true /\
    kref (nbd x') = 1 /\ disks k !! g = None /\
    g < k_next k'.

Lemma dressed_upd devs k k1 x f :
  dressed devs k k1 -> blks k1 !! new = Some x -> (forall n, shape (set_nbd (f n) x) = shape (set_nbd n x)) ->
  dressed devs k (set_blks (<[new := set_nbd (f (nbd x)) x]> (blks k1)) k1).
Proof.
  intros [H1 H2 H3 (x0 & x1 & Hx0 & Hb & Hs)] Hx Hf. split; try done.
  exists x0, (set_nbd (f (nbd x)) x). split; [done|]. cbn. rewrite Hb in Hx |- *.
  rewrite lookup_insert_eq in Hx. injection Hx as ->. rewrite insert_insert_eq. split; [done|].
  rewrite Hf, <- Hs. by destruct x.
Qed.

(** Only the memory of the driver's world is looked at. *)
Lemma dressed_world devs k k1 w n :
  dressed devs k k1 -> w_mem w = w_mem (k_world k1) -> k_next k1 <= n ->
  dressed devs k (set_k_next n (set_k_world w k1)).
Proof.
  intros [H1 H2 H3 H4] Hw Hn. split; try done; [|cbn; lia].
  rewrite <- H1. unfold bystanders. cbn. by rewrite Hw.
Qed.
Lemma dressed_asked devs k k1 w :
  dressed devs k k1 -> w_mem w = w_mem (k_world k1) -> dressed devs k (set_k_world w k1).
Proof. intros H Hw. by apply (dressed_world devs k k1 w (k_next k1) H Hw (Z.le_refl _)). Qed.

Lemma dressed_new devs k k1 : dressed devs k k1 -> exists x, blks k1 !! new = Some x.
Proof. intros [_ _ _ (x0 & x1 & _ & -> & _)]. rewrite lookup_insert_eq. eauto. Qed.

Lemma filter_out (l1 l2 : list Z) :
  new ∉ l1 ++ l2 -> filter (fun d => d <> new) (l1 ++ new :: l2) = l1 ++ l2.
Proof.
  intros H. rewrite filter_app, filter_cons_False by congruence.
  assert (forall l : list Z, new ∉ l -> filter (fun d => d <> new) l = l) as Hid.
  { induction l as [|x l IH]; [done|]. intros [Hx Hl]%not_elem_of_cons.
    by rewrite filter_cons_True, IH. }
  apply not_elem_of_app in H as [H1 H2]. by rewrite !Hid.
Qed.

Section Steps.
Context (l1 l2 : list Z) (Hnew : new ∉ l1 ++ l2).
Let devs : list Z := l1 ++ new :: l2.

Lemma wp_err_list k k1 r :
  dressed devs k k1 -> RefLock ∉ k_held k -> disks k1 = disks k ->
  (exists x', blks k1 !! new = Some x' /\ tag_set (nbd x') = 0) -> r <> 0 ->
  wp (err_list new r) (fun r' k' => r' <> 0 /\ undone (l1 ++ l2) k k') noflt k1.
Proof.
  intros Hk Hl Hd Ht Hr. destruct Hk as [H1 H2 H3 H4]. assert (k_held k1 = k_held k) as Hh
    by (unfold bystanders in H1; congruence).
  apply wp_bind, wp_mutex_lock; [by rewrite Hh|]. apply wp_bind, wp_bind, wp_gets.
  cbn. rewrite H2. cbn. rewrite bool_decide_eq_true_2
    by (apply elem_of_app; right; apply elem_of_cons; by left).
  apply wp_modify, wp_bind. eapply wp_mutex_unlock; [done | by rewrite Hh|]. apply wp_ret. cbn.
  split; [done|]. split; [|done]. split; cbn; try done.
  rewrite H2. unfold set_tr_devs, devs. cbn. by rewrite filter_out.
Qed.

Lemma wp_err_set k k1 r :
  dressed devs k k1 -> RefLock ∉ k_held k -> disks k1 = disks k -> r <> 0 ->
  wp (err_set new r) (fun r' k' => r' <> 0 /\ undone (l1 ++ l2) k k') noflt k1.
Proof.
  intros Hk Hl Hd Hr. destruct (dressed_new _ _ _ Hk) as [x Hx].
  apply wp_bind, (wp_upd_blk _ _ x); [done|].
  apply wp_err_list; [by apply (dressed_upd devs k k1 x (set_tag_set 0)) | done | done | | done].
  cbn. rewrite lookup_insert_eq. eauto.
Qed.

Lemma wp_start_disk k k1 :
  dressed devs k k1 -> RefLock ∉ k_held k -> disks k1 = disks k ->
  (forall g d, disks k !! g = Some d -> g < k_next k) ->
  (exists x', blks k1 !! new = Some x' /\ kref (nbd x') = 1) ->
  wp (start_disk new)
    (fun r k' => (r = 0 /\ started devs k k') \/ (r <> 0 /\ undone (l1 ++ l2) k k')) noflt k1.
Proof.
  intros Hk Hl Hd Hold (x & Hx & Hkref). apply wp_bind, wp_gets, wp_bind, wp_new_object_err_mem.
  { intros r w Hr Hw. rewrite (proj2 (Z.ltb_lt _ _) Hr).
    eapply wp_mono; [apply wp_err_set; [by apply dressed_asked | done | done | lia] | by right | done]. }
  intros w Hw. pose proof (dr_next _ _ _ Hk) as Hn.
  rewrite (proj2 (Z.ltb_ge (k_next k1) 0)) by lia. set (g := k_next k1) in *.
  assert (disks k !! g = None) as Hg.
  { destruct (disks k !! g) as [d|] eqn:E; [|done]. specialize (Hold g d E). unfold g in *. lia. }
  pose proof (dressed_world devs k k1 w (g + 1) Hk Hw ltac:(lia)) as Hk2.
  apply wp_bind, (wp_upd_blk _ _ x); [done|].
  pose proof (dressed_upd devs k _ x (set_disk g) Hk2 Hx (fun _ => eq_refl)) as Hk3.
  apply wp_bind, (wp_object _ _ (set_nbd (set_disk g (nbd x)) x)); [apply lookup_insert_eq|].
  apply wp_bind, wp_modify, wp_bind, wp_ask_mem. intros r w2 Hw2.
  set (k4 := set_disks _ _) in *.
  assert (dressed devs k k4) as Hk4 by (destruct Hk3; by split).
  assert (disks k4 = <[g := new_disk (tr k1) new (set_disk g (nbd x))]> (disks k)) as Hd4
    by (unfold k4; cbn; by rewrite Hd).
  destruct (truthy_cases r) as [[-> ->]|[Hr ->]].
  - apply wp_bind, (wp_upd_disk _ _ (new_disk (tr k1) new (set_disk g (nbd x))));
      [cbn; rewrite Hd; apply lookup_insert_eq|]. apply wp_ret. left. split; [done|].
    split; [destruct (dressed_asked _ _ _ _ Hk4 Hw2); by split|].
    do 3 eexists. split; [apply lookup_insert_eq|]. cbn. rewrite Hd, insert_insert_eq. split_and!; try done. unfold g. lia.
  - apply wp_bind. unfold put_disk. rewrite (proj2 (Z.eqb_neq g 0)) by (unfold g; lia).
    apply wp_bind, (wp_object _ _ (new_disk (tr k1) new (set_disk g (nbd x))));
      [cbn; rewrite Hd; apply lookup_insert_eq|]. apply wp_modify.
    eapply wp_mono; [apply wp_err_set; [| done | | done] | by right | done].
    + destruct (dressed_asked _ _ _ _ Hk4 Hw2); by split.
    + cbn. rewrite Hd. by apply delete_insert_id.
Qed.

(** The device as it is between the steps: no tag set yet, one reference. *)
Definition fresh_dev k := exists x, blks k !! new = Some x /\ tag_set (nbd x) = 0 /\ kref (nbd x) = 1.
Definition outcome_of k r k' : Prop :=
  (r = 0 /\ started devs k k') \/ (r <> 0 /\ undone (l1 ++ l2) k k').

Lemma fresh_tag k : fresh_dev k -> exists x', blks k !! new = Some x' /\ tag_set (nbd x') = 0.
Proof. intros (x & ? & ? & _). eauto. Qed.

Lemma wp_start_tags k k1 :
  dressed devs k k1 -> RefLock ∉ k_held k -> disks k1 = disks k ->
  (forall g d, disks k !! g = Some d -> g < k_next k) -> fresh_dev k1 ->
  wp (start_tags new) (outcome_of k) noflt k1.
Proof.
  intros Hk Hl Hd Hold Hf. pose proof (dr_next _ _ _ Hk) as Hn.
  apply wp_bind, wp_new_object_mem; [lia|..]; intros w Hw.
  { eapply wp_mono; [apply wp_err_list; [by apply dressed_asked | done | done | by apply fresh_tag | discriminate]
      | by right | done]. }
  destruct Hf as (x & Hx & Htag & Href). rewrite (proj2 (Z.eqb_neq _ _)) by lia.
  apply wp_bind, (wp_upd_blk _ _ x); [done|].
  pose proof (dressed_world devs k k1 w (k_next k1 + 1) Hk Hw ltac:(lia)) as Hk2.
  pose proof (dressed_upd devs k _ x (set_tag_set (k_next k1)) Hk2 Hx (fun _ => eq_refl)) as Hk3.
  apply wp_bind, wp_ask_mem. intros r w2 Hw2. pose proof (dressed_asked _ _ _ _ Hk3 Hw2) as Hk4.
  destruct (truthy_cases r) as [[-> ->]|[Hr ->]].
  - apply wp_start_disk; [exact Hk4 | done | exact Hd | done |].
    cbn. rewrite lookup_insert_eq. eauto.
  - eapply wp_mono; [apply wp_err_set; [exact Hk4 | done | exact Hd | done] | by right | done].
Qed.

Lemma wp_start_queue k k1 wq :
  dressed devs k k1 -> RefLock ∉ k_held k -> disks k1 = disks k ->
  (forall g d, disks k !! g = Some d -> g < k_next k) -> fresh_dev k1 ->
  wp (start_queue ops new wq) (outcome_of k) noflt k1.
Proof.
  intros Hk Hl Hd Hold (x & Hx & Ht & Hr). apply wp_bind, (wp_upd_blk _ _ x); [done|].
  pose proof (dressed_upd devs k k1 x (set_wq wq) Hk Hx (fun _ => eq_refl)) as Hk2.
  set (k2 := set_blks _ _) in *. set (x2 := set_nbd (set_wq wq (nbd x)) x) in *.
  assert (blks k2 !! new = Some x2) as Hx2 by apply lookup_insert_eq.
  assert (fresh_dev k2) as Hf2 by (exists x2; done).
  destruct (wq =? 0).
  { eapply wp_mono; [apply wp_err_list; [done | done | done | by apply fresh_tag | discriminate]
      | by right | done]. }
  apply wp_bind. destruct (tr_writesect ops); [by apply wp_ret, wp_start_tags|].
  apply (wp_upd_blk _ _ x2); [done|]. apply wp_start_tags; [|done..|].
  - exact (dressed_upd devs k k2 x2 (set_readonly 1) Hk2 Hx2 (fun _ => eq_refl)).
  - exists (set_nbd (set_readonly 1 (nbd x2)) x2). split; [apply lookup_insert_eq | done].
Qed.

Lemma wp_start_dev k k1 :
  dressed devs k k1 -> RefLock ∉ k_held k -> disks k1 = disks k ->
  (forall g d, disks k !! g = Some d -> g < k_next k) ->
  (exists x', blks k1 !! new = Some x' /\ tag_set (nbd x') = 0) ->
  wp (start_dev ops new) (outcome_of k) noflt k1.
Proof.
  intros Hk Hl Hd Hold (x & Hx & Htag). apply wp_bind, (wp_upd_blk _ _ x); [done|].
  set (f := fun n => set_kref 1 (set_rq_list [] n)).
  pose proof (dressed_upd devs k k1 x f Hk Hx (fun _ => eq_refl)) as Hk2.
  set (k2 := set_blks _ _) in *. pose proof (dr_next _ _ _ Hk2) as Hn.
  assert (fresh_dev k2) as Hf2 by (exists (set_nbd (f (nbd x)) x); split; [apply lookup_insert_eq | done]).
  apply wp_bind, wp_new_object_mem; [lia|..]; intros w Hw; apply wp_start_queue; try done.
  - by apply dressed_asked.
  - apply dressed_world; [done | done | lia].
Qed.
End Steps.

(** *** The place in the list *)
Definition number k (d : Z) : Datatypes.option Z := devnum ∘ nbd <$> blks k !! d.

Lemma place_in_spec num bound (before : list (Z * Z)) ds :
  place_in num bound before new = Some ds ->
  exists l1 l2, before = l1 ++ l2 /\ ds = map fst l1 ++ new :: map fst l2 /\
    Forall (fun p => p.2 < num) l1 /\
    match l2 with [] => num <= bound | p :: _ => num < p.2 end.
Proof.
  revert ds. induction before as [|[d n] before IH]; intros ds; cbn.
  - destruct (Z.ltb_spec bound num); [done|]. intros [= <-]. by exists [], [].
  - destruct (Z.eqb_spec n num); [done|]. destruct (Z.ltb_spec num n).
    + intros [= <-]. by exists [], ((d, n) :: before).
    + destruct (place_in num bound before new) as [ds'|]; [|done]. intros [= <-].
      destruct (IH ds' eq_refl) as (l1 & l2 & -> & -> & Hl & Hr).
      exists ((d, n) :: l1), l2. split; [done|]. split; [done|]. split; [|done].
      constructor; [cbn; lia | done].
Qed.

Lemma wp_with_numbers ds k (Q : list (Z * Z) -> kernel D F -> Prop) E :
  (forall d, d ∈ ds -> exists x, blks k !! d = Some x) ->
  (forall l, map fst l = ds -> Forall (fun p => number k p.1 = Some p.2) l -> Q l k) ->
  wp (with_numbers ds) Q E k.
Proof.
  revert Q. induction ds as [|d ds IH]; intros Q Hds HQ; [by apply wp_ret, HQ|].
  destruct (Hds d) as [x Hx]; [apply elem_of_cons; by left|].
  apply wp_bind, (wp_object _ _ x); [done|]. apply wp_bind, IH.
  - intros d' H. apply Hds, elem_of_cons. by right.
  - intros l Hl Hn. apply wp_ret, HQ; [cbn; by rewrite Hl|]. constructor; [|done].
    unfold number. cbn. by rewrite Hx.
Qed.

Lemma wp_add_dev x k :
  blks k !! new = Some x -> tag_set (nbd x) = 0 -> new ∉ tr_devs (tr k) ->
  (forall d, d ∈ tr_devs (tr k) -> exists y, blks k !! d = Some y) ->
  0 < k_next k -> (forall g d, disks k !! g = Some d -> g < k_next k) -> RefLock ∉ k_held k ->
  wp (add_ntd_blktrans_dev ops new)
    (fun r k' =>
       (r = 0 /\ exists l1 l2, tr_devs (tr k) = l1 ++ l2 /\ started (l1 ++ new :: l2) k k' /\
          (forall d, d ∈ l1 -> exists n, number k d = Some n /\ n < devnum (nbd x)) /\
          (forall d, head l2 = Some d -> exists n, number k d = Some n /\ devnum (nbd x) < n)) \/
       (r <> 0 /\ undone (tr_devs (tr k)) k k')) noflt k.
Proof.
  intros Hx Htag Hnew Hall Hnext Hold Hl.
  assert (forall ds, dressed ds k (set_k_held (k_held k) (set_tr (set_tr_devs ds (tr k)) k))) as Hdr.
  { intros ds. split; try done. exists x, x. by rewrite insert_id. }
  apply wp_bind, (wp_object _ _ x); [done|]. apply wp_bind, wp_mutex_lock; [done|].
  apply wp_bind, wp_gets, wp_bind, wp_with_numbers; [done|]. cbn. intros l Hfst Hnum.
  destruct (place_in _ _ l new) as [ds|] eqn:Hplace.
  - destruct (place_in_spec _ _ _ _ Hplace) as (l1 & l2 & -> & -> & Hl1 & Hl2).
    rewrite map_app in Hfst. apply Forall_app in Hnum as [Hn1 Hn2].
    apply wp_bind, wp_modify, wp_bind. eapply wp_mutex_unlock; [done | done|]. cbn.
    pose proof (Hdr (map fst l1 ++ new :: map fst l2)) as Hk.
    eapply wp_mono; [apply (wp_start_dev (map fst l1) (map fst l2)); [by rewrite Hfst | exact Hk | done | done | done | by exists x] | | done].
    intros r k' [[-> Hs]|[Hr Hu]]; [left; split; [done|] | right; by rewrite <- Hfst].
    exists (map fst l1), (map fst l2). split; [done|]. split; [done|]. split.
    + intros d (p & -> & Hp)%list_elem_of_fmap. exists p.2.
      split; [by eapply (proj1 (Forall_forall _ _) Hn1) | by eapply (proj1 (Forall_forall _ _) Hl1)].
    + intros d Hd. destruct l2 as [|p l2]; [done|]. injection Hd as <-. exists p.2.
      split; [by inversion Hn2 | done].
  - apply wp_bind. eapply wp_mutex_unlock; [done | done|]. apply wp_ret. right. split; [done|].
    split; [|split; [done | by exists x]].
    split; [done | by destruct k as [? ? ? ? ? ? ? ? ? ? ? ? ? []] | done | exists x, x; by rewrite insert_id].
Qed.

(** *** The list is sorted *)
Definition in_order k (ds : list Z) : Prop :=
  exists ns, Forall2 (fun d n => number k d = Some n) ds ns /\ StronglySorted Z.lt ns.

Lemma sorted_insert (n : Z) l1 l2 :
  StronglySorted Z.lt (l1 ++ l2) -> Forall (fun m => m < n) l1 ->
  (forall m, head l2 = Some m -> n < m) -> StronglySorted Z.lt (l1 ++ n :: l2).
Proof.
  induction l1 as [|m l1 IH]; cbn; intros Hs Hl Hr.
  - constructor; [done|]. destruct l2 as [|m l2]; [constructor|].
    specialize (Hr m eq_refl). inversion Hs as [|? ? _ Hm]; subst.
    constructor; [done|]. eapply List.Forall_impl; [|exact Hm]. cbn. lia.
  - inversion Hs as [|? ? Hs' Hm]; subst. apply Forall_cons in Hl as [Hmn Hl].
    constructor; [by apply IH|]. apply Forall_app in Hm as [H1 H2]. apply Forall_app. split; [done|].
    constructor; [done|]. destruct l2 as [|m' l2]; [constructor|].
    specialize (Hr m' eq_refl). apply Forall_cons in H2 as [H2 H3]. constructor; [done|].
    eapply List.Forall_impl; [|exact H3]. cbn. lia.
Qed.

Lemma number_dressed ds k k' d : dressed ds k k' -> number k' d = number k d.
Proof.
  intros [_ _ _ (x & x' & Hx & Hb & Hs)]. unfold number. rewrite Hb.
  destruct (decide (new = d)) as [<-|Hne]; [|by rewrite lookup_insert_ne].
  rewrite lookup_insert_eq, Hx. cbn. f_equal. unfold shape in Hs. congruence.
Qed.

(** C31: adding a block device keeps the list sorted by number, without
    repetition, and is all or nothing: either it answers 0 and the device is on
    the list, with one reference and a disk of its size; or it answers an error
    and the list and the disks are what they were.  Only the new device changes
    either way, and no lock is left held. *)
Theorem add_dev_all_or_nothing x k :
  blks k !! new = Some x -> tag_set (nbd x) = 0 -> new ∉ tr_devs (tr k) ->
  in_order k (tr_devs (tr k)) ->
  0 < k_next k -> (forall g d, disks k !! g = Some d -> g < k_next k) -> RefLock ∉ k_held k ->
  wp (add_ntd_blktrans_dev ops new)
    (fun r k' => in_order k' (tr_devs (tr k')) /\ k_held k' = k_held k /\
       (forall d, d <> new -> blks k' !! d = blks k !! d) /\
       ((r = 0 /\ (forall d, d ∈ tr_devs (tr k') <-> d = new \/ d ∈ tr_devs (tr k)) /\
           started (tr_devs (tr k')) k k') \/
        (r <> 0 /\ tr_devs (tr k') = tr_devs (tr k) /\ disks k' = disks k))) noflt k.
Proof.
  intros Hx Htag Hnew (ns & Hns & Hsort) Hnext Hold Hl.
  eapply wp_mono; [apply (wp_add_dev x k); try done | | done].
  { intros d Hd. apply list_elem_of_lookup in Hd as [j Hj].
    destruct (Forall2_lookup_l _ _ _ _ _ Hns Hj) as (n & _ & Hn). unfold number in Hn.
    destruct (blks k !! d); [eauto | done]. }
  intros r k' Hcase.
  assert (forall ds, dressed ds k k' -> k_held k' = k_held k /\ tr_devs (tr k') = ds /\
    forall d, d <> new -> blks k' !! d = blks k !! d) as Hdr.
  { intros ds [H1 H2 _ (y & y' & _ & H4 & _)]. unfold bystanders in H1. split; [congruence|].
    rewrite H2, H4. split; [done|]. intros d Hd. by rewrite lookup_insert_ne. }
  destruct Hcase as [(-> & l1 & l2 & El & Hst & H1 & H2)|(Hr & Hk & Hd & _)].
  - destruct (Hdr _ (proj1 Hst)) as (Hh & Et & Hb). rewrite Et. split; [|split; [done|split; [done|left]]].
    + rewrite El in Hns. apply Forall2_app_inv_l in Hns as (n1 & n2 & Hn1 & Hn2 & ->).
      exists (n1 ++ devnum (nbd x) :: n2). split.
      * apply Forall2_app; [|constructor]; [| |];
          try (eapply Forall2_impl; [eassumption|]; cbn; intros; by rewrite (number_dressed _ _ _ _ (proj1 Hst))).
        rewrite (number_dressed _ _ _ _ (proj1 Hst)). unfold number. by rewrite Hx.
      * apply sorted_insert; [done | |].
        -- apply Forall_lookup. intros j n Hj.
           destruct (Forall2_lookup_r _ _ _ _ _ Hn1 Hj) as (d & Hd & Hn).
           destruct (H1 d) as (n' & Hn' & ?); [by eapply list_elem_of_lookup_2|]. congruence.
        -- intros m Hm. destruct n2 as [|m' n2]; [done|]. injection Hm as <-.
           inversion Hn2 as [|d ? ds ? Hd _]; subst. destruct (H2 d eq_refl) as (n' & ? & ?). congruence.
    + split; [done|]. split; [|done]. intros d. rewrite El, !elem_of_app, elem_of_cons. tauto.
  - destruct (Hdr _ Hk) as (Hh & Et & Hb). rewrite Et. split; [|split; [done|split; [done|by right]]].
    exists ns. split; [|done]. eapply Forall2_impl; [exact Hns|]. cbn. intros d n Hn.
    by rewrite (number_dressed _ _ _ _ Hk).
Qed.
End AddDev.

(** ** Two devices in the wrong order *)
Module AddWitness.
Definition fns : blktrans_ops unit unit :=
  mk_blktrans_ops unit unit None None None None None None None None.
Definition dev (num : Z) : aml_nftl_blk := mk_blk (mk_nbd num 60 0 0 1 0 0 1 0 [] []) [] 0 0 0 false None.
(** Number 7 is on the list, number 5 is new. *)
Definition k0 : kernel unit unit :=
  mk_kernel (world0 tt) tt [] 20 [] ∅ ∅ [] ∅ 1 false [] 0
    (mk_tr AML_NFTL_MAJOR 0 512 9 [3] true) {[ 3 := dev 7; 4 := dev 5 ]} ∅ [] [] 0 ∅ [] 0 0.

Example add_dev_runs :
  match add_ntd_blktrans_dev fns 4 k0 with
  | Done r k => r = 0 /\ tr_devs (tr k) = [4; 3] /\
      disks k !! 22 = Some (mk_gendisk 4 60 true AML_NFTL_MAJOR 5 1 [] true 1)
  | Fault _ _ => False
  end.
Proof. vm_compute. done. Qed.

Example add_dev_all_or_nothing_witness :
  wp (add_ntd_blktrans_dev fns 4)
    (fun r k' => in_order k' (tr_devs (tr k')) /\ k_held k' = [] /\
       (forall d, d <> 4 -> blks k' !! d = blks k0 !! d) /\
       ((r = 0 /\ (forall d, d ∈ tr_devs (tr k') <-> d = 4 \/ d ∈ [3]) /\
           started 4 (tr_devs (tr k')) k0 k') \/
        (r <> 0 /\ tr_devs (tr k') = [3] /\ disks k' = ∅))) noflt k0.
Proof.
  apply (add_dev_all_or_nothing fns 4 (dev 5) k0); try reflexivity; cbn.
  - by intros H%list_elem_of_singleton.
  - exists [7]. split; [repeat constructor | repeat constructor].
  - intros g d H. rewrite lookup_empty in H. discriminate.
  - apply not_elem_of_nil.
Defined.
End AddWitness.
