(* ===== verification/Nftl.v ===== *)
(** * Nftl: [block/aml_nftl_hw_interface.c], [block/aml_nftl_init.c] and
    [block/aml_nftl_block.c], between the block devices and the flash
    translation layer.

    The translation layer itself is an object file the driver is linked with:
    the class [Ftl].  Its devices serve the block devices cut out of one NTD
    device, under one mutex, and call the flash back through the functions of
    the first section. *)
From S2P Require Import Prelude NfcWords Data Machine Guards Ctrl HwController ChipOp ChipEnv PhyDev PhyStore LogicData Ntd BlkDevs.

(** ** Constants of [block/aml_nftl_cfg.h] and [include/amlnf_cfg.h] *)
Definition MIN_BYTES_OF_USER_PER_PAGE : Z := 16.
Definition NFTL_DONT_CACHE_DATA : Z := 0.
Definition SUPPORT_GC_READ_RECLAIM : Z := 0.
Definition SUPPORT_WEAR_LEVELING : Z := 0.
Definition NFTL_ERASE : Z := 0.
Definition MIN_FREE_BLOCK_NUM : Z := 6.
Definition GC_THRESHOLD_FREE_BLOCK_NUM : Z := 4.
Definition MIN_FREE_BLOCK : Z := 5.
Definition GC_THRESHOLD_RATIO_NUMERATOR : Z := 2.
Definition GC_THRESHOLD_RATIO_DENOMINATOR : Z := 3.
Definition MAX_CACHE_WRITE_NUM : Z := 4.
Definition NFTL_FLUSH_DATA_TIME : Z := 1.
Definition EPERM : Z := 1.
Definition ALL_ONES_64 : Z := 2 ^ 64 - 1.

(** [NAND_ADJUST_PART_TABLE] is defined. *)
Definition is_phydev_off_adjust : Z := 1.
Definition get_adjust_block_num : Z := ADJUST_BLOCK_NUM.

(** The functions of the translation layer the driver calls; [part] is its own
    object, which [aml_nftl_start] answers with its result. *)
Class Ftl (D F : Type) := {
  aml_nftl_start : Z -> list Z -> ntd_info -> Z -> Z -> kact D F (Z * Z);
  aml_nftl_set_status : Z -> Z -> kact D F unit;
  aml_nftl_get_part_cap : Z -> kact D F Z;
  aml_nftl_get_part_priv : Z -> kact D F Z;
  aml_nftl_add_part_total_read : Z -> kact D F unit;
  aml_nftl_add_part_total_write : Z -> kact D F unit;
  aml_nftl_get_part_write_cache_nums : Z -> kact D F Z;
  aml_nftl_erase_part : Z -> kact D F Z;
  garbage_collect : Z -> kact D F Z;
  do_prio_gc : Z -> kact D F Z;
  __nand_read : Z -> Z -> Z -> ptr -> kact D F Z;
  __nand_write : Z -> Z -> Z -> ptr -> Z -> kact D F Z;
  __nand_discard : Z -> Z -> Z -> Z -> kact D F Z;
  __nand_flush_write_cache : Z -> kact D F Z;
  __nand_flush_discard_cache : Z -> kact D F Z;
  __nand_write_pair_page : Z -> kact D F Z;
  __check_mapping : Z -> Z -> Z -> kact D F Z;
  __discard_partition : Z -> Z -> Z -> kact D F Z
}.

(** [_physic_op_par]: a page of the flash as the translation layer names it. *)
Record physic_op_par := mk_par {
  Page_NO : Z;
  blkNO_in_chip : Z;
  main_data_addr : ptr;
  spare_data_addr : ptr
}.

Section Nftl.
Context {D F : Type} `{!NandHw D} `{!ChipOperation D} `{Fo : !Ftl D F}.
Abbreviation K := (kact D F).

(** ** What the translation layer calls: [aml_nftl_hw_interface.c] *)
Definition ntd_of_part (part : Z) : K Z :=
  n ← aml_nftl_get_part_priv part; d ← nftl n; mret d.(nftl_ntd).

(** [from]: the number of the page, in a [loff_t]. *)
Definition page_from (i : ntd_info) (p : physic_op_par) : Z :=
  Z.shiftr (u64 (Z.shiftl p.(blkNO_in_chip) i.(ntd_blocksize_shift))) i.(ntd_pagesize_shift)
  + p.(Page_NO).

Definition nand_erase_superblk (part : Z) (p : physic_op_par) : K Z :=
  n ← ntd_of_part part; part_erase n p.(blkNO_in_chip).
Definition nand_read_page (part : Z) (p : physic_op_par) : K Z :=
  n ← ntd_of_part part;
  i ← info n;
  aml_nftl_add_part_total_read part ;;
  ret ← read_page_with_oob n (u32 (page_from i p)) p.(spare_data_addr) p.(main_data_addr);
  mret (if negb (ret =? 0) && negb (ret =? - EUCLEAN) then - EBADMSG else ret).
Definition nand_write_page (part : Z) (p : physic_op_par) : K Z :=
  n ← ntd_of_part part;
  i ← info n;
  aml_nftl_add_part_total_write part ;;
  write_page_with_oob n (u32 (page_from i p)) p.(spare_data_addr) p.(main_data_addr).
Definition nand_is_blk_good (part : Z) (p : physic_op_par) : K Z :=
  n ← ntd_of_part part;
  ret ← part_block_isbad n p.(blkNO_in_chip);
  mret (if ret =? 0 then RET_YES else if ret =? 1 then 100 else ret).
(** The result goes into an [unsigned char]. *)
Definition nand_mark_bad_blk (part : Z) (p : physic_op_par) : K Z :=
  n ← ntd_of_part part;
  ret ← part_block_markbad n p.(blkNO_in_chip);
  mret (if u8 ret =? 0 then 0 else 1).

(** ** [aml_nftl_init.c] *)
Definition _nand_read (n start_sector len : Z) (buf : ptr) : K Z :=
  d ← nftl n; __nand_read d.(aml_nftl_part) start_sector len buf.
Definition stamp (n : Z) : K unit := t ← ask; upd_nftl n (set_ts_write_start t).
Definition _nand_write (n start_sector len : Z) (buf : ptr) : K Z :=
  d ← nftl n;
  ret ← __nand_write d.(aml_nftl_part) start_sector len buf d.(sync_flag);
  stamp n ;;
  mret ret.
Definition _nand_discard (n start_sector len : Z) : K Z :=
  d ← nftl n;
  ret ← __nand_discard d.(aml_nftl_part) start_sector len d.(sync_flag);
  stamp n ;;
  mret ret.
Definition _nand_flush_write_cache (n : Z) : K Z :=
  d ← nftl n; __nand_flush_write_cache d.(aml_nftl_part).
Definition _nand_flush_discard_cache (n : Z) : K Z :=
  d ← nftl n; __nand_flush_discard_cache d.(aml_nftl_part).
Definition _nand_write_pair_page (n : Z) : K Z :=
  d ← nftl n; __nand_write_pair_page d.(aml_nftl_part).
Definition _check_mapping (n offset size : Z) : K Z :=
  d ← nftl n; __check_mapping d.(aml_nftl_part) offset size.
Definition _discard_partition (n offset size : Z) : K Z :=
  d ← nftl n; __discard_partition d.(aml_nftl_part) offset size.

(** The sector of the device is an [unsigned long]. *)
Definition _blk_nand_read (b start_sector len : Z) (buf : ptr) : K Z :=
  x ← blk b; _nand_read x.(blk_nftl_dev) (u32 (start_sector + x.(blk_offset))) len buf.
Definition _blk_nand_write (b start_sector len : Z) (buf : ptr) : K Z :=
  x ← blk b; _nand_write x.(blk_nftl_dev) (u32 (start_sector + x.(blk_offset))) len buf.
Definition _blk_nand_discard (b start_sector len : Z) : K Z :=
  x ← blk b; _nand_discard x.(blk_nftl_dev) (u32 (start_sector + x.(blk_offset))) len.
Definition _blk_nand_flush_write_cache (b : Z) : K Z :=
  x ← blk b; _nand_flush_write_cache x.(blk_nftl_dev).

(** The module parameters [amlnf_use_cache] and [amlnf_parts]. *)
Context (amlnf_use_cache : Z) (amlnf_parts : PartFilter.cstring).

Definition nftl_config : list Z :=
  [ if truthy amlnf_use_cache then 1 else NFTL_DONT_CACHE_DATA;
    SUPPORT_GC_READ_RECLAIM; SUPPORT_WEAR_LEVELING; NFTL_ERASE;
    if truthy is_phydev_off_adjust then 10 else 8; get_adjust_block_num;
    MIN_FREE_BLOCK_NUM; GC_THRESHOLD_FREE_BLOCK_NUM; MIN_FREE_BLOCK;
    GC_THRESHOLD_RATIO_NUMERATOR; GC_THRESHOLD_RATIO_DENOMINATOR; MAX_CACHE_WRITE_NUM ].

(** The debug class of the devices called [name...]; the name is copied
    whether there is memory for it or not. *)
Definition debug_class (i : ntd_info) (name : list Z) : K unit :=
  when_ (starts_with name i.(ntd_name))
    (o ← new_object;
     (if o =? 0 then throw NullDeref else mret tt) ;;
     error ← ask;
     mret tt).

Definition aml_nftl_initialize (n no : Z) : K Z :=
  d ← nftl n;
  i ← info d.(nftl_ntd);
  if i.(ntd_oobsize) <? MIN_BYTES_OF_USER_PER_PAGE then mret (- EPERM)
  else
    upd_nftl n (set_nftl_cfg nftl_config) ;;
    r ← aml_nftl_start n nftl_config i no d.(nftl_init_flag);
    let '(ret, part) := r in
    upd_nftl n (set_aml_nftl_part part) ;;
    when_ (truthy ret && (d.(nftl_init_flag) =? 0)) (aml_nftl_set_status part 1) ;;
    cap ← aml_nftl_get_part_cap part;
    upd_nftl n (set_nftl_size cap) ;;
    if no <? 0 then mret (s32 ret)
    else
      debug_class i (chars "nfcode") ;;
      debug_class i (chars "nfdata") ;;
      mret 0.

(** [b] becomes the view of [n] from byte [offset] on, [size] bytes of it or
    as much as there is. *)
Definition aml_blktrans_initialize (b n offset size : Z) : K Z :=
  let offset_t := Z.shiftr offset 9 in
  let size_t := Z.shiftr size 9 in
  d ← nftl n;
  upd_blk b (fun x => set_blk_lock d.(nftl_lock) (set_blk_nftl_dev n x)) ;;
  if offset_t <? d.(nftl_size) then
    upd_blk b (set_blk_offset offset_t) ;;
    upd_blk b (set_blk_size (if u64 (offset_t + size_t) <=? d.(nftl_size) then size_t
                             else d.(nftl_size) - offset_t)) ;;
    mret 0
  else mret 1.

(** ** Requests *)
Definition lock_nftl (n : Z) : K unit :=
  d ← nftl n; if d.(nftl_lock) then mutex_lock (NftlLock n) else throw NullDeref.
Definition unlock_nftl (n : Z) : K unit := mutex_unlock (NftlLock n).

Definition aml_ntd_nftl_flush (ntd : Z) : K Z :=
  i ← info ntd;
  lock_nftl i.(nftl_priv) ;;
  error ← _nand_flush_write_cache i.(nftl_priv);
  unlock_nftl i.(nftl_priv) ;;
  mret error.
Definition aml_nftl_flush (b : Z) : K Z := x ← blk b; aml_ntd_nftl_flush x.(nbd).(nbd_ntd).

Definition write_sync_flag (b : Z) : K unit :=
  x ← blk b;
  upd_nftl x.(blk_nftl_dev) (set_sync_flag 0) ;;
  if starts_with (chars "media") x.(blk_name) then mret tt
  else
    match x.(req) with
    | Some r => when_ (bool_decide (r.(rq_op) = REQ_OP_WRITE) && r.(rq_sync))
                  (upd_nftl x.(blk_nftl_dev) (set_sync_flag 1))
    | None => mret tt
    end.

(** One segment at sector [pos] of the device. *)
Definition nftl_segment (b : Z) (t : ntd_blktrans_tr) (op : req_op) (pos : Z) (bvec : ptr * Z)
    : K Z :=
  let block := u32 (Z.shiftr (u64 (Z.shiftl pos 9)) t.(blkshift)) in
  let nblk := u32 (Z.shiftr bvec.2 t.(blkshift)) in
  kmap ;;
  ret ← match op with
        | REQ_OP_READ =>
            e ← _blk_nand_read b block nblk bvec.1; mret (if truthy e then - EIO else 0)
        | REQ_OP_WRITE =>
            write_sync_flag b ;;
            e ← _blk_nand_write b block nblk bvec.1; mret (if truthy e then - EIO else 0)
        | _ => mret (- EIO)
        end;
  kunmap ;;
  mret ret.
Fixpoint nftl_segments (b : Z) (t : ntd_blktrans_tr) (op : req_op) (pos : Z)
    (segs : list (ptr * Z)) : K Z :=
  match segs with
  | [] => mret 0
  | bvec :: segs =>
      ret ← nftl_segment b t op pos bvec;
      if truthy ret then mret ret
      else nftl_segments b t op (u64 (pos + Z.shiftr bvec.2 9)) segs
  end.

Definition do_nftltrans_request (b : Z) (r : request) : K Z :=
  x ← blk b;
  d ← nftl x.(blk_nftl_dev);
  if truthy d.(reboot_flag) then mret 0
  else
    t ← gets tr;
    let block := u32 (Z.shiftr (u64 (Z.shiftl r.(rq_pos) 9)) t.(blkshift)) in
    g ← object disks x.(nbd).(disk);
    if g.(capacity) <? u64 (r.(rq_pos) + r.(rq_sectors)) then mret (- EIO)
    else if bool_decide (r.(rq_op) = REQ_OP_DISCARD) || bool_decide (r.(rq_op) = REQ_OP_WRITE_ZEROES)
    then
      lock_nftl x.(blk_nftl_dev) ;;
      e ← _blk_nand_discard b block r.(rq_sectors);
      unlock_nftl x.(blk_nftl_dev) ;;
      mret 0
    else
      upd_blk b (set_req (Some r)) ;;
      lock_nftl x.(blk_nftl_dev) ;;
      ret ← nftl_segments b t r.(rq_op) r.(rq_pos) r.(rq_segs);
      unlock_nftl x.(blk_nftl_dev) ;;
      mret ret.

Definition aml_nftl_writesect (b block : Z) (buf : ptr) : K Z := mret 0.
Definition aml_nftl_open (b : Z) : K Z := mret 0.
(** [lock] of the view may be NULL. *)
Definition aml_nftl_release (b : Z) : K Z :=
  x ← blk b;
  (if x.(blk_lock) then mutex_lock (NftlLock x.(blk_nftl_dev)) else throw NullDeref) ;;
  error ← _blk_nand_flush_write_cache b;
  unlock_nftl x.(blk_nftl_dev) ;;
  mret error.

Definition aml_nftl_tr : blktrans_ops D F :=
  mk_blktrans_ops D F (Some do_nftltrans_request) None (Some aml_nftl_writesect) None None
    (Some aml_nftl_flush) (Some aml_nftl_open) (Some aml_nftl_release).

(** ** The thread and the reboot notifier *)

(** One round of the thread: what is in the write cache for a second is
    written out, then the flash is tidied up. *)
Definition aml_nftl_thread_round (n : Z) : K unit :=
  lock_nftl n ;;
  d ← nftl n;
  nums ← aml_nftl_get_part_write_cache_nums d.(aml_nftl_part);
  when_ (0 <? nums)
    (now ← ask;
     d ← nftl n;
     when_ (NFTL_FLUSH_DATA_TIME <=? now - d.(ts_write_start))
       (e ← _nand_flush_write_cache n; mret tt)) ;;
  d ← nftl n;
  e ← garbage_collect d.(aml_nftl_part);
  e ← do_prio_gc d.(aml_nftl_part);
  unlock_nftl n.

(** Waits for the thread to leave; its last act is to clear [nftl_thread]. *)
Definition kthread_stop (n : Z) : K unit :=
  d ← nftl n;
  if d.(nftl_thread) <? 0 then throw NullDeref else upd_nftl n (set_nftl_thread 0).

Definition aml_nftl_reboot_notifier (n : Z) : K Z :=
  d ← nftl n;
  if truthy d.(reboot_flag) then mret 0
  else
    lock_nftl n ;;
    e1 ← _nand_flush_write_cache n;
    e2 ← _nand_flush_discard_cache n;
    unlock_nftl n ;;
    d ← nftl n;
    when_ (truthy d.(nftl_thread)) (kthread_stop n ;; upd_nftl n (set_nftl_thread 0)) ;;
    lock_nftl n ;;
    e3 ← _nand_write_pair_page n;
    unlock_nftl n ;;
    upd_nftl n (set_reboot_flag 1) ;;
    mret (s32 (Z.lor (Z.lor (u32 e1) (u32 e2)) (u32 e3))).

(** ** Partitions *)

(** [struct ntd_partition]: 16 bytes of name, then [size] and [offset]. *)
Definition partition_at (i : ntd_info) (j : Z) : ptr := ptr_add i.(parts) (40 * j).
Definition part_bytes (p : ptr) (off n : Z) : K (list Z) := lift (load_bytes (ptr_add p off) n).
Definition part_size (p : ptr) : K Z := l ← part_bytes p 16 8; mret (le_value l).
Definition part_offset (p : ptr) : K Z := l ← part_bytes p 24 8; mret (le_value l).
(** What [%s] prints of the name: it goes on behind a name without NUL. *)
Definition part_name (p : ptr) : K (list Z) := l ← part_bytes p 0 40; mret (c_string l).

(** [discard_data] of the sectors from [offset] on when they are mapped. *)
Definition discard_mapped (n offset size : Z) : K unit :=
  mapped ← _check_mapping n offset size;
  when_ (truthy mapped) (e ← _discard_partition n offset size; mret tt).

(** The partitions are compared on the length of the view's name only. *)
Fixpoint discard_views (fuel : nat) (n j tmp_offset : Z) (i : ntd_info) (name : list Z) : K unit :=
  match fuel with
  | O => mret tt
  | S fuel =>
      let p := partition_at i j in
      size ← part_size p;
      here ← part_bytes p 0 (Z.of_nat (length name));
      when_ (bool_decide (here = name))
        (off ← part_offset p;
         if negb (off =? ALL_ONES_64) && negb (size =? ALL_ONES_64)
         then discard_mapped n tmp_offset size
         else discard_mapped n tmp_offset ALL_ONES_64) ;;
      discard_views fuel n (j + 1)
        (if size =? ALL_ONES_64 then tmp_offset else u64 (tmp_offset + size)) i name
  end.

(** The thread, once stopped, has cleared [nftl_thread]. *)
Definition aml_nftl_reinit_part (b : Z) : K Z :=
  x ← blk b;
  let n := x.(blk_nftl_dev) in
  d ← nftl n;
  aml_nftl_set_status d.(aml_nftl_part) 0 ;;
  when_ (truthy d.(nftl_thread)) (kthread_stop n) ;;
  lock_nftl n ;;
  i ← info d.(nftl_ntd);
  ret ← (if 1 <? i.(ntd_nr_partitions) then
           discard_views (Z.to_nat i.(ntd_nr_partitions)) n 0 0 i (c_string x.(blk_name)) ;;
           mret 0
         else
           ret ← aml_nftl_erase_part d.(aml_nftl_part);
           e ← aml_nftl_initialize n (-1);
           mret ret);
  unlock_nftl n ;;
  mret ret.
Definition aml_nftl_wipe_part (b : Z) : K Z := aml_nftl_reinit_part b.

(** ** New NTD devices *)
Definition nbd0 (num ntd : Z) : ntd_blktrans_dev := mk_nbd num 0 0 0 0 0 0 ntd 0 [] [].
Definition blk0 (num ntd : Z) : aml_nftl_blk := mk_blk (nbd0 num ntd) [] 0 0 0 false None.
Definition nftl_dev0 : aml_nftl_dev := mk_nftl 0 0 0 false 0 0 [] 0 0 0.

(** [register_reboot_notifier] and back. *)
Definition register_notifier (n : Z) : K unit :=
  modify (fun k => set_notifiers (n :: k.(notifiers)) k).
Definition unregister_notifier (n : Z) : K unit :=
  modify (fun k => set_notifiers (filter (fun n' => n' <> n) k.(notifiers)) k).

(** One block device for the partition at [p]; [None]: the loop goes on. *)
Definition add_view (n ntd : Z) (p : ptr) (cur_offset : Z) : K bool :=
  b ← new_object;
  if b =? 0 then mret false
  else
    num ← gets dev_num;
    modify (set_dev_num (s32 (num + 1))) ;;
    name ← part_name p;
    size ← part_size p;
    modify (fun k => set_blks (<[b := set_blk_name (take 23 name) (blk0 num ntd)]> k.(blks)) k) ;;
    e ← aml_blktrans_initialize b n cur_offset size;
    if truthy e then mret false
    else
      upd_blk b (fun x => set_nbd (set_nbd_name name (set_nbd_size (u32 x.(blk_size)) x.(nbd))) x) ;;
      e ← add_ntd_blktrans_dev aml_nftl_tr b;
      mret (negb (truthy e)).
Fixpoint add_views (fuel : nat) (n ntd j cur_offset : Z) : K bool :=
  match fuel with
  | O => mret true
  | S fuel =>
      i ← info ntd;
      let p := partition_at i j in
      ok ← add_view n ntd p cur_offset;
      if (ok : bool) then
        size ← part_size p;
        add_views fuel n ntd (j + 1) (u64 (cur_offset + size))
      else mret false
  end.

Definition to_cstring (l : list Z) : PartFilter.cstring :=
  map (fun c => Ascii.ascii_of_N (Z.to_N c)) l.

Definition aml_nftl_add_ntd (ntd : Z) : K unit :=
  i ← info ntd;
  if negb (PartFilter.amlnf_part_enabled amlnf_parts (Some (to_cstring i.(ntd_name))))
  then mret tt
  else
    n ← new_object;
    if n =? 0 then mret tt
    else
      modify (fun k => set_nftl_devs (<[n := nftl_dev0]> k.(nftl_devs)) k) ;;
      lk ← new_object;
      if lk =? 0 then mret tt
      else
        upd_nftl n (fun d => set_nftl_init_flag 0 (set_nftl_ntd ntd (set_nftl_lock true d))) ;;
        register_notifier n ;;
        num ← gets nftl_num;
        e ← aml_nftl_initialize n num;
        if truthy e then unregister_notifier n
        else
          upd_nftl n (fun d => set_reboot_flag 0 (set_nftl_init_flag 1 d)) ;;
          upd_info ntd (set_nftl_priv n) ;;
          thread ← new_object_err;
          upd_nftl n (set_nftl_thread thread) ;;
          if thread <? 0 then mret tt
          else
            ok ← add_views (Z.to_nat i.(ntd_nr_partitions)) n ntd 0 0;
            when_ (ok : bool) (modify (fun k => set_nftl_num (s32 (k.(nftl_num) + 1)) k)).

(** The view is freed by the last reference to the block device inside it,
    then looked at, and freed again. *)
Definition aml_nftl_remove_dev (b : Z) : K unit :=
  x ← blk b;
  unregister_notifier x.(blk_nftl_dev) ;;
  e ← del_ntd_blktrans_dev b;
  x ← blk b;
  free_blk b.

Definition check_storage_device : K Z := mret 0.
Definition init_aml_nftl : K Z :=
  ret ← check_storage_device;
  if ret <? 0 then mret 0
  else
    modify (fun k => set_dev_num 0 (set_nftl_num 0 k)) ;;
    register_ntd_blktrans aml_nftl_add_ntd.
Definition cleanup_aml_nftl : K Z := deregister_ntd_blktrans aml_nftl_remove_dev.
End Nftl.

(** ** Requests stay inside their view *)

(** The translation layer with a fence: reading, writing or discarding sectors
    that are not all between [lo] and [hi] is a fault. *)
Definition inside (lo hi s len : Z) : bool := (lo <=? s) && (s + len <=? hi).
Definition fence {D F} (lo hi : Z) (f : Ftl D F) : Ftl D F := {|
  aml_nftl_start := aml_nftl_start;
  aml_nftl_set_status := aml_nftl_set_status;
  aml_nftl_get_part_cap := aml_nftl_get_part_cap;
  aml_nftl_get_part_priv := aml_nftl_get_part_priv;
  aml_nftl_add_part_total_read := aml_nftl_add_part_total_read;
  aml_nftl_add_part_total_write := aml_nftl_add_part_total_write;
  aml_nftl_get_part_write_cache_nums := aml_nftl_get_part_write_cache_nums;
  aml_nftl_erase_part := aml_nftl_erase_part;
  garbage_collect := garbage_collect;
  do_prio_gc := do_prio_gc;
  __nand_read := fun part s len buf =>
    if inside lo hi s len then __nand_read part s len buf else throw OutOfBounds;
  __nand_write := fun part s len buf sync =>
    if inside lo hi s len then __nand_write part s len buf sync else throw OutOfBounds;
  __nand_discard := fun part s len sync =>
    if inside lo hi s len then __nand_discard part s len sync else throw OutOfBounds;
  __nand_flush_write_cache := __nand_flush_write_cache;
  __nand_flush_discard_cache := __nand_flush_discard_cache;
  __nand_write_pair_page := __nand_write_pair_page;
  __check_mapping := __check_mapping;
  __discard_partition := __discard_partition
|}.

(** What the driver relies on: reading and writing sectors changes nothing of
    the block devices. *)
Class FtlKeepsBlocks {D F} (f : Ftl D F) : Prop := {
  fk_read : forall part s len buf (k : kernel D F),
    wp (__nand_read part s len buf) (fun _ k' => blks k' = blks k) (fun _ _ => True) k;
  fk_write : forall part s len buf sync (k : kernel D F),
    wp (__nand_write part s len buf sync) (fun _ k' => blks k' = blks k) (fun _ _ => True) k
}.

Section Fence.
Context {D F : Type} (f : Ftl D F) `{Hf : !FtlKeepsBlocks f}.
Implicit Types k : kernel D F.

Lemma bind_ext {A B} (m m' : kact D F A) (g g' : A -> kact D F B) k (Q : A -> kernel D F -> Prop) :
  m' k = m k -> wp m Q (fun _ _ => True) k -> (forall a k', Q a k' -> g' a k' = g a k') ->
  mbind g' m' k = mbind g m k.
Proof. unfold wp, mbind, M_bind. intros -> H Hg. destruct (m k); [by apply Hg | done]. Qed.

(** A view inside its device, and a request of whole sectors. *)
Record fits (b : Z) (x : aml_nftl_blk) k : Prop := {
  ft_blk : blks k !! b = Some x;
  ft_offset : 0 <= blk_offset x;
  ft_end : blk_offset x + blk_size x < 2 ^ 32
}.
Record sound (r : request) : Prop := {
  so_pos : 0 <= rq_pos r < 2 ^ 63;
  so_sectors : 0 <= rq_sectors r < 2 ^ 32;
  so_lens : Forall (fun s => 0 <= s.2) (rq_segs r);
  so_bytes : sum_list_with (fun s => Z.to_nat s.2) (rq_segs r) = (512 * Z.to_nat (rq_sectors r))%nat
}.

Lemma block_of_pos pos : 0 <= pos < 2 ^ 32 -> u32 (Z.shiftr (u64 (Z.shiftl pos 9)) 9) = pos.
Proof.
  intros H. rewrite Z.shiftl_mul_pow2, Z.shiftr_div_pow2 by lia. unfold wrap.
  rewrite (Z.mod_small (pos * 2 ^ 9)) by lia. rewrite Z.div_mul by lia. apply Z.mod_small. lia.
Qed.

Section OneView.
Context (b : Z) (x : aml_nftl_blk) (Hoff : 0 <= blk_offset x) (Hend : blk_offset x + blk_size x < 2 ^ 32).
Let lo : Z := blk_offset x.
Let hi : Z := blk_offset x + blk_size x.

(** What the calls look at of the view. *)
Definition view_of k : Prop :=
  exists y, blks k !! b = Some y /\ blk_offset y = blk_offset x /\ blk_nftl_dev y = blk_nftl_dev x.

Lemma view_inside s len :
  0 <= s -> 0 <= len -> s + len <= blk_size x -> inside lo hi (u32 (s + lo)) len = true.
Proof.
  intros. unfold inside, wrap, lo, hi in *. rewrite Z.mod_small by lia. lia.
Qed.

Lemma fenced_read s len buf k :
  view_of k -> 0 <= s -> 0 <= len -> s + len <= blk_size x ->
  _blk_nand_read (Fo := fence lo hi f) b s len buf k = _blk_nand_read (Fo := f) b s len buf k.
Proof.
  intros (y & Hy & Eo & En) ???. unfold _blk_nand_read, _nand_read, blk, nftl, object, mbind, M_bind.
  rewrite Hy. destruct (nftl_devs k !! _) as [d|]; [|done]. cbn.
  rewrite Eo. fold lo. by rewrite view_inside.
Qed.
Lemma fenced_write s len buf k :
  view_of k -> 0 <= s -> 0 <= len -> s + len <= blk_size x ->
  _blk_nand_write (Fo := fence lo hi f) b s len buf k = _blk_nand_write (Fo := f) b s len buf k.
Proof.
  intros (y & Hy & Eo & En) ???. unfold _blk_nand_write, _nand_write, blk, nftl, object, mbind, M_bind.
  rewrite Hy. destruct (nftl_devs k !! _) as [d|]; [|done]. cbn.
  rewrite Eo. fold lo. by rewrite view_inside.
Qed.
Lemma fenced_discard s len k :
  view_of k -> 0 <= s -> 0 <= len -> s + len <= blk_size x ->
  _blk_nand_discard (Fo := fence lo hi f) b s len k = _blk_nand_discard (Fo := f) b s len k.
Proof.
  intros (y & Hy & Eo & En) ???. unfold _blk_nand_discard, _nand_discard, blk, nftl, object, mbind, M_bind.
  rewrite Hy. destruct (nftl_devs k !! _) as [d|]; [|done]. cbn.
  rewrite Eo. fold lo. by rewrite view_inside.
Qed.

(** Actions that leave the block devices alone. *)
Definition same_blks k k' : Prop := blks k' = blks k.
#[local] Instance same_blks_preorder : PreOrder same_blks.
Proof. split; [done|]. intros a c d Hac Hcd. unfold same_blks in *. congruence. Qed.
Lemma keeps_object {A} (objs : kernel D F -> gmap Z A) n : respects same_blks (object objs n).
Proof. intros k. unfold wp, object. by destruct (objs k !! n). Qed.
Lemma keeps_upd_nftl n g : respects same_blks (upd_nftl n g).
Proof. apply respects_bind; [apply _ | apply keeps_object | intros]. by apply respects_modify. Qed.
Lemma keeps_stamp n : respects same_blks (stamp n).
Proof.
  apply respects_bind; [apply _ | intros k; by apply wp_ask | intros t]. apply keeps_upd_nftl.
Qed.
Lemma keeps_sync_flag b' : respects same_blks (write_sync_flag b').
Proof.
  unfold write_sync_flag, blk. apply respects_bind; [apply _ | apply keeps_object | intros y].
  apply respects_bind; [apply _ | apply keeps_upd_nftl | intros _u].
  destruct (starts_with _ _); [apply respects_ret, _|]. destruct (req y) as [r|]; [|apply respects_ret, _].
  apply respects_when; [apply _ | apply keeps_upd_nftl].
Qed.

Lemma wp_blk_read s len buf k :
  wp (_blk_nand_read b s len buf) (fun _ => same_blks k) (fun _ _ => True) k.
Proof.
  apply wp_bind, wp_object_or; [|done]. intros y _. apply wp_bind, wp_object_or; [|done].
  intros d _. apply fk_read.
Qed.
Lemma wp_blk_write s len buf k :
  wp (_blk_nand_write b s len buf) (fun _ => same_blks k) (fun _ _ => True) k.
Proof.
  apply wp_bind, wp_object_or; [|done]. intros y _. apply wp_bind, wp_object_or; [|done].
  intros d _. apply wp_bind. eapply wp_mono; [apply fk_write | | done].
  intros r k1 H1. apply wp_bind. eapply wp_mono; [apply keeps_stamp | | done].
  intros _u k2 H2. apply wp_ret. unfold same_blks in *. congruence.
Qed.

Lemma view_of_kept k k' : same_blks k k' -> view_of k -> view_of k'.
Proof. unfold same_blks, view_of. by intros ->. Qed.

Lemma fenced_segment t op pos bvec k :
  blkshift t = 9 -> view_of k -> 0 <= pos -> 0 <= bvec.2 ->
  pos + Z.shiftr bvec.2 9 <= blk_size x ->
  nftl_segment (Fo := fence lo hi f) b t op pos bvec k = nftl_segment (Fo := f) b t op pos bvec k /\
  wp (nftl_segment (Fo := f) b t op pos bvec) (fun _ => same_blks k) (fun _ _ => True) k.
Proof.
  intros Ht Hv Hpos Hlen Hfit.
  assert (0 <= Z.shiftr bvec.2 9) as Hn by (apply Z.shiftr_nonneg; done).
  unfold nftl_segment. rewrite Ht, block_of_pos by lia.
  assert (u32 (Z.shiftr bvec.2 9) = Z.shiftr bvec.2 9) as -> by (apply Z.mod_small; lia).
  set (k1 := set_k_maps (k_maps k + 1) k). assert (view_of k1) as Hv1 by done.
  set (inner := fun g : Ftl D F => match op with
        | REQ_OP_READ =>
            e ← _blk_nand_read (Fo := g) b pos (Z.shiftr bvec.2 9) bvec.1; mret (if truthy e then - EIO else 0)
        | REQ_OP_WRITE =>
            write_sync_flag b ;;
            e ← _blk_nand_write (Fo := g) b pos (Z.shiftr bvec.2 9) bvec.1; mret (if truthy e then - EIO else 0)
        | _ => mret (- EIO)
        end).
  assert (inner (fence lo hi f) k1 = inner f k1 /\ wp (inner f) (fun _ => same_blks k) (fun _ _ => True) k1)
    as [Heq Hwp].
  { unfold inner. destruct op; try (split; [done | by apply wp_ret]).
    - split.
      + apply (bind_ext _ _ _ _ _ (fun _ _ => True)); [by apply fenced_read | apply wp_any | done].
      + apply wp_bind. eapply wp_mono; [apply wp_blk_read | | done]. intros e k2 H2. by apply wp_ret.
    - split.
      + apply (bind_ext _ _ _ _ _ (fun _ => same_blks k1)); [done | |].
        * eapply wp_mono; [apply keeps_sync_flag | done..].
        * intros _u k2 H2. apply (bind_ext _ _ _ _ _ (fun _ _ => True)); [| apply wp_any | done].
          apply fenced_write; [by eapply view_of_kept | done..].
      + apply wp_bind. eapply wp_mono; [apply keeps_sync_flag | | done]. intros _u k2 H2.
        apply wp_bind. eapply wp_mono; [apply wp_blk_write | | done]. intros e k3 H3. apply wp_ret.
        unfold same_blks in *. cbn in *. congruence. }
  split.
  - apply (bind_ext _ _ _ _ _ (fun _ k' => k' = k1)); [done | by apply wp_modify|].
    intros _u k' ->. apply (bind_ext _ _ _ _ _ (fun _ _ => True)); [exact Heq | apply wp_any | done].
  - apply wp_bind, wp_modify, wp_bind. eapply wp_mono; [exact Hwp | | done].
    intros e k2 H2. by apply wp_bind, wp_modify, wp_ret.
Qed.

Fixpoint sectors_of (segs : list (ptr * Z)) : Z :=
  match segs with
  | [] => 0
  | s :: segs => Z.shiftr s.2 9 + sectors_of segs
  end.
Lemma sectors_nonneg segs : Forall (fun s : ptr * Z => 0 <= s.2) segs -> 0 <= sectors_of segs.
Proof.
  induction 1 as [|s segs Hs _ IH]; [done|]. cbn.
  assert (0 <= Z.shiftr s.2 9) by (by apply Z.shiftr_nonneg). lia.
Qed.

Lemma fenced_segments t op segs pos k :
  blkshift t = 9 -> view_of k -> 0 <= pos -> Forall (fun s => 0 <= s.2) segs ->
  pos + sectors_of segs <= blk_size x ->
  nftl_segments (Fo := fence lo hi f) b t op pos segs k = nftl_segments (Fo := f) b t op pos segs k.
Proof.
  intros Ht. revert pos k. induction segs as [|s segs IH]; intros pos k Hv Hpos Hlens Hfit; [done|].
  apply Forall_cons in Hlens as [Hs Hlens]. cbn in Hfit.
  pose proof (sectors_nonneg segs Hlens). assert (0 <= Z.shiftr s.2 9) by (by apply Z.shiftr_nonneg).
  destruct (fenced_segment t op pos s k) as [Heq Hwp]; [done..|lia|].
  cbn [nftl_segments]. apply (bind_ext _ _ _ _ _ (fun _ => same_blks k)); [exact Heq | exact Hwp|].
  intros ret k' Hk'. destruct (truthy ret); [done|].
  assert (u64 (pos + Z.shiftr s.2 9) = pos + Z.shiftr s.2 9) as -> by (apply Z.mod_small; lia).
  apply IH; [by eapply view_of_kept | lia | done | lia].
Qed.
End OneView.

(** The sectors of the segments are those of the request. *)
Lemma sectors_of_request r : sound r -> sectors_of (rq_segs r) <= rq_sectors r.
Proof.
  intros [_ Hn Hl Hb].
  assert (512 * sectors_of (rq_segs r) <= Z.of_nat (sum_list_with (fun s => Z.to_nat s.2) (rq_segs r))) as H.
  { clear Hb. induction Hl as [|s segs Hs _ IH]; [done|]. cbn. rewrite Nat2Z.inj_add, Z2Nat.id by done.
    rewrite Z.shiftr_div_pow2 by lia. change (2 ^ 9) with 512.
    pose proof (Z.mul_div_le s.2 512 ltac:(lia)). lia. }
  rewrite Hb in H. lia.
Qed.

(** C2: a request that the block layer formed properly only ever reads,
    writes or discards sectors of its own block device's range of the
    translation layer: with a translation layer that faults on any other
    sector it does exactly the same. *)
Theorem request_stays_in_view b x g r k :
  blks k !! b = Some x -> 0 <= blk_offset x -> blk_offset x + blk_size x < 2 ^ 32 ->
  disks k !! disk (nbd x) = Some g -> 0 <= capacity g <= blk_size x -> blkshift (tr k) = 9 -> sound r ->
  do_nftltrans_request (Fo := fence (blk_offset x) (blk_offset x + blk_size x) f) b r k =
  do_nftltrans_request (Fo := f) b r k.
Proof.
  intros Hx Hoff Hend Hg Hcap Ht Hr. unfold do_nftltrans_request.
  apply (bind_ext _ _ _ _ _ (fun a k' => a = x /\ k' = k)); [done | by apply (wp_object _ _ x) |].
  intros ? ? [-> ->]. apply (bind_ext _ _ _ _ _ (fun _ k' => k' = k)); [done | by apply wp_object_or |].
  intros d ? ->. destruct (truthy _); [done|].
  apply (bind_ext _ _ _ _ _ (fun t k' => t = tr k /\ k' = k)); [done | by apply wp_gets|].
  intros ? ? [-> ->]. apply (bind_ext _ _ _ _ _ (fun a k' => a = g /\ k' = k)); [done | by apply (wp_object _ _ g)|].
  intros ? ? [-> ->]. destruct (Z.ltb_spec (capacity g) (u64 (rq_pos r + rq_sectors r))) as [|Hle]; [done|].
  destruct (so_pos r Hr) as [Hp0 Hp1]. destruct (so_sectors r Hr) as [Hs0 Hs1].
  assert (rq_pos r + rq_sectors r <= blk_size x) as Hfit.
  { unfold wrap in Hle. rewrite Z.mod_small in Hle by lia. lia. }
  rewrite Ht, block_of_pos by lia. assert (view_of b x k) as Hv by (by exists x).
  assert (forall k, wp (lock_nftl (blk_nftl_dev x)) (fun _ => same_blks k) (fun _ _ => True) k) as Hlock.
  { intros k'. apply wp_bind, wp_object_or; [|done]. intros d' _. destruct (nftl_lock d'); [|done].
    unfold wp, mutex_lock, mbind, M_bind, gets. by case_bool_decide. }
  destruct (_ || _).
  - apply (bind_ext _ _ _ _ _ (fun _ => same_blks k)); [done | apply Hlock |].
    intros _u k1 H1. apply (bind_ext _ _ _ _ _ (fun _ _ => True)); [| apply wp_any | done].
    apply fenced_discard; try done; [| lia..]. by apply (view_of_kept b x k).
  - apply (bind_ext _ _ _ _ _ (fun _ => view_of b x)); [done | |].
    { apply (wp_upd_blk _ _ x); [done|]. unfold view_of. cbn. rewrite lookup_insert_eq. by eexists. }
    intros _u k1 Hv1. apply (bind_ext _ _ _ _ _ (fun _ => same_blks k1)); [done | apply Hlock |].
    intros _u' k2 H2. apply (bind_ext _ _ _ _ _ (fun _ _ => True)); [| apply wp_any | done].
    apply fenced_segments; try done; [by apply (view_of_kept b x k1) | apply Hr |].
    pose proof (sectors_of_request r Hr). lia.
Qed.
End Fence.

(** ** The views of a device do not overlap *)
Section Views.
Context {D F : Type} `{!NandHw D} `{!ChipOperation D} `{Fo : !Ftl D F}.
Implicit Types k : kernel D F.
Context (n ntd : Z) (i : ntd_info) (cap : Z) (sz : Z -> Z) (m : memory).

(** The partition table in memory: [sz j] is the size of entry [j], which ends
    inside the 64-bit range of offsets except perhaps for the last one. *)
Record table_of_sizes : Prop := {
  ts_entry : forall j, 0 <= j < ntd_nr_partitions i ->
    exists l, peek m (partition_at i j) 40 = Some l /\ le_value (take 8 (drop 16 l)) = sz j;
  ts_size : forall j, 0 <= sz j < 2 ^ 64
}.
(** Where entry [j] starts. *)
Fixpoint start_of (j : nat) : Z :=
  match j with O => 0 | S j => start_of j + sz (Z.of_nat j) end.

Definition range (x : aml_nftl_blk) : Z * Z := (blk_offset x, blk_offset x + blk_size x).
Definition apart (x y : aml_nftl_blk) : Prop :=
  (range x).2 <= (range y).1 \/ (range y).2 <= (range x).1.

(** The views made so far lie below byte [c], inside the device, apart. *)
Record views_below (c : Z) k : Prop := {
  vb_range : forall b x, blks k !! b = Some x -> blk_nftl_dev x = n ->
    0 <= blk_offset x /\ 0 <= blk_size x /\ blk_offset x + blk_size x <= Z.min cap (Z.shiftr c 9);
  vb_apart : forall b x b' x', blks k !! b = Some x -> blks k !! b' = Some x' -> b <> b' ->
    blk_nftl_dev x = n -> blk_nftl_dev x' = n -> apart x x'
}.

(** What the loop needs of the rest of the state. *)
Record adding k : Prop := {
  ad_mem : w_mem (k_world k) = m;
  ad_info : infos k !! ntd = Some i;
  ad_nftl : exists d, nftl_devs k !! n = Some d /\ nftl_size d = cap;
  ad_next : 0 < k_next k;
  ad_blks : forall b x, blks k !! b = Some x -> b < k_next k;
  ad_disks : forall g d, disks k !! g = Some d -> g < k_next k;
  ad_devs : forall d, d ∈ tr_devs (tr k) -> exists y, blks k !! d = Some y;
  ad_lock : RefLock ∉ k_held k
}.

Lemma peek_part k j off len l :
  adding k -> peek m (partition_at i j) 40 = Some l -> 0 <= off -> 0 <= len -> off + len <= 40 ->
  part_bytes (partition_at i j) off len k = Done (take (Z.to_nat len) (drop (Z.to_nat off) l)) k.
Proof.
  intros Hk Hl H1 H2 H3. unfold part_bytes, lift, load_bytes. rewrite (ad_mem k Hk).
  rewrite (peek_sub m (partition_at i j) 40 l off len) by done. by destruct k.
Qed.
Lemma wp_part_size k j (Q : Z -> kernel D F -> Prop) E :
  adding k -> table_of_sizes -> 0 <= j < ntd_nr_partitions i -> Q (sz j) k ->
  wp (part_size (partition_at i j)) Q E k.
Proof.
  intros Hk Ht Hj HQ. destruct (ts_entry Ht j Hj) as (l & Hl & El). apply wp_bind.
  unfold wp. rewrite (peek_part k j 16 8 l) by done. apply wp_ret.
  change (Z.to_nat 8) with 8%nat. change (Z.to_nat 16) with 16%nat. by rewrite El.
Qed.
Lemma wp_part_name k j (Q : list Z -> kernel D F -> Prop) E :
  adding k -> table_of_sizes -> 0 <= j < ntd_nr_partitions i -> (forall s, Q s k) ->
  wp (part_name (partition_at i j)) Q E k.
Proof.
  intros Hk Ht Hj HQ. destruct (ts_entry Ht j Hj) as (l & Hl & El). apply wp_bind.
  unfold wp. rewrite (peek_part k j 0 40 l) by done. apply wp_ret, HQ.
Qed.

(** A view taken out of the device at byte [c]. *)
Definition cut (c s : Z) (x : aml_nftl_blk) : Prop :=
  (blk_offset x = Z.shiftr c 9 /\ blk_offset x < cap /\
   blk_size x = Z.min (Z.shiftr s 9) (cap - blk_offset x)) \/
  (blk_offset x = 0 /\ blk_size x = 0).

Lemma shift_range c s : 0 <= c < 2 ^ 64 -> 0 <= s < 2 ^ 64 ->
  0 <= Z.shiftr c 9 < 2 ^ 55 /\ 0 <= Z.shiftr s 9 < 2 ^ 55 /\
  Z.shiftr c 9 + Z.shiftr s 9 <= Z.shiftr (c + s) 9.
Proof.
  intros Hc Hs. rewrite !Z.shiftr_div_pow2 by lia. change (2 ^ 9) with 512.
  pose proof (Z.div_mod c 512 ltac:(lia)). pose proof (Z.mod_pos_bound c 512 ltac:(lia)).
  pose proof (Z.div_mod s 512 ltac:(lia)). pose proof (Z.mod_pos_bound s 512 ltac:(lia)).
  split; [lia|]. split; [lia|]. apply Z.div_le_lower_bound; lia.
Qed.

Lemma wp_aml_blktrans_initialize b x0 c s d k (Q : Z -> kernel D F -> Prop) E :
  nftl_devs k !! n = Some d -> nftl_size d = cap -> blks k !! b = Some x0 ->
  blk_offset x0 = 0 -> blk_size x0 = 0 -> 0 <= c < 2 ^ 64 -> 0 <= s < 2 ^ 64 ->
  (forall r x, blk_nftl_dev x = n -> nbd x = nbd x0 -> cut c s x ->
     Q r (set_blks (<[b := x]> (blks k)) k)) ->
  wp (aml_blktrans_initialize b n c s) Q E k.
Proof.
  intros Hd Hcap Hx Ho Hz Hc Hs HQ. destruct (shift_range c s Hc Hs) as (Hc9 & Hs9 & _).
  apply wp_bind, (wp_object _ _ d); [done|]. apply wp_bind, (wp_upd_blk _ _ x0); [done|].
  rewrite Hcap. destruct (Z.ltb_spec (Z.shiftr c 9) cap).
  - apply wp_bind. eapply wp_upd_blk; [apply lookup_insert_eq|]. apply wp_bind.
    eapply wp_upd_blk; [cbn; apply lookup_insert_eq|]. apply wp_ret. cbn. rewrite !insert_insert_eq.
    apply HQ; [done..|]. left. cbn. split; [done|]. split; [done|].
    unfold wrap. rewrite Z.mod_small by lia. destruct (Z.leb_spec (Z.shiftr c 9 + Z.shiftr s 9) cap); lia.
  - apply wp_ret. apply HQ; [done..|]. by right.
Qed.

(** A new view of [n], cut at [c], is apart from those below [c]. *)
Lemma views_below_cut c s k k' b x :
  0 <= cap -> 0 <= c < 2 ^ 64 -> 0 <= s < 2 ^ 64 ->
  views_below c k -> blks k !! b = None -> blks k' = <[b := x]> (blks k) ->
  cut c s x -> views_below (c + s) k'.
Proof.
  intros Hcap Hc Hs [Hr Ha] Hb Eb Hx. destruct (shift_range c s Hc Hs) as (Hc9 & Hs9 & Hsum).
  assert (0 <= blk_offset x /\ 0 <= blk_size x /\
    blk_offset x + blk_size x <= Z.min cap (Z.shiftr (c + s) 9)) as Hnew by (destruct Hx; lia).
  assert (forall y, 0 <= blk_offset y /\ 0 <= blk_size y /\
    blk_offset y + blk_size y <= Z.min cap (Z.shiftr c 9) -> apart y x) as Hap.
  { intros y Hy. unfold apart, range. cbn. destruct Hx; lia. }
  split.
  - intros b' y Hy Hn. rewrite Eb in Hy. destruct (decide (b = b')) as [<-|Hne].
    + rewrite lookup_insert_eq in Hy. congruence.
    + rewrite lookup_insert_ne in Hy by done. specialize (Hr b' y Hy Hn). lia.
  - intros b1 y1 b2 y2 H1 H2 Hne Hn1 Hn2. rewrite Eb in H1, H2.
    destruct (decide (b = b1)) as [<-|Hb1]; [|destruct (decide (b = b2)) as [<-|Hb2]].
    + rewrite lookup_insert_eq in H1. injection H1 as <-. rewrite lookup_insert_ne in H2 by done.
      destruct (Hap y2 (Hr _ _ H2 Hn2)); [by right | by left].
    + rewrite lookup_insert_eq in H2. injection H2 as <-. rewrite lookup_insert_ne in H1 by done.
      by apply Hap, (Hr b1).
    + rewrite lookup_insert_ne in H1, H2 by done. by apply (Ha b1 y1 b2 y2).
Qed.

Lemma views_below_mono c c' k : c <= c' -> views_below c k -> views_below c' k.
Proof.
  intros Hc [Hr Ha]. split; [|done]. intros b x Hx Hn. specialize (Hr b x Hx Hn).
  assert (Z.shiftr c 9 <= Z.shiftr c' 9); [|lia].
  rewrite !Z.shiftr_div_pow2 by lia. by apply Z.div_le_mono.
Qed.

(** Adding the block device inside a view keeps all that. *)
Lemma adding_after_dev k k' b devs :
  adding k -> dressed b devs k k' ->
  (disks k' = disks k \/ exists g d, disks k' = <[g := d]> (disks k) /\ g < k_next k') ->
  (forall d, d ∈ devs -> d = b \/ d ∈ tr_devs (tr k)) -> adding k'.
Proof.
  intros [H1 H2 H3 H4 H5 H6 H7 H8] [R1 R2 R3 (x & x' & Hx & Hb & _)] Hd Hdevs.
  unfold bystanders in R1. injection R1 as E1 E2 E3 E4 E5 E6 E7 E8 E9 E10 E11.
  split; rewrite ?E1, ?E2, ?E5, ?E9; try done; try lia.
  - intros b' y. rewrite Hb. intros Hy. destruct (decide (b = b')) as [<-|Hne].
    + specialize (H5 b x Hx). lia.
    + rewrite lookup_insert_ne in Hy by done. specialize (H5 b' y Hy). lia.
  - intros g d Hg. destruct Hd as [Hd|(g' & d' & Hd & Hlt)]; rewrite Hd in Hg.
    + specialize (H6 g d Hg). lia.
    + destruct (decide (g' = g)) as [<-|Hne]; [done|]. rewrite lookup_insert_ne in Hg by done.
      specialize (H6 g d Hg). lia.
  - intros d. rewrite R2, Hb. cbn. intros Hin. destruct (decide (b = d)) as [<-|Hne].
    + rewrite lookup_insert_eq. eauto.
    + rewrite lookup_insert_ne by done. destruct (Hdevs d Hin) as [->|?]; [done | by apply H7].
Qed.

Lemma wp_add_dev_view k b x c s :
  0 <= cap -> 0 <= c < 2 ^ 64 -> 0 <= s < 2 ^ 64 ->
  adding k -> views_below c k -> blks k !! b = None -> b < k_next k ->
  tag_set (nbd x) = 0 -> cut c s x ->
  wp (add_ntd_blktrans_dev aml_nftl_tr b) (fun _ k' => adding k' /\ views_below (c + s) k') noflt
    (set_blks (<[b := x]> (blks k)) k).
Proof.
  intros Hcap Hc Hs Hk Hv Hb Hbn Htag Hcut.
  assert (b ∉ tr_devs (tr k)) as Hnew.
  { intros Hin. destruct (ad_devs k Hk b Hin) as [y Hy]. congruence. }
  set (k1 := set_blks _ k).
  assert (adding k1) as Hk1.
  { destruct Hk as [H1 H2 H3 H4 H5 H6 H7 H8]. split; try done; cbn.
    - intros b' y Hy. destruct (decide (b = b')) as [<-|Hne]; [done|].
      rewrite lookup_insert_ne in Hy by done. by eapply H5.
    - intros d Hin. destruct (decide (b = d)) as [<-|Hne]; [done|].
      rewrite lookup_insert_ne by done. by apply H7. }
  eapply wp_mono; [apply (wp_add_dev aml_nftl_tr b x k1) | | done]; try done.
  - apply lookup_insert_eq.
  - apply (ad_devs k1 Hk1).
  - apply (ad_next k1 Hk1).
  - apply (ad_disks k1 Hk1).
  - apply (ad_lock k1 Hk1).
  - intros r k' Hcase.
    assert (exists x', blks k' = <[b := x']> (blks k) /\ shape x' = shape x) as (x' & Eb & Esh).
    { assert (exists ds, dressed b ds k1 k') as [ds [_ _ _ (y & y' & Hy & Eb & Esh)]]
        by (destruct Hcase as [(_ & l1 & l2 & _ & [H _] & _)|(_ & H & _)]; eauto).
      exists y'. cbn in Hy, Eb. rewrite lookup_insert_eq in Hy. injection Hy as <-.
      by rewrite Eb, insert_insert_eq. }
    split.
    + destruct Hcase as [(_ & l1 & l2 & El & [Hd (y & g & d & _ & Hg & H0)] & _)|(_ & Hd & Hg & _)].
      * eapply adding_after_dev; [exact Hk1 | exact Hd | right; exists g, d; split; [done | apply H0] |].
        intros d'. rewrite El, !elem_of_app, elem_of_cons. tauto.
      * eapply adding_after_dev; [exact Hk1 | exact Hd | by left | by right].
    + apply (views_below_cut c s k k' b x'); try done. unfold cut, shape in *.
      replace (blk_offset x') with (blk_offset x) by congruence.
      by replace (blk_size x') with (blk_size x) by congruence.
Qed.

Lemma wp_add_view k j c :
  n <> 0 -> 0 <= cap -> 0 <= c < 2 ^ 64 -> table_of_sizes -> 0 <= j < ntd_nr_partitions i ->
  adding k -> views_below c k ->
  wp (add_view n ntd (partition_at i j) c) (fun _ k' => adding k' /\ views_below (c + sz j) k')
    noflt k.
Proof.
  intros Hn Hcap Hc Ht Hj Hk Hv. pose proof (ts_size Ht j) as Hs.
  apply wp_bind, wp_new_object_mem; [apply (ad_next k Hk)|..]; intros w Hw.
  { apply wp_ret. split; [|apply (views_below_mono c); [lia | by destruct Hv]].
    destruct Hk. split; try done. cbn. congruence. }
  set (b := k_next k). rewrite (proj2 (Z.eqb_neq b 0)) by (pose proof (ad_next k Hk); unfold b; lia).
  apply wp_bind, wp_gets, wp_bind, wp_modify. cbn.
  match goal with |- wp _ _ _ ?k' => set (k1 := k') end.
  assert (adding k1) as Hk1.
  { destruct Hk as [H1 H2 H3 H4 H5 H6 H7 H8]. split; try done; cbn; try congruence; try lia.
    - intros b' y Hy. specialize (H5 b' y Hy). lia.
    - intros g d Hg. specialize (H6 g d Hg). lia. }
  assert (blks k1 !! b = None) as Hb.
  { cbn. destruct (blks k !! b) as [y|] eqn:E; [|done]. apply (ad_blks k Hk) in E. unfold b in E. lia. }
  assert (b < k_next k1) as Hbn by (cbn; unfold b; lia).
  assert (views_below c k1) as Hv1 by (by destruct Hv).
  clearbody k1. clear Hk Hv Hw. apply wp_bind, wp_part_name; try done. intros name.
  apply wp_bind, wp_part_size; try done. apply wp_bind, wp_modify, wp_bind.
  destruct (ad_nftl k1 Hk1) as (d & Hd & Hcd).
  eapply wp_aml_blktrans_initialize; [exact Hd | done | apply lookup_insert_eq | done | done | done | done |].
  intros r x Hxn Hnbd Hcut. cbn. rewrite insert_insert_eq.
  assert (forall y, tag_set (nbd y) = 0 -> cut c (sz j) y -> wp (add_ntd_blktrans_dev aml_nftl_tr b)
    (fun _ k' => adding k' /\ views_below (c + sz j) k') noflt (set_blks (<[b := y]> (blks k1)) k1)) as Hadd
    by (intros y Hy Hcy; by apply wp_add_dev_view).
  destruct (truthy r).
  - apply wp_ret. split; [|by eapply (views_below_cut c (sz j) k1 _ b x)].
    destruct Hk1 as [H1 H2 H3 H4 H5 H6 H7 H8]. split; try done; cbn.
    + intros b' y Hy. destruct (decide (b = b')) as [<-|Hne]; [done|].
      rewrite lookup_insert_ne in Hy by done. by eapply H5.
    + intros d' Hin. destruct (decide (b = d')) as [<-|Hne]; [rewrite lookup_insert_eq; eauto|].
      rewrite lookup_insert_ne by done. by apply H7.
  - apply wp_bind. eapply wp_upd_blk; [cbn; apply lookup_insert_eq|]. cbn. rewrite insert_insert_eq.
    apply wp_bind. eapply wp_mono; [apply Hadd | | done]; [cbn; by rewrite Hnbd | exact Hcut |].
    intros e k' H. by apply wp_ret.
Qed.

Lemma wp_add_views fuel j k :
  n <> 0 -> 0 <= cap -> table_of_sizes ->
  (forall j, (Z.of_nat j < ntd_nr_partitions i) -> start_of j < 2 ^ 64) ->
  Z.of_nat j + Z.of_nat fuel = ntd_nr_partitions i -> adding k ->
  views_below (start_of j) k ->
  wp (add_views fuel n ntd (Z.of_nat j) (u64 (start_of j)))
    (fun _ k' => exists c, views_below c k') noflt k.
Proof.
  intros Hn Hcap Ht Hstart. revert j k. induction fuel as [|fuel IH]; intros j k Hj Hk Hv.
  { apply wp_ret. eauto. }
  assert (0 <= start_of j < 2 ^ 64) as Hc.
  { split; [|apply Hstart; lia]. clear -Ht. induction j as [|j IHj]; cbn; [done|].
    pose proof (ts_size Ht (Z.of_nat j)). lia. }
  unfold wrap. rewrite Z.mod_small by done. cbn [add_views].
  apply wp_bind, (wp_object _ _ i); [apply (ad_info k Hk)|]. apply wp_bind.
  eapply wp_mono; [apply wp_add_view; try done; lia | | done].
  intros ok k' [Hk' Hv']. destruct ok; [|apply wp_ret; eauto].
  apply wp_bind, wp_part_size; try done; [lia|].
  replace (Z.of_nat j + 1) with (Z.of_nat (S j)) by lia.
  apply (IH (S j)); [lia | done | done].
Qed.
End Views.

(** C3: however many of its partitions get a block device before something
    fails, the ranges of the block devices cut out of one translation-layer
    device lie inside it and do not overlap. *)
Theorem views_disjoint {D F} `{Fo : !Ftl D F}
    n ntd i d sz (k : kernel D F) :
  n <> 0 -> 0 <= nftl_size d -> nftl_devs k !! n = Some d -> 0 <= ntd_nr_partitions i ->
  table_of_sizes i sz (w_mem (k_world k)) ->
  (forall j, (Z.of_nat j < ntd_nr_partitions i) -> start_of sz j < 2 ^ 64) ->
  adding n ntd i (nftl_size d) (w_mem (k_world k)) k ->
  (forall b x, blks k !! b = Some x -> blk_nftl_dev x <> n) ->
  wp (add_views (Z.to_nat (ntd_nr_partitions i)) n ntd 0 0)
    (fun _ k' => forall b x b' x', blks k' !! b = Some x -> blks k' !! b' = Some x' -> b <> b' ->
       blk_nftl_dev x = n -> blk_nftl_dev x' = n ->
       0 <= blk_offset x /\ 0 <= blk_size x /\ blk_offset x + blk_size x <= nftl_size d /\ apart x x')
    noflt k.
Proof.
  intros Hn Hcap Hd Hnr Ht Hstart Hk Hnone.
  eapply wp_mono; [apply (wp_add_views n ntd i (nftl_size d) sz (w_mem (k_world k)) _ 0 k); try done | | done].
  - cbn. lia.
  - split; [intros b x Hx En | intros b x b' x' Hx _ _ En]; by destruct (Hnone b x Hx).
  - intros r k' [c [Hr Ha]] b x b' x' Hx Hx' Hne En En'.
    pose proof (Hr b x Hx En). split; [lia|]. split; [lia|]. split; [lia|]. by apply (Ha b x b' x').
Qed.

(** ** Serving a queue *)

(** What the driver relies on when a request is served: the translation layer
    answers, and touches nothing above it. *)
Definition above {D F} (k : kernel D F) :=
  (k_held k, blks k, disks k, tr k, nftl_devs k, ended k, queues k).
Class FtlServes {D F} (f : Ftl D F) : Prop := {
  fs_read : forall part s len buf (k : kernel D F),
    wp (__nand_read part s len buf) (fun _ k' => above k' = above k) noflt k;
  fs_write : forall part s len buf sync (k : kernel D F),
    wp (__nand_write part s len buf sync) (fun _ k' => above k' = above k) noflt k;
  fs_discard : forall part s len sync (k : kernel D F),
    wp (__nand_discard part s len sync) (fun _ k' => above k' = above k) noflt k
}.

Section Serving.
Context {D F : Type} `{Fo : !Ftl D F} `{!FtlServes Fo} (b n : Z).
Implicit Types k : kernel D F.

(** A block device on translation-layer device [n], with its disk. *)
Definition up k : Prop :=
  exists x d g, blks k !! b = Some x /\ blk_nftl_dev x = n /\ nftl_devs k !! n = Some d /\
    nftl_lock d = true /\ disks k !! disk (nbd x) = Some g.

(** From [k] to [k'] only the translation layer and its devices moved on. *)
Definition moved k k' : Prop :=
  k_held k' = k_held k /\ blks k' = blks k /\ disks k' = disks k /\ ended k' = ended k /\
  (forall d, nftl_devs k !! n = Some d -> exists d', nftl_devs k' !! n = Some d' /\ nftl_lock d' = nftl_lock d).
Lemma moved_refl k : moved k k.
Proof. split_and!; eauto. Qed.
Lemma moved_trans k1 k2 k3 : moved k1 k2 -> moved k2 k3 -> moved k1 k3.
Proof.
  intros (A1 & A2 & A3 & A4 & A5) (B1 & B2 & B3 & B4 & B5). split_and!; try congruence.
  intros d Hd. destruct (A5 d Hd) as (d' & Hd' & E). destruct (B5 d' Hd') as (d2 & ? & ?).
  exists d2. split; [done | congruence].
Qed.
Lemma moved_above k k' : above k' = above k -> moved k k'.
Proof.
  intros E. unfold above in E. injection E as E1 E2 E3 _ E4 E5 _. split_and!; try done.
  intros d Hd. exists d. by rewrite E4.
Qed.
Lemma up_moved k k' : moved k k' -> up k -> up k'.
Proof.
  intros (_ & E2 & E3 & _ & E5) (x & d & g & Hx & Hn & Hd & Hl & Hg).
  destruct (E5 d Hd) as (d' & Hd' & El). exists x, d', g. rewrite E2, E3. split_and!; congruence.
Qed.

(** Each step of serving a segment. *)
Definition steps {A} (m : kact D F A) : Prop :=
  forall k, up k -> wp m (fun _ => moved k) noflt k.
Lemma steps_ret {A} (a : A) : steps (mret a).
Proof. intros k Hk. apply wp_ret, moved_refl. Qed.
Lemma steps_bind {A B} (m : kact D F A) (h : A -> kact D F B) :
  steps m -> (forall a, steps (h a)) -> steps (mbind h m).
Proof.
  intros Hm Hh k Hk. apply wp_bind. eapply wp_mono; [by apply Hm | | done]. intros a k1 H1.
  eapply wp_mono; [apply Hh; apply (up_moved k); [exact H1 | exact Hk] | | done]. intros r k2 H2.
  exact (moved_trans k k1 k2 H1 H2).
Qed.
Lemma steps_nftl {A} (h : aml_nftl_dev -> kact D F A) : (forall d, steps (h d)) -> steps (d ← nftl n; h d).
Proof.
  intros Hh k Hk. pose proof Hk as (x & d & g & Hx & Hn & Hd & Hl & Hg).
  apply wp_bind, (wp_object _ _ d); [done|]. by apply Hh.
Qed.
Lemma steps_blk {A} (h : aml_nftl_blk -> kact D F A) :
  (forall x, blk_nftl_dev x = n -> steps (h x)) -> steps (x ← blk b; h x).
Proof.
  intros Hh k Hk. pose proof Hk as (x & d & g & Hx & Hn & Hd & Hl & Hg).
  apply wp_bind, (wp_object _ _ x); [done|]. by apply Hh.
Qed.
Lemma steps_upd_nftl g : (forall d, nftl_lock (g d) = nftl_lock d) -> steps (upd_nftl n g).
Proof.
  intros Hg k (x & d & g' & Hx & Hn & Hd & Hl & Hg'). apply (wp_upd_nftl _ _ d); [done|].
  split_and!; try done. intros d' Hd'. cbn. rewrite lookup_insert_eq. exists (g d). split; [done|].
  rewrite Hg. congruence.
Qed.
Lemma steps_ask : steps ask.
Proof. intros k Hk. apply wp_ask. intros r w. by apply moved_above. Qed.
Lemma steps_maps g : steps (modify (fun k => set_k_maps (g (k_maps k)) k)).
Proof. intros k Hk. apply wp_modify. by apply moved_above. Qed.

Lemma steps_stamp : steps (stamp n).
Proof. apply steps_bind; [apply steps_ask | intros t; by apply steps_upd_nftl]. Qed.
Lemma steps_blk_read s len buf : steps (_blk_nand_read b s len buf).
Proof.
  apply steps_blk. intros x ->. apply steps_nftl. intros d k Hk.
  eapply wp_mono; [apply fs_read | intros; by apply moved_above | done].
Qed.
Lemma steps_blk_write s len buf : steps (_blk_nand_write b s len buf).
Proof.
  apply steps_blk. intros x ->. apply steps_nftl. intros d.
  apply steps_bind; [|intros r; apply steps_bind; [apply steps_stamp | intros; apply steps_ret]].
  intros k Hk. eapply wp_mono; [apply fs_write | intros; by apply moved_above | done].
Qed.
Lemma steps_blk_discard s len : steps (_blk_nand_discard b s len).
Proof.
  apply steps_blk. intros x ->. apply steps_nftl. intros d.
  apply steps_bind; [|intros r; apply steps_bind; [apply steps_stamp | intros; apply steps_ret]].
  intros k Hk. eapply wp_mono; [apply fs_discard | intros; by apply moved_above | done].
Qed.
Lemma steps_sync_flag : steps (write_sync_flag b).
Proof.
  apply steps_blk. intros x ->. apply steps_bind; [by apply steps_upd_nftl | intros _u].
  destruct (starts_with _ _); [apply steps_ret|]. destruct (req x) as [r|]; [|apply steps_ret].
  unfold when_. destruct (_ && _); [by apply steps_upd_nftl | apply steps_ret].
Qed.
Lemma steps_segment t op pos bvec : steps (nftl_segment b t op pos bvec).
Proof.
  unfold nftl_segment. apply steps_bind; [apply (steps_maps (fun m => m + 1)) | intros _u].
  apply steps_bind; [|intros r; apply steps_bind; [apply (steps_maps (fun m => m - 1)) | intros; apply steps_ret]].
  destruct op; try apply steps_ret.
  - apply steps_bind; [apply steps_blk_read | intros; apply steps_ret].
  - apply steps_bind; [apply steps_sync_flag | intros _u'].
    apply steps_bind; [apply steps_blk_write | intros; apply steps_ret].
Qed.
Lemma steps_segments t op segs pos : steps (nftl_segments b t op pos segs).
Proof.
  revert pos. induction segs as [|s segs IH]; intros pos; cbn; [apply steps_ret|].
  apply steps_bind; [apply steps_segment | intros r]. destruct (truthy r); [apply steps_ret | apply IH].
Qed.

(** What runs under the lock of the device. *)
Lemma wp_locked {A B} (m : kact D F A) (g : A -> B) k :
  steps m -> up k -> NftlLock n ∉ k_held k ->
  wp (lock_nftl n ;; r ← m; unlock_nftl n ;; mret (g r)) (fun _ => moved k) noflt k.
Proof.
  intros Hm Hk Hl. pose proof Hk as (x & d & gd & Hx & Hn & Hd & Hld & Hg).
  apply wp_bind, wp_bind, (wp_object _ _ d); [done|]. rewrite Hld. apply wp_mutex_lock; [done|].
  apply wp_bind. eapply wp_mono; [apply Hm; by exists x, d, gd | | done].
  intros r k1 (E1 & E2 & E3 & E4 & E5). apply wp_bind.
  eapply wp_mutex_unlock; [exact E1 | done|]. by apply wp_ret.
Qed.

(** The block devices of a translation layer are served as [BlkDevs] asks. *)
#[export] Instance nftl_server hs : NftlLock n ∉ hs -> Server aml_nftl_tr b hs up.
Proof.
  intros Hn. split.
  - intros r k Hk Hh. assert (NftlLock n ∉ k_held k) as Hl
      by (rewrite Hh; by apply not_elem_of_cons).
    pose proof Hk as (x & d & g & Hx & En & Hd & Hld & Hg). cbn. apply wp_bind.
    eapply wp_mono with (Q := fun _ k' => up k' /\ k_held k' = k_held k /\ ended k' = ended k /\
      rq_list ∘ nbd <$> blks k' !! b = rq_list ∘ nbd <$> blks k !! b); [|intros; by apply wp_ret | done].
    apply wp_bind, (wp_object _ _ x); [done|]. rewrite En. apply wp_bind, (wp_object _ _ d); [done|].
    destruct (truthy (reboot_flag d)); [by apply wp_ret|]. apply wp_bind, wp_gets.
    apply wp_bind, (wp_object _ _ g); [done|]. destruct (_ <? _); [by apply wp_ret|].
    assert (forall k1 r' k', up k1 -> k_held k1 = k_held k -> ended k1 = ended k ->
      rq_list ∘ nbd <$> blks k1 !! b = rq_list ∘ nbd <$> blks k !! b -> moved k1 k' ->
      (fun (_ : Z) k' => up k' /\ k_held k' = k_held k /\ ended k' = ended k /\
        rq_list ∘ nbd <$> blks k' !! b = rq_list ∘ nbd <$> blks k !! b) r' k') as Hdone.
    { intros k1 r' k' Hk1 Eh Ee Eq Hm. split; [by eapply up_moved|].
      destruct Hm as (-> & -> & _ & -> & _). done. }
    destruct (_ || _).
    + eapply wp_mono; [apply (wp_locked _ (fun _ => 0)); [apply steps_blk_discard | done | done] | | done].
      intros r' k' Hm. by eapply (Hdone k).
    + apply wp_bind, (wp_upd_blk _ _ x); [done|]. set (k1 := set_blks _ k).
      assert (up k1) as Hk1.
      { exists (set_req (Some r) x), d, g. split_and!; try done. apply lookup_insert_eq. }
      eapply wp_mono; [apply (wp_locked _ (fun r => r) k1); [apply steps_segments | done | done] | | done].
      intros r' k' Hm. eapply (Hdone k1); try done. unfold k1. cbn. by rewrite lookup_insert_eq, Hx.
  - intros k l (x & d & g & H). by exists x, d, g.
  - intros k e (x & d & g & H). by exists x, d, g.
  - intros k q (x & d & g & H). by exists x, d, g.
  - intros k x q (x' & d & g & Hx' & En & Hd & Hl & Hg) Hx. assert (x' = x) as -> by congruence.
    exists (set_nbd (set_rq_list q (nbd x)) x), d, g. split_and!; try done. apply lookup_insert_eq.
Qed.
End Serving.

(** ** Removing a block device *)

Section Removing.
Context {D F : Type} (b : Z).
Implicit Types k : kernel D F.

(** The view is gone, and was looked at after that. *)
Definition used_freed (e : fault) k : Prop := e = NullDeref /\ blks k !! b = None.

Lemma wp_last_steps k (Q : unit -> kernel D F -> Prop) :
  (exists y, blks k !! b = Some y) -> b ∈ tr_devs (tr k) ->
  (forall k', blks k' !! b = None -> Q tt k') ->
  wp (list_del b ;; free_blk b) Q used_freed k.
Proof.
  intros [y Hy] Hin HQ. apply wp_bind, wp_bind, wp_gets. rewrite bool_decide_eq_true_2 by done.
  apply wp_modify, wp_bind, (wp_object _ _ y); [done|]. apply wp_modify, HQ. apply lookup_delete_eq.
Qed.
Lemma wp_release_dev x g k (Q : unit -> kernel D F -> Prop) :
  blks k !! b = Some x -> disks k !! disk (nbd x) = Some g -> b ∈ tr_devs (tr k) ->
  (forall k', blks k' !! b = None -> Q tt k') ->
  wp (blktrans_dev_release b) Q used_freed k.
Proof.
  intros Hx Hg Hin HQ. apply wp_bind, (wp_object _ _ x); [done|]. apply wp_bind.
  assert (forall k1, (exists y, blks k1 !! b = Some y) -> b ∈ tr_devs (tr k1) ->
    wp (when_ (truthy (tag_set (nbd x))) (upd_nbd b (set_tag_set 0)) ;; list_del b ;; free_blk b)
      Q used_freed k1) as Hend.
  { intros k1 [y Hy] Hin1. apply wp_bind. unfold when_.
    destruct (truthy _); [|by apply wp_ret, wp_last_steps; [exists y|..]].
    apply (wp_upd_blk _ _ y); [done|]. apply wp_last_steps; [|done..].
    cbn. rewrite lookup_insert_eq. eauto. }
  unfold put_disk. destruct (_ =? 0); [by apply wp_ret, Hend; [exists x|]|].
  apply wp_bind, (wp_object _ _ g); [done|]. destruct (_ =? 1).
  - apply wp_modify, Hend; [by exists x | done].
  - apply (wp_upd_disk _ _ g); [done|]. apply Hend; [by exists x | done].
Qed.

(** C32: removing a block device that nobody has open frees it with its last
    reference, and then reads the freed device. *)
Theorem remove_dev_use_after_free x g k :
  blks k !! b = Some x -> disks k !! disk (nbd x) = Some g -> kref (nbd x) = 1 ->
  b ∈ tr_devs (tr k) ->
  wp (aml_nftl_remove_dev b) (fun _ _ => False) used_freed k.
Proof.
  intros Hx Hg Href Hin. apply wp_bind, (wp_object _ _ x); [done|].
  apply wp_bind, wp_modify, wp_bind, wp_bind, (wp_object _ _ x); [done|].
  apply wp_bind, (wp_upd_disk _ _ g); [done|].
  apply wp_bind, wp_bind, (wp_upd_blk _ _ x); [done|].
  eapply wp_bind, wp_object; [apply lookup_insert_eq|]. cbn [nbd set_nbd kref set_kref].
  rewrite Href. eapply wp_release_dev.
  - apply lookup_insert_eq.
  - apply lookup_insert_eq.
  - done.
  - intros k' Hk'. apply wp_ret, wp_bind, wp_object_or; [congruence | done].
Qed.
End Removing.

(** ** A translation layer that writes down what it is asked *)
Module LogFtl.
#[local] Existing Instance IdealDev.hw.
#[local] Existing Instance IdealDev.ops.
#[local] Existing Instance NtdWitness.idr.
Abbreviation D := IdealDev.D.
Abbreviation F := (list (Z * Z * Z)).

Definition note (kind s len : Z) : kact D F Z :=
  modify (fun k => set_k_ftl (k_ftl k ++ [(kind, s, len)]) k) ;; mret 0.
(** A device of 100 sectors; its object is the device itself. *)
#[local] Instance ftl : Ftl D F := {|
  aml_nftl_start := fun n _ _ _ _ => mret (0, n);
  aml_nftl_set_status := fun _ _ => mret tt;
  aml_nftl_get_part_cap := fun _ => mret 100;
  aml_nftl_get_part_priv := fun part => mret part;
  aml_nftl_add_part_total_read := fun _ => mret tt;
  aml_nftl_add_part_total_write := fun _ => mret tt;
  aml_nftl_get_part_write_cache_nums := fun _ => mret 0;
  aml_nftl_erase_part := fun _ => mret 0;
  garbage_collect := fun _ => mret 0;
  do_prio_gc := fun _ => mret 0;
  __nand_read := fun _ s len _ => note 0 s len;
  __nand_write := fun _ s len _ _ => note 1 s len;
  __nand_discard := fun _ s len _ => note 2 s len;
  __nand_flush_write_cache := fun _ => note 3 0 0;
  __nand_flush_discard_cache := fun _ => mret 0;
  __nand_write_pair_page := fun _ => mret 0;
  __check_mapping := fun _ _ _ => mret 0;
  __discard_partition := fun _ _ _ => mret 0
|}.
#[local] Instance ftl_serves : FtlServes ftl.
Proof. by split. Defined.
#[local] Instance ftl_keeps : FtlKeepsBlocks ftl.
Proof. by split. Defined.

(** Two partitions: 40 sectors, and the rest. *)
Definition entry (s : string) (size : Z) : list Z :=
  take 16 (chars s ++ replicate 16 0) ++ le_bytes 8 size ++ le_bytes 8 0 ++ replicate 8 0.
Definition ptable : list Z := entry "system" 20480 ++ entry "media" ALL_ONES_64.
Definition board : world D := set_w_mem {[ 7 := ptable ]} IdealDev.start.
Definition disk1 : master :=
  mk_master (mk_phydev (chars "nfcode") 0 4096 8192 256 16 16 8 4 0 2 (Ptr 7 0) devops0) 0.
Definition k0 : kernel D F :=
  mk_kernel board [] [] 20 [1] {[ 1 := disk1 ]} ∅ [] ∅ 1 false [] 0
    (mk_tr AML_NFTL_MAJOR 0 512 0 [] false) ∅ ∅ [] [] 0 ∅ [] 0 0.

(** The NTD device is registered, the block devices appear, a write and a read
    are queued and answered. *)
Definition rq (tag : Z) (op : req_op) (pos n : Z) : request :=
  mk_request tag op false pos n [(Ptr 3 0, 512 * n)].
Definition session : kact D F unit :=
  r ← add_ntd_partitions 1;
  r ← init_aml_nftl 1 (PartFilter.c_str "all");
  t ← gets tr;
  let b := nth 1 (tr_devs t) 0 in
  r ← ntd_queue_rq b (rq 1 REQ_OP_WRITE 3 2);
  r ← ntd_queue_rq b (rq 2 REQ_OP_READ 59 1);
  r ← ntd_queue_rq b (rq 3 REQ_OP_READ 59 2);
  ntd_blktrans_work_fn aml_nftl_tr b.
Example session_runs :
  match session k0 with
  | Done _ k =>
      k_ftl k = [(1, 43, 2); (0, 99, 1)] /\ k_held k = [] /\ k_maps k = 0 /\ length (tr_devs (tr k)) = 2%nat /\
      ended k = [(rq 1 REQ_OP_WRITE 3 2, 0); (rq 2 REQ_OP_READ 59 1, 0); (rq 3 REQ_OP_READ 59 2, BLK_STS_IOERR)]
  | Fault _ _ => False
  end.
Proof. vm_compute. done. Qed.

(** A view of 60 sectors at sector 40 of device 9, with its disk. *)
Definition view : aml_nftl_blk :=
  mk_blk (mk_nbd 0 60 0 0 1 12 13 1 14 (chars "media") [rq 1 REQ_OP_WRITE 3 2]) (chars "media") 40 60 9 true None.
Definition gd : gendisk := mk_gendisk 11 60 false AML_NFTL_MAJOR 0 1 (chars "media") true 1.
Definition dev : aml_nftl_dev := mk_nftl 100 1 9 true 15 0 [] 0 1 0.
Definition k1 : kernel D F :=
  set_blks {[ 11 := view ]} (set_disks {[ 12 := gd ]} (set_nftl_devs {[ 9 := dev ]}
    (set_tr (mk_tr AML_NFTL_MAJOR 0 512 9 [11] true) k0))).
Lemma up1 : up 11 9 k1.
Proof. exists view, dev, gd. done. Qed.

Example requests_answered_in_order_witness :
  wp (queue_all 11 [rq 2 REQ_OP_READ 59 1] ;; ntd_blktrans_work_fn aml_nftl_tr 11)
    (fun _ k' => queue_of 11 k' = Some [] /\ k_held k' = [] /\
       exists res, length res = 2%nat /\
         ended k' = zip [rq 1 REQ_OP_WRITE 3 2; rq 2 REQ_OP_READ 59 1] res) noflt k1.
Proof.
  assert (Server aml_nftl_tr 11 [] (up 11 9)) as Hsv by (apply nftl_server, not_elem_of_nil).
  apply (requests_answered_in_order aml_nftl_tr 11 [] (up 11 9) [rq 1 REQ_OP_WRITE 3 2] [rq 2 REQ_OP_READ 59 1] k1);
    [discriminate | split; apply not_elem_of_nil | exact up1 | reflexivity | reflexivity].
Defined.

Example request_stays_in_view_witness :
  do_nftltrans_request (Fo := fence 40 100 ftl) 11 (rq 2 REQ_OP_READ 59 1) k1 =
  do_nftltrans_request (Fo := ftl) 11 (rq 2 REQ_OP_READ 59 1) k1.
Proof.
  apply (request_stays_in_view ftl 11 view gd (rq 2 REQ_OP_READ 59 1) k1);
    [reflexivity | cbn; lia | cbn; lia | reflexivity | cbn; lia | reflexivity |].
  split; cbn; [lia | lia | repeat constructor; cbn; lia | reflexivity].
Defined.

Example remove_dev_use_after_free_witness :
  wp (aml_nftl_remove_dev 11) (fun _ _ => False) (used_freed 11) k1.
Proof.
  apply (remove_dev_use_after_free 11 view gd k1); [reflexivity | reflexivity | reflexivity |].
  apply elem_of_cons. by left.
Defined.

(** The two partitions of the table above. *)
Definition info1 : ntd_info := new_slave 1 (m_phy disk1) 0.
Definition sz (j : Z) : Z := if j =? 0 then 20480 else ALL_ONES_64.
Definition k2 : kernel D F := set_infos {[ 5 := info1 ]} (set_nftl_devs {[ 9 := dev ]} k0).
Example views_disjoint_witness :
  wp (add_views 2 9 5 0 0)
    (fun _ k' => forall b x b' x', blks k' !! b = Some x -> blks k' !! b' = Some x' -> b <> b' ->
       blk_nftl_dev x = 9 -> blk_nftl_dev x' = 9 ->
       0 <= blk_offset x /\ 0 <= blk_size x /\ blk_offset x + blk_size x <= 100 /\ apart x x')
    noflt k2.
Proof.
  apply (views_disjoint 9 5 info1 dev sz k2); [discriminate | cbn; lia | reflexivity | cbn; lia | | | |].
  - split; [|intros j; unfold sz, ALL_ONES_64; destruct (j =? 0); lia].
    intros j Hj. cbn in Hj. assert (j = 0 \/ j = 1) as [-> | ->] by lia;
      eexists; (split; [vm_compute; reflexivity | reflexivity]).
  - intros j Hj. cbn in Hj. destruct j as [|[|j]]; [reflexivity | reflexivity | lia].
  - split; try reflexivity; cbn; try lia.
    + exists dev. split; reflexivity.
    + intros b x H. rewrite lookup_empty in H. discriminate.
    + intros g d H. rewrite lookup_empty in H. discriminate.
    + intros d H. by apply elem_of_nil in H.
    + apply not_elem_of_nil.
  - intros b x H. cbn in H. rewrite lookup_empty in H. discriminate.
Defined.
End LogFtl.
