(* ===== verification/Probe.v ===== *)
(** * Probe: [dev/amlnf_dev.c], the driver as the kernel sees it.

    The probe function brings the physical driver up, hands its devices to the
    logical layers and registers them; after that the kernel, the device files
    and the translation layer call the driver.  Here the two halves of the
    state come together, and a promise about the controller is lifted from the
    lower half to everything that can be asked of the driver. *)
From S2P Require Import Prelude NfcWords Data Machine Guards Ctrl HwController ChipOp RetryTables ChipEnv NewNand PageStore UbootEnv PhyDev Boot ChipInit PhyStore PhyLayout Driver LogicData Ntd BlkDevs Nftl.

Section Probe.
Context {D F : Type} `{!NandHw D} `{!ChipOperation D} `{Fo : !Ftl D F} `{Idr : IdrAlloc}.
Context (spin : nat) (amlnf_use_cache : Z) (amlnf_parts : PartFilter.cstring).
Abbreviation K := (kact D F).

(** ** The devices of the physical driver *)

(** The device is on [nphy_dev_list] from the end of its round in
    [amlnand_phydev_init]; it is cleared before, so its [flags] are 0. *)
Definition list_phydev (p : amlnand_phydev) : K unit :=
  m ← gets k_next;
  modify (fun k => set_k_next (m + 1) (set_nphy_dev_list (k.(nphy_dev_list) ++ [m])
    (set_masters (<[m := mk_master p 0]> k.(masters)) k))).
Fixpoint list_phydevs (devs : list amlnand_phydev) : K unit :=
  match devs with
  | [] => mret tt
  | p :: devs => list_phydev p ;; list_phydevs devs
  end.
Definition phy_init (flag : Z) : K Z :=
  r ← lift (amlnf_phy_init spin flag);
  list_phydevs r.(phy_devs) ;;
  mret r.(phy_ret).

Definition is_boot (p : amlnand_phydev) : bool := starts_with NAND_BOOT_NAME p.(name).

(** ** Handing them to the logical layers *)
Fixpoint logic_init_from (devs : list Z) (ret : Z) : K Z :=
  match devs with
  | [] => mret ret
  | m :: devs =>
      x ← object masters m;
      ret ← (if is_boot x.(m_phy) then r ← lift (boot_device_register x.(m_phy)); mret r.1
             else add_ntd_partitions m);
      if ret <? 0 then mret ret else logic_init_from devs ret
  end.
Definition amlnf_logic_init : K Z := devs ← gets nphy_dev_list; logic_init_from devs 0.

(** ** Registering them *)

(** The loop goes on from the device, which is freed when the kernel does not
    take it, and stays on the
    list.  The name of the class is copied whether there is memory or not. *)
Definition amlnf_pdev_register (m : Z) : K Z :=
  x ← object masters m;
  ret ← ask;
  if truthy ret then modify (fun k => set_masters (delete m k.(masters)) k) ;; mret ret
  else
    buf ← new_object;
    if buf =? 0 then throw NullDeref
    else ask.

Fixpoint dev_init_from (devs : list Z) : K Z :=
  match devs with
  | [] => ret ← ask; mret (if ret <? 0 then -1 else 0)
  | m :: devs =>
      x ← object masters m;
      if is_boot x.(m_phy) then dev_init_from devs
      else
        ret ← amlnf_pdev_register m;
        if ret <? 0 then mret ret else next ← object masters m; dev_init_from devs
  end.
Definition amlnf_dev_init : K Z := devs ← gets nphy_dev_list; dev_init_from devs.

(** ** The probe function *)

(** The steps after the mapping; the result is dropped. *)
Definition amlnf_start : K unit :=
  ret ← phy_init 0;
  if truthy ret then mret tt
  else
    ret ← amlnf_logic_init;
    if ret <? 0 then mret tt
    else
      ret ← amlnf_dev_init;
      if ret <? 0 then mret tt
      else r ← init_aml_nftl amlnf_use_cache amlnf_parts; mret tt.

Definition amlnf_init (p : NfcMap.platform) (s : NfcMap.nfc) : K (Z * NfcMap.nfc) :=
  modify (set_nphy_dev_list []) ;;
  let '(ret, s) := NfcMap.amlnf_map_nfc p s in
  if truthy ret then mret (ret, s) else amlnf_start ;; mret (0, s).

(** [amlnf_shutdown] over the devices of the list. *)
Fixpoint shutdown_from (devs : list Z) : K unit :=
  match devs with
  | [] => mret tt
  | m :: devs =>
      x ← object masters m;
      l ← lift (amlnf_shutdown [x.(m_phy)]);
      modify (fun k => set_masters (<[m := mk_master (hd x.(m_phy) l) x.(m_flags)]> k.(masters)) k) ;;
      shutdown_from devs
  end.
Definition shutdown : K unit := devs ← gets nphy_dev_list; shutdown_from devs.

(** ** What can be asked of the driver *)
Inductive stack_call :=
  | SProbe (p : NfcMap.platform) (s : NfcMap.nfc)
  | SShutdown
  | SDriver (c : driver_call)
  | SNtd (c : ntd_call)
  | SSuspend (n : Z)
  | SResume (n : Z)
  | SQueue (d : Z) (rq : request)
  | SWork (d : Z)
  | SOpen (g : Z)
  | SRelease (g : Z)
  | SGetgeo (g : Z)
  | SThread (n : Z)
  | SReboot (n : Z)
  | SWipe (b : Z)
  | SFtlRead (part : Z) (p : physic_op_par)
  | SFtlWrite (part : Z) (p : physic_op_par)
  | SFtlErase (part : Z) (p : physic_op_par)
  | SFtlIsGood (part : Z) (p : physic_op_par)
  | SFtlMarkBad (part : Z) (p : physic_op_par)
  | SCleanup.

Definition stack_do (c : stack_call) : K unit :=
  match c with
  | SProbe p s => r ← amlnf_init p s; mret tt
  | SShutdown => shutdown
  | SDriver c => lift (driver_do spin c)
  | SNtd c => ntd_step c
  | SSuspend n => r ← part_suspend n; mret tt
  | SResume n => part_resume n
  | SQueue d rq => r ← ntd_queue_rq d rq; mret tt
  | SWork d => ntd_blktrans_work_fn aml_nftl_tr d
  | SOpen g => r ← blktrans_open aml_nftl_tr g; mret tt
  | SRelease g => blktrans_release aml_nftl_tr g
  | SGetgeo g => r ← blktrans_getgeo aml_nftl_tr g; mret tt
  | SThread n => aml_nftl_thread_round n
  | SReboot n => r ← aml_nftl_reboot_notifier n; mret tt
  | SWipe b => r ← aml_nftl_wipe_part amlnf_use_cache b; mret tt
  | SFtlRead part p => r ← nand_read_page part p; mret tt
  | SFtlWrite part p => r ← nand_write_page part p; mret tt
  | SFtlErase part p => r ← nand_erase_superblk part p; mret tt
  | SFtlIsGood part p => r ← nand_is_blk_good part p; mret tt
  | SFtlMarkBad part p => r ← nand_mark_bad_blk part p; mret tt
  | SCleanup => r ← cleanup_aml_nftl; mret tt
  end.
Fixpoint stack_session (calls : list stack_call) : K unit :=
  match calls with
  | [] => mret tt
  | c :: calls => stack_do c ;; stack_session calls
  end.
End Probe.

(** ** What holds of the lower half, held by the whole *)
Definition lifted {D F} (R : world D -> world D -> Prop) (k k' : kernel D F) : Prop :=
  R k.(k_world) k'.(k_world).
#[export] Instance lifted_preorder {D F} (R : world D -> world D -> Prop) `{!PreOrder R} :
  PreOrder (lifted (F := F) R).
Proof.
  split; [intros k; unfold lifted; reflexivity|]. intros k1 k2 k3. unfold lifted. by etransitivity.
Qed.

(** The translation layer is linked to nothing but the driver: what it does to
    the rest of the state it does through the driver's functions.  Whatever
    relation its own state and these functions stay inside, it stays inside;
    what it tells of a part, it tells of its own state. *)
Class FtlCallsDriver {D F} `{!NandHw D} `{!ChipOperation D} (f : Ftl D F) : Prop := {
  ftl_tells : forall (R : kernel D F -> kernel D F -> Prop), PreOrder R ->
    (forall v k, R k (set_k_ftl v k)) ->
    (forall part, respects R (aml_nftl_get_part_priv part)) /\
    (forall part, respects R (aml_nftl_get_part_cap part)) /\
    (forall part, respects R (aml_nftl_add_part_total_read part)) /\
    (forall part, respects R (aml_nftl_add_part_total_write part)) /\
    (forall part, respects R (aml_nftl_get_part_write_cache_nums part)) /\
    (forall part v, respects R (aml_nftl_set_status part v));
  ftl_calls : forall (R : kernel D F -> kernel D F -> Prop), PreOrder R ->
    (forall v k, R k (set_k_ftl v k)) ->
    (forall m k, R k (set_k_world (set_w_mem m k.(k_world)) k)) ->
    (forall part p, respects R (nand_read_page part p)) ->
    (forall part p, respects R (nand_write_page part p)) ->
    (forall part p, respects R (nand_erase_superblk part p)) ->
    (forall part p, respects R (nand_is_blk_good part p)) ->
    (forall part p, respects R (nand_mark_bad_blk part p)) ->
    (forall n c i v w, respects R (aml_nftl_start n c i v w)) /\
    (forall part, respects R (aml_nftl_erase_part part)) /\
    (forall part, respects R (garbage_collect part)) /\
    (forall part, respects R (do_prio_gc part)) /\
    (forall part s n b, respects R (__nand_read part s n b)) /\
    (forall part s n b v, respects R (__nand_write part s n b v)) /\
    (forall part s n v, respects R (__nand_discard part s n v)) /\
    (forall part, respects R (__nand_flush_write_cache part)) /\
    (forall part, respects R (__nand_flush_discard_cache part)) /\
    (forall part, respects R (__nand_write_pair_page part)) /\
    (forall part o n, respects R (__check_mapping part o n)) /\
    (forall part o n, respects R (__discard_partition part o n))
}.

Section StackFrames.
Context {D F : Type} `{!NandHw D} `{ops : !ChipOperation D} `{Fo : !Ftl D F} `{Idr : IdrAlloc}.
Context (spin : nat) (amlnf_use_cache : Z) (amlnf_parts : PartFilter.cstring).
Context (R : world D -> world D -> Prop) `{!CmdFrame R} `{!ChipFrame R} `{!OpsRespect R ops}.
Context `{!FtlCallsDriver Fo}.
Abbreviation in_frame := (respects (lifted (D := D) (F := F) R)).

Lemma stays_lift {A} (m : act D A) : respects R m -> in_frame (lift m).
Proof. intros H k. specialize (H (k_world k)). unfold wp, lift in *. by destruct (m (k_world k)). Qed.
Lemma stays_modify f : (forall k, k_world (f k) = k_world k) -> in_frame (modify f).
Proof. intros H k. apply wp_modify. unfold lifted. rewrite H. reflexivity. Qed.
Lemma stays_object {A} (objs : kernel D F -> gmap Z A) x : in_frame (object objs x).
Proof. intros k. unfold wp, object. destruct (_ !! _); unfold lifted; reflexivity. Qed.
Lemma stays_ask : in_frame ask.
Proof. apply stays_lift, respects_kernel_call, _. Qed.
#[local] Hint Resolve stays_object stays_ask : respects.
#[local] Hint Extern 2 (respects _ (modify _)) => apply stays_modify; intros; reflexivity : respects.
#[local] Hint Extern 5 (PreOrder _) => typeclasses eauto : respects.

(** Steps of the logical layers. *)
Ltac stack_respects :=
  unfold upd_nbd, upd_info, upd_blk, upd_nftl, upd_disk, info, blk, nftl, new_object,
    new_object_err, kmap, kunmap, mutex_lock, mutex_unlock;
  repeat match goal with
  | |- respects _ (lift _) => apply stays_lift
  | |- respects _ (div_ _ _) => apply respects_div, _
  | |- respects _ (mod_ _ _) => apply respects_mod, _
  | _ => progress solve_respects
  end; try typeclasses eauto.

(** [ntd/]. *)
Lemma stays_on_master n req f : (forall p, respects R (f p)) -> in_frame (on_master n req f).
Proof. intros H. unfold on_master. stack_respects; apply H. Qed.
Lemma stays_read n page a b : in_frame (read_page_with_oob n page a b).
Proof. apply stays_on_master. intros. apply respects_nand_read; apply _. Qed.
Lemma stays_write n page a b : in_frame (write_page_with_oob n page a b).
Proof. apply stays_on_master. intros. apply respects_nand_write; apply _. Qed.
Lemma stays_erase n b : in_frame (part_erase n b).
Proof. apply stays_on_master. intros. apply respects_nand_erase; apply _. Qed.
Lemma stays_isbad n b : in_frame (part_block_isbad n b).
Proof.
  apply stays_on_master. intros. apply respects_bind; [apply _ | apply respects_isbad; apply _ |].
  intros. apply respects_ret, _.
Qed.
Lemma stays_markbad n b : in_frame (part_block_markbad n b).
Proof.
  apply stays_on_master. intros. apply respects_bind; [apply _ | apply respects_markbad; apply _ |].
  intros. apply respects_ret, _.
Qed.
#[local] Hint Resolve stays_read stays_write stays_erase stays_isbad stays_markbad : respects.

Lemma stays_for_each {L} (body : Z -> L -> kact D F (ctl L unit)) l :
  (forall n l, in_frame (body n l)) -> in_frame (ntd_for_each_device body l).
Proof. intros H. unfold ntd_for_each_device, __ntd_next_device. stack_respects; apply H. Qed.
#[local] Hint Extern 2 (respects _ (ntd_for_each_device _ _)) =>
  apply stays_for_each; intros; stack_respects : respects.
Lemma stays_get_ntd n num : in_frame (get_ntd_device n num).
Proof. unfold get_ntd_device, __get_ntd_device. stack_respects. Qed.
Lemma stays_put_ntd n : in_frame (put_ntd_device n).
Proof. unfold put_ntd_device, __put_ntd_device. stack_respects. Qed.
Lemma stays_add_ntd_device n : in_frame (add_ntd_device n).
Proof. unfold add_ntd_device, idr_alloc, init_once, init_ntd, idr_remove. stack_respects. Qed.
Lemma stays_del_ntd_device n : in_frame (del_ntd_device n).
Proof. unfold del_ntd_device, idr_remove. stack_respects. Qed.
#[local] Hint Resolve stays_get_ntd stays_put_ntd stays_add_ntd_device stays_del_ntd_device : respects.
Lemma stays_del_slaves m l err : in_frame (del_slaves m l err).
Proof.
  revert err. induction l as [|s l IH]; intros err; cbn [del_slaves]; unfold free_partition;
    stack_respects.
Qed.
#[local] Hint Resolve stays_del_slaves : respects.
Lemma stays_del_partitions m : in_frame (del_ntd_partitions m).
Proof. unfold del_ntd_partitions. stack_respects. Qed.
Lemma stays_check_boundary n z : in_frame (check_boundary n z).
Proof. unfold check_boundary, ntd_mod_by_eb, by_unit. stack_respects. Qed.
Lemma stays_count_bad n m : in_frame (count_bad_blocks n m).
Proof. unfold count_bad_blocks. stack_respects. Qed.
#[local] Hint Resolve stays_del_partitions stays_check_boundary stays_count_bad : respects.
Lemma stays_add_partitions m : in_frame (add_ntd_partitions m).
Proof. unfold add_ntd_partitions, allocate_partition. stack_respects. Qed.
#[local] Hint Resolve stays_add_partitions : respects.
Lemma stays_ntd_step c : in_frame (ntd_step c).
Proof. destruct c; cbn [ntd_step]; stack_respects. Qed.
#[local] Hint Resolve stays_ntd_step : respects.

(** [block/]: what the translation layer tells, what it calls, and then what it
    does. *)
Lemma stays_ftl v (k : kernel D F) : lifted R k (set_k_ftl v k).
Proof. unfold lifted. reflexivity. Qed.
Lemma stays_told :
  (forall part, in_frame (aml_nftl_get_part_priv part)) /\
  (forall part, in_frame (aml_nftl_get_part_cap part)) /\
  (forall part, in_frame (aml_nftl_add_part_total_read part)) /\
  (forall part, in_frame (aml_nftl_add_part_total_write part)) /\
  (forall part, in_frame (aml_nftl_get_part_write_cache_nums part)) /\
  (forall part v, in_frame (aml_nftl_set_status part v)).
Proof. apply ftl_tells; [apply _ | apply stays_ftl]. Qed.
Ltac told := destruct stays_told as (? & ? & ? & ? & ? & ?); auto.
Lemma stays_get_priv part : in_frame (aml_nftl_get_part_priv part).
Proof. told. Qed.
Lemma stays_get_cap part : in_frame (aml_nftl_get_part_cap part).
Proof. told. Qed.
Lemma stays_total_read part : in_frame (aml_nftl_add_part_total_read part).
Proof. told. Qed.
Lemma stays_total_write part : in_frame (aml_nftl_add_part_total_write part).
Proof. told. Qed.
Lemma stays_cache_nums part : in_frame (aml_nftl_get_part_write_cache_nums part).
Proof. told. Qed.
Lemma stays_set_status part v : in_frame (aml_nftl_set_status part v).
Proof. told. Qed.
#[local] Hint Resolve stays_get_priv stays_get_cap stays_total_read stays_total_write
  stays_cache_nums stays_set_status : respects.

Lemma stays_nand_read part p : in_frame (nand_read_page part p).
Proof. unfold nand_read_page, ntd_of_part. stack_respects. Qed.
Lemma stays_nand_write part p : in_frame (nand_write_page part p).
Proof. unfold nand_write_page, ntd_of_part. stack_respects. Qed.
Lemma stays_nand_erase part p : in_frame (nand_erase_superblk part p).
Proof. unfold nand_erase_superblk, ntd_of_part. stack_respects. Qed.
Lemma stays_is_good part p : in_frame (nand_is_blk_good part p).
Proof. unfold nand_is_blk_good, ntd_of_part. stack_respects. Qed.
Lemma stays_mark_bad part p : in_frame (nand_mark_bad_blk part p).
Proof. unfold nand_mark_bad_blk, ntd_of_part. stack_respects. Qed.
#[local] Hint Resolve stays_nand_read stays_nand_write stays_nand_erase stays_is_good
  stays_mark_bad : respects.

Lemma stays_mem m (k : kernel D F) : lifted R k (set_k_world (set_w_mem m k.(k_world)) k).
Proof. unfold lifted. apply frame_mem. Qed.
Ltac called := destruct (ftl_calls (lifted R) _ stays_ftl stays_mem stays_nand_read
  stays_nand_write stays_nand_erase stays_is_good stays_mark_bad)
  as (? & ? & ? & ? & ? & ? & ? & ? & ? & ? & ? & ?); auto.
Lemma stays_start n c i v w : in_frame (aml_nftl_start n c i v w).
Proof. called. Qed.
Lemma stays_erase_part part : in_frame (aml_nftl_erase_part part).
Proof. called. Qed.
Lemma stays_gc part : in_frame (garbage_collect part).
Proof. called. Qed.
Lemma stays_prio_gc part : in_frame (do_prio_gc part).
Proof. called. Qed.
Lemma stays_ftl_read part s n b : in_frame (__nand_read part s n b).
Proof. called. Qed.
Lemma stays_ftl_write part s n b v : in_frame (__nand_write part s n b v).
Proof. called. Qed.
Lemma stays_ftl_discard part s n v : in_frame (__nand_discard part s n v).
Proof. called. Qed.
Lemma stays_flush_write part : in_frame (__nand_flush_write_cache part).
Proof. called. Qed.
Lemma stays_flush_discard part : in_frame (__nand_flush_discard_cache part).
Proof. called. Qed.
Lemma stays_pair_page part : in_frame (__nand_write_pair_page part).
Proof. called. Qed.
Lemma stays_mapping part o n : in_frame (__check_mapping part o n).
Proof. called. Qed.
Lemma stays_discard_part part o n : in_frame (__discard_partition part o n).
Proof. called. Qed.
#[local] Hint Resolve stays_start stays_erase_part stays_gc stays_prio_gc stays_ftl_read stays_ftl_write
  stays_ftl_discard stays_flush_write stays_flush_discard stays_pair_page stays_mapping stays_discard_part : respects.

(** Devices and requests. *)
Ltac nftl_respects :=
  unfold _nand_flush_write_cache, _nand_flush_discard_cache, _nand_write_pair_page, _nand_read,
    _nand_write, _nand_discard, _check_mapping, _discard_partition, stamp, unlock_nftl; stack_respects.
Lemma stays_lock_nftl n : in_frame (lock_nftl n).
Proof. unfold lock_nftl. nftl_respects. Qed.
Lemma stays_blk_read b s n p : in_frame (_blk_nand_read b s n p).
Proof. unfold _blk_nand_read. nftl_respects. Qed.
Lemma stays_blk_write b s n p : in_frame (_blk_nand_write b s n p).
Proof. unfold _blk_nand_write. nftl_respects. Qed.
Lemma stays_blk_discard b s n : in_frame (_blk_nand_discard b s n).
Proof. unfold _blk_nand_discard. nftl_respects. Qed.
Lemma stays_blk_flush b : in_frame (_blk_nand_flush_write_cache b).
Proof. unfold _blk_nand_flush_write_cache. nftl_respects. Qed.
#[local] Hint Resolve stays_lock_nftl stays_blk_read stays_blk_write stays_blk_discard
  stays_blk_flush : respects.
Lemma stays_sync_flag b : in_frame (write_sync_flag b).
Proof. unfold write_sync_flag. nftl_respects. Qed.
#[local] Hint Resolve stays_sync_flag : respects.
Lemma stays_segment b t op pos v : in_frame (nftl_segment b t op pos v).
Proof. unfold nftl_segment. nftl_respects. Qed.
#[local] Hint Resolve stays_segment : respects.
Lemma stays_segments b t op pos segs : in_frame (nftl_segments b t op pos segs).
Proof. revert pos. induction segs; intros pos; cbn [nftl_segments]; nftl_respects. Qed.
#[local] Hint Resolve stays_segments : respects.
Lemma stays_request b r : in_frame (do_nftltrans_request b r).
Proof. unfold do_nftltrans_request. nftl_respects. Qed.
Lemma stays_flush b : in_frame (aml_nftl_flush b).
Proof. unfold aml_nftl_flush, aml_ntd_nftl_flush. nftl_respects. Qed.
Lemma stays_release_view b : in_frame (aml_nftl_release b).
Proof. unfold aml_nftl_release. nftl_respects. Qed.
Lemma stays_kthread_stop n : in_frame (kthread_stop n).
Proof. unfold kthread_stop. nftl_respects. Qed.
#[local] Hint Resolve stays_request stays_flush stays_release_view stays_kthread_stop : respects.
Lemma stays_thread n : in_frame (aml_nftl_thread_round n).
Proof. unfold aml_nftl_thread_round. nftl_respects. Qed.
Lemma stays_reboot n : in_frame (aml_nftl_reboot_notifier n).
Proof. unfold aml_nftl_reboot_notifier. nftl_respects. Qed.
Lemma stays_part_bytes p o n : in_frame (part_bytes p o n).
Proof. unfold part_bytes. nftl_respects. Qed.
#[local] Hint Resolve stays_thread stays_reboot stays_part_bytes : respects.
Lemma stays_discard_views fuel n j o i nm : in_frame (discard_views fuel n j o i nm).
Proof.
  revert j o. induction fuel; intros j o; cbn [discard_views];
    unfold part_size, part_offset, discard_mapped; nftl_respects.
Qed.
Lemma stays_debug_class i nm : in_frame (debug_class i nm).
Proof. unfold debug_class. nftl_respects. Qed.
#[local] Hint Resolve stays_discard_views stays_debug_class : respects.
Lemma stays_initialize n no : in_frame (aml_nftl_initialize amlnf_use_cache n no).
Proof. unfold aml_nftl_initialize. nftl_respects. Qed.
#[local] Hint Resolve stays_initialize : respects.
Lemma stays_wipe b : in_frame (aml_nftl_wipe_part amlnf_use_cache b).
Proof. unfold aml_nftl_wipe_part, aml_nftl_reinit_part. nftl_respects. Qed.

(** Block devices. *)
Ltac block_respects := unfold upd_tr, module_get, module_put, kref_get; nftl_respects.
Lemma stays_list_del d : in_frame (list_del d).
Proof. unfold list_del. block_respects. Qed.
Lemma stays_put_disk g : in_frame (put_disk g).
Proof. unfold put_disk. block_respects. Qed.
Lemma stays_free_blk d : in_frame (free_blk d).
Proof. unfold free_blk. block_respects. Qed.
#[local] Hint Resolve stays_wipe stays_list_del stays_put_disk stays_free_blk : respects.
Lemma stays_dev_put d : in_frame (kref_put d blktrans_dev_release).
Proof. unfold kref_put, blktrans_dev_release. block_respects. Qed.
Lemma stays_dev_get g : in_frame (blktrans_dev_get g).
Proof. unfold blktrans_dev_get. block_respects. Qed.
#[local] Hint Resolve stays_dev_put stays_dev_get : respects.
Lemma stays_work d : in_frame (ntd_blktrans_work_fn aml_nftl_tr d).
Proof.
  unfold ntd_blktrans_work_fn, ntd_blktrans_work, ntd_next_request, blk_mq_end_request, serve.
  cbn [tr_do_request aml_nftl_tr]. block_respects.
Qed.
Lemma stays_queue_rq d r : in_frame (ntd_queue_rq d r).
Proof. unfold ntd_queue_rq, queue_work. block_respects. Qed.
Lemma stays_open g : in_frame (blktrans_open aml_nftl_tr g).
Proof. unfold blktrans_open, blktrans_dev_put. cbn [tr_open aml_nftl_tr]. unfold aml_nftl_open. block_respects. Qed.
Lemma stays_release g : in_frame (blktrans_release aml_nftl_tr g).
Proof. unfold blktrans_release, blktrans_dev_put. cbn [tr_release aml_nftl_tr]. block_respects. Qed.
Lemma stays_getgeo g : in_frame (blktrans_getgeo aml_nftl_tr g).
Proof. unfold blktrans_getgeo, blktrans_dev_put. cbn [tr_getgeo aml_nftl_tr]. block_respects. Qed.
#[local] Hint Resolve stays_work stays_queue_rq stays_open stays_release stays_getgeo : respects.

(** Adding and removing them. *)
Lemma stays_with_numbers ds : in_frame (with_numbers ds).
Proof. induction ds; cbn [with_numbers]; block_respects. Qed.
Lemma stays_err_list n r : in_frame (err_list n r).
Proof. unfold err_list. block_respects. Qed.
#[local] Hint Resolve stays_with_numbers stays_err_list : respects.
Lemma stays_start_dev n : in_frame (start_dev aml_nftl_tr n).
Proof.
  unfold start_dev, start_queue, start_tags, start_disk, err_disk, err_set.
  cbn [tr_writesect aml_nftl_tr]. block_respects.
Qed.
#[local] Hint Resolve stays_start_dev : respects.
Lemma stays_add_dev n : in_frame (add_ntd_blktrans_dev aml_nftl_tr n).
Proof. unfold add_ntd_blktrans_dev. block_respects. Qed.
#[local] Hint Resolve stays_add_dev : respects.
Lemma stays_add_view n ntd p o : in_frame (add_view n ntd p o).
Proof. unfold add_view, part_name, part_size, aml_blktrans_initialize. block_respects. Qed.
#[local] Hint Resolve stays_add_view : respects.
Lemma stays_add_views fuel n ntd j o : in_frame (add_views fuel n ntd j o).
Proof. revert j o. induction fuel; intros j o; cbn [add_views]; unfold part_size; block_respects. Qed.
#[local] Hint Resolve stays_add_views : respects.
Lemma stays_add_ntd ntd : in_frame (aml_nftl_add_ntd amlnf_use_cache amlnf_parts ntd).
Proof. unfold aml_nftl_add_ntd, register_notifier, unregister_notifier. block_respects. Qed.
#[local] Hint Resolve stays_add_ntd : respects.
Lemma stays_init_nftl : in_frame (init_aml_nftl amlnf_use_cache amlnf_parts).
Proof. unfold init_aml_nftl, check_storage_device, register_ntd_blktrans. block_respects. Qed.
Lemma stays_remove_dev b : in_frame (aml_nftl_remove_dev b).
Proof.
  unfold aml_nftl_remove_dev, unregister_notifier, del_ntd_blktrans_dev, blktrans_dev_put. block_respects.
Qed.
#[local] Hint Resolve stays_init_nftl stays_remove_dev : respects.
Lemma stays_remove_all ds : in_frame (remove_all aml_nftl_remove_dev ds).
Proof. induction ds; cbn [remove_all]; block_respects. Qed.
#[local] Hint Resolve stays_remove_all : respects.
Lemma stays_cleanup : in_frame cleanup_aml_nftl.
Proof. unfold cleanup_aml_nftl, deregister_ntd_blktrans. block_respects. Qed.
#[local] Hint Resolve stays_cleanup : respects.

(** The probe function, and everything together. *)
Lemma stays_list_phydevs devs : in_frame (list_phydevs devs).
Proof. induction devs; cbn [list_phydevs]; unfold list_phydev; block_respects. Qed.
Lemma stays_boot_register p : respects R (boot_device_register p).
Proof. unfold boot_device_register. op_respects. Qed.
#[local] Hint Resolve stays_list_phydevs stays_boot_register : respects.
Lemma stays_logic_init devs ret : in_frame (logic_init_from devs ret).
Proof. revert ret. induction devs; intros ret; cbn [logic_init_from]; block_respects. Qed.
Lemma stays_dev_init devs : in_frame (dev_init_from devs).
Proof. induction devs; cbn [dev_init_from]; unfold amlnf_pdev_register; block_respects. Qed.
#[local] Hint Resolve stays_logic_init stays_dev_init : respects.
Lemma stays_init p nf : in_frame (amlnf_init spin amlnf_use_cache amlnf_parts p nf).
Proof.
  unfold amlnf_init, amlnf_start, phy_init, amlnf_logic_init, amlnf_dev_init. block_respects.
Qed.
Lemma stays_shutdown devs : in_frame (shutdown_from devs).
Proof. induction devs; cbn [shutdown_from]; block_respects. Qed.
#[local] Hint Resolve stays_init stays_shutdown : respects.
Lemma stays_suspend n : in_frame (part_suspend n).
Proof. unfold part_suspend. block_respects. Qed.
Lemma stays_resume n : in_frame (part_resume n).
Proof. unfold part_resume. block_respects. Qed.
#[local] Hint Resolve stays_suspend stays_resume : respects.
Lemma stays_stack_do c : in_frame (stack_do spin amlnf_use_cache amlnf_parts c).
Proof. destruct c; cbn [stack_do]; unfold shutdown; block_respects. Qed.
#[local] Hint Resolve stays_stack_do : respects.
Lemma stays_session calls : in_frame (stack_session spin amlnf_use_cache amlnf_parts calls).
Proof. induction calls; cbn [stack_session]; block_respects. Qed.
End StackFrames.

Section WholeDriver.
Context {D F : Type} `{!NandHw D} `{Idr : IdrAlloc} (spin depth : nat).
Context (amlnf_use_cache : Z) (amlnf_parts : PartFilter.cstring).
#[local] Instance chip_operations : ChipOperation D := operation spin depth.
Context `{Fo : !Ftl D F} `{!FtlCallsDriver Fo}.
Implicit Types k : kernel D F.

(** C1: with the module parameter [readonly] set, nothing that is asked of the
    driver, from the probe function on, through block devices, device files, the
    translation layer's own thread or the power management, ever makes it send
    the chip a command that programs or erases; not when something fails on the
    way, and not when the driver faults or does not come back. *)
Theorem readonly_whole_driver calls k :
  w_readonly (k_world k) <> 0 ->
  let harmless := fun k' : kernel D F =>
    exists l, w_log (k_world k') = l ++ w_log (k_world k) /\ Forall (fun c => programs c = false) l in
  wp (stack_session spin amlnf_use_cache amlnf_parts calls) (fun _ => harmless) (fun _ => harmless) k.
Proof.
  intros Hr harmless. pose proof (operation_guarded (D := D) spin depth) as Hops.
  eapply wp_mono; [apply (stays_session spin amlnf_use_cache amlnf_parts guarded) | |];
    intros ? k' (_ & _ & _ & Hl); by apply Hl.
Qed.
End WholeDriver.

(** ** A device the kernel does not take *)
Section Refused.
Context {D F : Type} `{!NandHw D} `{!ChipOperation D}.
Implicit Types k : kernel D F.

Lemma wp_ask_oracle (Q : Z -> kernel D F -> Prop) E k :
  let w := k_world k in
  Q (w_oracle w (w_calls w)) (set_k_world (set_w_calls (S (w_calls w)) w) k) -> wp ask Q E k.
Proof. done. Qed.

(** The first of [devs] that has been freed is looked at. *)
Lemma wp_shutdown_freed m before rest k :
  m ∉ before -> masters k !! m = None -> m ∈ nphy_dev_list k ->
  wp (shutdown_from (before ++ m :: rest)) (fun _ _ => False)
     (fun _ k' => m ∈ nphy_dev_list k' /\ masters k' !! m = None) k.
Proof.
  revert k. induction before as [|b before IH]; intros k Hb Hm Hl; cbn [app shutdown_from].
  - apply wp_bind, wp_object_or; [congruence | done].
  - apply not_elem_of_cons in Hb as [Hne Hb].
    apply wp_bind, wp_object_or; [intros x _ | done].
    apply wp_bind, wp_lift_any; [intros l w | done].
    apply wp_bind, wp_modify, IH; [done | | done]. cbn. by rewrite lookup_insert_ne.
Qed.

(** C40: a device the kernel refuses to register is freed, but stays on the list
    of devices: the shutdown function, which the kernel goes on to call since
    the probe function reports success, looks at the freed device. *)
Theorem refused_device_breaks_shutdown before m rest x k :
  nphy_dev_list k = before ++ m :: rest -> m ∉ before ->
  (forall b, b ∈ before -> exists y, masters k !! b = Some y /\ is_boot (m_phy y) = true) ->
  masters k !! m = Some x -> is_boot (m_phy x) = false ->
  w_oracle (k_world k) (w_calls (k_world k)) < 0 ->
  wp (ret ← amlnf_dev_init; shutdown) (fun _ _ => False)
     (fun _ k' => m ∈ nphy_dev_list k' /\ masters k' !! m = None) k.
Proof.
  intros Hl Hb Hboot Hm Hx Hor. apply wp_bind, wp_bind, wp_gets. rewrite Hl.
  assert (forall l k', masters k' = masters k -> k_world k' = k_world k -> nphy_dev_list k' = nphy_dev_list k ->
    (forall b, b ∈ l -> b ∈ before) ->
    wp (dev_init_from (l ++ m :: rest)) (fun _ => wp shutdown (fun _ _ => False)
      (fun _ k' => m ∈ nphy_dev_list k' /\ masters k' !! m = None))
      (fun _ k' => m ∈ nphy_dev_list k' /\ masters k' !! m = None) k') as H.
  { induction l as [|b l IH]; intros k' Em Ew El Hin; cbn [app dev_init_from].
    - apply wp_bind, (wp_object _ _ x); [congruence|]. rewrite Hx.
      apply wp_bind, wp_bind, (wp_object _ _ x); [congruence|].
      apply wp_bind, wp_ask_oracle. rewrite Ew.
      assert (truthy (w_oracle (k_world k) (w_calls (k_world k))) = true) as ->
        by (unfold truthy; apply negb_true_iff, Z.eqb_neq; lia).
      apply wp_bind, wp_modify, wp_ret. rewrite (proj2 (Z.ltb_lt _ _)) by done.
      apply wp_ret, wp_bind, wp_gets. cbn. rewrite El, Hl.
      apply wp_shutdown_freed; [done | apply lookup_delete_eq|]. cbn.
      rewrite El, Hl. apply elem_of_app. right. apply elem_of_cons. by left.
    - destruct (Hboot b) as (y & Hy & By); [apply Hin, elem_of_cons; by left|].
      apply wp_bind, (wp_object _ _ y); [congruence|]. rewrite By.
      apply IH; [done..|]. intros b' Hb'. apply Hin, elem_of_cons. by right. }
  by apply H.
Qed.
End Refused.

Module ProbeWitness.
#[local] Existing Instance DriverWitness.hw.
#[local] Existing Instance NtdWitness.idr.
#[local] Instance chip_ops : ChipOperation unit := operation 3 1.

(** A translation layer without a cache: sectors are pages of block 0.  Its
    state counts the sectors written.  The device is its own part. *)
Definition page_of (s : Z) (b : ptr) : physic_op_par := mk_par s 0 b Null.
Definition count (n : Z) : kact unit Z unit := modify (fun k => set_k_ftl (k_ftl k + n) k).
Definition told_ftl : Ftl unit Z := {|
  aml_nftl_start := fun n _ _ _ _ => mret (0, n);
  aml_nftl_set_status := fun _ _ => mret tt;
  aml_nftl_get_part_cap := fun _ => mret 100;
  aml_nftl_get_part_priv := fun part => mret part;
  aml_nftl_add_part_total_read := fun _ => mret tt;
  aml_nftl_add_part_total_write := fun _ => count 1;
  aml_nftl_get_part_write_cache_nums := fun _ => mret 0;
  aml_nftl_erase_part := fun _ => mret 0;
  garbage_collect := fun _ => mret 0;
  do_prio_gc := fun _ => mret 0;
  __nand_read := fun _ _ _ _ => mret 0;
  __nand_write := fun _ _ _ _ _ => mret 0;
  __nand_discard := fun _ _ _ _ => mret 0;
  __nand_flush_write_cache := fun _ => mret 0;
  __nand_flush_discard_cache := fun _ => mret 0;
  __nand_write_pair_page := fun _ => mret 0;
  __check_mapping := fun _ _ _ => mret 0;
  __discard_partition := fun _ _ _ => mret 0
|}.
#[local] Instance ftl : Ftl unit Z := {|
  aml_nftl_start := fun n _ _ _ _ => mret (0, n);
  aml_nftl_set_status := fun _ _ => mret tt;
  aml_nftl_get_part_cap := fun _ => mret 100;
  aml_nftl_get_part_priv := fun part => mret part;
  aml_nftl_add_part_total_read := fun _ => mret tt;
  aml_nftl_add_part_total_write := fun _ => count 1;
  aml_nftl_get_part_write_cache_nums := fun _ => mret 0;
  aml_nftl_erase_part := fun part => nand_erase_superblk (Fo := told_ftl) part (page_of 0 Null);
  garbage_collect := fun _ => mret 0;
  do_prio_gc := fun _ => mret 0;
  __nand_read := fun part s _ b => nand_read_page (Fo := told_ftl) part (page_of s b);
  __nand_write := fun part s _ b _ => nand_write_page (Fo := told_ftl) part (page_of s b);
  __nand_discard := fun _ _ _ _ => mret 0;
  __nand_flush_write_cache := fun _ => mret 0;
  __nand_flush_discard_cache := fun _ => mret 0;
  __nand_write_pair_page := fun _ => mret 0;
  __check_mapping := fun _ _ _ => mret 0;
  __discard_partition := fun _ _ _ => mret 0
|}.
#[local] Instance ftl_calls_driver : FtlCallsDriver ftl.
Proof.
  split.
  - intros R HR Hf. split_and!; intros; try (apply respects_ret, HR).
    apply respects_modify. intros. apply Hf.
  - intros R HR Hf Hm Hread Hwrite Herase _ _.
    split_and!; intros; first [apply respects_ret, HR | apply Herase | apply Hread | apply Hwrite].
Qed.

(** The physical device 1, its NTD device 2, and device 3 of the translation
    layer on top of it; the driver may not program the chip. *)
Definition ntd2 : ntd_info := new_slave 1 DriverWitness.dev 0.
Definition nftl3 : aml_nftl_dev := mk_nftl 100 2 3 true 15 0 [] 0 1 0.
Definition stack0 : kernel unit Z :=
  mk_kernel DriverWitness.locked_out 0 [] 20 [1] {[ 1 := mk_master DriverWitness.dev 0 ]} {[ 2 := ntd2 ]} []
    ∅ 1 false [] 0 (mk_tr AML_NFTL_MAJOR 0 512 0 [] false) ∅ ∅ [] [] 0 {[ 3 := nftl3 ]} [] 0 0.
Definition all : PartFilter.cstring := PartFilter.c_str "all".

(** The translation layer writes a page: it is refused. *)
Example layer_refused :
  match stack_session 3 1 all [SFtlWrite 3 (page_of 0 Null)] stack0 with
  | Done _ k => (w_refused (k_world k), k_ftl k, length (w_log (k_world k)))
  | Fault f k => (-1, 0, O)
  end = (1, 1, O).
Proof. vm_compute. reflexivity. Qed.

Definition calls : list stack_call := [SFtlWrite 3 (page_of 0 Null); SThread 3; SShutdown].
Example readonly_whole_driver_witness :
  let harmless := fun k' : kernel unit Z =>
    exists l, w_log (k_world k') = l ++ w_log (k_world stack0) /\
      Forall (fun c => programs c = false) l in
  w_readonly (k_world stack0) <> 0 /\
  wp (stack_session 3 1 all calls) (fun _ => harmless) (fun _ => harmless) stack0.
Proof.
  split; [discriminate|].
  exact (readonly_whole_driver 3 1 1 all calls stack0 ltac:(discriminate)).
Defined.

(** The kernel refuses everything. *)
Definition refusing : kernel unit Z :=
  set_k_world (set_w_oracle (fun _ => -1) DriverWitness.locked_out) stack0.
Example refused_device_breaks_shutdown_witness :
  w_oracle (k_world refusing) (w_calls (k_world refusing)) < 0 /\
  wp (ret ← amlnf_dev_init; shutdown) (fun _ _ => False)
     (fun _ k' => 1 ∈ nphy_dev_list k' /\ masters k' !! 1 = None) refusing.
Proof.
  split; [reflexivity|].
  apply (refused_device_breaks_shutdown [] 1 [] (mk_master DriverWitness.dev 0));
    [reflexivity | by intros ?%elem_of_nil | by intros b ?%elem_of_nil | reflexivity | reflexivity
     | reflexivity].
Defined.
End ProbeWitness.
